(* ===== verification/_CoqProject ===== *)
-Q . S2P
Prelude.v
BookingText.v
Encodings.v
Models.v
Database.v
Statements.v
Conversations.v
EphemeralPii.v
ReplyPlans.v
Outbound.v
SelfBooking.v
Messages.v
Mirror.v
ReplyText.v
BookingFields.v
VkClient.v
BookingCreate.v
PiiAdmission.v
Projections.v
Inbound.v
ManagerMessages.v
VkObserver.v
Bindings.v
SelfBookingExecution.v
HandoffExpiry.v
ReplyDispatch.v
VkGate.v
IngressQueue.v
Ingress.v
IngressWorker.v
Arbiter.v
Dialog.v
Moves.v
Frames.v
EncodingProofs.v
PiiProofs.v
ManagerProofs.v
DispatchProofs.v
ClaimProofs.v
ArbiterProofs.v
ExpiryProofs.v
InboundProofs.v
History.v
IngressProofs.v
AdapterProofs.v
VkProofs.v
AmocrmProofs.v
Progress.v
SelfBookingProofs.v
System.v
Commands.v
Handoff.v
TextProofs.v
Fresh.v
Returns.v
ReturnsPlans.v
ReturnsWorkers.v
ReturnsIngress.v
WorkerProofs.v
Scenario.v
SelfBookingScenario.v
IngressScenario.v
SystemTheorems.v
TransactionTheorems.v
WorkerTheorems.v
IngressTheorems.v
TextTheorems.v
VkTextTheorems.v
PiiTheorems.v
AdmissionTheorems.v
SelfBookingTheorems.v
