(* ===== verification/Prelude.v ===== *)
(** * bot-TV: the dialog transaction engine

    A verification of the server that answers the clients of a salon and steps
    aside for its staff (src/app, Python, asyncio and SQLAlchemy on PostgreSQL).
    Client messages, messages of staff, a booking service, a CRM and the VK
    network meet in one database; what makes the program correct is that every
    piece of work is tied to the state of its dialog by three counters (context
    version, manager epoch, event number: the fences), that work is done under
    leases, and that nothing reaches a client once a person took over.  The
    development models the code that reads and writes those tables and proves
    that.

    ** The program and its model

    A request handler or worker runs short database transactions with calls to
    the outside between them.  A transaction body is a [Session A], a state and
    error monad over [Database]; [session_scope] commits or restores.  A worker is
    a [Process A], which between its transactions sees the database changed by
    anybody ([Interference]) and talks to the outside through parameters that
    answer by call number.  The pieces, in the order of _CoqProject:

    - Prelude: this header; field update, the result and state monads, JSON, text,
      the hint database [respects] and shared lemmas.
    - BookingText: validators of dates, times, UUID texts and slot identifiers of
      app/core/booking_availability_remote.py, booking_create_remote.py,
      self_booking_*_types.py.
    - Models: the rows, enums, transition tables and CHECK constraints of
      app/models/*.py, one Record per table.
    - Database: tables as finite maps with their UNIQUE, CHECK and foreign key
      constraints, the statements the repositories emit, the statement clock of
      app/db/clock.py, transactions of app/db/session.py.  Statements: rules for
      them.
    - Conversations, ReplyPlans, Outbound, Messages, Mirror, Projections,
      IngressQueue, Bindings, SelfBooking: app/repositories/*.py, one Definition
      per routine under the routine's name (and the services that only wrap them:
      amocrm_mirror.py, self_booking_active_offer.py,
      self_booking_confirm_admission.py).
    - Inbound (services/inbound.py), ManagerMessages (manager_messages.py,
      takeover.py), HandoffExpiry (handoff_expiry.py), ReplyDispatch
      (reply_outbound.py, vk_client_outbound_proof.py), Arbiter
      (outbound_arbiter.py, synthetic_outbound.py), VkGate (core/outbound_policy.py,
      channels/vk_client_outbound_config.py), BookingFields and ReplyText
      (booking_synthetic.py, outbound_reply_text.py).
    - VkClient (channels/vk_client_types.py, _webhook.py, _outbound_provenance.py),
      VkObserver (vk_client_inbound.py, vk_client_message_reply.py), Ingress
      (ingress.py, vk_client_ingress.py, amocrm_manager_ingress.py: the receiving
      side) and IngressWorker (ingress.py: the applying side, vk_client_http.py).
    - Encodings: URL-safe base64, UTF-8, SHA-256 and HMAC.  EphemeralPii
      (core/ephemeral_pii_*.py, repositories/ephemeral_pii.py,
      services/ephemeral_pii_store.py): references, keys, sealing and the store of
      personal data.  PiiAdmission (self_booking_pii_admission.py, pii_admission_mac*.py,
      normalize_phone_e164): admitting a client's phone and name under a request.
    - BookingCreate (core/booking_create_remote.py, booking_create_http.py and the
      confirmation in services/booking_flow.py) and SelfBookingExecution
      (self_booking_create_execution.py, its worker and tick): a confirmed command
      is claimed, its client's data read, the booking created by one call, the
      outcome recorded.  That transaction contains the call: its body is a [Within],
      a computation on the world, and a rollback does not take the call back.

    How they interact: a webhook or a test route stores an ingress event
    ([Ingress]); the ingress worker claims it and applies it in one transaction
    that also completes it ([IngressWorker]) to a dialog: a client message
    ([Inbound], [VkObserver]) supersedes open work and plans a reply; a message of
    staff ([ManagerMessages], [VkObserver]) moves the dialog into the handoff and
    revokes the bot's work; the expiry worker hands it back ([HandoffExpiry]).  The
    plan worker claims a plan and dispatches it to an outbox row ([ReplyDispatch]),
    around one call of the booking flow for a booking; the arbiter admits the row
    against the dialog's current fences, tells it to the client and records the
    delivery ([Arbiter]), after which offers, mirror jobs and chat projections are
    enqueued ([SelfBooking], [Mirror], [Projections]).

    ** The proofs

    - Dialog: the invariant of the five dialog tables; Moves, Frames: what routines
      leave alone.  ManagerProofs, DispatchProofs, ClaimProofs, ArbiterProofs,
      ExpiryProofs, InboundProofs, IngressProofs, AdapterProofs, VkProofs,
      AmocrmProofs: a weakest-precondition specification per transaction, from the
      invariant to the invariant and the effect.
    - History: a relation every transaction respects, whatever it does.  System: a
      run is any sequence of transactions of any services and workers; the
      invariant and the history along runs.  Handoff: the abstract handoff machine
      the system refines.
    - Fresh, Progress, Returns, ReturnsPlans, ReturnsWorkers, ReturnsIngress: the
      transactions raise nothing on databases whose counters have room.
    - WorkerProofs: workers under interference.  TextProofs: texts and payloads.
    - Scenario, IngressScenario: reachable databases, run by the definitions, at
      which the theorems are instantiated.
    - EncodingProofs: decoding inverts encoding, lengths of digests.  PiiProofs: the
      store's routines.  SelfBookingProofs: one execution; Commands: commands along
      runs, and runs with the log of what was sent for which command.
      SelfBookingScenario: a self-booking, executed.

    The theorems: SystemTheorems, what holds in every reachable database and along
    every run (constraints and fences, revocation is final, the booking flow is
    called once per plan, refinement of the handoff machine); TransactionTheorems,
    what each transaction does, when it is refused and when it must return;
    WorkerTheorems, what workers tell the outside; IngressTheorems, events from the
    webhook to their single effect; TextTheorems and VkTextTheorems, round trips of
    identifiers, booking results and provenance markers, and the webhook's door.
    PiiTheorems: tokens, and what was stored is read back by whom and until when;
    AdmissionTheorems: an admission is idempotent; SelfBookingTheorems: what an
    execution does, what is sent for a command in a whole run, and the command
    nobody takes again.

    ** Conventions and bounds

    - Rows locked by others: [env_locked] says which, FOR UPDATE SKIP LOCKED skips
      them; other locking waits, so transactions on a row are serialised and a run
      is their sequence.  ORDER BY ties are broken by key order.  SQLAlchemy's
      identity map is the table itself: an object is re-read where the code
      refreshes it.
    - A driver error aborts the transaction, except under a savepoint; a caught
      error restores what the code restores.
    - Integers of columns are Z with their width in the CHECK constraints
      ([int4_max], [int8_max]); a statement that would exceed it raises, and
      theorems that a transaction returns ask for room.  JSON numbers are integers.
      Strings are sequences of code points below 256; Cyrillic constants are kept as
      their UTF-8 bytes; the length limits of varchar columns are not modelled.
      Timestamps are microseconds.
    - uuid4 draws from a counter ([db_uuid_supply]) mapped to version 4 UUIDs, so
      it is fresh while fewer than 2^122 were drawn.
    - Loops are structural: a tick is bounded by its [max_items], texts by their
      length.  The fuel of [dec_digits] is the number of bits of the number and that
      of [str_remove] the length of the text; both are enough ([dec_digits_spec];
      every step consumes a character).
    - Code that is not under src/ is a parameter: json.loads, HMAC and ISO
      timestamps of the VK modules ([PyLib]), pydantic's validation of a booking
      fixture ([BookingInputModel]), AES-GCM and random bytes ([CryptoLib], with its
      laws [CryptoLaws]), JSON bytes and urlsplit ([WireLib]), the HTTP transport.
      Code under src/ the model sees only through one call is a parameter too: the
      booking flow's resolver, the VK sender, the CRM adapter, the lookup of a
      client's reference ([ClientRefResolver]).
    - Random bytes are numbered by the same counter as UUIDs; that a drawn reference
      is not in use is a hypothesis where a theorem needs it.  The personal data
      store's own sessions run as statements of the transaction that calls it.
    - [manager_activity_values] and [insert_outbound_if_absent] hold the common text
      of two routines each; the range check of a service's constructor is made when
      its operation starts; logging is left out.

    ** Not modelled

    The columns direction, message_type and the consent flags, which are constants
    or never read, and the foreign key to canonical identities.  The search
    for free slots and its HTTP clients, the VK and CRM transports and OAuth, the
    redaction of logs, attachments on disk, the masters' channel, analytics, text
    generation, process supervision and routers:
    they do not write the dialog's tables, or do it only through the modelled
    services.  Settings keeps the two fields the gates read; from_env and load_*
    functions are left out. *)

From Stdlib Require Export ZArith NArith Lia Bool Ascii String.
From stdpp Require Export base tactics option list strings numbers gmap fin_maps.

#[global] Open Scope Z_scope.

(** ** Field update

    [r <| fld := v |>] and [r <| fld ::= f |>] rebuild a record with one field
    changed.  A record opts in with an [Eta] instance naming its expansion. *)

Declare Scope row_scope.
Delimit Scope row_scope with row.
#[global] Open Scope row_scope.

Class Eta (R : Type) := eta_expand : R -> R.
Class FieldSetter {R T : Type} (fld : R -> T) := field_set : (T -> T) -> R -> R.

Ltac derive_field_setter :=
  lazymatch goal with
  | |- @FieldSetter ?R ?T ?fld =>
      let inst := constr:(_ : Eta R) in
      let whole := eval hnf in inst in
      lazymatch (eval pattern fld in whole) with
      | ?ctx _ =>
          let setter := eval cbv beta in
            (fun (f : T -> T) => ctx (fun r : R => f (fld r))) in
          exact setter
      end
  end.

#[export] Hint Extern 1 (FieldSetter _) => derive_field_setter : typeclass_instances.

Notation "r <| fld ::= f |>" := (field_set (fld := fld) f r)
  (at level 1, left associativity, fld at level 0, format "r  <|  fld  ::=  f  |>") : row_scope.
Notation "r <| fld := v |>" := (field_set (fld := fld) (fun _ => v) r)
  (at level 1, left associativity, fld at level 0, format "r  <|  fld  :=  v  |>") : row_scope.

(** ** Python exceptions

    An exception is its class (what an [except] clause matches and what
    [type(exc).__name__] yields) and its single message argument. *)

Inductive exc_class :=
  | RuntimeError
  | ValueError
  | IntegrityError
  | InvalidRequestError
  | DBAPIError
  | MirrorPayloadViolation
  | ReplyPlanStateError
  | StaleReplyPlanLeaseError
  | OutboundStateError
  | StaleOutboundLeaseError
  | AmoCrmMirrorStateError
  | StaleAmoCrmMirrorLeaseError
  | IngressStateError
  | StaleIngressLeaseError
  | HandoffExpiryInvariantError
  | OutboundArbiterDenied
  | OutboundReplyTextError
  | AmoCrmMirrorRejected
  | ValidationError
  | TypeError
  | AmocrmChatBindingAmbiguousError
  | IngressPersistError
  | IngressIdempotencyConflict
  | VkClientIngressIdempotencyConflict
  | VkClientMessageReplyOwnEchoRace
  | AssertionError
  | OverflowError
  | BookingCreateHttpError
  | BookingDomainError
  | BookingEligibilityHttpError
  | BookingAvailabilityHttpError
  | EphemeralPiiError
  | PiiAdmissionMacError
  | PiiAdmissionError
  | ConcurrentAdmission
  | IdentityResolutionError.

#[export] Instance exc_class_eq_dec : EqDecision exc_class.
Proof. solve_decision. Defined.

Record exn := Exn { exn_class : exc_class; exn_message : string }.

#[export] Instance exn_eq_dec : EqDecision exn.
Proof. solve_decision. Defined.

(** [type(exc).__name__] *)
Definition class_name (c : exc_class) : string :=
  match c with
  | RuntimeError => "RuntimeError"
  | ValueError => "ValueError"
  | IntegrityError => "IntegrityError"
  | InvalidRequestError => "InvalidRequestError"
  | DBAPIError => "DBAPIError"
  | MirrorPayloadViolation => "MirrorPayloadViolation"
  | ReplyPlanStateError => "ReplyPlanStateError"
  | StaleReplyPlanLeaseError => "StaleReplyPlanLeaseError"
  | OutboundStateError => "OutboundStateError"
  | StaleOutboundLeaseError => "StaleOutboundLeaseError"
  | AmoCrmMirrorStateError => "AmoCrmMirrorStateError"
  | StaleAmoCrmMirrorLeaseError => "StaleAmoCrmMirrorLeaseError"
  | IngressStateError => "IngressStateError"
  | StaleIngressLeaseError => "StaleIngressLeaseError"
  | HandoffExpiryInvariantError => "HandoffExpiryInvariantError"
  | OutboundArbiterDenied => "OutboundArbiterDenied"
  | OutboundReplyTextError => "OutboundReplyTextError"
  | AmoCrmMirrorRejected => "AmoCrmMirrorRejected"
  | ValidationError => "ValidationError"
  | TypeError => "TypeError"
  | AmocrmChatBindingAmbiguousError => "AmocrmChatBindingAmbiguousError"
  | IngressPersistError => "IngressPersistError"
  | IngressIdempotencyConflict => "IngressIdempotencyConflict"
  | VkClientIngressIdempotencyConflict => "VkClientIngressIdempotencyConflict"
  | VkClientMessageReplyOwnEchoRace => "VkClientMessageReplyOwnEchoRace"
  | AssertionError => "AssertionError"
  | OverflowError => "OverflowError"
  | BookingCreateHttpError => "BookingCreateHttpError"
  | BookingDomainError => "BookingDomainError"
  | BookingEligibilityHttpError => "BookingEligibilityHttpError"
  | BookingAvailabilityHttpError => "BookingAvailabilityHttpError"
  | EphemeralPiiError => "EphemeralPiiError"
  | PiiAdmissionMacError => "PiiAdmissionMacError"
  | PiiAdmissionError => "PiiAdmissionError"
  | ConcurrentAdmission => "_ConcurrentAdmission"
  | IdentityResolutionError => "IdentityResolutionError"
  end.

(** ** The session monad

    A database session computation reads its environment [E] (clock,
    configuration, locks held elsewhere), updates the store [S] and either
    returns a value or raises.  A raise keeps the store it happened in: undoing
    the store is the job of the transaction scope, as it is in the code. *)

Inductive result (A : Type) :=
  | Returned (a : A)
  | Raised (e : exn).
Arguments Returned {A} a.
Arguments Raised {A} e.

Definition M (E S A : Type) : Type := E -> S -> result A * S.

Section Monad.
Context {E S : Type}.

#[global] Instance M_ret : MRet (M E S) := fun A a env s => (Returned a, s).

#[global] Instance M_bind : MBind (M E S) := fun A B k m env s =>
  match m env s with
  | (Returned a, s') => k a env s'
  | (Raised e, s') => (Raised e, s')
  end.

Definition raise {A} (c : exc_class) (message : string) : M E S A :=
  fun _ s => (Raised (Exn c message), s).

Definition get_env : M E S E := fun env s => (Returned env, s).
Definition get_state : M E S S := fun _ s => (Returned s, s).
Definition put_state (s : S) : M E S unit := fun _ _ => (Returned tt, s).

(** [try: m except <handled>: handler] *)
Definition try_except {A} (m : M E S A) (handled : exn -> bool)
    (handler : exn -> M E S A) : M E S A := fun env s =>
  match m env s with
  | (Returned a, s') => (Returned a, s')
  | (Raised e, s') => if handled e then handler e env s' else (Raised e, s')
  end.

(** [if condition: body] with nothing after [else]. *)
Definition when (condition : bool) (body : M E S unit) : M E S unit :=
  if condition then body else mret tt.

(** [if not condition: raise c(message)] *)
Definition assert_or_raise (condition : bool) (c : exc_class) (message : string)
    : M E S unit :=
  if condition then mret tt else raise c message.

(** The value of an [Optional], or an exception when it is [None]. *)
Definition require_some {A} (o : option A) (c : exc_class) (message : string)
    : M E S A :=
  match o with Some a => mret a | None => raise c message end.

(** ** Weakest preconditions *)

Definition wp {A} (m : M E S A) (Q : A -> S -> Prop) (X : exn -> S -> Prop)
    (env : E) (s : S) : Prop :=
  match m env s with
  | (Returned a, s') => Q a s'
  | (Raised e, s') => X e s'
  end.

Lemma wp_ret {A} (a : A) Q X env s : Q a s -> wp (mret a) Q X env s.
Proof. done. Qed.

Lemma wp_raise {A} c msg (Q : A -> S -> Prop) X env s :
  X (Exn c msg) s -> wp (raise c msg) Q X env s.
Proof. done. Qed.

Lemma wp_bind {A B} (m : M E S A) (k : A -> M E S B) Q X env s :
  wp m (fun a s' => wp (k a) Q X env s') X env s -> wp (m ≫= k) Q X env s.
Proof. unfold wp, mbind, M_bind. by destruct (m env s) as [[a|e] s']. Qed.

Lemma wp_get_env Q X env s : Q env s -> wp get_env Q X env s.
Proof. done. Qed.

Lemma wp_get_state Q X env s : Q s s -> wp get_state Q X env s.
Proof. done. Qed.

Lemma wp_put_state t Q X env s : Q tt t -> wp (put_state t) Q X env s.
Proof. done. Qed.

Lemma wp_mono {A} (m : M E S A) (Q Q' : A -> S -> Prop) (X X' : exn -> S -> Prop) env s :
  wp m Q X env s ->
  (forall a s', Q a s' -> Q' a s') ->
  (forall e s', X e s' -> X' e s') ->
  wp m Q' X' env s.
Proof. unfold wp. destruct (m env s) as [[a|e] s']; auto. Qed.

Lemma wp_if {A} (b : bool) (m1 m2 : M E S A) Q X env s :
  (b = true -> wp m1 Q X env s) ->
  (b = false -> wp m2 Q X env s) ->
  wp (if b then m1 else m2) Q X env s.
Proof. destruct b; auto. Qed.

Lemma wp_option {A B} (o : option A) (f : A -> M E S B) (g : M E S B) Q X env s :
  (forall a, o = Some a -> wp (f a) Q X env s) ->
  (o = None -> wp g Q X env s) ->
  wp (match o with Some a => f a | None => g end) Q X env s.
Proof. destruct o; auto. Qed.

Lemma wp_when (b : bool) (m : M E S unit) Q X env s :
  (b = true -> wp m Q X env s) ->
  (b = false -> Q tt s) ->
  wp (when b m) Q X env s.
Proof. unfold when. destruct b; auto using wp_ret. Qed.

Lemma wp_assert (b : bool) c msg Q X env s :
  (b = true -> Q tt s) ->
  (b = false -> X (Exn c msg) s) ->
  wp (assert_or_raise b c msg) Q X env s.
Proof. unfold assert_or_raise. destruct b; auto using wp_ret, wp_raise. Qed.

Lemma wp_require_some {A} (o : option A) c msg Q X env s :
  (forall a, o = Some a -> Q a s) ->
  (o = None -> X (Exn c msg) s) ->
  wp (require_some o c msg) Q X env s.
Proof. unfold require_some. destruct o; auto using wp_ret, wp_raise. Qed.

Lemma wp_try {A} (m : M E S A) (handled : exn -> bool) handler Q X env s :
  wp m Q (fun (e : exn) (s' : S) => if handled e then wp (handler e) Q X env s' else X e s') env s ->
  wp (try_except m handled handler) Q X env s.
Proof.
  unfold wp, try_except. destruct (m env s) as [[a|e] s']; [done|].
  by destruct (handled e).
Qed.

(** ** Computations that respect a preorder on stores

    [respects R m]: whatever [m] does, raising included, the store it leaves
    is related by [R] to the store it was given.  Rules are by composition,
    so one lemma per statement of the code lifts to every routine. *)

Definition respects {A} (R : S -> S -> Prop) (m : M E S A) : Prop :=
  forall env s, R s (snd (m env s)).

Context (R : S -> S -> Prop) `{!PreOrder R}.

Lemma respects_ret {A} (a : A) : respects R (mret a).
Proof. intros env s. simpl. reflexivity. Qed.

Lemma respects_raise {A} c msg : respects R (raise (A := A) c msg).
Proof. intros env s. simpl. reflexivity. Qed.

Lemma respects_get_env : respects R get_env.
Proof. intros env s. simpl. reflexivity. Qed.

Lemma respects_get_state : respects R get_state.
Proof. intros env s. simpl. reflexivity. Qed.

Lemma respects_bind {A B} (m : M E S A) (k : A -> M E S B) :
  respects R m -> (forall a, respects R (k a)) -> respects R (m ≫= k).
Proof.
  intros Hm Hk env s. unfold mbind, M_bind. specialize (Hm env s).
  destruct (m env s) as [[a|e] s']; simpl in *; [|done].
  etrans; [exact Hm | apply Hk].
Qed.

Lemma respects_try {A} (m : M E S A) handled handler :
  respects R m -> (forall e, respects R (handler e)) ->
  respects R (try_except m handled handler).
Proof.
  intros Hm Hh env s. unfold try_except. specialize (Hm env s).
  destruct (m env s) as [[a|e] s']; simpl in *; [done|].
  destruct (handled e); [|done]. etrans; [exact Hm | apply Hh].
Qed.

Lemma respects_if {A} (b : bool) (m1 m2 : M E S A) :
  respects R m1 -> respects R m2 -> respects R (if b then m1 else m2).
Proof. by destruct b. Qed.

Lemma respects_option {A B} (o : option A) (f : A -> M E S B) g :
  (forall a, respects R (f a)) -> respects R g ->
  respects R (match o with Some a => f a | None => g end).
Proof. destruct o; auto. Qed.

Lemma respects_when b (m : M E S unit) : respects R m -> respects R (when b m).
Proof. intros. destruct b; [done | apply respects_ret]. Qed.

Lemma respects_assert b c msg : respects R (assert_or_raise b c msg).
Proof. destruct b; [apply respects_ret | apply respects_raise]. Qed.

Lemma respects_require {A} (o : option A) c msg : respects R (require_some o c msg).
Proof. destruct o; [apply respects_ret | apply respects_raise]. Qed.

Lemma respects_wp {A} (m : M E S A) env s :
  respects R m -> wp m (fun _ s' => R s s') (fun _ s' => R s s') env s.
Proof.
  intros H. specialize (H env s). unfold wp.
  by destruct (m env s) as [[a|e] s'].
Qed.
End Monad.

#[global] Arguments wp : simpl never.

(** Routines are looked up by name, not by their bodies. *)
Create HintDb respects.
#[export] Hint Constants Opaque : respects.
#[export] Hint Resolve respects_ret respects_raise respects_get_env respects_get_state
  respects_bind respects_try respects_if respects_option respects_when respects_assert
  respects_require : respects.

(** One step of symbolic execution of a [wp] goal. *)
Ltac wp_step :=
  lazymatch goal with
  | |- wp (mbind _ _) _ _ _ _ => apply wp_bind
  | |- wp (mret _) _ _ _ _ => apply wp_ret
  | |- wp (raise _ _) _ _ _ _ => apply wp_raise
  | |- wp get_env _ _ _ _ => apply wp_get_env
  | |- wp get_state _ _ _ _ => apply wp_get_state
  | |- wp (put_state _) _ _ _ _ => apply wp_put_state
  | |- wp (when _ _) _ _ _ _ => apply wp_when; intros
  | |- wp (assert_or_raise _ _ _) _ _ _ _ => apply wp_assert; intros
  | |- wp (require_some _ _ _) _ _ _ _ => apply wp_require_some; intros
  | |- wp (if _ then _ else _) _ _ _ _ => apply wp_if; intros
  | |- wp (match ?o with Some _ => _ | None => _ end) _ _ _ _ => apply wp_option; intros
  end.

(** ** Instants

    Timestamps are microseconds since the epoch.  Three columns can hold
    PostgreSQL's ['infinity'::timestamptz]. *)

Definition instant := Z.

Inductive tstz := At (t : instant) | Infinity.

#[export] Instance tstz_eq_dec : EqDecision tstz.
Proof. solve_decision. Defined.

(** [x <= now] *)
Definition tstz_due (x : tstz) (now : instant) : bool :=
  match x with At t => t <=? now | Infinity => false end.

Definition tstz_leb (x y : tstz) : bool :=
  match x, y with
  | _, Infinity => true
  | Infinity, At _ => false
  | At a, At b => a <=? b
  end.

(** [timedelta(seconds=...)], [timedelta(milliseconds=...)] *)
Definition seconds (n : Z) : Z := n * 1000000.
Definition milliseconds (n : Z) : Z := n * 1000.

(** ** Machine integers of the column types *)

Definition int4_max : Z := 2147483647.
Definition int8_max : Z := 9223372036854775807.
Definition in_int4 (z : Z) : bool := (- int4_max - 1 <=? z) && (z <=? int4_max).
Definition in_int8 (z : Z) : bool := (- int8_max - 1 <=? z) && (z <=? int8_max).
Definition in_int8_opt (z : option Z) : bool :=
  match z with Some z => in_int8 z | None => true end.

(** ** Optional columns *)

Definition is_null {A} (o : option A) : bool :=
  match o with Some _ => false | None => true end.
Definition is_not_null {A} (o : option A) : bool := negb (is_null o).

(** [column == value] under SQL's three-valued logic: NULL matches nothing. *)
Definition sql_eq {A} `{EqDecision A} (column : option A) (value : A) : bool :=
  match column with Some a => bool_decide (a = value) | None => false end.
(** [column < value], likewise. *)
Definition sql_lt (column : option Z) (value : Z) : bool :=
  match column with Some a => a <? value | None => false end.

Lemma sql_eq_true {A} `{EqDecision A} (o : option A) a : sql_eq o a = true <-> o = Some a.
Proof. destruct o; simpl; [rewrite bool_decide_eq_true|]; naive_solver. Qed.

(** ** JSON documents (JSONB columns and Python dicts of them) *)

Inductive json :=
  | JNull
  | JBool (b : bool)
  | JInt (z : Z)
  | JStr (s : string)
  | JArr (items : list json)
  | JObj (members : list (string * json)).

(** A Python dict with string keys: association list in insertion order. *)
Definition jdict := list (string * json).

Fixpoint jget (d : jdict) (key : string) : option json :=
  match d with
  | [] => None
  | (k, v) :: d => if String.eqb k key then Some v else jget d key
  end.

(** [d[key] = value]: overwrite in place, append otherwise. *)
Fixpoint jset (d : jdict) (key : string) (value : json) : jdict :=
  match d with
  | [] => [(key, value)]
  | (k, v) :: d => if String.eqb k key then (k, value) :: d else (k, v) :: jset d key value
  end.

Definition jhas (d : jdict) (key : string) : bool := is_not_null (jget d key).

Lemma jget_jset_eq d k v : jget (jset d k v) k = Some v.
Proof.
  induction d as [|[k' v'] d IH]; simpl; [by rewrite String.eqb_refl|].
  destruct (String.eqb k' k) eqn:Hk; simpl; by rewrite Hk.
Qed.

Lemma jget_jset_ne d k k' v : k <> k' -> jget (jset d k v) k' = jget d k'.
Proof.
  intros Hne. induction d as [|[k0 v0] d IH]; simpl.
  - by destruct (String.eqb_spec k k').
  - destruct (String.eqb_spec k0 k) as [->|]; simpl.
    + by destruct (String.eqb_spec k k').
    + by destruct (String.eqb k0 k').
Qed.

#[global] Instance json_eq_dec : EqDecision json.
Proof.
  refine (fix go (x y : json) {struct x} : Decision (x = y) :=
    match x, y with
    | JNull, JNull => left eq_refl
    | JBool a, JBool b => cast_if (decide (a = b))
    | JInt a, JInt b => cast_if (decide (a = b))
    | JStr a, JStr b => cast_if (decide (a = b))
    | JArr a, JArr b =>
        cast_if (@decide (a = b) (@list_eq_dec _ go a b))
    | JObj a, JObj b =>
        cast_if (@decide (a = b) (@list_eq_dec _ (@prod_eq_dec _ _ _ go) a b))
    | _, _ => right _
    end); clear go; abstract congruence.
Defined.

(** [d.update(other)] *)
Definition jupdate (d other : jdict) : jdict :=
  fold_left (fun d kv => jset d kv.1 kv.2) other d.

(** [d.get(key)] as the value of a new entry. *)
Definition jget_or_null (d : jdict) (key : string) : json := default JNull (jget d key).

(** ** UUIDs

    A UUID is its 128-bit integer. *)

Definition uuid := N.

#[export] Instance uuid_eq_dec : EqDecision uuid := N.eq_dec.

Definition hex_digit (d : N) : ascii :=
  match d with
  | 0 => "0" | 1 => "1" | 2 => "2" | 3 => "3" | 4 => "4" | 5 => "5" | 6 => "6" | 7 => "7"
  | 8 => "8" | 9 => "9" | 10 => "a" | 11 => "b" | 12 => "c" | 13 => "d" | 14 => "e"
  | _ => "f"
  end%N%char.

(** The [width] low hexadecimal digits, most significant first. *)
Fixpoint hex_digits (width : nat) (n : N) : string :=
  match width with
  | O => EmptyString
  | S width => hex_digits width (n / 16) +:+ String (hex_digit (n mod 16)) EmptyString
  end.

(** ['%032x' % n]: at least 32 digits, all of them when [n] needs more. *)
Definition hex_width (n : N) : nat := Nat.max 32 (S (N.to_nat (N.size n) / 4)).
Definition uuid_hex (u : uuid) : string :=
  if (u <? 2 ^ 128)%N then hex_digits 32 u else hex_digits (hex_width u) u.

(** [value or fallback] on an optional string: the empty string is false. *)
Definition str_or (value : option string) (fallback : string) : string :=
  match value with
  | Some EmptyString | None => fallback
  | Some s => s
  end.

(** [str.isspace] on one character of Latin-1. *)
Definition py_isspace (c : ascii) : bool :=
  let n := N_of_ascii c in
  ((9 <=? n) && (n <=? 13) || (28 <=? n) && (n <=? 32) || (n =? 133) || (n =? 160))%N.

Fixpoint str_forall (p : ascii -> bool) (s : string) : bool :=
  match s with EmptyString => true | String c s => p c && str_forall p s end.

(** [not s.strip()] *)
Definition str_blank (s : string) : bool := str_forall py_isspace s.

(** [s[:n]] and [s[n:]] *)
Fixpoint str_take (n : nat) (s : string) : string :=
  match n, s with
  | S n, String c s => String c (str_take n s)
  | _, _ => EmptyString
  end.
Fixpoint str_drop (n : nat) (s : string) : string :=
  match n, s with
  | S n, String _ s => str_drop n s
  | _, _ => s
  end.

(** Decimal digits of [n], least significant last, in front of [acc]. *)
Fixpoint dec_digits (fuel : nat) (n : N) (acc : string) : string :=
  match fuel with
  | O => acc
  | S fuel =>
      let acc := String (ascii_of_N (48 + n mod 10)) acc in
      if (n <? 10)%N then acc else dec_digits fuel (n / 10) acc
  end.

(** [str(n)]; a number has no more digits than bits. *)
Definition str_of_N (n : N) : string := dec_digits (S (N.size_nat n)) n "".
Definition str_of_int (z : Z) : string :=
  if z <? 0 then String "-" (str_of_N (Z.to_N (- z))) else str_of_N (Z.to_N z).

(** [s.strip(chars)], where [stripped] are the characters. *)
Fixpoint str_strip_left (stripped : ascii -> bool) (s : string) : string :=
  match s with
  | String c rest => if stripped c then str_strip_left stripped rest else s
  | EmptyString => ""
  end.
Fixpoint str_strip_right (stripped : ascii -> bool) (s : string) : string :=
  match s with
  | EmptyString => ""
  | String c rest =>
      match str_strip_right stripped rest with
      | EmptyString => if stripped c then "" else String c ""
      | rest => String c rest
      end
  end.
Definition str_strip (stripped : ascii -> bool) (s : string) : string :=
  str_strip_right stripped (str_strip_left stripped s).

(** [str(uuid)] *)
Definition uuid_str (u : uuid) : string :=
  let hex := uuid_hex u in
  str_take 8 hex +:+ "-" +:+ str_take 4 (str_drop 8 hex) +:+ "-" +:+
  str_take 4 (str_drop 12 hex) +:+ "-" +:+ str_take 4 (str_drop 16 hex) +:+ "-" +:+
  str_drop 20 hex.

Definition unhex_digit (c : ascii) : option N :=
  let code := N_of_ascii c in
  (if (48 <=? code) && (code <=? 57) then Some (code - 48)
  else if (97 <=? code) && (code <=? 102) then Some (code - 87)
  else None)%N.

(** Reads the hexadecimal digits of a string, skipping the dashes. *)
Fixpoint unhex (acc : N) (s : string) : N :=
  match s with
  | EmptyString => acc
  | String c s =>
      unhex (match unhex_digit c with Some d => acc * 16 + d | None => acc end)%N s
  end.

Lemma unhex_app acc a b : unhex acc (a +:+ b) = unhex (unhex acc a) b.
Proof. revert acc. induction a as [|c a IH]; intros acc; simpl; [done|]. by rewrite IH. Qed.

Lemma unhex_hex_digit d : (d < 16)%N -> unhex_digit (hex_digit d) = Some d.
Proof.
  intros H. assert (d = 0 \/ d = 1 \/ d = 2 \/ d = 3 \/ d = 4 \/ d = 5 \/ d = 6 \/ d = 7 \/
    d = 8 \/ d = 9 \/ d = 10 \/ d = 11 \/ d = 12 \/ d = 13 \/ d = 14 \/ d = 15)%N as Hd by lia.
  repeat destruct Hd as [->|Hd]; subst; reflexivity.
Qed.

Lemma unhex_hex_digits w n acc :
  (n < 16 ^ N.of_nat w)%N -> unhex acc (hex_digits w n) = (acc * 16 ^ N.of_nat w + n)%N.
Proof.
  revert n. induction w as [|w IH]; intros n Hn.
  - simpl in *. lia.
  - rewrite Nat2N.inj_succ, N.pow_succ_r' in *. simpl hex_digits.
    rewrite unhex_app, IH by (apply N.Div0.div_lt_upper_bound; lia).
    simpl unhex. rewrite unhex_hex_digit by (apply N.mod_lt; lia).
    pose proof (N.div_mod n 16 ltac:(lia)). lia.
Qed.

Lemma string_length_app a b : String.length (a +:+ b) = (String.length a + String.length b)%nat.
Proof. induction a as [|ch a IH]; [done|]. simpl. by rewrite IH. Qed.

Lemma str_take_app n a b : String.length a = n -> str_take n (a +:+ b) = a.
Proof. intros <-. induction a; cbn; [by destruct b|by f_equal]. Qed.

Lemma str_drop_app n a b : String.length a = n -> str_drop n (a +:+ b) = b.
Proof. intros <-. by induction a. Qed.

Lemma str_take_drop n s : str_take n s +:+ str_drop n s = s.
Proof.
  revert s. induction n as [|n IH]; intros [|c s]; simpl; [done..|]. by rewrite <- (IH s) at 3.
Qed.

Lemma str_drop_drop n m s : str_drop n (str_drop m s) = str_drop (m + n) s.
Proof. revert s. induction m; intros [|c s]; simpl; [by destruct n | done | by destruct n | auto]. Qed.

Lemma hex_width_enough n : (n < 16 ^ N.of_nat (hex_width n))%N.
Proof.
  eapply N.lt_le_trans; [apply N.size_gt|].
  change 16%N with (2 ^ 4)%N. rewrite <- N.pow_mul_r. apply N.pow_le_mono_r; [lia|].
  unfold hex_width. pose proof (Nat.div_mod_eq (N.to_nat (N.size n)) 4).
  pose proof (Nat.mod_upper_bound (N.to_nat (N.size n)) 4). lia.
Qed.

Lemma unhex_uuid_hex u : unhex 0 (uuid_hex u) = u.
Proof.
  unfold uuid_hex. destruct (N.ltb_spec u (2 ^ 128)).
  - by rewrite unhex_hex_digits.
  - rewrite unhex_hex_digits by apply hex_width_enough. lia.
Qed.

Lemma unhex_uuid_str u : unhex 0 (uuid_str u) = u.
Proof.
  rewrite <- (unhex_uuid_hex u) at 2. unfold uuid_str. generalize (uuid_hex u); intros s.
  rewrite <- (str_take_drop 8 s) at 6.
  rewrite <- (str_take_drop 4 (str_drop 8 s)) at 2.
  rewrite <- (str_take_drop 4 (str_drop 4 (str_drop 8 s))).
  rewrite <- (str_take_drop 4 (str_drop 4 (str_drop 4 (str_drop 8 s)))).
  rewrite !str_drop_drop. simpl Nat.add. by rewrite !unhex_app.
Qed.

Lemma uuid_str_inj u v : uuid_str u = uuid_str v -> u = v.
Proof. intros H. by rewrite <- (unhex_uuid_str u), H, unhex_uuid_str. Qed.

Lemma uuid_hex_inj u v : uuid_hex u = uuid_hex v -> u = v.
Proof. intros H. by rewrite <- (unhex_uuid_hex u), H, unhex_uuid_hex. Qed.

Lemma string_app_inj_l a b c : a +:+ b = a +:+ c -> b = c.
Proof. induction a; simpl; [done|]. intros [= ?]. auto. Qed.

(** ** ORDER BY ... LIMIT 1 *)

Fixpoint pick_min {A} (leb : A -> A -> bool) (l : list A) : option A :=
  match l with
  | [] => None
  | x :: l =>
      match pick_min leb l with
      | None => Some x
      | Some y => if leb x y then Some x else Some y
      end
  end.

Lemma pick_min_elem {A} (leb : A -> A -> bool) l x : pick_min leb l = Some x -> x ∈ l.
Proof.
  revert x. induction l as [|y l IH]; intros x; simpl; [done|].
  destruct (pick_min leb l) as [z|]; [destruct (leb y z)|]; intros [= <-];
    rewrite elem_of_cons; [by left | right; by apply IH | by left].
Qed.

Lemma pick_min_none {A} (leb : A -> A -> bool) l : pick_min leb l = None <-> l = [].
Proof.
  destruct l as [|x l]; simpl; [done|].
  destruct (pick_min leb l); [destruct (leb x a)|]; done.
Qed.

Lemma pick_min_least {A} (leb : A -> A -> bool) l x :
  (forall a b, leb a b = true \/ leb b a = true) ->
  (forall a b c, leb a b = true -> leb b c = true -> leb a c = true) ->
  pick_min leb l = Some x -> forall y, y ∈ l -> leb x y = true.
Proof.
  intros Htot Htrans. revert x. induction l as [|z l IH]; intros x; simpl; [done|].
  destruct (pick_min leb l) as [w|] eqn:Hw.
  - specialize (IH w eq_refl). destruct (leb z w) eqn:Hzw; intros [= <-] y;
      rewrite elem_of_cons; intros [->|Hy]; eauto.
    + by destruct (Htot z z).
    + destruct (Htot w z); congruence.
  - apply pick_min_none in Hw as ->. intros [= <-] y. rewrite list_elem_of_singleton.
    intros ->. by destruct (Htot z z).
Qed.

(** ** Maps *)

(** The rows of a table, in primary-key order. *)
Definition rows {A} (t : gmap uuid A) : list A := snd <$> map_to_list t.

Lemma rows_elem {A} (t : gmap uuid A) r : r ∈ rows t <-> exists k, t !! k = Some r.
Proof.
  unfold rows. rewrite list_elem_of_fmap. split.
  - intros [[k r'] [-> Hk]]. exists k. by apply elem_of_map_to_list in Hk.
  - intros [k Hk]. exists (k, r). split; [done|]. by apply elem_of_map_to_list.
Qed.
