(* ===== verification/BookingText.v ===== *)
(** * Textual contracts of the booking wire

    The validators of src/app/core/booking_availability_remote.py,
    booking_create_remote.py, booking_eligibility_http.py,
    self_booking_create_types.py and self_booking_pii_admission_types.py that
    guard self-booking rows.  [None] is their [raise ValueError]: callers only
    distinguish success from failure.  Python's [\d] is read on ASCII. *)

From S2P Require Import Prelude.

(** ** Strings and regular expressions *)

Definition char_between (lo hi : N) (c : ascii) : bool :=
  ((lo <=? N_of_ascii c) && (N_of_ascii c <=? hi))%N.
Definition is_char (c d : ascii) : bool := Ascii.eqb c d.
Definition is_digit : ascii -> bool := char_between 48 57.
Definition is_lower_hex (c : ascii) : bool := is_digit c || char_between 97 102 c.
Definition is_printable : ascii -> bool := char_between 33 126.

(** [fullmatch] of a concatenation of one-character classes. *)
Fixpoint str_matches (classes : list (ascii -> bool)) (s : string) : bool :=
  match classes, s with
  | [], EmptyString => true
  | p :: classes, String c s => p c && str_matches classes s
  | _, _ => false
  end.

(** [s.split(sep)] *)
Fixpoint str_split (sep : ascii) (s : string) : list string :=
  match s with
  | EmptyString => [EmptyString]
  | String c s =>
      if Ascii.eqb c sep then EmptyString :: str_split sep s
      else match str_split sep s with
           | part :: parts => String c part :: parts
           | [] => [String c EmptyString]
           end
  end.

(** [int(s)] on a string of digits. *)
Fixpoint digits_value (acc : Z) (s : string) : Z :=
  match s with
  | EmptyString => acc
  | String c s => digits_value (acc * 10 + (Z.of_N (N_of_ascii c) - 48)) s
  end.

Definition str_slice (first last : nat) (s : string) : string :=
  str_take (last - first) (str_drop first s).

Definition lower_char (c : ascii) : ascii :=
  if char_between 65 90 c then ascii_of_N (N_of_ascii c + 32) else c.
Fixpoint str_lower (s : string) : string :=
  match s with EmptyString => EmptyString | String c s => String (lower_char c) (str_lower s) end.

Definition contains_control_chars (value : string) : bool :=
  negb (str_forall (fun c => negb ((N_of_ascii c <? 32) || (N_of_ascii c =? 127)))%N value).

(** [any(ch.isspace() for ch in value) or _contains_control_chars(value)] *)
Definition unclean (value : string) : bool :=
  negb (str_forall (fun c => negb (py_isspace c)) value) || contains_control_chars value.

(** ** Calendar *)

Definition leap_year (y : Z) : bool :=
  (y mod 4 =? 0) && (negb (y mod 100 =? 0) || (y mod 400 =? 0)).
Definition days_in_month (y m : Z) : Z :=
  if m =? 2 then (if leap_year y then 29 else 28)
  else if (m =? 4) || (m =? 6) || (m =? 9) || (m =? 11) then 30 else 31.

(** [datetime.date(y, m, d)] does not raise. *)
Definition valid_date (y m d : Z) : bool :=
  (1 <=? y) && (y <=? 9999) && (1 <=? m) && (m <=? 12) && (1 <=? d) &&
  (d <=? days_in_month y m).

Definition dash : ascii := "-".
Definition DATE_CLASSES : list (ascii -> bool) :=
  replicate 4 is_digit ++ [is_char dash] ++ replicate 2 is_digit ++ [is_char dash] ++
  replicate 2 is_digit.
Definition STARTS_AT_CLASSES : list (ascii -> bool) :=
  DATE_CLASSES ++ [is_char "T"%char] ++ replicate 2 is_digit ++ [is_char ":"%char] ++
  replicate 2 is_digit ++ (is_char <$> list_ascii_of_string ":00+05:00").

(** The date of the first ten characters is a calendar day. *)
Definition starts_with_valid_date (value : string) : bool :=
  valid_date (digits_value 0 (str_slice 0 4 value)) (digits_value 0 (str_slice 5 7 value))
    (digits_value 0 (str_slice 8 10 value)).

(** [isoformat] gives back the digits that were parsed, so the comparison with
    the canonical form always holds once the pattern matched. *)
Definition require_calendar_date (value : string) : option string :=
  if String.eqb value "" || unclean value then None
  else if negb (str_matches DATE_CLASSES value) then None
  else if negb (starts_with_valid_date value) then None
  else Some value.

Definition require_canonical_booking_starts_at (value : string) : option string :=
  if String.eqb value "" || unclean value then None
  else if negb (str_matches STARTS_AT_CLASSES value) then None
  else if negb (starts_with_valid_date value) then None
  else if (23 <? digits_value 0 (str_slice 11 13 value)) ||
          (59 <? digits_value 0 (str_slice 14 16 value)) then None
  else Some value.

(** ** UUID texts *)

Definition CANONICAL_UUID_CLASSES : list (ascii -> bool) :=
  replicate 8 is_lower_hex ++ [is_char dash] ++ replicate 4 is_lower_hex ++ [is_char dash] ++
  [char_between 49 53] ++ replicate 3 is_lower_hex ++ [is_char dash] ++
  [fun c => char_between 56 57 c || char_between 97 98 c] ++ replicate 3 is_lower_hex ++
  [is_char dash] ++ replicate 12 is_lower_hex.

(** The looser pattern of booking_eligibility_http.py. *)
Definition BACKEND_UUID_CLASSES : list (ascii -> bool) :=
  replicate 8 is_lower_hex ++ [is_char dash] ++ replicate 4 is_lower_hex ++ [is_char dash] ++
  replicate 4 is_lower_hex ++ [is_char dash] ++ replicate 4 is_lower_hex ++ [is_char dash] ++
  replicate 12 is_lower_hex.

Definition canonical_uuid (value : string) : bool := str_matches CANONICAL_UUID_CLASSES value.

Definition require_canonical_backend_uuid (value : string) : option string :=
  if String.eqb value "" || unclean value then None
  else if String.prefix "{" value || String.prefix "urn:" (str_lower value) then None
  else
    let lowered := str_lower value in
    if negb (str_matches BACKEND_UUID_CLASSES lowered) then None
    else
      let canonical := uuid_str (unhex 0 lowered) in
      if negb (String.eqb canonical lowered) then None else Some canonical.

Definition require_canonical_idempotency_key (value : string) : option string :=
  if String.eqb value "" || unclean value then None
  else if negb (String.eqb value (str_lower value)) then None
  else if negb (Nat.eqb (String.length value) 36) || negb (canonical_uuid value) then None
  else require_canonical_backend_uuid value.

(** ** Slot identifiers *)

Record BotSlotIdParts := MkBotSlotIdParts {
  bsp_service_id : string;
  bsp_master_id : string;
  bsp_date_key : string;
  bsp_start_time : string
}.

Definition BOT_SLOT_ID_PREFIX : string := "bs1".
Definition MAX_SLOT_ID_LENGTH : nat := 128.

(** [^([01]\d|2[0-3])([0-5]\d)$] *)
Definition strict_hhmm (s : string) : bool :=
  str_matches [char_between 48 49; is_digit; char_between 48 53; is_digit] s ||
  str_matches [is_char "2"%char; char_between 48 51; char_between 48 53; is_digit] s.

Definition parse_bot_slot_id (raw : string) : option BotSlotIdParts :=
  if String.eqb raw "" || (MAX_SLOT_ID_LENGTH <? String.length raw)%nat || unclean raw
  then None
  else
    match str_split "."%char raw with
    | [version; service_id; master_id; date_key; hhmm] =>
        if negb (String.eqb version BOT_SLOT_ID_PREFIX) then None
        else if negb (canonical_uuid service_id) then None
        else if negb (canonical_uuid master_id) then None
        else
          service ← require_canonical_backend_uuid service_id;
          master ← require_canonical_backend_uuid master_id;
          date ← require_calendar_date date_key;
          if negb (strict_hhmm hhmm) then None
          else Some (MkBotSlotIdParts service master date
                       (str_slice 0 2 hhmm +:+ ":" +:+ str_slice 2 4 hhmm))
    | _ => None
    end.

Definition expected_canonical_starts_at_from_slot_parts (parts : BotSlotIdParts)
    : option string :=
  require_canonical_booking_starts_at
    (bsp_date_key parts +:+ "T" +:+ bsp_start_time parts +:+ ":00+05:00").

(** ** Self-booking identifiers *)

Definition CONFIRM_EXTERNAL_MESSAGE_ID_MAX_LENGTH : nat := 128.
Definition REQUEST_ID_MAX_LENGTH : nat := 128.
Definition REF_TOKEN_MAX_LENGTH : nat := 64.

(** Non-empty printable ASCII of bounded length. *)
Definition printable_id (max_length : nat) (value : string) : bool :=
  negb (String.eqb value "") && (String.length value <=? max_length)%nat &&
  str_forall is_printable value.

Definition require_self_booking_channel (value : string) : option string :=
  if String.eqb value "synthetic" then Some value else None.

Definition normalize_confirm_external_message_id (value : string) : option string :=
  if printable_id CONFIRM_EXTERNAL_MESSAGE_ID_MAX_LENGTH value then Some value else None.

Definition require_opaque_pii_ref_token (value : string) : option string :=
  if printable_id REF_TOKEN_MAX_LENGTH value then Some value else None.

Definition require_pii_admission_request_id (value : string) : option string :=
  if printable_id REQUEST_ID_MAX_LENGTH value then Some value else None.

(** [require_active_offer_slots]'s slot, validated. *)
Record ActiveOfferSlot := MkActiveOfferSlot { aos_slot_id : string; aos_starts_at : string }.

Definition make_active_offer_slot (slot_id starts_at : string) : option ActiveOfferSlot :=
  _ ← parse_bot_slot_id slot_id;
  _ ← require_canonical_booking_starts_at starts_at;
  Some (MkActiveOfferSlot slot_id starts_at).

Definition slot_json (slot : ActiveOfferSlot) : json :=
  JObj [("slot_id", JStr (aos_slot_id slot)); ("starts_at", JStr (aos_starts_at slot))].

Definition MAX_ACTIVE_OFFER_SLOTS : nat := 3.

(** The loop of [require_active_offer_slots] on decoded JSON. *)
Fixpoint active_offer_slots_from (seen : list string) (items : list json)
    : option (list ActiveOfferSlot) :=
  match items with
  | [] => Some []
  | JObj item :: items =>
      match jget item "slot_id", jget item "starts_at" with
      | Some (JStr slot_id), Some (JStr starts_at) =>
          slot ← make_active_offer_slot slot_id starts_at;
          if bool_decide (slot_id ∈ seen) then None
          else
            slots ← active_offer_slots_from (slot_id :: seen) items;
            Some (slot :: slots)
      | _, _ => None
      end
  | _ => None
  end.

Definition require_active_offer_slots (value : option json) : option (list ActiveOfferSlot) :=
  match value with
  | Some (JArr items) =>
      if (length items =? 0)%nat || (MAX_ACTIVE_OFFER_SLOTS <? length items)%nat then None
      else active_offer_slots_from [] items
  | _ => None
  end.

Example slot_id_parses :
  parse_bot_slot_id
    "bs1.11111111-1111-4111-8111-111111111111.22222222-2222-4222-9222-222222222222.2024-02-29.0930"
  = Some (MkBotSlotIdParts "11111111-1111-4111-8111-111111111111"
            "22222222-2222-4222-9222-222222222222" "2024-02-29" "09:30").
Proof. vm_compute. reflexivity. Qed.

Example slot_id_bad_day :
  parse_bot_slot_id
    "bs1.11111111-1111-4111-8111-111111111111.22222222-2222-4222-9222-222222222222.2023-02-29.0930"
  = None.
Proof. vm_compute. reflexivity. Qed.

Example starts_at_canonical :
  require_canonical_booking_starts_at "2024-02-29T09:30:00+05:00"
  = Some "2024-02-29T09:30:00+05:00"%string.
Proof. vm_compute. reflexivity. Qed.
