(* ===== verification/Encodings.v ===== *)
(** * Bytes: base64, UTF-8 and SHA-256

    What the source uses of Python's base64, hashlib and hmac.  A byte string is
    a [string] of 8-bit characters.  The SHA-256 constants are computed from their
    definition (FIPS 180-4): leading fractional bits of square and cube roots of
    the first primes. *)

From S2P Require Import Prelude BookingText.

(** ** URL-safe base64 *)

(** The digit of six bits. *)
Definition b64_digit (n : N) : ascii :=
  if (n <? 26)%N then ascii_of_N (65 + n)
  else if (n <? 52)%N then ascii_of_N (71 + n)
  else if (n <? 62)%N then ascii_of_N (n - 4)
  else if (n =? 62)%N then "-"%char else "_"%char.

Definition b64_value (c : ascii) : option N :=
  let n := N_of_ascii c in
  if char_between 65 90 c then Some (n - 65)%N
  else if char_between 97 122 c then Some (n - 71)%N
  else if char_between 48 57 c then Some (n + 4)%N
  else if Ascii.eqb c "-" then Some 62%N
  else if Ascii.eqb c "_" then Some 63%N
  else None.

(** [base64.urlsafe_b64encode] *)
Fixpoint urlsafe_b64encode (s : string) : string :=
  match s with
  | EmptyString => EmptyString
  | String a EmptyString =>
      let a := N_of_ascii a in
      String (b64_digit (a / 4)) (String (b64_digit (a mod 4 * 16)) "==")
  | String a (String b EmptyString) =>
      let a := N_of_ascii a in let b := N_of_ascii b in
      String (b64_digit (a / 4)) (String (b64_digit (a mod 4 * 16 + b / 16))
        (String (b64_digit (b mod 16 * 4)) "="))
  | String a (String b (String c rest)) =>
      let a := N_of_ascii a in let b := N_of_ascii b in let c := N_of_ascii c in
      String (b64_digit (a / 4)) (String (b64_digit (a mod 4 * 16 + b / 16))
        (String (b64_digit (b mod 16 * 4 + c / 64))
          (String (b64_digit (c mod 64)) (urlsafe_b64encode rest))))
  end.

(** [base64.urlsafe_b64decode] on digits followed by padding; [None] when it
    raises.  Unused low bits are dropped, as binascii drops them.  Excess padding,
    which binascii accepts, is refused: every caller compares the input with the
    encoding of the result next and raises the same error. *)
Fixpoint urlsafe_b64decode (s : string) : option string :=
  match s with
  | EmptyString => Some EmptyString
  | String a (String b (String c (String d rest))) =>
      a ← b64_value a; b ← b64_value b;
      let first := ascii_of_N (a * 4 + b / 16) in
      match b64_value c, b64_value d with
      | Some c, Some d =>
          rest ← urlsafe_b64decode rest;
          Some (String first (String (ascii_of_N (b mod 16 * 16 + c / 4))
            (String (ascii_of_N (c mod 4 * 64 + d)) rest)))
      | Some c, None =>
          if Ascii.eqb d "=" && String.eqb rest "" then
            Some (String first (String (ascii_of_N (b mod 16 * 16 + c / 4)) EmptyString))
          else None
      | None, _ =>
          if Ascii.eqb c "=" && Ascii.eqb d "=" && String.eqb rest ""
          then Some (String first EmptyString) else None
      end
  | _ => None
  end.

Definition is_b64_digit (c : ascii) : bool :=
  char_between 65 90 c || char_between 97 122 c || is_digit c || is_char "_" c || is_char "-" c.

(** ** UTF-8 *)

(** [value.encode("utf-8")] on code points below 256. *)
Fixpoint utf8_encode (value : string) : string :=
  match value with
  | EmptyString => EmptyString
  | String c rest =>
      let n := N_of_ascii c in
      if (n <? 128)%N then String c (utf8_encode rest)
      else String (ascii_of_N (192 + n / 64)) (String (ascii_of_N (128 + n mod 64))
             (utf8_encode rest))
  end.

(** [data.decode("utf-8")] when the text has code points below 256. *)
Fixpoint utf8_decode (data : string) : option string :=
  match data with
  | EmptyString => Some EmptyString
  | String a rest =>
      let n := N_of_ascii a in
      if (n <? 128)%N then String a <$> utf8_decode rest
      else
        match rest with
        | String b rest =>
            let m := N_of_ascii b in
            if ((194 <=? n) && (n <=? 195) && (128 <=? m) && (m <? 192))%N
            then String (ascii_of_N ((n - 192) * 64 + (m - 128))) <$> utf8_decode rest
            else None
        | EmptyString => None
        end
  end.

(** ** SHA-256 *)

Module Sha256.
#[local] Open Scope N_scope.

Definition word (n : N) : N := n mod 2 ^ 32.
Definition rotr (k x : N) : N := N.lor (N.shiftr x k) (word (N.shiftl x (32 - k))).
Definition bit_not (x : N) : N := N.lxor x (2 ^ 32 - 1).

(** The largest [r] below [2 ^ bits] with [r ^ 3 <= n], added to [acc]. *)
Fixpoint cube_root (bits : nat) (acc n : N) : N :=
  match bits with
  | O => acc
  | S bits =>
      let next := acc + 2 ^ N.of_nat bits in
      cube_root bits (if next * next * next <=? n then next else acc) n
  end.

Fixpoint primes_from (fuel : nat) (n : N) (found : list N) (missing : nat) : list N :=
  match fuel, missing with
  | S fuel, S missing' =>
      if forallb (fun p => negb (n mod p =? 0)) found
      then primes_from fuel (n + 1) (found ++ [n]) missing'
      else primes_from fuel (n + 1) found missing
  | _, _ => found
  end.

Definition round_constants : list N :=
  Eval vm_compute in map (fun p => word (cube_root 36 0 (p * 2 ^ 96))) (primes_from 400 2 [] 64).
Definition initial_state : list N :=
  Eval vm_compute in map (fun p => word (N.sqrt (p * 2 ^ 64))) (primes_from 400 2 [] 8).

(** The message schedule, newest word first. *)
Fixpoint schedule (rounds : nat) (recent : list N) : list N :=
  match rounds with
  | O => recent
  | S rounds =>
      let w i := nth i recent 0 in
      let s0 := N.lxor (rotr 7 (w 14%nat)) (N.lxor (rotr 18 (w 14%nat)) (N.shiftr (w 14%nat) 3)) in
      let s1 := N.lxor (rotr 17 (w 1%nat)) (N.lxor (rotr 19 (w 1%nat)) (N.shiftr (w 1%nat) 10)) in
      schedule rounds (word (w 15%nat + s0 + w 6%nat + s1) :: recent)
  end.

Definition round (state : list N) (kw : N * N) : list N :=
  match state with
  | [a; b; c; d; e; f; g; h] =>
      let s1 := N.lxor (rotr 6 e) (N.lxor (rotr 11 e) (rotr 25 e)) in
      let choice := N.lxor (N.land e f) (N.land (bit_not e) g) in
      let t1 := h + s1 + choice + kw.1 + kw.2 in
      let s0 := N.lxor (rotr 2 a) (N.lxor (rotr 13 a) (rotr 22 a)) in
      let majority := N.lxor (N.land a b) (N.lxor (N.land a c) (N.land b c)) in
      [word (t1 + s0 + majority); a; b; c; word (d + t1); e; f; g]
  | _ => state
  end.

(** One block of sixteen words. *)
Definition compress (state block : list N) : list N :=
  let words := rev (schedule 48 (rev block)) in
  map (fun xy => word (xy.1 + xy.2))
    (combine state (fold_left round (combine round_constants words) state)).

Fixpoint be_words (bytes : list N) : list N :=
  match bytes with
  | a :: b :: c :: d :: rest =>
      (a * 2 ^ 24 + b * 2 ^ 16 + c * 2 ^ 8 + d) :: be_words rest
  | _ => []
  end.

Fixpoint be_bytes (count : nat) (n : N) : list N :=
  match count with
  | O => []
  | S count => (n / 2 ^ (8 * N.of_nat count)) mod 256 :: be_bytes count n
  end.

Fixpoint blocks (count : nat) (words : list N) : list (list N) :=
  match count with
  | O => []
  | S count => firstn 16 words :: blocks count (skipn 16 words)
  end.

Definition padded (bytes : list N) : list N :=
  let len := length bytes in
  bytes ++ [128] ++ repeat 0 (Nat.modulo (119 - Nat.modulo len 64) 64) ++
  be_bytes 8 (8 * N.of_nat len).

Definition digest_words (bytes : list N) : list N :=
  let words := be_words (padded bytes) in
  fold_left compress (blocks (length words / 16)%nat words) initial_state.
End Sha256.

Fixpoint bytes_of (s : string) : list N :=
  match s with EmptyString => [] | String c s => N_of_ascii c :: bytes_of s end.
Fixpoint of_bytes (l : list N) : string :=
  match l with [] => EmptyString | n :: l => String (ascii_of_N n) (of_bytes l) end.

(** [hashlib.sha256(data).digest()] *)
Definition sha256 (data : string) : string :=
  of_bytes (flat_map (Sha256.be_bytes 4) (Sha256.digest_words (bytes_of data))).

(** [hmac.new(key, message, hashlib.sha256).digest()] *)
Definition hmac_sha256 (key message : string) : string :=
  let key := if (64 <? String.length key)%nat then sha256 key else key in
  let padded := bytes_of key ++ repeat 0%N (64 - String.length key) in
  let mask m := of_bytes (map (N.lxor m) padded) in
  sha256 (mask 92%N +:+ sha256 (mask 54%N +:+ message)).

(** Hexadecimal text of bytes: [digest.hex()]. *)
Definition bytes_hex (data : string) : string :=
  fold_right (fun n s => hex_digits 2 n +:+ s) EmptyString (bytes_of data).
