(* ===== verification/Models.v ===== *)
(** * Row types of [src/app/models]

    One record per mapped table, one inductive type per enumeration column, the
    CHECK constraints as boolean predicates on rows, and the status transition
    tables.  A column constrained to an enumeration holds the enumeration, so
    the [IN (...)] checks hold by typing; every other CHECK is written out. *)

From S2P Require Import Prelude BookingText.

(** An enumeration mixed in with [str]: [member.value]. *)
Class StrEnum (A : Type) := enum_value : A -> string.

(** ** app/models/conversation.py *)

Inductive Channel := CHANNEL_SYNTHETIC | CHANNEL_VK.
Inductive ConversationStatus := OPEN | HANDOFF | CLOSED.
Inductive ConversationOwnership := BOT | MANAGER.
Inductive HandoffState := BOT_ACTIVE | HUMAN_ACTIVE | HUMAN_PAUSE.

#[export] Instance Channel_eq_dec : EqDecision Channel.
Proof. solve_decision. Defined.
#[export] Instance ConversationStatus_eq_dec : EqDecision ConversationStatus.
Proof. solve_decision. Defined.
#[export] Instance ConversationOwnership_eq_dec : EqDecision ConversationOwnership.
Proof. solve_decision. Defined.
#[export] Instance HandoffState_eq_dec : EqDecision HandoffState.
Proof. solve_decision. Defined.

#[export] Instance Channel_value : StrEnum Channel := fun c =>
  match c with CHANNEL_SYNTHETIC => "synthetic" | CHANNEL_VK => "vk" end.

Definition HANDOFF_QUARANTINE_REASONS : list string :=
  [ "HANDOFF_DEFERRED_PLAN_MISSING"; "HANDOFF_DEFERRED_PLAN_TYPE";
    "HANDOFF_DEFERRED_PLAN_NOT_OPEN"; "HANDOFF_DEFERRED_PLAN_CONTEXT";
    "HANDOFF_DEFERRED_PLAN_MANAGER_EPOCH"; "HANDOFF_DEFERRED_PLAN_EVENT_SEQ";
    "HANDOFF_DEFERRED_PLAN_DEADLINE"; "HANDOFF_DEFERRED_PLAN_MARKER";
    "HANDOFF_EXPIRY_UNSUPPORTED_STATE" ].
Definition HANDOFF_QUARANTINE_CLEAR_PATH_MANAGER_MESSAGE : string :=
  "MANAGER_MESSAGE_APPLIED".
Definition HANDOFF_QUARANTINE_CLEAR_PATHS : list string :=
  [HANDOFF_QUARANTINE_CLEAR_PATH_MANAGER_MESSAGE].

Definition str_in (s : string) (l : list string) : bool := existsb (String.eqb s) l.

Record Conversation := MkConversation {
  conv_id : uuid;
  conv_channel : Channel;
  conv_external_conversation_id : string;
  conv_status : ConversationStatus;
  conv_ownership : ConversationOwnership;
  conv_context_version : Z;
  conv_handoff_state : HandoffState;
  conv_manager_epoch : Z;
  conv_current_event_seq : Z;
  conv_manager_sequence_hwm : option Z;
  conv_vk_client_external_reply_hwm : option Z;
  conv_handoff_deadline_at : option tstz;
  conv_human_pause_anchor_at : option instant;
  conv_last_client_activity_at : option instant;
  conv_manager_takeover_at : option instant;
  conv_active_reply_plan_id : option uuid;
  conv_canonical_identity_id : option uuid;
  conv_handoff_quarantined_at : option instant;
  conv_handoff_quarantine_reason : option string;
  conv_handoff_quarantine_cleared_at : option instant;
  conv_handoff_quarantine_clear_path : option string;
  conv_created_at : instant;
  conv_updated_at : instant
}.

#[export] Instance Conversation_eta : Eta Conversation := fun r =>
  MkConversation (conv_id r) (conv_channel r) (conv_external_conversation_id r)
    (conv_status r) (conv_ownership r) (conv_context_version r) (conv_handoff_state r)
    (conv_manager_epoch r) (conv_current_event_seq r) (conv_manager_sequence_hwm r)
    (conv_vk_client_external_reply_hwm r) (conv_handoff_deadline_at r)
    (conv_human_pause_anchor_at r) (conv_last_client_activity_at r)
    (conv_manager_takeover_at r) (conv_active_reply_plan_id r)
    (conv_canonical_identity_id r) (conv_handoff_quarantined_at r)
    (conv_handoff_quarantine_reason r) (conv_handoff_quarantine_cleared_at r)
    (conv_handoff_quarantine_clear_path r) (conv_created_at r) (conv_updated_at r).

#[export] Instance Conversation_eq_dec : EqDecision Conversation.
Proof. solve_decision. Defined.

(** [ck_conversations_handoff_consistency] *)
Definition handoff_consistency (c : Conversation) : bool :=
  match conv_status c, conv_ownership c, conv_handoff_state c with
  | CLOSED, BOT, BOT_ACTIVE | OPEN, BOT, BOT_ACTIVE =>
      is_null (conv_handoff_deadline_at c) && is_null (conv_human_pause_anchor_at c) &&
      is_null (conv_manager_takeover_at c)
  | HANDOFF, MANAGER, HUMAN_ACTIVE =>
      is_not_null (conv_handoff_deadline_at c) && is_null (conv_human_pause_anchor_at c) &&
      is_not_null (conv_manager_takeover_at c)
  | HANDOFF, MANAGER, HUMAN_PAUSE =>
      is_not_null (conv_handoff_deadline_at c) &&
      is_not_null (conv_human_pause_anchor_at c) &&
      is_not_null (conv_manager_takeover_at c)
  | _, _, _ => false
  end.

(** [ck_conversations_handoff_quarantine_consistency] *)
Definition handoff_quarantine_consistency (c : Conversation) : bool :=
  match is_not_null (conv_handoff_quarantined_at c),
        is_not_null (conv_handoff_quarantine_reason c),
        is_not_null (conv_handoff_quarantine_cleared_at c),
        is_not_null (conv_handoff_quarantine_clear_path c) with
  | false, false, false, false
  | true, true, false, false
  | true, true, true, true => true
  | _, _, _, _ => false
  end.

Definition null_or (p : string -> bool) (o : option string) : bool :=
  match o with Some s => p s | None => true end.

(** All CHECK constraints of [conversations]. *)
Definition conversation_checks (c : Conversation) : bool :=
  (0 <=? conv_context_version c) && (0 <=? conv_manager_epoch c) &&
  (0 <=? conv_current_event_seq c) &&
  (match conv_manager_sequence_hwm c with Some z => 0 <=? z | None => true end) &&
  handoff_consistency c && handoff_quarantine_consistency c &&
  null_or (fun s => str_in s HANDOFF_QUARANTINE_REASONS)
    (conv_handoff_quarantine_reason c) &&
  null_or (fun s => str_in s HANDOFF_QUARANTINE_CLEAR_PATHS)
    (conv_handoff_quarantine_clear_path c).

(** Integer columns within their SQL types. *)
Definition conversation_fits (c : Conversation) : bool :=
  in_int4 (conv_context_version c) && in_int4 (conv_manager_epoch c) &&
  in_int8 (conv_current_event_seq c) && in_int8_opt (conv_manager_sequence_hwm c) &&
  in_int8_opt (conv_vk_client_external_reply_hwm c).

Definition conversation_allows_automatic_reply (conversation : Conversation) : bool :=
  if is_not_null (conv_manager_takeover_at conversation) then false
  else if negb (bool_decide (conv_handoff_state conversation = BOT_ACTIVE)) then false
  else if bool_decide (conv_ownership conversation = MANAGER) then false
  else if bool_decide (conv_status conversation = HANDOFF) then false
  else if bool_decide (conv_status conversation = CLOSED) then false
  else true.

Definition handoff_expiry_quarantine_is_active (conversation : Conversation) : bool :=
  is_not_null (conv_handoff_quarantined_at conversation) &&
  is_null (conv_handoff_quarantine_cleared_at conversation).

(** ** app/models/conversation_ops_event.py *)

Inductive ConversationOpsEventType :=
  | HANDOFF_EXPIRY_QUARANTINED
  | HANDOFF_QUARANTINE_CLEARED.

#[export] Instance ConversationOpsEventType_eq_dec : EqDecision ConversationOpsEventType.
Proof. solve_decision. Defined.

Record ConversationOpsEvent := MkConversationOpsEvent {
  oe_id : uuid;
  oe_conversation_id : uuid;
  oe_created_at : instant;
  oe_event_type : ConversationOpsEventType;
  oe_reason_code : string;
  oe_clear_path : option string;
  oe_manager_epoch : Z;
  oe_context_version : Z
}.

(** CHECK constraints of [conversation_ops_events]. *)
Definition conversation_ops_event_checks (e : ConversationOpsEvent) : bool :=
  str_in (oe_reason_code e) HANDOFF_QUARANTINE_REASONS &&
  (match oe_event_type e, oe_clear_path e with
   | HANDOFF_EXPIRY_QUARANTINED, None => true
   | HANDOFF_QUARANTINE_CLEARED, Some path => str_in path HANDOFF_QUARANTINE_CLEAR_PATHS
   | _, _ => false
   end) &&
  (0 <=? oe_manager_epoch e) && (0 <=? oe_context_version e).

Definition conversation_ops_event_fits (e : ConversationOpsEvent) : bool :=
  in_int4 (oe_manager_epoch e) && in_int4 (oe_context_version e).

(** ** app/models/inbox.py *)

Inductive ProcessingStatus := INBOX_RECEIVED | INBOX_PROCESSING | INBOX_PROCESSED | INBOX_FAILED.

Record InboxMessage := MkInboxMessage {
  inbox_id : uuid;
  inbox_conversation_id : uuid;
  inbox_channel : Channel;
  inbox_external_message_id : string;
  inbox_payload_json : jdict;
  inbox_received_at : instant;
  inbox_created_at : instant;
  inbox_processing_status : ProcessingStatus;
  inbox_error_code : option string;
  inbox_conversation_event_seq : Z
}.

(** [ck_inbox_conversation_event_seq_positive]; direction and message_type have
    a single legal value each and are not stored here. *)
Definition inbox_checks (m : InboxMessage) : bool := 0 <? inbox_conversation_event_seq m.
Definition inbox_fits (m : InboxMessage) : bool := in_int8 (inbox_conversation_event_seq m).

(** ** app/models/manager_message.py *)

Definition MANAGER_MESSAGE_TEXT_MAX_LENGTH : nat := 4000.

Inductive ManagerMessageStatus := APPLIED | STALE | QUARANTINED.

#[export] Instance ManagerMessageStatus_eq_dec : EqDecision ManagerMessageStatus.
Proof. solve_decision. Defined.

Record ManagerMessage := MkManagerMessage {
  mm_id : uuid;
  mm_conversation_id : uuid;
  mm_channel : Channel;
  mm_external_message_id : string;
  mm_provider_sequence : option Z;
  mm_provider_occurred_at : option instant;
  mm_body_text : string;
  mm_status : ManagerMessageStatus;
  mm_conversation_event_seq : option Z;
  mm_classification_reason : option string;
  mm_received_at : instant;
  mm_created_at : instant
}.

#[export] Instance ManagerMessage_eta : Eta ManagerMessage := fun r =>
  MkManagerMessage (mm_id r) (mm_conversation_id r) (mm_channel r)
    (mm_external_message_id r) (mm_provider_sequence r) (mm_provider_occurred_at r)
    (mm_body_text r) (mm_status r) (mm_conversation_event_seq r)
    (mm_classification_reason r) (mm_received_at r) (mm_created_at r).

(** CHECK constraints of [manager_messages], [ck_manager_messages_classification]
    last. *)
Definition manager_message_checks (m : ManagerMessage) : bool :=
  bool_decide (mm_channel m = CHANNEL_SYNTHETIC) &&
  (match mm_provider_sequence m with Some z => 0 <=? z | None => true end) &&
  (match mm_conversation_event_seq m with Some z => 0 <? z | None => true end) &&
  (1 <=? Z.of_nat (String.length (mm_body_text m))) &&
  (Z.of_nat (String.length (mm_body_text m)) <=? Z.of_nat MANAGER_MESSAGE_TEXT_MAX_LENGTH) &&
  (match mm_status m with
   | APPLIED => is_not_null (mm_provider_sequence m) && is_not_null (mm_conversation_event_seq m)
   | STALE => is_not_null (mm_provider_sequence m) && is_null (mm_conversation_event_seq m)
   | QUARANTINED => is_null (mm_conversation_event_seq m)
   end).

Definition manager_message_fits (m : ManagerMessage) : bool :=
  in_int8_opt (mm_provider_sequence m) && in_int8_opt (mm_conversation_event_seq m).

(** ** app/models/reply_plan.py *)

Definition BOT_RESPONSE_DELAY_MS : Z := 5000.

Inductive ReplyPlanType := CLIENT_REPLY | SERVICE_SIGNAL.
Inductive ReplyPlanStatus :=
  | RP_PENDING | RP_READY | RP_PROCESSING | RP_DISPATCHED
  | RP_CANCELLED | RP_SUPERSEDED | RP_FAILED | RP_DEAD.

#[export] Instance ReplyPlanType_eq_dec : EqDecision ReplyPlanType.
Proof. solve_decision. Defined.
#[export] Instance ReplyPlanStatus_eq_dec : EqDecision ReplyPlanStatus.
Proof. solve_decision. Defined.

#[export] Instance ReplyPlanStatus_value : StrEnum ReplyPlanStatus := fun s =>
  match s with
  | RP_PENDING => "PENDING" | RP_READY => "READY" | RP_PROCESSING => "PROCESSING"
  | RP_DISPATCHED => "DISPATCHED" | RP_CANCELLED => "CANCELLED"
  | RP_SUPERSEDED => "SUPERSEDED" | RP_FAILED => "FAILED" | RP_DEAD => "DEAD"
  end.

Definition REPLY_PLAN_TRANSITIONS (current : ReplyPlanStatus) : list ReplyPlanStatus :=
  match current with
  | RP_PENDING => [RP_READY; RP_PROCESSING; RP_CANCELLED; RP_SUPERSEDED]
  | RP_READY => [RP_PROCESSING; RP_CANCELLED; RP_SUPERSEDED]
  | RP_PROCESSING => [RP_DISPATCHED; RP_FAILED; RP_DEAD; RP_CANCELLED; RP_SUPERSEDED]
  | RP_FAILED => [RP_PROCESSING; RP_DEAD; RP_CANCELLED; RP_SUPERSEDED]
  | RP_DISPATCHED | RP_CANCELLED | RP_SUPERSEDED | RP_DEAD => []
  end.

Definition TERMINAL_REPLY_PLAN_STATUSES : list ReplyPlanStatus :=
  [RP_DISPATCHED; RP_CANCELLED; RP_SUPERSEDED; RP_DEAD].

Definition reply_plan_transition_allowed (current target : ReplyPlanStatus) : bool :=
  bool_decide (target ∈ REPLY_PLAN_TRANSITIONS current).

(** [status not in TERMINAL_REPLY_PLAN_STATUSES] *)
Definition reply_plan_open (s : ReplyPlanStatus) : bool :=
  negb (bool_decide (s ∈ TERMINAL_REPLY_PLAN_STATUSES)).

Record ReplyPlan := MkReplyPlan {
  rp_id : uuid;
  rp_conversation_id : uuid;
  rp_context_version : Z;
  rp_manager_epoch : Z;
  rp_event_seq_hwm : Z;
  rp_plan_type : ReplyPlanType;
  rp_status : ReplyPlanStatus;
  rp_not_before : tstz;
  rp_bot_response_delay_ms : Z;
  rp_payload_json : jdict;
  rp_cancel_reason : option string;
  rp_lease_owner : option string;
  rp_lease_token : option uuid;
  rp_lease_version : Z;
  rp_lease_until : option instant;
  rp_attempt_count : Z;
  rp_max_attempts : Z;
  rp_correlation_id : uuid;
  rp_created_at : instant;
  rp_updated_at : instant
}.

#[export] Instance ReplyPlan_eta : Eta ReplyPlan := fun r =>
  MkReplyPlan (rp_id r) (rp_conversation_id r) (rp_context_version r) (rp_manager_epoch r)
    (rp_event_seq_hwm r) (rp_plan_type r) (rp_status r) (rp_not_before r)
    (rp_bot_response_delay_ms r) (rp_payload_json r) (rp_cancel_reason r)
    (rp_lease_owner r) (rp_lease_token r) (rp_lease_version r) (rp_lease_until r)
    (rp_attempt_count r) (rp_max_attempts r) (rp_correlation_id r) (rp_created_at r)
    (rp_updated_at r).

#[export] Instance ReplyPlan_eq_dec : EqDecision ReplyPlan.
Proof. solve_decision. Defined.

(** CHECK constraints of [reply_plans]. *)
Definition reply_plan_checks (p : ReplyPlan) : bool :=
  (0 <=? rp_bot_response_delay_ms p) && (0 <=? rp_attempt_count p) &&
  (0 <? rp_max_attempts p) && (0 <=? rp_lease_version p) &&
  (0 <=? rp_context_version p) && (0 <=? rp_manager_epoch p) && (0 <=? rp_event_seq_hwm p).

Definition reply_plan_fits (p : ReplyPlan) : bool :=
  in_int4 (rp_context_version p) && in_int4 (rp_manager_epoch p) &&
  in_int8 (rp_event_seq_hwm p) && in_int4 (rp_bot_response_delay_ms p) &&
  in_int4 (rp_lease_version p) && in_int4 (rp_attempt_count p) &&
  in_int4 (rp_max_attempts p).

(** ** app/models/outbox.py *)

Inductive DestinationType := INTERNAL_DRAFT | SYNTHETIC_OUTBOUND | VK_CLIENT_OUTBOUND.
Inductive DeliveryStatus :=
  | OB_PENDING | OB_PROCESSING | OB_ADMITTED | OB_DELIVERED
  | OB_FAILED | OB_DEAD | OB_CANCELLED.

#[export] Instance DestinationType_eq_dec : EqDecision DestinationType.
Proof. solve_decision. Defined.
#[export] Instance DeliveryStatus_eq_dec : EqDecision DeliveryStatus.
Proof. solve_decision. Defined.

#[export] Instance DestinationType_value : StrEnum DestinationType := fun d =>
  match d with
  | INTERNAL_DRAFT => "INTERNAL_DRAFT"
  | SYNTHETIC_OUTBOUND => "SYNTHETIC_OUTBOUND"
  | VK_CLIENT_OUTBOUND => "VK_CLIENT_OUTBOUND"
  end.

#[export] Instance DeliveryStatus_value : StrEnum DeliveryStatus := fun s =>
  match s with
  | OB_PENDING => "PENDING" | OB_PROCESSING => "PROCESSING" | OB_ADMITTED => "ADMITTED"
  | OB_DELIVERED => "DELIVERED" | OB_FAILED => "FAILED" | OB_DEAD => "DEAD"
  | OB_CANCELLED => "CANCELLED"
  end.

Definition OUTBOUND_TRANSITIONS (current : DeliveryStatus) : list DeliveryStatus :=
  match current with
  | OB_PENDING => [OB_PROCESSING; OB_CANCELLED]
  | OB_PROCESSING => [OB_ADMITTED; OB_FAILED; OB_DEAD; OB_CANCELLED]
  | OB_ADMITTED => [OB_DELIVERED; OB_DEAD]
  | OB_FAILED => [OB_PROCESSING; OB_DEAD; OB_CANCELLED]
  | OB_DELIVERED | OB_DEAD | OB_CANCELLED => []
  end.

Definition outbound_transition_allowed (current target : DeliveryStatus) : bool :=
  bool_decide (target ∈ OUTBOUND_TRANSITIONS current).

Record OutboxMessage := MkOutboxMessage {
  ob_id : uuid;
  ob_conversation_id : uuid;
  ob_source_inbox_id : option uuid;
  ob_reply_plan_id : option uuid;
  ob_idempotency_key : option string;
  ob_context_version : option Z;
  ob_manager_epoch : Z;
  ob_event_seq_hwm : Z;
  ob_destination_type : DestinationType;
  ob_payload_json : jdict;
  ob_delivery_status : DeliveryStatus;
  ob_not_before : option tstz;
  ob_attempt_count : Z;
  ob_max_attempts : Z;
  ob_lease_owner : option string;
  ob_lease_token : option uuid;
  ob_lease_version : Z;
  ob_lease_until : option instant;
  ob_admitted_at : option instant;
  ob_provider_message_id : option Z;
  ob_correlation_id : option uuid;
  ob_created_at : instant;
  ob_updated_at : instant
}.

#[export] Instance OutboxMessage_eta : Eta OutboxMessage := fun r =>
  MkOutboxMessage (ob_id r) (ob_conversation_id r) (ob_source_inbox_id r)
    (ob_reply_plan_id r) (ob_idempotency_key r) (ob_context_version r) (ob_manager_epoch r)
    (ob_event_seq_hwm r) (ob_destination_type r) (ob_payload_json r) (ob_delivery_status r)
    (ob_not_before r) (ob_attempt_count r) (ob_max_attempts r) (ob_lease_owner r)
    (ob_lease_token r) (ob_lease_version r) (ob_lease_until r) (ob_admitted_at r)
    (ob_provider_message_id r) (ob_correlation_id r) (ob_created_at r) (ob_updated_at r).

#[export] Instance OutboxMessage_eq_dec : EqDecision OutboxMessage.
Proof. solve_decision. Defined.

(** The destinations a worker may claim and send. *)
Definition client_destination (d : DestinationType) : bool :=
  match d with SYNTHETIC_OUTBOUND | VK_CLIENT_OUTBOUND => true | INTERNAL_DRAFT => false end.

Definition ob_unleased (o : OutboxMessage) : bool :=
  is_null (ob_lease_owner o) && is_null (ob_lease_token o) && is_null (ob_lease_until o).
Definition ob_leased (o : OutboxMessage) : bool :=
  is_not_null (ob_lease_owner o) && is_not_null (ob_lease_token o) &&
  is_not_null (ob_lease_until o).

(** CHECK constraints of [outbox_messages]: the ranges, then
    [admitted_destination], [admitted_state], [delivered_after_admission],
    [lease_complete], [unleased_states], [processing_lease] and
    [provider_message_id_positive]. *)
Definition outbox_checks (o : OutboxMessage) : bool :=
  (0 <=? ob_attempt_count o) && (0 <? ob_max_attempts o) && (0 <=? ob_lease_version o) &&
  (0 <=? ob_manager_epoch o) && (0 <=? ob_event_seq_hwm o) &&
  (is_null (ob_admitted_at o) ||
   (client_destination (ob_destination_type o) &&
    match ob_delivery_status o with
    | OB_ADMITTED | OB_DELIVERED | OB_DEAD => true | _ => false
    end)) &&
  (match ob_delivery_status o with
   | OB_ADMITTED =>
       client_destination (ob_destination_type o) && is_not_null (ob_admitted_at o)
   | _ => true
   end) &&
  (negb (client_destination (ob_destination_type o)) ||
   negb (bool_decide (ob_delivery_status o = OB_DELIVERED)) ||
   is_not_null (ob_admitted_at o)) &&
  (ob_unleased o || ob_leased o) &&
  (match ob_delivery_status o with
   | OB_PENDING | OB_FAILED | OB_DELIVERED | OB_DEAD | OB_CANCELLED => ob_unleased o
   | OB_PROCESSING => ob_leased o
   | OB_ADMITTED => true
   end) &&
  (match ob_provider_message_id o with Some z => 0 <? z | None => true end).

Definition outbox_fits (o : OutboxMessage) : bool :=
  (match ob_context_version o with Some z => in_int4 z | None => true end) &&
  in_int4 (ob_manager_epoch o) && in_int8 (ob_event_seq_hwm o) &&
  in_int4 (ob_attempt_count o) && in_int4 (ob_max_attempts o) &&
  in_int4 (ob_lease_version o) && in_int8_opt (ob_provider_message_id o).

(** ** app/models/amocrm_mirror.py *)

Definition MIRROR_PAYLOAD_SCHEMA : string := "amocrm.mirror.job.v1".
Definition DEFAULT_MIRROR_MAX_ATTEMPTS : Z := 5.

Inductive AmoCrmMirrorJobType :=
  | CLIENT_MESSAGE_RECEIVED_META | REPLY_PLAN_STATE_CHANGED
  | MANAGER_TAKEOVER | OUTBOUND_DELIVERED_META.
Inductive AmoCrmMirrorSubjectKind :=
  | SUBJECT_CONVERSATION | SUBJECT_INBOX_MESSAGE | SUBJECT_REPLY_PLAN | SUBJECT_OUTBOX_MESSAGE.
Inductive AmoCrmMirrorStatus :=
  | MJ_PENDING | MJ_PROCESSING | MJ_MIRRORED | MJ_SKIPPED | MJ_FAILED | MJ_DEAD.
Inductive AmoCrmMirrorSkipReason :=
  | SKIP_MANAGER_TAKEOVER | SKIP_STALE_CONTEXT | SKIP_SUBJECT_STATE_CHANGED.

#[export] Instance AmoCrmMirrorJobType_eq_dec : EqDecision AmoCrmMirrorJobType.
Proof. solve_decision. Defined.
#[export] Instance AmoCrmMirrorSubjectKind_eq_dec : EqDecision AmoCrmMirrorSubjectKind.
Proof. solve_decision. Defined.
#[export] Instance AmoCrmMirrorStatus_eq_dec : EqDecision AmoCrmMirrorStatus.
Proof. solve_decision. Defined.
#[export] Instance AmoCrmMirrorSkipReason_eq_dec : EqDecision AmoCrmMirrorSkipReason.
Proof. solve_decision. Defined.

#[export] Instance AmoCrmMirrorJobType_value : StrEnum AmoCrmMirrorJobType := fun t =>
  match t with
  | CLIENT_MESSAGE_RECEIVED_META => "CLIENT_MESSAGE_RECEIVED_META"
  | REPLY_PLAN_STATE_CHANGED => "REPLY_PLAN_STATE_CHANGED"
  | MANAGER_TAKEOVER => "MANAGER_TAKEOVER"
  | OUTBOUND_DELIVERED_META => "OUTBOUND_DELIVERED_META"
  end.
#[export] Instance AmoCrmMirrorSubjectKind_value : StrEnum AmoCrmMirrorSubjectKind := fun k =>
  match k with
  | SUBJECT_CONVERSATION => "CONVERSATION"
  | SUBJECT_INBOX_MESSAGE => "INBOX_MESSAGE"
  | SUBJECT_REPLY_PLAN => "REPLY_PLAN"
  | SUBJECT_OUTBOX_MESSAGE => "OUTBOX_MESSAGE"
  end.
#[export] Instance AmoCrmMirrorSkipReason_value : StrEnum AmoCrmMirrorSkipReason := fun r =>
  match r with
  | SKIP_MANAGER_TAKEOVER => "MANAGER_TAKEOVER"
  | SKIP_STALE_CONTEXT => "STALE_CONTEXT"
  | SKIP_SUBJECT_STATE_CHANGED => "SUBJECT_STATE_CHANGED"
  end.

Definition AMOCRM_MIRROR_TRANSITIONS (current : AmoCrmMirrorStatus)
    : list AmoCrmMirrorStatus :=
  match current with
  | MJ_PENDING => [MJ_PROCESSING]
  | MJ_PROCESSING => [MJ_MIRRORED; MJ_SKIPPED; MJ_FAILED; MJ_DEAD]
  | MJ_FAILED => [MJ_PROCESSING; MJ_DEAD]
  | MJ_MIRRORED | MJ_SKIPPED | MJ_DEAD => []
  end.

Definition amocrm_mirror_transition_allowed (current target : AmoCrmMirrorStatus) : bool :=
  bool_decide (target ∈ AMOCRM_MIRROR_TRANSITIONS current).

Definition ALLOWED_MIRROR_PAYLOAD_KEYS : list string :=
  [ "schema"; "job_type"; "subject_kind"; "subject_id"; "conversation_id";
    "context_version"; "subject_status" ].
Definition FORBIDDEN_MIRROR_PAYLOAD_KEYS : list string :=
  [ "text"; "draft_text"; "phone"; "email"; "client_name"; "external_conversation_id";
    "external_message_id"; "external_event_id"; "envelope_json"; "payload_json" ].

(** [isinstance(value, (str, int)) and not isinstance(value, bool)] *)
Definition flat_scalar (v : json) : bool :=
  match v with JStr _ | JInt _ => true | _ => false end.

Definition assert_mirror_payload_is_safe {E S} (payload : jdict) : M E S unit :=
  let keys := payload.*1 in
  if existsb (fun k => str_in k FORBIDDEN_MIRROR_PAYLOAD_KEYS) keys
  then raise MirrorPayloadViolation "MIRROR_PAYLOAD_FORBIDDEN_KEY"
  else if negb (forallb (fun k => str_in k ALLOWED_MIRROR_PAYLOAD_KEYS) keys)
  then raise MirrorPayloadViolation "MIRROR_PAYLOAD_KEY_NOT_ALLOWED"
  else if negb (bool_decide (jget payload "schema" = Some (JStr MIRROR_PAYLOAD_SCHEMA)))
  then raise MirrorPayloadViolation "MIRROR_PAYLOAD_SCHEMA_MISMATCH"
  else if negb (forallb flat_scalar payload.*2)
  then raise MirrorPayloadViolation "MIRROR_PAYLOAD_VALUE_NOT_ALLOWED"
  else mret tt.

Definition safe_mirror_payload {E S} (job_type : AmoCrmMirrorJobType)
    (subject_kind : AmoCrmMirrorSubjectKind) (subject_id conversation_id : uuid)
    (context_version : option Z) (subject_status : option string) : M E S jdict :=
  let payload :=
    [ ("schema", JStr MIRROR_PAYLOAD_SCHEMA);
      ("job_type", JStr (enum_value job_type));
      ("subject_kind", JStr (enum_value subject_kind));
      ("subject_id", JStr (uuid_str subject_id));
      ("conversation_id", JStr (uuid_str conversation_id)) ] in
  let payload :=
    match context_version with
    | Some v => jset payload "context_version" (JInt v)
    | None => payload
    end in
  let payload :=
    match subject_status with
    | Some s => jset payload "subject_status" (JStr s)
    | None => payload
    end in
  _ ← assert_mirror_payload_is_safe payload;
  mret payload.

Definition client_message_mirror_key (inbox_id : uuid) : string :=
  "client-message-meta:" +:+ uuid_str inbox_id.
Definition reply_plan_state_mirror_key (plan_id : uuid) (status : string) : string :=
  "reply-plan-state:" +:+ uuid_str plan_id +:+ ":" +:+ status.
Definition manager_takeover_mirror_key (conversation_id : uuid) : string :=
  "manager-takeover:" +:+ uuid_str conversation_id.
Definition outbound_delivered_mirror_key (outbound_id : uuid) : string :=
  "outbound-delivered:" +:+ uuid_str outbound_id.

Record AmoCrmMirrorJob := MkAmoCrmMirrorJob {
  mj_id : uuid;
  mj_job_type : AmoCrmMirrorJobType;
  mj_subject_kind : AmoCrmMirrorSubjectKind;
  mj_subject_id : uuid;
  mj_conversation_id : uuid;
  mj_context_version : option Z;
  mj_mirror_key : string;
  mj_status : AmoCrmMirrorStatus;
  mj_payload_json : jdict;
  mj_attempt_count : Z;
  mj_max_attempts : Z;
  mj_next_attempt_at : option instant;
  mj_lease_owner : option string;
  mj_lease_token : option uuid;
  mj_lease_version : Z;
  mj_lease_until : option instant;
  mj_correlation_id : uuid;
  mj_error_code : option string;
  mj_skip_reason : option string;
  mj_created_at : instant;
  mj_updated_at : instant
}.

#[export] Instance AmoCrmMirrorJob_eta : Eta AmoCrmMirrorJob := fun r =>
  MkAmoCrmMirrorJob (mj_id r) (mj_job_type r) (mj_subject_kind r) (mj_subject_id r)
    (mj_conversation_id r) (mj_context_version r) (mj_mirror_key r) (mj_status r)
    (mj_payload_json r) (mj_attempt_count r) (mj_max_attempts r) (mj_next_attempt_at r)
    (mj_lease_owner r) (mj_lease_token r) (mj_lease_version r) (mj_lease_until r)
    (mj_correlation_id r) (mj_error_code r) (mj_skip_reason r) (mj_created_at r)
    (mj_updated_at r).

(** CHECK constraints of [amocrm_mirror_jobs]. *)
Definition mirror_job_checks (j : AmoCrmMirrorJob) : bool :=
  (0 <=? mj_attempt_count j) && (0 <? mj_max_attempts j) && (0 <=? mj_lease_version j) &&
  (match mj_context_version j with Some z => 0 <=? z | None => true end).

Definition mirror_job_fits (j : AmoCrmMirrorJob) : bool :=
  (match mj_context_version j with Some z => in_int4 z | None => true end) &&
  in_int4 (mj_attempt_count j) && in_int4 (mj_max_attempts j) && in_int4 (mj_lease_version j).

(** ** app/models/amocrm_message_projection.py *)

Definition INTEGRATION_MSGID_MAX_LENGTH : nat := 40.
Definition DEFAULT_PROJECTION_MAX_ATTEMPTS : Z := 5.

Inductive AmocrmProjectionSourceKind := CLIENT_INBOUND | BOT_OUTBOUND.
Inductive AmocrmProjectionStatus :=
  | PJ_PENDING | PJ_PROCESSING | PJ_PROJECTED | PJ_SKIPPED | PJ_FAILED | PJ_DEAD.

#[export] Instance AmocrmProjectionSourceKind_eq_dec : EqDecision AmocrmProjectionSourceKind.
Proof. solve_decision. Defined.
#[export] Instance AmocrmProjectionStatus_eq_dec : EqDecision AmocrmProjectionStatus.
Proof. solve_decision. Defined.

Definition AMOCRM_PROJECTION_TRANSITIONS (current : AmocrmProjectionStatus)
    : list AmocrmProjectionStatus :=
  match current with
  | PJ_PENDING => [PJ_PROCESSING]
  | PJ_PROCESSING => [PJ_PROJECTED; PJ_SKIPPED; PJ_FAILED; PJ_DEAD]
  | PJ_FAILED => [PJ_PROCESSING; PJ_DEAD]
  | PJ_PROJECTED | PJ_SKIPPED | PJ_DEAD => []
  end.

Definition amocrm_projection_transition_allowed (current target : AmocrmProjectionStatus)
    : bool := bool_decide (target ∈ AMOCRM_PROJECTION_TRANSITIONS current).

Definition integration_msgid_for_source {E S} (source_kind : AmocrmProjectionSourceKind)
    (source_id : uuid) : M E S string :=
  let prefix := match source_kind with CLIENT_INBOUND => "c" | BOT_OUTBOUND => "b" end in
  let msgid := prefix +:+ uuid_hex source_id in
  if (INTEGRATION_MSGID_MAX_LENGTH <? String.length msgid)%nat
  then raise ValueError "INTEGRATION_MSGID_TOO_LONG"
  else mret msgid.

Record AmocrmMessageProjection := MkAmocrmMessageProjection {
  pj_id : uuid;
  pj_conversation_id : uuid;
  pj_source_kind : AmocrmProjectionSourceKind;
  pj_source_id : uuid;
  pj_integration_msgid : string;
  pj_amocrm_message_id : option string;
  pj_status : AmocrmProjectionStatus;
  pj_attempt_count : Z;
  pj_max_attempts : Z;
  pj_next_attempt_at : option instant;
  pj_lease_owner : option string;
  pj_lease_token : option uuid;
  pj_lease_version : Z;
  pj_lease_until : option instant;
  pj_skip_reason : option string;
  pj_error_code : option string;
  pj_correlation_id : uuid;
  pj_created_at : instant;
  pj_updated_at : instant
}.

#[export] Instance AmocrmMessageProjection_eta : Eta AmocrmMessageProjection := fun r =>
  MkAmocrmMessageProjection (pj_id r) (pj_conversation_id r) (pj_source_kind r)
    (pj_source_id r) (pj_integration_msgid r) (pj_amocrm_message_id r) (pj_status r)
    (pj_attempt_count r) (pj_max_attempts r) (pj_next_attempt_at r) (pj_lease_owner r)
    (pj_lease_token r) (pj_lease_version r) (pj_lease_until r) (pj_skip_reason r)
    (pj_error_code r) (pj_correlation_id r) (pj_created_at r) (pj_updated_at r).

(** [integration_msgid ~ '^[cb][0-9a-f]{32}$'] *)
Definition integration_msgid_format (msgid : string) : bool :=
  str_matches ((fun c => is_char "c"%char c || is_char "b"%char c) :: replicate 32 is_lower_hex)
    msgid.

(** CHECK constraints of [amocrm_message_projections]. *)
Definition projection_checks (p : AmocrmMessageProjection) : bool :=
  (0 <=? pj_attempt_count p) && (0 <? pj_max_attempts p) && (0 <=? pj_lease_version p) &&
  integration_msgid_format (pj_integration_msgid p) &&
  (match pj_status p with
   | PJ_PROJECTED => is_not_null (pj_amocrm_message_id p) | _ => true
   end).

Definition projection_fits (p : AmocrmMessageProjection) : bool :=
  in_int4 (pj_attempt_count p) && in_int4 (pj_max_attempts p) && in_int4 (pj_lease_version p).

(** ** app/models/ingress.py *)

Inductive IngressEventType :=
  | SYNTHETIC_MESSAGE | AMOCRM_MANAGER_MESSAGE | VK_CLIENT_MESSAGE | VK_CLIENT_MESSAGE_REPLY.
Inductive IngressChannel := INGRESS_SYNTHETIC | INGRESS_AMOCRM | INGRESS_VK.
Inductive IngressStatus :=
  | ING_RECEIVED | ING_PROCESSING | ING_PROCESSED | ING_FAILED | ING_DEAD.

#[export] Instance IngressEventType_eq_dec : EqDecision IngressEventType.
Proof. solve_decision. Defined.
#[export] Instance IngressChannel_eq_dec : EqDecision IngressChannel.
Proof. solve_decision. Defined.
#[export] Instance IngressStatus_eq_dec : EqDecision IngressStatus.
Proof. solve_decision. Defined.

Definition INGRESS_TRANSITIONS (current : IngressStatus) : list IngressStatus :=
  match current with
  | ING_RECEIVED => [ING_PROCESSING]
  | ING_PROCESSING => [ING_PROCESSED; ING_FAILED; ING_DEAD]
  | ING_FAILED => [ING_PROCESSING; ING_DEAD]
  | ING_PROCESSED | ING_DEAD => []
  end.

Definition ingress_transition_allowed (current target : IngressStatus) : bool :=
  bool_decide (target ∈ INGRESS_TRANSITIONS current).

Record IngressEvent := MkIngressEvent {
  ing_id : uuid;
  ing_channel : IngressChannel;
  ing_external_event_id : string;
  ing_external_conversation_id : string;
  ing_event_type : IngressEventType;
  ing_status : IngressStatus;
  ing_attempt_count : Z;
  ing_max_attempts : Z;
  ing_next_attempt_at : option instant;
  ing_lease_owner : option string;
  ing_lease_token : option uuid;
  ing_lease_version : Z;
  ing_lease_until : option instant;
  ing_correlation_id : uuid;
  ing_envelope_json : jdict;
  ing_error_code : option string;
  ing_created_at : instant;
  ing_updated_at : instant
}.

#[export] Instance IngressEvent_eta : Eta IngressEvent := fun r =>
  MkIngressEvent (ing_id r) (ing_channel r) (ing_external_event_id r)
    (ing_external_conversation_id r) (ing_event_type r) (ing_status r) (ing_attempt_count r)
    (ing_max_attempts r) (ing_next_attempt_at r) (ing_lease_owner r) (ing_lease_token r)
    (ing_lease_version r) (ing_lease_until r) (ing_correlation_id r) (ing_envelope_json r)
    (ing_error_code r) (ing_created_at r) (ing_updated_at r).

(** CHECK constraints of [ingress_events], [ck_ingress_channel_event_pairing]
    last. *)
Definition ingress_checks (e : IngressEvent) : bool :=
  (0 <=? ing_attempt_count e) && (0 <? ing_max_attempts e) && (0 <=? ing_lease_version e) &&
  match ing_channel e, ing_event_type e with
  | INGRESS_SYNTHETIC, SYNTHETIC_MESSAGE
  | INGRESS_AMOCRM, AMOCRM_MANAGER_MESSAGE
  | INGRESS_VK, VK_CLIENT_MESSAGE
  | INGRESS_VK, VK_CLIENT_MESSAGE_REPLY => true
  | _, _ => false
  end.

Definition ingress_fits (e : IngressEvent) : bool :=
  in_int4 (ing_attempt_count e) && in_int4 (ing_max_attempts e) && in_int4 (ing_lease_version e).

(** ** app/models/amocrm_chat_binding.py *)

Inductive AmocrmChatBindingStatus := BINDING_ACTIVE | BINDING_REVOKED.

#[export] Instance AmocrmChatBindingStatus_eq_dec : EqDecision AmocrmChatBindingStatus.
Proof. solve_decision. Defined.

Record AmocrmChatBinding := MkAmocrmChatBinding {
  cb_id : uuid;
  cb_conversation_id : uuid;
  cb_amocrm_chat_id : string;
  cb_integration_conversation_id : option string;
  cb_status : AmocrmChatBindingStatus;
  cb_created_at : instant;
  cb_updated_at : instant
}.

#[export] Instance AmocrmChatBinding_eta : Eta AmocrmChatBinding := fun r =>
  MkAmocrmChatBinding (cb_id r) (cb_conversation_id r) (cb_amocrm_chat_id r)
    (cb_integration_conversation_id r) (cb_status r) (cb_created_at r) (cb_updated_at r).

(** CHECK constraints of [amocrm_chat_bindings]. *)
Definition chat_binding_checks (b : AmocrmChatBinding) : bool :=
  negb (String.eqb (cb_amocrm_chat_id b) "") &&
  match cb_integration_conversation_id b with
  | Some value => negb (String.eqb value "")
  | None => true
  end.

(** ** app/models/self_booking_active_offer.py, one row per conversation *)

Record SelfBookingActiveOffer := MkSelfBookingActiveOffer {
  ao_conversation_id : uuid;
  ao_source_outbound_id : uuid;
  ao_source_context_version : Z;
  ao_source_manager_epoch : Z;
  ao_source_event_seq_hwm : Z;
  ao_offered_slots : list json;
  ao_activated_at : instant;
  ao_updated_at : instant
}.

#[export] Instance SelfBookingActiveOffer_eta : Eta SelfBookingActiveOffer := fun r =>
  MkSelfBookingActiveOffer (ao_conversation_id r) (ao_source_outbound_id r)
    (ao_source_context_version r) (ao_source_manager_epoch r) (ao_source_event_seq_hwm r)
    (ao_offered_slots r) (ao_activated_at r) (ao_updated_at r).

(** CHECK constraints of [self_booking_active_offers]. *)
Definition active_offer_checks (o : SelfBookingActiveOffer) : bool :=
  (0 <=? ao_source_context_version o) && (0 <=? ao_source_manager_epoch o) &&
  (0 <=? ao_source_event_seq_hwm o) &&
  (1 <=? Z.of_nat (length (ao_offered_slots o))) &&
  (Z.of_nat (length (ao_offered_slots o)) <=? 3).

Definition active_offer_fits (o : SelfBookingActiveOffer) : bool :=
  in_int4 (ao_source_context_version o) && in_int4 (ao_source_manager_epoch o) &&
  in_int4 (ao_source_event_seq_hwm o).

(** ** app/models/ephemeral_pii.py *)

Inductive EphemeralPiiKind := PII_PHONE | PII_CLIENT_NAME.

#[export] Instance EphemeralPiiKind_eq_dec : EqDecision EphemeralPiiKind.
Proof. solve_decision. Defined.

Inductive EphemeralPiiPurpose :=
  | BOOKING_PHONE_WRITE | APPROVED_STAFF_ALERT_PHONE | AMOCRM_CONTACT_SYNC
  | MASTER_BOOKING_CLIENT_WRITE.

#[export] Instance EphemeralPiiPurpose_eq_dec : EqDecision EphemeralPiiPurpose.
Proof. solve_decision. Defined.

(** Byte columns hold strings of 8-bit characters. *)
Record EphemeralPiiValue := MkEphemeralPiiValue {
  ep_id : uuid;
  ep_reference_digest : string;
  ep_conversation_id : uuid;
  ep_pii_kind : EphemeralPiiKind;
  ep_allowed_purpose : EphemeralPiiPurpose;
  ep_ciphertext : string;
  ep_nonce : string;
  ep_key_id : string;
  ep_crypto_version : Z;
  ep_created_at : instant;
  ep_expires_at : instant
}.

(** [~ '^[A-Z0-9_]{1,64}$'] *)
Definition key_id_token (value : string) : bool :=
  (1 <=? String.length value)%nat && (String.length value <=? 64)%nat &&
  str_forall (fun c => is_digit c || char_between 65 90 c || is_char "_"%char c) value.

(** CHECK constraints of [ephemeral_pii_values]; the enumerated columns have
    enumerated types. *)
Definition ephemeral_pii_checks (v : EphemeralPiiValue) : bool :=
  (String.length (ep_reference_digest v) =? 32)%nat && (String.length (ep_nonce v) =? 12)%nat &&
  (16 <=? String.length (ep_ciphertext v))%nat && (ep_crypto_version v =? 1) &&
  key_id_token (ep_key_id v) && (ep_created_at v <? ep_expires_at v).

(** ** app/models/self_booking_pii_admission.py *)

Record SelfBookingPiiAdmission := MkSelfBookingPiiAdmission {
  pa_id : uuid;
  pa_conversation_id : uuid;
  pa_request_id : string;
  pa_phone_ref_token : string;
  pa_name_ref_token : string;
  pa_content_mac : string;
  pa_mac_key_id : string;
  pa_created_at : instant
}.

(** [char_length(...) BETWEEN lo AND hi] *)
Definition char_length_between (lo hi : nat) (value : string) : bool :=
  (lo <=? String.length value)%nat && (String.length value <=? hi)%nat.

(** CHECK constraints of [self_booking_pii_admissions]. *)
Definition pii_admission_checks (a : SelfBookingPiiAdmission) : bool :=
  printable_id 128 (pa_request_id a) && char_length_between 1 64 (pa_phone_ref_token a) &&
  char_length_between 1 64 (pa_name_ref_token a) && (String.length (pa_content_mac a) =? 32)%nat &&
  key_id_token (pa_mac_key_id a).

(** ** app/models/self_booking_create_pending.py *)

Inductive SelfBookingCreatePendingState :=
  | SB_READY | SB_EXECUTING | SB_SUCCEEDED | SB_FAILED | SB_CANCELLED | SB_EXPIRED.

#[export] Instance SelfBookingCreatePendingState_eq_dec :
  EqDecision SelfBookingCreatePendingState.
Proof. solve_decision. Defined.

Definition ACTIVE_SELF_BOOKING_CREATE_STATES : list SelfBookingCreatePendingState :=
  [SB_READY; SB_EXECUTING].

Definition self_booking_active (s : SelfBookingCreatePendingState) : bool :=
  bool_decide (s ∈ ACTIVE_SELF_BOOKING_CREATE_STATES).

Record SelfBookingCreatePending := MkSelfBookingCreatePending {
  sb_id : uuid;
  sb_conversation_id : uuid;
  sb_channel : string;
  sb_confirm_external_message_id : string;
  sb_state : SelfBookingCreatePendingState;
  sb_command_version : Z;
  sb_attempt_count : Z;
  sb_max_attempts : Z;
  sb_idempotency_key : string;
  sb_slot_id : string;
  sb_starts_at : string;
  sb_fence_context_version : Z;
  sb_fence_manager_epoch : Z;
  sb_fence_event_seq_hwm : Z;
  sb_phone_ref_token : string;
  sb_name_ref_token : string;
  sb_execution_lease_token : option uuid;
  sb_execution_lease_expires_at : option instant;
  sb_result_code : option string;
  sb_result_outcome : option string;
  sb_created_at : instant;
  sb_updated_at : instant
}.

#[export] Instance SelfBookingCreatePending_eta : Eta SelfBookingCreatePending := fun r =>
  MkSelfBookingCreatePending (sb_id r) (sb_conversation_id r) (sb_channel r)
    (sb_confirm_external_message_id r) (sb_state r) (sb_command_version r)
    (sb_attempt_count r) (sb_max_attempts r) (sb_idempotency_key r) (sb_slot_id r)
    (sb_starts_at r) (sb_fence_context_version r) (sb_fence_manager_epoch r)
    (sb_fence_event_seq_hwm r) (sb_phone_ref_token r) (sb_name_ref_token r)
    (sb_execution_lease_token r) (sb_execution_lease_expires_at r) (sb_result_code r)
    (sb_result_outcome r) (sb_created_at r) (sb_updated_at r).

(** CHECK constraints of [self_booking_create_pendings]; both consent columns
    are constrained to TRUE and are not stored here. *)
Definition create_pending_checks (p : SelfBookingCreatePending) : bool :=
  String.eqb (sb_channel p) "synthetic" &&
  (1 <=? sb_command_version p) && (0 <=? sb_attempt_count p) && (1 <=? sb_max_attempts p) &&
  (0 <=? sb_fence_context_version p) && (0 <=? sb_fence_manager_epoch p) &&
  (0 <=? sb_fence_event_seq_hwm p) &&
  printable_id 128 (sb_confirm_external_message_id p) &&
  char_length_between 1 128 (sb_slot_id p) && canonical_uuid (sb_idempotency_key p) &&
  char_length_between 1 64 (sb_phone_ref_token p) &&
  char_length_between 1 64 (sb_name_ref_token p).

Definition create_pending_fits (p : SelfBookingCreatePending) : bool :=
  in_int4 (sb_command_version p) && in_int4 (sb_attempt_count p) &&
  in_int4 (sb_max_attempts p) && in_int4 (sb_fence_context_version p) &&
  in_int4 (sb_fence_manager_epoch p) && in_int4 (sb_fence_event_seq_hwm p).
