(* ===== verification/Database.v ===== *)
(** * The database session: tables, statements, clock, transactions

    A [Database] holds one finite map per table, keyed by primary key.  The
    [Table] class says, for one row type, which map holds it and which
    constraints PostgreSQL enforces on it; the statements below (INSERT,
    INSERT ... ON CONFLICT DO NOTHING, UPDATE ... WHERE, DELETE, SELECT) are
    written once for every table and raise what the driver raises when a
    statement violates a constraint.  Models src/app/db/clock.py and
    src/app/db/session.py and the meaning of the SQL the repositories emit. *)

From S2P Require Import Prelude Models.

(** ** Stores and environments *)

Record Database := MkDatabase {
  db_conversations : gmap uuid Conversation;
  db_ops_events : gmap uuid ConversationOpsEvent;
  db_inbox_messages : gmap uuid InboxMessage;
  db_manager_messages : gmap uuid ManagerMessage;
  db_reply_plans : gmap uuid ReplyPlan;
  db_outbox_messages : gmap uuid OutboxMessage;
  db_mirror_jobs : gmap uuid AmoCrmMirrorJob;
  db_projections : gmap uuid AmocrmMessageProjection;
  db_ingress_events : gmap uuid IngressEvent;
  db_active_offers : gmap uuid SelfBookingActiveOffer;
  db_create_pendings : gmap uuid SelfBookingCreatePending;
  db_pii_admissions : gmap uuid SelfBookingPiiAdmission;
  db_chat_bindings : gmap uuid AmocrmChatBinding;
  db_pii_values : gmap uuid EphemeralPiiValue;
  db_uuid_supply : N;
  db_statement_clock : nat
}.

#[export] Instance Database_eta : Eta Database := fun s =>
  MkDatabase (db_conversations s) (db_ops_events s) (db_inbox_messages s)
    (db_manager_messages s) (db_reply_plans s) (db_outbox_messages s) (db_mirror_jobs s)
    (db_projections s) (db_ingress_events s) (db_active_offers s) (db_create_pendings s)
    (db_pii_admissions s) (db_chat_bindings s) (db_pii_values s) (db_uuid_supply s)
    (db_statement_clock s).

Definition empty_database : Database := MkDatabase ∅ ∅ ∅ ∅ ∅ ∅ ∅ ∅ ∅ ∅ ∅ ∅ ∅ ∅ 0%N 0.

(** What one transaction reads from outside the database: [now()], the
    successive values of [statement_timestamp()], the rows other transactions
    hold locked (what SKIP LOCKED skips), and the chat egress switch. *)
Record Env := MkEnv {
  env_now : instant;
  env_statement_timestamp : nat -> instant;
  env_locked : uuid -> bool;
  env_wall_clock : instant;
  env_chat_egress_enabled : bool
}.

Definition Session := M Env Database.

(** ** UUID generation

    [uuid4] must not repeat and must produce version 4, variant 1 values: the
    n-th UUID spreads n over the free bits. *)

Definition uuid4_of (n : N) : uuid :=
  (n mod 2 ^ 62 + 2 ^ 63 + n / 2 ^ 62 mod 2 ^ 12 * 2 ^ 64 + 4 * 2 ^ 76 +
   n / 2 ^ 74 * 2 ^ 80)%N.

(** The number a UUID was made from. *)
Definition uuid4_rank (u : uuid) : N :=
  (u mod 2 ^ 62 + u / 2 ^ 64 mod 2 ^ 12 * 2 ^ 62 + u / 2 ^ 80 * 2 ^ 74)%N.

Lemma uuid4_rank_of n : uuid4_rank (uuid4_of n) = n.
Proof.
  unfold uuid4_rank, uuid4_of.
  set (a := (n mod 2 ^ 62)%N). set (b := (n / 2 ^ 62 mod 2 ^ 12)%N).
  set (c := (n / 2 ^ 74)%N).
  assert (a < 2 ^ 62)%N by (apply N.mod_lt; lia).
  assert (b < 2 ^ 12)%N by (apply N.mod_lt; lia).
  assert (n = a + b * 2 ^ 62 + c * 2 ^ 74)%N as Hn.
  { unfold a, b, c. replace (2 ^ 74)%N with (2 ^ 62 * 2 ^ 12)%N by reflexivity.
    rewrite <- N.Div0.div_div.
    pose proof (N.div_mod n (2 ^ 62) ltac:(lia)).
    pose proof (N.div_mod (n / 2 ^ 62) (2 ^ 12) ltac:(lia)). lia. }
  clearbody a b c. subst n.
  rewrite <- (N.mod_unique _ (2 ^ 62) (2 + b * 4 + 4 * 2 ^ 14 + c * 2 ^ 18) a) by lia.
  rewrite <- (N.div_unique _ (2 ^ 64) (b + 4 * 2 ^ 12 + c * 2 ^ 16) (a + 2 ^ 63)) by lia.
  rewrite <- (N.mod_unique _ (2 ^ 12) (4 + c * 2 ^ 4) b) by lia.
  rewrite <- (N.div_unique _ (2 ^ 80) c (a + 2 ^ 63 + b * 2 ^ 64 + 4 * 2 ^ 76)) by lia.
  reflexivity.
Qed.

Definition uuid4 : Session uuid := fun _ s =>
  (Returned (uuid4_of (db_uuid_supply s)), s <| db_uuid_supply ::= N.succ |>).

(** ** Clock: app/db/clock.py *)

Definition db_now : Session instant := env ← get_env; mret (env_now env).

Definition db_statement_now : Session instant := fun env s =>
  (Returned (env_statement_timestamp env (db_statement_clock s)),
   s <| db_statement_clock ::= S |>).

Definition resolve_moment (now : option instant) : Session instant :=
  match now with Some moment => mret moment | None => db_now end.

(** ** Transactions: app/db/session.py

    [session_scope]: commit what the body did when it returns, restore the
    database when it raises. *)

Definition session_scope {A} (body : Session A) : Session A := fun env s =>
  match body env s with
  | (Returned a, s') => (Returned a, s')
  | (Raised e, _) => (Raised e, s)
  end.

(** Driver errors abort the PostgreSQL transaction; a Python [except] in the
    same transaction cannot continue it. *)
Definition aborts_transaction (e : exn) : bool :=
  match exn_class e with IntegrityError | DBAPIError => true | _ => false end.

(** [try: body except <handled>] inside a transaction.  After a driver error the
    next statement fails with InFailedSQLTransaction, so the handler's outcome
    is replaced by that error. *)
Definition try_in_transaction {A} (body : Session A) (handled : exn -> bool)
    (handler : exn -> Session A) : Session A :=
  try_except body handled (fun e =>
    if aborts_transaction e then raise DBAPIError "InFailedSQLTransactionError"
    else handler e).

(** [async with session.begin_nested()]: a savepoint. *)
Definition begin_nested {A} (body : Session A) : Session A := session_scope body.

(** ** Workers: several transactions in a row

    A worker owns a session factory and runs one transaction after another,
    with calls to the outside in between.  [interfere n] is everything other
    workers commit before its n-th transaction, which runs in the n-th
    environment; [w_calls] is the log of calls to the outside and
    [w_delivered_ids] the memory of the in-process sink. *)

Inductive external_call :=
  | BookingFlowCall (plan_payload : jdict)
  | CrmMirrorCall (job_id : uuid)
  | SinkCall (outbound_id : string) (text : option string)
  | VkSendCall (peer_id : Z) (text : string) (outbound_id : uuid)
  | BookingCreatePost (url body : string).

Record World := MkWorld {
  w_transactions : nat;
  w_db : Database;
  w_calls : list external_call;
  w_delivered_ids : list string
}.

#[export] Instance World_eta : Eta World := fun w =>
  MkWorld (w_transactions w) (w_db w) (w_calls w) (w_delivered_ids w).

Class Interference := interfere : nat -> Database -> Database.

Definition Process := M (nat -> Env) World.

Definition transaction `{Interference} {A} (body : Session A) : Process A :=
  fun envs w =>
    let n := w_transactions w in
    let '(r, s') := session_scope body (envs n) (interfere n (w_db w)) in
    (r, w <| w_transactions := S n |> <| w_db := s' |>).

(** A call to the outside: logged, then answered; the n-th call of the world may
    answer differently from the others. *)
Definition call_outside {E B} (call : external_call) (answer : nat -> result B)
    : M E World B := fun _ w =>
  (answer (length (w_calls w)), w <| w_calls ::= fun calls => calls ++ [call] |>).

(** A transaction that calls the outside while it is open: [stmt] runs statements
    on the database it sees, and a rollback does not undo the calls. *)
Definition Within := M Env World.

Definition stmt {A} (body : Session A) : Within A := fun env w =>
  let '(r, s') := body env (w_db w) in (r, w <| w_db := s' |>).

Definition calling_transaction `{Interference} {A} (body : Within A) : Process A :=
  fun envs w =>
    let n := w_transactions w in
    let w0 := w <| w_transactions := S n |> <| w_db := interfere n (w_db w) |> in
    match body (envs n) w0 with
    | (Returned a, w') => (Returned a, w')
    | (Raised e, w') => (Raised e, w' <| w_db := w_db w0 |>)
    end.

(** The interference-free world. *)
Definition alone : Interference := fun _ s => s.

(** ** Tables *)

Class Table (R : Type) := {
  table_get : Database -> gmap uuid R;
  table_set : gmap uuid R -> Database -> Database;
  row_id : R -> uuid;
  row_fits : R -> bool;
  row_checks : R -> bool;
  (** Some UNIQUE constraint (but the primary key) rejects the two rows together. *)
  row_conflict : R -> R -> bool;
  (** Every foreign key of the row has its target. *)
  row_references : Database -> R -> bool
}.

Definition exists_row {R} (t : gmap uuid R) (id : uuid) : bool := is_not_null (t !! id).
Definition exists_row_opt {R} (t : gmap uuid R) (id : option uuid) : bool :=
  match id with Some id => exists_row t id | None => true end.

(** Two nullable unique columns collide only when both hold the same value. *)
Definition same_key {A} `{EqDecision A} (x y : option A) : bool :=
  match x, y with Some a, Some b => bool_decide (a = b) | _, _ => false end.

Section Statements.
Context {R : Type} `{T : Table R}.

Definition unique_in (t : gmap uuid R) (id : uuid) (r : R) : Prop :=
  map_Forall (fun id' r' => id' = id \/ row_conflict r r' = false) t.

(** The row can be stored under [id] in [s]. *)
Definition row_ok (s : Database) (id : uuid) (r : R) : Prop :=
  row_id r = id /\ row_checks r = true /\ row_references s r = true /\
  unique_in (table_get s) id r.

#[global] Instance row_ok_dec s id r : Decision (row_ok s id r).
Proof. unfold row_ok, unique_in. apply _. Defined.

(** SELECT *)
Definition get_by_id (id : uuid) : Session (option R) :=
  s ← get_state; mret (table_get s !! id).

Definition select_where (p : R -> bool) : Session (list R) :=
  s ← get_state; mret (filter (fun r => p r = true) (rows (table_get s))).

(** [session.scalar(select ... where p)]: the first row, if any. *)
Definition select_scalar (p : R -> bool) : Session (option R) :=
  found ← select_where p; mret (head found).

(** [session.refresh(row)] *)
Definition refresh (r : R) : Session R :=
  found ← get_by_id (row_id r);
  require_some found InvalidRequestError "Could not refresh instance".

(** INSERT.  [arbiter] is the constraint of ON CONFLICT ... DO NOTHING. *)
Definition insert_with (arbiter : R -> R -> bool) (r : R) : Session bool :=
  s ← get_state;
  if negb (row_fits r) then raise DBAPIError "value out of range"
  else if negb (row_checks r) then raise IntegrityError "check constraint"
  else if existsb (arbiter r) (rows (table_get s)) then mret false
  else if bool_decide (table_get s !! row_id r = None /\ row_ok s (row_id r) r) then
    _ ← put_state (table_set (<[row_id r := r]> (table_get s)) s);
    mret true
  else raise IntegrityError "constraint violation".

Definition insert_on_conflict_do_nothing (arbiter : R -> R -> bool) (r : R)
    : Session bool := insert_with arbiter r.

Definition insert_row (r : R) : Session unit :=
  _ ← insert_with (fun _ _ => false) r; mret tt.

(** UPDATE ... SET values WHERE condition *)
Definition sql_update (condition : R -> bool) (values : R -> R) (t : gmap uuid R)
    : gmap uuid R := (fun r => if condition r then values r else r) <$> t.

Definition update_fits (condition : R -> bool) (values : R -> R) (t : gmap uuid R)
    : Prop := map_Forall (fun _ r => condition r = true -> row_fits (values r) = true) t.

Definition update_ok (condition : R -> bool) (values : R -> R) (s s' : Database) : Prop :=
  map_Forall (fun id r => condition r = true -> row_ok s' id (values r)) (table_get s).

#[global] Instance update_fits_dec c v t : Decision (update_fits c v t).
Proof. unfold update_fits. apply _. Defined.
#[global] Instance update_ok_dec c v s s' : Decision (update_ok c v s s').
Proof. unfold update_ok. apply _. Defined.

(** The number of rows the statement matched: [result.rowcount]. *)
Definition matched (condition : R -> bool) (t : gmap uuid R) : Z :=
  Z.of_nat (length (filter (fun r => condition r = true) (rows t))).

Definition update_where (condition : R -> bool) (values : R -> R) : Session Z :=
  s ← get_state;
  let s' := table_set (sql_update condition values (table_get s)) s in
  if negb (bool_decide (update_fits condition values (table_get s)))
  then raise DBAPIError "value out of range"
  else if negb (bool_decide (update_ok condition values s s'))
  then raise IntegrityError "constraint violation"
  else _ ← put_state s'; mret (matched condition (table_get s)).

(** [where(Model.id == id, guard)] *)
Definition id_and (id : uuid) (guard : R -> bool) (r : R) : bool :=
  bool_decide (row_id r = id) && guard r.

(** [update ... where(id == ..., guard) ... returning(id)]: whether a row
    matched. *)
Definition update_by_id (id : uuid) (guard : R -> bool) (values : R -> R)
    : Session bool :=
  count ← update_where (id_and id guard) values; mret (0 <? count).

(** INSERT ... ON CONFLICT (primary key) DO UPDATE SET values WHERE condition:
    the proposed row is checked first; whether a row was written. *)
Definition insert_on_conflict_do_update (r : R) (condition : R -> bool) (values : R -> R)
    : Session bool :=
  s ← get_state;
  if negb (row_fits r) then raise DBAPIError "value out of range"
  else if negb (row_checks r) then raise IntegrityError "check constraint"
  else if is_null (table_get s !! row_id r) then _ ← insert_row r; mret true
  else update_by_id (row_id r) condition values.

(** DELETE.  No modelled table has a RESTRICT reference to a deleted one. *)
Definition delete_where (condition : R -> bool) : Session Z :=
  s ← get_state;
  _ ← put_state
    (table_set (filter (fun kv => condition kv.2 = false) (table_get s)) s);
  mret (matched condition (table_get s)).
End Statements.

Definition no_guard {R} (_ : R) : bool := true.

(** ** The tables of the model *)

#[export] Instance Conversation_table : Table Conversation := {|
  table_get := db_conversations;
  table_set := fun t s => s <| db_conversations := t |>;
  row_id := conv_id;
  row_fits := conversation_fits;
  row_checks := conversation_checks;
  row_conflict := fun a b =>
    bool_decide (conv_channel a = conv_channel b) &&
    String.eqb (conv_external_conversation_id a) (conv_external_conversation_id b);
  row_references := fun s c => exists_row_opt (db_reply_plans s) (conv_active_reply_plan_id c)
|}.

#[export] Instance ConversationOpsEvent_table : Table ConversationOpsEvent := {|
  table_get := db_ops_events;
  table_set := fun t s => s <| db_ops_events := t |>;
  row_id := oe_id;
  row_fits := conversation_ops_event_fits;
  row_checks := conversation_ops_event_checks;
  row_conflict := fun _ _ => false;
  row_references := fun s e => exists_row (db_conversations s) (oe_conversation_id e)
|}.

Definition uq_inbox_channel_external_message_id (a b : InboxMessage) : bool :=
  bool_decide (inbox_channel a = inbox_channel b) &&
  String.eqb (inbox_external_message_id a) (inbox_external_message_id b).
Definition uq_inbox_conversation_event_seq (a b : InboxMessage) : bool :=
  bool_decide (inbox_conversation_id a = inbox_conversation_id b) &&
  (inbox_conversation_event_seq a =? inbox_conversation_event_seq b).

#[export] Instance InboxMessage_table : Table InboxMessage := {|
  table_get := db_inbox_messages;
  table_set := fun t s => s <| db_inbox_messages := t |>;
  row_id := inbox_id;
  row_fits := inbox_fits;
  row_checks := inbox_checks;
  row_conflict := fun a b =>
    uq_inbox_channel_external_message_id a b || uq_inbox_conversation_event_seq a b;
  row_references := fun s m => exists_row (db_conversations s) (inbox_conversation_id m)
|}.

Definition uq_manager_messages_channel_external_message_id (a b : ManagerMessage) : bool :=
  bool_decide (mm_channel a = mm_channel b) &&
  String.eqb (mm_external_message_id a) (mm_external_message_id b).
Definition uq_manager_messages_conversation_event_seq (a b : ManagerMessage) : bool :=
  bool_decide (mm_conversation_id a = mm_conversation_id b) &&
  same_key (mm_conversation_event_seq a) (mm_conversation_event_seq b).

#[export] Instance ManagerMessage_table : Table ManagerMessage := {|
  table_get := db_manager_messages;
  table_set := fun t s => s <| db_manager_messages := t |>;
  row_id := mm_id;
  row_fits := manager_message_fits;
  row_checks := manager_message_checks;
  row_conflict := fun a b =>
    uq_manager_messages_channel_external_message_id a b ||
    uq_manager_messages_conversation_event_seq a b;
  row_references := fun s m => exists_row (db_conversations s) (mm_conversation_id m)
|}.

Definition uq_reply_plans_conversation_context_version (a b : ReplyPlan) : bool :=
  bool_decide (rp_conversation_id a = rp_conversation_id b) &&
  (rp_context_version a =? rp_context_version b).

#[export] Instance ReplyPlan_table : Table ReplyPlan := {|
  table_get := db_reply_plans;
  table_set := fun t s => s <| db_reply_plans := t |>;
  row_id := rp_id;
  row_fits := reply_plan_fits;
  row_checks := reply_plan_checks;
  row_conflict := uq_reply_plans_conversation_context_version;
  row_references := fun s p => exists_row (db_conversations s) (rp_conversation_id p)
|}.

Definition uq_outbox_source_inbox_destination (a b : OutboxMessage) : bool :=
  same_key (ob_source_inbox_id a) (ob_source_inbox_id b) &&
  bool_decide (ob_destination_type a = ob_destination_type b).
Definition uq_outbox_idempotency_key (a b : OutboxMessage) : bool :=
  same_key (ob_idempotency_key a) (ob_idempotency_key b).
Definition uq_outbox_reply_plan_destination (a b : OutboxMessage) : bool :=
  same_key (ob_reply_plan_id a) (ob_reply_plan_id b) &&
  bool_decide (ob_destination_type a = ob_destination_type b).
Definition uq_outbox_vk_provider_message_id (a b : OutboxMessage) : bool :=
  bool_decide (ob_destination_type a = VK_CLIENT_OUTBOUND) &&
  bool_decide (ob_destination_type b = VK_CLIENT_OUTBOUND) &&
  same_key (ob_provider_message_id a) (ob_provider_message_id b).

#[export] Instance OutboxMessage_table : Table OutboxMessage := {|
  table_get := db_outbox_messages;
  table_set := fun t s => s <| db_outbox_messages := t |>;
  row_id := ob_id;
  row_fits := outbox_fits;
  row_checks := outbox_checks;
  row_conflict := fun a b =>
    uq_outbox_source_inbox_destination a b || uq_outbox_idempotency_key a b ||
    uq_outbox_reply_plan_destination a b || uq_outbox_vk_provider_message_id a b;
  row_references := fun s o =>
    exists_row (db_conversations s) (ob_conversation_id o) &&
    exists_row_opt (db_inbox_messages s) (ob_source_inbox_id o) &&
    exists_row_opt (db_reply_plans s) (ob_reply_plan_id o)
|}.

Definition uq_amocrm_mirror_key (a b : AmoCrmMirrorJob) : bool :=
  String.eqb (mj_mirror_key a) (mj_mirror_key b).

#[export] Instance AmoCrmMirrorJob_table : Table AmoCrmMirrorJob := {|
  table_get := db_mirror_jobs;
  table_set := fun t s => s <| db_mirror_jobs := t |>;
  row_id := mj_id;
  row_fits := mirror_job_fits;
  row_checks := mirror_job_checks;
  row_conflict := uq_amocrm_mirror_key;
  row_references := fun s j => exists_row (db_conversations s) (mj_conversation_id j)
|}.

Definition uq_amocrm_message_projections_source (a b : AmocrmMessageProjection) : bool :=
  bool_decide (pj_source_kind a = pj_source_kind b) &&
  bool_decide (pj_source_id a = pj_source_id b).

#[export] Instance AmocrmMessageProjection_table : Table AmocrmMessageProjection := {|
  table_get := db_projections;
  table_set := fun t s => s <| db_projections := t |>;
  row_id := pj_id;
  row_fits := projection_fits;
  row_checks := projection_checks;
  row_conflict := fun a b =>
    uq_amocrm_message_projections_source a b ||
    String.eqb (pj_integration_msgid a) (pj_integration_msgid b) ||
    same_key (pj_amocrm_message_id a) (pj_amocrm_message_id b);
  row_references := fun s p => exists_row (db_conversations s) (pj_conversation_id p)
|}.

Definition uq_ingress_channel_external_event_id (a b : IngressEvent) : bool :=
  bool_decide (ing_channel a = ing_channel b) &&
  String.eqb (ing_external_event_id a) (ing_external_event_id b).

#[export] Instance IngressEvent_table : Table IngressEvent := {|
  table_get := db_ingress_events;
  table_set := fun t s => s <| db_ingress_events := t |>;
  row_id := ing_id;
  row_fits := ingress_fits;
  row_checks := ingress_checks;
  row_conflict := uq_ingress_channel_external_event_id;
  row_references := fun _ _ => true
|}.

#[export] Instance SelfBookingActiveOffer_table : Table SelfBookingActiveOffer := {|
  table_get := db_active_offers;
  table_set := fun t s => s <| db_active_offers := t |>;
  row_id := ao_conversation_id;
  row_fits := active_offer_fits;
  row_checks := active_offer_checks;
  row_conflict := fun a b =>
    bool_decide (ao_source_outbound_id a = ao_source_outbound_id b);
  row_references := fun s o =>
    exists_row (db_conversations s) (ao_conversation_id o) &&
    exists_row (db_outbox_messages s) (ao_source_outbound_id o)
|}.

Definition uq_self_booking_create_pendings_confirm (a b : SelfBookingCreatePending) : bool :=
  String.eqb (sb_channel a) (sb_channel b) &&
  String.eqb (sb_confirm_external_message_id a) (sb_confirm_external_message_id b).
Definition uq_self_booking_create_pendings_active_conversation
    (a b : SelfBookingCreatePending) : bool :=
  self_booking_active (sb_state a) && self_booking_active (sb_state b) &&
  bool_decide (sb_conversation_id a = sb_conversation_id b).

#[export] Instance SelfBookingCreatePending_table : Table SelfBookingCreatePending := {|
  table_get := db_create_pendings;
  table_set := fun t s => s <| db_create_pendings := t |>;
  row_id := sb_id;
  row_fits := create_pending_fits;
  row_checks := create_pending_checks;
  row_conflict := fun a b =>
    uq_self_booking_create_pendings_confirm a b ||
    uq_self_booking_create_pendings_active_conversation a b;
  row_references := fun s p => exists_row (db_conversations s) (sb_conversation_id p)
|}.

#[export] Instance SelfBookingPiiAdmission_table : Table SelfBookingPiiAdmission := {|
  table_get := db_pii_admissions;
  table_set := fun t s => s <| db_pii_admissions := t |>;
  row_id := pa_id;
  row_fits := fun _ => true;
  row_checks := pii_admission_checks;
  row_conflict := fun a b =>
    bool_decide (pa_conversation_id a = pa_conversation_id b) &&
    String.eqb (pa_request_id a) (pa_request_id b);
  row_references := fun s a => exists_row (db_conversations s) (pa_conversation_id a)
|}.

Definition uq_ephemeral_pii_values_reference_digest (a b : EphemeralPiiValue) : bool :=
  String.eqb (ep_reference_digest a) (ep_reference_digest b).

#[export] Instance EphemeralPiiValue_table : Table EphemeralPiiValue := {|
  table_get := db_pii_values;
  table_set := fun t s => s <| db_pii_values := t |>;
  row_id := ep_id;
  row_fits := fun _ => true;
  row_checks := ephemeral_pii_checks;
  row_conflict := uq_ephemeral_pii_values_reference_digest;
  row_references := fun _ _ => true
|}.

Definition uq_amocrm_chat_bindings_amocrm_chat_id (a b : AmocrmChatBinding) : bool :=
  String.eqb (cb_amocrm_chat_id a) (cb_amocrm_chat_id b).

#[export] Instance AmocrmChatBinding_table : Table AmocrmChatBinding := {|
  table_get := db_chat_bindings;
  table_set := fun t s => s <| db_chat_bindings := t |>;
  row_id := cb_id;
  row_fits := fun _ => true;
  row_checks := chat_binding_checks;
  row_conflict := fun a b =>
    uq_amocrm_chat_bindings_amocrm_chat_id a b ||
    bool_decide (cb_conversation_id a = cb_conversation_id b) ||
    same_key (cb_integration_conversation_id a) (cb_integration_conversation_id b);
  row_references := fun s b => exists_row (db_conversations s) (cb_conversation_id b)
|}.
