(* ===== verification/Statements.v ===== *)
(** * What the SQL statements do: lookups, rules, preserved constraints

    Lemmas about the statements of [Database]: the effect of an UPDATE on one
    key, weakest-precondition rules, and the fact that no sequence of
    statements leaves a row that violates a PostgreSQL constraint. *)

From S2P Require Import Prelude Models Database.

(** ** Effect of UPDATE and of counting *)

Section Lookups.
Context {R : Type} `{T : Table R}.
Implicit Types (t : gmap uuid R) (c : R -> bool) (v : R -> R).

Definition keys_ok t : Prop := forall id r, t !! id = Some r -> row_id r = id.

Lemma lookup_sql_update c v t id :
  sql_update c v t !! id = (fun r => if c r then v r else r) <$> t !! id.
Proof. unfold sql_update. by rewrite lookup_fmap. Qed.

Lemma lookup_sql_update_Some c v t id r' :
  sql_update c v t !! id = Some r' <->
  exists r, t !! id = Some r /\ r' = if c r then v r else r.
Proof. rewrite lookup_sql_update. rewrite fmap_Some. done. Qed.

Lemma keys_ok_insert t id r : keys_ok t -> row_id r = id -> keys_ok (<[id := r]> t).
Proof.
  intros Ht Hr id' r'. rewrite lookup_insert_Some. intros [[<- <-]|[_ H]]; eauto.
Qed.

Lemma keys_ok_sql_update c v t :
  keys_ok t -> (forall r, row_id (v r) = row_id r) -> keys_ok (sql_update c v t).
Proof.
  intros Ht Hv id r'. rewrite lookup_sql_update_Some. intros (r & Hr & ->).
  destruct (c r); rewrite ?Hv; eauto.
Qed.

Lemma id_and_true id guard r : id_and id guard r = true <-> row_id r = id /\ guard r = true.
Proof. unfold id_and. by rewrite andb_true_iff, bool_decide_eq_true. Qed.

Lemma sql_update_ext c c' v t :
  (forall id r, t !! id = Some r -> c r = c' r) -> sql_update c v t = sql_update c' v t.
Proof.
  intros H. apply map_eq. intros id. rewrite !lookup_sql_update.
  destruct (t !! id) eqn:E; simpl; [|done]. by rewrite (H _ _ E).
Qed.

Lemma sql_update_nothing c v t :
  (forall id r, t !! id = Some r -> c r = false) -> sql_update c v t = t.
Proof.
  intros H. apply map_eq. intros id. rewrite lookup_sql_update.
  destruct (t !! id) eqn:E; simpl; [|done]. by rewrite (H _ _ E).
Qed.

Lemma sql_update_by_id id guard v t r :
  keys_ok t -> t !! id = Some r -> guard r = true ->
  sql_update (id_and id guard) v t = <[id := v r]> t.
Proof.
  intros Hk Hr Hg. apply map_eq. intros id'. rewrite lookup_sql_update.
  destruct (decide (id' = id)) as [->|Hne].
  - rewrite lookup_insert_eq, Hr. simpl.
    destruct (id_and id guard r) eqn:E; [done|].
    apply not_true_iff_false in E. exfalso. apply E. rewrite id_and_true. eauto.
  - rewrite lookup_insert_ne by done. destruct (t !! id') as [r'|] eqn:E; simpl; [|done].
    destruct (id_and id guard r') eqn:E'; [|done].
    apply id_and_true in E' as [E' _]. apply Hk in E. congruence.
Qed.

Lemma sql_update_by_id_none id guard v t :
  keys_ok t -> (forall r, t !! id = Some r -> guard r = false) ->
  sql_update (id_and id guard) v t = t.
Proof.
  intros Hk H. apply sql_update_nothing. intros id' r Hr.
  destruct (id_and id guard r) eqn:E; [|done]. apply id_and_true in E as [E Hg].
  apply Hk in Hr as Hid. rewrite E in Hid. subst id'. by rewrite (H _ Hr) in Hg.
Qed.

Lemma matched_pos c t :
  (0 <? matched c t) = true <-> exists id r, t !! id = Some r /\ c r = true.
Proof.
  unfold matched. rewrite Z.ltb_lt. split.
  - intros H. destruct (filter (fun r => c r = true) (rows t)) as [|r l] eqn:E;
      [simpl in H; lia|].
    assert (r ∈ filter (fun r => c r = true) (rows t)) as Hr by (rewrite E; by left).
    apply list_elem_of_filter in Hr as [Hc [id Hid]%rows_elem]. eauto.
  - intros (id & r & Hr & Hc).
    assert (r ∈ filter (fun r => c r = true) (rows t)) as Hin.
    { apply list_elem_of_filter. split; [done|]. apply rows_elem. eauto. }
    destruct (filter _ _); [by apply not_elem_of_nil in Hin | simpl; lia].
Qed.

Lemma matched_by_id id guard t :
  keys_ok t ->
  (0 <? matched (id_and id guard) t) =
  match t !! id with Some r => guard r | None => false end.
Proof.
  intros Hk. apply eq_bool_prop_intro. rewrite !Is_true_true, matched_pos.
  split.
  - intros (id' & r & Hr & [Hid Hg]%id_and_true). apply Hk in Hr as Hid'.
    assert (id' = id) as -> by congruence. by rewrite Hr.
  - destruct (t !! id) as [r|] eqn:E; [|done]. intros Hg. exists id, r.
    split; [done|]. apply id_and_true. eauto.
Qed.

Lemma matched_zero c t :
  (forall id r, t !! id = Some r -> c r = false) -> matched c t = 0.
Proof.
  intros H. unfold matched. destruct (filter _ _) as [|r l] eqn:E; [done|].
  assert (r ∈ filter (fun r => c r = true) (rows t)) as Hr by (rewrite E; by left).
  apply list_elem_of_filter in Hr as [Hc [id Hid]%rows_elem]. apply H in Hid. congruence.
Qed.
End Lookups.

(** ** Weakest-precondition rules *)

Section Rules.
Context {R : Type} `{T : Table R}.
Context (X : exn -> Database -> Prop) (env : Env) (s : Database).

Lemma wp_uuid4 Q :
  Q (uuid4_of (db_uuid_supply s)) (s <| db_uuid_supply ::= N.succ |>) ->
  wp uuid4 Q X env s.
Proof. done. Qed.

Lemma wp_db_now Q : Q (env_now env) s -> wp db_now Q X env s.
Proof. done. Qed.

Lemma wp_db_statement_now Q :
  Q (env_statement_timestamp env (db_statement_clock s)) (s <| db_statement_clock ::= S |>) ->
  wp db_statement_now Q X env s.
Proof. done. Qed.

Lemma wp_resolve_moment now Q :
  Q (default (env_now env) now) s -> wp (resolve_moment now) Q X env s.
Proof. by destruct now. Qed.

Lemma wp_get_by_id id (Q : option R -> Database -> Prop) :
  Q (table_get s !! id) s -> wp (get_by_id id) Q X env s.
Proof. done. Qed.

Lemma wp_select_where p (Q : list R -> Database -> Prop) :
  Q (filter (fun r => p r = true) (rows (table_get s))) s ->
  wp (select_where p) Q X env s.
Proof. done. Qed.

(** A unique-key SELECT: some matching row, or none. *)
Lemma wp_select_scalar p (Q : option R -> Database -> Prop) :
  (forall id r, table_get s !! id = Some r -> p r = true -> Q (Some r) s) ->
  ((forall id r, table_get s !! id = Some r -> p r = false) -> Q None s) ->
  wp (select_scalar p) Q X env s.
Proof.
  intros H1 H2. unfold select_scalar. apply wp_bind, wp_select_where, wp_ret.
  destruct (filter (fun r => p r = true) (rows (table_get s))) as [|r l] eqn:E; simpl.
  - apply H2. intros id r Hr. destruct (p r) eqn:Hp; [|done].
    assert (r ∈ filter (fun r => p r = true) (rows (table_get s))) as Hin.
    { apply list_elem_of_filter. split; [done|]. apply rows_elem. eauto. }
    rewrite E in Hin. by apply not_elem_of_nil in Hin.
  - assert (r ∈ filter (fun r => p r = true) (rows (table_get s))) as Hin
      by (rewrite E; by left).
    apply list_elem_of_filter in Hin as [Hp [id Hid]%rows_elem]. eauto.
Qed.

Lemma wp_refresh r r' (Q : R -> Database -> Prop) :
  table_get s !! row_id r = Some r' -> Q r' s -> wp (refresh r) Q X env s.
Proof.
  intros H HQ. unfold refresh. apply wp_bind, wp_get_by_id. rewrite H. by apply wp_ret.
Qed.

Lemma wp_update_where c v Q :
  (update_fits c v (table_get s) ->
   update_ok c v s (table_set (sql_update c v (table_get s)) s) ->
   Q (matched c (table_get s)) (table_set (sql_update c v (table_get s)) s)) ->
  (~ update_fits c v (table_get s) -> X (Exn DBAPIError "value out of range") s) ->
  (~ update_ok c v s (table_set (sql_update c v (table_get s)) s) ->
   X (Exn IntegrityError "constraint violation") s) ->
  wp (update_where c v) Q X env s.
Proof.
  intros H1 H2 H3. unfold update_where. apply wp_bind, wp_get_state. cbv zeta.
  apply wp_if; [rewrite negb_true_iff, bool_decide_eq_false; intros; by apply wp_raise, H2|].
  rewrite negb_false_iff, bool_decide_eq_true. intros Hf.
  apply wp_if; [rewrite negb_true_iff, bool_decide_eq_false; intros; by apply wp_raise, H3|].
  rewrite negb_false_iff, bool_decide_eq_true. intros Ho.
  apply wp_bind, wp_put_state, wp_ret. auto.
Qed.

(** UPDATE of one row that exists and satisfies the guard. *)
Lemma wp_update_by_id id guard v r (Q : bool -> Database -> Prop) :
  keys_ok (table_get s) -> table_get s !! id = Some r -> guard r = true ->
  (row_fits (v r) = true ->
   row_ok (table_set (<[id := v r]> (table_get s)) s) id (v r) ->
   Q true (table_set (<[id := v r]> (table_get s)) s)) ->
  (row_fits (v r) = false -> X (Exn DBAPIError "value out of range") s) ->
  (~ row_ok (table_set (<[id := v r]> (table_get s)) s) id (v r) ->
   X (Exn IntegrityError "constraint violation") s) ->
  wp (update_by_id id guard v) Q X env s.
Proof.
  intros Hk Hr Hg HQ HX1 HX2. unfold update_by_id. apply wp_bind, wp_update_where.
  - rewrite (sql_update_by_id id guard v _ r) by done. intros Hf Ho. apply wp_ret.
    rewrite matched_by_id by done. rewrite Hr, Hg.
    assert (id_and id guard r = true) as Hc by (apply id_and_true; split; [by apply Hk|done]).
    apply HQ; [eapply Hf; eauto | eapply Ho; eauto].
  - intros Hf. apply HX1. apply not_true_iff_false. intros Hv. apply Hf.
    intros id' r' Hr' [Hid _]%id_and_true. apply Hk in Hr' as Hid'.
    assert (id' = id) as -> by congruence. by simplify_eq.
  - rewrite (sql_update_by_id id guard v _ r) by done. intros Ho. apply HX2.
    intros Hv. apply Ho. intros id' r' Hr' [Hid _]%id_and_true. apply Hk in Hr' as Hid'.
    assert (id' = id) as -> by congruence. by simplify_eq.
Qed.

(** UPDATE of one row that is absent or fails the guard: nothing happens. *)
Lemma wp_update_by_id_none id guard v (Q : bool -> Database -> Prop) :
  keys_ok (table_get s) ->
  (forall r, table_get s !! id = Some r -> guard r = false) ->
  Q false (table_set (table_get s) s) ->
  wp (update_by_id id guard v) Q X env s.
Proof.
  intros Hk Hg HQ.
  assert (forall id' r, table_get s !! id' = Some r -> id_and id guard r = false) as Hno.
  { intros id' r Hr. apply not_true_iff_false. intros [Hid Hgr]%id_and_true.
    apply Hk in Hr as Hid'. assert (id' = id) as -> by congruence.
    rewrite (Hg _ Hr) in Hgr. done. }
  unfold update_by_id. apply wp_bind, wp_update_where.
  - rewrite sql_update_by_id_none by done. intros _ _. apply wp_ret.
    by rewrite matched_zero.
  - intros Hf. exfalso. apply Hf. intros id' r Hr. by rewrite (Hno _ _ Hr).
  - intros Ho. exfalso. apply Ho. intros id' r Hr. by rewrite (Hno _ _ Hr).
Qed.

Lemma wp_insert_with arbiter r (Q : bool -> Database -> Prop) :
  (forall id r', table_get s !! id = Some r' -> arbiter r r' = true -> Q false s) ->
  (row_fits r = true -> table_get s !! row_id r = None -> row_ok s (row_id r) r ->
   (forall id r', table_get s !! id = Some r' -> arbiter r r' = false) ->
   Q true (table_set (<[row_id r := r]> (table_get s)) s)) ->
  (row_fits r = false -> X (Exn DBAPIError "value out of range") s) ->
  (row_checks r = false -> X (Exn IntegrityError "check constraint") s) ->
  ((forall id r', table_get s !! id = Some r' -> arbiter r r' = false) ->
   ~ (table_get s !! row_id r = None /\ row_ok s (row_id r) r) ->
   X (Exn IntegrityError "constraint violation") s) ->
  wp (insert_with arbiter r) Q X env s.
Proof.
  intros Hdup Hins HX1 HX2 HX3. unfold insert_with. apply wp_bind, wp_get_state.
  apply wp_if; [rewrite negb_true_iff; intros; by apply wp_raise, HX1|].
  rewrite negb_false_iff. intros Hfit.
  apply wp_if; [rewrite negb_true_iff; intros; by apply wp_raise, HX2|]. intros _.
  apply wp_if.
  - rewrite existsb_exists. intros (r' & Hin%list_elem_of_In & Ha).
    apply rows_elem in Hin as [id Hid]. apply wp_ret. eauto.
  - intros Hno.
    assert (forall id r', table_get s !! id = Some r' -> arbiter r r' = false) as Harb.
    { intros id r' Hr'. apply not_true_iff_false. intros Ha.
      assert (existsb (arbiter r) (rows (table_get s)) = true) as Hyes; [|congruence].
      apply existsb_exists. exists r'. split; [|done].
      apply list_elem_of_In, rows_elem. eauto. }
    apply wp_if.
    + rewrite bool_decide_eq_true. intros [Hfresh Hok].
      apply wp_bind, wp_put_state, wp_ret. auto.
    + rewrite bool_decide_eq_false. intros. apply wp_raise. auto.
Qed.

Lemma wp_insert_row r (Q : unit -> Database -> Prop) :
  (row_fits r = true -> table_get s !! row_id r = None -> row_ok s (row_id r) r ->
   Q tt (table_set (<[row_id r := r]> (table_get s)) s)) ->
  (row_fits r = false -> X (Exn DBAPIError "value out of range") s) ->
  (row_checks r = false -> X (Exn IntegrityError "check constraint") s) ->
  (~ (table_get s !! row_id r = None /\ row_ok s (row_id r) r) ->
   X (Exn IntegrityError "constraint violation") s) ->
  wp (insert_row r) Q X env s.
Proof.
  intros HQ HX1 HX2 HX3. unfold insert_row. apply wp_bind, wp_insert_with; [done| |done|done|].
  - intros. apply wp_ret. auto.
  - intros _. done.
Qed.

Lemma wp_delete_where c (Q : Z -> Database -> Prop) :
  Q (matched c (table_get s))
    (table_set (filter (fun kv => c kv.2 = false) (table_get s)) s) ->
  wp (delete_where c) Q X env s.
Proof. done. Qed.
End Rules.

Lemma wp_session_scope {A} (body : Session A) Q X env s :
  wp body Q (fun e _ => X e s) env s -> wp (session_scope body) Q X env s.
Proof. unfold wp, session_scope. by destruct (body env s) as [[a|e] s']. Qed.

(** ** Every stored row satisfies its table's constraints *)

Definition grows_in {R} (t t' : gmap uuid R) : Prop :=
  forall id, exists_row t id = true -> exists_row t' id = true.

(** The tables foreign keys point to only gain rows. *)
Definition grows (s s' : Database) : Prop :=
  grows_in (db_conversations s) (db_conversations s') /\
  grows_in (db_inbox_messages s) (db_inbox_messages s') /\
  grows_in (db_reply_plans s) (db_reply_plans s') /\
  grows_in (db_outbox_messages s) (db_outbox_messages s').

#[export] Instance grows_preorder : PreOrder grows.
Proof.
  split.
  - intros s. by split_and!; intros id.
  - intros s1 s2 s3 (?&?&?&?) (?&?&?&?). split_and!; intros id; auto.
Qed.

Definition table_ok {R} `{Table R} (s : Database) : Prop :=
  forall id r, table_get s !! id = Some r -> row_fits r = true /\ row_ok s id r.

Definition constraints_ok (s : Database) : Prop :=
  table_ok (R := Conversation) s /\ table_ok (R := ConversationOpsEvent) s /\
  table_ok (R := InboxMessage) s /\ table_ok (R := ManagerMessage) s /\
  table_ok (R := ReplyPlan) s /\ table_ok (R := OutboxMessage) s /\
  table_ok (R := AmoCrmMirrorJob) s /\ table_ok (R := AmocrmMessageProjection) s /\
  table_ok (R := IngressEvent) s /\ table_ok (R := SelfBookingActiveOffer) s /\
  table_ok (R := SelfBookingCreatePending) s /\ table_ok (R := SelfBookingPiiAdmission) s /\
  table_ok (R := AmocrmChatBinding) s /\ table_ok (R := EphemeralPiiValue) s.

(** What a table owes to the others. *)
Class TableLaws (R : Type) `{T : Table R} := {
  table_get_set : forall t s, table_get (table_set t s) = t;
  row_conflict_sym : forall a b, row_conflict a b = row_conflict b a;
  references_grow : forall s s' r,
    grows s s' -> row_references s r = true -> row_references s' r = true;
  set_grows : forall t s, grows_in (table_get s) t -> grows s (table_set t s);
  set_constraints : forall t s,
    constraints_ok s -> grows s (table_set t s) -> table_ok (table_set t s) ->
    constraints_ok (table_set t s);
  constraints_table : forall s, constraints_ok s -> table_ok (R := R) s
}.

Lemma exists_row_opt_grow {R} (t t' : gmap uuid R) o :
  grows_in t t' -> exists_row_opt t o = true -> exists_row_opt t' o = true.
Proof. intros Hg. destruct o; simpl; auto. Qed.

Lemma same_key_sym {A} `{EqDecision A} (x y : option A) : same_key x y = same_key y x.
Proof.
  destruct x, y; simpl; try done. apply bool_decide_ext. split; congruence.
Qed.

Lemma row_ok_frame {R} `{TableLaws R} s s' id r :
  grows s s' -> table_get (R := R) s' = table_get s -> row_ok s id r -> row_ok s' id r.
Proof.
  intros Hg Heq (?&?&?&Hu). split_and!; [done|done|by eapply references_grow|].
  by rewrite Heq.
Qed.

Lemma table_ok_frame {R} `{T : Table R} s s' :
  (forall r, row_references s r = true -> row_references s' r = true) ->
  table_get (R := R) s' = table_get s -> table_ok (R := R) s -> table_ok (R := R) s'.
Proof.
  intros Hg Heq Hok id r. rewrite Heq. intros Hr. apply Hok in Hr as (?&?&?&?&Hu).
  split; [done|]. split_and!; auto. by rewrite Heq.
Qed.

Lemma grows_references s s' :
  grows s s' ->
  (forall c : Conversation, row_references s c = true -> row_references s' c = true) /\
  (forall c : ConversationOpsEvent, row_references s c = true -> row_references s' c = true) /\
  (forall c : InboxMessage, row_references s c = true -> row_references s' c = true) /\
  (forall c : ManagerMessage, row_references s c = true -> row_references s' c = true) /\
  (forall c : ReplyPlan, row_references s c = true -> row_references s' c = true) /\
  (forall c : OutboxMessage, row_references s c = true -> row_references s' c = true) /\
  (forall c : AmoCrmMirrorJob, row_references s c = true -> row_references s' c = true) /\
  (forall c : AmocrmMessageProjection,
     row_references s c = true -> row_references s' c = true) /\
  (forall c : IngressEvent, row_references s c = true -> row_references s' c = true) /\
  (forall c : SelfBookingActiveOffer,
     row_references s c = true -> row_references s' c = true) /\
  (forall c : SelfBookingCreatePending,
     row_references s c = true -> row_references s' c = true) /\
  (forall c : SelfBookingPiiAdmission,
     row_references s c = true -> row_references s' c = true) /\
  (forall c : AmocrmChatBinding, row_references s c = true -> row_references s' c = true) /\
  (forall c : EphemeralPiiValue, row_references s c = true -> row_references s' c = true).
Proof.
  intros (?&?&?&?).
  split_and!; intros c; simpl; rewrite ?andb_true_iff; naive_solver eauto using exists_row_opt_grow.
Qed.

(** Proves the laws of a concrete table. *)
Ltac table_laws :=
  constructor;
  [ reflexivity
  | intros a b; simpl; unfold uq_inbox_channel_external_message_id,
      uq_inbox_conversation_event_seq, uq_manager_messages_channel_external_message_id,
      uq_manager_messages_conversation_event_seq,
      uq_reply_plans_conversation_context_version, uq_outbox_source_inbox_destination,
      uq_outbox_idempotency_key, uq_outbox_reply_plan_destination,
      uq_outbox_vk_provider_message_id, uq_amocrm_mirror_key,
      uq_amocrm_message_projections_source, uq_ingress_channel_external_event_id,
      uq_self_booking_create_pendings_confirm,
      uq_self_booking_create_pendings_active_conversation,
      uq_amocrm_chat_bindings_amocrm_chat_id, uq_ephemeral_pii_values_reference_digest;
    repeat first
      [ reflexivity
      | apply bool_decide_ext; split; congruence
      | apply String.eqb_sym | apply Z.eqb_sym | apply same_key_sym
      | apply andb_comm | f_equal ]
  | intros s s' r Hg;
    pose proof (grows_references s s' Hg) as (?&?&?&?&?&?&?&?&?&?&?&?&?&?); auto
  | intros t s Hg; unfold grows; simpl; split_and!;
    first [exact Hg | by intros id]
  | intros t s (?&?&?&?&?&?&?&?&?&?&?&?&?&?) Hg Hok;
    pose proof (grows_references _ _ Hg) as (?&?&?&?&?&?&?&?&?&?&?&?&?&?);
    unfold constraints_ok; split_and!;
    first [ exact Hok | by eapply table_ok_frame; [eassumption|reflexivity|eassumption] ]
  | unfold constraints_ok; tauto ].

#[export] Instance Conversation_laws : TableLaws Conversation.
Proof. table_laws. Qed.
#[export] Instance ConversationOpsEvent_laws : TableLaws ConversationOpsEvent.
Proof. table_laws. Qed.
#[export] Instance InboxMessage_laws : TableLaws InboxMessage.
Proof. table_laws. Qed.
#[export] Instance ManagerMessage_laws : TableLaws ManagerMessage.
Proof. table_laws. Qed.
#[export] Instance ReplyPlan_laws : TableLaws ReplyPlan.
Proof. table_laws. Qed.
#[export] Instance OutboxMessage_laws : TableLaws OutboxMessage.
Proof. table_laws. Qed.
#[export] Instance AmoCrmMirrorJob_laws : TableLaws AmoCrmMirrorJob.
Proof. table_laws. Qed.
#[export] Instance AmocrmMessageProjection_laws : TableLaws AmocrmMessageProjection.
Proof. table_laws. Qed.
#[export] Instance IngressEvent_laws : TableLaws IngressEvent.
Proof. table_laws. Qed.
#[export] Instance SelfBookingActiveOffer_laws : TableLaws SelfBookingActiveOffer.
Proof. table_laws. Qed.
#[export] Instance SelfBookingCreatePending_laws : TableLaws SelfBookingCreatePending.
Proof. table_laws. Qed.
#[export] Instance SelfBookingPiiAdmission_laws : TableLaws SelfBookingPiiAdmission.
Proof. table_laws. Qed.
#[export] Instance AmocrmChatBinding_laws : TableLaws AmocrmChatBinding.
Proof. table_laws. Qed.
#[export] Instance EphemeralPiiValue_laws : TableLaws EphemeralPiiValue.
Proof. table_laws. Qed.

(** What every statement keeps: referenced rows stay, and constraints that held
    before it hold after it. *)
Definition keeps (s s' : Database) : Prop :=
  grows s s' /\ (constraints_ok s -> constraints_ok s').

#[export] Instance keeps_preorder : PreOrder keeps.
Proof.
  split.
  - intros s. by split.
  - intros s1 s2 s3 [H1 H2] [H3 H4]. split; [by etrans | auto].
Qed.

Lemma constraints_keys_ok {R} `{TableLaws R} s : constraints_ok s -> keys_ok (table_get (R := R) s).
Proof. intros Hc id r Hr. by apply (constraints_table s Hc) in Hr as (_ & ? & _). Qed.

Lemma grows_in_insert {R} (t : gmap uuid R) id r : grows_in t (<[id := r]> t).
Proof.
  intros id'. unfold exists_row. destruct (decide (id' = id)) as [->|].
  - by rewrite lookup_insert_eq.
  - by rewrite lookup_insert_ne by done.
Qed.

Lemma grows_in_sql_update {R} `{Table R} c v (t : gmap uuid R) : grows_in t (sql_update c v t).
Proof. intros id. unfold exists_row. rewrite lookup_sql_update. by destruct (t !! id). Qed.

Section Keeps.
Context {R : Type} `{TL : TableLaws R}.

Lemma table_ok_insert s r :
  constraints_ok s -> row_fits r = true -> row_ok s (row_id r) r ->
  table_ok (R := R) (table_set (<[row_id r := r]> (table_get s)) s).
Proof.
  intros Hc Hfit (_ & Hck & Href & Hu) id r'.
  pose proof (set_grows (<[row_id r := r]> (table_get s)) s (grows_in_insert _ _ _)) as Hg.
  rewrite table_get_set, lookup_insert_Some. intros [[<- <-]|[Hne Hr']].
  - split; [done|]. split_and!; [done|done|by eapply references_grow|].
    rewrite table_get_set. apply map_Forall_lookup_2. intros id' r'.
    rewrite lookup_insert_Some. intros [[<- <-]|[? Hr']]; [by left|by eapply Hu].
  - apply (constraints_table s Hc) in Hr' as Hok. destruct Hok as (Hf & Hid & Hck' & Href' & Hu').
    split; [done|]. split_and!; [done|done|by eapply references_grow|].
    rewrite table_get_set. apply map_Forall_lookup_2. intros id2 r2.
    rewrite lookup_insert_Some. intros [[<- <-]|[? Hr2]]; [right|by eapply Hu'].
    destruct (Hu _ _ Hr') as [->|Hcf]; [done|]. by rewrite row_conflict_sym.
Qed.

Lemma table_ok_sql_update c v s :
  constraints_ok s -> update_fits c v (table_get s) ->
  update_ok c v s (table_set (sql_update c v (table_get s)) s) ->
  table_ok (R := R) (table_set (sql_update c v (table_get s)) s).
Proof.
  intros Hc Hfit Hok id r'. set (s' := table_set _ s) in *.
  assert (grows s s') as Hg by apply set_grows, grows_in_sql_update.
  assert (table_get s' = sql_update c v (table_get s)) as Hget by apply table_get_set.
  rewrite Hget, lookup_sql_update_Some. intros (r & Hr & ->).
  destruct (c r) eqn:Hcr; [split; [by eapply Hfit | by eapply Hok]|].
  apply (constraints_table s Hc) in Hr as Hold. destruct Hold as (Hf & Hid & Hck & Href & Hu).
  split; [done|]. split_and!; [done|done|by eapply references_grow|].
  apply map_Forall_lookup_2. intros id2 r2. rewrite Hget, lookup_sql_update_Some.
  intros (r0 & Hr0 & ->). destruct (c r0) eqn:Hc0; [|by eapply Hu].
  destruct (Hok _ _ Hr0 Hc0) as (_ & _ & _ & Hu0).
  destruct (Hu0 id r) as [->|Hcf]; [|by left|right; by rewrite row_conflict_sym].
  rewrite Hget. apply lookup_sql_update_Some. exists r. by rewrite Hcr.
Qed.

Lemma keeps_insert_with arbiter r : respects keeps (insert_with arbiter r).
Proof.
  intros env s. pose proof (wp_insert_with (fun _ s' => keeps s s') env s arbiter r
    (fun _ s' => keeps s s')) as H. unfold wp in H.
  destruct (insert_with arbiter r env s) as [[b|e] s'] eqn:E; simpl in *;
    (apply H; clear H E; try done; intros; [reflexivity..|]);
    (split; [apply set_grows, grows_in_insert|]);
    intros; apply set_constraints; auto using set_grows, grows_in_insert, table_ok_insert.
Qed.

Lemma keeps_insert_row r : respects keeps (insert_row r).
Proof.
  apply respects_bind; [apply _|apply keeps_insert_with|]. intros; apply respects_ret, _.
Qed.

Lemma keeps_update_where c v : respects keeps (update_where c v).
Proof.
  intros env s. pose proof (wp_update_where (fun _ s' => keeps s s') env s c v
    (fun _ s' => keeps s s')) as H. unfold wp in H.
  destruct (update_where c v env s) as [[b|e] s'] eqn:E; simpl in *;
    (apply H; clear H E; intros; try reflexivity);
    (split; [apply set_grows, grows_in_sql_update|]);
    intros; apply set_constraints; auto using set_grows, grows_in_sql_update, table_ok_sql_update.
Qed.

Lemma keeps_update_by_id id g v : respects keeps (update_by_id id g v).
Proof.
  apply respects_bind; [apply _|apply keeps_update_where|]. intros; apply respects_ret, _.
Qed.

Lemma keeps_upsert r c v : respects keeps (insert_on_conflict_do_update r c v).
Proof.
  apply respects_bind; [apply _|apply respects_get_state, _|]. intros s.
  repeat (apply respects_if; [try apply respects_raise, _|]).
  - apply respects_bind; [apply _|apply keeps_insert_row|]. intros; apply respects_ret, _.
  - apply keeps_update_by_id.
Qed.

Lemma keeps_get_by_id id : respects keeps (get_by_id id).
Proof. intros env s. reflexivity. Qed.

Lemma keeps_select_where p : respects keeps (select_where p).
Proof. intros env s. reflexivity. Qed.

Lemma keeps_select_scalar p : respects keeps (select_scalar p).
Proof. intros env s. reflexivity. Qed.

Lemma keeps_refresh r : respects keeps (refresh r).
Proof.
  apply respects_bind; [apply _|apply keeps_get_by_id|]. intros; apply respects_require, _.
Qed.

(** A table no foreign key points to may also lose rows. *)
Lemma keeps_delete_where c :
  (forall t s, grows s (table_set (R := R) t s)) -> respects keeps (delete_where c).
Proof.
  intros Hfree env s. unfold delete_where. cbn.
  split; [apply Hfree|]. intros Hc. apply set_constraints; [done|apply Hfree|].
  intros id r. rewrite table_get_set, map_lookup_filter_Some. intros [Hr _].
  apply (constraints_table s Hc) in Hr as (Hf & Hid & Hck & Href & Hu).
  split; [done|]. split_and!; [done|done|by eapply references_grow, Href|].
  rewrite table_get_set. apply map_Forall_lookup_2. intros id2 r2.
  rewrite map_lookup_filter_Some. intros [Hr2 _]. by eapply Hu.
Qed.
End Keeps.

Lemma keeps_delete_offers c :
  respects keeps (delete_where (R := SelfBookingActiveOffer) c).
Proof. apply keeps_delete_where. intros t s. by split_and!; intros id. Qed.
Lemma keeps_delete_values c :
  respects keeps (delete_where (R := EphemeralPiiValue) c).
Proof. apply keeps_delete_where. intros t s. by split_and!; intros id. Qed.

Lemma keeps_only_counters s f g :
  keeps s (s <| db_uuid_supply ::= f |> <| db_statement_clock ::= g |>).
Proof. split; [by split_and!; intros id | done]. Qed.

Lemma keeps_uuid4 : respects keeps uuid4.
Proof. intros env s. split; [by split_and!; intros id | done]. Qed.

Lemma keeps_db_statement_now : respects keeps db_statement_now.
Proof. intros env s. split; [by split_and!; intros id | done]. Qed.

Lemma keeps_db_now : respects keeps db_now.
Proof. intros env s. reflexivity. Qed.

Lemma keeps_resolve_moment now : respects keeps (resolve_moment now).
Proof. destruct now; intros env s; reflexivity. Qed.

Lemma respects_session_scope {A} (P : Database -> Database -> Prop) `{!PreOrder P}
    (body : Session A) :
  respects P body -> respects P (session_scope body).
Proof.
  intros H env s. specialize (H env s). unfold session_scope.
  destruct (body env s) as [[a|e] s']; simpl in *; [done | reflexivity].
Qed.

Lemma respects_try_in_transaction {A} (P : Database -> Database -> Prop) `{!PreOrder P}
    (body : Session A) handled handler :
  respects P body -> (forall e, respects P (handler e)) ->
  respects P (try_in_transaction body handled handler).
Proof.
  intros Hb Hh. apply respects_try; [apply _|done|]. intros e.
  apply respects_if; [apply respects_raise, _ | done].
Qed.

#[export] Hint Extern 1 (respects keeps (insert_with _ _)) => apply keeps_insert_with : respects.
#[export] Hint Extern 1 (respects keeps (insert_on_conflict_do_nothing _ _)) => apply keeps_insert_with : respects.
#[export] Hint Extern 1 (respects keeps (insert_row _)) => apply keeps_insert_row : respects.
#[export] Hint Extern 1 (respects keeps (update_where _ _)) => apply keeps_update_where : respects.
#[export] Hint Extern 1 (respects keeps (update_by_id _ _ _)) => apply keeps_update_by_id : respects.
#[export] Hint Extern 1 (respects keeps (insert_on_conflict_do_update _ _ _)) => apply keeps_upsert : respects.
#[export] Hint Extern 1 (respects keeps (get_by_id _)) => apply keeps_get_by_id : respects.
#[export] Hint Extern 1 (respects keeps (select_where _)) => apply keeps_select_where : respects.
#[export] Hint Extern 1 (respects keeps (select_scalar _)) => apply keeps_select_scalar : respects.
#[export] Hint Extern 1 (respects keeps (refresh _)) => apply keeps_refresh : respects.
#[export] Hint Resolve keeps_delete_offers keeps_delete_values keeps_uuid4 keeps_db_statement_now keeps_db_now
  keeps_resolve_moment : respects.

Ltac head_of t := lazymatch t with ?f _ => head_of f | _ => t end.

(** Decides [respects] goals by the shape of the computation. *)
Ltac solve_respects :=
  lazymatch goal with
  | |- respects _ (mbind _ _) =>
      apply respects_bind; [apply _ | solve_respects | intros; solve_respects]
  | |- respects _ (mret _) => apply respects_ret; apply _
  | |- respects _ (raise _ _) => apply respects_raise; apply _
  | |- respects _ get_env => apply respects_get_env; apply _
  | |- respects _ get_state => apply respects_get_state; apply _
  | |- respects _ (when _ _) => apply respects_when; [apply _ | solve_respects]
  | |- respects _ (assert_or_raise _ _ _) => apply respects_assert; apply _
  | |- respects _ (require_some _ _ _) => apply respects_require; apply _
  | |- respects _ (session_scope _) =>
      apply respects_session_scope; [apply _ | solve_respects]
  | |- respects _ (begin_nested _) =>
      apply respects_session_scope; [apply _ | solve_respects]
  | |- respects _ (try_in_transaction _ _ _) =>
      apply respects_try_in_transaction; [apply _ | solve_respects | intros; solve_respects]
  | |- respects _ (try_except _ _ _) =>
      apply respects_try; [apply _ | solve_respects | intros; solve_respects]
  | |- respects _ (match ?x with _ => _ end) => destruct x; solve_respects
  | |- respects _ (let _ := _ in _) => cbv zeta; solve_respects
  | |- respects _ ?m =>
      first [ solve [eauto 3 with respects]
            | let f := head_of m in unfold f; cbv beta; solve_respects ]
  end.

(** ** Combining the two kinds of reasoning *)

Lemma wp_respects {A} (P : Database -> Database -> Prop) (m : Session A) Q X env s :
  respects P m -> wp m Q X env s ->
  wp m (fun a s' => Q a s' /\ P s s') (fun e s' => X e s' /\ P s s') env s.
Proof.
  intros HP Hwp. specialize (HP env s). unfold wp in *.
  by destruct (m env s) as [[a|e] s'].
Qed.

Lemma wp_session_scope_keeps {A} (body : Session A) Q env s :
  respects keeps body -> constraints_ok s ->
  wp body (fun a s' => constraints_ok s' -> Q a s') (fun _ _ => True) env s ->
  wp (session_scope body) Q (fun _ s' => s' = s) env s.
Proof.
  intros Hr Hc Hwp. apply wp_session_scope.
  eapply wp_mono; [apply (wp_respects keeps), Hwp; done| |done].
  intros a s' [HQ [_ Hk]]. auto.
Qed.

(** Constraints hold wherever a routine ends. *)
Lemma wp_keeps {A} (m : Session A) Q X env s :
  respects keeps m -> constraints_ok s ->
  wp m (fun a s' => constraints_ok s' -> Q a s') X env s -> wp m Q X env s.
Proof.
  intros Hr Hc Hwp.
  eapply wp_mono; [apply (wp_respects keeps _ _ _ _ _ Hr Hwp)| |].
  - intros a s' [HQ [_ Hk]]. auto.
  - intros e s' [HX _]. done.
Qed.

(** Constraints hold between the statements of a transaction as well. *)
Lemma wp_bind_keeps {A B} (m : Session A) (k : A -> Session B) Q X env s :
  respects keeps m -> constraints_ok s ->
  wp m (fun a s' => constraints_ok s' -> wp (k a) Q X env s') X env s ->
  wp (m ≫= k) Q X env s.
Proof.
  intros Hr Hc Hwp. apply wp_bind.
  eapply wp_mono; [apply (wp_respects keeps), Hwp; done| |].
  - intros a s' [HQ [_ Hk]]. auto.
  - intros e s' [HX _]. done.
Qed.

(** Brings a symbolic database to constructor form and folds nothing back. *)
Ltac dbsimpl :=
  cbn [table_get table_set row_id Conversation_table ConversationOpsEvent_table
       InboxMessage_table ManagerMessage_table ReplyPlan_table OutboxMessage_table
       AmoCrmMirrorJob_table AmocrmMessageProjection_table IngressEvent_table
       SelfBookingActiveOffer_table SelfBookingCreatePending_table
       SelfBookingPiiAdmission_table AmocrmChatBinding_table EphemeralPiiValue_table field_set
       db_conversations db_ops_events db_inbox_messages db_manager_messages db_reply_plans
       db_outbox_messages db_mirror_jobs db_projections db_ingress_events db_active_offers
       db_create_pendings db_pii_admissions db_chat_bindings db_pii_values db_uuid_supply
       db_statement_clock
       fst snd] in *.

(** UPDATE of a row whose lookup [H] is known. *)
Tactic Notation "wp_update" constr(H) :=
  eapply wp_update_by_id;
  [ dbsimpl; eauto using keys_ok_insert | dbsimpl; exact H | reflexivity
  | dbsimpl; intros ? ? | done | done ].

(** A statement whose errors undo the transaction. *)
Lemma wp_update_where_any {R} `{T : Table R} c v (X : exn -> Database -> Prop) Q env s :
  Q (matched c (table_get s)) (table_set (sql_update c v (table_get s)) s) ->
  (forall e s', X e s') -> wp (update_where c v) Q X env s.
Proof. intros. by apply wp_update_where. Qed.

(** Only the mirror queue and the UUID supply differ. *)
Definition with_mirror (jobs : gmap uuid AmoCrmMirrorJob) (n : N) (s : Database) : Database :=
  s <| db_mirror_jobs := jobs |> <| db_uuid_supply := n |>.

Lemma with_mirror_same s : with_mirror (db_mirror_jobs s) (db_uuid_supply s) s = s.
Proof. by destruct s. Qed.

(** Only the ops journal and the UUID supply differ. *)
Definition with_ops (events : gmap uuid ConversationOpsEvent) (n : N) (s : Database)
    : Database := s <| db_ops_events := events |> <| db_uuid_supply := n |>.

Lemma with_ops_same s : with_ops (db_ops_events s) (db_uuid_supply s) s = s.
Proof. by destruct s. Qed.

Lemma with_ops_conversations events n t t' s :
  (with_ops events n (s <| db_conversations := t |>)) <| db_conversations := t' |>
  = with_ops events n (s <| db_conversations := t' |>).
Proof. by destruct s. Qed.
