(* ===== verification/Conversations.v ===== *)
(** * Conversations: src/app/repositories/conversations.py

    The only writers of the dialog state machine (status, ownership, handoff
    state, deadlines) and of its fencing counters [context_version],
    [manager_epoch] and [current_event_seq].  Each [values] block of the source
    is a row function named after its routine. *)

From S2P Require Import Prelude Models Database Statements.

Module conversation_repo.

Definition get_by_channel_external (channel : Channel) (external_conversation_id : string)
    : Session (option Conversation) :=
  select_scalar (fun c =>
    bool_decide (conv_channel c = channel) &&
    String.eqb (conv_external_conversation_id c) external_conversation_id).

Definition get_by_id_for_update (conversation_id : uuid) : Session (option Conversation) :=
  get_by_id conversation_id.

Definition lock_for_update (conversation_id : uuid) : Session Conversation :=
  conversation ← get_by_id_for_update conversation_id;
  require_some conversation RuntimeError "CONVERSATION_LOOKUP_FAILED".

(** The WHERE clause of [claim_next_due_handoff]. *)
Definition handoff_due (moment : instant) (c : Conversation) : bool :=
  bool_decide (conv_status c = HANDOFF) && bool_decide (conv_ownership c = MANAGER) &&
  (match conv_handoff_state c with HUMAN_ACTIVE | HUMAN_PAUSE => true | BOT_ACTIVE => false end) &&
  (match conv_handoff_deadline_at c with
   | Some deadline => tstz_due deadline moment
   | None => false
   end) &&
  (is_null (conv_handoff_quarantined_at c) ||
   is_not_null (conv_handoff_quarantine_cleared_at c)).

(** ORDER BY handoff_deadline_at, created_at *)
Definition handoff_order (a b : Conversation) : bool :=
  match conv_handoff_deadline_at a, conv_handoff_deadline_at b with
  | Some da, Some db =>
      if bool_decide (da = db) then conv_created_at a <=? conv_created_at b
      else tstz_leb da db
  | _, None => true
  | None, Some _ => false
  end.

Definition claim_next_due_handoff : Session (option Conversation) :=
  env ← get_env;
  statement_timestamp ← db_statement_now;
  due ← select_where (fun c =>
    handoff_due statement_timestamp c && negb (env_locked env (conv_id c)));
  mret (pick_min handoff_order due).

Definition return_due_handoff_to_bot_guard (conversation : Conversation)
    (moment : instant) (c : Conversation) : bool :=
  bool_decide (conv_status c = HANDOFF) && bool_decide (conv_ownership c = MANAGER) &&
  bool_decide (conv_handoff_state c = conv_handoff_state conversation) &&
  (match conv_handoff_deadline_at c with
   | Some deadline => tstz_due deadline moment
   | None => false
   end).

Definition return_due_handoff_to_bot_values (moment : instant)
    (active_reply_plan_id : option uuid) (c : Conversation) : Conversation :=
  c <| conv_status := OPEN |>
    <| conv_ownership := BOT |>
    <| conv_handoff_state := BOT_ACTIVE |>
    <| conv_handoff_deadline_at := None |>
    <| conv_human_pause_anchor_at := None |>
    <| conv_manager_takeover_at := None |>
    <| conv_active_reply_plan_id := active_reply_plan_id |>
    <| conv_updated_at := moment |>.

Definition return_due_handoff_to_bot (conversation : Conversation) (moment : instant)
    (active_reply_plan_id : option uuid) : Session Conversation :=
  updated ← update_by_id (conv_id conversation)
    (return_due_handoff_to_bot_guard conversation moment)
    (return_due_handoff_to_bot_values moment active_reply_plan_id);
  _ ← assert_or_raise updated RuntimeError "HANDOFF_EXPIRY_STALE_CLAIM";
  refresh conversation.

(** The row a new dialog starts as. *)
Definition new_conversation (id : uuid) (channel : Channel)
    (external_conversation_id : string) (now : instant) : Conversation := {|
  conv_id := id;
  conv_channel := channel;
  conv_external_conversation_id := external_conversation_id;
  conv_status := OPEN;
  conv_ownership := BOT;
  conv_context_version := 0;
  conv_handoff_state := BOT_ACTIVE;
  conv_manager_epoch := 0;
  conv_current_event_seq := 0;
  conv_manager_sequence_hwm := None;
  conv_vk_client_external_reply_hwm := None;
  conv_handoff_deadline_at := None;
  conv_human_pause_anchor_at := None;
  conv_last_client_activity_at := None;
  conv_manager_takeover_at := None;
  conv_active_reply_plan_id := None;
  conv_canonical_identity_id := None;
  conv_handoff_quarantined_at := None;
  conv_handoff_quarantine_reason := None;
  conv_handoff_quarantine_cleared_at := None;
  conv_handoff_quarantine_clear_path := None;
  conv_created_at := now;
  conv_updated_at := now
|}.

Definition get_or_create (channel : Channel) (external_conversation_id : string)
    : Session (Conversation * bool) :=
  existing ← get_by_channel_external channel external_conversation_id;
  match existing with
  | Some existing => mret (existing, false)
  | None =>
      new_id ← uuid4;
      now ← db_now;
      inserted ← insert_on_conflict_do_nothing row_conflict
        (new_conversation new_id channel external_conversation_id now);
      conversation ← get_by_channel_external channel external_conversation_id;
      conversation ← require_some conversation RuntimeError "CONVERSATION_LOOKUP_FAILED";
      mret (conversation, inserted)
  end.

Definition allocate_next_event_seq_values (now : instant) (c : Conversation)
    : Conversation :=
  c <| conv_current_event_seq ::= Z.succ |> <| conv_updated_at := now |>.

Definition allocate_next_event_seq (conversation : Conversation) : Session Conversation :=
  now ← db_now;
  allocated ← update_by_id (conv_id conversation) no_guard
    (allocate_next_event_seq_values now);
  _ ← assert_or_raise allocated RuntimeError "CONVERSATION_LOOKUP_FAILED";
  refresh conversation.

Definition bump_context_for_new_message_values (activity_at now : instant)
    (c : Conversation) : Conversation :=
  c <| conv_context_version ::= Z.succ |>
    <| conv_last_client_activity_at := Some activity_at |>
    <| conv_updated_at := now |>.

Definition bump_context_for_new_message (conversation : Conversation)
    (activity_at : instant) : Session Conversation :=
  now ← db_now;
  bumped ← update_by_id (conv_id conversation) no_guard
    (bump_context_for_new_message_values activity_at now);
  _ ← assert_or_raise bumped RuntimeError "CONVERSATION_LOOKUP_FAILED";
  refresh conversation.

(** [600 <= handoff_pause_seconds <= 900] *)
Definition pause_seconds_in_range (handoff_pause_seconds : Z) : bool :=
  (10 * 60 <=? handoff_pause_seconds) && (handoff_pause_seconds <=? 15 * 60).

Definition append_conversation_ops_event (conversation : Conversation)
    (event_type : ConversationOpsEventType) (reason_code : string)
    (clear_path : option string) : Session ConversationOpsEvent :=
  _ ← assert_or_raise (str_in reason_code HANDOFF_QUARANTINE_REASONS)
    ValueError "HANDOFF_QUARANTINE_REASON_INVALID";
  _ ← match event_type with
      | HANDOFF_EXPIRY_QUARANTINED =>
          assert_or_raise (is_null clear_path)
            ValueError "HANDOFF_QUARANTINE_CLEAR_PATH_UNEXPECTED"
      | HANDOFF_QUARANTINE_CLEARED =>
          assert_or_raise
            (match clear_path with
             | Some path => str_in path HANDOFF_QUARANTINE_CLEAR_PATHS
             | None => false
             end)
            ValueError "HANDOFF_QUARANTINE_CLEAR_PATH_INVALID"
      end;
  id ← uuid4;
  now ← db_now;
  let event := {|
    oe_id := id;
    oe_conversation_id := conv_id conversation;
    oe_created_at := now;
    oe_event_type := event_type;
    oe_reason_code := reason_code;
    oe_clear_path := clear_path;
    oe_manager_epoch := conv_manager_epoch conversation;
    oe_context_version := conv_context_version conversation
  |} in
  _ ← insert_row event;
  mret event.

Definition quarantine_due_handoff_expiry_values (reason_code : string) (moment : instant)
    (c : Conversation) : Conversation :=
  c <| conv_handoff_quarantined_at := Some moment |>
    <| conv_handoff_quarantine_reason := Some reason_code |>
    <| conv_handoff_quarantine_cleared_at := None |>
    <| conv_handoff_quarantine_clear_path := None |>
    <| conv_updated_at := moment |>.

Definition quarantine_due_handoff_expiry (conversation : Conversation)
    (reason_code : string) (moment : instant) : Session Conversation :=
  _ ← assert_or_raise (str_in reason_code HANDOFF_QUARANTINE_REASONS)
    ValueError "HANDOFF_QUARANTINE_REASON_INVALID";
  _ ← append_conversation_ops_event conversation HANDOFF_EXPIRY_QUARANTINED reason_code None;
  _ ← update_by_id (conv_id conversation) no_guard
    (quarantine_due_handoff_expiry_values reason_code moment);
  refresh conversation.

Definition clear_active_handoff_quarantine_guard (reason_code : string) (c : Conversation)
    : bool :=
  is_not_null (conv_handoff_quarantined_at c) &&
  is_null (conv_handoff_quarantine_cleared_at c) &&
  sql_eq (conv_handoff_quarantine_reason c) reason_code.

Definition clear_active_handoff_quarantine_values (moment : instant) (c : Conversation)
    : Conversation :=
  c <| conv_handoff_quarantine_cleared_at := Some moment |>
    <| conv_handoff_quarantine_clear_path :=
         Some HANDOFF_QUARANTINE_CLEAR_PATH_MANAGER_MESSAGE |>
    <| conv_updated_at := moment |>.

(** Returns the refreshed dialog next to the source's boolean: the source's
    callers see the refresh through the object they passed. *)
Definition clear_active_handoff_quarantine_for_manager_message
    (conversation : Conversation) (moment : instant) : Session (Conversation * bool) :=
  if negb (handoff_expiry_quarantine_is_active conversation) then
    mret (conversation, false)
  else
    reason_code ← match conv_handoff_quarantine_reason conversation with
      | Some reason_code =>
          if str_in reason_code HANDOFF_QUARANTINE_REASONS then mret reason_code
          else raise RuntimeError "HANDOFF_QUARANTINE_REASON_MISSING"
      | None => raise RuntimeError "HANDOFF_QUARANTINE_REASON_MISSING"
      end;
    _ ← append_conversation_ops_event conversation HANDOFF_QUARANTINE_CLEARED reason_code
      (Some HANDOFF_QUARANTINE_CLEAR_PATH_MANAGER_MESSAGE);
    updated ← update_by_id (conv_id conversation)
      (clear_active_handoff_quarantine_guard reason_code)
      (clear_active_handoff_quarantine_values moment);
    _ ← assert_or_raise updated RuntimeError "HANDOFF_QUARANTINE_CLEAR_STALE";
    conversation ← refresh conversation;
    mret (conversation, true).

(** What both kinds of manager activity do to the dialog. *)
Definition manager_activity_values (moment : instant) (handoff_pause_seconds : Z)
    (c : Conversation) : Conversation :=
  c <| conv_ownership := MANAGER |>
    <| conv_status := HANDOFF |>
    <| conv_handoff_state := HUMAN_ACTIVE |>
    <| conv_context_version ::= Z.succ |>
    <| conv_manager_epoch ::= Z.succ |>
    <| conv_manager_takeover_at ::= fun t => Some (default moment t) |>
    <| conv_handoff_deadline_at := Some (At (moment + seconds handoff_pause_seconds)) |>
    <| conv_human_pause_anchor_at := None |>
    <| conv_active_reply_plan_id := None |>
    <| conv_updated_at := moment |>.

Definition apply_chronologically_new_manager_message_values (provider_sequence : Z)
    (moment : instant) (handoff_pause_seconds : Z) (c : Conversation) : Conversation :=
  manager_activity_values moment handoff_pause_seconds c
    <| conv_manager_sequence_hwm := Some provider_sequence |>.

Definition apply_chronologically_new_manager_message (conversation : Conversation)
    (provider_sequence : Z) (moment : instant) (handoff_pause_seconds : Z)
    : Session (Conversation * bool) :=
  _ ← assert_or_raise (pause_seconds_in_range handoff_pause_seconds)
    ValueError "handoff_pause_seconds must be between 600 and 900";
  '(conversation, _) ←
    clear_active_handoff_quarantine_for_manager_message conversation moment;
  let entered_from_bot := bool_decide (conv_handoff_state conversation = BOT_ACTIVE) in
  _ ← update_by_id (conv_id conversation) no_guard
    (apply_chronologically_new_manager_message_values provider_sequence moment
       handoff_pause_seconds);
  conversation ← refresh conversation;
  mret (conversation, entered_from_bot).

Definition apply_chronologically_new_vk_external_reply_values (provider_sequence : Z)
    (moment : instant) (handoff_pause_seconds : Z) (c : Conversation) : Conversation :=
  manager_activity_values moment handoff_pause_seconds c
    <| conv_vk_client_external_reply_hwm := Some provider_sequence |>.

Definition apply_chronologically_new_vk_external_reply (conversation : Conversation)
    (provider_sequence : Z) (moment : instant) (handoff_pause_seconds : Z)
    : Session (Conversation * bool) :=
  _ ← assert_or_raise (pause_seconds_in_range handoff_pause_seconds)
    ValueError "handoff_pause_seconds must be between 600 and 900";
  '(conversation, _) ←
    clear_active_handoff_quarantine_for_manager_message conversation moment;
  let entered_from_bot := bool_decide (conv_handoff_state conversation = BOT_ACTIVE) in
  _ ← update_by_id (conv_id conversation) no_guard
    (apply_chronologically_new_vk_external_reply_values provider_sequence moment
       handoff_pause_seconds);
  conversation ← refresh conversation;
  mret (conversation, entered_from_bot).

Definition enter_or_continue_human_pause_values (moment : instant)
    (handoff_pause_seconds : Z) (c : Conversation) : Conversation :=
  c <| conv_handoff_state := HUMAN_PAUSE |>
    <| conv_handoff_deadline_at := Some (At (moment + seconds handoff_pause_seconds)) |>
    <| conv_human_pause_anchor_at := Some moment |>
    <| conv_updated_at := moment |>.

Definition enter_or_continue_human_pause (conversation : Conversation) (moment : instant)
    (handoff_pause_seconds : Z) : Session (Conversation * bool) :=
  _ ← assert_or_raise (pause_seconds_in_range handoff_pause_seconds)
    ValueError "handoff_pause_seconds must be between 600 and 900";
  if bool_decide (conv_handoff_state conversation = HUMAN_PAUSE) then
    mret (conversation, false)
  else if negb (bool_decide (conv_handoff_state conversation = HUMAN_ACTIVE)) then
    mret (conversation, false)
  else
    _ ← update_by_id (conv_id conversation) no_guard
      (enter_or_continue_human_pause_values moment handoff_pause_seconds);
    conversation ← refresh conversation;
    mret (conversation, true).

Definition apply_manager_takeover_values (moment : instant) (c : Conversation)
    : Conversation :=
  c <| conv_ownership := MANAGER |>
    <| conv_status := HANDOFF |>
    <| conv_handoff_state := HUMAN_ACTIVE |>
    <| conv_manager_epoch ::= Z.succ |>
    <| conv_manager_takeover_at := Some moment |>
    <| conv_handoff_deadline_at := Some Infinity |>
    <| conv_human_pause_anchor_at := None |>
    <| conv_active_reply_plan_id := None |>
    <| conv_updated_at := moment |>.

(** The dialog already is under an active takeover. *)
Definition takeover_already (c : Conversation) : bool :=
  bool_decide (conv_ownership c = MANAGER) && is_not_null (conv_manager_takeover_at c) &&
  bool_decide (conv_status c = HANDOFF) && bool_decide (conv_handoff_state c = HUMAN_ACTIVE) &&
  is_not_null (conv_handoff_deadline_at c) && is_null (conv_human_pause_anchor_at c).

Definition apply_manager_takeover (conversation_id : uuid) (now : option instant)
    : Session (Conversation * bool) :=
  moment ← resolve_moment now;
  conversation ← lock_for_update conversation_id;
  if bool_decide (conv_status conversation = CLOSED) then mret (conversation, false)
  else if takeover_already conversation then mret (conversation, false)
  else
    _ ← update_by_id (conv_id conversation) no_guard (apply_manager_takeover_values moment);
    conversation ← refresh conversation;
    mret (conversation, true).

(** [conversation.active_reply_plan_id = value; await session.flush()]: the unit
    of work writes the column when the attribute changed. *)
Definition assign_active_reply_plan_id (conversation : Conversation)
    (value : option uuid) : Session Conversation :=
  if bool_decide (conv_active_reply_plan_id conversation = value) then mret conversation
  else
    now ← db_now;
    _ ← update_by_id (conv_id conversation) no_guard (fun c =>
      c <| conv_active_reply_plan_id := value |> <| conv_updated_at := now |>);
    mret (conversation <| conv_active_reply_plan_id := value |>
                       <| conv_updated_at := now |>).

End conversation_repo.

(** ** Rules for the routines *)

Section Rules.
Import conversation_repo.
Context (X : exn -> Database -> Prop) (env : Env) (s : Database).

Lemma wp_lock_for_update cid (Q : Conversation -> Database -> Prop) :
  (forall c, db_conversations s !! cid = Some c -> Q c s) ->
  (db_conversations s !! cid = None ->
   X (Exn RuntimeError "CONVERSATION_LOOKUP_FAILED") s) ->
  wp (lock_for_update cid) Q X env s.
Proof.
  intros HQ HX. unfold lock_for_update, get_by_id_for_update.
  apply wp_bind, wp_get_by_id, wp_require_some; auto.
Qed.

(** UPDATE of the dialog [c] under its lock, then refresh. *)
Lemma wp_update_refresh {B} c v (k : Conversation -> Session B) (Q : B -> Database -> Prop) :
  keys_ok (db_conversations s) -> db_conversations s !! conv_id c = Some c ->
  (forall a, conv_id (v a) = conv_id a) ->
  (conversation_fits (v c) = true -> conversation_checks (v c) = true ->
   wp (k (v c)) Q X env
     (s <| db_conversations := <[conv_id c := v c]> (db_conversations s) |>)) ->
  (forall e s', X e s') ->
  wp (_ ← update_by_id (conv_id c) no_guard v; c' ← refresh c; k c') Q X env s.
Proof.
  intros Hk Hc Hid HQ HX. apply wp_bind.
  apply wp_update_by_id with (r := c); [done|done|done| |auto|auto].
  intros Hfit (_ & Hck & _). apply wp_bind. eapply wp_refresh; dbsimpl;
    [apply lookup_insert_eq | auto].
Qed.

Lemma wp_apply_manager_takeover cid now (Q : Conversation * bool -> Database -> Prop) :
  keys_ok (db_conversations s) ->
  (forall c, db_conversations s !! cid = Some c ->
     conv_status c = CLOSED \/ takeover_already c = true -> Q (c, false) s) ->
  (forall c, db_conversations s !! cid = Some c ->
     conv_status c <> CLOSED -> takeover_already c = false ->
     let c' := apply_manager_takeover_values (default (env_now env) now) c in
     Q (c', true) (s <| db_conversations := <[cid := c']> (db_conversations s) |>)) ->
  (forall e s', X e s') ->
  wp (apply_manager_takeover cid now) Q X env s.
Proof.
  intros Hk Hsame Hchange HX. unfold apply_manager_takeover.
  apply wp_bind, wp_resolve_moment, wp_bind, wp_lock_for_update; [|auto].
  intros c Hc. pose proof (Hk _ _ Hc) as Hid. cbn in Hid. subst cid.
  apply wp_if; [rewrite bool_decide_eq_true; intros; apply wp_ret; auto|].
  rewrite bool_decide_eq_false. intros Hopen.
  apply wp_if; [intros; apply wp_ret; auto|]. intros Hnew.
  apply wp_update_refresh; [done|done|done| |done]. intros _ _. apply wp_ret. eauto.
Qed.

Lemma wp_get_by_channel_external ch ext (Q : option Conversation -> Database -> Prop) :
  (forall k c, db_conversations s !! k = Some c -> conv_channel c = ch ->
     conv_external_conversation_id c = ext -> Q (Some c) s) ->
  ((forall k c, db_conversations s !! k = Some c ->
     ~ (conv_channel c = ch /\ conv_external_conversation_id c = ext)) -> Q None s) ->
  wp (get_by_channel_external ch ext) Q X env s.
Proof.
  intros H1 H2. apply wp_select_scalar.
  - intros k c Hc. rewrite andb_true_iff, bool_decide_eq_true, String.eqb_eq.
    intros [??]. eauto.
  - intros Hno. apply H2. intros k c Hc [Hch Hext]. apply Hno in Hc.
    by rewrite bool_decide_eq_true_2, Hext, String.eqb_refl in Hc.
Qed.

(** A dialog is found by its channel and external id, or starts fresh. *)
Lemma wp_get_or_create ch ext (Q : Conversation * bool -> Database -> Prop) :
  (forall k c, db_conversations s !! k = Some c -> conv_channel c = ch ->
     conv_external_conversation_id c = ext -> Q (c, false) s) ->
  (forall c n, conv_channel c = ch -> conv_external_conversation_id c = ext ->
     c = new_conversation (conv_id c) ch ext (env_now env) ->
     db_conversations s !! conv_id c = None ->
     Q (c, true) (s <| db_conversations := <[conv_id c := c]> (db_conversations s) |>
                    <| db_uuid_supply := n |>)) ->
  (forall e s', X e s') ->
  wp (get_or_create ch ext) Q X env s.
Proof.
  intros Hold Hnew HX. unfold get_or_create.
  apply wp_bind, wp_get_by_channel_external; [intros; apply wp_ret; eauto|]. intros Hno.
  apply wp_bind, wp_uuid4, wp_bind, wp_db_now. set (u := uuid4_of _).
  set (c := new_conversation u ch ext (env_now env)).
  set (s1 := s <| db_uuid_supply ::= N.succ |>).
  apply wp_bind, wp_insert_with; try by auto.
  { intros k c' Hc' Hcf. exfalso. cbn in Hcf. rewrite andb_true_iff in Hcf.
    rewrite bool_decide_eq_true, String.eqb_eq in Hcf. apply (Hno k c' Hc'). naive_solver. }
  intros _ Hfresh _ _. dbsimpl. apply wp_bind.
  unfold get_by_channel_external. apply wp_select_scalar.
  - intros k c' Hc'. dbsimpl. rewrite andb_true_iff, bool_decide_eq_true, String.eqb_eq.
    intros [Hch Hext]. apply wp_bind, wp_require_some; [|done]. intros a [= <-].
    apply wp_ret. rewrite lookup_insert_Some in Hc'.
    destruct Hc' as [[_ <-]|[_ Hc']]; [|by destruct (Hno k c' Hc')].
    apply (Hnew c (N.succ (db_uuid_supply s))); done.
  - intros _. apply wp_bind, wp_require_some; [done|]. auto.
Qed.

Lemma wp_allocate_next_event_seq c (Q : Conversation -> Database -> Prop) :
  keys_ok (db_conversations s) -> db_conversations s !! conv_id c = Some c ->
  (let c' := allocate_next_event_seq_values (env_now env) c in
   Q c' (s <| db_conversations := <[conv_id c := c']> (db_conversations s) |>)) ->
  (forall e s', X e s') ->
  wp (allocate_next_event_seq c) Q X env s.
Proof.
  intros Hk Hc HQ HX. apply wp_bind, wp_db_now, wp_bind. wp_update Hc.
  apply wp_bind, wp_assert; [intros _|done].
  eapply wp_refresh; [apply lookup_insert_eq|done].
Qed.

(** The quarantine flag is lowered, or was not up: fences are unchanged. *)
Lemma wp_clear_active_handoff_quarantine c moment (Q : Conversation * bool -> Database -> Prop) :
  keys_ok (db_conversations s) -> db_conversations s !! conv_id c = Some c ->
  (forall b, handoff_expiry_quarantine_is_active c = false -> Q (c, b) s) ->
  (forall b evs n, handoff_expiry_quarantine_is_active c = true ->
     let c' := clear_active_handoff_quarantine_values moment c in
     Q (c', b) (with_ops evs n
                  (s <| db_conversations := <[conv_id c := c']> (db_conversations s) |>))) ->
  (forall e s', X e s') ->
  wp (clear_active_handoff_quarantine_for_manager_message c moment) Q X env s.
Proof.
  intros Hk Hc Hsame Hclear HX. unfold clear_active_handoff_quarantine_for_manager_message.
  apply wp_if; [rewrite negb_true_iff; intros; apply wp_ret; auto|].
  rewrite negb_false_iff. intros Hact.
  destruct (conv_handoff_quarantine_reason c) as [reason|] eqn:Hreason;
    apply wp_bind; [|apply wp_raise; auto].
  apply wp_if; [intros Hin; apply wp_ret|intros; apply wp_raise; auto].
  apply wp_bind. unfold append_conversation_ops_event.
  apply wp_bind, wp_assert; [intros _|auto]. apply wp_bind, wp_assert; [intros _|auto].
  apply wp_bind, wp_uuid4, wp_bind, wp_db_now. cbv zeta.
  apply wp_bind, wp_insert_row; try by auto. intros _ _ _. dbsimpl. apply wp_ret.
  assert (clear_active_handoff_quarantine_guard reason c = true) as Hg.
  { unfold clear_active_handoff_quarantine_guard, handoff_expiry_quarantine_is_active in *.
    by rewrite Hact, Hreason; cbn; rewrite bool_decide_eq_true_2. }
  apply wp_bind. eapply wp_update_by_id; dbsimpl; [done|exact Hc|exact Hg| |auto|auto].
  intros _ _. apply wp_bind, wp_assert; [intros _|auto].
  apply wp_bind. eapply wp_refresh; [apply lookup_insert_eq|]. by apply wp_ret, Hclear.
Qed.

(** New activity of a person moves the dialog to them, lowering a quarantine flag
    on the way: the common text of the two routines. *)
Lemma wp_new_activity c (values : Conversation -> Conversation) moment pause
    (Q : Conversation * bool -> Database -> Prop) :
  (forall c1, conv_id (values c1) = conv_id c1) ->
  keys_ok (db_conversations s) -> db_conversations s !! conv_id c = Some c ->
  (forall c1 b evs n,
     c1 = c \/ c1 = clear_active_handoff_quarantine_values moment c ->
     b = bool_decide (conv_handoff_state c = BOT_ACTIVE) ->
     Q (values c1, b) (with_ops evs n
          (s <| db_conversations := <[conv_id c := values c1]> (db_conversations s) |>))) ->
  (forall e s', X e s') ->
  wp (_ ← assert_or_raise (pause_seconds_in_range pause)
        ValueError "handoff_pause_seconds must be between 600 and 900";
      '(conversation, _) ← clear_active_handoff_quarantine_for_manager_message c moment;
      let entered_from_bot := bool_decide (conv_handoff_state conversation = BOT_ACTIVE) in
      _ ← update_by_id (conv_id conversation) no_guard values;
      conversation ← refresh conversation;
      mret (conversation, entered_from_bot)) Q X env s.
Proof.
  intros Hid Hk Hc HQ HX. apply wp_bind, wp_assert; [intros _|auto].
  apply wp_bind, wp_clear_active_handoff_quarantine; [done|done| | |done].
  - intros b _. cbv zeta. apply wp_bind. wp_update Hc. apply wp_bind.
    eapply wp_refresh; [dbsimpl; apply lookup_insert_eq|]. apply wp_ret.
    rewrite <- (with_ops_same (_ <| db_conversations := _ |>)).
    apply (HQ c); [by left|done].
  - intros b evs n _. cbv zeta. apply wp_bind.
    eapply wp_update_by_id with (r := clear_active_handoff_quarantine_values moment c);
      dbsimpl; [|apply lookup_insert_eq|done| |auto|auto].
    { by apply keys_ok_insert. }
    intros _ _. apply wp_bind. eapply wp_refresh; [dbsimpl; apply lookup_insert_eq|].
    apply wp_ret. rewrite with_ops_conversations.
    change (conv_id (clear_active_handoff_quarantine_values moment c)) with (conv_id c).
    unfold with_ops at 2. dbsimpl.
    rewrite insert_insert_eq.
    apply (HQ (clear_active_handoff_quarantine_values moment c)); [by right|done].
Qed.

Lemma wp_apply_chronologically_new_manager_message c seq moment pause
    (Q : Conversation * bool -> Database -> Prop) :
  keys_ok (db_conversations s) -> db_conversations s !! conv_id c = Some c ->
  (forall c1 b evs n,
     c1 = c \/ c1 = clear_active_handoff_quarantine_values moment c ->
     let c' := apply_chronologically_new_manager_message_values seq moment pause c1 in
     Q (c', b) (with_ops evs n
                  (s <| db_conversations := <[conv_id c := c']> (db_conversations s) |>))) ->
  (forall e s', X e s') ->
  wp (apply_chronologically_new_manager_message c seq moment pause) Q X env s.
Proof. intros Hk Hc HQ HX. apply wp_new_activity; auto. Qed.

Lemma wp_apply_chronologically_new_vk_external_reply c seq moment pause
    (Q : Conversation * bool -> Database -> Prop) :
  keys_ok (db_conversations s) -> db_conversations s !! conv_id c = Some c ->
  (forall c1 b evs n,
     c1 = c \/ c1 = clear_active_handoff_quarantine_values moment c ->
     b = bool_decide (conv_handoff_state c = BOT_ACTIVE) ->
     let c' := apply_chronologically_new_vk_external_reply_values seq moment pause c1 in
     Q (c', b) (with_ops evs n
                  (s <| db_conversations := <[conv_id c := c']> (db_conversations s) |>))) ->
  (forall e s', X e s') ->
  wp (apply_chronologically_new_vk_external_reply c seq moment pause) Q X env s.
Proof. intros Hk Hc HQ HX. apply wp_new_activity; auto. Qed.
End Rules.

(** [active_reply_plan_id] is the only column a flush writes here. *)
Lemma wp_assign_active_reply_plan_id (X : exn -> Database -> Prop) env s c value
    (Q : Conversation -> Database -> Prop) :
  keys_ok (db_conversations s) -> db_conversations s !! conv_id c = Some c ->
  (forall u, let c' := c <| conv_active_reply_plan_id := value |> <| conv_updated_at := u |> in
     Q c' (s <| db_conversations := <[conv_id c := c']> (db_conversations s) |>)) ->
  (forall e s', X e s') ->
  wp (conversation_repo.assign_active_reply_plan_id c value) Q X env s.
Proof.
  intros Hk Hc HQ HX. unfold conversation_repo.assign_active_reply_plan_id.
  apply wp_if.
  - rewrite bool_decide_eq_true. intros Heq. apply wp_ret.
    specialize (HQ (conv_updated_at c)). cbv zeta in HQ.
    assert (c <| conv_active_reply_plan_id := value |>
              <| conv_updated_at := conv_updated_at c |> = c) as E by (subst; by destruct c).
    rewrite E in HQ. rewrite insert_id in HQ by done. by destruct s.
  - intros _. apply wp_bind, wp_db_now, wp_bind. wp_update Hc. apply wp_ret, HQ.
Qed.
