(* ===== verification/EphemeralPii.v ===== *)
(** * The encrypted store of personal data

    src/app/core/ephemeral_pii_types.py, ephemeral_pii_keys.py,
    ephemeral_pii_crypto.py, src/app/repositories/ephemeral_pii.py and
    src/app/services/ephemeral_pii_store.py.  A value is encrypted under a key of
    the environment, bound to its row, dialog, kind and purpose, and stored until
    it expires under the SHA-256 of a random reference, whose token alone names
    it.  AES-GCM (package cryptography) and the operating system's random bytes
    are parameters. *)

From stdpp Require Import sorting.
From S2P Require Import Prelude BookingText Encodings Models Database.

Class CryptoLib := {
  aesgcm_encrypt : string -> string -> string -> string -> string;
  aesgcm_decrypt : string -> string -> string -> string -> option string;
  (** the n-th draw of so many bytes from [secrets.token_bytes] *)
  random_bytes : N -> nat -> string
}.

(** [os.environ] *)
Definition Environ := gmap string string.

(** ** app/core/ephemeral_pii_types.py *)

Definition CRYPTO_VERSION_V1 : Z := 1.
Definition KEY_SIZE_BYTES : nat := 32.
Definition NONCE_SIZE_BYTES : nat := 12.
Definition REFERENCE_RAW_BYTES : nat := 32.
Definition MIN_CIPHERTEXT_BYTES : nat := 16.
Definition MAX_PLAINTEXT_BYTES : nat := 256.
Definition MAX_TTL_SECONDS : Z := 86400.
Definition MAX_PURGE_BATCH : Z := 1000.
Definition MAX_REFERENCE_COLLISION_RETRIES : nat := 3.

Definition kind_value (kind : EphemeralPiiKind) : string :=
  match kind with PII_PHONE => "PHONE" | PII_CLIENT_NAME => "CLIENT_NAME" end.

Definition purpose_value (purpose : EphemeralPiiPurpose) : string :=
  match purpose with
  | BOOKING_PHONE_WRITE => "BOOKING_PHONE_WRITE"
  | APPROVED_STAFF_ALERT_PHONE => "APPROVED_STAFF_ALERT_PHONE"
  | AMOCRM_CONTACT_SYNC => "AMOCRM_CONTACT_SYNC"
  | MASTER_BOOKING_CLIENT_WRITE => "MASTER_BOOKING_CLIENT_WRITE"
  end.

(** [_require_key_id_token] *)
Definition require_key_id_token (value : string) : option string :=
  if String.eqb value "" || (64 <? String.length value)%nat then None
  else if negb (str_forall (fun c => is_digit c || char_between 65 90 c || is_char "_" c) value)
  then None
  else Some value.

Record EphemeralPiiAad := MkEphemeralPiiAad {
  aad_crypto_version : Z;
  aad_record_id : uuid;
  aad_key_id : string;
  aad_kind : EphemeralPiiKind;
  aad_conversation_id : uuid;
  aad_purpose : EphemeralPiiPurpose
}.

Definition newline : string := String (ascii_of_N 10) EmptyString.

(** [to_bytes]: ASCII, so its UTF-8 encoding is itself. *)
Definition aad_to_bytes (aad : EphemeralPiiAad) : string :=
  "epii-aad-v1" +:+ newline +:+
  "crypto_version=" +:+ str_of_int (aad_crypto_version aad) +:+ newline +:+
  "record_id=" +:+ uuid_str (aad_record_id aad) +:+ newline +:+
  "key_id=" +:+ aad_key_id aad +:+ newline +:+
  "kind=" +:+ kind_value (aad_kind aad) +:+ newline +:+
  "conversation_id=" +:+ uuid_str (aad_conversation_id aad) +:+ newline +:+
  "purpose=" +:+ purpose_value (aad_purpose aad).

Record EphemeralPiiCiphertext := MkEphemeralPiiCiphertext {
  ec_ciphertext : string;
  ec_nonce : string;
  ec_key_id : string;
  ec_crypto_version : Z
}.

(** [__post_init__] of the envelope: the code it raises, if any. *)
Definition ciphertext_post_init (c : EphemeralPiiCiphertext) : option string :=
  if (String.length (ec_ciphertext c) <? MIN_CIPHERTEXT_BYTES)%nat
  then Some "EPHEMERAL_PII_VALUE_INVALID"%string
  else if negb (String.length (ec_nonce c) =? NONCE_SIZE_BYTES)%nat
  then Some "EPHEMERAL_PII_VALUE_INVALID"%string
  else if is_null (require_key_id_token (ec_key_id c)) || (ec_crypto_version c <? 1)
  then Some "EPHEMERAL_PII_CONFIG_INVALID"%string
  else None.

(** [_canonical_reference_token] *)
Definition canonical_reference_token (raw : string) : option string :=
  if (String.length raw =? REFERENCE_RAW_BYTES)%nat then Some (urlsafe_b64encode raw) else None.

(** [_REFERENCE_TOKEN_RE.fullmatch(token)] *)
Definition reference_token_re (token : string) : bool :=
  (String.length token =? 44)%nat && str_forall is_b64_digit (str_take 43 token) &&
  String.eqb (str_drop 43 token) "=".

(** [_decode_reference_token] *)
Definition decode_reference_token (token : string) : option string :=
  if negb (reference_token_re token) then None
  else
    decoded ← urlsafe_b64decode token;
    if negb (String.length decoded =? REFERENCE_RAW_BYTES)%nat then None
    else
      canonical ← canonical_reference_token decoded;
      if String.eqb canonical token then Some decoded else None.

Record EphemeralPiiReference := MkEphemeralPiiReference { er_raw : string }.

Module EphemeralPiiReferenceOps.

(** The constructor. *)
Definition init (raw : string) : option EphemeralPiiReference :=
  if (String.length raw =? REFERENCE_RAW_BYTES)%nat
  then Some (MkEphemeralPiiReference raw) else None.

Definition parse (value : string) : option EphemeralPiiReference :=
  raw ← decode_reference_token value; init raw.

(** Total on a reference, whose raw bytes the constructor measured. *)
Definition to_token (reference : EphemeralPiiReference) : string :=
  urlsafe_b64encode (er_raw reference).

Definition digest (reference : EphemeralPiiReference) : string := sha256 (er_raw reference).

End EphemeralPiiReferenceOps.

Record EphemeralPiiHandle := MkEphemeralPiiHandle {
  eh_reference : EphemeralPiiReference;
  eh_kind : EphemeralPiiKind;
  eh_purpose : EphemeralPiiPurpose
}.

(** A validated [EphemeralPiiTtlPolicy] is its number of seconds. *)
Definition ttl_policy (ttl_seconds : Z) : option Z :=
  if (1 <=? ttl_seconds) && (ttl_seconds <=? MAX_TTL_SECONDS) then Some ttl_seconds else None.

(** ** app/core/ephemeral_pii_keys.py *)

Record ActiveEphemeralPiiKey := MkActiveEphemeralPiiKey {
  ak_key_id : string;
  ak_key : string
}.

Definition validate_key_id (value : string) : option string := require_key_id_token value.

(** [_decode_key_material] *)
Definition decode_key_material (raw : string) : option string :=
  if String.eqb raw "" then None
  else if negb (str_forall (fun c => negb (py_isspace c)) raw) then None
  else
    let digits := str_strip_right (is_char "=") raw in
    if String.eqb digits "" || negb (str_forall is_b64_digit digits) then None
    else
      decoded ← urlsafe_b64decode raw;
      if negb (String.length decoded =? KEY_SIZE_BYTES)%nat then None
      else if String.eqb raw (urlsafe_b64encode decoded) then Some decoded else None.

(** The provider of the environment: it reads at every call. *)
Module EnvEphemeralPiiKeyProvider.
Section Provider.
Context (environ : Environ).

Definition active_key_id : Session string :=
  match environ !! "EPHEMERAL_PII_ACTIVE_KEY_ID"%string with
  | None => raise EphemeralPiiError "EPHEMERAL_PII_KEY_UNAVAILABLE"
  | Some raw => require_some (validate_key_id raw) EphemeralPiiError "EPHEMERAL_PII_CONFIG_INVALID"
  end.

Definition get_key (key_id : string) : Session string :=
  validated ← require_some (validate_key_id key_id) EphemeralPiiError
    "EPHEMERAL_PII_CONFIG_INVALID";
  match environ !! ("EPHEMERAL_PII_KEY_" +:+ validated) with
  | None => raise EphemeralPiiError "EPHEMERAL_PII_KEY_UNAVAILABLE"
  | Some raw =>
      require_some (decode_key_material raw) EphemeralPiiError "EPHEMERAL_PII_CONFIG_INVALID"
  end.

(** The key snapshot's own checks repeat those of [get_key]. *)
Definition get_active_key : Session ActiveEphemeralPiiKey :=
  key_id ← active_key_id;
  key ← get_key key_id;
  mret (MkActiveEphemeralPiiKey key_id key).
End Provider.
End EnvEphemeralPiiKeyProvider.

(** Any error of [m] becomes [code], but for the store's own. *)
Definition pii_error_or {A} (code : string) (m : Session A) : Session A :=
  try_except m (fun _ => true) (fun e =>
    if bool_decide (exn_class e = EphemeralPiiError) then raise (exn_class e) (exn_message e)
    else raise EphemeralPiiError code).

(** Any error of [m] becomes [code]. *)
Definition any_error_is {A} (c : exc_class) (code : string) (m : Session A) : Session A :=
  try_except m (fun _ => true) (fun _ => raise c code).

(** ** app/core/ephemeral_pii_crypto.py *)

(** [_require_key_bytes] *)
Definition require_key_bytes (key : string) : Session string :=
  if (String.length key =? KEY_SIZE_BYTES)%nat then mret key
  else raise EphemeralPiiError "EPHEMERAL_PII_CONFIG_INVALID".

Section Crypto.
Context `{CryptoLib}.

(** [secrets.token_bytes]: the supply that numbers the UUIDs of a database
    numbers its random draws as well. *)
Definition token_bytes (count : nat) : Session string := fun _ s =>
  (Returned (random_bytes (db_uuid_supply s) count), s <| db_uuid_supply ::= N.succ |>).

(** Some 256 random bits, as the default reference factory draws them. *)
Definition generate_reference : Session EphemeralPiiReference :=
  raw ← token_bytes REFERENCE_RAW_BYTES;
  require_some (EphemeralPiiReferenceOps.init raw) EphemeralPiiError
    "EPHEMERAL_PII_REFERENCE_INVALID".

Definition encrypt_text (value : string) (aad : EphemeralPiiAad) (environ : Environ)
    (active_key : option ActiveEphemeralPiiKey) : Session EphemeralPiiCiphertext :=
  if String.eqb value "" then raise EphemeralPiiError "EPHEMERAL_PII_VALUE_INVALID"
  else
    let plaintext := utf8_encode value in
    if (MAX_PLAINTEXT_BYTES <? String.length plaintext)%nat
    then raise EphemeralPiiError "EPHEMERAL_PII_VALUE_INVALID"
    else if negb (aad_crypto_version aad =? CRYPTO_VERSION_V1)
    then raise EphemeralPiiError "EPHEMERAL_PII_CONFIG_INVALID"
    else
      key ← match active_key with
        | Some active_key =>
            if negb (String.eqb (ak_key_id active_key) (aad_key_id aad))
            then raise EphemeralPiiError "EPHEMERAL_PII_CONFIG_INVALID"
            else require_key_bytes (ak_key active_key)
        | None =>
            active_key_id ← EnvEphemeralPiiKeyProvider.active_key_id environ;
            if negb (String.eqb active_key_id (aad_key_id aad))
            then raise EphemeralPiiError "EPHEMERAL_PII_CONFIG_INVALID"
            else
              key ← EnvEphemeralPiiKeyProvider.get_key environ active_key_id;
              require_key_bytes key
        end;
      nonce ← token_bytes NONCE_SIZE_BYTES;
      if negb (String.length nonce =? NONCE_SIZE_BYTES)%nat
      then raise EphemeralPiiError "EPHEMERAL_PII_ENCRYPT_FAILED"
      else
        let encrypted := MkEphemeralPiiCiphertext
          (aesgcm_encrypt key nonce plaintext (aad_to_bytes aad)) nonce (aad_key_id aad)
          CRYPTO_VERSION_V1 in
        match ciphertext_post_init encrypted with
        | Some code => raise EphemeralPiiError code
        | None => mret encrypted
        end.

Definition decrypt_text (encrypted : EphemeralPiiCiphertext) (aad : EphemeralPiiAad)
    (environ : Environ) : Session string :=
  if negb (ec_crypto_version encrypted =? CRYPTO_VERSION_V1)
  then raise EphemeralPiiError "EPHEMERAL_PII_CONFIG_INVALID"
  else if negb (aad_crypto_version aad =? ec_crypto_version encrypted)
  then raise EphemeralPiiError "EPHEMERAL_PII_CONFIG_INVALID"
  else if negb (String.eqb (aad_key_id aad) (ec_key_id encrypted))
  then raise EphemeralPiiError "EPHEMERAL_PII_CONFIG_INVALID"
  else if negb (String.length (ec_nonce encrypted) =? NONCE_SIZE_BYTES)%nat ||
    (String.length (ec_ciphertext encrypted) <? MIN_CIPHERTEXT_BYTES)%nat
  then raise EphemeralPiiError "EPHEMERAL_PII_ACCESS_DENIED"
  else
    raw_key ← any_error_is EphemeralPiiError "EPHEMERAL_PII_ACCESS_DENIED"
      (EnvEphemeralPiiKeyProvider.get_key environ (ec_key_id encrypted));
    if negb (String.length raw_key =? KEY_SIZE_BYTES)%nat
    then raise EphemeralPiiError "EPHEMERAL_PII_ACCESS_DENIED"
    else
      plaintext ← require_some
        (aesgcm_decrypt raw_key (ec_nonce encrypted) (ec_ciphertext encrypted)
          (aad_to_bytes aad)) EphemeralPiiError "EPHEMERAL_PII_ACCESS_DENIED";
      require_some (utf8_decode plaintext) EphemeralPiiError "EPHEMERAL_PII_ACCESS_DENIED".
End Crypto.

(** ** app/repositories/ephemeral_pii.py

    [EphemeralPiiLockedRow] copies the columns of the row it was read from; the
    model passes the row. *)

Module ephemeral_pii_repo.

Definition insert_if_reference_available (row_id : uuid) (reference_digest : string)
    (conversation_id : uuid) (pii_kind : EphemeralPiiKind)
    (allowed_purpose : EphemeralPiiPurpose) (encrypted : EphemeralPiiCiphertext)
    (ttl_seconds : Z) : Session bool :=
  statement_timestamp ← db_statement_now;
  insert_on_conflict_do_nothing uq_ephemeral_pii_values_reference_digest
    (MkEphemeralPiiValue row_id reference_digest conversation_id pii_kind allowed_purpose
      (ec_ciphertext encrypted) (ec_nonce encrypted) (ec_key_id encrypted)
      (ec_crypto_version encrypted) statement_timestamp
      (statement_timestamp + seconds ttl_seconds)).

(** [_row_still_unexpired_after_lock] *)
Definition row_still_unexpired_after_lock (row_id : uuid) : Session bool :=
  statement_timestamp ← db_statement_now;
  still_valid ← select_scalar (fun v =>
    bool_decide (ep_id v = row_id) && (statement_timestamp <? ep_expires_at v));
  mret (is_not_null (still_valid : option EphemeralPiiValue)).

Definition select_for_read (reference_digest : string) : Session (option EphemeralPiiValue) :=
  statement_timestamp ← db_statement_now;
  select_scalar (fun v =>
    String.eqb (ep_reference_digest v) reference_digest &&
    (statement_timestamp <? ep_expires_at v)).

Definition select_for_consume (reference_digest : string) : Session (option EphemeralPiiValue) :=
  row ← select_for_read reference_digest;
  match row with
  | None => mret None
  | Some row =>
      still ← row_still_unexpired_after_lock (ep_id row);
      mret (if still : bool then Some row else None)
  end.

Definition delete_locked_row (row_id : uuid) : Session unit :=
  _ ← delete_where (fun v : EphemeralPiiValue => bool_decide (ep_id v = row_id)); mret tt.

(** ORDER BY expires_at, id *)
Definition due_order (a b : EphemeralPiiValue) : Prop :=
  ep_expires_at a < ep_expires_at b \/
  (ep_expires_at a = ep_expires_at b /\ (ep_id a <= ep_id b)%N).

#[export] Instance due_order_dec a b : Decision (due_order a b).
Proof. unfold due_order. apply _. Defined.

Definition purge_expired_batch (limit : Z) : Session Z :=
  statement_timestamp ← db_statement_now;
  env ← get_env;
  expired ← select_where (fun v =>
    (ep_expires_at v <=? statement_timestamp) && negb (env_locked env (ep_id v)));
  let due := ep_id <$> firstn (Z.to_nat limit) (merge_sort due_order expired) in
  delete_where (fun v : EphemeralPiiValue => bool_decide (ep_id v ∈ due)).

End ephemeral_pii_repo.

(** ** app/services/ephemeral_pii_store.py *)

(** The store's configuration: its key provider reads [eps_environ], its
    references are drawn at random, and [eps_ttl_seconds] is its policy. *)
Record EphemeralPiiStore := MkEphemeralPiiStore {
  eps_environ : Environ;
  eps_ttl_seconds : Z
}.

(** [_bindings_match] *)
Definition bindings_match (row : EphemeralPiiValue) (conversation_id : uuid)
    (kind : EphemeralPiiKind) (purpose : EphemeralPiiPurpose) : bool :=
  bool_decide (ep_conversation_id row = conversation_id) &&
  bool_decide (ep_pii_kind row = kind) && bool_decide (ep_allowed_purpose row = purpose).

(** [_require_plaintext] *)
Definition require_plaintext (value : string) : Session unit :=
  assert_or_raise (negb (String.eqb value "")) EphemeralPiiError "EPHEMERAL_PII_VALUE_INVALID".

Module EphemeralPiiStoreOps.
Section Store.
Context `{CryptoLib} (store : EphemeralPiiStore).

(** The loop of [_store_one_in_session] over [range(attempts)]. *)
Fixpoint store_under_reference (attempts : nat) (record_id conversation_id : uuid)
    (kind : EphemeralPiiKind) (purpose : EphemeralPiiPurpose)
    (encrypted : EphemeralPiiCiphertext) : Session (option EphemeralPiiHandle) :=
  match attempts with
  | O => mret None
  | S attempts =>
      reference ← generate_reference;
      inserted ← ephemeral_pii_repo.insert_if_reference_available record_id
        (EphemeralPiiReferenceOps.digest reference) conversation_id kind purpose encrypted
        (eps_ttl_seconds store);
      if inserted : bool then mret (Some (MkEphemeralPiiHandle reference kind purpose))
      else store_under_reference attempts record_id conversation_id kind purpose encrypted
  end.

(** [_store_one_in_session] *)
Definition store_one_in_session (plaintext : string) (conversation_id : uuid)
    (kind : EphemeralPiiKind) (purpose : EphemeralPiiPurpose)
    : Session (option EphemeralPiiHandle) :=
  active ← EnvEphemeralPiiKeyProvider.get_active_key (eps_environ store);
  record_id ← uuid4;
  let aad := MkEphemeralPiiAad CRYPTO_VERSION_V1 record_id (ak_key_id active) kind
    conversation_id purpose in
  encrypted ← encrypt_text plaintext aad (eps_environ store) (Some active);
  store_under_reference MAX_REFERENCE_COLLISION_RETRIES record_id conversation_id kind purpose
    encrypted.

(** [store]: its own transaction. *)
Definition store_value (plaintext : string) (conversation_id : uuid) (kind : EphemeralPiiKind)
    (purpose : EphemeralPiiPurpose) : Session EphemeralPiiHandle :=
  _ ← require_plaintext plaintext;
  handle ← pii_error_or "EPHEMERAL_PII_STORE_FAILED"
    (session_scope (store_one_in_session plaintext conversation_id kind purpose));
  require_some handle EphemeralPiiError "EPHEMERAL_PII_STORE_FAILED".

(** In the caller's transaction. *)
Definition store_booking_phone_write_pair (phone client_name : string) (conversation_id : uuid)
    : Session (EphemeralPiiHandle * EphemeralPiiHandle) :=
  _ ← require_plaintext phone;
  _ ← require_plaintext client_name;
  pair ← pii_error_or "EPHEMERAL_PII_STORE_FAILED" (
    phone_handle ← store_one_in_session phone conversation_id PII_PHONE BOOKING_PHONE_WRITE;
    name_handle ← store_one_in_session client_name conversation_id PII_CLIENT_NAME
      BOOKING_PHONE_WRITE;
    mret (phone_handle, name_handle));
  match (pair : option EphemeralPiiHandle * option EphemeralPiiHandle) with
  | (Some phone_handle, Some name_handle) => mret (phone_handle, name_handle)
  | _ => raise EphemeralPiiError "EPHEMERAL_PII_STORE_FAILED"
  end.

(** The decryption of a row that was read. *)
Definition decrypt_row (row : EphemeralPiiValue) (conversation_id : uuid)
    (kind : EphemeralPiiKind) (purpose : EphemeralPiiPurpose) : Session string :=
  let aad := MkEphemeralPiiAad (ep_crypto_version row) (ep_id row) (ep_key_id row) kind
    conversation_id purpose in
  any_error_is EphemeralPiiError "EPHEMERAL_PII_ACCESS_DENIED"
    (decrypt_text (MkEphemeralPiiCiphertext (ep_ciphertext row) (ep_nonce row) (ep_key_id row)
      (ep_crypto_version row)) aad (eps_environ store)).

(** What a row must be for a caller who names a dialog, a kind and a purpose. *)
Definition require_access (row : option EphemeralPiiValue) (conversation_id : uuid)
    (kind : EphemeralPiiKind) (purpose : EphemeralPiiPurpose) : Session EphemeralPiiValue :=
  match row with
  | None => raise EphemeralPiiError "EPHEMERAL_PII_ACCESS_DENIED"
  | Some row =>
      if negb (bindings_match row conversation_id kind purpose)
      then raise EphemeralPiiError "EPHEMERAL_PII_ACCESS_DENIED"
      else if negb (ep_crypto_version row =? CRYPTO_VERSION_V1)
      then raise EphemeralPiiError "EPHEMERAL_PII_ACCESS_DENIED"
      else mret row
  end.

Definition read_plaintext (reference : EphemeralPiiReference) (conversation_id : uuid)
    (kind : EphemeralPiiKind) (purpose : EphemeralPiiPurpose) : Session string :=
  pii_error_or "EPHEMERAL_PII_STORE_FAILED" (session_scope (
    row ← ephemeral_pii_repo.select_for_read (EphemeralPiiReferenceOps.digest reference);
    row ← require_access row conversation_id kind purpose;
    decrypt_row row conversation_id kind purpose)).

Definition consume_once (reference : EphemeralPiiReference) (conversation_id : uuid)
    (kind : EphemeralPiiKind) (purpose : EphemeralPiiPurpose) : Session string :=
  pii_error_or "EPHEMERAL_PII_STORE_FAILED" (session_scope (
    row ← ephemeral_pii_repo.select_for_consume (EphemeralPiiReferenceOps.digest reference);
    row ← require_access row conversation_id kind purpose;
    plaintext ← decrypt_row row conversation_id kind purpose;
    _ ← ephemeral_pii_repo.delete_locked_row (ep_id row);
    mret plaintext)).
End Store.

Definition delete (reference : EphemeralPiiReference) (conversation_id : uuid)
    (kind : EphemeralPiiKind) (purpose : EphemeralPiiPurpose) : Session unit :=
  pii_error_or "EPHEMERAL_PII_STORE_FAILED" (session_scope (
    row ← ephemeral_pii_repo.select_for_consume (EphemeralPiiReferenceOps.digest reference);
    row ← require_access row conversation_id kind purpose;
    ephemeral_pii_repo.delete_locked_row (ep_id row))).

(** Whether both rows are unexpired and bound to the dialog and purpose; in the
    caller's transaction. *)
Definition booking_phone_write_pair_alive (phone_ref_token name_ref_token : string)
    (conversation_id : uuid) : Session bool :=
  match EphemeralPiiReferenceOps.parse phone_ref_token,
        EphemeralPiiReferenceOps.parse name_ref_token with
  | Some phone_ref, Some name_ref =>
      rows ← pii_error_or "EPHEMERAL_PII_STORE_FAILED" (
        phone_row ← ephemeral_pii_repo.select_for_read
          (EphemeralPiiReferenceOps.digest phone_ref);
        name_row ← ephemeral_pii_repo.select_for_read
          (EphemeralPiiReferenceOps.digest name_ref);
        mret (phone_row, name_row));
      match (rows : option EphemeralPiiValue * option EphemeralPiiValue) with
      | (Some phone_row, Some name_row) =>
          mret (bindings_match phone_row conversation_id PII_PHONE BOOKING_PHONE_WRITE &&
                bindings_match name_row conversation_id PII_CLIENT_NAME BOOKING_PHONE_WRITE)
      | _ => mret false
      end
  | _, _ => mret false
  end.

Definition purge_expired (limit : Z) : Session Z :=
  if negb ((1 <=? limit) && (limit <=? MAX_PURGE_BATCH))
  then raise EphemeralPiiError "EPHEMERAL_PII_POLICY_INVALID"
  else
    pii_error_or "EPHEMERAL_PII_PURGE_FAILED"
      (session_scope (ephemeral_pii_repo.purge_expired_batch limit)).

End EphemeralPiiStoreOps.

(** [build_ephemeral_pii_store_from_env] *)
Definition build_ephemeral_pii_store_from_env (environ : Environ) (ttl_seconds : Z)
    : Session (option EphemeralPiiStore) :=
  let key_present :=
    existsb (String.prefix "EPHEMERAL_PII_KEY_") (fst <$> map_to_list environ) in
  if String.eqb (default ""%string (environ !! "EPHEMERAL_PII_ACTIVE_KEY_ID"%string)) "" &&
     negb key_present
  then mret None
  else
    _ ← EnvEphemeralPiiKeyProvider.get_active_key environ;
    policy ← require_some (ttl_policy ttl_seconds) EphemeralPiiError
      "EPHEMERAL_PII_POLICY_INVALID";
    mret (Some (MkEphemeralPiiStore environ policy)).
