(* ===== verification/ReplyPlans.v ===== *)
(** * Reply plans: src/app/repositories/reply_plans.py

    The leased queue of reply plans: creation, supersession and cancellation,
    claim with SKIP LOCKED and fencing, completion, failure, and the durable
    marker that starts a remote booking resolution at most once. *)

From S2P Require Import Prelude Models Database Statements.

Module reply_plan_repo.

Definition DEFAULT_LEASE_SECONDS : Z := 30.
Definition DEFAULT_MAX_ATTEMPTS : Z := 5.
Definition DEFAULT_RETRY_DELAY_SECONDS : Z := 1.

Record ReplyPlanClaim := MkReplyPlanClaim {
  rpc_plan_id : uuid;
  rpc_conversation_id : uuid;
  rpc_context_version : Z;
  rpc_manager_epoch : Z;
  rpc_event_seq_hwm : Z;
  rpc_plan_type : ReplyPlanType;
  rpc_status : ReplyPlanStatus;
  rpc_not_before : tstz;
  rpc_bot_response_delay_ms : Z;
  rpc_attempt_count : Z;
  rpc_max_attempts : Z;
  rpc_lease_owner : string;
  rpc_lease_token : uuid;
  rpc_lease_version : Z;
  rpc_lease_until : instant;
  rpc_correlation_id : uuid;
  rpc_payload_json : jdict
}.

Record ExhaustedReplyPlanLease := MkExhaustedReplyPlanLease {
  erl_plan_id : uuid;
  erl_conversation_id : uuid
}.

Definition row_to_claim (row : ReplyPlan) : Session ReplyPlanClaim :=
  match rp_lease_token row, rp_lease_owner row, rp_lease_until row with
  | Some lease_token, Some lease_owner, Some lease_until => mret {|
      rpc_plan_id := rp_id row;
      rpc_conversation_id := rp_conversation_id row;
      rpc_context_version := rp_context_version row;
      rpc_manager_epoch := rp_manager_epoch row;
      rpc_event_seq_hwm := rp_event_seq_hwm row;
      rpc_plan_type := rp_plan_type row;
      rpc_status := rp_status row;
      rpc_not_before := rp_not_before row;
      rpc_bot_response_delay_ms := rp_bot_response_delay_ms row;
      rpc_attempt_count := rp_attempt_count row;
      rpc_max_attempts := rp_max_attempts row;
      rpc_lease_owner := lease_owner;
      rpc_lease_token := lease_token;
      rpc_lease_version := rp_lease_version row;
      rpc_lease_until := lease_until;
      rpc_correlation_id := rp_correlation_id row;
      rpc_payload_json := rp_payload_json row
    |}
  | _, _, _ => raise RuntimeError "REPLY_PLAN_LEASE_INCOMPLETE"
  end.

Definition create_client_reply_plan (conversation_id : uuid) (context_version : Z)
    (correlation_id : uuid) (payload_json : jdict) (delay_ms max_attempts : Z)
    (now : option instant) (not_before : option tstz) (manager_epoch event_seq_hwm : Z)
    : Session ReplyPlan :=
  _ ← assert_or_raise (negb (delay_ms <? 0)) ValueError "delay_ms must be nonnegative";
  _ ← assert_or_raise (negb ((manager_epoch <? 0) || (event_seq_hwm <? 0)))
    ValueError "reply fencing values must be nonnegative";
  moment ← resolve_moment now;
  let scheduled_for := default (At (moment + milliseconds delay_ms)) not_before in
  id ← uuid4;
  let plan := {|
    rp_id := id;
    rp_conversation_id := conversation_id;
    rp_context_version := context_version;
    rp_manager_epoch := manager_epoch;
    rp_event_seq_hwm := event_seq_hwm;
    rp_plan_type := CLIENT_REPLY;
    rp_status := RP_PENDING;
    rp_not_before := scheduled_for;
    rp_bot_response_delay_ms := delay_ms;
    rp_payload_json := payload_json;
    rp_cancel_reason := None;
    rp_lease_owner := None;
    rp_lease_token := None;
    rp_lease_version := 0;
    rp_lease_until := None;
    rp_attempt_count := 0;
    rp_max_attempts := max_attempts;
    rp_correlation_id := correlation_id;
    rp_created_at := moment;
    rp_updated_at := moment
  |} in
  _ ← insert_row plan;
  mret plan.

(** [where(conversation_id == ..., status.not_in(terminal))] *)
Definition open_plan_of (conversation_id : uuid) (p : ReplyPlan) : bool :=
  bool_decide (rp_conversation_id p = conversation_id) && reply_plan_open (rp_status p).

(** A plan leaves the queue under [status] for [reason]. *)
Definition close_plan_values (status : ReplyPlanStatus) (reason : string) (now : instant)
    (p : ReplyPlan) : ReplyPlan :=
  p <| rp_status := status |>
    <| rp_cancel_reason := Some (str_take 64 reason) |>
    <| rp_lease_owner := None |>
    <| rp_lease_token := None |>
    <| rp_lease_until := None |>
    <| rp_updated_at := now |>.

Definition supersede_open_plans (conversation_id : uuid) (reason : string) : Session Z :=
  now ← db_now;
  update_where (open_plan_of conversation_id) (close_plan_values RP_SUPERSEDED reason now).

Definition cancel_open_plans_for_takeover (conversation_id : uuid) (reason : string)
    : Session Z :=
  now ← db_now;
  update_where (open_plan_of conversation_id) (close_plan_values RP_CANCELLED reason now).

Definition mark_ready_due_plans (now : option instant) : Session Z :=
  moment ← resolve_moment now;
  update_where
    (fun p => bool_decide (rp_status p = RP_PENDING) && tstz_due (rp_not_before p) moment)
    (fun p => p <| rp_status := RP_READY |> <| rp_updated_at := moment |>).

(** An expired final attempt. *)
Definition lease_exhausted (moment : instant) (p : ReplyPlan) : bool :=
  bool_decide (rp_status p = RP_PROCESSING) && is_not_null (rp_lease_until p) &&
  sql_lt (rp_lease_until p) moment && (rp_max_attempts p <=? rp_attempt_count p).

Definition lease_order (a b : ReplyPlan) : bool :=
  match rp_lease_until a, rp_lease_until b with
  | Some ua, Some ub => (ua <? ub) || ((ua =? ub) && (rp_created_at a <=? rp_created_at b))
  | _, None => true
  | None, Some _ => false
  end.

Definition find_exhausted_lease (now : option instant)
    : Session (option ExhaustedReplyPlanLease) :=
  moment ← resolve_moment now;
  found ← select_where (lease_exhausted moment);
  mret ((fun p => MkExhaustedReplyPlanLease (rp_id p) (rp_conversation_id p)) <$>
        pick_min lease_order found).

Definition recover_exhausted_lease (plan_id : uuid) (now : option instant)
    : Session (option ReplyPlan) :=
  moment ← resolve_moment now;
  recovered ← update_by_id plan_id (lease_exhausted moment) (fun p =>
    p <| rp_status := RP_DEAD |>
      <| rp_cancel_reason := Some "LEASE_ATTEMPTS_EXHAUSTED"%string |>
      <| rp_lease_owner := None |>
      <| rp_lease_token := None |>
      <| rp_lease_until := None |>
      <| rp_updated_at := moment |>);
  if negb recovered then mret None else get_by_id plan_id.

(** The EXISTS subquery of [claim_next]: the plan's dialog is the bot's and the
    plan's fences are the dialog's. *)
Definition plan_fenced_by (c : Conversation) (p : ReplyPlan) : bool :=
  bool_decide (conv_status c = OPEN) && bool_decide (conv_ownership c = BOT) &&
  bool_decide (conv_handoff_state c = BOT_ACTIVE) &&
  (conv_context_version c =? rp_context_version p) &&
  (conv_manager_epoch c =? rp_manager_epoch p) &&
  (conv_current_event_seq c =? rp_event_seq_hwm p).

Definition claimable (conversations : gmap uuid Conversation) (now : instant)
    (p : ReplyPlan) : bool :=
  (rp_attempt_count p <? rp_max_attempts p) && tstz_due (rp_not_before p) now &&
  (match conversations !! rp_conversation_id p with
   | Some c => plan_fenced_by c p
   | None => false
   end) &&
  (match rp_status p with
   | RP_READY => true
   | RP_FAILED => is_null (rp_lease_until p) || sql_lt (rp_lease_until p) now
   | RP_PROCESSING => is_not_null (rp_lease_until p) && sql_lt (rp_lease_until p) now
   | _ => false
   end).

(** ORDER BY not_before, created_at *)
Definition claim_order (a b : ReplyPlan) : bool :=
  if bool_decide (rp_not_before a = rp_not_before b) then rp_created_at a <=? rp_created_at b
  else tstz_leb (rp_not_before a) (rp_not_before b).

Definition claim_values (now : instant) (worker_id : string) (lease_token : uuid)
    (lease_until : instant) (p : ReplyPlan) : ReplyPlan :=
  p <| rp_status := RP_PROCESSING |>
    <| rp_lease_owner := Some worker_id |>
    <| rp_lease_token := Some lease_token |>
    <| rp_lease_version ::= Z.succ |>
    <| rp_lease_until := Some lease_until |>
    <| rp_attempt_count ::= Z.succ |>
    <| rp_cancel_reason := None |>
    <| rp_updated_at := now |>.

Definition claim_next (worker_id : string) (lease_seconds : Z) (now : option instant)
    : Session (option ReplyPlanClaim) :=
  _ ← assert_or_raise (negb (lease_seconds <=? 0)) ValueError "lease_seconds must be positive";
  moment ← resolve_moment now;
  _ ← mark_ready_due_plans (Some moment);
  let lease_until := moment + seconds lease_seconds in
  lease_token ← uuid4;
  env ← get_env;
  s ← get_state;
  candidates ← select_where (fun p =>
    claimable (db_conversations s) moment p && negb (env_locked env (rp_id p)));
  match pick_min claim_order candidates with
  | None => mret None
  | Some candidate =>
      _ ← update_by_id (rp_id candidate) no_guard
        (claim_values moment worker_id lease_token lease_until);
      plan ← get_by_id (rp_id candidate);
      plan ← require_some plan RuntimeError "REPLY_PLAN_CLAIM_LOOKUP_FAILED";
      claim ← row_to_claim plan;
      mret (Some claim)
  end.

(** The fencing predicate of every statement made under a lease. *)
Definition holds_lease (lease_token : uuid) (lease_version : Z) (p : ReplyPlan) : bool :=
  bool_decide (rp_status p = RP_PROCESSING) && sql_eq (rp_lease_token p) lease_token &&
  (rp_lease_version p =? lease_version).

Definition complete_dispatched_values (now : instant) (p : ReplyPlan) : ReplyPlan :=
  p <| rp_status := RP_DISPATCHED |>
    <| rp_lease_owner := None |>
    <| rp_lease_token := None |>
    <| rp_lease_until := None |>
    <| rp_updated_at := now |>.

Definition complete_dispatched_with_lease (plan_id lease_token : uuid) (lease_version : Z)
    : Session ReplyPlan :=
  _ ← assert_or_raise (reply_plan_transition_allowed RP_PROCESSING RP_DISPATCHED)
    ReplyPlanStateError "REPLY_PLAN_TRANSITION_DENIED";
  now ← db_now;
  updated ← update_by_id plan_id (holds_lease lease_token lease_version)
    (complete_dispatched_values now);
  _ ← assert_or_raise updated StaleReplyPlanLeaseError "REPLY_PLAN_STALE_LEASE";
  plan ← get_by_id plan_id;
  require_some plan RuntimeError "REPLY_PLAN_LOOKUP_FAILED".

Definition fail_values (target : ReplyPlanStatus) (not_before : tstz) (error_code : string)
    (moment : instant) (p : ReplyPlan) : ReplyPlan :=
  p <| rp_status := target |>
    <| rp_not_before := not_before |>
    <| rp_cancel_reason := Some (str_take 64 error_code) |>
    <| rp_lease_owner := None |>
    <| rp_lease_token := None |>
    <| rp_lease_until := None |>
    <| rp_updated_at := moment |>.

Definition fail_with_lease (plan_id lease_token : uuid) (lease_version : Z)
    (error_code : string) (retry_delay_seconds : Z) (now : option instant)
    : Session ReplyPlan :=
  moment ← resolve_moment now;
  plan ← get_by_id plan_id;
  plan ← require_some plan RuntimeError "REPLY_PLAN_LOOKUP_FAILED";
  _ ← assert_or_raise (holds_lease lease_token lease_version plan)
    StaleReplyPlanLeaseError "REPLY_PLAN_STALE_LEASE";
  let '(target, not_before) :=
    if rp_max_attempts plan <=? rp_attempt_count plan
    then (RP_DEAD, rp_not_before plan)
    else (RP_FAILED, At (moment + seconds retry_delay_seconds)) in
  _ ← assert_or_raise (reply_plan_transition_allowed RP_PROCESSING target)
    ReplyPlanStateError "REPLY_PLAN_TRANSITION_DENIED";
  updated ← update_by_id plan_id (holds_lease lease_token lease_version)
    (fail_values target not_before error_code moment);
  _ ← assert_or_raise updated StaleReplyPlanLeaseError "REPLY_PLAN_STALE_LEASE";
  refreshed ← get_by_id plan_id;
  require_some refreshed RuntimeError "REPLY_PLAN_LOOKUP_FAILED".

Definition booking_unmarked (lease_token : uuid) (lease_version : Z) (p : ReplyPlan) : bool :=
  holds_lease lease_token lease_version p &&
  negb (jhas (rp_payload_json p) "booking_resolution_started") &&
  negb (jhas (rp_payload_json p) "booking_resolution_result").

Definition try_mark_booking_resolution_started (plan_id lease_token : uuid)
    (lease_version : Z) : Session bool :=
  now ← db_now;
  update_by_id plan_id (booking_unmarked lease_token lease_version) (fun p =>
    p <| rp_payload_json ::= fun d => jset d "booking_resolution_started" (JBool true) |>
      <| rp_updated_at := now |>).

Definition persist_booking_resolution_result (plan_id lease_token : uuid)
    (lease_version : Z) (result : jdict) : Session jdict :=
  plan ← get_by_id plan_id;
  plan ← require_some plan RuntimeError "REPLY_PLAN_LOOKUP_FAILED";
  _ ← assert_or_raise (holds_lease lease_token lease_version plan)
    StaleReplyPlanLeaseError "REPLY_PLAN_STALE_LEASE";
  let payload := rp_payload_json plan in
  match jget payload "booking_resolution_result" with
  | Some (JObj _) => mret payload
  | _ =>
      let updated := jset payload "booking_resolution_started" (JBool true) in
      let updated := jset updated "booking_resolution_result" (JObj result) in
      now ← db_now;
      _ ← update_by_id plan_id no_guard (fun p =>
        p <| rp_payload_json := updated |> <| rp_updated_at := now |>);
      mret updated
  end.

End reply_plan_repo.

(** ** Rules for the routines *)

Section Rules.
Import reply_plan_repo.
Context (X : exn -> Database -> Prop) (env : Env) (s : Database).
Context (HX : forall e s', X e s').

(** The row [create_client_reply_plan] adds. *)
Definition planned_row (cid : uuid) (version epoch seq : Z) (payload : jdict)
    (not_before : tstz) (max_attempts : Z) (p : ReplyPlan) : Prop :=
  rp_conversation_id p = cid /\ rp_context_version p = version /\
  rp_manager_epoch p = epoch /\ rp_event_seq_hwm p = seq /\
  rp_plan_type p = CLIENT_REPLY /\ rp_status p = RP_PENDING /\
  rp_not_before p = not_before /\ rp_payload_json p = payload /\
  rp_attempt_count p = 0 /\ rp_max_attempts p = max_attempts.

Lemma wp_create_client_reply_plan cid version corr payload delay max_attempts now not_before
    epoch seq (Q : ReplyPlan -> Database -> Prop) :
  (forall p n,
     planned_row cid version epoch seq payload
       (default (At (default (env_now env) now + milliseconds delay)) not_before)
       max_attempts p ->
     db_reply_plans s !! rp_id p = None ->
     Q p (s <| db_reply_plans := <[rp_id p := p]> (db_reply_plans s) |>
            <| db_uuid_supply := n |>)) ->
  wp (create_client_reply_plan cid version corr payload delay max_attempts now not_before
        epoch seq) Q X env s.
Proof.
  intros HQ. unfold create_client_reply_plan.
  apply wp_bind, wp_assert; [intros _|auto]. apply wp_bind, wp_assert; [intros _|auto].
  apply wp_bind, wp_resolve_moment. cbv zeta. apply wp_bind, wp_uuid4.
  apply wp_bind, wp_insert_row; try by auto. intros _ Hfresh _. dbsimpl. apply wp_ret.
  apply (HQ _ (N.succ (db_uuid_supply s))); [|done]. by split_and!.
Qed.
End Rules.
