(* ===== verification/Outbound.v ===== *)
(** * The outbox: src/app/repositories/outbound.py

    The leased queue of client-visible messages: idempotent creation per reply
    plan, cancellation of everything not yet admitted, claim, the irreversible
    admission point, delivery and failure under the lease, and the lookups the
    VK echo detection uses.  [_db_uuid] only normalises driver UUID subclasses
    and is the identity here. *)

From S2P Require Import Prelude Models Database Statements.

Module outbound_repo.

Definition DEFAULT_LEASE_SECONDS : Z := 30.
Definition DEFAULT_MAX_ATTEMPTS : Z := 5.
Definition DEFAULT_RETRY_DELAY_SECONDS : Z := 1.

Record OutboundClaim := MkOutboundClaim {
  obc_outbound_id : uuid;
  obc_conversation_id : uuid;
  obc_reply_plan_id : option uuid;
  obc_context_version : option Z;
  obc_manager_epoch : Z;
  obc_event_seq_hwm : Z;
  obc_idempotency_key : option string;
  obc_destination_type : DestinationType;
  obc_delivery_status : DeliveryStatus;
  obc_not_before : option tstz;
  obc_attempt_count : Z;
  obc_max_attempts : Z;
  obc_lease_owner : string;
  obc_lease_token : uuid;
  obc_lease_version : Z;
  obc_lease_until : instant;
  obc_correlation_id : option uuid;
  obc_payload_json : jdict
}.

Definition row_to_claim (row : OutboxMessage) : Session OutboundClaim :=
  match ob_lease_token row, ob_lease_owner row, ob_lease_until row with
  | Some lease_token, Some lease_owner, Some lease_until => mret {|
      obc_outbound_id := ob_id row;
      obc_conversation_id := ob_conversation_id row;
      obc_reply_plan_id := ob_reply_plan_id row;
      obc_context_version := ob_context_version row;
      obc_manager_epoch := ob_manager_epoch row;
      obc_event_seq_hwm := ob_event_seq_hwm row;
      obc_idempotency_key := ob_idempotency_key row;
      obc_destination_type := ob_destination_type row;
      obc_delivery_status := ob_delivery_status row;
      obc_not_before := ob_not_before row;
      obc_attempt_count := ob_attempt_count row;
      obc_max_attempts := ob_max_attempts row;
      obc_lease_owner := lease_owner;
      obc_lease_token := lease_token;
      obc_lease_version := ob_lease_version row;
      obc_lease_until := lease_until;
      obc_correlation_id := ob_correlation_id row;
      obc_payload_json := ob_payload_json row
    |}
  | _, _, _ => raise RuntimeError "OUTBOUND_LEASE_INCOMPLETE"
  end.

Definition synthetic_outbound_idempotency_key (reply_plan_id : uuid) : string :=
  "synthetic-outbound:reply-plan:" +:+ uuid_str reply_plan_id.
Definition vk_client_outbound_idempotency_key (reply_plan_id : uuid) : string :=
  "vk-client-outbound:reply-plan:" +:+ uuid_str reply_plan_id.

Definition get_by_idempotency_key (idempotency_key : string)
    : Session (option OutboxMessage) :=
  select_scalar (fun o => sql_eq (ob_idempotency_key o) idempotency_key).

(** The row both idempotent inserts write. *)
Definition pending_outbound (id : uuid) (destination_type : DestinationType) (key : string)
    (conversation_id reply_plan_id : uuid) (context_version : Z) (payload_json : jdict)
    (correlation_id : uuid) (not_before : tstz) (max_attempts manager_epoch event_seq_hwm : Z)
    (now : instant) : OutboxMessage := {|
  ob_id := id;
  ob_conversation_id := conversation_id;
  ob_source_inbox_id := None;
  ob_reply_plan_id := Some reply_plan_id;
  ob_idempotency_key := Some key;
  ob_context_version := Some context_version;
  ob_manager_epoch := manager_epoch;
  ob_event_seq_hwm := event_seq_hwm;
  ob_destination_type := destination_type;
  ob_payload_json := payload_json;
  ob_delivery_status := OB_PENDING;
  ob_not_before := Some not_before;
  ob_attempt_count := 0;
  ob_max_attempts := max_attempts;
  ob_lease_owner := None;
  ob_lease_token := None;
  ob_lease_version := 0;
  ob_lease_until := None;
  ob_admitted_at := None;
  ob_provider_message_id := None;
  ob_correlation_id := Some correlation_id;
  ob_created_at := now;
  ob_updated_at := now
|}.

(** The common text of [insert_synthetic_outbound_if_absent] and
    [insert_vk_client_outbound_if_absent], which differ in destination and key. *)
Definition insert_outbound_if_absent (destination_type : DestinationType) (key : string)
    (conversation_id reply_plan_id : uuid) (context_version : Z) (payload_json : jdict)
    (correlation_id : uuid) (not_before : tstz) (max_attempts manager_epoch event_seq_hwm : Z)
    : Session (OutboxMessage * bool) :=
  existing ← get_by_idempotency_key key;
  match existing with
  | Some existing => mret (existing, false)
  | None =>
      new_id ← uuid4;
      now ← db_now;
      inserted ← insert_on_conflict_do_nothing uq_outbox_idempotency_key
        (pending_outbound new_id destination_type key conversation_id reply_plan_id
           context_version payload_json correlation_id not_before max_attempts
           manager_epoch event_seq_hwm now);
      row ← get_by_idempotency_key key;
      row ← require_some row RuntimeError "OUTBOUND_LOOKUP_FAILED";
      mret (row, inserted)
  end.

Definition insert_synthetic_outbound_if_absent (conversation_id reply_plan_id : uuid)
    (context_version : Z) (payload_json : jdict) (correlation_id : uuid)
    (not_before : tstz) (max_attempts manager_epoch event_seq_hwm : Z)
    : Session (OutboxMessage * bool) :=
  insert_outbound_if_absent SYNTHETIC_OUTBOUND
    (synthetic_outbound_idempotency_key reply_plan_id) conversation_id reply_plan_id
    context_version payload_json correlation_id not_before max_attempts manager_epoch
    event_seq_hwm.

Definition insert_vk_client_outbound_if_absent (conversation_id reply_plan_id : uuid)
    (context_version : Z) (payload_json : jdict) (correlation_id : uuid)
    (not_before : tstz) (max_attempts manager_epoch event_seq_hwm : Z)
    : Session (OutboxMessage * bool) :=
  insert_outbound_if_absent VK_CLIENT_OUTBOUND
    (vk_client_outbound_idempotency_key reply_plan_id) conversation_id reply_plan_id
    context_version payload_json correlation_id not_before max_attempts manager_epoch
    event_seq_hwm.

(** Still on the reversible side of admission. *)
Definition unadmitted (s : DeliveryStatus) : bool :=
  match s with OB_PENDING | OB_PROCESSING | OB_FAILED => true | _ => false end.

Definition unadmitted_of (conversation_id : uuid) (o : OutboxMessage) : bool :=
  bool_decide (ob_conversation_id o = conversation_id) &&
  client_destination (ob_destination_type o) && unadmitted (ob_delivery_status o).

Definition cancel_values (now : instant) (o : OutboxMessage) : OutboxMessage :=
  o <| ob_delivery_status := OB_CANCELLED |>
    <| ob_lease_owner := None |>
    <| ob_lease_token := None |>
    <| ob_lease_until := None |>
    <| ob_updated_at := now |>.

Definition cancel_unadmitted_for_conversation (conversation_id : uuid) : Session Z :=
  now ← db_now;
  update_where (unadmitted_of conversation_id) (cancel_values now).

Definition cancel_unadmitted_for_manager_message (conversation_id : uuid) : Session Z :=
  cancel_unadmitted_for_conversation conversation_id.

Definition exhausted (moment : instant) (o : OutboxMessage) : bool :=
  client_destination (ob_destination_type o) &&
  bool_decide (ob_delivery_status o = OB_PROCESSING) && is_not_null (ob_lease_until o) &&
  sql_lt (ob_lease_until o) moment && (ob_max_attempts o <=? ob_attempt_count o).

Definition recover_exhausted_leases (now : option instant) : Session Z :=
  moment ← resolve_moment now;
  update_where (exhausted moment) (fun o =>
    o <| ob_delivery_status := OB_DEAD |>
      <| ob_lease_owner := None |>
      <| ob_lease_token := None |>
      <| ob_lease_until := None |>
      <| ob_updated_at := moment |>).

Definition claimable (now : instant) (o : OutboxMessage) : bool :=
  client_destination (ob_destination_type o) &&
  (bool_decide (ob_delivery_status o = OB_ADMITTED) ||
   (ob_attempt_count o <? ob_max_attempts o)) &&
  (match ob_not_before o with Some t => tstz_due t now | None => true end) &&
  (match ob_delivery_status o with
   | OB_PENDING => true
   | OB_FAILED | OB_ADMITTED => is_null (ob_lease_until o) || sql_lt (ob_lease_until o) now
   | OB_PROCESSING => is_not_null (ob_lease_until o) && sql_lt (ob_lease_until o) now
   | _ => false
   end).

Definition claim_order (a b : OutboxMessage) : bool := ob_created_at a <=? ob_created_at b.

Definition claim_values (now : instant) (worker_id : string) (lease_token : uuid)
    (lease_until : instant) (o : OutboxMessage) : OutboxMessage :=
  o <| ob_delivery_status ::= fun s =>
         if bool_decide (s = OB_ADMITTED) then OB_ADMITTED else OB_PROCESSING |>
    <| ob_lease_owner := Some worker_id |>
    <| ob_lease_token := Some lease_token |>
    <| ob_lease_version ::= Z.succ |>
    <| ob_lease_until := Some lease_until |>
    <| ob_attempt_count ::= Z.succ |>
    <| ob_updated_at := now |>.

Definition claim_next (worker_id : string) (lease_seconds : Z) (now : option instant)
    : Session (option OutboundClaim) :=
  _ ← assert_or_raise (negb (lease_seconds <=? 0)) ValueError "lease_seconds must be positive";
  moment ← resolve_moment now;
  _ ← recover_exhausted_leases (Some moment);
  let lease_until := moment + seconds lease_seconds in
  lease_token ← uuid4;
  env ← get_env;
  candidates ← select_where (fun o => claimable moment o && negb (env_locked env (ob_id o)));
  match pick_min claim_order candidates with
  | None => mret None
  | Some candidate =>
      _ ← update_by_id (ob_id candidate) no_guard
        (claim_values moment worker_id lease_token lease_until);
      row ← get_by_id (ob_id candidate);
      row ← require_some row RuntimeError "OUTBOUND_CLAIM_LOOKUP_FAILED";
      claim ← row_to_claim row;
      mret (Some claim)
  end.

(** The fencing predicates of statements made under a lease. *)
Definition holds_lease (status : DeliveryStatus) (lease_token : uuid) (lease_version : Z)
    (o : OutboxMessage) : bool :=
  bool_decide (ob_delivery_status o = status) && sql_eq (ob_lease_token o) lease_token &&
  (ob_lease_version o =? lease_version).

Definition holds_admitted_lease (lease_token : uuid) (lease_version : Z)
    (o : OutboxMessage) : bool :=
  holds_lease OB_ADMITTED lease_token lease_version o && is_not_null (ob_admitted_at o).

Definition mark_admitted_values (moment : instant) (o : OutboxMessage) : OutboxMessage :=
  o <| ob_delivery_status := OB_ADMITTED |>
    <| ob_admitted_at := Some moment |>
    <| ob_updated_at := moment |>.

Definition mark_admitted_with_lease (outbound_id lease_token : uuid) (lease_version : Z)
    (now : option instant) : Session OutboxMessage :=
  moment ← resolve_moment now;
  _ ← assert_or_raise (outbound_transition_allowed OB_PROCESSING OB_ADMITTED)
    OutboundStateError "OUTBOUND_TRANSITION_DENIED";
  updated ← update_by_id outbound_id (holds_lease OB_PROCESSING lease_token lease_version)
    (mark_admitted_values moment);
  _ ← assert_or_raise updated StaleOutboundLeaseError "OUTBOUND_STALE_LEASE";
  row ← get_by_id outbound_id;
  require_some row RuntimeError "OUTBOUND_LOOKUP_FAILED".

(** [provider_message_id] is written when it is a positive integer. *)
Definition mark_delivered_values (provider_message_id : option Z) (moment : instant)
    (o : OutboxMessage) : OutboxMessage :=
  let o :=
    o <| ob_delivery_status := OB_DELIVERED |>
      <| ob_lease_owner := None |>
      <| ob_lease_token := None |>
      <| ob_lease_until := None |>
      <| ob_updated_at := moment |> in
  match provider_message_id with
  | Some z => if 0 <? z then o <| ob_provider_message_id := Some z |> else o
  | None => o
  end.

Definition mark_delivered_with_lease (outbound_id lease_token : uuid) (lease_version : Z)
    (now : option instant) (provider_message_id : option Z) : Session OutboxMessage :=
  moment ← resolve_moment now;
  _ ← assert_or_raise (outbound_transition_allowed OB_ADMITTED OB_DELIVERED)
    OutboundStateError "OUTBOUND_TRANSITION_DENIED";
  updated ← update_by_id outbound_id (holds_admitted_lease lease_token lease_version)
    (mark_delivered_values provider_message_id moment);
  _ ← assert_or_raise updated StaleOutboundLeaseError "OUTBOUND_STALE_LEASE";
  row ← get_by_id outbound_id;
  require_some row RuntimeError "OUTBOUND_LOOKUP_FAILED".

Definition set_vk_provider_message_id_with_lease (outbound_id lease_token : uuid)
    (lease_version provider_message_id : Z) (now : option instant) : Session OutboxMessage :=
  _ ← assert_or_raise (0 <? provider_message_id) ValueError "PROVIDER_MESSAGE_ID_INVALID";
  moment ← resolve_moment now;
  updated ← update_by_id outbound_id
    (fun o => bool_decide (ob_destination_type o = VK_CLIENT_OUTBOUND) &&
       holds_admitted_lease lease_token lease_version o && is_null (ob_provider_message_id o))
    (fun o => o <| ob_provider_message_id := Some provider_message_id |>
                <| ob_updated_at := moment |>);
  row ← get_by_id outbound_id;
  if negb updated then
    match row with
    | Some row =>
        if sql_eq (ob_provider_message_id row) provider_message_id &&
           sql_eq (ob_lease_token row) lease_token && (ob_lease_version row =? lease_version)
        then mret row
        else raise StaleOutboundLeaseError "OUTBOUND_STALE_LEASE"
    | None => raise StaleOutboundLeaseError "OUTBOUND_STALE_LEASE"
    end
  else require_some row RuntimeError "OUTBOUND_LOOKUP_FAILED".

Definition find_vk_outbound_by_provider_message_id (conversation_id : uuid)
    (provider_message_id : Z) : Session (option OutboxMessage) :=
  if provider_message_id <=? 0 then mret None
  else select_scalar (fun o =>
    bool_decide (ob_conversation_id o = conversation_id) &&
    bool_decide (ob_destination_type o = VK_CLIENT_OUTBOUND) &&
    sql_eq (ob_provider_message_id o) provider_message_id).

Definition find_vk_outbound_by_id (conversation_id outbound_id : uuid)
    : Session (option OutboxMessage) :=
  row ← get_by_id outbound_id;
  match row with
  | None => mret None
  | Some row =>
      if negb (bool_decide (ob_conversation_id row = conversation_id)) then mret None
      else if negb (bool_decide (ob_destination_type row = VK_CLIENT_OUTBOUND)) then mret None
      else mret (Some row)
  end.

Definition has_admitted_vk_outbound_without_provider_id (conversation_id : uuid)
    : Session bool :=
  found ← select_scalar (R := OutboxMessage) (fun o =>
    bool_decide (ob_conversation_id o = conversation_id) &&
    bool_decide (ob_destination_type o = VK_CLIENT_OUTBOUND) &&
    bool_decide (ob_delivery_status o = OB_ADMITTED) && is_null (ob_provider_message_id o));
  mret (is_not_null found).

Definition fail_values (target : DeliveryStatus) (not_before : option tstz)
    (moment : instant) (o : OutboxMessage) : OutboxMessage :=
  o <| ob_delivery_status := target |>
    <| ob_not_before := not_before |>
    <| ob_lease_owner := None |>
    <| ob_lease_token := None |>
    <| ob_lease_until := None |>
    <| ob_updated_at := moment |>.

Definition fail_admitted_delivery_with_lease (outbound_id lease_token : uuid)
    (lease_version : Z) (permanent : bool) (retry_delay_seconds : Z) (now : option instant)
    : Session OutboxMessage :=
  moment ← resolve_moment now;
  row ← get_by_id outbound_id;
  row ← require_some row RuntimeError "OUTBOUND_LOOKUP_FAILED";
  _ ← assert_or_raise (holds_admitted_lease lease_token lease_version row)
    StaleOutboundLeaseError "OUTBOUND_STALE_LEASE";
  let terminal := permanent || (ob_max_attempts row <=? ob_attempt_count row) in
  let target := if terminal then OB_DEAD else OB_ADMITTED in
  _ ← assert_or_raise
    (negb (bool_decide (target = OB_DEAD) && negb (outbound_transition_allowed OB_ADMITTED target)))
    OutboundStateError "OUTBOUND_TRANSITION_DENIED";
  let retry_at :=
    if terminal then ob_not_before row
    else Some (At (moment + seconds retry_delay_seconds)) in
  updated ← update_by_id outbound_id (holds_admitted_lease lease_token lease_version)
    (fail_values target retry_at moment);
  _ ← assert_or_raise updated StaleOutboundLeaseError "OUTBOUND_STALE_LEASE";
  refreshed ← get_by_id outbound_id;
  require_some refreshed RuntimeError "OUTBOUND_LOOKUP_FAILED".

Definition fail_with_lease (outbound_id lease_token : uuid) (lease_version : Z)
    (retry_delay_seconds : Z) (now : option instant) : Session OutboxMessage :=
  moment ← resolve_moment now;
  row ← get_by_id outbound_id;
  row ← require_some row RuntimeError "OUTBOUND_LOOKUP_FAILED";
  _ ← assert_or_raise (holds_lease OB_PROCESSING lease_token lease_version row)
    StaleOutboundLeaseError "OUTBOUND_STALE_LEASE";
  let '(target, not_before) :=
    if ob_max_attempts row <=? ob_attempt_count row
    then (OB_DEAD, ob_not_before row)
    else (OB_FAILED, Some (At (moment + seconds retry_delay_seconds))) in
  _ ← assert_or_raise (outbound_transition_allowed OB_PROCESSING target)
    OutboundStateError "OUTBOUND_TRANSITION_DENIED";
  updated ← update_by_id outbound_id (holds_lease OB_PROCESSING lease_token lease_version)
    (fail_values target not_before moment);
  _ ← assert_or_raise updated StaleOutboundLeaseError "OUTBOUND_STALE_LEASE";
  refreshed ← get_by_id outbound_id;
  require_some refreshed RuntimeError "OUTBOUND_LOOKUP_FAILED".

End outbound_repo.
