(* ===== verification/SelfBooking.v ===== *)
(** * Self-booking: active offers, create pendings, confirm admission

    [offer_repo], [pending_repo], [admission_repo]:
    src/app/repositories/self_booking_active_offers.py,
    self_booking_create_pendings.py and the lookup of
    self_booking_pii_admissions.py.  [SelfBookingActiveOfferService],
    [SelfBookingCreatePendingService], [SelfBookingConfirmAdmissionService]: the
    services of the same names.  UUID arguments are UUIDs here, so [_as_uuid]
    and its error paths do not appear. *)

From S2P Require Import Prelude BookingText Models Database Statements Conversations.
From S2P Require Import EphemeralPii.

Module offer_repo.

Inductive upsert_action := activated | replaced | replayed | ignored_stale.

Definition get_by_conversation (conversation_id : uuid)
    : Session (option SelfBookingActiveOffer) := get_by_id conversation_id.

(** Row comparison: lexicographic [<] of (epoch, context, event seq). *)
Definition offer_fence_lt (a b : SelfBookingActiveOffer) : bool :=
  (ao_source_manager_epoch a <? ao_source_manager_epoch b) ||
  ((ao_source_manager_epoch a =? ao_source_manager_epoch b) &&
   ((ao_source_context_version a <? ao_source_context_version b) ||
    ((ao_source_context_version a =? ao_source_context_version b) &&
     (ao_source_event_seq_hwm a <? ao_source_event_seq_hwm b)))).

Definition upsert_if_newer_or_same_outbound (conversation_id source_outbound_id : uuid)
    (source_context_version source_manager_epoch source_event_seq_hwm : Z)
    (offered_slots : list json) (now : instant) : Session upsert_action :=
  existing ← get_by_conversation conversation_id;
  if match existing with
     | Some existing => bool_decide (ao_source_outbound_id existing = source_outbound_id)
     | None => false
     end
  then mret replayed
  else
    let candidate := {|
      ao_conversation_id := conversation_id;
      ao_source_outbound_id := source_outbound_id;
      ao_source_context_version := source_context_version;
      ao_source_manager_epoch := source_manager_epoch;
      ao_source_event_seq_hwm := source_event_seq_hwm;
      ao_offered_slots := offered_slots;
      ao_activated_at := now;
      ao_updated_at := now
    |} in
    returned ← begin_nested (insert_on_conflict_do_update candidate
      (fun current => offer_fence_lt current candidate) (fun _ => candidate));
    if negb returned then mret ignored_stale
    else if is_null existing then mret activated
    else mret replaced.

Definition delete_by_conversation (conversation_id : uuid) : Session bool :=
  rowcount ← delete_where (fun o => bool_decide (ao_conversation_id o = conversation_id));
  mret (rowcount =? 1).

End offer_repo.

Module SelfBookingActiveOfferService.

Inductive ActiveOfferActivateOutcome :=
  | OFFER_ACTIVATED | OFFER_REPLACED | OFFER_REPLAYED | OFFER_IGNORED_STALE | OFFER_REJECTED.

#[export] Instance ActiveOfferActivateOutcome_eq_dec : EqDecision ActiveOfferActivateOutcome.
Proof. solve_decision. Defined.

Record ActiveOfferActivateResult := MkActiveOfferActivateResult {
  aar_outcome : ActiveOfferActivateOutcome;
  aar_conversation_id : uuid;
  aar_source_outbound_id : uuid;
  aar_reason_code : option string
}.

(** [_log] and the result naming the outbound and its conversation. *)
Definition activate_result (outbound : OutboxMessage) (outcome : ActiveOfferActivateOutcome)
    (reason_code : option string) : ActiveOfferActivateResult :=
  MkActiveOfferActivateResult outcome (ob_conversation_id outbound) (ob_id outbound) reason_code.
Definition rejected (outbound : OutboxMessage) (reason : string) : ActiveOfferActivateResult :=
  activate_result outbound OFFER_REJECTED (Some reason).

(** [_require_nonneg_int] on a nullable column *)
Definition require_nonneg_int (value : option Z) : option Z :=
  match value with Some z => if 0 <=? z then Some z else None | None => None end.

Definition activate_from_delivered_outbound (outbound : OutboxMessage)
    : Session ActiveOfferActivateResult :=
  if negb (bool_decide (ob_delivery_status outbound = OB_DELIVERED))
  then mret (rejected outbound "NOT_DELIVERED")
  else
    match require_nonneg_int (ob_context_version outbound),
          require_nonneg_int (Some (ob_manager_epoch outbound)),
          require_nonneg_int (Some (ob_event_seq_hwm outbound)) with
    | Some context_version, Some manager_epoch, Some event_seq_hwm =>
        let payload := ob_payload_json outbound in
        if negb (bool_decide (jget payload "booking_action" = Some (JStr "OFFER_SLOTS")))
        then mret (rejected outbound "NOT_OFFER_SLOTS")
        else
          match require_active_offer_slots (jget payload "booking_offered_slots") with
          | None => mret (rejected outbound "OFFER_SLOTS_INVALID")
          | Some slots =>
              now ← db_statement_now;
              action ← offer_repo.upsert_if_newer_or_same_outbound
                (ob_conversation_id outbound) (ob_id outbound) context_version manager_epoch
                event_seq_hwm (slot_json <$> slots) now;
              mret match action with
              | offer_repo.activated => activate_result outbound OFFER_ACTIVATED None
              | offer_repo.replaced => activate_result outbound OFFER_REPLACED None
              | offer_repo.replayed => activate_result outbound OFFER_REPLAYED None
              | offer_repo.ignored_stale =>
                  activate_result outbound OFFER_IGNORED_STALE (Some "STALE_OR_DELAYED"%string)
              end
          end
    | _, _, _ => mret (rejected outbound "FENCE_MISSING")
    end.

(** [FOUND] carries the start time and the outbound; [None] is NOT_ACTIVE. *)
Definition resolve_slot (conversation_id : uuid) (slot_id : string)
    : Session (option (string * uuid)) :=
  if String.eqb slot_id "" then mret None
  else
    row ← offer_repo.get_by_conversation conversation_id;
    mret (
      row ← row;
      slots ← require_active_offer_slots (Some (JArr (ao_offered_slots row)));
      slot ← head (filter (fun slot => aos_slot_id slot = slot_id) slots);
      Some (aos_starts_at slot, ao_source_outbound_id row)).

Definition invalidate (conversation_id : uuid) : Session bool :=
  offer_repo.delete_by_conversation conversation_id.

End SelfBookingActiveOfferService.

Module admission_repo.

Definition get_by_request (conversation_id : uuid) (request_id : string)
    : Session (option SelfBookingPiiAdmission) :=
  select_scalar (fun a =>
    bool_decide (pa_conversation_id a = conversation_id) &&
    String.eqb (pa_request_id a) request_id).

End admission_repo.

Module pending_repo.

Definition get_by_confirm (channel confirm_external_message_id : string)
    : Session (option SelfBookingCreatePending) :=
  select_scalar (fun p =>
    String.eqb (sb_channel p) channel &&
    String.eqb (sb_confirm_external_message_id p) confirm_external_message_id).

Definition lock_active_by_conversation (conversation_id : uuid)
    : Session (option SelfBookingCreatePending) :=
  found ← select_where (fun p =>
    bool_decide (sb_conversation_id p = conversation_id) && self_booking_active (sb_state p));
  mret (head found).

Definition insert_pending (row_id conversation_id : uuid)
    (channel confirm_external_message_id : string) (state : SelfBookingCreatePendingState)
    (command_version attempt_count max_attempts : Z) (idempotency_key slot_id starts_at : string)
    (fence_context_version fence_manager_epoch fence_event_seq_hwm : Z)
    (phone_ref_token name_ref_token : string) (now : instant)
    : Session SelfBookingCreatePending :=
  let row := {|
    sb_id := row_id;
    sb_conversation_id := conversation_id;
    sb_channel := channel;
    sb_confirm_external_message_id := confirm_external_message_id;
    sb_state := state;
    sb_command_version := command_version;
    sb_attempt_count := attempt_count;
    sb_max_attempts := max_attempts;
    sb_idempotency_key := idempotency_key;
    sb_slot_id := slot_id;
    sb_starts_at := starts_at;
    sb_fence_context_version := fence_context_version;
    sb_fence_manager_epoch := fence_manager_epoch;
    sb_fence_event_seq_hwm := fence_event_seq_hwm;
    sb_phone_ref_token := phone_ref_token;
    sb_name_ref_token := name_ref_token;
    sb_execution_lease_token := None;
    sb_execution_lease_expires_at := None;
    sb_result_code := None;
    sb_result_outcome := None;
    sb_created_at := now;
    sb_updated_at := now
  |} in
  _ ← begin_nested (insert_row row);
  mret row.

Definition claim_values (lease_token : uuid) (lease_expires_at now : instant)
    (p : SelfBookingCreatePending) : SelfBookingCreatePending :=
  p <| sb_state := SB_EXECUTING |>
    <| sb_execution_lease_token := Some lease_token |>
    <| sb_execution_lease_expires_at := Some lease_expires_at |>
    <| sb_attempt_count ::= Z.succ |>
    <| sb_result_code := None |>
    <| sb_result_outcome := None |>
    <| sb_updated_at := now |>.

Definition claim_for_execution (row : SelfBookingCreatePending) (lease_token : uuid)
    (lease_expires_at : instant) (expected_version : Z) (now : instant) : Session bool :=
  update_by_id (sb_id row)
    (fun p => bool_decide (sb_state p = SB_READY) &&
              (sb_command_version p =? expected_version) &&
              (sb_attempt_count p <? sb_max_attempts p))
    (claim_values lease_token lease_expires_at now).

(** [execution_lease_expires_at <= now], NULL excluded. *)
Definition execution_lease_expired (now : instant) (p : SelfBookingCreatePending) : bool :=
  match sb_execution_lease_expires_at p with Some t => t <=? now | None => false end.

Definition reclaim_expired_execution (row : SelfBookingCreatePending) (lease_token : uuid)
    (lease_expires_at : instant) (expected_version : Z) (now : instant) : Session bool :=
  update_by_id (sb_id row)
    (fun p => bool_decide (sb_state p = SB_EXECUTING) &&
              (sb_command_version p =? expected_version) && execution_lease_expired now p &&
              (sb_attempt_count p <? sb_max_attempts p))
    (claim_values lease_token lease_expires_at now).

Definition release_to_ready (row : SelfBookingCreatePending) (lease_token : uuid)
    (result_code : option string) (now : instant) : Session bool :=
  update_by_id (sb_id row)
    (fun p => bool_decide (sb_state p = SB_EXECUTING) &&
              sql_eq (sb_execution_lease_token p) lease_token)
    (fun p =>
       p <| sb_state := SB_READY |>
         <| sb_execution_lease_token := None |>
         <| sb_execution_lease_expires_at := None |>
         <| sb_result_code := result_code |>
         <| sb_result_outcome := None |>
         <| sb_updated_at := now |>).

Definition terminal_values (state : SelfBookingCreatePendingState)
    (result_code result_outcome : option string) (now : instant)
    (p : SelfBookingCreatePending) : SelfBookingCreatePending :=
  p <| sb_state := state |>
    <| sb_result_code := result_code |>
    <| sb_result_outcome := result_outcome |>
    <| sb_execution_lease_token := None |>
    <| sb_execution_lease_expires_at := None |>
    <| sb_updated_at := now |>.

Definition mark_terminal (row : SelfBookingCreatePending)
    (state : SelfBookingCreatePendingState) (result_code result_outcome : option string)
    (now : instant) (lease_token : option uuid) : Session bool :=
  _ ← assert_or_raise (negb (self_booking_active state)) ValueError
    "SELF_BOOKING_TERMINAL_STATE_INVALID";
  update_by_id (sb_id row)
    (fun p =>
       match lease_token with
       | Some lease_token =>
           bool_decide (sb_state p = SB_EXECUTING) &&
           sql_eq (sb_execution_lease_token p) lease_token
       | None => self_booking_active (sb_state p)
       end)
    (terminal_values state result_code result_outcome now).

Definition expire_exhausted_attempts (row : SelfBookingCreatePending) (now : instant)
    : Session bool :=
  update_by_id (sb_id row)
    (fun p => bool_decide (sb_state p = SB_READY) && (sb_max_attempts p <=? sb_attempt_count p))
    (terminal_values SB_EXPIRED (Some "MAX_ATTEMPTS_EXCEEDED"%string) (Some "EXPIRED"%string) now).

Definition claimable (now : instant) (p : SelfBookingCreatePending) : bool :=
  (sb_attempt_count p <? sb_max_attempts p) &&
  (bool_decide (sb_state p = SB_READY) ||
   (bool_decide (sb_state p = SB_EXECUTING) && execution_lease_expired now p)).

Definition lock_next_claimable_id (now : instant) : Session (option uuid) :=
  env ← get_env;
  found ← select_where (fun p => claimable now p && negb (env_locked env (sb_id p)));
  mret (sb_id <$> pick_min (fun a b => sb_created_at a <=? sb_created_at b) found).

End pending_repo.

Module SelfBookingCreatePendingService.

Definition EXECUTION_LEASE_SECONDS : Z := 60.
Definition DEFAULT_MAX_ATTEMPTS : Z := 3.

Inductive SelfBookingCreateAdmitOutcome :=
  | ADMIT_ADMITTED | ADMIT_DUPLICATE | ADMIT_ACTIVE_EXISTS | ADMIT_INVALID_INPUT
  | ADMIT_CONVERSATION_MISSING | ADMIT_FENCE_STALE | ADMIT_HANDOFF_BLOCKED.

#[export] Instance SelfBookingCreateAdmitOutcome_eq_dec :
  EqDecision SelfBookingCreateAdmitOutcome.
Proof. solve_decision. Defined.

#[export] Instance SelfBookingCreateAdmitOutcome_value :
  StrEnum SelfBookingCreateAdmitOutcome := fun o =>
  match o with
  | ADMIT_ADMITTED => "ADMITTED" | ADMIT_DUPLICATE => "DUPLICATE"
  | ADMIT_ACTIVE_EXISTS => "ACTIVE_EXISTS" | ADMIT_INVALID_INPUT => "INVALID_INPUT"
  | ADMIT_CONVERSATION_MISSING => "CONVERSATION_MISSING"
  | ADMIT_FENCE_STALE => "FENCE_STALE" | ADMIT_HANDOFF_BLOCKED => "HANDOFF_BLOCKED"
  end.

Record SelfBookingCreateAdmitResult := MkSelfBookingCreateAdmitResult {
  sar_outcome : SelfBookingCreateAdmitOutcome;
  sar_pending_id : option uuid;
  sar_idempotency_key : option string;
  sar_reason_code : option string
}.

Definition refused (outcome : SelfBookingCreateAdmitOutcome) (reason : string)
    : SelfBookingCreateAdmitResult :=
  MkSelfBookingCreateAdmitResult outcome None None (Some reason).
Definition refers_to (outcome : SelfBookingCreateAdmitOutcome) (row : SelfBookingCreatePending)
    (reason : string) : SelfBookingCreateAdmitResult :=
  MkSelfBookingCreateAdmitResult outcome (Some (sb_id row)) (Some (sb_idempotency_key row))
    (Some reason).

(** The [try] block that validates the arguments: whether none of them raises. *)
Definition admit_arguments_valid (channel confirm_external_message_id slot_id starts_at : string)
    (fence_context_version fence_manager_epoch fence_event_seq_hwm : Z)
    (personal_data_consent offer_acknowledgement : bool)
    (phone_ref_token name_ref_token idempotency_key : string) (max_attempts : Z) : bool :=
  is_not_null (require_self_booking_channel channel) &&
  is_not_null (normalize_confirm_external_message_id confirm_external_message_id) &&
  is_not_null (parse_bot_slot_id slot_id) &&
  is_not_null (require_canonical_booking_starts_at starts_at) &&
  (0 <=? fence_context_version) && (0 <=? fence_manager_epoch) &&
  (0 <=? fence_event_seq_hwm) && personal_data_consent && offer_acknowledgement &&
  is_not_null (require_opaque_pii_ref_token phone_ref_token) &&
  is_not_null (require_opaque_pii_ref_token name_ref_token) &&
  is_not_null (require_canonical_idempotency_key idempotency_key) && (1 <=? max_attempts).

(** The [except IntegrityError] branch: the insert lost a race. *)
Definition admit_raced (conversation_id : uuid) (channel confirm_id : string)
    : Session SelfBookingCreateAdmitResult :=
  raced ← pending_repo.get_by_confirm channel confirm_id;
  match raced with
  | Some raced => mret (refers_to ADMIT_DUPLICATE raced "CONFIRM_DUPLICATE")
  | None =>
      active_raced ← pending_repo.lock_active_by_conversation conversation_id;
      match active_raced with
      | Some active_raced =>
          mret (refers_to ADMIT_ACTIVE_EXISTS active_raced "ACTIVE_PENDING_EXISTS")
      | None => mret (refused ADMIT_INVALID_INPUT "INSERT_CONFLICT")
      end
  end.

Definition admit_confirmed (conversation_id : uuid)
    (channel confirm_external_message_id slot_id starts_at : string)
    (fence_context_version fence_manager_epoch fence_event_seq_hwm : Z)
    (personal_data_consent offer_acknowledgement : bool)
    (phone_ref_token name_ref_token idempotency_key : string) (max_attempts : Z)
    : Session SelfBookingCreateAdmitResult :=
  if negb (admit_arguments_valid channel confirm_external_message_id slot_id starts_at
             fence_context_version fence_manager_epoch fence_event_seq_hwm
             personal_data_consent offer_acknowledgement phone_ref_token name_ref_token
             idempotency_key max_attempts)
  then mret (refused ADMIT_INVALID_INPUT "INVALID_INPUT")
  else
    existing ← pending_repo.get_by_confirm channel confirm_external_message_id;
    match existing with
    | Some existing => mret (refers_to ADMIT_DUPLICATE existing "CONFIRM_DUPLICATE")
    | None =>
        conversation ← conversation_repo.get_by_id_for_update conversation_id;
        match conversation with
        | None => mret (refused ADMIT_CONVERSATION_MISSING "CONVERSATION_MISSING")
        | Some conversation =>
            if negb (conversation_allows_automatic_reply conversation)
            then mret (refused ADMIT_HANDOFF_BLOCKED "HANDOFF_OR_TAKEOVER")
            else if negb ((conv_context_version conversation =? fence_context_version) &&
                          (conv_manager_epoch conversation =? fence_manager_epoch) &&
                          (conv_current_event_seq conversation =? fence_event_seq_hwm))
            then mret (refused ADMIT_FENCE_STALE "FENCE_STALE")
            else
              active ← pending_repo.lock_active_by_conversation conversation_id;
              match active with
              | Some active => mret (refers_to ADMIT_ACTIVE_EXISTS active "ACTIVE_PENDING_EXISTS")
              | None =>
                  now ← db_statement_now;
                  row_id ← uuid4;
                  try_except
                    (row ← pending_repo.insert_pending row_id conversation_id channel
                       confirm_external_message_id SB_READY 1 0 max_attempts idempotency_key
                       slot_id starts_at fence_context_version fence_manager_epoch
                       fence_event_seq_hwm phone_ref_token name_ref_token now;
                     mret (MkSelfBookingCreateAdmitResult ADMIT_ADMITTED (Some (sb_id row))
                             (Some (sb_idempotency_key row)) None))
                    (fun exc => bool_decide (exn_class exc = IntegrityError))
                    (fun _ => admit_raced conversation_id channel confirm_external_message_id)
              end
        end
    end.

Definition claim_for_execution (pending_id : uuid) (lease_token : option uuid)
    : Session (option SelfBookingCreatePending) :=
  token ← match lease_token with Some token => mret token | None => uuid4 end;
  row ← get_by_id pending_id;
  match row with
  | None => mret None
  | Some row =>
      now ← db_statement_now;
      ok ← match sb_state row with
        | SB_READY =>
            if sb_max_attempts row <=? sb_attempt_count row then
              _ ← pending_repo.expire_exhausted_attempts row now; mret false
            else pending_repo.claim_for_execution row token
                   (now + seconds EXECUTION_LEASE_SECONDS) (sb_command_version row) now
        | SB_EXECUTING =>
            if pending_repo.execution_lease_expired now row &&
               (sb_max_attempts row <=? sb_attempt_count row)
            then
              _ ← pending_repo.mark_terminal row SB_EXPIRED (Some "MAX_ATTEMPTS_EXCEEDED"%string)
                (Some "EXPIRED"%string) now None;
              mret false
            else pending_repo.reclaim_expired_execution row token
                   (now + seconds EXECUTION_LEASE_SECONDS) (sb_command_version row) now
        | _ => mret false
        end;
      if negb ok then mret None else get_by_id pending_id
  end.

(** Fences or ownership of the dialog left the pending behind. *)
Definition pending_fences_stale (conversation : Conversation) (row : SelfBookingCreatePending)
    : bool :=
  negb (conversation_allows_automatic_reply conversation) ||
  negb (conv_context_version conversation =? sb_fence_context_version row) ||
  negb (conv_manager_epoch conversation =? sb_fence_manager_epoch row) ||
  negb (conv_current_event_seq conversation =? sb_fence_event_seq_hwm row).

Definition cancel_if_conversation_fences_stale (pending_id : uuid) : Session bool :=
  row ← get_by_id pending_id;
  match row with
  | None => mret false
  | Some row =>
      if negb (self_booking_active (sb_state row)) then mret false
      else
        conversation ← conversation_repo.get_by_id_for_update (sb_conversation_id row);
        match conversation with
        | None =>
            now ← db_statement_now;
            pending_repo.mark_terminal row SB_CANCELLED (Some "CONVERSATION_MISSING"%string)
              (Some "CANCELLED"%string) now None
        | Some conversation =>
            if negb (pending_fences_stale conversation row) then mret false
            else
              now ← db_statement_now;
              pending_repo.mark_terminal row SB_CANCELLED
                (Some "FENCE_STALE_OR_TAKEOVER"%string) (Some "CANCELLED"%string) now None
        end
  end.

End SelfBookingCreatePendingService.

Module SelfBookingConfirmAdmissionService.
Import SelfBookingCreatePendingService.

(** src/app/schemas/self_booking_confirm_action.py, validated. *)
Record SyntheticConfirmSelectedSlotAction := MkSyntheticConfirmSelectedSlotAction {
  csa_slot_id : string;
  csa_pii_admission_request_id : string;
  csa_personal_data_consent : bool;
  csa_offer_acknowledgement : bool
}.

Inductive SelfBookingConfirmAdmissionOutcome :=
  | CONFIRM_ADMITTED | CONFIRM_DUPLICATE | CONFIRM_OFFER_NOT_ACTIVE | CONFIRM_PII_NOT_FOUND
  | CONFIRM_PII_EXPIRED | CONFIRM_HANDOFF_BLOCKED | CONFIRM_FAIL_CLOSED.

#[export] Instance SelfBookingConfirmAdmissionOutcome_eq_dec :
  EqDecision SelfBookingConfirmAdmissionOutcome.
Proof. solve_decision. Defined.

Record SelfBookingConfirmAdmissionResult := MkSelfBookingConfirmAdmissionResult {
  car_outcome : SelfBookingConfirmAdmissionOutcome;
  car_pending_id : option uuid;
  car_idempotency_key : option string;
  car_reason_code : option string
}.

Definition fail_closed (reason_code : string) : SelfBookingConfirmAdmissionResult :=
  MkSelfBookingConfirmAdmissionResult CONFIRM_FAIL_CLOSED None None (Some reason_code).
Definition soft (outcome : SelfBookingConfirmAdmissionOutcome) (reason_code : string)
    : SelfBookingConfirmAdmissionResult :=
  MkSelfBookingConfirmAdmissionResult outcome None None (Some reason_code).

(** The mapping of the admission outcome at the end of [admit_from_confirm]. *)
Definition confirm_result (admitted : SelfBookingCreateAdmitResult)
    : SelfBookingConfirmAdmissionResult :=
  match sar_outcome admitted with
  | ADMIT_ADMITTED =>
      MkSelfBookingConfirmAdmissionResult CONFIRM_ADMITTED (sar_pending_id admitted)
        (sar_idempotency_key admitted) None
  | ADMIT_DUPLICATE =>
      MkSelfBookingConfirmAdmissionResult CONFIRM_DUPLICATE (sar_pending_id admitted)
        (sar_idempotency_key admitted)
        (Some (str_or (sar_reason_code admitted) "CONFIRM_DUPLICATE"))
  | ADMIT_HANDOFF_BLOCKED =>
      soft CONFIRM_HANDOFF_BLOCKED (str_or (sar_reason_code admitted) "HANDOFF_OR_TAKEOVER")
  | outcome => fail_closed (str_or (sar_reason_code admitted) (enum_value outcome))
  end.

(** The alive check of the store under its [except Exception]; [None] when it
    raised. *)
Definition pair_alive (phone_ref_token name_ref_token : string) (conversation_id : uuid)
    : Session (option bool) :=
  try_in_transaction
    (alive ← EphemeralPiiStoreOps.booking_phone_write_pair_alive phone_ref_token name_ref_token
       conversation_id;
     mret (Some alive))
    (fun _ => true) (fun _ => mret None).

Definition admit_from_confirm (conversation_id : uuid)
    (channel confirm_external_message_id : string)
    (action : SyntheticConfirmSelectedSlotAction)
    (fence_context_version fence_manager_epoch fence_event_seq_hwm : Z)
    : Session SelfBookingConfirmAdmissionResult :=
  if is_null (require_self_booking_channel channel) ||
     is_null (normalize_confirm_external_message_id confirm_external_message_id) ||
     is_null (require_pii_admission_request_id (csa_pii_admission_request_id action)) ||
     String.eqb (csa_slot_id action) ""
  then mret (fail_closed "INVALID_INPUT")
  else
    offer ← SelfBookingActiveOfferService.resolve_slot conversation_id (csa_slot_id action);
    match offer with
    | None => mret (soft CONFIRM_OFFER_NOT_ACTIVE "OFFER_NOT_ACTIVE")
    | Some (starts_at, _) =>
        if String.eqb starts_at "" then mret (fail_closed "OFFER_STARTS_AT_MISSING")
        else
          admission ← admission_repo.get_by_request conversation_id
            (csa_pii_admission_request_id action);
          match admission with
          | None => mret (soft CONFIRM_PII_NOT_FOUND "PII_NOT_FOUND")
          | Some admission =>
              alive ← pair_alive (pa_phone_ref_token admission) (pa_name_ref_token admission)
                conversation_id;
              match (alive : option bool) with
              | None => mret (fail_closed "PII_ALIVE_CHECK_FAILED")
              | Some false => mret (soft CONFIRM_PII_EXPIRED "PII_EXPIRED")
              | Some true =>
                  existing ← pending_repo.get_by_confirm channel confirm_external_message_id;
                  match existing with
                  | Some existing =>
                      mret (MkSelfBookingConfirmAdmissionResult CONFIRM_DUPLICATE
                              (Some (sb_id existing)) (Some (sb_idempotency_key existing))
                              (Some "CONFIRM_DUPLICATE"%string))
                  | None =>
                      idempotency_key ← uuid4;
                      admitted ← admit_confirmed conversation_id channel
                        confirm_external_message_id (csa_slot_id action) starts_at
                        fence_context_version fence_manager_epoch fence_event_seq_hwm
                        (csa_personal_data_consent action) (csa_offer_acknowledgement action)
                        (pa_phone_ref_token admission) (pa_name_ref_token admission)
                        (uuid_str idempotency_key) DEFAULT_MAX_ATTEMPTS;
                      mret (confirm_result admitted)
                  end
              end
          end
    end.

End SelfBookingConfirmAdmissionService.
