(* ===== verification/Messages.v ===== *)
(** * Inbox, drafts and manager messages

    src/app/repositories/messages.py ([message_repo]) and
    src/app/repositories/manager_messages.py ([manager_message_repo]). *)

From S2P Require Import Prelude Models Database Statements.

Module message_repo.

Definition get_inbox_by_external (channel : Channel) (external_message_id : string)
    : Session (option InboxMessage) :=
  select_scalar (fun m =>
    bool_decide (inbox_channel m = channel) &&
    String.eqb (inbox_external_message_id m) external_message_id).

Definition insert_inbox_if_absent (conversation_id : uuid) (channel : Channel)
    (external_message_id : string) (conversation_event_seq : Z) (payload_json : jdict)
    (received_at : instant) : Session (InboxMessage * bool) :=
  existing ← get_inbox_by_external channel external_message_id;
  match existing with
  | Some existing => mret (existing, false)
  | None =>
      new_id ← uuid4;
      now ← db_now;
      inserted ← insert_on_conflict_do_nothing uq_inbox_channel_external_message_id {|
        inbox_id := new_id;
        inbox_conversation_id := conversation_id;
        inbox_channel := channel;
        inbox_external_message_id := external_message_id;
        inbox_payload_json := payload_json;
        inbox_received_at := received_at;
        inbox_created_at := now;
        inbox_processing_status := INBOX_RECEIVED;
        inbox_error_code := None;
        inbox_conversation_event_seq := conversation_event_seq
      |};
      message ← get_inbox_by_external channel external_message_id;
      message ← require_some message RuntimeError "INBOX_LOOKUP_FAILED";
      mret (message, inserted)
  end.

Definition get_internal_draft_for_inbox (source_inbox_id : uuid)
    : Session (option OutboxMessage) :=
  select_scalar (fun o =>
    sql_eq (ob_source_inbox_id o) source_inbox_id &&
    bool_decide (ob_destination_type o = INTERNAL_DRAFT)).

(** The draft row, its unset columns at their defaults. *)
Definition internal_draft (id conversation_id source_inbox_id : uuid) (payload_json : jdict)
    (now : instant) : OutboxMessage := {|
  ob_id := id;
  ob_conversation_id := conversation_id;
  ob_source_inbox_id := Some source_inbox_id;
  ob_reply_plan_id := None;
  ob_idempotency_key := None;
  ob_context_version := None;
  ob_manager_epoch := 0;
  ob_event_seq_hwm := 0;
  ob_destination_type := INTERNAL_DRAFT;
  ob_payload_json := payload_json;
  ob_delivery_status := OB_PENDING;
  ob_not_before := None;
  ob_attempt_count := 0;
  ob_max_attempts := 5;
  ob_lease_owner := None;
  ob_lease_token := None;
  ob_lease_version := 0;
  ob_lease_until := None;
  ob_admitted_at := None;
  ob_provider_message_id := None;
  ob_correlation_id := None;
  ob_created_at := now;
  ob_updated_at := now
|}.

Definition create_internal_draft_outbox (conversation_id source_inbox_id : uuid)
    (payload_json : jdict) : Session (OutboxMessage * bool) :=
  existing ← get_internal_draft_for_inbox source_inbox_id;
  match existing with
  | Some existing => mret (existing, false)
  | None =>
      new_id ← uuid4;
      now ← db_now;
      inserted ← insert_on_conflict_do_nothing uq_outbox_source_inbox_destination
        (internal_draft new_id conversation_id source_inbox_id payload_json now);
      outbox ← get_internal_draft_for_inbox source_inbox_id;
      outbox ← require_some outbox RuntimeError "OUTBOX_LOOKUP_FAILED";
      mret (outbox, inserted)
  end.

End message_repo.

Module manager_message_repo.

Definition get_by_external (channel : Channel) (external_message_id : string)
    : Session (option ManagerMessage) :=
  select_scalar (fun m =>
    bool_decide (mm_channel m = channel) &&
    String.eqb (mm_external_message_id m) external_message_id).

Definition insert_quarantined_if_absent (conversation_id : uuid) (channel : Channel)
    (external_message_id : string) (provider_sequence : option Z)
    (provider_occurred_at : option instant) (body_text classification_reason : string)
    : Session (ManagerMessage * bool) :=
  id ← uuid4;
  now ← db_now;
  inserted ← insert_on_conflict_do_nothing uq_manager_messages_channel_external_message_id {|
    mm_id := id;
    mm_conversation_id := conversation_id;
    mm_channel := channel;
    mm_external_message_id := external_message_id;
    mm_provider_sequence := provider_sequence;
    mm_provider_occurred_at := provider_occurred_at;
    mm_body_text := body_text;
    mm_status := QUARANTINED;
    mm_conversation_event_seq := None;
    mm_classification_reason := Some (str_take 64 classification_reason);
    mm_received_at := now;
    mm_created_at := now
  |};
  message ← get_by_external channel external_message_id;
  message ← require_some message RuntimeError "MANAGER_MESSAGE_LOOKUP_FAILED";
  mret (message, inserted).

(** Attribute assignments on the loaded row, written back by [session.flush()]. *)
Definition classified (status : ManagerMessageStatus) (conversation_event_seq : option Z)
    (classification_reason : string) (m : ManagerMessage) : ManagerMessage :=
  m <| mm_status := status |>
    <| mm_conversation_event_seq := conversation_event_seq |>
    <| mm_classification_reason := Some classification_reason |>.

Definition flush_classification (message : ManagerMessage) (status : ManagerMessageStatus)
    (conversation_event_seq : option Z) (classification_reason : string)
    : Session ManagerMessage :=
  _ ← update_by_id (mm_id message) no_guard
    (classified status conversation_event_seq classification_reason);
  mret (classified status conversation_event_seq classification_reason message).

Definition mark_applied (message : ManagerMessage) (conversation_event_seq : Z)
    : Session ManagerMessage :=
  flush_classification message APPLIED (Some conversation_event_seq) "CHRONOLOGICALLY_NEW".

Definition mark_stale (message : ManagerMessage) : Session ManagerMessage :=
  flush_classification message STALE None
    (str_take 64 "PROVIDER_SEQUENCE_NOT_NEWER").

End manager_message_repo.

(** ** Rules for the routines *)

Section Rules.
Import manager_message_repo.
Context (X : exn -> Database -> Prop) (env : Env) (s : Database).
Context (HX : forall e s', X e s').

(** The row [insert_quarantined_if_absent] writes. *)
Definition quarantined_row (conversation_id : uuid) (channel : Channel)
    (external_message_id : string) (provider_sequence : option Z) (m : ManagerMessage)
    : Prop :=
  mm_conversation_id m = conversation_id /\ mm_channel m = channel /\
  mm_external_message_id m = external_message_id /\
  mm_provider_sequence m = provider_sequence /\
  mm_status m = QUARANTINED /\ mm_conversation_event_seq m = None.

(** Either the external id is known and nothing is written, or a quarantined
    row is added. *)
Lemma wp_insert_quarantined_if_absent cid ch ext seq at_ body reason
    (Q : ManagerMessage * bool -> Database -> Prop) :
  (forall k m n, db_manager_messages s !! k = Some m -> mm_channel m = ch ->
     mm_external_message_id m = ext ->
     Q (m, false) (s <| db_uuid_supply := n |>)) ->
  (forall m n, quarantined_row cid ch ext seq m ->
     db_manager_messages s !! mm_id m = None ->
     (forall k m', db_manager_messages s !! k = Some m' ->
        ~ (mm_channel m' = ch /\ mm_external_message_id m' = ext)) ->
     Q (m, true) (s <| db_manager_messages := <[mm_id m := m]> (db_manager_messages s) |>
                    <| db_uuid_supply := n |>)) ->
  wp (insert_quarantined_if_absent cid ch ext seq at_ body reason) Q X env s.
Proof.
  intros Hold Hnew. unfold insert_quarantined_if_absent, get_by_external.
  apply wp_bind, wp_uuid4, wp_bind, wp_db_now, wp_bind, wp_insert_with; try by auto.
  - intros k m Hm Hcf. dbsimpl. apply wp_bind, wp_select_scalar.
    + intros k' m' Hm'. dbsimpl. rewrite andb_true_iff, bool_decide_eq_true, String.eqb_eq.
      intros [Hch Hext]. apply wp_bind, wp_require_some; [|auto]. intros a [= <-].
      apply wp_ret. by apply (Hold k' m' (N.succ (db_uuid_supply s))).
    + intros _. apply wp_bind, wp_require_some; [done|auto].
  - intros _ Hfresh _ Harb. dbsimpl.
    assert (forall k m', db_manager_messages s !! k = Some m' ->
      ~ (mm_channel m' = ch /\ mm_external_message_id m' = ext)) as Hno.
    { intros k m' Hm' [Hch Hext]. specialize (Harb k m' Hm'). cbn in Harb.
      unfold uq_manager_messages_channel_external_message_id in Harb. cbn in Harb.
      by rewrite Hch, Hext, String.eqb_refl, bool_decide_eq_true_2 in Harb. }
    apply wp_bind, wp_select_scalar.
    + intros k m' Hm'. dbsimpl. rewrite andb_true_iff, bool_decide_eq_true, String.eqb_eq.
      intros Hmatch. apply wp_bind, wp_require_some; [|auto]. intros a [= <-].
      apply wp_ret. rewrite lookup_insert_Some in Hm'.
      destruct Hm' as [[_ <-]|[_ Hm']]; [|by destruct (Hno k m' Hm')].
      by apply (Hnew _ (N.succ (db_uuid_supply s))).
    + intros _. apply wp_bind, wp_require_some; [done|auto].
Qed.

Lemma wp_flush_classification m status seq reason
    (Q : ManagerMessage -> Database -> Prop) :
  keys_ok (db_manager_messages s) -> db_manager_messages s !! mm_id m = Some m ->
  (let m' := classified status seq reason m in
   Q m' (s <| db_manager_messages := <[mm_id m := m']> (db_manager_messages s) |>)) ->
  wp (flush_classification m status seq reason) Q X env s.
Proof. intros Hk Hm HQ. apply wp_bind. wp_update Hm. by apply wp_ret. Qed.
End Rules.

Section InboxRules.
Import message_repo.
Context (X : exn -> Database -> Prop) (env : Env) (s : Database).
Context (HX : forall e s', X e s').

Lemma wp_get_inbox_by_external ch ext (Q : option InboxMessage -> Database -> Prop) :
  (forall k m, db_inbox_messages s !! k = Some m -> inbox_channel m = ch ->
     inbox_external_message_id m = ext -> Q (Some m) s) ->
  ((forall k m, db_inbox_messages s !! k = Some m ->
      ~ (inbox_channel m = ch /\ inbox_external_message_id m = ext)) -> Q None s) ->
  wp (get_inbox_by_external ch ext) Q X env s.
Proof.
  intros H1 H2. apply wp_select_scalar.
  - intros k c Hc. rewrite andb_true_iff, bool_decide_eq_true, String.eqb_eq.
    intros [??]. eauto.
  - intros Hno. apply H2. intros k c Hc [Hch Hext]. apply Hno in Hc.
    by rewrite bool_decide_eq_true_2, Hext, String.eqb_refl in Hc.
Qed.

(** A row for an external id the inbox does not know yet. *)
Lemma wp_insert_inbox_new cid ch ext seq payload at_
    (Q : InboxMessage * bool -> Database -> Prop) :
  (forall k m, db_inbox_messages s !! k = Some m ->
     ~ (inbox_channel m = ch /\ inbox_external_message_id m = ext)) ->
  (forall m n, inbox_conversation_id m = cid -> inbox_channel m = ch ->
     inbox_external_message_id m = ext -> inbox_conversation_event_seq m = seq ->
     inbox_payload_json m = payload -> db_inbox_messages s !! inbox_id m = None ->
     Q (m, true) (s <| db_inbox_messages := <[inbox_id m := m]> (db_inbox_messages s) |>
                    <| db_uuid_supply := n |>)) ->
  wp (insert_inbox_if_absent cid ch ext seq payload at_) Q X env s.
Proof.
  intros Hno Hnew. unfold insert_inbox_if_absent.
  apply wp_bind, wp_get_inbox_by_external; [intros k m Hm ??; by destruct (Hno k m Hm)|].
  intros _. apply wp_bind, wp_uuid4, wp_bind, wp_db_now, wp_bind, wp_insert_with; try by auto.
  - intros k m Hm. unfold uq_inbox_channel_external_message_id. cbn.
    rewrite andb_true_iff, bool_decide_eq_true, String.eqb_eq. intros [? ?].
    by destruct (Hno k m Hm).
  - intros _ Hfresh _ _. dbsimpl. apply wp_bind. unfold get_inbox_by_external.
    apply wp_select_scalar.
    + intros k m Hm. dbsimpl. rewrite andb_true_iff, bool_decide_eq_true, String.eqb_eq.
      intros Hmatch. apply wp_bind, wp_require_some; [|auto]. intros a [= <-].
      apply wp_ret. rewrite lookup_insert_Some in Hm.
      destruct Hm as [[_ <-]|[_ Hm]]; [|by destruct (Hno k m Hm)].
      by apply (Hnew _ (N.succ (db_uuid_supply s))).
    + intros _. apply wp_bind, wp_require_some; [done|auto].
Qed.

(** A draft is added for the inbox row, unless it has one. *)
Lemma wp_create_internal_draft_outbox cid iid payload
    (Q : OutboxMessage * bool -> Database -> Prop) :
  (forall k o, db_outbox_messages s !! k = Some o -> Q (o, false) s) ->
  (forall o r n, ob_destination_type o = INTERNAL_DRAFT -> ob_idempotency_key o = None ->
     db_outbox_messages s !! ob_id o = None ->
     Q r (s <| db_outbox_messages := <[ob_id o := o]> (db_outbox_messages s) |>
            <| db_uuid_supply := n |>)) ->
  (forall o r n, db_outbox_messages s !! ob_id o = Some o ->
     Q r (s <| db_uuid_supply := n |>)) ->
  keys_ok (db_outbox_messages s) ->
  wp (create_internal_draft_outbox cid iid payload) Q X env s.
Proof.
  intros Hold Hnew Hraced Hk. unfold create_internal_draft_outbox.
  apply wp_bind, wp_select_scalar; [intros; apply wp_ret; eauto|]. intros Hno.
  apply wp_bind, wp_uuid4, wp_bind, wp_db_now, wp_bind, wp_insert_with; try by auto.
  - intros k o Ho _. dbsimpl. pose proof (Hk _ _ Ho) as Hid. cbn in Hid.
    apply wp_bind, wp_select_scalar; intros;
      (apply wp_bind, wp_require_some; [|auto]); intros; apply wp_ret;
      apply (Hraced o _ (N.succ (db_uuid_supply s))); congruence.
  - intros _ Hfresh _ _. dbsimpl.
    apply wp_bind, wp_select_scalar; intros;
      (apply wp_bind, wp_require_some; [|auto]); intros; apply wp_ret;
      by eapply (Hnew _ _ (N.succ (db_uuid_supply s))).
Qed.
End InboxRules.
