(* ===== verification/Mirror.v ===== *)
(** * The amoCRM mirror queue

    src/app/repositories/amocrm_mirror.py ([mirror_repo]) and
    src/app/services/amocrm_mirror.py ([amocrm_mirror]): jobs are enqueued in
    the transaction of the domain event, claimed under a lease, revalidated
    against the dialog, handed to the CRM adapter outside the transaction and
    completed, skipped or failed under the lease.  The adapter is a parameter. *)

From S2P Require Import Prelude Models Database Statements Conversations.

Module mirror_repo.

Definition DEFAULT_LEASE_SECONDS : Z := 30.
Definition DEFAULT_MAX_ATTEMPTS : Z := DEFAULT_MIRROR_MAX_ATTEMPTS.
Definition DEFAULT_RETRY_DELAY_SECONDS : Z := 1.
Definition MIRROR_KEY_MAX_LENGTH : nat := 160.

Record AmoCrmMirrorClaim := MkAmoCrmMirrorClaim {
  mjc_job_id : uuid;
  mjc_job_type : AmoCrmMirrorJobType;
  mjc_subject_kind : AmoCrmMirrorSubjectKind;
  mjc_subject_id : uuid;
  mjc_conversation_id : uuid;
  mjc_context_version : option Z;
  mjc_mirror_key : string;
  mjc_status : AmoCrmMirrorStatus;
  mjc_attempt_count : Z;
  mjc_max_attempts : Z;
  mjc_lease_owner : string;
  mjc_lease_token : uuid;
  mjc_lease_version : Z;
  mjc_lease_until : instant;
  mjc_correlation_id : uuid;
  mjc_payload_json : jdict
}.

Definition row_to_claim (row : AmoCrmMirrorJob) : Session AmoCrmMirrorClaim :=
  match mj_lease_token row, mj_lease_owner row, mj_lease_until row with
  | Some lease_token, Some lease_owner, Some lease_until => mret {|
      mjc_job_id := mj_id row;
      mjc_job_type := mj_job_type row;
      mjc_subject_kind := mj_subject_kind row;
      mjc_subject_id := mj_subject_id row;
      mjc_conversation_id := mj_conversation_id row;
      mjc_context_version := mj_context_version row;
      mjc_mirror_key := mj_mirror_key row;
      mjc_status := mj_status row;
      mjc_attempt_count := mj_attempt_count row;
      mjc_max_attempts := mj_max_attempts row;
      mjc_lease_owner := lease_owner;
      mjc_lease_token := lease_token;
      mjc_lease_version := mj_lease_version row;
      mjc_lease_until := lease_until;
      mjc_correlation_id := mj_correlation_id row;
      mjc_payload_json := mj_payload_json row
    |}
  | _, _, _ => raise RuntimeError "AMOCRM_MIRROR_LEASE_INCOMPLETE"
  end.

(** The fencing predicate of statements made under a lease. *)
Definition holds_lease (lease_token : uuid) (lease_version : Z) (j : AmoCrmMirrorJob)
    : bool :=
  bool_decide (mj_status j = MJ_PROCESSING) && sql_eq (mj_lease_token j) lease_token &&
  (mj_lease_version j =? lease_version).

Definition require_processing_lease (job_id lease_token : uuid) (lease_version : Z)
    (lease_owner : string) : Session AmoCrmMirrorJob :=
  job ← get_by_id job_id;
  match job with
  | Some job =>
      if holds_lease lease_token lease_version job && sql_eq (mj_lease_owner job) lease_owner
      then mret job
      else raise StaleAmoCrmMirrorLeaseError "AMOCRM_MIRROR_STALE_LEASE"
  | None => raise StaleAmoCrmMirrorLeaseError "AMOCRM_MIRROR_STALE_LEASE"
  end.

Definition get_by_mirror_key (mirror_key : string) : Session (option AmoCrmMirrorJob) :=
  select_scalar (fun j => String.eqb (mj_mirror_key j) mirror_key).

Definition pending_job (id : uuid) (job_type : AmoCrmMirrorJobType)
    (subject_kind : AmoCrmMirrorSubjectKind) (subject_id conversation_id : uuid)
    (mirror_key : string) (payload_json : jdict) (correlation_id : uuid)
    (context_version : option Z) (max_attempts : Z) (now : instant) : AmoCrmMirrorJob := {|
  mj_id := id;
  mj_job_type := job_type;
  mj_subject_kind := subject_kind;
  mj_subject_id := subject_id;
  mj_conversation_id := conversation_id;
  mj_context_version := context_version;
  mj_mirror_key := mirror_key;
  mj_status := MJ_PENDING;
  mj_payload_json := payload_json;
  mj_attempt_count := 0;
  mj_max_attempts := max_attempts;
  mj_next_attempt_at := None;
  mj_lease_owner := None;
  mj_lease_token := None;
  mj_lease_version := 0;
  mj_lease_until := None;
  mj_correlation_id := correlation_id;
  mj_error_code := None;
  mj_skip_reason := None;
  mj_created_at := now;
  mj_updated_at := now
|}.

Definition enqueue_if_absent (job_type : AmoCrmMirrorJobType)
    (subject_kind : AmoCrmMirrorSubjectKind) (subject_id conversation_id : uuid)
    (mirror_key : string) (payload_json : jdict) (correlation_id : uuid)
    (context_version : option Z) (max_attempts : Z) : Session (AmoCrmMirrorJob * bool) :=
  _ ← assert_or_raise
    (negb (String.eqb mirror_key "" ||
           (MIRROR_KEY_MAX_LENGTH <? String.length mirror_key)%nat))
    ValueError "mirror_key must be non-empty and within column length";
  _ ← assert_or_raise (negb (max_attempts <=? 0)) ValueError "max_attempts must be positive";
  _ ← assert_mirror_payload_is_safe payload_json;
  existing ← get_by_mirror_key mirror_key;
  match existing with
  | Some existing => mret (existing, false)
  | None =>
      id ← uuid4;
      now ← db_now;
      inserted ← insert_on_conflict_do_nothing uq_amocrm_mirror_key
        (pending_job id job_type subject_kind subject_id conversation_id mirror_key
           payload_json correlation_id context_version max_attempts now);
      job ← get_by_mirror_key mirror_key;
      job ← require_some job RuntimeError "AMOCRM_MIRROR_LOOKUP_FAILED";
      mret (job, inserted)
  end.

Definition exhausted (moment : instant) (j : AmoCrmMirrorJob) : bool :=
  bool_decide (mj_status j = MJ_PROCESSING) && is_not_null (mj_lease_until j) &&
  sql_lt (mj_lease_until j) moment && (mj_max_attempts j <=? mj_attempt_count j).

Definition recover_exhausted_leases (now : option instant) : Session Z :=
  moment ← resolve_moment now;
  update_where (exhausted moment) (fun j =>
    j <| mj_status := MJ_DEAD |>
      <| mj_lease_owner := None |>
      <| mj_lease_token := None |>
      <| mj_lease_until := None |>
      <| mj_next_attempt_at := None |>
      <| mj_error_code := Some "LEASE_ATTEMPTS_EXHAUSTED"%string |>
      <| mj_skip_reason := None |>
      <| mj_updated_at := moment |>).

Definition claimable (now : instant) (j : AmoCrmMirrorJob) : bool :=
  (mj_attempt_count j <? mj_max_attempts j) &&
  (match mj_status j with
   | MJ_PENDING => true
   | MJ_FAILED => match mj_next_attempt_at j with Some t => t <=? now | None => false end
   | MJ_PROCESSING => is_not_null (mj_lease_until j) && sql_lt (mj_lease_until j) now
   | _ => false
   end).

Definition claim_order (a b : AmoCrmMirrorJob) : bool := mj_created_at a <=? mj_created_at b.

Definition claim_values (now : instant) (worker_id : string) (lease_token : uuid)
    (lease_until : instant) (j : AmoCrmMirrorJob) : AmoCrmMirrorJob :=
  j <| mj_status := MJ_PROCESSING |>
    <| mj_lease_owner := Some worker_id |>
    <| mj_lease_token := Some lease_token |>
    <| mj_lease_version ::= Z.succ |>
    <| mj_lease_until := Some lease_until |>
    <| mj_attempt_count ::= Z.succ |>
    <| mj_next_attempt_at := None |>
    <| mj_error_code := None |>
    <| mj_updated_at := now |>.

Definition claim_next (worker_id : string) (lease_seconds : Z) (now : option instant)
    : Session (option AmoCrmMirrorClaim) :=
  _ ← assert_or_raise (negb (lease_seconds <=? 0)) ValueError "lease_seconds must be positive";
  moment ← resolve_moment now;
  _ ← recover_exhausted_leases (Some moment);
  let lease_until := moment + seconds lease_seconds in
  lease_token ← uuid4;
  env ← get_env;
  candidates ← select_where (fun j => claimable moment j && negb (env_locked env (mj_id j)));
  match pick_min claim_order candidates with
  | None => mret None
  | Some candidate =>
      _ ← update_by_id (mj_id candidate) no_guard
        (claim_values moment worker_id lease_token lease_until);
      job ← get_by_id (mj_id candidate);
      job ← require_some job RuntimeError "AMOCRM_MIRROR_CLAIM_LOOKUP_FAILED";
      claim ← row_to_claim job;
      mret (Some claim)
  end.

Definition terminate_values (target : AmoCrmMirrorStatus)
    (skip_reason error_code : option string) (moment : instant) (j : AmoCrmMirrorJob)
    : AmoCrmMirrorJob :=
  j <| mj_status := target |>
    <| mj_lease_owner := None |>
    <| mj_lease_token := None |>
    <| mj_lease_until := None |>
    <| mj_next_attempt_at := None |>
    <| mj_skip_reason := skip_reason |>
    <| mj_error_code := error_code |>
    <| mj_updated_at := moment |>.

Definition terminate_with_lease (job_id lease_token : uuid) (lease_version : Z)
    (target : AmoCrmMirrorStatus) (skip_reason error_code : option string)
    (moment : instant) : Session AmoCrmMirrorJob :=
  _ ← assert_or_raise (amocrm_mirror_transition_allowed MJ_PROCESSING target)
    AmoCrmMirrorStateError "AMOCRM_MIRROR_TRANSITION_DENIED";
  updated ← update_by_id job_id (holds_lease lease_token lease_version)
    (terminate_values target skip_reason error_code moment);
  _ ← assert_or_raise updated StaleAmoCrmMirrorLeaseError "AMOCRM_MIRROR_STALE_LEASE";
  job ← get_by_id job_id;
  require_some job RuntimeError "AMOCRM_MIRROR_LOOKUP_FAILED".

Definition complete_with_lease (job_id lease_token : uuid) (lease_version : Z)
    (now : option instant) : Session AmoCrmMirrorJob :=
  moment ← resolve_moment now;
  terminate_with_lease job_id lease_token lease_version MJ_MIRRORED None None moment.

Definition skip_with_lease (job_id lease_token : uuid) (lease_version : Z)
    (skip_reason : AmoCrmMirrorSkipReason) (now : option instant) : Session AmoCrmMirrorJob :=
  moment ← resolve_moment now;
  terminate_with_lease job_id lease_token lease_version MJ_SKIPPED
    (Some (enum_value skip_reason)) None moment.

Definition fail_values (target : AmoCrmMirrorStatus) (next_attempt_at : option instant)
    (error_code : string) (moment : instant) (j : AmoCrmMirrorJob) : AmoCrmMirrorJob :=
  j <| mj_status := target |>
    <| mj_lease_owner := None |>
    <| mj_lease_token := None |>
    <| mj_lease_until := None |>
    <| mj_next_attempt_at := next_attempt_at |>
    <| mj_error_code := Some (str_take 64 error_code) |>
    <| mj_updated_at := moment |>.

Definition fail_with_lease (job_id lease_token : uuid) (lease_version : Z)
    (error_code : string) (retry_delay_seconds : Z) (now : option instant)
    : Session AmoCrmMirrorJob :=
  moment ← resolve_moment now;
  job ← get_by_id job_id;
  job ← require_some job RuntimeError "AMOCRM_MIRROR_LOOKUP_FAILED";
  _ ← assert_or_raise (holds_lease lease_token lease_version job)
    StaleAmoCrmMirrorLeaseError "AMOCRM_MIRROR_STALE_LEASE";
  let '(target, next_attempt_at) :=
    if mj_max_attempts job <=? mj_attempt_count job
    then (MJ_DEAD, None)
    else (MJ_FAILED, Some (moment + seconds retry_delay_seconds)) in
  _ ← assert_or_raise (amocrm_mirror_transition_allowed MJ_PROCESSING target)
    AmoCrmMirrorStateError "AMOCRM_MIRROR_TRANSITION_DENIED";
  updated ← update_by_id job_id (holds_lease lease_token lease_version)
    (fail_values target next_attempt_at error_code moment);
  _ ← assert_or_raise updated StaleAmoCrmMirrorLeaseError "AMOCRM_MIRROR_STALE_LEASE";
  refreshed ← get_by_id job_id;
  require_some refreshed RuntimeError "AMOCRM_MIRROR_LOOKUP_FAILED".

End mirror_repo.

Module amocrm_mirror.
Import mirror_repo.

Definition enqueue_client_message_received (conversation_id inbox_id : uuid)
    (context_version : Z) (correlation_id : uuid) : Session (AmoCrmMirrorJob * bool) :=
  payload ← safe_mirror_payload CLIENT_MESSAGE_RECEIVED_META SUBJECT_INBOX_MESSAGE inbox_id
    conversation_id (Some context_version) None;
  enqueue_if_absent CLIENT_MESSAGE_RECEIVED_META SUBJECT_INBOX_MESSAGE inbox_id
    conversation_id (client_message_mirror_key inbox_id) payload correlation_id
    (Some context_version) DEFAULT_MAX_ATTEMPTS.

Definition enqueue_manager_takeover (conversation_id correlation_id : uuid)
    : Session (AmoCrmMirrorJob * bool) :=
  payload ← safe_mirror_payload MANAGER_TAKEOVER SUBJECT_CONVERSATION conversation_id
    conversation_id None None;
  enqueue_if_absent MANAGER_TAKEOVER SUBJECT_CONVERSATION conversation_id conversation_id
    (manager_takeover_mirror_key conversation_id) payload correlation_id None
    DEFAULT_MAX_ATTEMPTS.

Definition enqueue_reply_plan_state_changed (conversation_id plan_id : uuid)
    (plan_status : ReplyPlanStatus) (context_version : Z) (correlation_id : uuid)
    : Session (AmoCrmMirrorJob * bool) :=
  let plan_status := enum_value plan_status in
  payload ← safe_mirror_payload REPLY_PLAN_STATE_CHANGED SUBJECT_REPLY_PLAN plan_id
    conversation_id (Some context_version) (Some plan_status);
  enqueue_if_absent REPLY_PLAN_STATE_CHANGED SUBJECT_REPLY_PLAN plan_id conversation_id
    (reply_plan_state_mirror_key plan_id plan_status) payload correlation_id
    (Some context_version) DEFAULT_MAX_ATTEMPTS.

Definition enqueue_outbound_delivered (conversation_id outbound_id : uuid)
    (context_version : option Z) (correlation_id : uuid) : Session (AmoCrmMirrorJob * bool) :=
  payload ← safe_mirror_payload OUTBOUND_DELIVERED_META SUBJECT_OUTBOX_MESSAGE outbound_id
    conversation_id context_version (Some (enum_value OB_DELIVERED));
  enqueue_if_absent OUTBOUND_DELIVERED_META SUBJECT_OUTBOX_MESSAGE outbound_id
    conversation_id (outbound_delivered_mirror_key outbound_id) payload correlation_id
    context_version DEFAULT_MAX_ATTEMPTS.

Definition bot_action_job_type (t : AmoCrmMirrorJobType) : bool :=
  match t with REPLY_PLAN_STATE_CHANGED | OUTBOUND_DELIVERED_META => true | _ => false end.

(** The last part of [_revalidate]: the subject is still what the job says. *)
Definition revalidate_subject (claim : AmoCrmMirrorClaim)
    : Session (option AmoCrmMirrorSkipReason) :=
  let expected_status := jget (mjc_payload_json claim) "subject_status" in
  match mjc_subject_kind claim with
  | SUBJECT_INBOX_MESSAGE =>
      found ← get_by_id (R := InboxMessage) (mjc_subject_id claim);
      mret (if is_null found then Some SKIP_SUBJECT_STATE_CHANGED else None)
  | SUBJECT_REPLY_PLAN =>
      plan ← get_by_id (R := ReplyPlan) (mjc_subject_id claim);
      mret match plan with
      | Some plan =>
          if bool_decide (Some (JStr (enum_value (rp_status plan))) = expected_status)
          then None else Some SKIP_SUBJECT_STATE_CHANGED
      | None => Some SKIP_SUBJECT_STATE_CHANGED
      end
  | SUBJECT_OUTBOX_MESSAGE =>
      outbound ← get_by_id (R := OutboxMessage) (mjc_subject_id claim);
      mret match outbound with
      | Some outbound =>
          if bool_decide (Some (JStr (enum_value (ob_delivery_status outbound))) = expected_status)
          then None else Some SKIP_SUBJECT_STATE_CHANGED
      | None => Some SKIP_SUBJECT_STATE_CHANGED
      end
  | SUBJECT_CONVERSATION => mret None
  end.

Definition revalidate (claim : AmoCrmMirrorClaim) (conversation : option Conversation)
    : Session (option AmoCrmMirrorSkipReason) :=
  match conversation with
  | None => mret (Some SKIP_SUBJECT_STATE_CHANGED)
  | Some conversation =>
      if bot_action_job_type (mjc_job_type claim) &&
         (negb (bool_decide (conv_ownership conversation = BOT)) ||
          is_not_null (conv_manager_takeover_at conversation))
      then mret (Some SKIP_MANAGER_TAKEOVER)
      else if bot_action_job_type (mjc_job_type claim) &&
         (match mjc_context_version claim with
          | Some v => negb (v =? conv_context_version conversation)
          | None => false
          end)
      then mret (Some SKIP_STALE_CONTEXT)
      else revalidate_subject claim
  end.

Inductive AmoCrmMirrorOutcome := MIRROR_SUCCESS | MIRROR_TRANSIENT_ERROR | MIRROR_PERMANENT_ERROR.

Record AmoCrmMirrorProcessResult := MkAmoCrmMirrorProcessResult {
  mpr_job_id : uuid;
  mpr_status : AmoCrmMirrorStatus;
  mpr_mirrored : bool;
  mpr_skip_reason : option string
}.

Section Worker.
Context `{Interference}.
(** [self._adapter.mirror]: what the CRM answers to the claim's request. *)
Context (adapter : nat -> AmoCrmMirrorClaim ->
  result (AmoCrmMirrorOutcome * option string)).
Context (worker_id : string) (lease_seconds retry_delay_seconds : Z).

Definition claim_one (now : option instant) : Process (option AmoCrmMirrorClaim) :=
  transaction (claim_next worker_id lease_seconds now).

(** First transaction of [process_claimed]: [Some] result ends it as skipped. *)
Definition process_revalidate (claim : AmoCrmMirrorClaim) (now : option instant)
    : Session (option AmoCrmMirrorProcessResult) :=
  conversation ← conversation_repo.get_by_id_for_update (mjc_conversation_id claim);
  _ ← require_processing_lease (mjc_job_id claim) (mjc_lease_token claim)
    (mjc_lease_version claim) (mjc_lease_owner claim);
  skip_reason ← revalidate claim conversation;
  match skip_reason with
  | Some skip_reason =>
      job ← skip_with_lease (mjc_job_id claim) (mjc_lease_token claim)
        (mjc_lease_version claim) skip_reason now;
      mret (Some (MkAmoCrmMirrorProcessResult (mj_id job) (mj_status job) false
                    (mj_skip_reason job)))
  | None => mret None
  end.

Definition process_complete (claim : AmoCrmMirrorClaim) (now : option instant)
    : Session AmoCrmMirrorProcessResult :=
  _ ← conversation_repo.get_by_id_for_update (mjc_conversation_id claim);
  job ← complete_with_lease (mjc_job_id claim) (mjc_lease_token claim)
    (mjc_lease_version claim) now;
  mret (MkAmoCrmMirrorProcessResult (mj_id job) (mj_status job)
          (bool_decide (mj_status job = MJ_MIRRORED)) None).

Definition fail_claimed (claim : AmoCrmMirrorClaim) (error_code : string)
    : Process AmoCrmMirrorJob :=
  transaction (fail_with_lease (mjc_job_id claim) (mjc_lease_token claim)
    (mjc_lease_version claim) error_code retry_delay_seconds None).

Definition process_claimed (claim : AmoCrmMirrorClaim) (now : option instant)
    : Process AmoCrmMirrorProcessResult :=
  try_except
    (skipped ← transaction (process_revalidate claim now);
     match skipped with
     | Some result => mret result
     | None =>
         '(outcome, error_code) ← call_outside (CrmMirrorCall (mjc_job_id claim))
           (fun n => adapter n claim);
         match outcome with
         | MIRROR_SUCCESS => transaction (process_complete claim now)
         | _ => raise AmoCrmMirrorRejected (str_or error_code "AMOCRM_MIRROR_REJECTED")
         end
     end)
    (fun exc => negb (bool_decide (exn_class exc = StaleAmoCrmMirrorLeaseError)))
    (fun exc =>
       _ ← fail_claimed claim
         (if bool_decide (exn_class exc = AmoCrmMirrorRejected)
          then str_take 64 (exn_message exc) else class_name (exn_class exc));
       raise (exn_class exc) (exn_message exc)).
End Worker.

End amocrm_mirror.

(** ** Rules and preserved relations *)

Section Rules.
Import mirror_repo amocrm_mirror.
Context (X : exn -> Database -> Prop) (env : Env) (s : Database).
Context (HX : forall e s', X e s').

Lemma wp_assert_mirror_payload_is_safe payload (Q : unit -> Database -> Prop) :
  Q tt s -> wp (assert_mirror_payload_is_safe payload) Q X env s.
Proof.
  intros HQ. unfold assert_mirror_payload_is_safe. cbv zeta.
  repeat (apply wp_if; intros; [by apply wp_raise|]). by apply wp_ret.
Qed.

Lemma wp_safe_mirror_payload t k sid cid v st (Q : jdict -> Database -> Prop) :
  (forall payload, Q payload s) -> wp (safe_mirror_payload t k sid cid v st) Q X env s.
Proof.
  intros HQ. unfold safe_mirror_payload. cbv zeta.
  apply wp_bind, wp_assert_mirror_payload_is_safe, wp_ret. auto.
Qed.

Lemma wp_enqueue_if_absent t k sid cid key payload corr v n
    (Q : AmoCrmMirrorJob * bool -> Database -> Prop) :
  (forall r jobs u, Q r (with_mirror jobs u s)) ->
  wp (enqueue_if_absent t k sid cid key payload corr v n) Q X env s.
Proof.
  intros HQ. unfold enqueue_if_absent.
  apply wp_bind, wp_assert; [intros _|by auto]. apply wp_bind, wp_assert; [intros _|by auto].
  apply wp_bind, wp_assert_mirror_payload_is_safe, wp_bind, wp_select_scalar.
  - intros id r _ _. apply wp_ret. rewrite <- (with_mirror_same s). apply HQ.
  - intros _. apply wp_bind, wp_uuid4, wp_bind, wp_db_now, wp_bind, wp_insert_with; try by auto.
    + intros id r _ _. apply wp_bind, wp_select_scalar.
      * intros. apply wp_bind, wp_require_some; [|by auto]. intros r' _. apply wp_ret.
        apply (HQ _ (db_mirror_jobs s)).
      * intros. apply wp_bind, wp_require_some; [|by auto]. intros r' _. apply wp_ret.
        apply (HQ _ (db_mirror_jobs s)).
    + intros _ _ _ _. apply wp_bind, wp_select_scalar; intros;
        (apply wp_bind, wp_require_some; [|by auto]); intros r' _; apply wp_ret; apply HQ.
Qed.

Lemma wp_enqueue_manager_takeover cid corr (Q : AmoCrmMirrorJob * bool -> Database -> Prop) :
  (forall r jobs u, Q r (with_mirror jobs u s)) ->
  wp (enqueue_manager_takeover cid corr) Q X env s.
Proof. intros. apply wp_bind, wp_safe_mirror_payload. intros. by apply wp_enqueue_if_absent. Qed.

Lemma wp_enqueue_client_message_received cid iid v corr
    (Q : AmoCrmMirrorJob * bool -> Database -> Prop) :
  (forall r jobs u, Q r (with_mirror jobs u s)) ->
  wp (enqueue_client_message_received cid iid v corr) Q X env s.
Proof. intros. apply wp_bind, wp_safe_mirror_payload. intros. by apply wp_enqueue_if_absent. Qed.

Lemma wp_enqueue_reply_plan_state_changed cid pid st v corr
    (Q : AmoCrmMirrorJob * bool -> Database -> Prop) :
  (forall r jobs u, Q r (with_mirror jobs u s)) ->
  wp (enqueue_reply_plan_state_changed cid pid st v corr) Q X env s.
Proof. intros. apply wp_bind, wp_safe_mirror_payload. intros. by apply wp_enqueue_if_absent. Qed.

Lemma wp_enqueue_outbound_delivered cid oid v corr
    (Q : AmoCrmMirrorJob * bool -> Database -> Prop) :
  (forall r jobs u, Q r (with_mirror jobs u s)) ->
  wp (enqueue_outbound_delivered cid oid v corr) Q X env s.
Proof. intros. apply wp_bind, wp_safe_mirror_payload. intros. by apply wp_enqueue_if_absent. Qed.
End Rules.
