(* ===== verification/ReplyText.v ===== *)
(** * Persisted reply text: src/app/services/outbound_reply_text.py

    Delivery reads the client text from the outbound row only. *)

From S2P Require Import Prelude Models Database.

Definition is_machine_only_outbound_payload (payload : jdict) : bool :=
  bool_decide (jget payload "booking_action" = Some (JStr "OFFER_DAYS")).

Definition persisted_outbound_reply_text (payload : jdict) : option string :=
  match jget payload "text" with
  | Some (JStr text) =>
      if str_blank text then None
      else
        match jget payload "synthetic_token" with
        | Some (JStr token) =>
            if negb (String.eqb token "") && String.eqb text token then None else Some text
        | _ => Some text
        end
  | _ => None
  end.

Definition require_persisted_outbound_text {E S} (payload : jdict) : M E S string :=
  require_some (persisted_outbound_reply_text payload) OutboundReplyTextError
    "OUTBOUND_REPLY_TEXT_MISSING".
