(* ===== verification/BookingFields.v ===== *)
(** * Booking fields of replies: src/app/services/booking_synthetic.py

    What a booking resolution leaves in a reply: the sanitiser that admits only
    allow-listed shapes, the durable markers in the plan's payload, and the
    outbound payload with the client text of src/app/services/outbound_reply_text.py.
    What BookingFlowService decides with the booking backend is a parameter. *)

From S2P Require Import Prelude BookingText Models ReplyText.

(** [d.get(key)]: a JSON null reads as [None]. *)
Definition pyget (d : jdict) (key : string) : option json :=
  match jget d key with Some JNull | None => None | v => v end.

(** [set(d) == keys] *)
Definition keys_are (d : jdict) (keys : list string) : bool :=
  forallb (fun k => str_in k keys) d.*1 && forallb (fun k => str_in k d.*1) keys.

(** [value == text] *)
Definition is_str (value : option json) (text : string) : bool :=
  match value with Some (JStr s) => String.eqb s text | _ => false end.

Definition json_text (o : option string) : json :=
  match o with Some s => JStr s | None => JNull end.

Definition BOOKING_RESOLUTION_STARTED_KEY : string := "booking_resolution_started".
Definition BOOKING_RESOLUTION_RESULT_KEY : string := "booking_resolution_result".
Definition MAX_OFFER_DAYS : nat := 31.
Definition MAX_OFFERED_SLOTS : nat := 3.

Definition BOOKING_INTERNAL_REASON_CODES : list string :=
  [ "UNKNOWN_OUTCOME"; "MALFORMED_ELIGIBILITY"; "ELIGIBILITY_MASTER_MISMATCH";
    "NO_VALID_SLOTS"; "NO_AVAILABLE_DAYS"; "ALTERNATE_MASTER_WITHOUT_CONSENT";
    "ELIGIBILITY_MANAGER_HANDOFF"; "ELIGIBILITY_SERVICE_UNAVAILABLE";
    "ELIGIBILITY_CLIENT_UNAVAILABLE"; "AVAILABILITY_CLIENT_UNAVAILABLE";
    "AVAILABILITY_REQUEST_INVALID"; "AVAILABILITY_SERVICE_UNAVAILABLE";
    "BOOKING_FLOW_UNAVAILABLE"; "BOOKING_RESOLUTION_INTERRUPTED" ].
Definition ALLOWED_BOOKING_REASONS : list string :=
  BOOKING_INTERNAL_REASON_CODES ++
  [ "STUDIO_ONLINE_DISABLED"; "SERVICE_INACTIVE"; "MASTER_INACTIVE"; "ONLINE_DISABLED";
    "MASTER_SERVICE_UNAVAILABLE"; "MANAGER_ONLY"; "REMOTE_REJECTED"; "TIMEOUT";
    "TRANSPORT_ERROR"; "RESPONSE_TOO_LARGE"; "RESPONSE_INVALID"; "CONFIG_INVALID";
    "REQUEST_INVALID"; "UNAUTHORIZED"; "RATE_LIMITED"; "VALIDATION_ERROR";
    "SERVICE_UNAVAILABLE" ].
Definition HANDOFF_MESSAGE_KINDS : list string :=
  [ "HANDOFF_DURING_MANAGER_HOURS"; "HANDOFF_OUTSIDE_MANAGER_HOURS" ].

Inductive BookingResolutionPhase := NON_BOOKING | NEEDS_REMOTE | INTERRUPTED | HAS_RESULT.

#[export] Instance BookingResolutionPhase_eq_dec : EqDecision BookingResolutionPhase.
Proof. solve_decision. Defined.

Definition plan_has_booking_fixture (plan_payload : jdict) : bool := jhas plan_payload "booking".

Definition booking_resolution_phase (plan_payload : jdict) : BookingResolutionPhase :=
  if negb (plan_has_booking_fixture plan_payload) then NON_BOOKING
  else
    match jget plan_payload BOOKING_RESOLUTION_RESULT_KEY with
    | Some (JObj _) => HAS_RESULT
    | _ =>
        if bool_decide (jget plan_payload BOOKING_RESOLUTION_STARTED_KEY = Some (JBool true))
        then INTERRUPTED else NEEDS_REMOTE
    end.

(** [_allowlisted_reason] *)
Definition allowlisted_reason (raw : option json) : option string :=
  match raw with
  | None => None
  | Some (JStr reason) =>
      if str_in reason ALLOWED_BOOKING_REASONS then Some reason
      else Some "UNKNOWN_OUTCOME"%string
  | Some _ => Some "UNKNOWN_OUTCOME"%string
  end.

(** [_require_safe_slot_id] *)
Definition require_safe_slot_id (value : option json) : option string :=
  match value with
  | Some (JStr slot_id) =>
      if String.eqb slot_id "" || (MAX_SLOT_ID_LENGTH <? String.length slot_id)%nat ||
         unclean slot_id
      then None else Some slot_id
  | _ => None
  end.

(** The loop of [_sanitize_offered_slots_new]. *)
Fixpoint sanitize_offered_from (seen_ids seen_starts : list string) (previous : option string)
    (slot_ids : list string) (offered : list json) : option (list ActiveOfferSlot) :=
  match slot_ids, offered with
  | [], [] => Some []
  | expected :: slot_ids, JObj item :: offered =>
      if negb (keys_are item ["slot_id"; "starts_at"]) then None
      else
        slot_id ← require_safe_slot_id (pyget item "slot_id");
        if negb (String.eqb slot_id expected) then None
        else if str_in slot_id seen_ids then None
        else
          starts_at ← match pyget item "starts_at" with
                      | Some (JStr t) => require_canonical_booking_starts_at t
                      | _ => None
                      end;
          if str_in starts_at seen_starts then None
          else if match previous with Some p => negb (String.ltb p starts_at) | None => false end
          then None
          else
            rest ← sanitize_offered_from (slot_id :: seen_ids) (starts_at :: seen_starts)
              (Some starts_at) slot_ids offered;
            Some (MkActiveOfferSlot slot_id starts_at :: rest)
  | _, _ => None
  end.

Definition sanitize_offered_slots_new (slot_ids : list string) (offered : option json)
    : option (list ActiveOfferSlot) :=
  match offered with
  | Some (JArr offered) =>
      if negb (length offered =? length slot_ids)%nat then None
      else if (length offered =? 0)%nat || (MAX_OFFERED_SLOTS <? length offered)%nat then None
      else sanitize_offered_from [] [] None slot_ids offered
  | _ => None
  end.

(** The loop over the date keys: strictly increasing calendar days. *)
Fixpoint sanitize_dates_from (seen : list string) (previous : option string)
    (items : list json) : option (list string) :=
  match items with
  | [] => Some []
  | JStr item :: items =>
      key ← require_calendar_date item;
      if str_in key seen then None
      else if match previous with Some p => negb (String.ltb p key) | None => false end
      then None
      else rest ← sanitize_dates_from (key :: seen) (Some key) items; Some (key :: rest)
  | _ => None
  end.

Definition sanitize_offer_days_fields (raw : jdict) : option jdict :=
  if negb (keys_are raw ["booking_action"; "booking_reason"; "booking_available_date_keys";
                         "booking_studio_today"]) then None
  else if negb (bool_decide (jget raw "booking_action" = Some (JStr "OFFER_DAYS"))) then None
  else if is_not_null (pyget raw "booking_reason") then None
  else
    match pyget raw "booking_available_date_keys" with
    | Some (JArr items) =>
        if (length items =? 0)%nat || (MAX_OFFER_DAYS <? length items)%nat then None
        else
          keys ← sanitize_dates_from [] None items;
          studio_today ← match pyget raw "booking_studio_today" with
                         | Some (JStr day) => require_calendar_date day
                         | _ => None
                         end;
          Some [ ("booking_action", JStr "OFFER_DAYS"); ("booking_reason", JNull);
                 ("booking_available_date_keys", JArr (JStr <$> keys));
                 ("booking_studio_today", JStr studio_today) ]
    | _ => None
    end.

(** [_sanitize_slot_ids_list] *)
Fixpoint sanitize_slot_ids_from (seen : list string) (items : list json)
    : option (list string) :=
  match items with
  | [] => Some []
  | item :: items =>
      slot_id ← require_safe_slot_id (Some item);
      if str_in slot_id seen then None
      else rest ← sanitize_slot_ids_from (slot_id :: seen) items; Some (slot_id :: rest)
  end.

Definition sanitize_slot_ids_list (raw : option json) : option (list string) :=
  match raw with
  | Some (JArr items) =>
      if (length items =? 0)%nat || (MAX_OFFERED_SLOTS <? length items)%nat then None
      else sanitize_slot_ids_from [] items
  | _ => None
  end.

(** [_optional_offer_slots_kind] and the check on it: [None] rejects. *)
Definition with_offer_slots_kind (raw fields : jdict) : option jdict :=
  let kind := jget raw "client_message_kind" in
  if is_null kind then Some fields
  else if is_str kind "OFFER_SLOTS"
  then Some (jset fields "client_message_kind" (JStr "OFFER_SLOTS"))
  else None.

(** Guards both offer shapes start with, and the slot ids. *)
Definition offer_slots_ids (raw : jdict) : option (list string) :=
  if negb (bool_decide (jget raw "booking_action" = Some (JStr "OFFER_SLOTS"))) then None
  else if is_not_null (pyget raw "booking_reason") then None
  else sanitize_slot_ids_list (pyget raw "booking_offered_slot_ids").

Definition sanitize_offer_slots_legacy (raw : jdict) : option jdict :=
  slot_ids ← offer_slots_ids raw;
  with_offer_slots_kind raw
    [ ("booking_action", JStr "OFFER_SLOTS"); ("booking_reason", JNull);
      ("booking_offered_slot_ids", JArr (JStr <$> slot_ids)) ].

Definition sanitize_offer_slots_new_shape (raw : jdict) : option jdict :=
  slot_ids ← offer_slots_ids raw;
  offered ← sanitize_offered_slots_new slot_ids (pyget raw "booking_offered_slots");
  with_offer_slots_kind raw
    [ ("booking_action", JStr "OFFER_SLOTS"); ("booking_reason", JNull);
      ("booking_offered_slot_ids", JArr (JStr <$> slot_ids));
      ("booking_offered_slots", JArr (slot_json <$> offered)) ].

Definition OFFER_SLOTS_LEGACY_KEYS : list string :=
  ["booking_action"; "booking_reason"; "booking_offered_slot_ids"].
Definition OFFER_SLOTS_NEW_KEYS : list string :=
  OFFER_SLOTS_LEGACY_KEYS ++ ["booking_offered_slots"].

Definition sanitize_offer_slots_fields (raw : jdict) : option jdict :=
  if keys_are raw OFFER_SLOTS_LEGACY_KEYS ||
     keys_are raw (OFFER_SLOTS_LEGACY_KEYS ++ ["client_message_kind"])
  then sanitize_offer_slots_legacy raw
  else if keys_are raw OFFER_SLOTS_NEW_KEYS ||
          keys_are raw (OFFER_SLOTS_NEW_KEYS ++ ["client_message_kind"])
  then sanitize_offer_slots_new_shape raw
  else None.

(** SERVICE_UNAVAILABLE with its one message kind. *)
Definition unavailable_fields (reason : string) : jdict :=
  [ ("booking_action", JStr "SERVICE_UNAVAILABLE"); ("booking_reason", JStr reason);
    ("client_message_kind", JStr "SERVICE_TEMPORARILY_UNAVAILABLE") ].

Definition interrupted_booking_fields : jdict :=
  unavailable_fields "BOOKING_RESOLUTION_INTERRUPTED".

(** The part of [sanitize_booking_result_fields] for the two closed actions. *)
Definition sanitize_closed_action (action : string) (raw : jdict) : jdict :=
  let fields :=
    [ ("booking_action", JStr action);
      ("booking_reason", json_text (allowlisted_reason (pyget raw "booking_reason"))) ] in
  let kind := pyget raw "client_message_kind" in
  if String.eqb action "MANAGER_HANDOFF" then
    match kind with
    | Some (JStr kind) =>
        if str_in kind HANDOFF_MESSAGE_KINDS
        then jset fields "client_message_kind" (JStr kind)
        else interrupted_booking_fields
    | _ => interrupted_booking_fields
    end
  else if is_null kind || is_str kind "SERVICE_TEMPORARILY_UNAVAILABLE"
  then jset fields "client_message_kind" (JStr "SERVICE_TEMPORARILY_UNAVAILABLE")
  else interrupted_booking_fields.

Definition sanitize_booking_result_fields (raw : json) : jdict :=
  match raw with
  | JObj raw =>
      let action := jget raw "booking_action" in
      if is_str action "OFFER_DAYS"
      then default interrupted_booking_fields (sanitize_offer_days_fields raw)
      else if is_str action "OFFER_SLOTS"
      then default interrupted_booking_fields (sanitize_offer_slots_fields raw)
      else if is_str action "MANAGER_HANDOFF"
      then sanitize_closed_action "MANAGER_HANDOFF" raw
      else if is_str action "SERVICE_UNAVAILABLE"
      then sanitize_closed_action "SERVICE_UNAVAILABLE" raw
      else interrupted_booking_fields
  | _ => interrupted_booking_fields
  end.

Definition read_booking_resolution_result (plan_payload : jdict) : option jdict :=
  sanitize_booking_result_fields <$> pyget plan_payload BOOKING_RESOLUTION_RESULT_KEY.

Definition with_booking_resolution_started (plan_payload : jdict) : jdict :=
  jset plan_payload BOOKING_RESOLUTION_STARTED_KEY (JBool true).

Definition with_booking_resolution_result (plan_payload : jdict) (fields : json) : jdict :=
  jset (jset plan_payload BOOKING_RESOLUTION_STARTED_KEY (JBool true))
    BOOKING_RESOLUTION_RESULT_KEY (JObj (sanitize_booking_result_fields fields)).

(** ** Client text *)

Inductive BookingClientMessageKind :=
  | KIND_OFFER_SLOTS | KIND_HANDOFF_DURING_MANAGER_HOURS
  | KIND_HANDOFF_OUTSIDE_MANAGER_HOURS | KIND_SERVICE_TEMPORARILY_UNAVAILABLE.

(** [render_client_message]: the closed table of client texts. *)
Definition render_client_message (kind : BookingClientMessageKind) : string :=
  match kind with
  | KIND_OFFER_SLOTS =>
      "Могу предложить ближайшие свободные окна. Выберите удобное время."
  | KIND_HANDOFF_DURING_MANAGER_HOURS =>
      "Передаю ваш запрос менеджеру. Он скоро свяжется с вами."
  | KIND_HANDOFF_OUTSIDE_MANAGER_HOURS =>
      "Передаю ваш запрос менеджеру. Он свяжется с вами в ближайшее рабочее время."
  | KIND_SERVICE_TEMPORARILY_UNAVAILABLE =>
      "Сейчас не могу завершить запись самостоятельно. Передаю ваш запрос менеджеру."
  end.

Section Render.
Context {E S : Type}.

Definition render_text_for_booking_fields (fields : jdict) : M E S string :=
  let action := jget fields "booking_action" in
  if is_str action "OFFER_SLOTS" then mret (render_client_message KIND_OFFER_SLOTS)
  else if is_str action "SERVICE_UNAVAILABLE"
  then mret (render_client_message KIND_SERVICE_TEMPORARILY_UNAVAILABLE)
  else if is_str action "MANAGER_HANDOFF" then
    let kind := jget fields "client_message_kind" in
    if is_str kind "HANDOFF_DURING_MANAGER_HOURS"
    then mret (render_client_message KIND_HANDOFF_DURING_MANAGER_HOURS)
    else if is_str kind "HANDOFF_OUTSIDE_MANAGER_HOURS"
    then mret (render_client_message KIND_HANDOFF_OUTSIDE_MANAGER_HOURS)
    else raise OutboundReplyTextError "OUTBOUND_REPLY_TEXT_MISSING"
  else if is_str action "OFFER_DAYS"
  then raise OutboundReplyTextError "OUTBOUND_REPLY_TEXT_NOT_RENDERABLE"
  else raise OutboundReplyTextError "OUTBOUND_REPLY_TEXT_MISSING".

Definition base_synthetic_outbound_payload (plan_payload : jdict) : jdict :=
  [ ("schema", JStr "synthetic.outbound.v1");
    ("source_schema", jget_or_null plan_payload "schema");
    ("plan_type", jget_or_null plan_payload "plan_type");
    ("synthetic_token",
      default (JStr "SYNTHETIC_OK") (jget plan_payload "synthetic_token")) ].

(** As the workers call it: [booking_fields] given, or neither it nor
    [booking_flow]. *)
Definition build_synthetic_outbound_payload (plan_payload : jdict)
    (booking_fields : option jdict) : M E S jdict :=
  let payload := base_synthetic_outbound_payload plan_payload in
  match booking_fields with
  | None => raise OutboundReplyTextError "OUTBOUND_REPLY_TEXT_MISSING"
  | Some booking_fields =>
      let resolved_fields := sanitize_booking_result_fields (JObj booking_fields) in
      let payload := jupdate payload resolved_fields in
      try_except
        (text ← render_text_for_booking_fields resolved_fields;
         mret (jset payload "text" (JStr text)))
        (fun exc =>
           bool_decide (exn_class exc = OutboundReplyTextError) &&
           String.eqb (exn_message exc) "OUTBOUND_REPLY_TEXT_NOT_RENDERABLE" &&
           bool_decide (jget resolved_fields "booking_action" = Some (JStr "OFFER_DAYS")))
        (fun _ => mret payload)
  end.
End Render.
