(* ===== verification/VkClient.v ===== *)
(** * The VK client channel: identifiers, webhook, provenance

    src/app/channels/vk_client_types.py, vk_client_webhook.py,
    vk_client_outbound_provenance.py, the gate of
    vk_client_external_takeover_config.py, the predicates of
    vk_client_config.py and the envelopes of src/app/schemas/vk_client_ingress.py.
    Pure functions of decoded JSON, whose numbers are integers here. *)

From S2P Require Import Prelude BookingText Models BookingFields.

(** What the channel calls of Python's libraries: [json.loads] ([None] when it
    raises), the first 32 digits of an HMAC-SHA256 ([key], [material]),
    [isoformat] of a UTC moment and [datetime.fromisoformat]. *)
Class PyLib := {
  json_loads : string -> option json;
  hmac_sha256_hex32 : string -> string -> string;
  isoformat : instant -> string;
  fromisoformat : string -> option instant
}.

(** ** Text helpers *)

(** [" ".join(text.split())]: [pending] when a blank is owed before the next
    word. *)
Fixpoint join_words (started pending : bool) (text : string) : string :=
  match text with
  | EmptyString => ""
  | String c text =>
      if py_isspace c then join_words started started text
      else if pending then String " " (String c (join_words true false text))
      else String c (join_words true false text)
  end.

(** [any(ord(ch) < 32 and ch not in "\t\n\r" for ch in text)] *)
Definition has_control_chars (text : string) : bool :=
  negb (str_forall (fun c =>
    let n := N_of_ascii c in
    negb ((n <? 32) && negb ((n =? 9) || (n =? 10) || (n =? 13)))%N) text).

(** [str.isalnum] on one character of Latin-1. *)
Definition py_isalnum (c : ascii) : bool :=
  char_between 48 57 c || char_between 65 90 c || char_between 97 122 c ||
  char_between 178 179 c || char_between 185 186 c || char_between 188 190 c ||
  char_between 192 214 c || char_between 216 246 c || char_between 248 255 c ||
  char_between 170 170 c || char_between 181 181 c.

(** [value.replace(a, "")...] for one-character [a]s *)
Fixpoint str_without (dropped : ascii -> bool) (s : string) : string :=
  match s with
  | EmptyString => ""
  | String c s => if dropped c then str_without dropped s else String c (str_without dropped s)
  end.

(** [s.isalnum()] *)
Definition str_isalnum (s : string) : bool := negb (String.eqb s "") && str_forall py_isalnum s.

Definition dash_or_underscore (c : ascii) : bool := Ascii.eqb c "-" || Ascii.eqb c "_".

(** [Field(min_length=1, max_length=n)] with [_safe_external_id] *)
Definition safe_external_id (max_length : nat) (value : string) : bool :=
  (1 <=? String.length value)%nat && (String.length value <=? max_length)%nat &&
  str_isalnum (str_without dash_or_underscore value).

(** [Field(min_length=1, max_length=n)] with [_no_control_chars] *)
Definition safe_text (max_length : nat) (text : string) : bool :=
  (1 <=? String.length text)%nat && (String.length text <=? max_length)%nat &&
  negb (has_control_chars text).

(** [hmac.compare_digest] on two strings: equality, on ASCII alone. *)
Definition is_ascii (s : string) : bool := str_forall (fun c => (N_of_ascii c <? 128)%N) s.
Definition compare_digest (a b : string) : result bool :=
  if is_ascii a && is_ascii b then Returned (String.eqb a b)
  else Raised (Exn TypeError
    "comparing strings with non-ASCII characters is not supported").

(** A double quote. *)
Definition dquote : string := String (ascii_of_N 34) "".

(** ** vk_client_types.py *)

Definition VK_CLIENT_TEXT_MAX_LEN : nat := 2000.
Definition VK_CLIENT_ID_MAX_LEN : nat := 128.

Definition vk_client_text_is_ingress_safe (text : string) : bool :=
  if str_blank text then false
  else if (VK_CLIENT_TEXT_MAX_LEN <? String.length text)%nat then false
  else negb (has_control_chars text).

(** [None] is ValueError("INVALID_VK_CLIENT_ID"). *)
Definition vk_client_external_conversation_id (group_id user_id : Z) : option string :=
  if group_id <=? 0 then None
  else if user_id <=? 0 then None
  else
    let value := "vk-" +:+ str_of_int group_id +:+ "-" +:+ str_of_int user_id in
    if (VK_CLIENT_ID_MAX_LEN <? String.length value)%nat then None else Some value.

Definition vk_client_external_event_id (group_id user_id conversation_message_id : Z)
    : option string :=
  if conversation_message_id <=? 0 then None
  else
    base ← vk_client_external_conversation_id group_id user_id;
    let value := base +:+ "-" +:+ str_of_int conversation_message_id in
    if (VK_CLIENT_ID_MAX_LEN <? String.length value)%nat then None else Some value.

Definition vk_client_external_reply_event_id (group_id user_id conversation_message_id : Z)
    : option string :=
  if conversation_message_id <=? 0 then None
  else
    base ← vk_client_external_conversation_id group_id user_id;
    let value := base +:+ "-r-" +:+ str_of_int conversation_message_id in
    if (VK_CLIENT_ID_MAX_LEN <? String.length value)%nat then None else Some value.

(** 9999-12-31T23:59:59Z, the last second [datetime] can hold. *)
Definition MAX_UNIX_TIMESTAMP : Z := 253402300799.

Definition utc_from_unix (ts : option json) : option instant :=
  match ts with
  | Some (JInt ts) =>
      if ts <=? 0 then None
      else if MAX_UNIX_TIMESTAMP <? ts then None
      else Some (seconds ts)
  | _ => None
  end.

(** ** vk_client_outbound_provenance.py *)

Definition VK_OUTBOUND_PROVENANCE_NS : string := "bot_tv.vk_out".
Definition VK_OUTBOUND_PROVENANCE_VERSION : Z := 1.
Definition MAC_HEX_LEN : nat := 32.
Definition OID_LEN : nat := 36.

(** VkReplyProvenanceTechnical, whose [v] and [ns] have one legal value: the
    candidate carries the outbound id and the MAC. *)
Inductive VkReplyProvenanceTechnical :=
  | PROVENANCE_ABSENT
  | PROVENANCE_FOREIGN
  | PROVENANCE_BOT_TV_CANDIDATE (oid mac : string).

(** The candidate's constructor; [None] is its ValueError. *)
Definition make_candidate (v : option json) (ns oid mac : option json)
    : option VkReplyProvenanceTechnical :=
  match v, ns, oid, mac with
  | Some (JInt v), Some (JStr ns), Some (JStr oid), Some (JStr mac) =>
      if negb (v =? VK_OUTBOUND_PROVENANCE_VERSION) then None
      else if negb (String.eqb ns VK_OUTBOUND_PROVENANCE_NS) then None
      else if negb (String.length oid =? OID_LEN)%nat then None
      else if negb (String.length mac =? MAC_HEX_LEN)%nat then None
      else Some (PROVENANCE_BOT_TV_CANDIDATE oid mac)
  | _, _, _, _ => None
  end.

Definition to_envelope_fragment (p : VkReplyProvenanceTechnical) : jdict :=
  match p with
  | PROVENANCE_ABSENT => [("kind", JStr "ABSENT")]
  | PROVENANCE_FOREIGN => [("kind", JStr "FOREIGN")]
  | PROVENANCE_BOT_TV_CANDIDATE oid mac =>
      [ ("kind", JStr "BOT_TV_CANDIDATE"); ("v", JInt VK_OUTBOUND_PROVENANCE_VERSION);
        ("ns", JStr VK_OUTBOUND_PROVENANCE_NS); ("oid", JStr oid); ("mac", JStr mac) ]
  end.

Definition from_envelope_fragment (value : option json) : option VkReplyProvenanceTechnical :=
  match value with
  | Some (JObj value) =>
      let kind_raw := jget value "kind" in
      if is_str kind_raw "ABSENT" then
        if keys_are value ["kind"] then Some PROVENANCE_ABSENT else None
      else if is_str kind_raw "FOREIGN" then
        if keys_are value ["kind"] then Some PROVENANCE_FOREIGN else None
      else if is_str kind_raw "BOT_TV_CANDIDATE" then
        if keys_are value ["kind"; "v"; "ns"; "oid"; "mac"] then
          make_candidate (jget value "v") (jget value "ns") (jget value "oid")
            (jget value "mac")
        else None
      else None
  | _ => None
  end.

(** [s.replace(word, "")] for a word that does not overlap itself; the fuel is
    the length of [s]. *)
Fixpoint str_remove_fuel (fuel : nat) (word s : string) : string :=
  match fuel, s with
  | S fuel, String c rest =>
      if String.prefix word s then str_remove_fuel fuel word (str_drop (String.length word) s)
      else String c (str_remove_fuel fuel word rest)
  | _, _ => s
  end.
Definition str_remove (word s : string) : string := str_remove_fuel (String.length s) word s.

(** The digits of [int(text, 16)]: single underscores may separate digits. *)
Fixpoint hex_number (acc : N) (after_digit : bool) (s : string) : option N :=
  match s with
  | EmptyString => if after_digit then Some acc else None
  | String c s =>
      if Ascii.eqb c "_" then if after_digit then hex_number acc false s else None
      else
        match unhex_digit (lower_char c) with
        | Some d => hex_number (acc * 16 + d)%N true s
        | None => None
        end
  end.

(** [int(text, 16)]: surrounding blanks, a sign and the prefix 0x are allowed. *)
Definition py_int16 (text : string) : option Z :=
  let text := str_strip py_isspace text in
  let '(negative, text) :=
    match text with
    | String "-" text => (true, text)
    | String "+" text => (false, text)
    | text => (false, text)
    end in
  let digits :=
    match text with
    | String "0" (String "x" (String "_" text)) | String "0" (String "X" (String "_" text))
    | String "0" (String "x" text) | String "0" (String "X" text) => text
    | text => text
    end in
  n ← hex_number 0 false digits;
  Some (if negative then (- Z.of_N n)%Z else Z.of_N n).

(** [uuid.UUID(text)]; [None] is its ValueError. *)
Definition py_uuid (text : string) : option uuid :=
  let hex := str_remove "uuid:" (str_remove "urn:" text) in
  let hex := str_without (fun c => Ascii.eqb c "-")
               (str_strip (fun c => Ascii.eqb c "{" || Ascii.eqb c "}") hex) in
  if negb (String.length hex =? 32)%nat then None
  else
    value ← py_int16 hex;
    if (0 <=? value) && (value <? 2 ^ 128) then Some (Z.to_N value) else None.

Definition is_hex_lower (c : ascii) : bool := is_lower_hex c.

Section Provenance.
Context `{PyLib}.

Definition mac_hex (outbound_id : uuid) (provenance_key : string) : string :=
  hmac_sha256_hex32 provenance_key
    (str_of_int VK_OUTBOUND_PROVENANCE_VERSION +:+ ":" +:+ VK_OUTBOUND_PROVENANCE_NS +:+ ":" +:+
     uuid_str outbound_id).

(** [json.dumps(body, separators=(",", ":"), sort_keys=True)] of the marker *)
Definition build_vk_outbound_provenance_payload (outbound_id : uuid) (provenance_key : string)
    : option string :=
  if String.eqb provenance_key "" then None
  else Some (
    "{" +:+ dquote +:+ "mac" +:+ dquote +:+ ":" +:+ dquote +:+ mac_hex outbound_id provenance_key +:+
    dquote +:+ "," +:+ dquote +:+ "ns" +:+ dquote +:+ ":" +:+ dquote +:+
    VK_OUTBOUND_PROVENANCE_NS +:+ dquote +:+ "," +:+ dquote +:+ "oid" +:+ dquote +:+ ":" +:+
    dquote +:+ uuid_str outbound_id +:+ dquote +:+ "," +:+ dquote +:+ "v" +:+ dquote +:+ ":" +:+
    str_of_int VK_OUTBOUND_PROVENANCE_VERSION +:+ "}").

(** [_coerce_payload_object] *)
Definition coerce_payload_object (payload : json) : option jdict :=
  match payload with
  | JObj d => Some d
  | JStr text =>
      if String.eqb text "" || (1000 <? String.length text)%nat then None
      else match json_loads text with Some (JObj d) => Some d | _ => None end
  | _ => None
  end.

(** [version != 1]: [True] equals 1. *)
Definition equals_one (v : option json) : bool :=
  match v with Some (JInt 1) | Some (JBool true) => true | _ => false end.

Definition classify_vk_reply_payload (payload : option json) : VkReplyProvenanceTechnical :=
  match payload with
  | None | Some JNull => PROVENANCE_ABSENT
  | Some payload =>
      match coerce_payload_object payload with
      | None => PROVENANCE_FOREIGN
      | Some obj =>
          if negb (keys_are obj ["v"; "ns"; "oid"; "mac"]) then PROVENANCE_FOREIGN
          else if negb (equals_one (jget obj "v")) then PROVENANCE_FOREIGN
          else if negb (is_str (jget obj "ns") VK_OUTBOUND_PROVENANCE_NS)
          then PROVENANCE_FOREIGN
          else
            match jget obj "oid", jget obj "mac" with
            | Some (JStr oid_raw), Some (JStr mac_raw) =>
                if negb (String.length oid_raw =? OID_LEN)%nat then PROVENANCE_FOREIGN
                else if is_null (py_uuid oid_raw) then PROVENANCE_FOREIGN
                else if negb (String.length mac_raw =? MAC_HEX_LEN)%nat
                then PROVENANCE_FOREIGN
                else if negb (str_forall is_hex_lower (str_lower mac_raw))
                then PROVENANCE_FOREIGN
                else PROVENANCE_BOT_TV_CANDIDATE oid_raw (str_lower mac_raw)
            | _, _ => PROVENANCE_FOREIGN
            end
      end
  end.

Definition verify_vk_outbound_provenance_technical (technical : VkReplyProvenanceTechnical)
    (provenance_key : string) : result (option uuid) :=
  if String.eqb provenance_key "" then Returned None
  else
    match technical with
    | PROVENANCE_BOT_TV_CANDIDATE oid mac =>
        match py_uuid oid with
        | None => Returned None
        | Some outbound_id =>
            match compare_digest (str_lower mac) (mac_hex outbound_id provenance_key) with
            | Returned true => Returned (Some outbound_id)
            | Returned false => Returned None
            | Raised e => Raised e
            end
        end
    | _ => Returned None
    end.

Definition verify_vk_outbound_provenance_payload (payload : option json)
    (provenance_key : string) : result (option uuid) :=
  verify_vk_outbound_provenance_technical (classify_vk_reply_payload payload) provenance_key.
End Provenance.

(** ** vk_client_external_takeover_config.py *)

Inductive VkClientExternalTakeoverMode := TAKEOVER_OFF | TAKEOVER_ALLOWLIST | TAKEOVER_ALL.

Record VkClientExternalTakeoverConfig := MkVkClientExternalTakeoverConfig {
  vet_mode : VkClientExternalTakeoverMode;
  vet_allowlist : list string;
  vet_provenance_key : option string
}.

Definition fsm_mutation_allowed (config : VkClientExternalTakeoverConfig)
    (external_conversation_id : string) : bool :=
  match vet_mode config with
  | TAKEOVER_OFF => false
  | _ =>
      if String.eqb external_conversation_id "" then false
      else
        match vet_mode config with
        | TAKEOVER_ALL => true
        | _ => str_in external_conversation_id (vet_allowlist config)
        end
  end.

(** ** vk_client_webhook.py *)

Record VkClientCallbackConfig := MkVkClientCallbackConfig {
  vcc_enabled : bool;
  vcc_group_id : option Z;
  vcc_callback_secret : option string;
  vcc_confirmation : option string
}.

Definition callback_config_complete (config : VkClientCallbackConfig) : bool :=
  (match vcc_group_id config with Some g => 0 <? g | None => false end) &&
  (match vcc_callback_secret config with Some s => negb (String.eqb s "") | None => false end) &&
  (match vcc_confirmation config with Some s => negb (String.eqb s "") | None => false end).

Record VkClientNormalizedMessage := MkVkClientNormalizedMessage {
  vnm_from_id : Z;
  vnm_peer_id : Z;
  vnm_text : string;
  vnm_conversation_message_id : Z;
  vnm_occurred_at : instant;
  vnm_group_id : Z
}.

(** [__post_init__]: the fields have their types by construction. *)
Definition make_normalized_message (m : VkClientNormalizedMessage)
    : option VkClientNormalizedMessage :=
  if vnm_from_id m <=? 0 then None
  else if vnm_peer_id m <=? 0 then None
  else if negb (vnm_from_id m =? vnm_peer_id m) then None
  else if negb (vk_client_text_is_ingress_safe (vnm_text m)) then None
  else if vnm_conversation_message_id m <=? 0 then None
  else if vnm_group_id m <=? 0 then None
  else Some m.

Record VkClientNormalizedMessageReply := MkVkClientNormalizedMessageReply {
  vnr_group_id : Z;
  vnr_peer_id : Z;
  vnr_conversation_message_id : Z;
  vnr_provider_message_id : Z;
  vnr_occurred_at : instant;
  vnr_random_id : option Z;
  vnr_provenance : VkReplyProvenanceTechnical
}.

Definition make_normalized_message_reply (r : VkClientNormalizedMessageReply)
    : option VkClientNormalizedMessageReply :=
  if vnr_group_id r <=? 0 then None
  else if vnr_peer_id r <=? 0 then None
  else if vnr_conversation_message_id r <=? 0 then None
  else if vnr_provider_message_id r <=? 0 then None
  else if (match vnr_random_id r with Some z => z <? 0 | None => false end) then None
  else Some r.

Inductive VkClientWebhookResult :=
  | WEBHOOK_CONFIRMATION (response : string)
  | WEBHOOK_MESSAGE (message : VkClientNormalizedMessage)
  | WEBHOOK_MESSAGE_REPLY (reply : VkClientNormalizedMessageReply)
  | WEBHOOK_IGNORED
  | WEBHOOK_REJECTED.

(** [value in (0, False)] and [value in (1, True)] *)
Definition equals_zero (v : option json) : bool :=
  match v with Some (JInt 0) | Some (JBool false) => true | _ => false end.

(** [type(value) is int and value > 0] *)
Definition positive_int (v : option json) : option Z :=
  match v with Some (JInt z) => if z <=? 0 then None else Some z | _ => None end.

(** [value is not None] *)
Definition present (v : option json) : bool :=
  match v with Some JNull | None => false | Some _ => true end.

(** [_extract_private_message] *)
Definition extract_private_message (obj : option json) (group_id : Z)
    : option VkClientNormalizedMessage :=
  match obj with
  | Some (JObj obj) =>
      match jget obj "message" with
      | Some (JObj message) =>
          if negb (equals_zero (jget message "out")) then None
          else if present (jget message "action") then None
          else
            from_id ← positive_int (jget message "from_id");
            peer_id ← positive_int (jget message "peer_id");
            if negb (from_id =? peer_id) then None
            else
              match jget message "text" with
              | Some (JStr text) =>
                  let cleaned := join_words false false text in
                  if negb (vk_client_text_is_ingress_safe cleaned) then None
                  else
                    cmid ← positive_int (jget message "conversation_message_id");
                    occurred ← utc_from_unix (jget message "date");
                    make_normalized_message
                      (MkVkClientNormalizedMessage from_id peer_id cleaned cmid occurred
                         group_id)
              | _ => None
              end
      | _ => None
      end
  | _ => None
  end.

(** The random id of a reply: absent, or a natural number; [None] ends the
    parse. *)
Definition reply_random_id (v : option json) : option (option Z) :=
  match v with
  | None | Some JNull => Some None
  | Some (JInt z) => if 0 <=? z then Some (Some z) else None
  | _ => None
  end.

Section Webhook.
Context `{PyLib}.

(** [_extract_private_message_reply] *)
Definition extract_private_message_reply (obj : option json) (group_id : Z)
    : option VkClientNormalizedMessageReply :=
  match obj with
  | Some (JObj obj) =>
      let message := match jget obj "message" with Some (JObj nested) => nested | _ => obj end in
      if negb (equals_one (jget message "out")) then None
      else if present (jget message "action") then None
      else
        match jget message "from_id" with
        | Some (JInt from_id) =>
            peer_id ← positive_int (jget message "peer_id");
            if negb (from_id =? - group_id) then None
            else if 2000000000 <=? peer_id then None
            else
              cmid ← positive_int (jget message "conversation_message_id");
              provider_id ← positive_int (jget message "id");
              occurred ← utc_from_unix (jget message "date");
              random_value ← reply_random_id (jget message "random_id");
              make_normalized_message_reply
                (MkVkClientNormalizedMessageReply group_id peer_id cmid provider_id occurred
                   random_value (classify_vk_reply_payload (jget message "payload")))
        | _ => None
        end
  | _ => None
  end.

(** The body of the request: already decoded, text, or bytes with their UTF-8
    decoding ([None] when that raises). *)
Inductive CallbackBody :=
  | BodyDict (d : jdict) | BodyText (s : string) | BodyBytes (decoded : option string)
  | BodyOther.

(** [_coerce_object] *)
Definition coerce_object (body : CallbackBody) : option jdict :=
  let of_text s := match json_loads s with Some (JObj d) => Some d | _ => None end in
  match body with
  | BodyDict d => Some d
  | BodyText s | BodyBytes (Some s) => of_text s
  | _ => None
  end.

(** What follows the authentication of the callback. *)
Definition parse_authenticated_callback (payload : jdict) (config : VkClientCallbackConfig)
    : VkClientWebhookResult :=
  match jget payload "group_id" with
  | Some (JInt group_id) =>
      if negb (sql_eq (vcc_group_id config) group_id) then WEBHOOK_REJECTED
      else
        match jget payload "type" with
        | Some (JStr event_type) =>
            if String.eqb event_type "" then WEBHOOK_REJECTED
            else if String.eqb event_type "confirmation" then
              WEBHOOK_CONFIRMATION (default "" (vcc_confirmation config))
            else if String.eqb event_type "message_reply" then
              match extract_private_message_reply (jget payload "object") group_id with
              | None => WEBHOOK_IGNORED
              | Some reply => WEBHOOK_MESSAGE_REPLY reply
              end
            else if negb (String.eqb event_type "message_new") then WEBHOOK_IGNORED
            else
              match extract_private_message (jget payload "object") group_id with
              | None => WEBHOOK_IGNORED
              | Some message => WEBHOOK_MESSAGE message
              end
        | _ => WEBHOOK_REJECTED
        end
  | _ => WEBHOOK_REJECTED
  end.

Definition parse_vk_client_callback (body : CallbackBody) (config : VkClientCallbackConfig)
    : result VkClientWebhookResult :=
  if negb (callback_config_complete config) then Returned WEBHOOK_REJECTED
  else
    match coerce_object body with
    | None => Returned WEBHOOK_REJECTED
    | Some payload =>
        match jget payload "secret" with
        | Some (JStr secret) =>
            match compare_digest secret (default "" (vcc_callback_secret config)) with
            | Raised e => Raised e
            | Returned false => Returned WEBHOOK_REJECTED
            | Returned true => Returned (parse_authenticated_callback payload config)
            end
        | _ => Returned WEBHOOK_REJECTED
        end
    end.
End Webhook.
