(* ===== verification/BookingCreate.v ===== *)
(** * Creating a booking

    src/app/core/booking_create_remote.py: the request and the success of the
    booking service's create call; src/app/core/booking_create_http.py: the one
    POST that makes it; and the part of src/app/services/booking_flow.py that
    confirms a selected slot.  The computations run in any monad of the family
    [M], so the same code runs inside a database transaction. *)

From S2P Require Import Prelude BookingText Models BookingFields VkClient.
From Stdlib Require QArith.QArith_base.

(** ** The request: booking_create_remote.py *)

Definition MIN_CLIENT_NAME_LENGTH : nat := 2.
Definition MAX_CLIENT_NAME_LENGTH : nat := 256.
Definition MIN_PHONE_DIGITS : nat := 10.
Definition MAX_PHONE_DIGITS : nat := 15.

Definition require_canonical_client_ref (value : string) : option string :=
  if String.eqb value "" || unclean value then None
  else if negb (String.eqb value (str_lower value)) then None
  else if negb (Nat.eqb (String.length value) 36) || negb (canonical_uuid value) then None
  else require_canonical_backend_uuid value.

Definition require_canonical_booking_id (value : option json) : option string :=
  match value with
  | Some (JStr value) =>
      if String.eqb value "" || negb (String.eqb value (str_lower value)) then None
      else require_canonical_backend_uuid value
  | _ => None
  end.

Definition require_confirmed_client_name (value : string) : option string :=
  if contains_control_chars value then None
  else
    let normalized := join_words false false value in
    if (String.length normalized <? MIN_CLIENT_NAME_LENGTH)%nat ||
       (MAX_CLIENT_NAME_LENGTH <? String.length normalized)%nat
    then None else Some normalized.

(** [str.isdigit] on one character of Latin-1. *)
Definition py_isdigit (c : ascii) : bool :=
  is_digit c || char_between 178 179 c || char_between 185 185 c.

Fixpoint phone_digit_count (phone : string) : nat :=
  match phone with
  | EmptyString => 0
  | String c phone => (if py_isdigit c then 1 else 0) + phone_digit_count phone
  end.

(** [^\+\d+$] *)
Definition phone_e164 (phone : string) : bool :=
  match phone with
  | String c digits => Ascii.eqb c "+" && negb (String.eqb digits "") && str_forall is_digit digits
  | EmptyString => false
  end.

Definition require_confirmed_phone (value : string) : option string :=
  if contains_control_chars value then None
  else
    let phone := str_strip py_isspace value in
    if String.eqb phone "" || negb (str_forall (fun c => negb (py_isspace c)) phone) then None
    else
      let digits := phone_digit_count phone in
      if (digits <? MIN_PHONE_DIGITS)%nat || (MAX_PHONE_DIGITS <? digits)%nat then None
      else if negb (phone_e164 phone) then None
      else Some phone.

(** Both consent fields are the literal [True]. *)
Record BookingCreateRemoteRequest := MkBookingCreateRemoteRequest {
  bcr_idempotency_key : string;
  bcr_slot_id : string;
  bcr_client_name : string;
  bcr_phone : string;
  bcr_client_ref : option string
}.

(** [BookingCreateRemoteRequest.to_json_object] *)
Definition create_json_object (request : BookingCreateRemoteRequest) : jdict :=
  [ ("idempotencyKey", JStr (bcr_idempotency_key request));
    ("slotId", JStr (bcr_slot_id request));
    ("clientName", JStr (bcr_client_name request));
    ("phone", JStr (bcr_phone request));
    ("personalDataConsent", JBool true);
    ("offerAcknowledgement", JBool true) ] ++
  match bcr_client_ref request with
  | Some client_ref => [("clientRef", JStr client_ref)]
  | None => []
  end.

Definition build_booking_create_remote_request
    (idempotency_key slot_id client_name phone : string)
    (personal_data_consent offer_acknowledgement : bool) (client_ref : option string)
    : option BookingCreateRemoteRequest :=
  if negb personal_data_consent then None
  else if negb offer_acknowledgement then None
  else
    key ← require_canonical_idempotency_key idempotency_key;
    _ ← parse_bot_slot_id slot_id;
    name ← require_confirmed_client_name client_name;
    phone_value ← require_confirmed_phone phone;
    match client_ref with
    | Some client_ref =>
        canonical_client_ref ← require_canonical_client_ref client_ref;
        Some (MkBookingCreateRemoteRequest key slot_id name phone_value
                (Some canonical_client_ref))
    | None => Some (MkBookingCreateRemoteRequest key slot_id name phone_value None)
    end.

(** ** The answer *)

Record BookingCreateRemoteSuccess := MkBookingCreateRemoteSuccess {
  bcs_booking_id : string;
  bcs_slot_id : string;
  bcs_starts_at : string;
  bcs_idempotent_replay : bool
}.

Definition SUCCESS_JSON_KEYS : list string :=
  ["ok"; "bookingId"; "slotId"; "status"; "startsAt"; "idempotentReplay"]%string.

(** [set(raw) == keys] *)
Definition has_exactly_keys (raw : jdict) (keys : list string) : bool :=
  forallb (fun member => bool_decide (fst member ∈ keys)) raw &&
  forallb (fun key => is_not_null (jget raw key)) keys.

Definition parse_booking_create_success_payload (raw : json)
    (request : BookingCreateRemoteRequest) : option BookingCreateRemoteSuccess :=
  match raw with
  | JObj raw =>
      if negb (has_exactly_keys raw SUCCESS_JSON_KEYS) then None
      else if negb (bool_decide (jget raw "ok" = Some (JBool true))) then None
      else if negb (bool_decide (jget raw "status" = Some (JStr "SCHEDULED"))) then None
      else
        match jget raw "idempotentReplay" with
        | Some (JBool idempotent_replay) =>
            booking_id ← require_canonical_booking_id (jget raw "bookingId");
            match jget raw "startsAt", jget raw "slotId" with
            | Some (JStr starts_at), Some (JStr slot_id) =>
                starts_at ← require_canonical_booking_starts_at starts_at;
                slot_parts ← parse_bot_slot_id slot_id;
                expected_starts ← expected_canonical_starts_at_from_slot_parts slot_parts;
                if negb (String.eqb slot_id (bcr_slot_id request)) then None
                else if negb (String.eqb starts_at expected_starts) then None
                else Some (MkBookingCreateRemoteSuccess booking_id slot_id starts_at
                             idempotent_replay)
            | _, _ => None
            end
        | _ => None
        end
  | _ => None
  end.

(** ** Slots with a start time *)

(** An aware datetime, as its wall clock at the studio's offset +05:00: the minute
    and the microseconds within it.  The wall clock of a datetime in another zone
    can lie outside Python's calendar, in the years 0 and 10000. *)
Record StudioTime := MkStudioTime {
  st_year : Z; st_month : Z; st_day : Z; st_hour : Z; st_minute : Z; st_micros : Z
}.

(** What [datetime.fromisoformat] makes of a canonical start time, and
    [_parse_studio_starts_at]. *)

Definition parse_studio_starts_at (canonical : string) : StudioTime :=
  MkStudioTime (digits_value 0 (str_slice 0 4 canonical))
    (digits_value 0 (str_slice 5 7 canonical)) (digits_value 0 (str_slice 8 10 canonical))
    (digits_value 0 (str_slice 11 13 canonical)) (digits_value 0 (str_slice 14 16 canonical)) 0.

(** [f"{n:0{width}d}"] of a number that has at most [width] digits. *)
Fixpoint padded (width : nat) (n : Z) : string :=
  match width with
  | O => ""
  | S width => padded width (n / 10) +:+ String (ascii_of_N (Z.to_N (48 + n mod 10))) ""
  end.

(** [astimezone] goes through UTC and raises when either clock leaves the years 1
    to 9999; the first five hours of year 1 have no UTC time. *)
Definition outside_calendar (t : StudioTime) : bool :=
  (st_year t <? 1) || (9999 <? st_year t) ||
  ((st_year t =? 1) && (st_month t =? 1) && (st_day t =? 1) && (st_hour t <? 5)).

Record AvailableSlot := MkAvailableSlot {
  avs_slot_id : string;
  avs_starts_at : StudioTime;
  avs_master_id : string;
  avs_service_id : string
}.

Inductive BookingCreateMachineOutcome :=
  | BOOKING_CONFIRMED | SLOT_RESELECT_REQUIRED | RETRY_LATER | BOOKING_MANAGER_HANDOFF
  | BOOKING_SERVICE_UNAVAILABLE | BOOKING_FAIL_CLOSED.

#[export] Instance BookingCreateMachineOutcome_eq_dec : EqDecision BookingCreateMachineOutcome.
Proof. solve_decision. Defined.

Inductive BookingCreateApplicationResult :=
  | BookingCreateConfirmedResult (booking_id slot_id : string) (starts_at : StudioTime)
      (idempotent_replay : bool) (idempotency_key : string)
  | BookingCreateRejectedResult (outcome : BookingCreateMachineOutcome)
      (internal_reason_code idempotency_key : string).

(** ** The POST: booking_create_http.py *)

Definition MAX_BOOKING_CREATE_REQUEST_BYTES : nat := 4096.
Definition BOOKINGS_ROUTE_PATH : string := "/api/internal/bot/v1/bookings".

Definition REMOTE_ERROR_CODE_BY_STATUS (status_code : Z) : list string :=
  if status_code =? 400 then
    ["VALIDATION_ERROR"; "SLOT_INVALID"; "SERVICE_UNAVAILABLE"; "MASTER_UNAVAILABLE";
     "SERVICE_MASTER_MISMATCH"; "BOOKING_REQUEST_INVALID"]
  else if status_code =? 401 then ["UNAUTHORIZED"]
  else if status_code =? 409 then
    ["IDEMPOTENCY_CONFLICT"; "IDEMPOTENCY_IN_PROGRESS"; "SLOT_NO_LONGER_AVAILABLE";
     "CLIENT_AMBIGUOUS"; "BOOKING_REQUEST_CONFLICT"; "BOOKING_CONFLICT"]
  else if status_code =? 413 then ["PAYLOAD_TOO_LARGE"]
  else if status_code =? 429 then ["RATE_LIMITED"]
  else if status_code =? 500 then ["INTERNAL_ERROR"]
  else [].

(** What the adapter calls of Python's libraries: [json.dumps] and UTF-8 (none
    when they raise), UTF-8 and [json.loads], [urlsplit] with the attributes of
    its result ([su_port] is none when [.port] raises). *)
Record SplitUrl := MkSplitUrl {
  su_scheme : string;
  su_hostname : option string;
  su_username : option string;
  su_password : option string;
  su_port : option (option Z);
  su_path : string;
  su_query : string;
  su_fragment : string
}.

Class WireLib := {
  json_dumps_utf8 : jdict -> option string;
  json_loads_utf8 : string -> option json;
  urlsplit : string -> option SplitUrl
}.

Definition urlsplit_path `{WireLib} (url : string) : option string := su_path <$> urlsplit url.

Record BookingEligibilityHttpConfig := MkBookingEligibilityHttpConfig {
  bec_base_url : string;
  bec_bearer_token : string;
  bec_timeout_seconds : QArith_base.Q;
  bec_max_response_bytes : Z
}.

Record S2sHttpRequest := MkS2sHttpRequest {
  s2s_method : string;
  s2s_url : string;
  s2s_headers : list (string * string);
  s2s_body : string;
  s2s_timeout_seconds : QArith_base.Q;
  s2s_allow_redirects : bool;
  s2s_max_response_bytes : Z
}.

Record S2sHttpResponse := MkS2sHttpResponse {
  s2r_status_code : Z;
  s2r_headers : list (string * string);
  s2r_body : string
}.

(** What one exchange of the transport comes to: a response, an
    [S2sHttpTransportError] with its code, another exception. *)
Inductive S2sReply :=
  | S2sResponse (response : S2sHttpResponse)
  | S2sTransportError (code : string)
  | S2sException.

(** [_header_value] *)
Definition header_value (headers : list (string * string)) (name : string) : option string :=
  snd <$> head (filter (fun h => str_lower (fst h) = str_lower name) headers).

(** [_content_type_is_json] *)
Definition content_type_is_json (content_type : option string) : bool :=
  match content_type with
  | Some content_type =>
      negb (String.eqb content_type "") &&
      String.eqb (str_lower (str_strip py_isspace (hd "" (str_split ";"%char content_type))))
        "application/json"
  | None => false
  end.

Section Adapter.
Context {E S : Type} `{WireLib}.
Context (transport : S2sHttpRequest -> M E S S2sReply) (config : BookingEligibilityHttpConfig).

(** [_fail] *)
Definition create_failed {A} (code : string) : M E S A := raise BookingCreateHttpError code.

(** [_map_error_envelope]; the adapter's code for a remote code is the same. *)
Definition map_error_envelope (status_code : Z) (body : string) : string :=
  let allowed_codes := REMOTE_ERROR_CODE_BY_STATUS status_code in
  if bool_decide (allowed_codes = []) || String.eqb body "" then "REMOTE_REJECTED"
  else
    match json_loads_utf8 body with
    | Some (JObj payload) =>
        if negb (bool_decide (jget payload "ok" = Some (JBool false))) then "REMOTE_REJECTED"
        else
          match jget payload "code" with
          | Some (JStr remote_code) =>
              if bool_decide (remote_code ∈ allowed_codes) then remote_code
              else "REMOTE_REJECTED"
          | _ => "REMOTE_REJECTED"
          end
    | _ => "REMOTE_REJECTED"
    end.

Definition encode_booking_create_request_body (body_object : jdict) : M E S string :=
  match json_dumps_utf8 body_object with
  | None => create_failed "CONFIG_INVALID"
  | Some body =>
      if (MAX_BOOKING_CREATE_REQUEST_BYTES <? String.length body)%nat
      then create_failed "REQUEST_INVALID" else mret body
  end.

(** [_interpret_success_response] *)
Definition interpret_success_response (response : S2sHttpResponse) (max_bytes : Z)
    : M E S json :=
  if max_bytes <? Z.of_nat (String.length (s2r_body response))
  then create_failed "RESPONSE_TOO_LARGE"
  else if negb (s2r_status_code response =? 200)
  then create_failed (map_error_envelope (s2r_status_code response) (s2r_body response))
  else if negb (content_type_is_json (header_value (s2r_headers response) "Content-Type"))
  then create_failed "RESPONSE_INVALID"
  else if String.eqb (s2r_body response) "" then create_failed "RESPONSE_INVALID"
  else
    match json_loads_utf8 (s2r_body response) with
    | Some payload => mret payload
    | None => create_failed "RESPONSE_INVALID"
    end.

Definition bookings_url : string := bec_base_url config +:+ BOOKINGS_ROUTE_PATH.

Definition post_request (body : string) : S2sHttpRequest := {|
  s2s_method := "POST";
  s2s_url := bookings_url;
  s2s_headers :=
    [ ("Authorization", "Bearer " +:+ bec_bearer_token config);
      ("Content-Type", "application/json"); ("Accept", "application/json") ]%string;
  s2s_body := body;
  s2s_timeout_seconds := bec_timeout_seconds config;
  s2s_allow_redirects := false;
  s2s_max_response_bytes := bec_max_response_bytes config
|}.

(** [_post_create] *)
Definition post_create (request : BookingCreateRemoteRequest)
    : M E S BookingCreateRemoteSuccess :=
  if negb (String.prefix "http://" bookings_url || String.prefix "https://" bookings_url)
  then create_failed "CONFIG_INVALID"
  else if negb (bool_decide (urlsplit_path bookings_url = Some BOOKINGS_ROUTE_PATH))
  then create_failed "CONFIG_INVALID"
  else
    body ← encode_booking_create_request_body (create_json_object request);
    reply ← transport (post_request body);
    match reply with
    | S2sTransportError code =>
        if String.eqb code "TIMEOUT" then create_failed "TIMEOUT"
        else if String.eqb code "RESPONSE_TOO_LARGE" then create_failed "RESPONSE_TOO_LARGE"
        else create_failed "TRANSPORT_ERROR"
    | S2sException => create_failed "TRANSPORT_ERROR"
    | S2sResponse response =>
        payload ← interpret_success_response response (bec_max_response_bytes config);
        match parse_booking_create_success_payload payload request with
        | Some parsed => mret parsed
        | None => create_failed "RESPONSE_INVALID"
        end
    end.

(** [BookingCreateHttpClient.create_booking] *)
Definition create_booking (idempotency_key slot_id client_name phone : string)
    (personal_data_consent offer_acknowledgement : bool) (client_ref : option string)
    : M E S BookingCreateRemoteSuccess :=
  match build_booking_create_remote_request idempotency_key slot_id client_name phone
          personal_data_consent offer_acknowledgement client_ref with
  | None => create_failed "REQUEST_INVALID"
  | Some request => post_create request
  end.
End Adapter.

(** ** Confirming a slot: booking_flow.py *)

Definition CREATE_RETRY_LATER_CODES : list string :=
  ["RATE_LIMITED"; "IDEMPOTENCY_IN_PROGRESS"; "INTERNAL_ERROR"; "TIMEOUT"; "TRANSPORT_ERROR";
   "RESPONSE_TOO_LARGE"]%string.
Definition CREATE_SLOT_RESELECT_CODES : list string :=
  ["SLOT_NO_LONGER_AVAILABLE"; "BOOKING_CONFLICT"]%string.
Definition CREATE_SERVICE_UNAVAILABLE_CODES : list string :=
  ["SERVICE_UNAVAILABLE"; "MASTER_UNAVAILABLE"]%string.
Definition CREATE_MANAGER_HANDOFF_CODES : list string := ["CLIENT_AMBIGUOUS"]%string.

(** [_map_create_http_error] *)
Definition map_create_http_error (code idempotency_key : string)
    : BookingCreateApplicationResult :=
  let rejected outcome := BookingCreateRejectedResult outcome code idempotency_key in
  if bool_decide (code ∈ CREATE_RETRY_LATER_CODES) then rejected RETRY_LATER
  else if bool_decide (code ∈ CREATE_SLOT_RESELECT_CODES) then rejected SLOT_RESELECT_REQUIRED
  else if bool_decide (code ∈ CREATE_MANAGER_HANDOFF_CODES) then rejected BOOKING_MANAGER_HANDOFF
  else if bool_decide (code ∈ CREATE_SERVICE_UNAVAILABLE_CODES)
  then rejected BOOKING_SERVICE_UNAVAILABLE
  else rejected BOOKING_FAIL_CLOSED.

(** The key reported when the caller's is not one. *)
Definition NO_IDEMPOTENCY_KEY : string := "00000000-0000-4000-8000-000000000000".

Section Confirm.
Context {E S : Type}.

Definition format_canonical_booking_starts_at (value : StudioTime) : M E S (option string) :=
  if outside_calendar value then raise OverflowError "date value out of range"
  else
    mret (
      if negb (st_micros value =? 0) then None
      else require_canonical_booking_starts_at
        (padded 4 (st_year value) +:+ "-" +:+ padded 2 (st_month value) +:+ "-" +:+
         padded 2 (st_day value) +:+ "T" +:+ padded 2 (st_hour value) +:+ ":" +:+
         padded 2 (st_minute value) +:+ ":00+05:00")).

Definition assert_success_matches_available_slot (success : BookingCreateRemoteSuccess)
    (slot : AvailableSlot) : M E S bool :=
  if negb (String.eqb (bcs_slot_id success) (avs_slot_id slot)) then mret false
  else
    expected_starts ← format_canonical_booking_starts_at (avs_starts_at slot);
    mret (bool_decide (expected_starts = Some (bcs_starts_at success)) &&
      match parse_bot_slot_id (avs_slot_id slot) with
      | Some parsed =>
          String.eqb (bsp_service_id parsed) (avs_service_id slot) &&
          String.eqb (bsp_master_id parsed) (avs_master_id slot)
      | None => false
      end).

(** [BookingCreatePort.create_booking] *)
Definition BookingCreatePort : Type :=
  string -> string -> string -> string -> bool -> bool -> option string ->
  M E S BookingCreateRemoteSuccess.

(** The [try] block that checks the slot and builds the request. *)
Definition request_for_slot (slot : AvailableSlot) (key client_name phone : string)
    (client_ref : option string) : M E S (option BookingCreateRemoteRequest) :=
  match parse_bot_slot_id (avs_slot_id slot) with
  | None => mret None
  | Some parsed_slot =>
      expected_starts ← format_canonical_booking_starts_at (avs_starts_at slot);
      mret (
        expected_starts ← expected_starts;
        if negb (String.eqb (bsp_service_id parsed_slot) (avs_service_id slot)) then None
        else if negb (String.eqb (bsp_master_id parsed_slot) (avs_master_id slot)) then None
        else if negb (String.eqb (str_slice 0 10 expected_starts) (bsp_date_key parsed_slot))
        then None
        else if negb (String.eqb (str_slice 11 16 expected_starts) (bsp_start_time parsed_slot))
        then None
        else build_booking_create_remote_request key (avs_slot_id slot) client_name phone
               true true client_ref)
  end.

Definition confirm_selected_slot (create_client : option BookingCreatePort)
    (slot : AvailableSlot) (idempotency_key client_name phone : string)
    (personal_data_consent offer_acknowledgement : bool) (client_ref : option string)
    : M E S BookingCreateApplicationResult :=
  let rejected key reason := BookingCreateRejectedResult BOOKING_FAIL_CLOSED reason key in
  match require_canonical_idempotency_key idempotency_key with
  | None => mret (rejected NO_IDEMPOTENCY_KEY "REQUEST_INVALID")
  | Some key =>
      if negb (personal_data_consent && offer_acknowledgement)
      then mret (rejected key "REQUEST_INVALID")
      else
        remote_request ← request_for_slot slot key client_name phone client_ref;
        match remote_request, create_client with
        | None, _ => mret (rejected key "REQUEST_INVALID")
        | Some _, None => mret (rejected key "CONFIG_INVALID")
        | Some remote_request, Some create_booking =>
            created ← try_except
              (remote ← create_booking (bcr_idempotency_key remote_request)
                 (bcr_slot_id remote_request) (bcr_client_name remote_request)
                 (bcr_phone remote_request) true true (bcr_client_ref remote_request);
               mret (inl remote))
              (fun _ => true)
              (fun exc =>
                 mret (inr (if bool_decide (exn_class exc = BookingCreateHttpError)
                            then map_create_http_error (exn_message exc) key
                            else rejected key "UNEXPECTED_ERROR")));
            match created with
            | inr refused => mret refused
            | inl remote =>
                matches ← assert_success_matches_available_slot remote slot;
                if negb matches ||
                   is_null (require_canonical_booking_starts_at (bcs_starts_at remote)) ||
                   String.eqb (bcs_booking_id remote) ""
                then mret (rejected key "RESPONSE_INVALID")
                else
                  mret (BookingCreateConfirmedResult (bcs_booking_id remote)
                    (bcs_slot_id remote) (parse_studio_starts_at (bcs_starts_at remote))
                    (bcs_idempotent_replay remote) key)
            end
        end
  end.

(** ** With the client's identity: app/core/client_ref_resolution.py *)

Inductive ClientRefResolutionOutcome :=
  | CLIENT_REF_FOUND (client_ref : string)
  | CLIENT_REF_NOT_FOUND
  | CLIENT_REF_REFUSED (reason_code : string)
  | CLIENT_REF_INVALID_INPUT (error_code : string).

(** [_client_ref_resolution_reason] *)
Definition client_ref_resolution_reason (result : ClientRefResolutionOutcome) : string :=
  let or_else s alternative := if String.eqb s "" then alternative else s in
  match result with
  | CLIENT_REF_NOT_FOUND => "CLIENT_REF_NOT_FOUND"
  | CLIENT_REF_REFUSED reason_code => or_else reason_code "CLIENT_REF_REFUSED"
  | CLIENT_REF_INVALID_INPUT error_code => or_else error_code "CLIENT_REF_INVALID"
  | CLIENT_REF_FOUND _ => "CLIENT_REF_INVALID"
  end%string.

Definition confirm_selected_slot_for_conversation (create_client : option BookingCreatePort)
    (resolve_for_conversation : uuid -> M E S ClientRefResolutionOutcome)
    (slot : AvailableSlot) (conversation_id : uuid)
    (idempotency_key client_name phone : string)
    (personal_data_consent offer_acknowledgement : bool)
    : M E S BookingCreateApplicationResult :=
  resolution ← resolve_for_conversation conversation_id;
  match resolution with
  | CLIENT_REF_FOUND client_ref =>
      confirm_selected_slot create_client slot idempotency_key client_name phone
        personal_data_consent offer_acknowledgement (Some client_ref)
  | _ =>
      let key := default NO_IDEMPOTENCY_KEY
        (require_canonical_idempotency_key idempotency_key) in
      mret (BookingCreateRejectedResult BOOKING_FAIL_CLOSED
              (client_ref_resolution_reason resolution) key)
  end.
End Confirm.
Arguments BookingCreatePort : clear implicits.
