(* ===== verification/PiiAdmission.v ===== *)
(** * Admission of personal data for a booking

    src/app/core/identity_resolution.py ([normalize_phone_e164]),
    pii_admission_mac_keys.py, pii_admission_mac.py,
    self_booking_pii_admission_types.py,
    src/app/repositories/self_booking_pii_admissions.py and
    src/app/services/self_booking_pii_admission.py: a phone and a name are
    canonicalised and authenticated, stored encrypted, and the references are
    recorded under the request; a repeated request finds its references again or
    is refused. *)

From S2P Require Import Prelude BookingText Encodings Models Database EphemeralPii BookingFields.
From S2P Require Import VkClient BookingCreate SelfBooking.
Import SelfBookingCreatePendingService.

(** ** normalize_phone_e164 *)

Fixpoint str_filter (p : ascii -> bool) (s : string) : string :=
  match s with
  | EmptyString => EmptyString
  | String c s => if p c then String c (str_filter p s) else str_filter p s
  end.

Definition allowed_noise (c : ascii) : bool :=
  is_char "+" c || is_char "-" c || is_char "(" c || is_char ")" c || is_char "." c ||
  is_char " " c.

(** [_E164_RE] *)
Definition e164_re (candidate : string) : bool :=
  match candidate with
  | String plus (String first rest) =>
      is_char "+" plus && char_between 49 57 first && str_forall is_digit rest &&
      (9 <=? String.length rest)%nat && (String.length rest <=? 14)%nat
  | _ => false
  end.

(** The digits under the national conventions. *)
Definition international_digits (digits : string) : string :=
  match digits with
  | String c rest =>
      if (String.length digits =? 11)%nat && is_char "8" c then String "7" rest
      else if (String.length digits =? 10)%nat then String "7" digits
      else digits
  | EmptyString => EmptyString
  end.

Definition normalize_phone_e164 (value : string) : option string :=
  if String.eqb value "" || contains_control_chars value then None
  else
    let stripped := str_strip py_isspace value in
    if String.eqb stripped "" then None
    else
      let digits := str_filter is_digit stripped in
      if String.eqb digits "" then None
      else if negb (str_forall (fun c => py_isdigit c || allowed_noise c) stripped) then None
      else
        let candidate := String "+" (international_digits digits) in
        if e164_re candidate then Some candidate else None.

(** ** pii_admission_mac_keys.py, pii_admission_mac.py *)

Definition CONTENT_MAC_BYTES : nat := 32.
Definition MAC_KEY_SIZE_BYTES : nat := 32.
Definition BOOKING_PII_ADMISSION_MAC_DOMAIN : string := "BOOKING_PII_ADMISSION_V1".

Record ActivePiiAdmissionMacKey := MkActivePiiAdmissionMacKey {
  mk_key_id : string;
  mk_key : string
}.

Record PiiAdmissionContentMac := MkPiiAdmissionContentMac {
  cm_digest : string;
  cm_key_id : string
}.

Definition validate_mac_key_id (value : string) : option string :=
  if String.eqb value "" || negb (key_id_token value) then None else Some value.

(** [_decode_key_material] of this module: the rules of the other provider. *)
Definition decode_mac_key_material (raw : string) : option string :=
  if String.eqb raw "" || negb (str_forall (fun c => negb (py_isspace c)) raw) then None
  else
    let digits := str_strip_right (is_char "=") raw in
    if String.eqb digits "" || negb (str_forall is_b64_digit digits) then None
    else
      decoded ← urlsafe_b64decode raw;
      if (String.length decoded =? MAC_KEY_SIZE_BYTES)%nat &&
         String.eqb raw (urlsafe_b64encode decoded)
      then Some decoded else None.

Module EnvPiiAdmissionMacKeyProvider.
Section Provider.
Context {E S : Type} (environ : Environ).

Definition active_key_id : M E S string :=
  match environ !! "PII_ADMISSION_MAC_ACTIVE_KEY_ID"%string with
  | None => raise PiiAdmissionMacError "PII_ADMISSION_MAC_KEY_UNAVAILABLE"
  | Some raw =>
      require_some (validate_mac_key_id raw) PiiAdmissionMacError
        "PII_ADMISSION_MAC_CONFIG_INVALID"
  end.

Definition get_key (key_id : string) : M E S string :=
  validated ← require_some (validate_mac_key_id key_id) PiiAdmissionMacError
    "PII_ADMISSION_MAC_CONFIG_INVALID";
  match environ !! ("PII_ADMISSION_MAC_KEY_" +:+ validated) with
  | None => raise PiiAdmissionMacError "PII_ADMISSION_MAC_KEY_UNAVAILABLE"
  | Some raw =>
      require_some (decode_mac_key_material raw) PiiAdmissionMacError
        "PII_ADMISSION_MAC_CONFIG_INVALID"
  end.

Definition get_active_key : M E S ActivePiiAdmissionMacKey :=
  key_id ← active_key_id;
  key ← get_key key_id;
  mret (MkActivePiiAdmissionMacKey key_id key).
End Provider.
End EnvPiiAdmissionMacKeyProvider.

Definition nul : string := String (ascii_of_N 0) EmptyString.

(** [_require_canonical_component] *)
Definition require_canonical_component (value : string) : option string :=
  if String.eqb value "" then None
  else if negb (str_forall (fun c => negb (N_of_ascii c =? 0)%N) value) then None
  else Some value.

(** [_mac_message] *)
Definition mac_message (canonical_phone canonical_name : string) : option string :=
  phone ← require_canonical_component canonical_phone;
  name ← require_canonical_component canonical_name;
  Some (utf8_encode (BOOKING_PII_ADMISSION_MAC_DOMAIN +:+ nul +:+ phone +:+ nul +:+ name)).

Section Mac.
Context {E S : Type} (environ : Environ).

(** With the active key; the digest of HMAC-SHA-256 has the required length. *)
Definition compute_booking_pii_admission_content_mac (canonical_phone canonical_name : string)
    : M E S PiiAdmissionContentMac :=
  message ← require_some (mac_message canonical_phone canonical_name) PiiAdmissionMacError
    "PII_ADMISSION_MAC_VALUE_INVALID";
  snapshot ← EnvPiiAdmissionMacKeyProvider.get_active_key environ;
  let digest := hmac_sha256 (mk_key snapshot) message in
  if negb (String.length digest =? CONTENT_MAC_BYTES)%nat
  then raise PiiAdmissionMacError "PII_ADMISSION_MAC_VALUE_INVALID"
  else mret (MkPiiAdmissionContentMac digest (mk_key_id snapshot)).

Definition verify_booking_pii_admission_content_mac
    (canonical_phone canonical_name stored_digest mac_key_id : string) : M E S bool :=
  if negb (String.length stored_digest =? CONTENT_MAC_BYTES)%nat
  then raise PiiAdmissionMacError "PII_ADMISSION_MAC_VALUE_INVALID"
  else if String.eqb mac_key_id ""
  then raise PiiAdmissionMacError "PII_ADMISSION_MAC_CONFIG_INVALID"
  else
    message ← require_some (mac_message canonical_phone canonical_name) PiiAdmissionMacError
      "PII_ADMISSION_MAC_VALUE_INVALID";
    key ← EnvPiiAdmissionMacKeyProvider.get_key environ mac_key_id;
    mret (String.eqb (hmac_sha256 key message) stored_digest).
End Mac.

(** ** self_booking_pii_admission.py *)

Record PiiAdmissionResult := MkPiiAdmissionResult {
  par_conversation_id : uuid;
  par_request_id : string;
  par_phone_ref_token : string;
  par_name_ref_token : string;
  par_reused : bool
}.

(** [_canonicalize_pii] *)
Definition canonicalize_pii (phone client_name : string) : option (string * string) :=
  phone_c ← normalize_phone_e164 phone;
  name_c ← require_confirmed_client_name client_name;
  Some (phone_c, name_c).

Definition admission_conflict (a b : SelfBookingPiiAdmission) : bool :=
  bool_decide (pa_conversation_id a = pa_conversation_id b) &&
  String.eqb (pa_request_id a) (pa_request_id b).

(** [admission_repo.insert_if_absent] *)
Definition insert_if_absent (row_id conversation_id : uuid)
    (request_id phone_ref_token name_ref_token content_mac mac_key_id : string)
    : Session (option SelfBookingPiiAdmission) :=
  statement_timestamp ← db_statement_now;
  let row := MkSelfBookingPiiAdmission row_id conversation_id request_id phone_ref_token
    name_ref_token content_mac mac_key_id statement_timestamp in
  inserted ← insert_on_conflict_do_nothing admission_conflict row;
  mret (if inserted : bool then Some row else None).

Module SelfBookingPiiAdmissionService.

(** [except _ConcurrentAdmission: raise], [except PiiAdmissionError: raise],
    anything else is STORE_FAILED. *)
Definition admission_error_or_store_failed {A} (m : Session A) : Session A :=
  try_except m (fun e =>
    negb (bool_decide (exn_class e = ConcurrentAdmission)) &&
    negb (bool_decide (exn_class e = PiiAdmissionError)))
    (fun _ => raise PiiAdmissionError "PII_ADMISSION_STORE_FAILED").

(** What a refused MAC means to the caller of [admit] of the source. *)
Definition mac_failure (e : exn) : string :=
  if String.eqb (exn_message e) "PII_ADMISSION_MAC_KEY_UNAVAILABLE" ||
     String.eqb (exn_message e) "PII_ADMISSION_MAC_CONFIG_INVALID"
  then "PII_ADMISSION_CONFIG_INVALID" else "PII_ADMISSION_INPUT_INVALID".

Section Service.
Context `{CryptoLib} (pii_store : EphemeralPiiStore) (mac_environ : Environ).

(** [_replay_existing] *)
Definition replay_existing (existing : SelfBookingPiiAdmission) (phone client_name : string)
    : Session PiiAdmissionResult :=
  matched ← try_except
    (verify_booking_pii_admission_content_mac mac_environ phone client_name
      (pa_content_mac existing) (pa_mac_key_id existing))
    (fun e => bool_decide (exn_class e = PiiAdmissionMacError))
    (fun _ => raise PiiAdmissionError "PII_ADMISSION_CONFLICT");
  if negb (matched : bool) then raise PiiAdmissionError "PII_ADMISSION_CONFLICT"
  else
    alive ← EphemeralPiiStoreOps.booking_phone_write_pair_alive (pa_phone_ref_token existing)
      (pa_name_ref_token existing) (pa_conversation_id existing);
    if negb (alive : bool) then raise PiiAdmissionError "PII_ADMISSION_EXPIRED"
    else
      mret (MkPiiAdmissionResult (pa_conversation_id existing) (pa_request_id existing)
        (pa_phone_ref_token existing) (pa_name_ref_token existing) true).

(** The transaction of [_admit_once]. *)
Definition admit_once_body (conversation_id : uuid)
    (request_id phone client_name content_mac_digest mac_key_id : string)
    : Session PiiAdmissionResult :=
  existing ← admission_repo.get_by_request conversation_id request_id;
  match existing with
  | Some existing => replay_existing existing phone client_name
  | None =>
      handles ← EphemeralPiiStoreOps.store_booking_phone_write_pair pii_store phone client_name
        conversation_id;
      row_id ← uuid4;
      inserted ← insert_if_absent row_id conversation_id request_id
        (EphemeralPiiReferenceOps.to_token (eh_reference (fst handles)))
        (EphemeralPiiReferenceOps.to_token (eh_reference (snd handles)))
        content_mac_digest mac_key_id;
      match inserted with
      | None => raise ConcurrentAdmission ""
      | Some inserted =>
          mret (MkPiiAdmissionResult conversation_id request_id (pa_phone_ref_token inserted)
            (pa_name_ref_token inserted) false)
      end
  end.

(** The transaction of [_admit_replay_only]. *)
Definition admit_replay_body (conversation_id : uuid) (request_id phone client_name : string)
    : Session PiiAdmissionResult :=
  existing ← admission_repo.get_by_request conversation_id request_id;
  match existing with
  | None => raise PiiAdmissionError "PII_ADMISSION_STORE_FAILED"
  | Some existing => replay_existing existing phone client_name
  end.

Definition admit_once (conversation_id : uuid)
    (request_id phone client_name content_mac_digest mac_key_id : string)
    : Session PiiAdmissionResult :=
  admission_error_or_store_failed (session_scope
    (admit_once_body conversation_id request_id phone client_name content_mac_digest
      mac_key_id)).

Definition admit_replay_only (conversation_id : uuid) (request_id phone client_name : string)
    : Session PiiAdmissionResult :=
  admission_error_or_store_failed (session_scope
    (admit_replay_body conversation_id request_id phone client_name)).

Definition admit_pii `{Interference} (conversation_id : uuid) (request_id phone client_name : string)
    : Process PiiAdmissionResult :=
  match require_pii_admission_request_id request_id, canonicalize_pii phone client_name with
  | Some req, Some (phone_c, name_c) =>
      content_mac ← try_except
        (compute_booking_pii_admission_content_mac mac_environ phone_c name_c)
        (fun e => bool_decide (exn_class e = PiiAdmissionMacError))
        (fun e => raise PiiAdmissionError (mac_failure e));
      try_except
        (transaction (admit_once conversation_id req phone_c name_c (cm_digest content_mac)
          (cm_key_id content_mac)))
        (fun e => bool_decide (exn_class e = ConcurrentAdmission))
        (fun _ => transaction (admit_replay_only conversation_id req phone_c name_c))
  | _, _ => raise PiiAdmissionError "PII_ADMISSION_INPUT_INVALID"
  end.
End Service.
End SelfBookingPiiAdmissionService.
