(* ===== verification/Projections.v ===== *)
(** * Chat projections

    Enqueueing part of src/app/repositories/amocrm_message_projections.py
    ([projection_repo]) and src/app/services/amocrm_chat_projection.py
    ([amocrm_chat_projection]).  The egress switch is read from the
    environment. *)

From S2P Require Import Prelude Models Database Statements ReplyText.

Module projection_repo.

Definition DEFAULT_MAX_ATTEMPTS : Z := DEFAULT_PROJECTION_MAX_ATTEMPTS.

Definition get_by_source (source_kind : AmocrmProjectionSourceKind) (source_id : uuid)
    : Session (option AmocrmMessageProjection) :=
  select_scalar (fun p =>
    bool_decide (pj_source_kind p = source_kind) && bool_decide (pj_source_id p = source_id)).

(** Whatever its status: the id is written before the row is PROJECTED. *)
Definition get_projected_by_amocrm_message_id (amocrm_message_id : string)
    : Session (option AmocrmMessageProjection) :=
  select_scalar (fun p => sql_eq (pj_amocrm_message_id p) amocrm_message_id).

Definition pending_projection (id conversation_id : uuid)
    (source_kind : AmocrmProjectionSourceKind) (source_id : uuid) (msgid : string)
    (correlation_id : uuid) (max_attempts : Z) (now : instant) : AmocrmMessageProjection := {|
  pj_id := id;
  pj_conversation_id := conversation_id;
  pj_source_kind := source_kind;
  pj_source_id := source_id;
  pj_integration_msgid := msgid;
  pj_amocrm_message_id := None;
  pj_status := PJ_PENDING;
  pj_attempt_count := 0;
  pj_max_attempts := max_attempts;
  pj_next_attempt_at := None;
  pj_lease_owner := None;
  pj_lease_token := None;
  pj_lease_version := 0;
  pj_lease_until := None;
  pj_skip_reason := None;
  pj_error_code := None;
  pj_correlation_id := correlation_id;
  pj_created_at := now;
  pj_updated_at := now
|}.

(** [created_at] defaults to [statement_timestamp()] in this table. *)
Definition enqueue_if_absent (conversation_id : uuid)
    (source_kind : AmocrmProjectionSourceKind) (source_id correlation_id : uuid)
    (max_attempts : Z) : Session (AmocrmMessageProjection * bool) :=
  _ ← assert_or_raise (negb (max_attempts <=? 0)) ValueError "max_attempts must be positive";
  msgid ← integration_msgid_for_source source_kind source_id;
  existing ← get_by_source source_kind source_id;
  match existing with
  | Some existing => mret (existing, false)
  | None =>
      new_id ← uuid4;
      now ← db_statement_now;
      inserted ← insert_on_conflict_do_nothing uq_amocrm_message_projections_source
        (pending_projection new_id conversation_id source_kind source_id msgid
           correlation_id max_attempts now);
      row ← get_by_source source_kind source_id;
      row ← require_some row RuntimeError "AMOCRM_PROJECTION_LOOKUP_FAILED";
      mret (row, inserted)
  end.

End projection_repo.

Module amocrm_chat_projection.

Definition chat_egress_enabled : Session bool :=
  env ← get_env; mret (env_chat_egress_enabled env).

Definition enqueue_client_inbound_projection (conversation_id inbox_id correlation_id : uuid)
    : Session (option (AmocrmMessageProjection * bool)) :=
  enabled ← chat_egress_enabled;
  if negb enabled then mret None
  else
    result ← projection_repo.enqueue_if_absent conversation_id CLIENT_INBOUND inbox_id
      correlation_id projection_repo.DEFAULT_MAX_ATTEMPTS;
    mret (Some result).

Definition enqueue_bot_outbound_projection (conversation_id outbound_id correlation_id : uuid)
    : Session (option (AmocrmMessageProjection * bool)) :=
  enabled ← chat_egress_enabled;
  if negb enabled then mret None
  else
    outbound ← get_by_id (R := OutboxMessage) outbound_id;
    match outbound with
    | None => mret None
    | Some outbound =>
        if negb (bool_decide (ob_delivery_status outbound = OB_DELIVERED)) then mret None
        else if is_null (persisted_outbound_reply_text (ob_payload_json outbound)) then mret None
        else
          result ← projection_repo.enqueue_if_absent conversation_id BOT_OUTBOUND outbound_id
            correlation_id projection_repo.DEFAULT_MAX_ATTEMPTS;
          mret (Some result)
    end.

End amocrm_chat_projection.
