(* ===== verification/Inbound.v ===== *)
(** * Client messages: src/app/services/inbound.py

    [InboundService.accept]: one new client message advances the dialog's
    fences, supersedes what the bot had in flight and plans one reply, due in
    five seconds or, during a handoff, at the end of the pause. *)

From S2P Require Import Prelude Models Database Statements Conversations ReplyPlans Outbound.
From S2P Require Import EphemeralPii SelfBooking Messages Mirror ReplyText Projections.
Import SelfBookingConfirmAdmissionService.

(** src/app/schemas/inbound.py, validated; [sie_booking] is the wire form of the
    booking fixture. *)
Record SyntheticInboundEvent := MkSyntheticInboundEvent {
  sie_channel : string;
  sie_external_conversation_id : string;
  sie_external_message_id : string;
  sie_text : string;
  sie_received_at : option instant;
  sie_booking : option jdict;
  sie_action : option SyntheticConfirmSelectedSlotAction
}.

(** The action kind has one legal value. *)
Definition preserves_active_offer (event : SyntheticInboundEvent) : bool :=
  is_not_null (sie_action event).

Definition safe_payload (event : SyntheticInboundEvent) : jdict :=
  [("schema", JStr "synthetic.inbound.v1"); ("text", JStr (sie_text event))].

Definition received_at_utc (event : SyntheticInboundEvent) : Session instant :=
  env ← get_env; mret (default (env_wall_clock env) (sie_received_at event)).

(** src/app/services/booking_synthetic.py *)
Definition client_reply_plan_payload (inbox_id : string) (booking : option jdict)
    (deferred_for_handoff : bool) : jdict :=
  let payload :=
    [ ("schema", JStr "synthetic.reply_plan.v1"); ("plan_type", JStr "CLIENT_REPLY");
      ("synthetic_token", JStr "SYNTHETIC_OK"); ("inbox_id", JStr inbox_id) ] in
  let payload :=
    if deferred_for_handoff then jset payload "deferred_for_handoff" (JBool true)
    else payload in
  match booking with
  | Some booking => jset payload "booking" (JObj booking)
  | None => payload
  end.

Record InboundAcceptResult := MkInboundAcceptResult {
  iar_conversation : Conversation;
  iar_inbox : InboxMessage;
  iar_outbox : OutboxMessage;
  iar_created_conversation : bool;
  iar_created_inbox : bool;
  iar_created_outbox : bool;
  iar_duplicate : bool;
  iar_automatic_reply_allowed : bool;
  iar_context_version : Z;
  iar_reply_plan : option ReplyPlan;
  iar_reply_plan_created : bool
}.

Section InboundService.
Context (handoff_pause_seconds : Z) (pii_store : option EphemeralPiiStore).

(** Failures stay inside; the only statement that can fail runs under a
    savepoint, so the transaction goes on. *)
Definition admit_confirm_selected_slot (event : SyntheticInboundEvent)
    (conversation : Conversation) : Session unit :=
  match sie_action event, pii_store with
  | Some action, Some _ =>
      try_except
        (_ ← admit_from_confirm (conv_id conversation) (sie_channel event)
           (sie_external_message_id event) action (conv_context_version conversation)
           (conv_manager_epoch conversation) (conv_current_event_seq conversation);
         mret tt)
        (fun _ => true) (fun _ => mret tt)
  | _, _ => mret tt
  end.

(** The reply planned for a new message: [None] for a closed dialog. *)
Definition plan_reply (event : SyntheticInboundEvent) (conversation : Conversation)
    (inbox : InboxMessage) : Session (Conversation * option ReplyPlan) :=
  if conversation_allows_automatic_reply conversation then
    correlation_id ← uuid4;
    reply_plan ← reply_plan_repo.create_client_reply_plan (conv_id conversation)
      (conv_context_version conversation) correlation_id
      (client_reply_plan_payload (uuid_str (inbox_id inbox)) (sie_booking event) false)
      BOT_RESPONSE_DELAY_MS reply_plan_repo.DEFAULT_MAX_ATTEMPTS None None
      (conv_manager_epoch conversation) (conv_current_event_seq conversation);
    conversation ← conversation_repo.assign_active_reply_plan_id conversation
      (Some (rp_id reply_plan));
    mret (conversation, Some reply_plan)
  else if bool_decide (conv_status conversation = HANDOFF) &&
          negb (bool_decide (conv_handoff_state conversation = BOT_ACTIVE)) then
    moment ← db_statement_now;
    '(conversation, _) ← conversation_repo.enter_or_continue_human_pause conversation
      moment handoff_pause_seconds;
    deadline ← require_some (conv_handoff_deadline_at conversation) RuntimeError
      "HUMAN_PAUSE_DEADLINE_MISSING";
    correlation_id ← uuid4;
    reply_plan ← reply_plan_repo.create_client_reply_plan (conv_id conversation)
      (conv_context_version conversation) correlation_id
      (client_reply_plan_payload (uuid_str (inbox_id inbox)) (sie_booking event) true)
      0 reply_plan_repo.DEFAULT_MAX_ATTEMPTS (Some moment) (Some deadline)
      (conv_manager_epoch conversation) (conv_current_event_seq conversation);
    conversation ← conversation_repo.assign_active_reply_plan_id conversation
      (Some (rp_id reply_plan));
    mret (conversation, Some reply_plan)
  else
    conversation ← conversation_repo.assign_active_reply_plan_id conversation None;
    mret (conversation, None).

(** The first [if created_inbox] block. *)
Definition advance_dialog (event : SyntheticInboundEvent) (conversation : Conversation)
    (inbox : InboxMessage) (received_at : instant)
    : Session (Conversation * option ReplyPlan) :=
  conversation ← conversation_repo.bump_context_for_new_message conversation received_at;
  _ ← reply_plan_repo.supersede_open_plans (conv_id conversation) "NEW_CLIENT_MESSAGE";
  _ ← outbound_repo.cancel_unadmitted_for_conversation (conv_id conversation);
  _ ← (if negb (preserves_active_offer event) then
         _ ← SelfBookingActiveOfferService.invalidate (conv_id conversation); mret tt
       else admit_confirm_selected_slot event conversation);
  plan_reply event conversation inbox.

Definition draft_payload (event : SyntheticInboundEvent) (conversation : Conversation)
    (inbox : InboxMessage) (automatic_reply_allowed : bool) : jdict :=
  [ ("schema", JStr "internal.draft.v1"); ("source", JStr "inbound");
    ("inbox_id", JStr (uuid_str (inbox_id inbox)));
    ("conversation_id", JStr (uuid_str (conv_id conversation)));
    ("destination_type", JStr (enum_value INTERNAL_DRAFT));
    ("draft_text", JStr (sie_text event));
    ("automatic_reply_allowed", JBool automatic_reply_allowed);
    ("context_version", JInt (conv_context_version conversation)) ].

(** The inbox row of the event: the stored one, or a new one under the next
    event number. *)
Definition take_inbox (event : SyntheticInboundEvent) (conversation : Conversation)
    (received_at : instant) : Session (Conversation * InboxMessage * bool) :=
  inbox ← message_repo.get_inbox_by_external CHANNEL_SYNTHETIC
    (sie_external_message_id event);
  match inbox with
  | Some inbox => mret (conversation, inbox, false)
  | None =>
      conversation ← conversation_repo.allocate_next_event_seq conversation;
      '(inbox, created) ← message_repo.insert_inbox_if_absent (conv_id conversation)
        CHANNEL_SYNTHETIC (sie_external_message_id event)
        (conv_current_event_seq conversation) (safe_payload event) received_at;
      mret (conversation, inbox, created)
  end.

(** From the draft to the result. *)
Definition finish_accept (event : SyntheticInboundEvent)
    (created_conversation created_inbox : bool) (conversation : Conversation)
    (inbox : InboxMessage) (reply_plan : option ReplyPlan) : Session InboundAcceptResult :=
  let automatic_reply_allowed := conversation_allows_automatic_reply conversation in
  '(outbox, created_outbox) ← message_repo.create_internal_draft_outbox
    (conv_id conversation) (inbox_id inbox)
    (draft_payload event conversation inbox automatic_reply_allowed);
  _ ← when created_inbox (
    correlation_id ← uuid4;
    _ ← amocrm_mirror.enqueue_client_message_received (conv_id conversation)
      (inbox_id inbox) (conv_context_version conversation) correlation_id;
    correlation_id ← uuid4;
    _ ← amocrm_chat_projection.enqueue_client_inbound_projection (conv_id conversation)
      (inbox_id inbox) correlation_id;
    mret tt);
  mret {|
    iar_conversation := conversation;
    iar_inbox := inbox;
    iar_outbox := outbox;
    iar_created_conversation := created_conversation;
    iar_created_inbox := created_inbox;
    iar_created_outbox := created_outbox;
    iar_duplicate := negb created_inbox;
    iar_automatic_reply_allowed := automatic_reply_allowed;
    iar_context_version := conv_context_version conversation;
    iar_reply_plan := reply_plan;
    iar_reply_plan_created := is_not_null reply_plan
  |}.

Definition accept (event : SyntheticInboundEvent) : Session InboundAcceptResult :=
  _ ← assert_or_raise (conversation_repo.pause_seconds_in_range handoff_pause_seconds)
    ValueError "handoff_pause_seconds must be between 600 and 900";
  _ ← assert_or_raise (String.eqb (sie_channel event) "synthetic") ValueError
    "UNSUPPORTED_CHANNEL";
  received_at ← received_at_utc event;
  '(conversation, created_conversation) ← conversation_repo.get_or_create
    CHANNEL_SYNTHETIC (sie_external_conversation_id event);
  conversation ← conversation_repo.lock_for_update (conv_id conversation);
  '(conversation, inbox, created_inbox) ← take_inbox event conversation received_at;
  _ ← assert_or_raise (bool_decide (inbox_conversation_id inbox = conv_id conversation))
    RuntimeError "INBOX_CONVERSATION_MISMATCH";
  '(conversation, reply_plan) ←
    (if created_inbox then advance_dialog event conversation inbox received_at
     else mret (conversation, None));
  finish_accept event created_conversation created_inbox conversation inbox reply_plan.
End InboundService.
