(* ===== verification/ManagerMessages.v ===== *)
(** * Manager activity

    src/app/services/manager_messages.py and src/app/services/takeover.py: a
    manager message or an explicit takeover moves the dialog to the manager,
    bumps its fences and revokes the bot's work that was not admitted yet. *)

From S2P Require Import Prelude Models Database Statements Conversations ReplyPlans Outbound.
From S2P Require Import Messages Mirror.

(** src/app/schemas/manager_message.py, validated. *)
Record SyntheticManagerMessageEvent := MkSyntheticManagerMessageEvent {
  mme_channel : string;
  mme_external_conversation_id : string;
  mme_external_message_id : string;
  mme_provider_sequence : option Z;
  mme_provider_occurred_at : option instant;
  mme_text : string
}.

Inductive ManagerEventClassification :=
  | CLASS_CHRONOLOGICALLY_NEW | CLASS_STALE | CLASS_QUARANTINED.

#[export] Instance ManagerEventClassification_eq_dec : EqDecision ManagerEventClassification.
Proof. solve_decision. Defined.

Definition classify_manager_sequence (current_hwm provider_sequence : option Z)
    : ManagerEventClassification :=
  match provider_sequence with
  | None => CLASS_QUARANTINED
  | Some provider_sequence =>
      match current_hwm with
      | None => CLASS_CHRONOLOGICALLY_NEW
      | Some hwm =>
          if hwm <? provider_sequence then CLASS_CHRONOLOGICALLY_NEW else CLASS_STALE
      end
  end.

Record ManagerMessageApplyResult := MkManagerMessageApplyResult {
  mar_conversation_id : uuid;
  mar_manager_message_id : uuid;
  mar_status : ManagerMessageStatus;
  mar_duplicate : bool;
  mar_fsm_changed : bool;
  mar_entered_from_bot : bool;
  mar_cancelled_plans : Z;
  mar_cancelled_outbound : Z;
  mar_context_version : Z;
  mar_manager_epoch : Z;
  mar_event_seq_hwm : Z;
  mar_manager_sequence_hwm : option Z
}.

Definition manager_result (conversation : Conversation) (message : ManagerMessage)
    (duplicate fsm_changed entered_from_bot : bool) (cancelled_plans cancelled_outbound : Z)
    : ManagerMessageApplyResult := {|
  mar_conversation_id := conv_id conversation;
  mar_manager_message_id := mm_id message;
  mar_status := mm_status message;
  mar_duplicate := duplicate;
  mar_fsm_changed := fsm_changed;
  mar_entered_from_bot := entered_from_bot;
  mar_cancelled_plans := cancelled_plans;
  mar_cancelled_outbound := cancelled_outbound;
  mar_context_version := conv_context_version conversation;
  mar_manager_epoch := conv_manager_epoch conversation;
  mar_event_seq_hwm := conv_current_event_seq conversation;
  mar_manager_sequence_hwm := conv_manager_sequence_hwm conversation
|}.

(** The dialog an event belongs to, locked: by binding or by external id. *)
Definition locked_manager_dialog (event : SyntheticManagerMessageEvent)
    (conversation_id : option uuid) : Session Conversation :=
  match conversation_id with
  | Some conversation_id =>
      conversation ← conversation_repo.lock_for_update conversation_id;
      _ ← assert_or_raise (bool_decide (conv_channel conversation = CHANNEL_SYNTHETIC))
        RuntimeError "BINDING_CONVERSATION_CHANNEL_MISMATCH";
      _ ← assert_or_raise
        (String.eqb (conv_external_conversation_id conversation)
           (mme_external_conversation_id event))
        RuntimeError "BINDING_CONVERSATION_EXTERNAL_ID_MISMATCH";
      mret conversation
  | None =>
      '(conversation, _) ← conversation_repo.get_or_create CHANNEL_SYNTHETIC
        (mme_external_conversation_id event);
      conversation_repo.lock_for_update (conv_id conversation)
  end.

(** The branch of a chronologically new event. *)
Definition apply_new_manager_message (conversation : Conversation)
    (message : ManagerMessage) (provider_sequence : Z) (handoff_pause_seconds : Z)
    : Session ManagerMessageApplyResult :=
  conversation ← conversation_repo.allocate_next_event_seq conversation;
  message ← manager_message_repo.mark_applied message (conv_current_event_seq conversation);
  moment ← db_statement_now;
  '(conversation, entered_from_bot) ←
    conversation_repo.apply_chronologically_new_manager_message conversation
      provider_sequence moment handoff_pause_seconds;
  cancelled ← reply_plan_repo.cancel_open_plans_for_takeover (conv_id conversation)
    "MANAGER_MESSAGE";
  cancelled_outbound ←
    outbound_repo.cancel_unadmitted_for_manager_message (conv_id conversation);
  _ ← when entered_from_bot (
    correlation_id ← uuid4;
    _ ← amocrm_mirror.enqueue_manager_takeover (conv_id conversation) correlation_id;
    mret tt);
  mret (manager_result conversation message false true entered_from_bot cancelled
          cancelled_outbound).

Definition apply_manager_message_in_session (event : SyntheticManagerMessageEvent)
    (handoff_pause_seconds : Z) (conversation_id : option uuid)
    : Session ManagerMessageApplyResult :=
  _ ← assert_or_raise (String.eqb (mme_channel event) "synthetic")
    ValueError "UNSUPPORTED_CHANNEL";
  conversation ← locked_manager_dialog event conversation_id;
  '(message, created) ← manager_message_repo.insert_quarantined_if_absent
    (conv_id conversation) CHANNEL_SYNTHETIC (mme_external_message_id event)
    (mme_provider_sequence event) (mme_provider_occurred_at event) (mme_text event)
    "CLASSIFICATION_PENDING";
  _ ← assert_or_raise (bool_decide (mm_conversation_id message = conv_id conversation))
    RuntimeError "MANAGER_MESSAGE_CONVERSATION_MISMATCH";
  if negb created then mret (manager_result conversation message true false false 0 0)
  else if bool_decide (conv_status conversation = CLOSED) then
    message ← manager_message_repo.flush_classification message QUARANTINED None
      "CONVERSATION_CLOSED";
    mret (manager_result conversation message false false false 0 0)
  else
    match classify_manager_sequence (conv_manager_sequence_hwm conversation)
            (mme_provider_sequence event) with
    | CLASS_QUARANTINED =>
        message ← manager_message_repo.flush_classification message QUARANTINED None
          "MISSING_PROVIDER_SEQUENCE";
        mret (manager_result conversation message false false false 0 0)
    | CLASS_STALE =>
        message ← manager_message_repo.mark_stale message;
        mret (manager_result conversation message false false false 0 0)
    | CLASS_CHRONOLOGICALLY_NEW =>
        provider_sequence ← require_some (mme_provider_sequence event) RuntimeError
          "MANAGER_SEQUENCE_CLASSIFICATION_BROKEN";
        apply_new_manager_message conversation message provider_sequence
          handoff_pause_seconds
    end.

Module SyntheticManagerMessageService.

Definition apply (event : SyntheticManagerMessageEvent) (handoff_pause_seconds : Z)
    : Session ManagerMessageApplyResult :=
  session_scope (
    _ ← assert_or_raise (conversation_repo.pause_seconds_in_range handoff_pause_seconds)
      ValueError "handoff_pause_seconds must be between 600 and 900";
    apply_manager_message_in_session event handoff_pause_seconds None).

End SyntheticManagerMessageService.

(** ** app/services/takeover.py *)

Record ManagerTakeoverResult := MkManagerTakeoverResult {
  mtr_conversation_id : uuid;
  mtr_changed : bool;
  mtr_cancelled_plans : Z;
  mtr_ownership : ConversationOwnership;
  mtr_status : ConversationStatus
}.

Definition apply_manager_takeover_in_session (conversation_id : uuid) (now : option instant)
    : Session (Conversation * Z * bool) :=
  '(conversation, changed) ← conversation_repo.apply_manager_takeover conversation_id now;
  cancelled ← reply_plan_repo.cancel_open_plans_for_takeover conversation_id
    "MANAGER_TAKEOVER";
  _ ← when changed (
    _ ← outbound_repo.cancel_unadmitted_for_conversation (conv_id conversation);
    correlation_id ← uuid4;
    _ ← amocrm_mirror.enqueue_manager_takeover (conv_id conversation) correlation_id;
    mret tt);
  mret (conversation, cancelled, changed).

Module ManagerTakeoverService.

Definition apply (conversation_id : uuid) (now : option instant)
    : Session ManagerTakeoverResult :=
  session_scope (
    '(conversation, cancelled, changed) ←
      apply_manager_takeover_in_session conversation_id now;
    mret (MkManagerTakeoverResult (conv_id conversation) changed cancelled
            (conv_ownership conversation) (conv_status conversation))).

End ManagerTakeoverService.
