(* ===== verification/VkObserver.v ===== *)
(** * The VK client services

    src/app/services/vk_client_inbound.py: a client message of the VK channel is
    recorded and advances the dialog, and nothing else; and
    src/app/services/vk_client_message_reply.py: an outgoing message of the
    community is the bot's own echo, or somebody else's hand on the dialog. *)

From S2P Require Import Prelude BookingText Models Database Statements Conversations ReplyPlans.
From S2P Require Import Outbound Messages Mirror BookingFields VkClient ManagerMessages.

(** src/app/schemas/vk_client_ingress.py, [VkClientInboundEvent] *)
Record VkClientInboundEvent := MkVkClientInboundEvent {
  vie_channel : string;
  vie_external_conversation_id : string;
  vie_external_message_id : string;
  vie_text : string;
  vie_received_at : option instant
}.

(** The field validators. *)
Definition vk_inbound_event_valid (event : VkClientInboundEvent) : bool :=
  String.eqb (vie_channel event) "vk" &&
  safe_external_id 128 (vie_external_conversation_id event) &&
  safe_external_id 128 (vie_external_message_id event) &&
  safe_text VK_CLIENT_TEXT_MAX_LEN (vie_text event).

Definition vk_inbound_payload (event : VkClientInboundEvent) : jdict :=
  [("schema", JStr "vk.client.inbound.v1"); ("text", JStr (vie_text event))].

Record VkClientInboundAcceptResult := MkVkClientInboundAcceptResult {
  var_conversation : Conversation;
  var_inbox : InboxMessage;
  var_created_conversation : bool;
  var_created_inbox : bool;
  var_duplicate : bool;
  var_context_version : Z
}.

Module VkClientInboundService.

(** The inbox row of the event: the stored one, or a new one under the next
    event number. *)
Definition take_inbox (event : VkClientInboundEvent) (conversation : Conversation)
    (received_at : instant) : Session (Conversation * InboxMessage * bool) :=
  inbox ← message_repo.get_inbox_by_external CHANNEL_VK (vie_external_message_id event);
  match inbox with
  | Some inbox => mret (conversation, inbox, false)
  | None =>
      conversation ← conversation_repo.allocate_next_event_seq conversation;
      '(inbox, created) ← message_repo.insert_inbox_if_absent (conv_id conversation) CHANNEL_VK
        (vie_external_message_id event) (conv_current_event_seq conversation)
        (vk_inbound_payload event) received_at;
      mret (conversation, inbox, created)
  end.

Definition accept (event : VkClientInboundEvent) : Session VkClientInboundAcceptResult :=
  _ ← assert_or_raise (String.eqb (vie_channel event) "vk") ValueError "UNSUPPORTED_CHANNEL";
  env ← get_env;
  let received_at := default (env_wall_clock env) (vie_received_at event) in
  '(conversation, created_conversation) ← conversation_repo.get_or_create CHANNEL_VK
    (vie_external_conversation_id event);
  conversation ← conversation_repo.lock_for_update (conv_id conversation);
  '(conversation, inbox, created_inbox) ← take_inbox event conversation received_at;
  _ ← assert_or_raise (bool_decide (inbox_conversation_id inbox = conv_id conversation))
    RuntimeError "INBOX_CONVERSATION_MISMATCH";
  conversation ←
    (if created_inbox
     then conversation_repo.bump_context_for_new_message conversation received_at
     else mret conversation);
  mret {|
    var_conversation := conversation;
    var_inbox := inbox;
    var_created_conversation := created_conversation;
    var_created_inbox := created_inbox;
    var_duplicate := negb created_inbox;
    var_context_version := conv_context_version conversation
  |}.

End VkClientInboundService.

(** ** Outgoing messages of the community *)

Inductive VkClientReplyClassification :=
  | OWN_TEYA_ECHO | EXTERNAL_ACTOR | OWN_ECHO_RACE_RETRY | FEATURE_OFF
  | UNRESOLVED_CONVERSATION | CONVERSATION_CLOSED | REPLY_STALE | REPLY_DUPLICATE.

#[export] Instance VkClientReplyClassification_eq_dec : EqDecision VkClientReplyClassification.
Proof. solve_decision. Defined.

Record VkClientMessageReplyApplyResult := MkVkClientMessageReplyApplyResult {
  vrr_classification : VkClientReplyClassification;
  vrr_conversation_id : option uuid;
  vrr_fsm_changed : bool;
  vrr_cancelled_plans : Z;
  vrr_cancelled_outbound : Z
}.

Definition reply_unchanged (classification : VkClientReplyClassification)
    (conversation_id : option uuid) : VkClientMessageReplyApplyResult :=
  MkVkClientMessageReplyApplyResult classification conversation_id false 0 0.

Section MessageReply.
Context `{PyLib}.

(** The BOT_TV_CANDIDATE branch of [_classify_own_echo]: an authentic marker
    must also match the durable provider id. *)
Definition classify_candidate (conversation : Conversation) (provider_message_id : Z)
    (provenance : VkReplyProvenanceTechnical) (provenance_key : option string)
    : Session VkClientReplyClassification :=
  match provenance_key with
  | None => mret EXTERNAL_ACTOR
  | Some key =>
      if String.eqb key "" then mret EXTERNAL_ACTOR
      else
        outbound_id ← match verify_vk_outbound_provenance_technical provenance key with
          | Returned outbound_id => mret outbound_id
          | Raised e => raise (exn_class e) (exn_message e)
          end;
        match outbound_id with
        | None => mret EXTERNAL_ACTOR
        | Some outbound_id =>
            row ← outbound_repo.find_vk_outbound_by_id (conv_id conversation) outbound_id;
            match row with
            | None => mret EXTERNAL_ACTOR
            | Some row =>
                match ob_provider_message_id row with
                | Some id =>
                    if id =? provider_message_id then mret OWN_TEYA_ECHO
                    else mret EXTERNAL_ACTOR
                | None =>
                    if bool_decide (ob_delivery_status row = OB_ADMITTED)
                    then mret OWN_ECHO_RACE_RETRY
                    else mret EXTERNAL_ACTOR
                end
            end
        end
  end.

(** [_classify_own_echo] *)
Definition classify_own_echo (conversation : Conversation) (provider_message_id : Z)
    (provenance : VkReplyProvenanceTechnical) (provenance_key : option string)
    : Session VkClientReplyClassification :=
  match provenance with
  | PROVENANCE_FOREIGN => mret EXTERNAL_ACTOR
  | PROVENANCE_BOT_TV_CANDIDATE _ _ =>
      classify_candidate conversation provider_message_id provenance provenance_key
  | PROVENANCE_ABSENT =>
      by_id ← outbound_repo.find_vk_outbound_by_provider_message_id (conv_id conversation)
        provider_message_id;
      if is_not_null by_id then mret OWN_TEYA_ECHO
      else
        in_flight ← outbound_repo.has_admitted_vk_outbound_without_provider_id
          (conv_id conversation);
        if in_flight : bool then mret OWN_ECHO_RACE_RETRY else mret EXTERNAL_ACTOR
  end.

(** The end of [apply_vk_client_message_reply_in_session]: somebody else
    answered the client. *)
Definition apply_external_actor (conversation : Conversation) (conversation_message_id : Z)
    (handoff_pause_seconds : Z) : Session VkClientMessageReplyApplyResult :=
  moment ← db_statement_now;
  '(conversation, entered_from_bot) ←
    conversation_repo.apply_chronologically_new_vk_external_reply conversation
      conversation_message_id moment handoff_pause_seconds;
  cancelled ← reply_plan_repo.cancel_open_plans_for_takeover (conv_id conversation)
    "VK_CLIENT_EXTERNAL_REPLY";
  cancelled_outbound ←
    outbound_repo.cancel_unadmitted_for_manager_message (conv_id conversation);
  _ ← when entered_from_bot (
    correlation_id ← uuid4;
    _ ← amocrm_mirror.enqueue_manager_takeover (conv_id conversation) correlation_id;
    mret tt);
  mret (MkVkClientMessageReplyApplyResult EXTERNAL_ACTOR (Some (conv_id conversation)) true
          cancelled cancelled_outbound).

(** What follows the lock of the dialog. *)
Definition apply_classified_reply (conversation : Conversation)
    (conversation_message_id handoff_pause_seconds : Z) (own : VkClientReplyClassification)
    : Session VkClientMessageReplyApplyResult :=
  let unchanged classification :=
    mret (reply_unchanged classification (Some (conv_id conversation))) in
  if bool_decide (own = OWN_ECHO_RACE_RETRY)
  then raise VkClientMessageReplyOwnEchoRace "VK_CLIENT_OWN_ECHO_RACE"
  else if bool_decide (own = OWN_TEYA_ECHO) then unchanged OWN_TEYA_ECHO
  else if bool_decide (conv_status conversation = CLOSED) then unchanged CONVERSATION_CLOSED
  else
    match classify_manager_sequence (conv_vk_client_external_reply_hwm conversation)
            (Some conversation_message_id) with
    | CLASS_STALE | CLASS_QUARANTINED => unchanged REPLY_STALE
    | CLASS_CHRONOLOGICALLY_NEW =>
        apply_external_actor conversation conversation_message_id handoff_pause_seconds
    end.

Definition apply_vk_client_message_reply_in_session (envelope : jdict)
    (handoff_pause_seconds : Z) (takeover_config : VkClientExternalTakeoverConfig)
    : Session VkClientMessageReplyApplyResult :=
  match jget envelope "external_conversation_id",
        positive_int (jget envelope "provider_message_id"),
        positive_int (jget envelope "conversation_message_id"),
        from_envelope_fragment (jget envelope "provenance") with
  | Some (JStr external_conversation_id), Some provider_message_id,
    Some conversation_message_id, Some provenance =>
      if String.eqb external_conversation_id "" then
        raise ValueError "VK_CLIENT_REPLY_ENVELOPE_INVALID"
      else if negb (fsm_mutation_allowed takeover_config external_conversation_id) then
        mret (reply_unchanged FEATURE_OFF None)
      else
        conversation ← conversation_repo.get_by_channel_external CHANNEL_VK
          external_conversation_id;
        match conversation with
        | None => mret (reply_unchanged UNRESOLVED_CONVERSATION None)
        | Some conversation =>
            conversation ← conversation_repo.lock_for_update (conv_id conversation);
            own ← classify_own_echo conversation provider_message_id provenance
              (vet_provenance_key takeover_config);
            apply_classified_reply conversation conversation_message_id
              handoff_pause_seconds own
        end
  | _, _, _, _ => raise ValueError "VK_CLIENT_REPLY_ENVELOPE_INVALID"
  end.

(** [VkClientMessageReplyService.apply_envelope]; the constructor's range check
    comes first. *)
Definition apply_envelope (envelope : jdict) (handoff_pause_seconds : Z)
    (takeover_config : VkClientExternalTakeoverConfig) : Session VkClientMessageReplyApplyResult :=
  _ ← assert_or_raise (conversation_repo.pause_seconds_in_range handoff_pause_seconds)
    ValueError "handoff_pause_seconds must be between 600 and 900";
  session_scope (apply_vk_client_message_reply_in_session envelope handoff_pause_seconds
    takeover_config).
End MessageReply.
