(* ===== verification/Bindings.v ===== *)
(** * amoCRM chat bindings: src/app/repositories/amocrm_chat_bindings.py

    Which dialog an amoCRM chat belongs to.  A chat and a dialog have at most
    one binding; the routines raise AmocrmChatBindingAmbiguousError rather than
    guess. *)

From S2P Require Import Prelude Models Database Statements BookingFields VkClient.

Module binding_repo.

Definition single_active (matches : AmocrmChatBinding -> bool)
    : Session (option AmocrmChatBinding) :=
  rows ← select_where (fun b => matches b && bool_decide (cb_status b = BINDING_ACTIVE));
  if (1 <? length rows)%nat
  then raise AmocrmChatBindingAmbiguousError "BINDING_AMBIGUOUS"
  else mret (head rows).

Definition get_active_by_amocrm_chat_id (amocrm_chat_id : string)
    : Session (option AmocrmChatBinding) :=
  single_active (fun b => String.eqb (cb_amocrm_chat_id b) amocrm_chat_id).

Definition get_active_by_conversation_id (conversation_id : uuid)
    : Session (option AmocrmChatBinding) :=
  single_active (fun b => bool_decide (cb_conversation_id b = conversation_id)).

Definition capture_integration_conversation_id (binding_id : uuid)
    (integration_conversation_id : string) : Session AmocrmChatBinding :=
  _ ← assert_or_raise (negb (str_blank integration_conversation_id))
    ValueError "INTEGRATION_CONVERSATION_ID_INVALID";
  let value := str_strip py_isspace integration_conversation_id in
  _ ← assert_or_raise (String.length value <=? 128)%nat
    ValueError "INTEGRATION_CONVERSATION_ID_INVALID";
  row ← get_by_id (R := AmocrmChatBinding) binding_id;
  row ← require_some row RuntimeError "BINDING_LOOKUP_FAILED";
  if bool_decide (cb_integration_conversation_id row = Some value) then mret row
  else if is_not_null (cb_integration_conversation_id row)
  then raise AmocrmChatBindingAmbiguousError "BINDING_INTEGRATION_CONVERSATION_CONFLICT"
  else
    let capture b := b <| cb_integration_conversation_id := Some value |> in
    _ ← update_by_id binding_id no_guard capture;
    mret (capture row).

(** [lookup] after the row was written; the columns' server default is
    [statement_timestamp()]. *)
Definition insert_active_if_absent (conversation_id : uuid) (amocrm_chat_id : string)
    (integration_conversation_id : option string) : Session (AmocrmChatBinding * bool) :=
  let lookup :=
    row ← get_active_by_amocrm_chat_id amocrm_chat_id;
    require_some row RuntimeError "BINDING_LOOKUP_FAILED" in
  let given := match integration_conversation_id with
    | Some value => negb (String.eqb value "")
    | None => false
    end in
  let capture_and_lookup id :=
    _ ← capture_integration_conversation_id id (default "" integration_conversation_id);
    lookup in
  existing ← get_active_by_amocrm_chat_id amocrm_chat_id;
  match existing with
  | Some existing =>
      if negb (bool_decide (cb_conversation_id existing = conversation_id))
      then raise AmocrmChatBindingAmbiguousError "BINDING_AMBIGUOUS"
      else if given then
        refreshed ← capture_and_lookup (cb_id existing);
        mret (refreshed, false)
      else mret (existing, false)
  | None =>
      new_id ← uuid4;
      now ← db_statement_now;
      inserted ← insert_on_conflict_do_nothing uq_amocrm_chat_bindings_amocrm_chat_id {|
        cb_id := new_id;
        cb_conversation_id := conversation_id;
        cb_amocrm_chat_id := amocrm_chat_id;
        cb_integration_conversation_id := integration_conversation_id;
        cb_status := BINDING_ACTIVE;
        cb_created_at := now;
        cb_updated_at := now
      |};
      row ← lookup;
      if negb (bool_decide (cb_conversation_id row = conversation_id))
      then raise AmocrmChatBindingAmbiguousError "BINDING_AMBIGUOUS"
      else if given &&
              match cb_integration_conversation_id row with
              | Some stored => String.eqb stored ""
              | None => true
              end
      then row ← capture_and_lookup (cb_id row); mret (row, inserted)
      else mret (row, inserted)
  end.

End binding_repo.
