(* ===== verification/SelfBookingExecution.v ===== *)
(** * Executing confirmed self-bookings

    src/app/services/self_booking_create_execution.py,
    self_booking_create_execution_worker.py and the worker's tick in
    worker_runtime.py: a confirmed command is claimed, its fences are compared,
    the client's data is read, the booking is created by one call to the outside
    and the outcome is recorded, all in one transaction. *)

From S2P Require Import Prelude BookingText Models Database Statements Conversations SelfBooking.
From S2P Require Import EphemeralPii BookingCreate.
Import SelfBookingCreatePendingService.

Inductive SelfBookingCreateExecutionOutcome :=
  | EXEC_SUCCEEDED | EXEC_FAILED | EXEC_CANCELLED | EXEC_EXPIRED | EXEC_RETRY_SCHEDULED
  | EXEC_CLAIM_DENIED | EXEC_LEASE_MISMATCH.

#[export] Instance SelfBookingCreateExecutionOutcome_eq_dec :
  EqDecision SelfBookingCreateExecutionOutcome.
Proof. solve_decision. Defined.

Record SelfBookingCreateExecutionResult := MkSelfBookingCreateExecutionResult {
  ser_outcome : SelfBookingCreateExecutionOutcome;
  ser_pending_id : option uuid;
  ser_pending_state : option SelfBookingCreatePendingState;
  ser_result_code : option string;
  ser_idempotency_key : option string;
  ser_booking_id : option string
}.

(** The resolver of client references, on the database of the transaction. *)
Class ClientRefResolver :=
  resolve_for_conversation : Env -> Database -> uuid -> ClientRefResolutionOutcome.

(** [_slot_from_pending] *)
Definition slot_from_pending (row : SelfBookingCreatePending) : option AvailableSlot :=
  starts_raw ← require_canonical_booking_starts_at (sb_starts_at row);
  parts ← parse_bot_slot_id (sb_slot_id row);
  Some (MkAvailableSlot (sb_slot_id row) (parse_studio_starts_at starts_raw)
          (bsp_master_id parts) (bsp_service_id parts)).

(** A result about the claimed row. *)
Definition result_of (claimed : SelfBookingCreatePending)
    (outcome : SelfBookingCreateExecutionOutcome)
    (pending_state : option SelfBookingCreatePendingState) (result_code : option string)
    (booking_id : option string) : SelfBookingCreateExecutionResult :=
  MkSelfBookingCreateExecutionResult outcome (Some (sb_id claimed)) pending_state result_code
    (Some (sb_idempotency_key claimed)) booking_id.

(** [_lease_mismatch_result] *)
Definition lease_mismatch_result (claimed : SelfBookingCreatePending)
    : Session SelfBookingCreateExecutionResult :=
  refreshed ← get_by_id (sb_id claimed);
  mret (result_of claimed EXEC_LEASE_MISMATCH (sb_state <$> (refreshed : option _))
          (Some "LEASE_MISMATCH"%string) None).

(** Record a terminal state under the lease and report it. *)
Definition finish (claimed : SelfBookingCreatePending) (lease : uuid)
    (state : SelfBookingCreatePendingState) (outcome : SelfBookingCreateExecutionOutcome)
    (result_code result_outcome : string) (booking_id : option string)
    : Session SelfBookingCreateExecutionResult :=
  now ← db_statement_now;
  ok ← pending_repo.mark_terminal claimed state (Some result_code) (Some result_outcome) now
    (Some lease);
  if ok : bool
  then mret (result_of claimed outcome (Some state) (Some result_code) booking_id)
  else lease_mismatch_result claimed.

(** [_fail_terminal] *)
Definition fail_terminal (claimed : SelfBookingCreatePending) (lease : uuid)
    (result_code : string) : Session SelfBookingCreateExecutionResult :=
  finish claimed lease SB_FAILED EXEC_FAILED result_code "FAILED" None.

(** The branch of [execute] for a pending that could not be claimed. *)
Definition not_claimed (pending_id : uuid) : Session SelfBookingCreateExecutionResult :=
  row ← get_by_id pending_id;
  mret match row with
  | Some row =>
      if bool_decide (sb_state row = SB_EXPIRED)
      then result_of row EXEC_EXPIRED (Some SB_EXPIRED) (sb_result_code row) None
      else MkSelfBookingCreateExecutionResult EXEC_CLAIM_DENIED (Some pending_id) None
             (Some "CLAIM_DENIED"%string) None None
  | None =>
      MkSelfBookingCreateExecutionResult EXEC_CLAIM_DENIED (Some pending_id) None
        (Some "CLAIM_DENIED"%string) None None
  end.

Section Execution.
Context `{CryptoLib} `{ClientRefResolver} (pii_store : EphemeralPiiStore).
Context (create_client : option (BookingCreatePort Env World)).

(** A value of the store under the booking purpose; the store reads it in a
    transaction of its own. *)
Definition read_pii (token : string) (conversation_id : uuid) (kind : EphemeralPiiKind)
    : Session string :=
  reference ← require_some (EphemeralPiiReferenceOps.parse token) EphemeralPiiError
    "EPHEMERAL_PII_REFERENCE_INVALID";
  EphemeralPiiStoreOps.read_plaintext pii_store reference conversation_id kind
    BOOKING_PHONE_WRITE.

(** [_read_booking_pii] *)
Definition read_booking_pii (row : SelfBookingCreatePending)
    : Session (option (string * string)) :=
  pii ← try_except
    (phone ← read_pii (sb_phone_ref_token row) (sb_conversation_id row) PII_PHONE;
     name ← read_pii (sb_name_ref_token row) (sb_conversation_id row) PII_CLIENT_NAME;
     mret (Some (phone, name)))
    (fun _ => true) (fun _ => mret None);
  mret (
    pair ← (pii : option (string * string));
    if String.eqb (fst pair) "" || String.eqb (snd pair) "" then None else Some pair).

(** One round of the loop of [_best_effort_delete_pii]. *)
Definition delete_pii (token : string) (conversation_id : uuid) (kind : EphemeralPiiKind)
    : Session unit :=
  try_except
    (reference ← require_some (EphemeralPiiReferenceOps.parse token) EphemeralPiiError
       "EPHEMERAL_PII_REFERENCE_INVALID";
     EphemeralPiiStoreOps.delete reference conversation_id kind BOOKING_PHONE_WRITE)
    (fun _ => true) (fun _ => mret tt).

(** [_best_effort_delete_pii]: the store deletes in transactions of its own. *)
Definition best_effort_delete_pii (conversation_id : uuid) (phone_ref name_ref : string)
    : Session unit :=
  _ ← delete_pii phone_ref conversation_id PII_PHONE;
  delete_pii name_ref conversation_id PII_CLIENT_NAME.

(** [_apply_create_result] *)
Definition apply_create_result (claimed : SelfBookingCreatePending) (lease : uuid)
    (create_result : BookingCreateApplicationResult)
    : Within SelfBookingCreateExecutionResult :=
  match create_result with
  | BookingCreateConfirmedResult booking_id _ _ _ _ =>
      result ← stmt (finish claimed lease SB_SUCCEEDED EXEC_SUCCEEDED "OK" "SUCCEEDED"
        (Some booking_id));
      _ ← when (bool_decide (ser_outcome result = EXEC_SUCCEEDED))
        (stmt (best_effort_delete_pii (sb_conversation_id claimed) (sb_phone_ref_token claimed)
          (sb_name_ref_token claimed)));
      mret result
  | BookingCreateRejectedResult RETRY_LATER reason _ =>
      stmt (
        now ← db_statement_now;
        ok ← pending_repo.release_to_ready claimed lease (Some reason) now;
        if ok : bool
        then mret (result_of claimed EXEC_RETRY_SCHEDULED (Some SB_READY) (Some reason) None)
        else lease_mismatch_result claimed)
  | BookingCreateRejectedResult _ reason _ =>
      stmt (fail_terminal claimed lease reason)
  end.

Definition resolve_client_ref (conversation_id : uuid) : Within ClientRefResolutionOutcome :=
  env ← get_env;
  w ← get_state;
  mret (resolve_for_conversation env (w_db w) conversation_id).

(** What follows the claim in [execute]. *)
Definition execute_claimed (claimed : SelfBookingCreatePending) (lease : uuid)
    : Within SelfBookingCreateExecutionResult :=
  cancelled ← stmt (cancel_if_conversation_fences_stale (sb_id claimed));
  if cancelled : bool then
    stmt (
      refreshed ← get_by_id (sb_id claimed);
      mret (result_of claimed EXEC_CANCELLED (Some SB_CANCELLED)
        (refreshed ← (refreshed : option SelfBookingCreatePending); sb_result_code refreshed)
        None))
  else
    pii ← stmt (read_booking_pii claimed);
    match (pii : option (string * string)) with
    | None => stmt (fail_terminal claimed lease "PII_UNAVAILABLE")
    | Some (phone, name) =>
        match slot_from_pending claimed with
        | None => stmt (fail_terminal claimed lease "SLOT_INVALID")
        | Some slot =>
            create_result ← confirm_selected_slot_for_conversation create_client
              resolve_client_ref slot (sb_conversation_id claimed)
              (sb_idempotency_key claimed) name phone true true;
            apply_create_result claimed lease create_result
        end
    end.

Definition execute (pending_id : uuid) : Within SelfBookingCreateExecutionResult :=
  claimed ← stmt (claim_for_execution pending_id None);
  match claimed with
  | None => stmt (not_claimed pending_id)
  | Some claimed =>
      match sb_execution_lease_token claimed with
      | None =>
          mret (result_of claimed EXEC_CLAIM_DENIED (Some SB_EXECUTING)
                  (Some "LEASE_MISSING"%string) None)
      | Some lease => execute_claimed claimed lease
      end
  end.
End Execution.

(** ** The worker *)

Module SelfBookingCreateExecutionWorker.

(** The transaction of [claim_one]. *)
Definition find_claimable : Session (option uuid) :=
  now ← db_statement_now;
  pending_repo.lock_next_claimable_id now.

Section Worker.
Context `{Interference} `{CryptoLib} `{ClientRefResolver}.
Context (pii_store : option EphemeralPiiStore).
Context (create_client : option (BookingCreatePort Env World)).

Definition claim_one : Process (option uuid) :=
  match pii_store with
  | None => mret None
  | Some _ => transaction find_claimable
  end.

Definition process_one (pending_id : uuid) : Process SelfBookingCreateExecutionResult :=
  match pii_store with
  | None => raise RuntimeError "SELF_BOOKING_EXEC_PII_STORE_REQUIRED"
  | Some store => calling_transaction (execute store create_client pending_id)
  end.

Fixpoint process_up_to (max_items : nat) : Process unit :=
  match max_items with
  | O => mret tt
  | S max_items =>
      pending_id ← claim_one;
      match pending_id with
      | None => mret tt
      | Some pending_id =>
          _ ← process_one pending_id;
          process_up_to max_items
      end
  end.

(** [self_booking_create_tick] of worker_runtime.py. *)
Definition tick (worker_batch_size : Z) : Process unit :=
  process_up_to (Z.to_nat (Z.min worker_batch_size 5)).
End Worker.
End SelfBookingCreateExecutionWorker.

(** The create port of the HTTP client: its transport is the outside. *)
Definition http_transport (answer : nat -> S2sReply) (request : S2sHttpRequest)
    : Within S2sReply :=
  call_outside (BookingCreatePost (s2s_url request) (s2s_body request))
    (fun n => Returned (answer n)).

Definition http_create_client `{WireLib} (config : BookingEligibilityHttpConfig)
    (answer : nat -> S2sReply) : BookingCreatePort Env World :=
  create_booking (http_transport answer) config.
