(* ===== verification/HandoffExpiry.v ===== *)
(** * Handoff expiry: src/app/services/handoff_expiry.py

    Returns a due manager handoff to the bot in one transaction: an active
    handoff drops the bot's leftovers, a pause hands over its deferred plan; a
    row that contradicts the pause invariant is quarantined instead. *)

From S2P Require Import Prelude Models Database Statements Conversations ReplyPlans Outbound.

Inductive HandoffExpiryTransition :=
  | HUMAN_ACTIVE_TO_BOT | HUMAN_PAUSE_TO_BOT | EXPIRY_QUARANTINED.

#[export] Instance HandoffExpiryTransition_eq_dec : EqDecision HandoffExpiryTransition.
Proof. solve_decision. Defined.

Record HandoffExpiryResult := MkHandoffExpiryResult {
  her_conversation_id : uuid;
  her_transition : HandoffExpiryTransition;
  her_active_reply_plan_id : option uuid;
  her_cancelled_plans : Z;
  her_cancelled_outbound : Z;
  her_quarantine_reason : option string
}.

Definition invariant_error {A} (reason : string) : Session A :=
  raise HandoffExpiryInvariantError reason.

Definition lock_current_deferred_plan (conversation : Conversation) : Session ReplyPlan :=
  match conv_active_reply_plan_id conversation with
  | None => invariant_error "HANDOFF_DEFERRED_PLAN_MISSING"
  | Some plan_id =>
      plan ← get_by_id plan_id;
      match plan with
      | None => invariant_error "HANDOFF_DEFERRED_PLAN_MISSING"
      | Some plan =>
          if negb (bool_decide (rp_conversation_id plan = conv_id conversation))
          then invariant_error "HANDOFF_DEFERRED_PLAN_MISSING"
          else if negb (bool_decide (rp_plan_type plan = CLIENT_REPLY))
          then invariant_error "HANDOFF_DEFERRED_PLAN_TYPE"
          else if negb (bool_decide (rp_status plan = RP_PENDING) ||
                        bool_decide (rp_status plan = RP_READY))
          then invariant_error "HANDOFF_DEFERRED_PLAN_NOT_OPEN"
          else if negb (rp_context_version plan =? conv_context_version conversation)
          then invariant_error "HANDOFF_DEFERRED_PLAN_CONTEXT"
          else if negb (rp_manager_epoch plan =? conv_manager_epoch conversation)
          then invariant_error "HANDOFF_DEFERRED_PLAN_MANAGER_EPOCH"
          else if negb (rp_event_seq_hwm plan =? conv_current_event_seq conversation)
          then invariant_error "HANDOFF_DEFERRED_PLAN_EVENT_SEQ"
          else if negb (bool_decide (Some (rp_not_before plan) =
                                     conv_handoff_deadline_at conversation))
          then invariant_error "HANDOFF_DEFERRED_PLAN_DEADLINE"
          else if negb (bool_decide (jget (rp_payload_json plan) "deferred_for_handoff" =
                                     Some (JBool true)))
          then invariant_error "HANDOFF_DEFERRED_PLAN_MARKER"
          else mret plan
      end
  end.

(** The [try] block of [expire_one]. *)
Definition expire_claimed (conversation : Conversation) (moment : instant)
    : Session HandoffExpiryResult :=
  match conv_handoff_state conversation with
  | HUMAN_ACTIVE =>
      cancelled_plans ← reply_plan_repo.cancel_open_plans_for_takeover
        (conv_id conversation) "HANDOFF_EXPIRED_NO_CLIENT";
      cancelled_outbound ← outbound_repo.cancel_unadmitted_for_manager_message
        (conv_id conversation);
      conversation ← conversation_repo.return_due_handoff_to_bot conversation moment None;
      mret (MkHandoffExpiryResult (conv_id conversation) HUMAN_ACTIVE_TO_BOT None
              cancelled_plans cancelled_outbound None)
  | HUMAN_PAUSE =>
      plan ← lock_current_deferred_plan conversation;
      conversation ← conversation_repo.return_due_handoff_to_bot conversation moment
        (Some (rp_id plan));
      mret (MkHandoffExpiryResult (conv_id conversation) HUMAN_PAUSE_TO_BOT
              (Some (rp_id plan)) 0 0 None)
  | BOT_ACTIVE => invariant_error "HANDOFF_EXPIRY_UNSUPPORTED_STATE"
  end.

Definition is_invariant_error (e : exn) : bool :=
  bool_decide (exn_class e = HandoffExpiryInvariantError).

Definition expire_one : Session (option HandoffExpiryResult) :=
  session_scope (
    claimed ← conversation_repo.claim_next_due_handoff;
    match claimed with
    | None => mret None
    | Some conversation =>
        moment ← db_statement_now;
        result ← try_in_transaction (expire_claimed conversation moment)
          is_invariant_error
          (fun exc =>
             let reason_code := exn_message exc in
             conversation ← conversation_repo.quarantine_due_handoff_expiry conversation
               reason_code moment;
             mret (MkHandoffExpiryResult (conv_id conversation) EXPIRY_QUARANTINED None 0 0
                     (Some reason_code)));
        mret (Some result)
    end).

(** [tick]: drain at most [max_items] due dialogs, one transaction each. *)
Fixpoint expire_up_to `{Interference} (max_items : nat) : Process (list HandoffExpiryResult) :=
  match max_items with
  | O => mret []
  | S max_items =>
      result ← transaction expire_one;
      match result with
      | None => mret []
      | Some result => results ← expire_up_to max_items; mret (result :: results)
      end
  end.

Definition tick `{Interference} (max_items : Z) : Process (list HandoffExpiryResult) :=
  _ ← assert_or_raise (negb (max_items <=? 0)) ValueError "max_items must be positive";
  expire_up_to (Z.to_nat max_items).
