(* ===== verification/ReplyDispatch.v ===== *)
(** * Dispatching reply plans: ReplyPlanWorker of src/app/services/reply_outbound.py

    A due plan is claimed under a lease, re-fenced against its dialog, turned
    into one outbox row and closed as dispatched, in one transaction; a plan
    with a booking fixture resolves the booking between two transactions, behind
    a durable marker.  What [resolve_booking_outbound_fields] answers (the
    fixture parser and BookingFlowService) is a parameter: any dictionary or any
    exception.  The plan payloads of the VK closed proof are those of
    src/app/services/vk_client_outbound_proof.py. *)

From S2P Require Import Prelude Models Database Statements Conversations ReplyPlans Outbound.
From S2P Require Import Mirror ReplyText BookingFields.
Import reply_plan_repo.

(** ** Payloads of the VK closed proof *)

Definition PROOF_REPLY_PLAN_SCHEMA : string := "vk.client.proof.reply_plan.v1".
Definition VK_CLIENT_OUTBOUND_PAYLOAD_SCHEMA : string := "vk.client.outbound.v1".

Definition vk_client_proof_reply_plan_payload (text : string) : jdict :=
  [ ("schema", JStr PROOF_REPLY_PLAN_SCHEMA); ("destination", JStr "VK_CLIENT_OUTBOUND");
    ("text", JStr text) ].

Definition vk_client_outbound_payload (text : string) : jdict :=
  [ ("schema", JStr VK_CLIENT_OUTBOUND_PAYLOAD_SCHEMA); ("text", JStr text) ].

Definition is_vk_client_proof_reply_plan (payload : jdict) : bool :=
  bool_decide (jget payload "schema" = Some (JStr PROOF_REPLY_PLAN_SCHEMA)) &&
  bool_decide (jget payload "destination" = Some (JStr "VK_CLIENT_OUTBOUND")) &&
  match jget payload "text" with
  | Some (JStr text) => negb (String.eqb text "")
  | _ => false
  end.

(** ** The worker *)

Record ReplyPlanDispatchResult := MkReplyPlanDispatchResult {
  rpd_plan_id : uuid;
  rpd_plan_status : ReplyPlanStatus;
  rpd_outbound_id : uuid;
  rpd_outbound_created : bool
}.

(** [_BookingPrepare]: the kind with the data each kind carries. *)
Inductive BookingPrepare :=
  | PREPARE_FINALIZED (result : ReplyPlanDispatchResult)
  | PREPARE_RUN_REMOTE (plan_payload : jdict)
  | PREPARE_INTERRUPTED (plan_payload : jdict)
  | PREPARE_USE_SAVED_RESULT (plan_payload booking_fields : jdict).

Definition stale {A} (message : string) : Session A :=
  raise StaleReplyPlanLeaseError message.

(** [_lock_and_validate] *)
Definition lock_and_validate (claim : ReplyPlanClaim) : Session ReplyPlan :=
  conversation ← conversation_repo.lock_for_update (rpc_conversation_id claim);
  if negb (conv_context_version conversation =? rpc_context_version claim)
  then stale "REPLY_PLAN_STALE_CONTEXT"
  else if negb (bool_decide (conv_ownership conversation = BOT))
  then stale "REPLY_PLAN_MANAGER_OWNED"
  else if negb (bool_decide (conv_handoff_state conversation = BOT_ACTIVE))
  then stale "REPLY_PLAN_HANDOFF_NOT_BOT_ACTIVE"
  else if is_not_null (conv_manager_takeover_at conversation)
  then stale "REPLY_PLAN_MANAGER_TAKEOVER"
  else if negb (conv_manager_epoch conversation =? rpc_manager_epoch claim)
  then stale "REPLY_PLAN_STALE_MANAGER_EPOCH"
  else if negb (conv_current_event_seq conversation =? rpc_event_seq_hwm claim)
  then stale "REPLY_PLAN_STALE_EVENT_SEQUENCE"
  else
    plan_row ← get_by_id (rpc_plan_id claim);
    match plan_row with
    | Some plan_row =>
        if holds_lease (rpc_lease_token claim) (rpc_lease_version claim) plan_row &&
           (rp_manager_epoch plan_row =? rpc_manager_epoch claim) &&
           (rp_event_seq_hwm plan_row =? rpc_event_seq_hwm claim)
        then mret plan_row
        else stale "REPLY_PLAN_STALE_LEASE"
    | None => stale "REPLY_PLAN_STALE_LEASE"
    end.

(** [_complete_dispatched] *)
Definition complete_dispatched (claim : ReplyPlanClaim) (outbound_id : uuid)
    (outbound_created : bool) : Session ReplyPlanDispatchResult :=
  plan ← complete_dispatched_with_lease (rpc_plan_id claim) (rpc_lease_token claim)
    (rpc_lease_version claim);
  _ ← amocrm_mirror.enqueue_reply_plan_state_changed (rpc_conversation_id claim) (rp_id plan)
    (rp_status plan) (rpc_context_version claim) (rpc_correlation_id claim);
  mret (MkReplyPlanDispatchResult (rp_id plan) (rp_status plan) outbound_id outbound_created).

(** The proof branch of [_dispatch_non_booking]: the VK outbox row. *)
Definition dispatch_vk_proof (claim : ReplyPlanClaim) (plan_row : ReplyPlan)
    (conversation : Conversation) : Session (OutboxMessage * bool) :=
  _ ← assert_or_raise (bool_decide (conv_channel conversation = CHANNEL_VK))
    RuntimeError "VK_OUTBOUND_CHANNEL_MISMATCH";
  text ← match jget (rpc_payload_json claim) "text" with
         | Some (JStr text) =>
             if String.eqb text "" then raise RuntimeError "VK_OUTBOUND_TEXT_MISSING"
             else mret text
         | _ => raise RuntimeError "VK_OUTBOUND_TEXT_MISSING"
         end;
  existing ← outbound_repo.get_by_idempotency_key
    (outbound_repo.vk_client_outbound_idempotency_key (rpc_plan_id claim));
  '(outbound, created) ← match existing with
    | Some existing => mret (existing, false)
    | None =>
        outbound_repo.insert_vk_client_outbound_if_absent (rpc_conversation_id claim)
          (rpc_plan_id claim) (rpc_context_version claim) (vk_client_outbound_payload text)
          (rpc_correlation_id claim) (rpc_not_before claim) (rp_max_attempts plan_row)
          (rpc_manager_epoch claim) (rpc_event_seq_hwm claim)
    end;
  _ ← assert_or_raise (bool_decide (ob_destination_type outbound = VK_CLIENT_OUTBOUND))
    RuntimeError "VK_OUTBOUND_DESTINATION_MISMATCH";
  mret (outbound, created).

(** The other branch: the synthetic outbox row. *)
Definition dispatch_synthetic (claim : ReplyPlanClaim) (plan_row : ReplyPlan)
    (conversation : Conversation) : Session (OutboxMessage * bool) :=
  _ ← assert_or_raise (negb (bool_decide (conv_channel conversation = CHANNEL_VK)))
    RuntimeError "VK_OUTBOUND_PROOF_REQUIRED";
  existing ← outbound_repo.get_by_idempotency_key
    (outbound_repo.synthetic_outbound_idempotency_key (rpc_plan_id claim));
  match existing with
  | Some existing => mret (existing, false)
  | None =>
      outbound_payload ← build_synthetic_outbound_payload (rpc_payload_json claim) None;
      outbound_repo.insert_synthetic_outbound_if_absent (rpc_conversation_id claim)
        (rpc_plan_id claim) (rpc_context_version claim) outbound_payload
        (rpc_correlation_id claim) (rpc_not_before claim) (rp_max_attempts plan_row)
        (rpc_manager_epoch claim) (rpc_event_seq_hwm claim)
  end.

(** The transaction of [_dispatch_non_booking]. *)
Definition dispatch_non_booking (claim : ReplyPlanClaim) : Session ReplyPlanDispatchResult :=
  plan_row ← lock_and_validate claim;
  conversation ← conversation_repo.get_by_id_for_update (rpc_conversation_id claim);
  conversation ← require_some conversation RuntimeError "CONVERSATION_MISSING";
  '(outbound, created) ←
    (if is_vk_client_proof_reply_plan (rpc_payload_json claim)
     then dispatch_vk_proof claim plan_row conversation
     else dispatch_synthetic claim plan_row conversation);
  complete_dispatched claim (ob_id outbound) created.

(** [HAS_RESULT]: the saved fields. *)
Definition use_saved_result (plan_payload : jdict) : Session BookingPrepare :=
  fields ← require_some (read_booking_resolution_result plan_payload) AssertionError "";
  mret (PREPARE_USE_SAVED_RESULT plan_payload fields).

(** The end of [_booking_phase1_prepare]: take the marker, or find it taken and
    never start a second remote resolution. *)
Definition mark_or_interrupt (claim : ReplyPlanClaim) (plan_payload : jdict)
    : Session BookingPrepare :=
  acquired ← try_mark_booking_resolution_started (rpc_plan_id claim)
    (rpc_lease_token claim) (rpc_lease_version claim);
  if acquired : bool then
    mret (PREPARE_RUN_REMOTE (jset plan_payload "booking_resolution_started" (JBool true)))
  else
    refreshed ← get_by_id (R := ReplyPlan) (rpc_plan_id claim);
    refreshed ← require_some refreshed StaleReplyPlanLeaseError "REPLY_PLAN_STALE_LEASE";
    let plan_payload := rp_payload_json refreshed in
    match booking_resolution_phase plan_payload with
    | HAS_RESULT => use_saved_result plan_payload
    | _ => mret (PREPARE_INTERRUPTED plan_payload)
    end.

(** The transaction of [_booking_phase1_prepare]. *)
Definition booking_phase1_prepare (claim : ReplyPlanClaim) : Session BookingPrepare :=
  plan_row ← lock_and_validate claim;
  let plan_payload := rp_payload_json plan_row in
  existing ← outbound_repo.get_by_idempotency_key
    (outbound_repo.synthetic_outbound_idempotency_key (rpc_plan_id claim));
  match existing with
  | Some existing =>
      result ← complete_dispatched claim (ob_id existing) false;
      mret (PREPARE_FINALIZED result)
  | None =>
      match booking_resolution_phase plan_payload with
      | HAS_RESULT => use_saved_result plan_payload
      | INTERRUPTED => mret (PREPARE_INTERRUPTED plan_payload)
      | NON_BOOKING | NEEDS_REMOTE => mark_or_interrupt claim plan_payload
      end
  end.

(** The transaction of [_booking_phase2_finalize]. *)
Definition booking_phase2_finalize (claim : ReplyPlanClaim)
    (plan_payload booking_fields : jdict) (persist_result : bool)
    : Session ReplyPlanDispatchResult :=
  let safe_fields := sanitize_booking_result_fields (JObj booking_fields) in
  plan_row ← lock_and_validate claim;
  let current_payload := rp_payload_json plan_row in
  existing ← outbound_repo.get_by_idempotency_key
    (outbound_repo.synthetic_outbound_idempotency_key (rpc_plan_id claim));
  match existing with
  | Some existing => complete_dispatched claim (ob_id existing) false
  | None =>
      current_payload ←
        (if persist_result &&
            match jget current_payload "booking_resolution_result" with
            | Some (JObj _) => false
            | _ => true
            end
         then persist_booking_resolution_result (rpc_plan_id claim) (rpc_lease_token claim)
                (rpc_lease_version claim) safe_fields
         else mret current_payload);
      let stored := read_booking_resolution_result current_payload in
      outbound_payload ← build_synthetic_outbound_payload
        (if is_not_null stored then current_payload else plan_payload)
        (Some (default safe_fields stored));
      '(outbound, created) ← outbound_repo.insert_synthetic_outbound_if_absent
        (rpc_conversation_id claim) (rpc_plan_id claim) (rpc_context_version claim)
        outbound_payload (rpc_correlation_id claim) (rpc_not_before claim)
        (rp_max_attempts plan_row) (rpc_manager_epoch claim) (rpc_event_seq_hwm claim);
      complete_dispatched claim (ob_id outbound) created
  end.

(** The start of [claim_one]: one plan whose last attempt was abandoned dies. *)
Definition recover_one_exhausted (moment : instant) : Session unit :=
  exhausted ← find_exhausted_lease (Some moment);
  match exhausted with
  | None => mret tt
  | Some exhausted =>
      _ ← conversation_repo.lock_for_update (erl_conversation_id exhausted);
      recovered ← recover_exhausted_lease (erl_plan_id exhausted) (Some moment);
      match recovered with
      | None => mret tt
      | Some recovered =>
          _ ← amocrm_mirror.enqueue_reply_plan_state_changed
            (rp_conversation_id recovered) (rp_id recovered) (rp_status recovered)
            (rp_context_version recovered) (rp_correlation_id recovered);
          mret tt
      end
  end.

(** The transaction of [claim_one]. *)
Definition claim_one_plan (worker_id : string) (lease_seconds : Z) (now : option instant)
    : Session (option ReplyPlanClaim) :=
  moment ← resolve_moment now;
  _ ← recover_one_exhausted moment;
  claim_next worker_id lease_seconds (Some moment).

(** The transaction of [fail_claimed]. *)
Definition fail_claimed_plan (retry_delay_seconds : Z) (claim : ReplyPlanClaim)
    (error_code : string) : Session ReplyPlan :=
  _ ← conversation_repo.lock_for_update (rpc_conversation_id claim);
  plan ← fail_with_lease (rpc_plan_id claim) (rpc_lease_token claim)
    (rpc_lease_version claim) error_code retry_delay_seconds None;
  _ ← when (bool_decide (rp_status plan = RP_DEAD)) (
    _ ← amocrm_mirror.enqueue_reply_plan_state_changed (rpc_conversation_id claim)
      (rp_id plan) (rp_status plan) (rpc_context_version claim) (rpc_correlation_id claim);
    mret tt);
  mret plan.

Module ReplyPlanWorker.
Section Worker.
Context `{Interference}.
(** [resolve_booking_outbound_fields] with this worker's BookingFlowService. *)
Context (resolve_booking_outbound_fields : nat -> jdict -> result jdict).
Context (worker_id : string) (lease_seconds retry_delay_seconds : Z).

Definition claim_one (now : option instant) : Process (option ReplyPlanClaim) :=
  transaction (claim_one_plan worker_id lease_seconds now).

Definition fail_claimed (claim : ReplyPlanClaim) (error_code : string)
    : Process ReplyPlan :=
  transaction (fail_claimed_plan retry_delay_seconds claim error_code).

Definition resolve_booking_off_transaction (plan_payload : jdict) : Process jdict :=
  call_outside (BookingFlowCall plan_payload)
    (fun n => resolve_booking_outbound_fields n plan_payload).

Definition dispatch_booking (claim : ReplyPlanClaim) : Process ReplyPlanDispatchResult :=
  prepare ← transaction (booking_phase1_prepare claim);
  match prepare with
  | PREPARE_FINALIZED result => mret result
  | PREPARE_USE_SAVED_RESULT plan_payload booking_fields =>
      transaction (booking_phase2_finalize claim plan_payload booking_fields false)
  | PREPARE_INTERRUPTED plan_payload =>
      transaction (booking_phase2_finalize claim plan_payload interrupted_booking_fields
        true)
  | PREPARE_RUN_REMOTE plan_payload =>
      booking_fields ← resolve_booking_off_transaction plan_payload;
      transaction (booking_phase2_finalize claim plan_payload booking_fields true)
  end.

Definition dispatch_claimed (claim : ReplyPlanClaim) : Process ReplyPlanDispatchResult :=
  try_except
    (if negb (plan_has_booking_fixture (rpc_payload_json claim))
     then transaction (dispatch_non_booking claim)
     else dispatch_booking claim)
    (fun exc => negb (bool_decide (exn_class exc = StaleReplyPlanLeaseError)))
    (fun exc =>
       _ ← fail_claimed claim (class_name (exn_class exc));
       raise (exn_class exc) (exn_message exc)).
End Worker.
End ReplyPlanWorker.
