(* ===== verification/VkGate.v ===== *)
(** * Send gates

    src/app/core/outbound_policy.py and the predicates of
    src/app/channels/vk_client_outbound_config.py that decide whether a VK
    message may leave, and src/app/services/vk_client_outbound_proof.py, the
    only creator of VK reply plans.  [Settings] keeps the two settings they
    read. *)

From S2P Require Import Prelude BookingText Models Database Statements Conversations ReplyPlans.
From S2P Require Import Outbound BookingFields ReplyDispatch.

Inductive BotMode := MODE_OFF | MODE_HINTS | MODE_DRAFT | MODE_AUTO_READ | MODE_AUTO_WRITE.

#[export] Instance BotMode_eq_dec : EqDecision BotMode.
Proof. solve_decision. Defined.

Record Settings := MkSettings { emergency_lock : bool; bot_mode : BotMode }.

Inductive OutboundAction := SEND_MESSAGE.

Definition is_automatic_outbound_allowed (settings : Settings) (action : OutboundAction)
    : bool :=
  if emergency_lock settings then false
  else if bool_decide (bot_mode settings = MODE_OFF) then false
  else match action with SEND_MESSAGE => false end.

Record VkClientOutboundConfig := MkVkClientOutboundConfig {
  vkc_outbound_enabled : bool;
  vkc_access_token : option string;
  vkc_allow_conversation : option string;
  vkc_proof_enabled : bool;
  vkc_proof_trigger : option string;
  vkc_proof_reply : option string;
  vkc_group_id : option Z;
  vkc_provenance_key : option string
}.

Definition nonempty_digits (s : string) : bool :=
  negb (String.eqb s "") && str_forall is_digit s.

(** The peer of a private dialog [vk-{group}-{user}]; [None] is
    VkClientPeerResolutionError. *)
Definition parse_vk_client_peer_id (external_conversation_id : string)
    (expected_group_id : Z) : option Z :=
  if expected_group_id <=? 0 then None
  else
    match str_split "-" external_conversation_id with
    | [prefix; group; user] =>
        if negb (String.eqb prefix "vk" && nonempty_digits group && nonempty_digits user)
        then None
        else
          let group_id := digits_value 0 group in
          let user_id := digits_value 0 user in
          if negb (group_id =? expected_group_id) then None
          else if user_id <=? 0 then None
          else Some user_id
    | _ => None
    end.

(** [type(value) is str and bool(value)] *)
Definition truthy (value : option string) : bool :=
  match value with Some s => negb (String.eqb s "") | None => false end.

Definition send_config_complete (config : VkClientOutboundConfig) : bool :=
  (match vkc_group_id config with Some g => 0 <? g | None => false end) &&
  truthy (vkc_access_token config) && truthy (vkc_allow_conversation config) &&
  truthy (vkc_provenance_key config).

Definition proof_config_complete (config : VkClientOutboundConfig) : bool :=
  send_config_complete config && truthy (vkc_proof_trigger config) &&
  truthy (vkc_proof_reply config).

Definition conversation_allowlisted (config : VkClientOutboundConfig)
    (external_conversation_id : string) : bool :=
  if negb (send_config_complete config) then false
  else sql_eq (vkc_allow_conversation config) external_conversation_id.

Definition vk_client_outbound_send_allowed (settings : Settings)
    (config : VkClientOutboundConfig) (external_conversation_id : string) : bool :=
  if negb (vkc_outbound_enabled config) then false
  else if negb (send_config_complete config) then false
  else if emergency_lock settings then false
  else if negb (bool_decide (bot_mode settings = MODE_AUTO_WRITE)) then false
  else if negb (conversation_allowlisted config external_conversation_id) then false
  else
    match vkc_group_id config with
    | Some group_id => is_not_null (parse_vk_client_peer_id external_conversation_id group_id)
    | None => false
    end.

Definition vk_client_outbound_proof_allowed (settings : Settings)
    (config : VkClientOutboundConfig) (external_conversation_id inbound_text : string)
    : bool :=
  if negb (vk_client_outbound_send_allowed settings config external_conversation_id)
  then false
  else if negb (vkc_proof_enabled config) then false
  else if negb (proof_config_complete config) then false
  else sql_eq (vkc_proof_trigger config) inbound_text.

Definition maybe_create_vk_client_proof_reply_plan (settings : Settings)
    (config : option VkClientOutboundConfig) (conversation : Conversation)
    (inbound_text : string) (created_inbox : bool)
    : Session (Conversation * option ReplyPlan) :=
  if negb created_inbox then mret (conversation, None)
  else
    match config with
    | None => mret (conversation, None)
    | Some config =>
        if negb (bool_decide (conv_channel conversation = CHANNEL_VK))
        then mret (conversation, None)
        else if negb (vk_client_outbound_proof_allowed settings config
                        (conv_external_conversation_id conversation) inbound_text)
        then mret (conversation, None)
        else
          proof_reply ← require_some (vkc_proof_reply config) AssertionError "";
          _ ← reply_plan_repo.supersede_open_plans (conv_id conversation)
            "VK_CLIENT_PROOF_TRIGGER";
          _ ← outbound_repo.cancel_unadmitted_for_conversation (conv_id conversation);
          correlation_id ← uuid4;
          plan ← reply_plan_repo.create_client_reply_plan (conv_id conversation)
            (conv_context_version conversation) correlation_id
            (vk_client_proof_reply_plan_payload proof_reply) BOT_RESPONSE_DELAY_MS
            reply_plan_repo.DEFAULT_MAX_ATTEMPTS None None
            (conv_manager_epoch conversation) (conv_current_event_seq conversation);
          conversation ← conversation_repo.assign_active_reply_plan_id conversation
            (Some (rp_id plan));
          mret (conversation, Some plan)
    end.
