(* ===== verification/IngressQueue.v ===== *)
(** * The ingress queue: src/app/repositories/ingress.py

    The durable log of provider events: idempotent receipt, a claim under a
    lease with SKIP LOCKED, completion and failure under that lease, burial of
    events whose last attempt was abandoned. *)

From S2P Require Import Prelude Models Database Statements.

Module ingress_repo.

Definition DEFAULT_LEASE_SECONDS : Z := 30.
Definition DEFAULT_MAX_ATTEMPTS : Z := 5.
Definition DEFAULT_RETRY_DELAY_SECONDS : Z := 1.

Record IngressClaim := MkIngressClaim {
  igc_event_id : uuid;
  igc_channel : IngressChannel;
  igc_external_event_id : string;
  igc_external_conversation_id : string;
  igc_event_type : IngressEventType;
  igc_status : IngressStatus;
  igc_attempt_count : Z;
  igc_max_attempts : Z;
  igc_lease_owner : string;
  igc_lease_token : uuid;
  igc_lease_version : Z;
  igc_lease_until : instant;
  igc_correlation_id : uuid;
  igc_envelope_json : jdict
}.

Definition row_to_claim (row : IngressEvent) : Session IngressClaim :=
  match ing_lease_token row, ing_lease_owner row, ing_lease_until row with
  | Some lease_token, Some lease_owner, Some lease_until => mret {|
      igc_event_id := ing_id row;
      igc_channel := ing_channel row;
      igc_external_event_id := ing_external_event_id row;
      igc_external_conversation_id := ing_external_conversation_id row;
      igc_event_type := ing_event_type row;
      igc_status := ing_status row;
      igc_attempt_count := ing_attempt_count row;
      igc_max_attempts := ing_max_attempts row;
      igc_lease_owner := lease_owner;
      igc_lease_token := lease_token;
      igc_lease_version := ing_lease_version row;
      igc_lease_until := lease_until;
      igc_correlation_id := ing_correlation_id row;
      igc_envelope_json := ing_envelope_json row
    |}
  | _, _, _ => raise RuntimeError "INGRESS_LEASE_INCOMPLETE"
  end.

Definition get_by_channel_external (channel : IngressChannel) (external_event_id : string)
    : Session (option IngressEvent) :=
  select_scalar (fun e =>
    bool_decide (ing_channel e = channel) &&
    String.eqb (ing_external_event_id e) external_event_id).

(** [_assert_channel_event_pairing] *)
Definition channel_event_pairing (channel : IngressChannel) (event_type : IngressEventType)
    : bool :=
  match channel with
  | INGRESS_AMOCRM => bool_decide (event_type = AMOCRM_MANAGER_MESSAGE)
  | INGRESS_SYNTHETIC => bool_decide (event_type = SYNTHETIC_MESSAGE)
  | INGRESS_VK =>
      bool_decide (event_type = VK_CLIENT_MESSAGE) ||
      bool_decide (event_type = VK_CLIENT_MESSAGE_REPLY)
  end.

(** The row a new event starts as. *)
Definition received_event (id : uuid) (channel : IngressChannel)
    (external_event_id external_conversation_id : string) (event_type : IngressEventType)
    (envelope_json : jdict) (correlation_id : uuid) (max_attempts : Z) (now : instant)
    : IngressEvent := {|
  ing_id := id;
  ing_channel := channel;
  ing_external_event_id := external_event_id;
  ing_external_conversation_id := external_conversation_id;
  ing_event_type := event_type;
  ing_status := ING_RECEIVED;
  ing_attempt_count := 0;
  ing_max_attempts := max_attempts;
  ing_next_attempt_at := None;
  ing_lease_owner := None;
  ing_lease_token := None;
  ing_lease_version := 0;
  ing_lease_until := None;
  ing_correlation_id := correlation_id;
  ing_envelope_json := envelope_json;
  ing_error_code := None;
  ing_created_at := now;
  ing_updated_at := now
|}.

Definition insert_if_absent (channel : IngressChannel)
    (external_event_id external_conversation_id : string) (event_type : IngressEventType)
    (envelope_json : jdict) (correlation_id : uuid) (max_attempts : Z)
    : Session (IngressEvent * bool) :=
  _ ← assert_or_raise (negb (max_attempts <=? 0)) ValueError "max_attempts must be positive";
  _ ← assert_or_raise (channel_event_pairing channel event_type)
    ValueError "INGRESS_CHANNEL_EVENT_MISMATCH";
  existing ← get_by_channel_external channel external_event_id;
  match existing with
  | Some existing => mret (existing, false)
  | None =>
      new_id ← uuid4;
      now ← db_now;
      inserted ← insert_on_conflict_do_nothing uq_ingress_channel_external_event_id
        (received_event new_id channel external_event_id external_conversation_id event_type
           envelope_json correlation_id max_attempts now);
      event ← get_by_channel_external channel external_event_id;
      event ← require_some event RuntimeError "INGRESS_LOOKUP_FAILED";
      mret (event, inserted)
  end.

(** The columns every end of a lease clears. *)
Definition without_lease (e : IngressEvent) : IngressEvent :=
  e <| ing_lease_owner := None |> <| ing_lease_token := None |> <| ing_lease_until := None |>.

Definition exhausted (moment : instant) (e : IngressEvent) : bool :=
  bool_decide (ing_status e = ING_PROCESSING) && is_not_null (ing_lease_until e) &&
  sql_lt (ing_lease_until e) moment && (ing_max_attempts e <=? ing_attempt_count e).

Definition bury_values (moment : instant) (e : IngressEvent) : IngressEvent :=
  without_lease e
    <| ing_status := ING_DEAD |>
    <| ing_next_attempt_at := None |>
    <| ing_error_code := Some "LEASE_ATTEMPTS_EXHAUSTED"%string |>
    <| ing_updated_at := moment |>.

Definition recover_exhausted_leases (now : option instant) : Session Z :=
  moment ← resolve_moment now;
  update_where (exhausted moment) (bury_values moment).

Definition claimable (now : instant) (e : IngressEvent) : bool :=
  (ing_attempt_count e <? ing_max_attempts e) &&
  match ing_status e with
  | ING_RECEIVED => true
  | ING_FAILED =>
      match ing_next_attempt_at e with Some t => t <=? now | None => false end
  | ING_PROCESSING => is_not_null (ing_lease_until e) && sql_lt (ing_lease_until e) now
  | _ => false
  end.

Definition claim_order (a b : IngressEvent) : bool := ing_created_at a <=? ing_created_at b.

Definition claim_values (now : instant) (worker_id : string) (lease_token : uuid)
    (lease_until : instant) (e : IngressEvent) : IngressEvent :=
  e <| ing_status := ING_PROCESSING |>
    <| ing_lease_owner := Some worker_id |>
    <| ing_lease_token := Some lease_token |>
    <| ing_lease_version ::= Z.succ |>
    <| ing_lease_until := Some lease_until |>
    <| ing_attempt_count ::= Z.succ |>
    <| ing_next_attempt_at := None |>
    <| ing_error_code := None |>
    <| ing_updated_at := now |>.

Definition claim_next (worker_id : string) (lease_seconds : Z) (now : option instant)
    : Session (option IngressClaim) :=
  _ ← assert_or_raise (negb (lease_seconds <=? 0)) ValueError "lease_seconds must be positive";
  moment ← resolve_moment now;
  _ ← recover_exhausted_leases (Some moment);
  let lease_until := moment + seconds lease_seconds in
  lease_token ← uuid4;
  env ← get_env;
  candidates ← select_where (fun e => claimable moment e && negb (env_locked env (ing_id e)));
  match pick_min claim_order candidates with
  | None => mret None
  | Some candidate =>
      _ ← update_by_id (ing_id candidate) no_guard
        (claim_values moment worker_id lease_token lease_until);
      event ← get_by_id (ing_id candidate);
      event ← require_some event RuntimeError "INGRESS_CLAIM_LOOKUP_FAILED";
      claim ← row_to_claim event;
      mret (Some claim)
  end.

(** The fencing predicate of statements made under a lease. *)
Definition holds_lease (lease_token : uuid) (lease_version : Z) (e : IngressEvent) : bool :=
  bool_decide (ing_status e = ING_PROCESSING) && sql_eq (ing_lease_token e) lease_token &&
  (ing_lease_version e =? lease_version).

Definition complete_values (moment : instant) (e : IngressEvent) : IngressEvent :=
  without_lease e
    <| ing_status := ING_PROCESSED |>
    <| ing_next_attempt_at := None |>
    <| ing_error_code := None |>
    <| ing_updated_at := moment |>.

Definition complete_with_lease (event_id lease_token : uuid) (lease_version : Z)
    : Session IngressEvent :=
  moment ← resolve_moment None;
  _ ← assert_or_raise (ingress_transition_allowed ING_PROCESSING ING_PROCESSED)
    IngressStateError "INGRESS_TRANSITION_DENIED";
  updated ← update_by_id event_id (holds_lease lease_token lease_version)
    (complete_values moment);
  _ ← assert_or_raise updated StaleIngressLeaseError "INGRESS_STALE_LEASE";
  event ← get_by_id event_id;
  require_some event RuntimeError "INGRESS_LOOKUP_FAILED".

Definition fail_values (target : IngressStatus) (next_attempt_at : option instant)
    (error_code : string) (moment : instant) (e : IngressEvent) : IngressEvent :=
  without_lease e
    <| ing_status := target |>
    <| ing_next_attempt_at := next_attempt_at |>
    <| ing_error_code := Some (str_take 64 error_code) |>
    <| ing_updated_at := moment |>.

Definition fail_with_lease (event_id lease_token : uuid) (lease_version : Z)
    (error_code : string) (retry_delay_seconds : Z) (now : option instant)
    : Session IngressEvent :=
  moment ← resolve_moment now;
  event ← get_by_id event_id;
  event ← require_some event RuntimeError "INGRESS_LOOKUP_FAILED";
  _ ← assert_or_raise (holds_lease lease_token lease_version event)
    StaleIngressLeaseError "INGRESS_STALE_LEASE";
  let '(target, next_attempt_at) :=
    if ing_max_attempts event <=? ing_attempt_count event then (ING_DEAD, None)
    else (ING_FAILED, Some (moment + seconds retry_delay_seconds)) in
  _ ← assert_or_raise (ingress_transition_allowed ING_PROCESSING target)
    IngressStateError "INGRESS_TRANSITION_DENIED";
  updated ← update_by_id event_id (holds_lease lease_token lease_version)
    (fail_values target next_attempt_at error_code moment);
  _ ← assert_or_raise updated StaleIngressLeaseError "INGRESS_STALE_LEASE";
  refreshed ← get_by_id event_id;
  require_some refreshed RuntimeError "INGRESS_LOOKUP_FAILED".

End ingress_repo.
