(* ===== verification/Ingress.v ===== *)
(** * Durable ingress: src/app/services/ingress.py and its adapters

    A provider event is stored before it is acknowledged, and processed later by
    a worker that holds its lease: the effect on the dialog and the completion
    of the event commit in one transaction.  The adapters are
    SyntheticIngressAdapter, VkClientIngressAdapter
    (src/app/services/vk_client_ingress.py) and AmoCrmManagerIngressAdapter
    (src/app/services/amocrm_manager_ingress.py); the VK webhook's handler is
    [handle_vk_client_callback] of src/app/channels/vk_client_http.py. *)

From S2P Require Import Prelude BookingText Models Database Statements Conversations ReplyPlans.
From S2P Require Import Outbound SelfBooking Messages Mirror BookingFields VkClient Projections.
From S2P Require Import Inbound ManagerMessages VkObserver Bindings ReplyDispatch VkGate.
From S2P Require Import IngressQueue.
Import ingress_repo.

(** Pydantic's validation of a booking fixture, as the wire form of what it
    accepts. *)
Class BookingInputModel := booking_input_validate : json -> option jdict.

Record IngressAck := MkIngressAck {
  ack_accepted : bool;
  ack_duplicate : bool;
  ack_event_id : uuid;
  ack_status : IngressStatus;
  ack_correlation_id : uuid
}.

Definition ack_of (row : IngressEvent) (created : bool) : IngressAck :=
  MkIngressAck true (negb created) (ing_id row) (ing_status row) (ing_correlation_id row).

(** [except Exception]: only the conflict of the adapter passes unchanged. *)
Definition persist_failure (passes : exn -> bool) {A} (m : Session A) : Session A :=
  try_except m (fun e => negb (passes e))
    (fun e => raise IngressPersistError
       ("INGRESS_PERSIST_FAILED (" +:+ class_name (exn_class e) +:+ ")")).

Definition correlation_id_or_new (correlation_id : option uuid) : Session uuid :=
  match correlation_id with Some id => mret id | None => uuid4 end.

(** ** Synthetic events: src/app/schemas/ingress.py *)

Record SyntheticIngressEvent := MkSyntheticIngressEvent {
  sge_channel : string;
  sge_external_event_id : string;
  sge_external_conversation_id : string;
  sge_text : string;
  sge_correlation_id : option uuid;
  sge_booking : option jdict;
  sge_action : option SelfBookingConfirmAdmissionService.SyntheticConfirmSelectedSlotAction
}.

(** [SyntheticConfirmSelectedSlotAction.wire_dict] and [model_validate]; the
    model is strict and forbids other keys. *)
Definition action_wire
    (action : SelfBookingConfirmAdmissionService.SyntheticConfirmSelectedSlotAction) : jdict :=
  [ ("kind", JStr "CONFIRM_SELECTED_SLOT");
    ("slot_id", JStr (SelfBookingConfirmAdmissionService.csa_slot_id action));
    ("pii_admission_request_id",
      JStr (SelfBookingConfirmAdmissionService.csa_pii_admission_request_id action));
    ("personal_data_consent", JBool true); ("offer_acknowledgement", JBool true) ].

Definition action_validate (raw : json)
    : option SelfBookingConfirmAdmissionService.SyntheticConfirmSelectedSlotAction :=
  match raw with
  | JObj raw =>
      if negb (keys_are raw
           ["kind"; "slot_id"; "pii_admission_request_id"; "personal_data_consent";
            "offer_acknowledgement"])
      then None
      else if negb (is_str (jget raw "kind") "CONFIRM_SELECTED_SLOT") then None
      else
        match jget raw "slot_id", jget raw "pii_admission_request_id",
              jget raw "personal_data_consent", jget raw "offer_acknowledgement" with
        | Some (JStr slot_id), Some (JStr request_id), Some (JBool true), Some (JBool true) =>
            _ ← parse_bot_slot_id slot_id;
            request_id ← require_pii_admission_request_id request_id;
            Some (SelfBookingConfirmAdmissionService.MkSyntheticConfirmSelectedSlotAction
                    slot_id request_id true true)
        | _, _, _, _ => None
        end
  | _ => None
  end.

Definition synthetic_envelope (event : SyntheticIngressEvent) : jdict :=
  let envelope :=
    [ ("schema", JStr "synthetic.ingress.v1"); ("event_type", JStr "SYNTHETIC_MESSAGE");
      ("text", JStr (sge_text event)) ] in
  let envelope :=
    match sge_booking event with
    | Some booking => jset envelope "booking" (JObj booking) | None => envelope
    end in
  match sge_action event with
  | Some action => jset envelope "action" (JObj (action_wire action)) | None => envelope
  end.

Module SyntheticIngressAdapter.

Definition accept (max_attempts : Z) (event : SyntheticIngressEvent) : Session IngressAck :=
  _ ← assert_or_raise (negb (max_attempts <=? 0)) ValueError "max_attempts must be positive";
  _ ← assert_or_raise (String.eqb (sge_channel event) "synthetic")
    ValueError "UNSUPPORTED_CHANNEL";
  correlation_id ← correlation_id_or_new (sge_correlation_id event);
  persist_failure (fun _ => false) (session_scope (
    '(row, created) ← insert_if_absent INGRESS_SYNTHETIC (sge_external_event_id event)
      (sge_external_conversation_id event) SYNTHETIC_MESSAGE (synthetic_envelope event)
      correlation_id max_attempts;
    mret (ack_of row created))).

End SyntheticIngressAdapter.

(** ** VK events: src/app/schemas/vk_client_ingress.py *)

Record VkClientIngressEvent := MkVkClientIngressEvent {
  vge_external_event_id : string;
  vge_external_conversation_id : string;
  vge_text : string;
  vge_received_at : option instant;
  vge_correlation_id : option uuid
}.

Definition vk_ingress_event_valid (event : VkClientIngressEvent) : bool :=
  safe_external_id 128 (vge_external_event_id event) &&
  safe_external_id 128 (vge_external_conversation_id event) &&
  safe_text VK_CLIENT_TEXT_MAX_LEN (vge_text event).

Record VkClientMessageReplyIngressEvent := MkVkClientMessageReplyIngressEvent {
  vre_external_event_id : string;
  vre_external_conversation_id : string;
  vre_group_id : Z;
  vre_peer_id : Z;
  vre_conversation_message_id : Z;
  vre_provider_message_id : Z;
  vre_occurred_at : instant;
  vre_random_id : option Z;
  vre_provenance : VkReplyProvenanceTechnical;
  vre_correlation_id : option uuid
}.

Definition vk_reply_event_valid (event : VkClientMessageReplyIngressEvent) : bool :=
  safe_external_id 128 (vre_external_event_id event) &&
  safe_external_id 128 (vre_external_conversation_id event) &&
  (0 <? vre_group_id event) && (0 <? vre_peer_id event) &&
  (0 <? vre_conversation_message_id event) && (0 <? vre_provider_message_id event) &&
  (match vre_random_id event with Some z => 0 <=? z | None => true end).

Definition vk_inbound_of_ingress (event : VkClientIngressEvent) : VkClientInboundEvent :=
  MkVkClientInboundEvent "vk" (vge_external_conversation_id event)
    (vge_external_event_id event) (vge_text event) (vge_received_at event).

Section VkEnvelopes.
Context `{PyLib}.

Definition vk_envelope (event : VkClientIngressEvent) : jdict :=
  let envelope :=
    [ ("schema", JStr "vk.client.ingress.v1"); ("event_type", JStr "VK_CLIENT_MESSAGE");
      ("text", JStr (vge_text event)) ] in
  match vge_received_at event with
  | Some t => jset envelope "received_at" (JStr (isoformat t))
  | None => envelope
  end.

Definition vk_reply_envelope (event : VkClientMessageReplyIngressEvent) : jdict :=
  let envelope :=
    [ ("schema", JStr "vk.client.message_reply.v1");
      ("event_type", JStr "VK_CLIENT_MESSAGE_REPLY");
      ("group_id", JInt (vre_group_id event)); ("peer_id", JInt (vre_peer_id event));
      ("conversation_message_id", JInt (vre_conversation_message_id event));
      ("provider_message_id", JInt (vre_provider_message_id event));
      ("occurred_at", JStr (isoformat (vre_occurred_at event)));
      ("external_conversation_id", JStr (vre_external_conversation_id event));
      ("provenance", JObj (to_envelope_fragment (vre_provenance event))) ] in
  match vre_random_id event with
  | Some z => jset envelope "random_id" (JInt z)
  | None => envelope
  end.

(** [envelope.get(key) == expected.get(key)] *)
Definition same_entry (envelope expected : jdict) (key : string) : bool :=
  bool_decide (jget_or_null envelope key = jget_or_null expected key).

(** [_assert_vk_duplicate_matches] *)
Definition vk_duplicate_matches (row : IngressEvent) (event : VkClientIngressEvent) : bool :=
  bool_decide (ing_channel row = INGRESS_VK) &&
  bool_decide (ing_event_type row = VK_CLIENT_MESSAGE) &&
  String.eqb (ing_external_event_id row) (vge_external_event_id event) &&
  String.eqb (ing_external_conversation_id row) (vge_external_conversation_id event) &&
  forallb (same_entry (ing_envelope_json row) (vk_envelope event)) ["text"; "event_type"].

(** [_assert_vk_reply_duplicate_matches] *)
Definition vk_reply_duplicate_matches (row : IngressEvent)
    (event : VkClientMessageReplyIngressEvent) : bool :=
  bool_decide (ing_channel row = INGRESS_VK) &&
  bool_decide (ing_event_type row = VK_CLIENT_MESSAGE_REPLY) &&
  String.eqb (ing_external_event_id row) (vre_external_event_id event) &&
  String.eqb (ing_external_conversation_id row) (vre_external_conversation_id event) &&
  forallb (same_entry (ing_envelope_json row) (vk_reply_envelope event))
    [ "provider_message_id"; "conversation_message_id"; "group_id"; "peer_id"; "event_type";
      "provenance" ].
End VkEnvelopes.

Module VkClientIngressAdapter.
Section Adapter.
Context `{PyLib} (max_attempts : Z).

Definition conflict (e : exn) : bool :=
  bool_decide (exn_class e = VkClientIngressIdempotencyConflict).

Definition accept (event : VkClientIngressEvent) : Session IngressAck :=
  _ ← assert_or_raise (negb (max_attempts <=? 0)) ValueError "max_attempts must be positive";
  correlation_id ← correlation_id_or_new (vge_correlation_id event);
  persist_failure conflict (session_scope (
    '(row, created) ← insert_if_absent INGRESS_VK (vge_external_event_id event)
      (vge_external_conversation_id event) VK_CLIENT_MESSAGE (vk_envelope event)
      correlation_id max_attempts;
    _ ← assert_or_raise (created || vk_duplicate_matches row event)
      VkClientIngressIdempotencyConflict "INGRESS_IDEMPOTENCY_CONFLICT";
    mret (ack_of row created))).

Definition accept_message_reply (event : VkClientMessageReplyIngressEvent)
    : Session IngressAck :=
  _ ← assert_or_raise (negb (max_attempts <=? 0)) ValueError "max_attempts must be positive";
  correlation_id ← correlation_id_or_new (vre_correlation_id event);
  persist_failure conflict (session_scope (
    '(row, created) ← insert_if_absent INGRESS_VK (vre_external_event_id event)
      (vre_external_conversation_id event) VK_CLIENT_MESSAGE_REPLY (vk_reply_envelope event)
      correlation_id max_attempts;
    _ ← assert_or_raise (created || vk_reply_duplicate_matches row event)
      VkClientIngressIdempotencyConflict "INGRESS_IDEMPOTENCY_CONFLICT";
    mret (ack_of row created))).
End Adapter.
End VkClientIngressAdapter.

(** ** amoCRM events: src/app/schemas/amocrm_manager_ingress.py *)

(** src/app/core/amocrm_manager_ids.py; [None] is AmoCrmManagerIdError. *)
Definition amocrm_manager_namespaced_id (amocrm_chat_id amocrm_message_id : string)
    : option string :=
  let colon s := negb (str_forall (fun c => negb (Ascii.eqb c ":")) s) in
  if String.eqb amocrm_chat_id "" then None
  else if String.eqb amocrm_message_id "" then None
  else if colon amocrm_chat_id || colon amocrm_message_id then None
  else
    let key := "amo:" +:+ amocrm_chat_id +:+ ":" +:+ amocrm_message_id in
    if (256 <? String.length key)%nat then None else Some key.

Record AmoCrmManagerIngressEvent := MkAmoCrmManagerIngressEvent {
  mge_amocrm_chat_id : string;
  mge_amocrm_message_id : string;
  mge_external_message_id : string;
  mge_provider_sequence : Z;
  mge_text : string;
  mge_conversation_client_id : option string;
  mge_correlation_id : option uuid
}.

Definition amocrm_manager_event_valid (event : AmoCrmManagerIngressEvent) : bool :=
  safe_external_id 128 (mge_amocrm_chat_id event) &&
  safe_external_id 128 (mge_amocrm_message_id event) &&
  (0 <=? mge_provider_sequence event) && (mge_provider_sequence event <=? 2 ^ 63 - 1) &&
  safe_text 4000 (mge_text event) &&
  (match mge_conversation_client_id event with
   | Some id => (String.length id <=? 128)%nat && str_isalnum (str_without dash_or_underscore id)
   | None => true
   end) &&
  sql_eq (amocrm_manager_namespaced_id (mge_amocrm_chat_id event)
            (mge_amocrm_message_id event)) (mge_external_message_id event).

Definition amocrm_manager_envelope (event : AmoCrmManagerIngressEvent) : jdict :=
  let envelope :=
    [ ("schema", JStr "amocrm.manager.ingress.v1");
      ("event_type", JStr "AMOCRM_MANAGER_MESSAGE");
      ("amocrm_chat_id", JStr (mge_amocrm_chat_id event));
      ("amocrm_message_id", JStr (mge_amocrm_message_id event));
      ("external_message_id", JStr (mge_external_message_id event));
      ("provider_sequence", JInt (mge_provider_sequence event));
      ("text", JStr (mge_text event)) ] in
  match mge_conversation_client_id event with
  | Some id => jset envelope "conversation_client_id" (JStr id)
  | None => envelope
  end.

(** [_assert_amocrm_duplicate_matches] *)
Definition amocrm_duplicate_matches (row : IngressEvent) (event : AmoCrmManagerIngressEvent)
    : bool :=
  bool_decide (ing_channel row = INGRESS_AMOCRM) &&
  bool_decide (ing_event_type row = AMOCRM_MANAGER_MESSAGE) &&
  String.eqb (ing_external_event_id row) (mge_external_message_id event) &&
  String.eqb (ing_external_conversation_id row) (mge_amocrm_chat_id event) &&
  forallb (same_entry (ing_envelope_json row) (amocrm_manager_envelope event))
    [ "amocrm_chat_id"; "amocrm_message_id"; "external_message_id"; "provider_sequence";
      "text" ].

Module AmoCrmManagerIngressAdapter.

Definition accept (max_attempts : Z) (event : AmoCrmManagerIngressEvent) : Session IngressAck :=
  _ ← assert_or_raise (negb (max_attempts <=? 0)) ValueError "max_attempts must be positive";
  correlation_id ← correlation_id_or_new (mge_correlation_id event);
  persist_failure (fun e => bool_decide (exn_class e = IngressIdempotencyConflict))
    (session_scope (
      '(row, created) ← insert_if_absent INGRESS_AMOCRM (mge_external_message_id event)
        (mge_amocrm_chat_id event) AMOCRM_MANAGER_MESSAGE (amocrm_manager_envelope event)
        correlation_id max_attempts;
      _ ← assert_or_raise (created || amocrm_duplicate_matches row event)
        IngressIdempotencyConflict "INGRESS_IDEMPOTENCY_CONFLICT";
      mret (ack_of row created))).

End AmoCrmManagerIngressAdapter.
