(* ===== verification/IngressWorker.v ===== *)
(** * The ingress worker and the VK webhook

    IngressWorker of src/app/services/ingress.py: a claimed event is applied to
    the dialog and completed in one transaction; any failure gives the event
    back under its lease in another.  [handle_vk_client_callback] of
    src/app/channels/vk_client_http.py: the answer to the provider. *)

From S2P Require Import Prelude BookingText Models Database Statements Conversations ReplyPlans.
From S2P Require Import Outbound SelfBooking Messages Mirror BookingFields VkClient Projections.
From S2P Require Import Inbound ManagerMessages VkObserver Bindings ReplyDispatch VkGate.
From S2P Require Import EphemeralPii IngressQueue Ingress.
Import ingress_repo.

Record IngressProcessResult := MkIngressProcessResult {
  ipr_event_id : uuid;
  ipr_status : IngressStatus;
  ipr_duplicate_business : bool;
  ipr_inbox_id : option uuid;
  ipr_outbox_id : option uuid;
  ipr_conversation_id : option uuid
}.

(** ** Envelopes back to events *)

(** [isinstance(v, str) and v] *)
Definition nonempty_str (v : option json) : option string :=
  match v with
  | Some (JStr s) => if String.eqb s "" then None else Some s
  | _ => None
  end.

Section Envelopes.
Context {E S : Type} `{BookingInputModel} `{PyLib}.

(** The validators of [SyntheticInboundEvent]. *)
Definition synthetic_inbound_event_valid (event : SyntheticInboundEvent) : bool :=
  String.eqb (sie_channel event) "synthetic" &&
  safe_external_id 128 (sie_external_conversation_id event) &&
  safe_external_id 128 (sie_external_message_id event) && safe_text 2000 (sie_text event) &&
  negb (is_not_null (sie_booking event) && is_not_null (sie_action event)).

(** A null member reads as absent. *)
Definition envelope_to_inbound (claim : IngressClaim) : M E S SyntheticInboundEvent :=
  let envelope := igc_envelope_json claim in
  text ← require_some (nonempty_str (jget envelope "text"))
    ValueError "INGRESS_ENVELOPE_INVALID";
  booking ← match pyget envelope "booking" with
    | None => mret None
    | Some raw =>
        match booking_input_validate raw with
        | Some booking => mret (Some booking)
        | None => raise ValueError "INGRESS_BOOKING_INVALID"
        end
    end;
  action ← match pyget envelope "action" with
    | None => mret None
    | Some raw =>
        match action_validate raw with
        | Some action => mret (Some action)
        | None => raise ValueError "INGRESS_ACTION_INVALID"
        end
    end;
  let event := MkSyntheticInboundEvent "synthetic" (igc_external_conversation_id claim)
    (igc_external_event_id claim) text None booking action in
  _ ← assert_or_raise (synthetic_inbound_event_valid event) ValidationError "";
  mret event.

Definition vk_envelope_to_inbound (claim : IngressClaim) : M E S VkClientInboundEvent :=
  let envelope := igc_envelope_json claim in
  text ← require_some (nonempty_str (jget envelope "text"))
    ValueError "INGRESS_ENVELOPE_INVALID";
  received_at ← match nonempty_str (jget envelope "received_at") with
    | None => mret None
    | Some raw_received =>
        match fromisoformat raw_received with
        | Some t => mret (Some t)
        | None => raise ValueError "INGRESS_ENVELOPE_INVALID"
        end
    end;
  let event := MkVkClientInboundEvent "vk" (igc_external_conversation_id claim)
    (igc_external_event_id claim) text received_at in
  _ ← assert_or_raise (vk_inbound_event_valid event) ValidationError "";
  mret event.
End Envelopes.

(** ** The transactions of the worker *)

Definition complete_claim (claim : IngressClaim) : Session IngressEvent :=
  complete_with_lease (igc_event_id claim) (igc_lease_token claim) (igc_lease_version claim).

(** The transaction of the synthetic branch of [process_claimed]. *)
Definition synthetic_in_session (handoff_pause_seconds : Z)
    (pii_store : option EphemeralPiiStore)
    (claim : IngressClaim) (inbound : SyntheticInboundEvent) : Session IngressProcessResult :=
  accepted ← Inbound.accept handoff_pause_seconds pii_store inbound;
  event ← complete_claim claim;
  mret (MkIngressProcessResult (ing_id event) (ing_status event) (iar_duplicate accepted)
          (Some (inbox_id (iar_inbox accepted))) (Some (ob_id (iar_outbox accepted)))
          (Some (conv_id (iar_conversation accepted)))).

(** The transaction of [_process_vk_client].  The proof plan moves the dialog
    the result still names. *)
Definition vk_client_in_session (settings : Settings)
    (vk_outbound_config : option VkClientOutboundConfig) (claim : IngressClaim)
    (inbound : VkClientInboundEvent) : Session IngressProcessResult :=
  accepted ← VkClientInboundService.accept inbound;
  _ ← maybe_create_vk_client_proof_reply_plan settings vk_outbound_config
    (var_conversation accepted) (vie_text inbound) (var_created_inbox accepted);
  event ← complete_claim claim;
  mret (MkIngressProcessResult (ing_id event) (ing_status event) (var_duplicate accepted)
          (Some (inbox_id (var_inbox accepted))) None
          (Some (conv_id (var_conversation accepted)))).

(** The transaction of [_process_vk_client_message_reply]. *)
Definition vk_reply_in_session `{PyLib} (handoff_pause_seconds : Z)
    (takeover_config : VkClientExternalTakeoverConfig) (claim : IngressClaim)
    : Session IngressProcessResult :=
  result ← apply_vk_client_message_reply_in_session (igc_envelope_json claim)
    handoff_pause_seconds takeover_config;
  event ← complete_claim claim;
  mret (MkIngressProcessResult (ing_id event) (ing_status event) false None None
          (vrr_conversation_id result)).

(** [isinstance(v, int)]: a JSON boolean is an int, and validates as 0 or 1. *)
Definition as_int (v : option json) : option Z :=
  match v with
  | Some (JInt z) => Some z
  | Some (JBool b) => Some (if b then 1 else 0)
  | _ => None
  end.

Definition is_ambiguous (e : exn) : bool :=
  bool_decide (exn_class e = AmocrmChatBindingAmbiguousError).
Definition is_value_error (e : exn) : bool :=
  bool_decide (exn_class e = ValueError) || bool_decide (exn_class e = ValidationError).

(** The echo branch: the chat's own message came back; the conversation id is
    captured when that is possible. *)
Definition capture_from_echo (amocrm_chat_id : string) (conversation_client_id : option string)
    : Session unit :=
  match conversation_client_id with
  | None => mret tt
  | Some conversation_client_id =>
      binding ← try_except (binding_repo.get_active_by_amocrm_chat_id amocrm_chat_id)
        is_ambiguous (fun _ => mret None);
      match binding with
      | None => mret tt
      | Some binding =>
          try_except
            (_ ← binding_repo.capture_integration_conversation_id (cb_id binding)
               conversation_client_id;
             mret tt)
            (fun e => is_ambiguous e || is_value_error e) (fun _ => mret tt)
      end
  end.

(** The validators of [SyntheticManagerMessageEvent]. *)
Definition manager_event_valid (event : SyntheticManagerMessageEvent) : bool :=
  String.eqb (mme_channel event) "synthetic" &&
  safe_external_id 128 (mme_external_conversation_id event) &&
  (1 <=? String.length (mme_external_message_id event))%nat &&
  (String.length (mme_external_message_id event) <=? 256)%nat &&
  str_isalnum (str_without (fun c => dash_or_underscore c || Ascii.eqb c ":")
    (mme_external_message_id event)) &&
  (match mme_provider_sequence event with
   | Some z => (0 <=? z) && (z <=? 2 ^ 63 - 1) | None => true
   end) &&
  safe_text 4000 (mme_text event).

(** The dialog the chat is bound to, with the captured conversation id. *)
Definition bound_conversation (amocrm_chat_id : string)
    (conversation_client_id : option string) : Session Conversation :=
  binding ← try_except (binding_repo.get_active_by_amocrm_chat_id amocrm_chat_id)
    is_ambiguous (fun _ => raise ValueError "BINDING_AMBIGUOUS");
  binding ← require_some binding ValueError "BINDING_UNKNOWN";
  _ ← match conversation_client_id with
      | None => mret tt
      | Some conversation_client_id =>
          try_except
            (_ ← binding_repo.capture_integration_conversation_id (cb_id binding)
               conversation_client_id;
             mret tt)
            is_ambiguous
            (fun _ => raise ValueError "BINDING_INTEGRATION_CONVERSATION_CONFLICT")
      end;
  conversation ← get_by_id (R := Conversation) (cb_conversation_id binding);
  require_some conversation ValueError "BINDING_CONVERSATION_MISSING".

(** The transaction of [_process_amocrm_manager]. *)
Definition amocrm_manager_in_session (handoff_pause_seconds : Z) (claim : IngressClaim)
    : Session IngressProcessResult :=
  let envelope := igc_envelope_json claim in
  match nonempty_str (jget envelope "amocrm_chat_id"),
        nonempty_str (jget envelope "amocrm_message_id"),
        nonempty_str (jget envelope "external_message_id"),
        as_int (jget envelope "provider_sequence"), nonempty_str (jget envelope "text") with
  | Some amocrm_chat_id, Some amocrm_message_id, Some external_message_id,
    Some provider_sequence, Some text =>
      _ ← assert_or_raise (String.eqb (igc_external_event_id claim) external_message_id)
        ValueError "INGRESS_ENVELOPE_INVALID";
      _ ← assert_or_raise (String.eqb (igc_external_conversation_id claim) amocrm_chat_id)
        ValueError "INGRESS_ENVELOPE_INVALID";
      let conversation_client_id := nonempty_str (jget envelope "conversation_client_id") in
      projected ← projection_repo.get_projected_by_amocrm_message_id amocrm_message_id;
      if is_not_null projected then
        _ ← capture_from_echo amocrm_chat_id conversation_client_id;
        event ← complete_claim claim;
        mret (MkIngressProcessResult (ing_id event) (ing_status event) true None None None)
      else
        conversation ← bound_conversation amocrm_chat_id conversation_client_id;
        let manager_event := MkSyntheticManagerMessageEvent "synthetic"
          (conv_external_conversation_id conversation) external_message_id
          (Some provider_sequence) None text in
        _ ← assert_or_raise (manager_event_valid manager_event) ValidationError "";
        applied ← apply_manager_message_in_session manager_event handoff_pause_seconds
          (Some (conv_id conversation));
        event ← complete_claim claim;
        mret (MkIngressProcessResult (ing_id event) (ing_status event) (mar_duplicate applied)
                None None None)
  | _, _, _, _, _ => raise ValueError "INGRESS_ENVELOPE_INVALID"
  end.

(** ** The worker *)

Definition is_stale_ingress (e : exn) : bool :=
  bool_decide (exn_class e = StaleIngressLeaseError).

(** [arg0.isupper() and " " not in arg0]: a message that is a code. *)
Definition is_upper_letter : ascii -> bool := char_between 65 90.
Definition is_lower_letter : ascii -> bool := char_between 97 122.
Definition is_error_code (message : string) : bool :=
  negb (str_forall (fun c => negb (is_upper_letter c)) message) &&
  str_forall (fun c => negb (is_lower_letter c) && negb (Ascii.eqb c " ")) message.

Definition amocrm_error_code (e : exn) : string :=
  if is_value_error e && is_error_code (exn_message e) then exn_message e
  else class_name (exn_class e).

Module IngressWorker.
Section Worker.
Context `{Interference} `{BookingInputModel} `{PyLib}.
Context (worker_id : string) (lease_seconds retry_delay_seconds handoff_pause_seconds : Z).
Context (pii_store : option EphemeralPiiStore).
Context (settings : Settings) (vk_outbound_config : option VkClientOutboundConfig).
(** [load_vk_client_external_takeover_config], [None] when it raises. *)
Context (takeover_config : option VkClientExternalTakeoverConfig).

Definition claim_one : Process (option IngressClaim) :=
  transaction (claim_next worker_id lease_seconds None).

Definition fail_claimed (claim : IngressClaim) (error_code : string) : Process IngressEvent :=
  transaction (fail_with_lease (igc_event_id claim) (igc_lease_token claim)
    (igc_lease_version claim) error_code retry_delay_seconds None).

(** [except StaleIngressLeaseError: raise] and [except Exception]: give the
    event back, then re-raise. *)
Definition or_fail (claim : IngressClaim) (error_code : exn -> string)
    (body : Session IngressProcessResult) : Process IngressProcessResult :=
  try_except (transaction body) (fun e => negb (is_stale_ingress e))
    (fun e => _ ← fail_claimed claim (error_code e);
              raise (exn_class e) (exn_message e)).

Definition type_name (e : exn) : string := class_name (exn_class e).

Definition process_vk_client (claim : IngressClaim) : Process IngressProcessResult :=
  inbound ← vk_envelope_to_inbound claim;
  or_fail claim type_name (vk_client_in_session settings vk_outbound_config claim inbound).

Definition process_vk_client_message_reply (claim : IngressClaim)
    : Process IngressProcessResult :=
  match takeover_config with
  | None =>
      _ ← fail_claimed claim "VK_CLIENT_EXTERNAL_TAKEOVER_CONFIG_INVALID";
      raise ValueError "VK_CLIENT_EXTERNAL_TAKEOVER_CONFIG_INVALID"
  | Some takeover_config =>
      or_fail claim
        (fun e => if bool_decide (exn_class e = VkClientMessageReplyOwnEchoRace)
                  then "VK_CLIENT_OWN_ECHO_RACE"%string else type_name e)
        (vk_reply_in_session handoff_pause_seconds takeover_config claim)
  end.

Definition process_amocrm_manager (claim : IngressClaim) : Process IngressProcessResult :=
  or_fail claim amocrm_error_code (amocrm_manager_in_session handoff_pause_seconds claim).

Definition channel_event_mismatch (claim : IngressClaim) : Process IngressProcessResult :=
  _ ← fail_claimed claim "INGRESS_CHANNEL_EVENT_MISMATCH";
  raise ValueError "INGRESS_CHANNEL_EVENT_MISMATCH".

Definition process_claimed (claim : IngressClaim) : Process IngressProcessResult :=
  match igc_channel claim, igc_event_type claim with
  | INGRESS_AMOCRM, AMOCRM_MANAGER_MESSAGE => process_amocrm_manager claim
  | INGRESS_VK, VK_CLIENT_MESSAGE => process_vk_client claim
  | INGRESS_VK, VK_CLIENT_MESSAGE_REPLY => process_vk_client_message_reply claim
  | INGRESS_SYNTHETIC, SYNTHETIC_MESSAGE =>
      inbound ← envelope_to_inbound claim;
      or_fail claim type_name
        (synthetic_in_session handoff_pause_seconds pii_store claim inbound)
  | _, _ => channel_event_mismatch claim
  end.
End Worker.
End IngressWorker.

(** ** The VK webhook *)

Record VkClientWebhookHttpResult := MkVkClientWebhookHttpResult {
  whr_body : string;
  whr_status_code : Z
}.

Section VkWebhook.
Context `{PyLib}.

(** [_message_to_ingress]; the two ids are properties that raise ValueError. *)
Definition message_to_ingress (message : VkClientNormalizedMessage)
    : Session VkClientIngressEvent :=
  event_id ← require_some
    (vk_client_external_event_id (vnm_group_id message) (vnm_from_id message)
       (vnm_conversation_message_id message)) ValueError "INVALID_VK_CLIENT_ID";
  conversation_id ← require_some
    (vk_client_external_conversation_id (vnm_group_id message) (vnm_from_id message))
    ValueError "INVALID_VK_CLIENT_ID";
  let event := MkVkClientIngressEvent event_id conversation_id (vnm_text message)
    (Some (vnm_occurred_at message)) None in
  _ ← assert_or_raise (vk_ingress_event_valid event) ValidationError "";
  mret event.

(** [_reply_to_ingress] *)
Definition reply_to_ingress (reply : VkClientNormalizedMessageReply)
    : Session VkClientMessageReplyIngressEvent :=
  event_id ← require_some
    (vk_client_external_reply_event_id (vnr_group_id reply) (vnr_peer_id reply)
       (vnr_conversation_message_id reply)) ValueError "INVALID_VK_CLIENT_ID";
  conversation_id ← require_some
    (vk_client_external_conversation_id (vnr_group_id reply) (vnr_peer_id reply))
    ValueError "INVALID_VK_CLIENT_ID";
  let event := MkVkClientMessageReplyIngressEvent event_id conversation_id
    (vnr_group_id reply) (vnr_peer_id reply) (vnr_conversation_message_id reply)
    (vnr_provider_message_id reply) (vnr_occurred_at reply) (vnr_random_id reply)
    (vnr_provenance reply) None in
  _ ← assert_or_raise (vk_reply_event_valid event) ValidationError "";
  mret event.

(** The three [except] clauses. *)
Definition webhook_failure (e : exn) : option VkClientWebhookHttpResult :=
  match exn_class e with
  | VkClientIngressIdempotencyConflict => Some (MkVkClientWebhookHttpResult "conflict" 409)
  | IngressPersistError => Some (MkVkClientWebhookHttpResult "unavailable" 503)
  | ValidationError => Some (MkVkClientWebhookHttpResult "ok" 200)
  | _ => None
  end.

Definition handle_vk_client_callback (body : CallbackBody) (config : VkClientCallbackConfig)
    : Session VkClientWebhookHttpResult :=
  let ok := MkVkClientWebhookHttpResult "ok" 200 in
  let answer (m : Session IngressAck) :=
    try_except (_ ← m; mret ok) (fun e => is_not_null (webhook_failure e))
      (fun e => mret (default ok (webhook_failure e))) in
  match parse_vk_client_callback body config with
  | Raised e => raise (exn_class e) (exn_message e)
  | Returned (WEBHOOK_CONFIRMATION response) => mret (MkVkClientWebhookHttpResult response 200)
  | Returned WEBHOOK_REJECTED | Returned WEBHOOK_IGNORED => mret ok
  | Returned (WEBHOOK_MESSAGE_REPLY reply) =>
      answer (event ← reply_to_ingress reply;
              VkClientIngressAdapter.accept_message_reply DEFAULT_MAX_ATTEMPTS event)
  | Returned (WEBHOOK_MESSAGE message) =>
      answer (event ← message_to_ingress message;
              VkClientIngressAdapter.accept DEFAULT_MAX_ATTEMPTS event)
  end.
End VkWebhook.
