(* ===== verification/Arbiter.v ===== *)
(** * The outbound arbiter

    src/app/services/outbound_arbiter.py with the in-process sink of
    src/app/services/synthetic_outbound.py, and OutboundWorker of
    src/app/services/reply_outbound.py: the single path of a client-visible
    message from the outbox to its transport.  A message is admitted in one
    transaction, sent outside of every transaction, and recorded as delivered in
    another.  The VK transport is a parameter. *)

From S2P Require Import Prelude BookingText Models Database Statements Conversations ReplyPlans.
From S2P Require Import Outbound SelfBooking Mirror ReplyText BookingFields Projections.
From S2P Require Import ReplyDispatch VkGate.
Import outbound_repo SelfBookingActiveOfferService.

Inductive SyntheticOutboundOutcome :=
  | OUT_SUCCESS | OUT_TRANSIENT_ERROR | OUT_PERMANENT_ERROR.

#[export] Instance SyntheticOutboundOutcome_eq_dec : EqDecision SyntheticOutboundOutcome.
Proof. solve_decision. Defined.

(** [sor_payload_schema] before [str(...)]. *)
Record SyntheticOutboundRequest := MkSyntheticOutboundRequest {
  sor_outbound_id : string;
  sor_conversation_id : string;
  sor_reply_plan_id : option string;
  sor_context_version : option Z;
  sor_correlation_id : option string;
  sor_payload_schema : json;
  sor_text : option string
}.

Record SyntheticOutboundResult := MkSyntheticOutboundResult {
  sres_outcome : SyntheticOutboundOutcome;
  sres_error_code : option string;
  sres_provider_message_id : option Z
}.

(** The answer of the VK transport: VkClientSendResult. *)
Record VkClientSendResult := MkVkClientSendResult {
  vks_outcome : SyntheticOutboundOutcome;
  vks_error_code : option string;
  vks_provider_message_id : option Z
}.

Record ArbiterAdmitResult := MkArbiterAdmitResult {
  aadm_admitted : bool;
  aadm_outbound_id : uuid;
  aadm_delivery_status : DeliveryStatus
}.

Definition denied {A} (reason : string) : Session A := raise OutboundArbiterDenied reason.

(** [_request_from_outbound] *)
Definition request_from_outbound (outbound : OutboxMessage)
    : Session SyntheticOutboundRequest :=
  let payload := ob_payload_json outbound in
  text ← try_except
    (text ← require_persisted_outbound_text payload; mret (Some text))
    (fun exc => bool_decide (exn_class exc = OutboundReplyTextError))
    (fun _ =>
       if is_machine_only_outbound_payload payload then mret None
       else denied "OUTBOUND_REPLY_TEXT_MISSING");
  mret {|
    sor_outbound_id := uuid_str (ob_id outbound);
    sor_conversation_id := uuid_str (ob_conversation_id outbound);
    sor_reply_plan_id := uuid_str <$> ob_reply_plan_id outbound;
    sor_context_version := ob_context_version outbound;
    sor_correlation_id := uuid_str <$> ob_correlation_id outbound;
    sor_payload_schema := default (JStr "unknown") (jget payload "schema");
    sor_text := text
  |}.

(** The plan checks of [_admit_in_session]. *)
Definition check_dispatched_plan (conversation : Conversation) (outbound : OutboxMessage)
    : Session unit :=
  match ob_reply_plan_id outbound with
  | None => mret tt
  | Some plan_id =>
      plan ← get_by_id plan_id;
      match plan with
      | None => denied "REPLY_PLAN_MISSING"
      | Some plan =>
          if negb (bool_decide (rp_status plan = RP_DISPATCHED))
          then denied ("REPLY_PLAN_" +:+ enum_value (rp_status plan))
          else if negb (rp_context_version plan =? conv_context_version conversation)
          then denied "REPLY_PLAN_STALE_CONTEXT"
          else if negb (rp_manager_epoch plan =? ob_manager_epoch outbound)
          then denied "REPLY_PLAN_STALE_MANAGER_EPOCH"
          else if negb (rp_event_seq_hwm plan =? ob_event_seq_hwm outbound)
          then denied "REPLY_PLAN_STALE_EVENT_SEQUENCE"
          else mret tt
      end
  end.

(** The dialog checks of [_admit_in_session]. *)
Definition check_dialog (conversation : Conversation) : Session unit :=
  if negb (bool_decide (conv_ownership conversation = BOT)) then denied "MANAGER_OWNED"
  else if negb (bool_decide (conv_status conversation = OPEN))
  then denied "CONVERSATION_NOT_OPEN"
  else if negb (bool_decide (conv_handoff_state conversation = BOT_ACTIVE))
  then denied "HANDOFF_NOT_BOT_ACTIVE"
  else if is_not_null (conv_manager_takeover_at conversation) then denied "MANAGER_TAKEOVER"
  else mret tt.

(** The outbox row checks of [_admit_in_session]. *)
Definition check_outbound (claim : OutboundClaim) (moment : instant)
    (conversation : Conversation) (outbound : OutboxMessage) : Session unit :=
  if negb (holds_lease OB_PROCESSING (obc_lease_token claim) (obc_lease_version claim) outbound)
  then raise StaleOutboundLeaseError "OUTBOUND_STALE_LEASE"
  else if negb (client_destination (ob_destination_type outbound))
  then denied "UNSUPPORTED_DESTINATION"
  else if bool_decide (ob_delivery_status outbound = OB_DELIVERED)
  then denied "ALREADY_DELIVERED"
  else if match ob_not_before outbound with
          | Some not_before => negb (tstz_due not_before moment)
          | None => false
          end
  then denied "NOT_BEFORE"
  else if match ob_context_version outbound with
          | Some v => negb (v =? conv_context_version conversation)
          | None => false
          end
  then denied "STALE_CONTEXT_VERSION"
  else if negb (ob_manager_epoch outbound =? conv_manager_epoch conversation)
  then denied "STALE_MANAGER_EPOCH"
  else if negb (ob_event_seq_hwm outbound =? conv_current_event_seq conversation)
  then denied "STALE_EVENT_SEQUENCE"
  else if negb (obc_manager_epoch claim =? ob_manager_epoch outbound)
  then raise StaleOutboundLeaseError "OUTBOUND_STALE_MANAGER_EPOCH_CLAIM"
  else if negb (obc_event_seq_hwm claim =? ob_event_seq_hwm outbound)
  then raise StaleOutboundLeaseError "OUTBOUND_STALE_EVENT_SEQUENCE_CLAIM"
  else mret tt.

(** [_admit_in_session] *)
Definition admit_in_session (settings : Settings) (claim : OutboundClaim)
    (now : option instant) : Session SyntheticOutboundRequest :=
  moment ← resolve_moment now;
  _ ← assert_or_raise (negb (is_automatic_outbound_allowed settings SEND_MESSAGE))
    OutboundArbiterDenied "AUTO_OUTBOUND_UNEXPECTEDLY_ENABLED";
  conversation ← conversation_repo.get_by_id_for_update (obc_conversation_id claim);
  conversation ← require_some conversation OutboundArbiterDenied "CONVERSATION_MISSING";
  _ ← check_dialog conversation;
  outbound ← get_by_id (obc_outbound_id claim);
  outbound ← require_some outbound OutboundArbiterDenied "OUTBOUND_MISSING";
  _ ← check_outbound claim moment conversation outbound;
  _ ← check_dispatched_plan conversation outbound;
  admitted ← mark_admitted_with_lease (obc_outbound_id claim) (obc_lease_token claim)
    (obc_lease_version claim) (Some moment);
  request_from_outbound admitted.

(** The transaction of [_prepare_reclaimed_admission]. *)
Definition prepare_reclaimed_admission (claim : OutboundClaim)
    : Session SyntheticOutboundRequest :=
  _ ← conversation_repo.lock_for_update (obc_conversation_id claim);
  outbound ← get_by_id (obc_outbound_id claim);
  outbound ← require_some outbound OutboundArbiterDenied "OUTBOUND_MISSING";
  _ ← assert_or_raise
    (holds_admitted_lease (obc_lease_token claim) (obc_lease_version claim) outbound)
    StaleOutboundLeaseError "OUTBOUND_STALE_LEASE";
  _ ← assert_or_raise (client_destination (ob_destination_type outbound))
    OutboundArbiterDenied "UNSUPPORTED_DESTINATION";
  request_from_outbound outbound.

(** The transaction that records the VK message id. *)
Definition record_provider_message_id (claim : OutboundClaim) (provider_message_id : Z)
    (now : option instant) : Session unit :=
  _ ← conversation_repo.lock_for_update (obc_conversation_id claim);
  _ ← set_vk_provider_message_id_with_lease (obc_outbound_id claim) (obc_lease_token claim)
    (obc_lease_version claim) provider_message_id now;
  mret tt.

(** What follows [mark_delivered_with_lease] in its transaction: the offer is
    bound (a rejection other than NOT_OFFER_SLOTS undoes the delivery) and the
    mirror job enqueued. *)
Definition bind_offer_and_mirror (delivered : OutboxMessage) : Session (OutboxMessage * uuid) :=
  activate_result ← activate_from_delivered_outbound delivered;
  _ ← when (bool_decide (aar_outcome activate_result = OFFER_REJECTED))
    (assert_or_raise (sql_eq (aar_reason_code activate_result) "NOT_OFFER_SLOTS"%string)
       OutboundArbiterDenied
       (str_take 64 ("ACTIVE_OFFER_" +:+ str_or (aar_reason_code activate_result) "REJECTED")));
  correlation_id ← match ob_correlation_id delivered with
                   | Some correlation_id => mret correlation_id
                   | None => uuid4
                   end;
  _ ← amocrm_mirror.enqueue_outbound_delivered (ob_conversation_id delivered)
    (ob_id delivered) (ob_context_version delivered) correlation_id;
  mret (delivered, correlation_id).

(** The transaction that records the delivery: the row and its correlation id. *)
Definition record_delivered (claim : OutboundClaim) (provider_message_id : option Z)
    (now : option instant) : Session (OutboxMessage * uuid) :=
  _ ← conversation_repo.lock_for_update (obc_conversation_id claim);
  delivered ← mark_delivered_with_lease (obc_outbound_id claim) (obc_lease_token claim)
    (obc_lease_version claim) now provider_message_id;
  bind_offer_and_mirror delivered.

(** SyntheticOutboundAdapter.deliver; a call that is not a repetition is logged. *)
Definition sink_deliver (forced_outcome : SyntheticOutboundOutcome)
    (request : SyntheticOutboundRequest) : Process SyntheticOutboundResult :=
  w ← get_state;
  if str_in (sor_outbound_id request) (w_delivered_ids w)
  then mret (MkSyntheticOutboundResult OUT_SUCCESS None None)
  else
    _ ← call_outside (SinkCall (sor_outbound_id request) (sor_text request))
      (fun _ => Returned tt);
    match forced_outcome with
    | OUT_SUCCESS =>
        w ← get_state;
        _ ← put_state (w <| w_delivered_ids ::= cons (sor_outbound_id request) |>);
        mret (MkSyntheticOutboundResult OUT_SUCCESS None None)
    | OUT_TRANSIENT_ERROR =>
        mret (MkSyntheticOutboundResult OUT_TRANSIENT_ERROR (Some "SYNTHETIC_TRANSIENT"%string) None)
    | OUT_PERMANENT_ERROR =>
        mret (MkSyntheticOutboundResult OUT_PERMANENT_ERROR (Some "SYNTHETIC_PERMANENT"%string) None)
    end.

Definition permanent_error (error_code : string) : SyntheticOutboundResult :=
  MkSyntheticOutboundResult OUT_PERMANENT_ERROR (Some error_code) None.

Definition is_stale_outbound_lease (e : exn) : bool :=
  bool_decide (exn_class e = StaleOutboundLeaseError).

Module OutboundArbiter.
Section Arbiter.
Context `{Interference}.
Context (settings : Settings) (vk_config : option VkClientOutboundConfig)
  (forced_outcome : SyntheticOutboundOutcome).
(** [VkClientSender.send_text] *)
Context (vk_sender : nat -> Z -> string -> uuid -> result VkClientSendResult).

(** [_fail_claim] *)
Definition fail_claim (claim : OutboundClaim) : Process unit :=
  try_except
    (_ ← transaction (fail_with_lease (obc_outbound_id claim) (obc_lease_token claim)
       (obc_lease_version claim) DEFAULT_RETRY_DELAY_SECONDS None); mret tt)
    is_stale_outbound_lease (fun _ => mret tt).

(** [_fail_admitted_delivery] *)
Definition fail_admitted_delivery (claim : OutboundClaim) (permanent : bool)
    (now : option instant) : Process unit :=
  try_except
    (_ ← transaction (fail_admitted_delivery_with_lease (obc_outbound_id claim)
       (obc_lease_token claim) (obc_lease_version claim) permanent
       DEFAULT_RETRY_DELAY_SECONDS now); mret tt)
    is_stale_outbound_lease (fun _ => mret tt).

(** [_deliver_vk_client] *)
Definition deliver_vk_client (claim : OutboundClaim) (request : SyntheticOutboundRequest)
    : Process SyntheticOutboundResult :=
  conversation ← transaction
    (conversation_repo.get_by_id_for_update (obc_conversation_id claim));
  match conversation with
  | None => mret (permanent_error "CONVERSATION_MISSING")
  | Some conversation =>
      let external_id := conv_external_conversation_id conversation in
      match vk_config with
      | None => mret (permanent_error "VK_CLIENT_SEND_GATE_DENIED")
      | Some config =>
          if negb (vk_client_outbound_send_allowed settings config external_id)
          then mret (permanent_error "VK_CLIENT_SEND_GATE_DENIED")
          else
            group_id ← require_some (vkc_group_id config) AssertionError "";
            match parse_vk_client_peer_id external_id group_id with
            | None => mret (permanent_error "VK_CLIENT_PEER_INVALID")
            | Some peer_id =>
                match sor_text request with
                | None | Some EmptyString =>
                    mret (permanent_error "OUTBOUND_REPLY_TEXT_MISSING")
                | Some text =>
                    send_result ← call_outside
                      (VkSendCall peer_id text (obc_outbound_id claim))
                      (fun n => vk_sender n peer_id text (obc_outbound_id claim));
                    mret match vks_outcome send_result with
                    | OUT_SUCCESS =>
                        MkSyntheticOutboundResult OUT_SUCCESS None
                          (vks_provider_message_id send_result)
                    | OUT_TRANSIENT_ERROR =>
                        MkSyntheticOutboundResult OUT_TRANSIENT_ERROR
                          (Some (str_or (vks_error_code send_result)
                                   "VK_CLIENT_SEND_TRANSIENT")) None
                    | OUT_PERMANENT_ERROR =>
                        permanent_error (str_or (vks_error_code send_result)
                                           "VK_CLIENT_SEND_PERMANENT")
                    end
                end
            end
      end
  end.

(** The durable admission that precedes every transport call. *)
Definition obtain_request (claim : OutboundClaim) (now : option instant)
    : Process SyntheticOutboundRequest :=
  if bool_decide (obc_delivery_status claim = OB_ADMITTED)
  then transaction (prepare_reclaimed_admission claim)
  else
    try_except (transaction (admit_in_session settings claim now))
      (fun exc => negb (is_stale_outbound_lease exc))
      (fun exc =>
         _ ← fail_claim claim;
         raise (exn_class exc) (exn_message exc)).

(** Everything after a successful transport call. *)
Definition record_success (claim : OutboundClaim) (result : SyntheticOutboundResult)
    (now : option instant) : Process ArbiterAdmitResult :=
  _ ← match obc_destination_type claim, sres_provider_message_id result with
      | VK_CLIENT_OUTBOUND, Some provider_message_id =>
          when (0 <? provider_message_id)
            (transaction (record_provider_message_id claim provider_message_id now))
      | _, _ => mret tt
      end;
  '(delivered, correlation_id) ←
    transaction (record_delivered claim (sres_provider_message_id result) now);
  _ ← when (bool_decide (ob_destination_type delivered = SYNTHETIC_OUTBOUND))
    (try_except
       (_ ← transaction (amocrm_chat_projection.enqueue_bot_outbound_projection
          (ob_conversation_id delivered) (ob_id delivered) correlation_id); mret tt)
       (fun _ => true) (fun _ => mret tt));
  mret (MkArbiterAdmitResult true (ob_id delivered) (ob_delivery_status delivered)).

Definition admit_claimed (claim : OutboundClaim) (now : option instant)
    : Process ArbiterAdmitResult :=
  request ← obtain_request claim now;
  result ← match obc_destination_type claim with
    | SYNTHETIC_OUTBOUND => sink_deliver forced_outcome request
    | VK_CLIENT_OUTBOUND => deliver_vk_client claim request
    | INTERNAL_DRAFT =>
        _ ← fail_admitted_delivery claim true now;
        raise OutboundArbiterDenied "UNSUPPORTED_DESTINATION"
    end;
  match sres_outcome result with
  | OUT_TRANSIENT_ERROR =>
      _ ← fail_admitted_delivery claim false now;
      raise OutboundArbiterDenied (str_or (sres_error_code result) "TRANSPORT_TRANSIENT")
  | OUT_PERMANENT_ERROR =>
      _ ← fail_admitted_delivery claim true now;
      raise OutboundArbiterDenied (str_or (sres_error_code result) "TRANSPORT_PERMANENT")
  | OUT_SUCCESS => record_success claim result now
  end.
End Arbiter.
End OutboundArbiter.

Module OutboundWorker.
Section Worker.
Context `{Interference}.
Context (settings : Settings) (vk_config : option VkClientOutboundConfig)
  (forced_outcome : SyntheticOutboundOutcome)
  (vk_sender : nat -> Z -> string -> uuid -> result VkClientSendResult).
Context (worker_id : string) (lease_seconds : Z).

Definition claim_one (now : option instant) : Process (option OutboundClaim) :=
  transaction (claim_next worker_id lease_seconds now).

Definition process_claimed (claim : OutboundClaim) (now : option instant)
    : Process ArbiterAdmitResult :=
  OutboundArbiter.admit_claimed settings vk_config forced_outcome vk_sender claim now.
End Worker.
End OutboundWorker.
