(* ===== verification/Dialog.v ===== *)
(** * The dialog invariant

    What holds between a conversation and its reply plans, outbox rows, client
    and manager messages in every committed database, and how the elementary
    moves of the services (revoking a dialog's open work, adding a plan) keep
    it.  The invariant is stated over the five tables it constrains. *)

From S2P Require Import Prelude Models Database Statements Conversations ReplyPlans Outbound.
From S2P Require Import Messages HandoffExpiry.

(** ** The clauses *)

Definition plan_fences_le (c : Conversation) (p : ReplyPlan) : Prop :=
  rp_context_version p <= conv_context_version c /\
  rp_manager_epoch p <= conv_manager_epoch c /\
  rp_event_seq_hwm p <= conv_current_event_seq c.

Definition plan_fences_eq (c : Conversation) (p : ReplyPlan) : Prop :=
  rp_context_version p = conv_context_version c /\
  rp_manager_epoch p = conv_manager_epoch c /\
  rp_event_seq_hwm p = conv_current_event_seq c.

(** An open plan belongs to the current ownership of its dialog.  On the
    synthetic channel every client message also closes what it makes out of date
    and nothing is open while the manager writes.  The VK channel is only
    observed: its plans and rows may be left behind by a message, its proof plan
    may be made during a handoff, and both are refused later. *)
Definition plan_current (c : Conversation) (p : ReplyPlan) : Prop :=
  rp_manager_epoch p = conv_manager_epoch c /\
  (conv_channel c = CHANNEL_SYNTHETIC ->
   plan_fences_eq c p /\ conv_handoff_state c <> HUMAN_ACTIVE).

(** A lease is whole while a plan is being processed. *)
Definition plan_leased (p : ReplyPlan) : Prop :=
  rp_status p = RP_PROCESSING ->
  is_not_null (rp_lease_owner p) = true /\ is_not_null (rp_lease_token p) = true /\
  is_not_null (rp_lease_until p) = true.

(** Fences never run ahead of the dialog; a plan that is still open is current. *)
Definition plan_inv (c : Conversation) (p : ReplyPlan) : Prop :=
  plan_fences_le c p /\ plan_leased p /\
  (reply_plan_open (rp_status p) = true -> plan_current c p).

(** The idempotency key a client-visible row carries. *)
Definition outbound_key (d : DestinationType) (plan_id : uuid) : string :=
  match d with
  | VK_CLIENT_OUTBOUND => outbound_repo.vk_client_outbound_idempotency_key plan_id
  | _ => outbound_repo.synthetic_outbound_idempotency_key plan_id
  end.

(** A client-visible row was dispatched from a plan of its own dialog and keeps
    that plan's fences. *)
Definition outbox_dispatched (plans : gmap uuid ReplyPlan) (o : OutboxMessage) : Prop :=
  exists plan_id p,
    ob_reply_plan_id o = Some plan_id /\ plans !! plan_id = Some p /\
    rp_status p = RP_DISPATCHED /\ rp_conversation_id p = ob_conversation_id o /\
    ob_context_version o = Some (rp_context_version p) /\
    ob_manager_epoch o = rp_manager_epoch p /\ ob_event_seq_hwm o = rp_event_seq_hwm p /\
    ob_idempotency_key o = Some (outbound_key (ob_destination_type o) plan_id).

(** Until it is admitted it is current in the same sense and the bot owns the
    dialog. *)
Definition outbox_fences_eq (c : Conversation) (o : OutboxMessage) : Prop :=
  ob_context_version o = Some (conv_context_version c) /\
  ob_manager_epoch o = conv_manager_epoch c /\
  ob_event_seq_hwm o = conv_current_event_seq c.

Definition outbox_current (c : Conversation) (o : OutboxMessage) : Prop :=
  ob_manager_epoch o = conv_manager_epoch c /\ conv_handoff_state c = BOT_ACTIVE /\
  (conv_channel c = CHANNEL_SYNTHETIC -> outbox_fences_eq c o).

Definition outbox_inv (plans : gmap uuid ReplyPlan) (c : Conversation) (o : OutboxMessage)
    : Prop :=
  (client_destination (ob_destination_type o) = true ->
   outbox_dispatched plans o /\
   (outbound_repo.unadmitted (ob_delivery_status o) = true -> outbox_current c o)) /\
  (client_destination (ob_destination_type o) = false -> ob_idempotency_key o = None).

(** What [lock_current_deferred_plan] demands of the plan of a paused dialog. *)
Definition deferred_plan_ok (c : Conversation) (p : ReplyPlan) : Prop :=
  rp_conversation_id p = conv_id c /\ rp_plan_type p = CLIENT_REPLY /\
  (rp_status p = RP_PENDING \/ rp_status p = RP_READY) /\ plan_fences_eq c p /\
  Some (rp_not_before p) = conv_handoff_deadline_at c /\
  jget (rp_payload_json p) "deferred_for_handoff" = Some (JBool true).

Definition pause_inv (plans : gmap uuid ReplyPlan) (c : Conversation) : Prop :=
  conv_handoff_state c = HUMAN_PAUSE ->
  conv_channel c = CHANNEL_SYNTHETIC /\
  exists plan_id p,
    conv_active_reply_plan_id c = Some plan_id /\ plans !! plan_id = Some p /\
    deferred_plan_ok c p.

(** Client and applied manager messages share one numbering per dialog. *)
Definition event_seqs_ok (cs : gmap uuid Conversation) (ims : gmap uuid InboxMessage)
    (mms : gmap uuid ManagerMessage) : Prop :=
  (forall k m c, ims !! k = Some m -> cs !! inbox_conversation_id m = Some c ->
     inbox_conversation_event_seq m <= conv_current_event_seq c) /\
  (forall k m c seq, mms !! k = Some m -> cs !! mm_conversation_id m = Some c ->
     mm_conversation_event_seq m = Some seq -> seq <= conv_current_event_seq c) /\
  (forall k m k' m', ims !! k = Some m -> mms !! k' = Some m' ->
     inbox_conversation_id m = mm_conversation_id m' ->
     mm_conversation_event_seq m' <> Some (inbox_conversation_event_seq m)).

(** All clauses, the pause clause only for dialogs other than [except]. *)
Definition work_ok (except : option uuid) (cs : gmap uuid Conversation)
    (ps : gmap uuid ReplyPlan) (os : gmap uuid OutboxMessage) : Prop :=
  (forall k p c, ps !! k = Some p -> cs !! rp_conversation_id p = Some c -> plan_inv c p) /\
  (forall k o c, os !! k = Some o -> cs !! ob_conversation_id o = Some c ->
     outbox_inv ps c o) /\
  (forall k c, cs !! k = Some c -> except <> Some k -> pause_inv ps c).

Definition dialog_ok (s : Database) : Prop :=
  constraints_ok s /\
  work_ok None (db_conversations s) (db_reply_plans s) (db_outbox_messages s) /\
  event_seqs_ok (db_conversations s) (db_inbox_messages s) (db_manager_messages s).

(** ** What the constraints say of a stored row *)

Lemma conversations_keyed s : constraints_ok s -> keys_ok (db_conversations s).
Proof. exact (constraints_keys_ok (R := Conversation) s). Qed.

Lemma reply_plans_keyed s : constraints_ok s -> keys_ok (db_reply_plans s).
Proof. exact (constraints_keys_ok (R := ReplyPlan) s). Qed.

Lemma outbox_keyed s : constraints_ok s -> keys_ok (db_outbox_messages s).
Proof. exact (constraints_keys_ok (R := OutboxMessage) s). Qed.

Lemma conversation_key s cid c :
  constraints_ok s -> db_conversations s !! cid = Some c -> conv_id c = cid.
Proof. intros Hs. apply (conversations_keyed s Hs). Qed.

Lemma conversation_checked s cid c :
  constraints_ok s -> db_conversations s !! cid = Some c ->
  conversation_fits c = true /\ conversation_checks c = true.
Proof.
  intros Hs Hc. pose proof (constraints_table (R := Conversation) s Hs) as Ht.
  by destruct (Ht cid c Hc) as (? & _ & ? & _).
Qed.

Lemma reply_plan_checked s k p :
  constraints_ok s -> db_reply_plans s !! k = Some p ->
  rp_id p = k /\ reply_plan_checks p = true /\
  exists c, db_conversations s !! rp_conversation_id p = Some c.
Proof.
  intros Hs Hp. pose proof (constraints_table (R := ReplyPlan) s Hs) as Ht.
  destruct (Ht k p Hp) as (_ & ? & ? & Href & _).
  split_and!; [done..|]. cbn in Href. unfold exists_row in Href.
  destruct (db_conversations s !! _); [eauto|done].
Qed.

Lemma outbox_checked s k o :
  constraints_ok s -> db_outbox_messages s !! k = Some o ->
  ob_id o = k /\ outbox_checks o = true /\
  exists c, db_conversations s !! ob_conversation_id o = Some c.
Proof.
  intros Hs Ho. pose proof (constraints_table (R := OutboxMessage) s Hs) as Ht.
  destruct (Ht k o Ho) as (_ & ? & ? & Href & _).
  split_and!; [done..|]. cbn in Href. rewrite !andb_true_iff in Href. unfold exists_row in Href.
  destruct (db_conversations s !! _); [eauto|]. naive_solver.
Qed.

Lemma inbox_checked s k m :
  constraints_ok s -> db_inbox_messages s !! k = Some m ->
  inbox_id m = k /\ exists c, db_conversations s !! inbox_conversation_id m = Some c.
Proof.
  intros Hs Hm. pose proof (constraints_table (R := InboxMessage) s Hs) as Ht.
  destruct (Ht k m Hm) as (_ & ? & _ & Href & _). split; [done|].
  cbn in Href. unfold exists_row in Href. destruct (db_conversations s !! _); [eauto|done].
Qed.

Lemma manager_message_checked s k m :
  constraints_ok s -> db_manager_messages s !! k = Some m ->
  mm_id m = k /\ exists c, db_conversations s !! mm_conversation_id m = Some c.
Proof.
  intros Hs Hm. pose proof (constraints_table (R := ManagerMessage) s Hs) as Ht.
  destruct (Ht k m Hm) as (_ & ? & _ & Href & _). split; [done|].
  cbn in Href. unfold exists_row in Href. destruct (db_conversations s !! _); [eauto|done].
Qed.

(** ** Opening a dialog *)

Definition fresh_dialog (c : Conversation) : Prop :=
  exists now, c = conversation_repo.new_conversation (conv_id c) (conv_channel c)
                    (conv_external_conversation_id c) now.

(** The dialog [c] as it stood before, if only by default. *)
Definition prior (s : Database) (cid : uuid) (c : Conversation) : Prop :=
  db_conversations s !! cid = Some c \/
  db_conversations s !! cid = None /\ conv_id c = cid /\ fresh_dialog c.

(** [get_or_create] ran: [s1] is [s], or [s] with the fresh dialog [c]. *)
Definition opened (s : Database) (c : Conversation) (s1 : Database) : Prop :=
  (s1 = s /\ db_conversations s !! conv_id c = Some c) \/
  (exists n, db_conversations s !! conv_id c = None /\ fresh_dialog c /\
     s1 = s <| db_conversations := <[conv_id c := c]> (db_conversations s) |>
            <| db_uuid_supply := n |>).

Lemma opened_lookup s c s1 : opened s c s1 -> db_conversations s1 !! conv_id c = Some c.
Proof. intros [[-> ?]|(n & _ & _ & ->)]; [done|]. apply lookup_insert_eq. Qed.

Lemma opened_prior s c s1 : opened s c s1 -> prior s (conv_id c) c.
Proof. intros [[_ ?]|(n & ? & ? & _)]; [by left | by right]. Qed.

Lemma dialog_ok_opened s c s1 :
  dialog_ok s -> opened s c s1 -> constraints_ok s1 -> dialog_ok s1.
Proof.
  intros (Hcon & (Hps & Hos & Hpause) & H1 & H2 & H3) [[-> _]|(n & Hno & [t Hf] & ->)] Hcon1;
    [by split_and!|].
  assert (forall k d, k = conv_id c -> db_conversations s !! k = Some d -> False) as Hfr
    by (intros k d -> Hd; by rewrite Hno in Hd).
  split; [done|]. cbn. split; [split_and!|split_and!; [| |done]].
  - intros k p d Hp. rewrite lookup_insert_Some. intros [[Heq _]|[_ Hd]]; [|eauto].
    destruct (reply_plan_checked s k p Hcon Hp) as (_ & _ & d' & Hd'). by destruct (Hfr _ d' (eq_sym Heq)).
  - intros k o d Ho. rewrite lookup_insert_Some. intros [[Heq _]|[_ Hd]]; [|by eapply Hos].
    destruct (outbox_checked s k o Hcon Ho) as (_ & _ & d' & Hd'). by destruct (Hfr _ d' (eq_sym Heq)).
  - intros k d. rewrite lookup_insert_Some. intros [[_ <-]|[_ Hd]] Hex; [|by apply (Hpause k)].
    rewrite Hf. done.
  - intros k m d Hm. rewrite lookup_insert_Some. intros [[Heq _]|[_ Hd]]; [|eauto].
    destruct (inbox_checked s k m Hcon Hm) as (_ & d' & Hd'). by destruct (Hfr _ d' (eq_sym Heq)).
  - intros k m d q Hm. rewrite lookup_insert_Some. intros [[Heq _]|[_ Hd]]; [|eauto].
    destruct (manager_message_checked s k m Hcon Hm) as (_ & d' & Hd').
    by destruct (Hfr _ d' (eq_sym Heq)).
Qed.

(** ** Moves *)

(** The fencing counters of a dialog only grow. *)
Definition advances (c c' : Conversation) : Prop :=
  conv_id c' = conv_id c /\ conv_channel c' = conv_channel c /\
  conv_context_version c <= conv_context_version c' /\
  conv_manager_epoch c <= conv_manager_epoch c' /\
  conv_current_event_seq c <= conv_current_event_seq c'.

Definition closed_status (st : ReplyPlanStatus) : Prop :=
  st = RP_CANCELLED \/ st = RP_SUPERSEDED.

Lemma closed_not_open st : closed_status st -> reply_plan_open st = false.
Proof. by intros [->| ->]. Qed.

Section Moves.
Context (cs : gmap uuid Conversation) (ps : gmap uuid ReplyPlan)
  (os : gmap uuid OutboxMessage).
Context (cid : uuid) (c : Conversation).
Hypothesis Hkeys : keys_ok cs.
Hypothesis Hc : cs !! cid = Some c.

Lemma plan_inv_close st reason now c' p :
  closed_status st -> plan_inv c p -> advances c c' ->
  plan_inv c' (reply_plan_repo.close_plan_values st reason now p).
Proof.
  intros Hst ((?&?&?)&_&_) (_&_&?&?&?). split; [|split].
  - unfold plan_fences_le. cbn. lia.
  - intros Hp. cbn in Hp. destruct Hst; congruence.
  - cbn. rewrite closed_not_open by done. done.
Qed.

Lemma plan_inv_not_open c' p :
  plan_inv c p -> reply_plan_open (rp_status p) = false -> advances c c' -> plan_inv c' p.
Proof.
  intros ((?&?&?)&?&_) Hno (_&_&?&?&?). split; [|split]; [|done|congruence].
  unfold plan_fences_le. lia.
Qed.

Lemma open_plan_of_true p :
  reply_plan_repo.open_plan_of cid p = true <->
  rp_conversation_id p = cid /\ reply_plan_open (rp_status p) = true.
Proof.
  unfold reply_plan_repo.open_plan_of. by rewrite andb_true_iff, bool_decide_eq_true.
Qed.

(** Closing plans never touches a dispatched one. *)
Lemma outbox_dispatched_close st reason now o :
  outbox_dispatched ps o ->
  outbox_dispatched
    (sql_update (reply_plan_repo.open_plan_of cid)
       (reply_plan_repo.close_plan_values st reason now) ps) o.
Proof.
  intros (pid & p & Ho & Hp & Hst & ?). exists pid, p.
  split_and!; try tauto. apply lookup_sql_update_Some. exists p. split; [done|].
  destruct (reply_plan_repo.open_plan_of cid p) eqn:E; [|done].
  apply open_plan_of_true in E as [_ E]. rewrite Hst in E. done.
Qed.

Lemma pause_inv_close st reason now k d :
  cs !! k = Some d -> k <> cid -> pause_inv ps d ->
  pause_inv
    (sql_update (reply_plan_repo.open_plan_of cid)
       (reply_plan_repo.close_plan_values st reason now) ps) d.
Proof.
  intros Hd Hne Hinv Hst. destruct (Hinv Hst) as (Hch & pid & p & Ha & Hp & Hok).
  split; [done|]. exists pid, p. split_and!; [done| |done].
  apply lookup_sql_update_Some. exists p. split; [done|].
  destruct (reply_plan_repo.open_plan_of cid p) eqn:E; [|done].
  apply open_plan_of_true in E as [E _]. destruct Hok as (Hpc & _).
  apply Hkeys in Hd. cbn in Hd. congruence.
Qed.

(** The services' central move: the dialog advances, its open plans are
    closed and its unadmitted client messages cancelled. *)
Lemma work_ok_revoke st reason now now' c' :
  work_ok (Some cid) cs ps os -> closed_status st -> advances c c' ->
  work_ok (Some cid) (<[cid := c']> cs)
    (sql_update (reply_plan_repo.open_plan_of cid)
       (reply_plan_repo.close_plan_values st reason now) ps)
    (sql_update (outbound_repo.unadmitted_of cid) (outbound_repo.cancel_values now') os).
Proof.
  intros (Hps & Hos & Hpause) Hst Hadv. split_and!.
  - intros k p' d. rewrite lookup_sql_update_Some. intros (p & Hp & ->).
    destruct (decide (rp_conversation_id p = cid)) as [Hpc|Hpc].
    + destruct (reply_plan_repo.open_plan_of cid p) eqn:E.
      * cbn. rewrite Hpc, lookup_insert_eq. intros [= <-].
        eapply plan_inv_close; eauto. apply (Hps k); congruence.
      * rewrite Hpc, lookup_insert_eq. intros [= <-].
        eapply plan_inv_not_open; eauto; [apply (Hps k); congruence|].
        apply not_true_iff_false. intros Ho. apply not_true_iff_false in E.
        apply E, open_plan_of_true. done.
    + destruct (reply_plan_repo.open_plan_of cid p) eqn:E;
        [by apply open_plan_of_true in E as [? _]|].
      rewrite lookup_insert_ne by done. eauto.
  - intros k o' d. rewrite lookup_sql_update_Some. intros (o & Ho & ->) Hd.
    assert (ob_conversation_id o = cid \/ cs !! ob_conversation_id o = Some d) as Hcase.
    { destruct (decide (ob_conversation_id o = cid)) as [|Hne]; [by left|right].
      destruct (outbound_repo.unadmitted_of cid o); cbn in Hd;
        by rewrite lookup_insert_ne in Hd. }
    assert (exists d0, cs !! ob_conversation_id o = Some d0) as [d0 Hd0].
    { destruct Hcase as [->|Hcase]; eauto. }
    destruct (Hos _ _ _ Ho Hd0) as [Hclient Hdraft].
    split; [intros Hdest|by destruct (outbound_repo.unadmitted_of cid o)].
    assert (client_destination (ob_destination_type o) = true) as Hdest'
      by (by destruct (outbound_repo.unadmitted_of cid o)).
    destruct (Hclient Hdest') as [Hdisp Hcur]. split.
    + apply (outbox_dispatched_close st reason now) in Hdisp.
      by destruct (outbound_repo.unadmitted_of cid o).
    + destruct (outbound_repo.unadmitted_of cid o) eqn:E; [done|]. intros Hun.
      destruct Hcase as [Hcid|Hcid]; [|rewrite Hcid in Hd0; simplify_eq; by apply Hcur].
      exfalso. unfold outbound_repo.unadmitted_of in E.
      rewrite Hun, Hdest' in E. rewrite bool_decide_eq_true_2 in E; done.
  - intros k d. rewrite lookup_insert_Some. intros [[<- <-]|[Hne Hd]] Hex; [done|].
    apply pause_inv_close with (k := k); [done|congruence|].
    apply (Hpause k); [done|congruence].
Qed.

(** Only the plans are closed (a takeover of a dialog that already is the
    manager's, or closed). *)
Lemma work_ok_close_plans st reason now :
  work_ok (Some cid) cs ps os -> closed_status st ->
  work_ok (Some cid) cs
    (sql_update (reply_plan_repo.open_plan_of cid)
       (reply_plan_repo.close_plan_values st reason now) ps) os.
Proof.
  intros (Hps & Hos & Hpause) Hst. split_and!.
  - intros k p' d. rewrite lookup_sql_update_Some. intros (p & Hp & ->).
    destruct (reply_plan_repo.open_plan_of cid p) eqn:E; [|eauto].
    apply open_plan_of_true in E as [Hpc _]. cbn. rewrite Hpc, Hc. intros [= <-].
    eapply plan_inv_close; [done| |unfold advances; split_and!; lia || done].
    apply (Hps k); congruence.
  - intros k o d Ho Hd. destruct (Hos _ _ _ Ho Hd) as [Hclient Hdraft].
    split; [intros Hdest|done]. destruct (Hclient Hdest) as [? ?].
    split; [by apply outbox_dispatched_close|done].
  - intros k d Hd Hex. apply pause_inv_close with (k := k); [done|congruence|eauto].
Qed.

Lemma work_ok_weaken : work_ok None cs ps os -> work_ok (Some cid) cs ps os.
Proof. intros (?&?&Hp). split_and!; [done..|]. intros k d Hd _. by apply (Hp k). Qed.

Lemma work_ok_pause :
  work_ok (Some cid) cs ps os -> pause_inv ps c -> work_ok None cs ps os.
Proof.
  intros (?&?&Hp) Hpause. split_and!; [done..|]. intros k d Hd _.
  destruct (decide (k = cid)) as [->|Hne]; [by assert (d = c) as -> by congruence|].
  apply (Hp k); [done|congruence].
Qed.

(** Changing neither fences nor ownership of the dialog. *)
Lemma work_ok_same_fences c' :
  work_ok (Some cid) cs ps os ->
  conv_id c' = conv_id c -> conv_channel c' = conv_channel c ->
  conv_context_version c' = conv_context_version c ->
  conv_manager_epoch c' = conv_manager_epoch c ->
  conv_current_event_seq c' = conv_current_event_seq c ->
  (conv_handoff_state c' = conv_handoff_state c \/
   conv_handoff_state c <> BOT_ACTIVE /\ conv_handoff_state c' <> HUMAN_ACTIVE) ->
  work_ok (Some cid) (<[cid := c']> cs) ps os.
Proof.
  intros (Hps & Hos & Hpause) Hid Hch Hv He Hq Hst. split_and!.
  - intros k p d Hp. rewrite lookup_insert_Some. intros [[Hpc <-]|[Hne Hd]]; [|eauto].
    destruct (Hps k p c Hp) as (Hle & Hl & Hopen); [congruence|].
    unfold plan_inv, plan_fences_le, plan_current, plan_fences_eq in *. rewrite Hch, Hv, He, Hq.
    split_and!; try tauto. intros Ho. destruct (Hopen Ho) as [? Hsyn].
    split; [done|]. intros Hs. destruct (Hsyn Hs). destruct Hst as [->|[_ ?]]; done.
  - intros k o d Ho. rewrite lookup_insert_Some. intros [[Hoc <-]|[Hne Hd]];
      [|by eapply Hos].
    destruct (Hos k o c Ho) as [Hclient Hdraft]; [congruence|].
    split; [intros Hdest|done]. destruct (Hclient Hdest) as [Hdisp Hcur]. split; [done|].
    intros Hun. destruct (Hcur Hun) as (?&Hbot&?).
    unfold outbox_current, outbox_fences_eq. rewrite Hch, Hv, He, Hq. split_and!; try done.
    destruct Hst as [->|[? _]]; done.
  - intros k d. rewrite lookup_insert_Some. intros [[<- <-]|[Hne Hd]] Hex; [done|eauto].
Qed.

(** A new plan with the dialog's fences. *)
Lemma work_ok_insert_plan p :
  work_ok (Some cid) cs ps os -> ps !! rp_id p = None ->
  rp_conversation_id p = cid -> plan_fences_eq c p -> rp_status p = RP_PENDING ->
  (conv_channel c = CHANNEL_SYNTHETIC -> conv_handoff_state c <> HUMAN_ACTIVE) ->
  work_ok (Some cid) cs (<[rp_id p := p]> ps) os.
Proof.
  intros (Hps & Hos & Hpause) Hfresh Hpc Heq Hst Hha. split_and!.
  - intros k q d. rewrite lookup_insert_Some. intros [[<- <-]|[Hne Hq]]; [|eauto].
    rewrite Hpc, Hc. intros [= <-]. destruct Heq as (?&?&?).
    unfold plan_inv, plan_fences_le, plan_leased, plan_current, plan_fences_eq. rewrite Hst.
    split_and!; try lia; try done. intros _. split; [done|]. intros Hs. by split; [split_and!|auto].
  - intros k o d Ho Hd. destruct (Hos k o d Ho Hd) as [Hclient Hdraft].
    split; [intros Hdest|done]. destruct (Hclient Hdest) as [Hdisp Hcur].
    split; [|done]. destruct Hdisp as (pid & q & Hr & Hq & Hrest).
    exists pid, q. split_and!; try tauto.
    rewrite lookup_insert_ne by (intros <-; by rewrite Hfresh in Hq). done.
  - intros k d Hd Hex. intros Hst'. destruct (Hpause k d Hd Hex Hst') as (Hch & pid & q & Ha & Hq & Hok).
    split; [done|]. exists pid, q. split_and!; [done| |done].
    rewrite lookup_insert_ne by (intros <-; by rewrite Hfresh in Hq). done.
Qed.
End Moves.
