(* ===== verification/Moves.v ===== *)
(** * Moves of the leased queues

    Workers change plans and outbox rows one at a time, under leases, without
    changing what the rows are about.  [table_moves R] lifts such a row move to
    a table, and the dialog invariant is kept by any move of the two queues. *)

From S2P Require Import Prelude Models Database Statements Conversations ReplyPlans Outbound.
From S2P Require Import HandoffExpiry Dialog.

(** ** Tables related row by row *)

Definition table_moves {R} (move : R -> R -> Prop) (t t' : gmap uuid R) : Prop :=
  forall k, option_Forall2 move (t !! k) (t' !! k).

Lemma table_moves_refl {R} (move : R -> R -> Prop) t :
  (forall k r, t !! k = Some r -> move r r) -> table_moves move t t.
Proof. intros H k. destruct (t !! k) eqn:E; constructor; eauto. Qed.

Lemma table_moves_lookup {R} (move : R -> R -> Prop) t t' k r :
  table_moves move t t' -> t !! k = Some r -> exists r', t' !! k = Some r' /\ move r r'.
Proof. intros H Hr. specialize (H k). rewrite Hr in H. inv H. eauto. Qed.

Lemma table_moves_lookup_inv {R} (move : R -> R -> Prop) t t' k r' :
  table_moves move t t' -> t' !! k = Some r' -> exists r, t !! k = Some r /\ move r r'.
Proof. intros H Hr. specialize (H k). rewrite Hr in H. inv H. eauto. Qed.

Lemma table_moves_update {R} `{Table R} (move : R -> R -> Prop) c v t :
  (forall k r, t !! k = Some r -> move r r) ->
  (forall k r, t !! k = Some r -> c r = true -> move r (v r)) ->
  table_moves move t (sql_update c v t).
Proof.
  intros Hr Hc k. rewrite lookup_sql_update. destruct (t !! k) as [r|] eqn:E; constructor.
  destruct (c r) eqn:?; eauto.
Qed.

Lemma table_moves_insert {R} (move : R -> R -> Prop) t k r r' :
  (forall k r, t !! k = Some r -> move r r) ->
  t !! k = Some r -> move r r' -> table_moves move t (<[k := r']> t).
Proof.
  intros Hr Hk Hm i. destruct (decide (i = k)) as [->|].
  - rewrite lookup_insert_eq, Hk. by constructor.
  - rewrite lookup_insert_ne by done. destruct (t !! i) eqn:?; constructor; eauto.
Qed.

Lemma table_moves_trans {R} (move : R -> R -> Prop) t1 t2 t3 :
  (forall a b c, move a b -> move b c -> move a c) ->
  table_moves move t1 t2 -> table_moves move t2 t3 -> table_moves move t1 t3.
Proof.
  intros Htr H1 H2 k. specialize (H1 k). specialize (H2 k).
  destruct H1; inv H2; constructor. eauto.
Qed.

(** ** The two queues *)

(** What never changes in a plan once it is written. *)
Definition same_plan (p p' : ReplyPlan) : Prop :=
  rp_id p' = rp_id p /\ rp_conversation_id p' = rp_conversation_id p /\
  rp_context_version p' = rp_context_version p /\ rp_manager_epoch p' = rp_manager_epoch p /\
  rp_event_seq_hwm p' = rp_event_seq_hwm p /\ rp_plan_type p' = rp_plan_type p /\
  rp_max_attempts p' = rp_max_attempts p /\ rp_correlation_id p' = rp_correlation_id p.

(** What never changes in an outbox row. *)
Definition same_outbound (o o' : OutboxMessage) : Prop :=
  ob_id o' = ob_id o /\ ob_conversation_id o' = ob_conversation_id o /\
  ob_reply_plan_id o' = ob_reply_plan_id o /\ ob_idempotency_key o' = ob_idempotency_key o /\
  ob_context_version o' = ob_context_version o /\ ob_manager_epoch o' = ob_manager_epoch o /\
  ob_event_seq_hwm o' = ob_event_seq_hwm o /\
  ob_destination_type o' = ob_destination_type o /\ ob_payload_json o' = ob_payload_json o /\
  ob_max_attempts o' = ob_max_attempts o.

(** The move of a plan inside dialogs [cs]: nothing closed is opened, nothing
    dispatched is lost, and the plan a paused dialog waits for stays usable. *)
Definition plan_moves (cs : gmap uuid Conversation) (p p' : ReplyPlan) : Prop :=
  same_plan p p' /\
  (rp_status p = RP_DISPATCHED -> rp_status p' = RP_DISPATCHED) /\
  (reply_plan_open (rp_status p') = true -> reply_plan_open (rp_status p) = true) /\
  plan_leased p' /\
  (forall c, cs !! rp_conversation_id p = Some c -> conv_handoff_state c = HUMAN_PAUSE ->
     deferred_plan_ok c p -> deferred_plan_ok c p').

Definition outbox_moves (o o' : OutboxMessage) : Prop :=
  same_outbound o o' /\
  (outbound_repo.unadmitted (ob_delivery_status o') = true ->
   outbound_repo.unadmitted (ob_delivery_status o) = true).

Lemma plan_moves_refl cs p : plan_leased p -> plan_moves cs p p.
Proof. intros. by split_and!. Qed.

Lemma outbox_moves_refl o : outbox_moves o o.
Proof. by split_and!. Qed.

#[export] Hint Resolve outbox_moves_refl : core.

Lemma same_plan_trans p1 p2 p3 : same_plan p1 p2 -> same_plan p2 p3 -> same_plan p1 p3.
Proof. intros (?&?&?&?&?&?&?&?) (?&?&?&?&?&?&?&?). split_and!; congruence. Qed.

Lemma plan_moves_trans cs p1 p2 p3 :
  plan_moves cs p1 p2 -> plan_moves cs p2 p3 -> plan_moves cs p1 p3.
Proof.
  intros (Hs1 & Hd1 & Ho1 & _ & Hw1) (Hs2 & Hd2 & Ho2 & Hl2 & Hw2).
  split_and!; [by eapply same_plan_trans|by auto|by auto|done|].
  intros c Hc Hst Hok. apply Hw2; [|done|by apply Hw1].
  by destruct Hs1 as (_ & -> & _).
Qed.

Lemma outbox_moves_trans o1 o2 o3 :
  outbox_moves o1 o2 -> outbox_moves o2 o3 -> outbox_moves o1 o3.
Proof.
  intros [(?&?&?&?&?&?&?&?&?&?) ?] [(?&?&?&?&?&?&?&?&?&?) ?].
  split; [split_and!; congruence|auto].
Qed.

(** A plan that is not waited for by a paused dialog. *)
Lemma plan_moves_processing cs p p' :
  same_plan p p' -> rp_status p = RP_PROCESSING -> plan_leased p' -> plan_moves cs p p'.
Proof.
  intros Hs Hst Hl. split_and!; [done|congruence|by rewrite Hst|done|].
  intros c _ _ (_ & _ & [H|H] & _); congruence.
Qed.

Lemma outbox_moves_dispatched cs ps ps' o :
  table_moves (plan_moves cs) ps ps' -> outbox_dispatched ps o -> outbox_dispatched ps' o.
Proof.
  intros Hm (pid & p & H1 & Hp & Hst & H2).
  destruct (table_moves_lookup _ _ _ _ _ Hm Hp) as (p' & Hp' & Hsame & Hd & _).
  destruct Hsame as (_ & E1 & E2 & E3 & E4 & _).
  exists pid, p'. rewrite E1, E2, E3, E4. split_and!; try tauto.
Qed.

Lemma work_ok_plan_moves cs ps ps' os :
  keys_ok cs -> table_moves (plan_moves cs) ps ps' ->
  work_ok None cs ps os -> work_ok None cs ps' os.
Proof.
  intros Hk Hm (Hps & Hos & Hpause). split_and!.
  - intros k p' c Hp' Hc.
    destruct (table_moves_lookup_inv _ _ _ _ _ Hm Hp') as (p & Hp & Hsame & _ & Hopen & Hl & _).
    destruct Hsame as (_ & E1 & E2 & E3 & E4 & _). rewrite E1 in Hc.
    destruct (Hps k p c Hp Hc) as (Hle & _ & Heq).
    unfold plan_inv, plan_fences_le, plan_current, plan_fences_eq in *. rewrite E2, E3, E4. tauto.
  - intros k o c Ho Hc. destruct (Hos k o c Ho Hc) as [Hclient Hdraft].
    split; [|done]. intros Hd. destruct (Hclient Hd) as [Hdisp Hcur].
    split; [|done]. by eapply outbox_moves_dispatched.
  - intros k c Hc Hex Hst. destruct (Hpause k c Hc Hex Hst) as (Hch & pid & p & Ha & Hp & Hdef).
    destruct (table_moves_lookup _ _ _ _ _ Hm Hp) as (p' & Hp' & _ & _ & _ & _ & Hwait).
    split; [done|]. exists pid, p'. split_and!; [done|done|]. apply Hwait; [|done|done].
    destruct Hdef as (-> & _). pose proof (Hk _ _ Hc) as Hid. cbn in Hid. by rewrite Hid.
Qed.

Lemma work_ok_outbox_moves cs ps os os' :
  table_moves outbox_moves os os' -> work_ok None cs ps os -> work_ok None cs ps os'.
Proof.
  intros Hm (Hps & Hos & Hpause). split_and!; [done| |done].
  intros k o' c Ho' Hc.
  destruct (table_moves_lookup_inv _ _ _ _ _ Hm Ho') as (o & Ho & Hsame & Hun).
  destruct Hsame as (_ & E1 & E2 & E3 & E4 & E5 & E6 & E7 & _). rewrite E1 in Hc.
  destruct (Hos k o c Ho Hc) as [Hclient Hdraft].
  unfold outbox_inv, outbox_dispatched, outbox_current, outbox_fences_eq. rewrite E1, E2, E3, E4, E5, E6, E7.
  split; [|done]. intros Hd. destruct (Hclient Hd) as [Hdisp Hcur].
  split; [done|]. intros Hu. exact (Hcur (Hun Hu)).
Qed.

(** A new client-visible row of a dispatched plan. *)
Lemma work_ok_insert_outbound cs ps os o c :
  work_ok None cs ps os -> cs !! ob_conversation_id o = Some c ->
  client_destination (ob_destination_type o) = true ->
  outbox_dispatched ps o -> outbox_current c o ->
  work_ok None cs ps (<[ob_id o := o]> os).
Proof.
  intros (Hps & Hos & Hpause) Hc Hd Hdisp Hcur. split_and!; [done| |done].
  intros k o' c'. rewrite lookup_insert_Some. intros [[_ <-]|[_ Ho]]; [|by eapply Hos].
  rewrite Hc. intros [= <-]. split; [done|]. by rewrite Hd.
Qed.

(** ** The database *)

Definition queues_move (s s' : Database) : Prop :=
  db_conversations s' = db_conversations s /\ db_inbox_messages s' = db_inbox_messages s /\
  db_manager_messages s' = db_manager_messages s /\
  table_moves (plan_moves (db_conversations s)) (db_reply_plans s) (db_reply_plans s') /\
  table_moves outbox_moves (db_outbox_messages s) (db_outbox_messages s').

Lemma dialog_ok_queues_move s s' :
  dialog_ok s -> queues_move s s' -> constraints_ok s' -> dialog_ok s'.
Proof.
  intros (Hcon & Hw & Hq) (E1 & E2 & E3 & Hp & Ho) Hcon'. split; [done|].
  rewrite E1, E2, E3. split; [|done].
  eapply work_ok_outbox_moves; [exact Ho|]. eapply work_ok_plan_moves; [|exact Hp|done].
  by apply conversations_keyed.
Qed.

Lemma queues_move_trans s1 s2 s3 :
  queues_move s1 s2 -> queues_move s2 s3 -> queues_move s1 s3.
Proof.
  intros (E1 & E2 & E3 & Hp & Ho) (F1 & F2 & F3 & Hp' & Ho').
  rewrite E1 in Hp'. split_and!; [congruence..| |].
  - eapply table_moves_trans; [apply plan_moves_trans|done|done].
  - eapply table_moves_trans; [apply outbox_moves_trans|done|done].
Qed.

Lemma dialog_plan_leased s k p :
  dialog_ok s -> db_reply_plans s !! k = Some p -> plan_leased p.
Proof.
  intros (Hcon & (Hps & _) & _) Hp.
  destruct (reply_plan_checked s k p Hcon Hp) as (_ & _ & c & Hc).
  by destruct (Hps k p c Hp Hc) as (_ & ? & _).
Qed.

(** Nothing client-visible refers to a plan that is not dispatched. *)
Lemma dialog_undispatched s pid p k o :
  dialog_ok s -> db_reply_plans s !! pid = Some p -> rp_status p <> RP_DISPATCHED ->
  db_outbox_messages s !! k = Some o -> client_destination (ob_destination_type o) = true ->
  ob_reply_plan_id o <> Some pid.
Proof.
  intros (Hcon & (_ & Hos & _) & _) Hp Hst Ho Hd Hpid.
  destruct (outbox_checked s k o Hcon Ho) as (_ & _ & c & Hc).
  destruct (Hos k o c Ho Hc) as [Hclient _].
  destruct (Hclient Hd) as [(pid' & p' & E & Hp' & Hst' & _) _]. congruence.
Qed.
