(* ===== verification/Frames.v ===== *)
(** * What a computation leaves alone

    [same_dialog]: the five tables of the dialog invariant are untouched.  Reads
    of any table and statements on the other tables respect it, so whole
    routines (mirror and projection enqueueing, offer and self-booking
    bookkeeping) do, by the shape of their code. *)

From S2P Require Import Prelude BookingText Models Database Statements Conversations ReplyPlans.
From S2P Require Import Outbound SelfBooking Messages Mirror ReplyText Projections HandoffExpiry.
From S2P Require Import EphemeralPii Dialog.

Definition same_dialog (s s' : Database) : Prop :=
  db_conversations s' = db_conversations s /\ db_reply_plans s' = db_reply_plans s /\
  db_outbox_messages s' = db_outbox_messages s /\ db_inbox_messages s' = db_inbox_messages s /\
  db_manager_messages s' = db_manager_messages s.

#[export] Instance same_dialog_preorder : PreOrder same_dialog.
Proof.
  split; [by intros s; split_and!|].
  intros s1 s2 s3 (?&?&?&?&?) (?&?&?&?&?). split_and!; congruence.
Qed.

Lemma dialog_ok_same s s' : dialog_ok s -> same_dialog s s' -> constraints_ok s' -> dialog_ok s'.
Proof.
  intros (_ & Hw & Hq) (H1 & H2 & H3 & H4 & H5) Hcon. split; [done|].
  rewrite H1, H2, H3, H4, H5. done.
Qed.

(** Reads change nothing. *)
Section Reads.
Context {R : Type} `{T : Table R} (P : Database -> Database -> Prop) `{!PreOrder P}.

Lemma reads_get_by_id id : respects P (get_by_id (R := R) id).
Proof. intros env s. simpl. reflexivity. Qed.

Lemma reads_select_where p : respects P (select_where (R := R) p).
Proof. intros env s. simpl. reflexivity. Qed.

Lemma reads_select_scalar p : respects P (select_scalar (R := R) p).
Proof. intros env s. simpl. reflexivity. Qed.

Lemma reads_refresh r : respects P (refresh (R := R) r).
Proof.
  apply respects_bind; [done|apply reads_get_by_id|]. intros; by apply respects_require.
Qed.

Lemma reads_db_now : respects P db_now.
Proof. intros env s. simpl. reflexivity. Qed.

Lemma reads_resolve_moment now : respects P (resolve_moment now).
Proof. destruct now; intros env s; simpl; reflexivity. Qed.
End Reads.

(** A table the relation does not watch. *)
Class Unwatched (P : Database -> Database -> Prop) (R : Type) `{T : Table R} :=
  unwatched : forall t s, P s (table_set (R := R) t s).

Section Writes.
Context {R : Type} (P : Database -> Database -> Prop) `{T : Table R, !PreOrder P, U : !Unwatched P R}.

Lemma unwatched_insert_with a r : respects P (insert_with a r).
Proof.
  intros env s. unfold insert_with, mbind, M_bind, get_state, put_state, raise, mret, M_ret.
  repeat case_match; simplify_eq; simpl; first [apply U | reflexivity].
Qed.

Lemma unwatched_insert_row r : respects P (insert_row r).
Proof.
  apply respects_bind; [done|apply unwatched_insert_with|]. intros; by apply respects_ret.
Qed.

Lemma unwatched_update_where c v : respects P (update_where c v).
Proof.
  intros env s. unfold update_where, mbind, M_bind, get_state, put_state, raise, mret, M_ret.
  repeat case_match; simplify_eq; simpl; first [apply U | reflexivity].
Qed.

Lemma unwatched_update_by_id id g v : respects P (update_by_id id g v).
Proof.
  apply respects_bind; [done|apply unwatched_update_where|]. intros; by apply respects_ret.
Qed.

Lemma unwatched_delete_where c : respects P (delete_where c).
Proof. intros env s. apply U. Qed.

Lemma unwatched_upsert r c v : respects P (insert_on_conflict_do_update r c v).
Proof.
  apply respects_bind; [done|by apply respects_get_state|]. intros s.
  repeat (apply respects_if; [try by apply respects_raise|]).
  - apply respects_bind; [done|apply unwatched_insert_row|]. intros; by apply respects_ret.
  - apply unwatched_update_by_id.
Qed.
End Writes.

#[export] Hint Extern 2 (respects _ (get_by_id _)) => apply reads_get_by_id; apply _ : respects.
#[export] Hint Extern 2 (respects _ (select_where _)) => apply reads_select_where; apply _ : respects.
#[export] Hint Extern 2 (respects _ (select_scalar _)) => apply reads_select_scalar; apply _ : respects.
#[export] Hint Extern 2 (respects _ (refresh _)) => apply reads_refresh; apply _ : respects.
#[export] Hint Extern 2 (respects _ db_now) => apply reads_db_now; apply _ : respects.
#[export] Hint Extern 2 (respects _ (resolve_moment _)) => apply reads_resolve_moment; apply _ : respects.
#[export] Hint Extern 2 (respects _ (insert_with _ _)) => apply unwatched_insert_with; apply _ : respects.
#[export] Hint Extern 2 (respects _ (insert_on_conflict_do_nothing _ _)) => apply unwatched_insert_with; apply _ : respects.
#[export] Hint Extern 2 (respects _ (insert_row _)) => apply unwatched_insert_row; apply _ : respects.
#[export] Hint Extern 2 (respects _ (update_where _ _)) => apply unwatched_update_where; apply _ : respects.
#[export] Hint Extern 2 (respects _ (update_by_id _ _ _)) => apply unwatched_update_by_id; apply _ : respects.
#[export] Hint Extern 2 (respects _ (delete_where _)) => apply unwatched_delete_where; apply _ : respects.
#[export] Hint Extern 2 (respects _ (insert_on_conflict_do_update _ _ _)) => apply unwatched_upsert; apply _ : respects.

#[export] Instance same_dialog_ops : Unwatched same_dialog ConversationOpsEvent.
Proof. by intros t s; split_and!. Qed.
#[export] Instance same_dialog_mirror : Unwatched same_dialog AmoCrmMirrorJob.
Proof. by intros t s; split_and!. Qed.
#[export] Instance same_dialog_projections : Unwatched same_dialog AmocrmMessageProjection.
Proof. by intros t s; split_and!. Qed.
#[export] Instance same_dialog_ingress : Unwatched same_dialog IngressEvent.
Proof. by intros t s; split_and!. Qed.
#[export] Instance same_dialog_chat_bindings : Unwatched same_dialog AmocrmChatBinding.
Proof. by intros t s; split_and!. Qed.
#[export] Instance same_dialog_offers : Unwatched same_dialog SelfBookingActiveOffer.
Proof. by intros t s; split_and!. Qed.
#[export] Instance same_dialog_pendings : Unwatched same_dialog SelfBookingCreatePending.
Proof. by intros t s; split_and!. Qed.
#[export] Instance same_dialog_pii_values : Unwatched same_dialog EphemeralPiiValue.
Proof. by intros t s; split_and!. Qed.
#[export] Instance same_dialog_pii : Unwatched same_dialog SelfBookingPiiAdmission.
Proof. by intros t s; split_and!. Qed.

Lemma same_dialog_uuid4 : respects same_dialog uuid4.
Proof. intros env s. by split_and!. Qed.
Lemma same_dialog_statement_now : respects same_dialog db_statement_now.
Proof. intros env s. by split_and!. Qed.

#[export] Hint Resolve same_dialog_uuid4 same_dialog_statement_now : respects.

(** A routine outside the dialog, inside a proof about the dialog. *)
Lemma wp_same_dialog {A} (m : Session A) (Q : A -> Database -> Prop) X env s :
  respects same_dialog m ->
  (forall a s', same_dialog s s' -> Q a s') -> (forall e s', X e s') -> wp m Q X env s.
Proof.
  intros Hm HQ HX. eapply wp_mono; [by apply respects_wp| |by auto]. auto.
Qed.

Lemma same_dialog_invalidate cid :
  respects same_dialog (SelfBookingActiveOfferService.invalidate cid).
Proof. solve_respects. Qed.

Lemma same_dialog_admit_from_confirm cid ch ext action v e q :
  respects same_dialog
    (SelfBookingConfirmAdmissionService.admit_from_confirm cid ch ext action v e q).
Proof. solve_respects. Qed.

Lemma same_dialog_enqueue_client_message_received cid iid v corr :
  respects same_dialog (amocrm_mirror.enqueue_client_message_received cid iid v corr).
Proof. solve_respects. Qed.

Lemma same_dialog_enqueue_client_inbound_projection cid iid corr :
  respects same_dialog (amocrm_chat_projection.enqueue_client_inbound_projection cid iid corr).
Proof. solve_respects. Qed.

#[export] Hint Resolve same_dialog_invalidate same_dialog_admit_from_confirm
  same_dialog_enqueue_client_message_received
  same_dialog_enqueue_client_inbound_projection : respects.

(** UPDATE ... RETURNING under a guard, then the row. *)
Lemma wp_update_returning {R} `{TL : TableLaws R} X env s id guard (v : R -> R) r c1 m1 c2 m2
    (Q : R -> Database -> Prop) :
  keys_ok (table_get s) -> table_get s !! id = Some r -> guard r = true ->
  Q (v r) (table_set (<[id := v r]> (table_get s)) s) -> (forall e s', X e s') ->
  wp (updated ← update_by_id id guard v;
      _ ← assert_or_raise updated c1 m1;
      row ← get_by_id id; require_some row c2 m2) Q X env s.
Proof.
  intros Hk Hr Hg HQ HX. apply wp_bind. eapply wp_update_by_id; [done|exact Hr|exact Hg| |auto|auto].
  intros _ _. apply wp_bind, wp_assert; [intros _|auto]. apply wp_bind, wp_get_by_id.
  rewrite table_get_set, lookup_insert_eq. apply wp_require_some; [|done]. by intros a [= <-].
Qed.

(** UPDATE of one row, foreign keys included. *)
Lemma wp_update_returns {R : Type} `{TL : TableLaws R} (X : exn -> Database -> Prop) env s id guard v r
    (Q : bool -> Database -> Prop) :
  constraints_ok s -> table_get s !! id = Some r -> guard r = true ->
  row_id (v r) = row_id r -> row_fits (v r) = true -> row_checks (v r) = true ->
  row_references s (v r) = true ->
  (forall k x, table_get s !! k = Some x -> row_conflict (v r) x = true ->
     row_conflict r x = true) ->
  Q true (table_set (<[id := v r]> (table_get s)) s) ->
  wp (update_by_id id guard v) Q X env s.
Proof.
  intros Hcon Hr Hg Hid Hf Hck Href Hcf HQ. pose proof (constraints_keys_ok s Hcon) as Hk.
  eapply wp_update_by_id; [done|exact Hr|exact Hg|by auto|congruence|].
  intros Hno. destruct Hno. split_and!; [rewrite Hid; by apply Hk|done| |].
  - eapply references_grow; [apply set_grows, grows_in_insert|done].
  - rewrite table_get_set. apply map_Forall_lookup_2. intros id2 r2.
    rewrite lookup_insert_Some. intros [[<- <-]|[Hne Hr2]]; [by left|right].
    apply not_true_iff_false. intros H. apply (Hcf _ _ Hr2) in H.
    destruct (constraints_table s Hcon _ _ Hr) as (_ & _ & _ & _ & Hu).
    destruct (Hu _ _ Hr2); congruence.
Qed.
