(* ===== verification/EncodingProofs.v ===== *)
(** * Encodings are decoded to what was encoded

    Base64 and UTF-8 of Encodings are inverted by their decoders, and the digests
    have 32 bytes. *)

From S2P Require Import Prelude BookingText Encodings.

(** Arithmetic of bytes and sextets. *)
Ltac byte_lia := zify; Z.to_euclidean_division_equations; lia.

Lemma ascii_bound c : (N_of_ascii c < 256)%N.
Proof. apply N_ascii_bounded. Qed.

Lemma ascii_of_bytes n c : n = N_of_ascii c -> ascii_of_N n = c.
Proof. intros ->. apply ascii_N_embedding. Qed.

(** ** Base64 *)

Lemma below_64 (P : N -> bool) :
  forallb (fun k => P (N.of_nat k)) (seq 0 64) = true -> forall n, (n < 64)%N -> P n = true.
Proof.
  intros H n Hn. rewrite forallb_forall in H. rewrite <- (N2Nat.id n). apply H, in_seq. lia.
Qed.

Lemma b64_value_digit n : (n < 64)%N -> b64_value (b64_digit n) = Some n.
Proof.
  intros Hn. pose proof (below_64 (fun n => bool_decide (b64_value (b64_digit n) = Some n))
    eq_refl n Hn) as H. by apply bool_decide_eq_true_1 in H.
Qed.

Lemma b64_digit_is_digit n : (n < 64)%N -> is_b64_digit (b64_digit n) = true.
Proof. by apply (below_64 (fun n => is_b64_digit (b64_digit n))). Qed.

(** Induction three characters at a time. *)
Lemma string_ind3 (P : string -> Prop) :
  P "" -> (forall a, P (String a "")) -> (forall a b, P (String a (String b ""))) ->
  (forall a b c s, P s -> P (String a (String b (String c s)))) -> forall s, P s.
Proof.
  intros H0 H1 H2 H3. fix IH 1. intros [|a [|b [|c s]]]; [done|done|done|]. apply H3, IH.
Qed.

Lemma urlsafe_b64decode_encode s : urlsafe_b64decode (urlsafe_b64encode s) = Some s.
Proof.
  induction s as [|a|a b|a b c s IH] using string_ind3; [done|..];
    pose proof (ascii_bound a); try pose proof (ascii_bound b); try pose proof (ascii_bound c);
    cbn [urlsafe_b64encode urlsafe_b64decode].
  - rewrite !b64_value_digit by byte_lia. cbn. f_equal. f_equal. apply ascii_of_bytes. byte_lia.
  - rewrite !b64_value_digit by byte_lia. cbn. f_equal.
    f_equal; [|f_equal]; apply ascii_of_bytes; byte_lia.
  - rewrite !b64_value_digit by byte_lia. cbn -[N.mul N.div N.modulo N.add]. rewrite IH.
    cbn -[N.mul N.div N.modulo N.add].
    f_equal. f_equal; [|f_equal; [|f_equal]]; apply ascii_of_bytes; byte_lia.
Qed.

(** Two bytes over a multiple of three: digits and one padding character. *)
Lemma urlsafe_b64encode_shape k : forall s, String.length s = (3 * k + 2)%nat ->
  exists digits, urlsafe_b64encode s = digits +:+ "=" /\
    String.length digits = (4 * k + 3)%nat /\ str_forall is_b64_digit digits = true.
Proof.
  induction k as [|k IH]; intros s Hs.
  - destruct s as [|a [|b [|? ?]]]; try discriminate Hs.
    pose proof (ascii_bound a). pose proof (ascii_bound b). eexists (String _ (String _ (String _ ""))).
    split; [reflexivity|]. split; [done|]. cbn [str_forall].
    by rewrite !b64_digit_is_digit by byte_lia.
  - destruct s as [|a [|b [|c s]]]; try (cbn in Hs; lia).
    destruct (IH s) as (digits & E & Hl & Hd); [cbn in Hs; lia|].
    pose proof (ascii_bound a). pose proof (ascii_bound b). pose proof (ascii_bound c).
    eexists (String _ (String _ (String _ (String _ digits)))). split; [cbn; rewrite E; reflexivity|].
    split; [cbn; lia|]. cbn [str_forall]. rewrite !b64_digit_is_digit by byte_lia. exact Hd.
Qed.

(** ** UTF-8 *)

Lemma utf8_decode_encode s : utf8_decode (utf8_encode s) = Some s.
Proof.
  induction s as [|c s IH]; [done|]. pose proof (ascii_bound c). cbn [utf8_encode].
  destruct (N.ltb_spec (N_of_ascii c) 128) as [Hc|Hc].
  - cbn [utf8_decode]. rewrite (proj2 (N.ltb_lt _ _) Hc), IH. done.
  - cbn [utf8_decode].
    rewrite !N_ascii_embedding by byte_lia.
    rewrite (proj2 (N.ltb_ge (192 + N_of_ascii c / 64) 128)) by byte_lia.
    assert (((194 <=? 192 + N_of_ascii c / 64) && (192 + N_of_ascii c / 64 <=? 195) &&
      (128 <=? 128 + N_of_ascii c mod 64) && (128 + N_of_ascii c mod 64 <? 192))%N = true) as ->.
    { rewrite !andb_true_iff, !N.leb_le, N.ltb_lt. byte_lia. }
    rewrite IH. cbn. f_equal. f_equal. apply ascii_of_bytes. byte_lia.
Qed.

(** ** Digests *)

Lemma of_bytes_length l : String.length (of_bytes l) = length l.
Proof. induction l; cbn; auto. Qed.

Section Digest.
Import Sha256.

Lemma round_length state kw : length state = 8%nat -> length (round state kw) = 8%nat.
Proof. do 9 (destruct state as [|? state]; try done). Qed.

Lemma rounds_length kws state :
  length state = 8%nat -> length (fold_left round kws state) = 8%nat.
Proof.
  revert state. induction kws as [|kw kws IH]; intros state Hs; cbn [fold_left]; [done|].
  by apply IH, round_length.
Qed.

Lemma compress_length state block : length state = 8%nat -> length (compress state block) = 8%nat.
Proof.
  intros Hs. unfold compress. cbv zeta.
  rewrite length_map, length_combine, rounds_length by done. by rewrite Hs.
Qed.

Lemma digest_words_length bytes : length (digest_words bytes) = 8%nat.
Proof.
  unfold digest_words. cbv zeta. generalize (blocks (length (be_words (padded bytes)) / 16)
    (be_words (padded bytes))) as bs.
  assert (length initial_state = 8%nat) as Hi by done. revert Hi. generalize initial_state.
  intros state Hs bs. revert state Hs. induction bs as [|b bs IH]; intros state Hs; cbn [fold_left];
    [done|]. by apply IH, compress_length.
Qed.

Lemma be_bytes_length count n : length (be_bytes count n) = count.
Proof. induction count; cbn; auto. Qed.
End Digest.

Lemma sha256_length data : String.length (sha256 data) = 32%nat.
Proof.
  unfold sha256. rewrite of_bytes_length.
  assert (forall words, length (flat_map (Sha256.be_bytes 4) words) = (4 * length words)%nat) as Hf.
  { induction words as [|w words IH]; [done|]. cbn [flat_map length].
    rewrite length_app, be_bytes_length, IH. lia. }
  by rewrite Hf, digest_words_length.
Qed.

Lemma hmac_sha256_length key message : String.length (hmac_sha256 key message) = 32%nat.
Proof. apply sha256_length. Qed.
