(* ===== verification/PiiProofs.v ===== *)
(** * The store of personal data: specifications

    What the store's routines leave alone, when a value is found, and what
    encryption promises: tokens name references one to one, and a stored value is
    read back as it was stored, only by a caller who names its dialog, kind and
    purpose, until it expires or is consumed. *)

From stdpp Require Import sorting.
From S2P Require Import Prelude BookingText Encodings Models Database Statements EphemeralPii.
From S2P Require Import Frames EncodingProofs.

(** ** What the routines touch *)

(** A draw of random bytes moves the supply as a draw of a UUID does. *)
Lemma respects_token_bytes `{CryptoLib} (P : Database -> Database -> Prop) count :
  respects P uuid4 -> respects P (token_bytes count).
Proof. intros Hu env s. exact (Hu env s). Qed.

#[export] Hint Extern 1 (respects _ (token_bytes _)) =>
  apply respects_token_bytes; solve_respects : respects.

Lemma respects_store_under_reference `{CryptoLib} (P : Database -> Database -> Prop)
    `{!PreOrder P} store n record_id cid kind purpose encrypted :
  respects P generate_reference ->
  (forall digest ttl, respects P (ephemeral_pii_repo.insert_if_reference_available record_id digest
     cid kind purpose encrypted ttl)) ->
  respects P (EphemeralPiiStoreOps.store_under_reference store n record_id cid kind purpose
    encrypted).
Proof.
  intros Hg Hi. induction n as [|n IH]; cbn; [by apply respects_ret|].
  apply respects_bind; [done|done|]. intros r. apply respects_bind; [done|apply Hi|].
  intros []; [by apply respects_ret|exact IH].
Qed.

#[export] Hint Extern 1 (respects _ (EphemeralPiiStoreOps.store_under_reference _ _ _ _ _ _ _)) =>
  apply respects_store_under_reference; [apply _|solve_respects|intros; solve_respects] : respects.

(** Only statements that read were run. *)
Definition ticks (s s' : Database) : Prop := exists k, s' = s <| db_statement_clock := k |>.

#[export] Instance ticks_preorder : PreOrder ticks.
Proof.
  split; [intros s; exists (db_statement_clock s); by destruct s|].
  intros s1 s2 s3 [k ->] [k' ->]. by exists k'.
Qed.

Lemma ticks_statement_now : respects ticks db_statement_now.
Proof. intros env s. by eexists. Qed.

#[export] Hint Resolve ticks_statement_now : respects.

(** Values of the store that satisfy [allowed] may be gone. *)
Definition sheds (allowed : EphemeralPiiValue -> Prop) (s s' : Database) : Prop :=
  exists v k, s' = s <| db_pii_values := v |> <| db_statement_clock := k |> /\
    v ⊆ db_pii_values s /\
    forall id x, db_pii_values s !! id = Some x -> v !! id = Some x \/ allowed x.

#[export] Instance sheds_preorder allowed : PreOrder (sheds allowed).
Proof.
  split.
  - intros s. exists (db_pii_values s), (db_statement_clock s). split; [by destruct s|]. by auto.
  - intros s1 s2 s3 (v & k & -> & Hv & Ha) (v' & k' & -> & Hv' & Ha'). cbn in *.
    exists v', k'. split; [done|]. split; [by etrans|].
    intros id x Hx. destruct (Ha id x Hx) as [Hx'|]; [by apply Ha'|by right].
Qed.

Lemma ticks_sheds allowed s s' : ticks s s' -> sheds allowed s s'.
Proof. intros [k ->]. exists (db_pii_values s), k. split; [by destruct s|]. by auto. Qed.

Lemma respects_ticks_sheds {A} allowed (m : Session A) : respects ticks m -> respects (sheds allowed) m.
Proof. intros H env s. apply ticks_sheds, H. Qed.

Section Touch.
Context `{CryptoLib} (store : EphemeralPiiStore).

Lemma ticks_read_plaintext reference cid kind purpose :
  respects ticks (EphemeralPiiStoreOps.read_plaintext store reference cid kind purpose).
Proof. solve_respects. Qed.
End Touch.

Lemma ticks_pair_alive phone_token name_token cid :
  respects ticks
    (EphemeralPiiStoreOps.booking_phone_write_pair_alive phone_token name_token cid).
Proof. solve_respects. Qed.

#[export] Hint Resolve ticks_read_plaintext ticks_pair_alive : respects.

(** ** Finding a value *)

(** The value [x] is stored under [digest] and unexpired at [now]. *)
Definition live (digest : string) (now : instant) (x : EphemeralPiiValue) : bool :=
  String.eqb (ep_reference_digest x) digest && (now <? ep_expires_at x).

Lemma wp_select_for_read digest X env s (Q : option EphemeralPiiValue -> Database -> Prop) :
  let now := env_statement_timestamp env (db_statement_clock s) in
  let s' := s <| db_statement_clock ::= S |> in
  (forall id x, db_pii_values s !! id = Some x -> live digest now x = true -> Q (Some x) s') ->
  ((forall id x, db_pii_values s !! id = Some x -> live digest now x = false) -> Q None s') ->
  wp (ephemeral_pii_repo.select_for_read digest) Q X env s.
Proof.
  intros now s' HQ HN. unfold ephemeral_pii_repo.select_for_read.
  apply wp_bind, wp_db_statement_now, wp_select_scalar; [exact HQ|exact HN].
Qed.

Lemma wp_pii_error_or {A} code (m : Session A) Q X env s :
  wp m Q (fun e s' => X (if bool_decide (exn_class e = EphemeralPiiError) then e
                         else Exn EphemeralPiiError code) s') env s ->
  wp (pii_error_or code m) Q X env s.
Proof.
  intros Hm. apply wp_try. eapply wp_mono; [exact Hm|done|]. intros [c msg] s' HX. cbn in *.
  case_bool_decide; by apply wp_raise.
Qed.

Lemma wp_select_for_consume digest X env s (Q : option EphemeralPiiValue -> Database -> Prop) :
  let now := env_statement_timestamp env (db_statement_clock s) in
  (forall id x k, db_pii_values s !! id = Some x -> live digest now x = true ->
     Q (Some x) (s <| db_statement_clock := k |>)) ->
  (forall k, Q None (s <| db_statement_clock := k |>)) ->
  wp (ephemeral_pii_repo.select_for_consume digest) Q X env s.
Proof.
  intros now HQ HN. unfold ephemeral_pii_repo.select_for_consume. apply wp_bind, wp_select_for_read.
  - intros id x Hx Hl. apply wp_bind. unfold ephemeral_pii_repo.row_still_unexpired_after_lock.
    apply wp_bind, wp_db_statement_now, wp_bind, wp_select_scalar.
    + intros. by apply wp_ret, wp_ret, (HQ id x).
    + intros. by apply wp_ret, wp_ret, HN.
  - intros _. by apply wp_ret, HN.
Qed.

(** What a caller who names a reference, a dialog, a kind and a purpose may see. *)
Definition accessible (reference : EphemeralPiiReference) (cid : uuid) (kind : EphemeralPiiKind)
    (purpose : EphemeralPiiPurpose) (x : EphemeralPiiValue) : Prop :=
  ep_reference_digest x = EphemeralPiiReferenceOps.digest reference /\
  ep_conversation_id x = cid /\ ep_pii_kind x = kind /\ ep_allowed_purpose x = purpose.

Definition ACCESS_DENIED : exn := Exn EphemeralPiiError "EPHEMERAL_PII_ACCESS_DENIED".

Lemma bindings_match_true x cid kind purpose :
  bindings_match x cid kind purpose = true <->
  ep_conversation_id x = cid /\ ep_pii_kind x = kind /\ ep_allowed_purpose x = purpose.
Proof. unfold bindings_match. rewrite !andb_true_iff, !bool_decide_eq_true. tauto. Qed.

Lemma wp_require_access row cid kind purpose X env s
    (Q : EphemeralPiiValue -> Database -> Prop) :
  (forall x, row = Some x -> ep_conversation_id x = cid -> ep_pii_kind x = kind ->
     ep_allowed_purpose x = purpose -> Q x s) ->
  ((forall x, row = Some x -> ep_crypto_version x = 1 ->
      bindings_match x cid kind purpose = false) -> X ACCESS_DENIED s) ->
  wp (EphemeralPiiStoreOps.require_access row cid kind purpose) Q X env s.
Proof.
  intros HQ HX. unfold EphemeralPiiStoreOps.require_access. destruct row as [x|].
  - apply wp_if; intros Hb.
    + apply wp_raise, HX. intros ? [= <-] _. by apply negb_true_iff.
    + apply negb_false_iff, bindings_match_true in Hb as (?&?&?).
      apply wp_if; intros Hv; [|by apply wp_ret, HQ].
      apply wp_raise, HX. intros ? [= <-] E. by rewrite E in Hv.
  - by apply wp_raise, HX.
Qed.

(** Deleting the row that was found takes that value only. *)
Lemma sheds_one (s : Database) id x k (allowed : EphemeralPiiValue -> Prop) :
  keys_ok (db_pii_values s) -> db_pii_values s !! id = Some x -> allowed x ->
  sheds allowed s (s <| db_pii_values :=
    filter (fun kv => bool_decide (ep_id kv.2 = ep_id x) = false) (db_pii_values s) |>
    <| db_statement_clock := k |>).
Proof.
  intros Hk Hx Ha. eexists _, _. split; [done|]. split; [apply map_filter_subseteq|].
  intros id' y Hy. destruct (bool_decide (ep_id y = ep_id x)) eqn:E.
  - right. apply bool_decide_eq_true in E.
    rewrite (Hk _ _ Hx : ep_id x = id), (Hk _ _ Hy : ep_id y = id') in E. by simplify_eq.
  - left. by apply map_lookup_filter_Some.
Qed.

Section Delete.
Context (env : Env) (s : Database) (reference : EphemeralPiiReference) (cid : uuid).
Context (kind : EphemeralPiiKind) (purpose : EphemeralPiiPurpose).
Context (Hk : keys_ok (db_pii_values s)).

Lemma wp_delete (Q : unit -> Database -> Prop) (X : exn -> Database -> Prop) :
  (forall s', sheds (accessible reference cid kind purpose) s s' -> Q tt s') ->
  (X ACCESS_DENIED s) ->
  wp (EphemeralPiiStoreOps.delete reference cid kind purpose) Q X env s.
Proof.
  intros HQ HX. apply wp_pii_error_or, wp_session_scope, wp_bind, wp_select_for_consume.
  - intros id x k Hx Hl. apply andb_true_iff in Hl as [Hd%String.eqb_eq _].
    apply wp_bind, wp_require_access; [|done]. intros ? [= <-] ? ? ?.
    apply wp_bind, wp_delete_where, wp_ret, HQ. by apply (sheds_one s id).
  - intros k. apply wp_bind, wp_require_access; done.
Qed.
End Delete.

(** ** Tokens of references *)

Lemma token_of_reference raw :
  String.length raw = REFERENCE_RAW_BYTES -> reference_token_re (urlsafe_b64encode raw) = true.
Proof.
  intros Hl. destruct (urlsafe_b64encode_shape 10 raw Hl) as (digits & -> & Hd & Hf).
  unfold reference_token_re. rewrite string_length_app, Hd, str_take_app, str_drop_app, Hf by done.
  done.
Qed.

Lemma parse_to_token raw :
  String.length raw = REFERENCE_RAW_BYTES ->
  EphemeralPiiReferenceOps.parse
    (EphemeralPiiReferenceOps.to_token (MkEphemeralPiiReference raw)) =
  Some (MkEphemeralPiiReference raw).
Proof.
  intros Hl. unfold EphemeralPiiReferenceOps.parse, EphemeralPiiReferenceOps.to_token,
    decode_reference_token, EphemeralPiiReferenceOps.init, canonical_reference_token.
  cbn [er_raw]. rewrite token_of_reference by done. cbn [negb].
  rewrite urlsafe_b64decode_encode. cbn. rewrite Hl, Nat.eqb_refl. cbn.
  rewrite String.eqb_refl. cbn. by rewrite Hl, Nat.eqb_refl.
Qed.

Lemma parse_token_inv token reference :
  EphemeralPiiReferenceOps.parse token = Some reference ->
  String.length (er_raw reference) = REFERENCE_RAW_BYTES /\
  EphemeralPiiReferenceOps.to_token reference = token.
Proof.
  unfold EphemeralPiiReferenceOps.parse, EphemeralPiiReferenceOps.init. intros H.
  apply bind_Some in H as (raw & Hraw & H).
  destruct (Nat.eqb_spec (String.length raw) REFERENCE_RAW_BYTES) as [Hl|]; [|done].
  injection H as <-. split; [done|]. unfold decode_reference_token in Hraw.
  destruct (negb _); [done|]. apply bind_Some in Hraw as (decoded & _ & Hraw).
  destruct (negb _); [done|]. apply bind_Some in Hraw as (canonical & Hc & Hraw).
  destruct (String.eqb_spec canonical token) as [E|]; [|done]. injection Hraw as ->.
  unfold canonical_reference_token in Hc. rewrite Hl, Nat.eqb_refl in Hc. injection Hc as <-. exact E.
Qed.

(** ** What the parameters promise *)

(** AES-GCM decrypts what it encrypted under the same key, nonce and associated
    data, and appends a tag of 16 bytes; draws have the length asked for. *)
Class CryptoLaws `{CryptoLib} := {
  aesgcm_decrypt_encrypt : forall key nonce plaintext aad,
    String.length key = KEY_SIZE_BYTES -> String.length nonce = NONCE_SIZE_BYTES ->
    aesgcm_decrypt key nonce (aesgcm_encrypt key nonce plaintext aad) aad = Some plaintext;
  aesgcm_encrypt_length : forall key nonce plaintext aad,
    String.length (aesgcm_encrypt key nonce plaintext aad) = (String.length plaintext + 16)%nat;
  random_bytes_length : forall n count, String.length (random_bytes n count) = count
}.

(** The environment holds the active key. *)
Definition has_active_key (environ : Environ) (active : ActiveEphemeralPiiKey) : Prop :=
  environ !! "EPHEMERAL_PII_ACTIVE_KEY_ID"%string = Some (ak_key_id active) /\
  require_key_id_token (ak_key_id active) = Some (ak_key_id active) /\
  exists raw, environ !! ("EPHEMERAL_PII_KEY_" +:+ ak_key_id active) = Some raw /\
    decode_key_material raw = Some (ak_key active).

Lemma key_material_length raw key :
  decode_key_material raw = Some key -> String.length key = KEY_SIZE_BYTES.
Proof.
  unfold decode_key_material. destruct (String.eqb raw ""); [done|]. destruct (negb _); [done|].
  cbv zeta. destruct (_ || _); [done|]. intros H. apply bind_Some in H as (d & _ & H).
  destruct (Nat.eqb_spec (String.length d) KEY_SIZE_BYTES) as [Hl|]; [|done].
  destruct (String.eqb raw _); [|done]. by injection H as <-.
Qed.

Lemma key_id_checked key_id :
  require_key_id_token key_id = Some key_id -> key_id_token key_id = true.
Proof.
  unfold require_key_id_token, key_id_token. destruct (String.eqb_spec key_id "") as [|Hne]; [done|].
  destruct (Nat.ltb_spec 64 (String.length key_id)); [done|]. cbn [orb].
  destruct (str_forall _ key_id) eqn:Hf; [|done]. intros _. rewrite andb_true_r, andb_true_iff.
  rewrite !Nat.leb_le. split; [|done]. destruct key_id; [done|]. cbn. lia.
Qed.

Lemma wp_get_key environ active X env s (Q : string -> Database -> Prop) :
  has_active_key environ active -> Q (ak_key active) s ->
  wp (EnvEphemeralPiiKeyProvider.get_key environ (ak_key_id active)) Q X env s.
Proof.
  intros (_ & Hid & raw & Hraw & Hkey) HQ. unfold EnvEphemeralPiiKeyProvider.get_key, validate_key_id.
  rewrite Hid. apply wp_bind, wp_ret. rewrite Hraw, Hkey. by apply wp_ret.
Qed.

Lemma wp_get_active_key environ active X env s (Q : ActiveEphemeralPiiKey -> Database -> Prop) :
  has_active_key environ active -> Q active s ->
  wp (EnvEphemeralPiiKeyProvider.get_active_key environ) Q X env s.
Proof.
  intros Hact HQ. pose proof Hact as (Henv & Hid & _).
  unfold EnvEphemeralPiiKeyProvider.get_active_key, EnvEphemeralPiiKeyProvider.active_key_id,
    validate_key_id. rewrite Henv, Hid. apply wp_bind, wp_ret, wp_bind, wp_get_key; [done|].
  apply wp_ret. by destruct active.
Qed.

(** Text the store takes. *)
Definition storable (value : string) : Prop :=
  value <> ""%string /\ (String.length (utf8_encode value) <= MAX_PLAINTEXT_BYTES)%nat.

Section Crypto.
Context `{CryptoLaws} (store : EphemeralPiiStore) (active : ActiveEphemeralPiiKey).
Context (Hactive : has_active_key (eps_environ store) active).

Lemma active_key_length : String.length (ak_key active) = KEY_SIZE_BYTES.
Proof. destruct Hactive as (_ & _ & raw & _ & Hr). by apply key_material_length in Hr. Qed.

(** The envelope of [value] with the [n]-th draw as nonce. *)
Definition envelope (value : string) (aad : EphemeralPiiAad) (n : N) : EphemeralPiiCiphertext :=
  MkEphemeralPiiCiphertext
    (aesgcm_encrypt (ak_key active) (random_bytes n NONCE_SIZE_BYTES) (utf8_encode value)
       (aad_to_bytes aad))
    (random_bytes n NONCE_SIZE_BYTES) (ak_key_id active) CRYPTO_VERSION_V1.

Lemma envelope_well_formed value aad n : ciphertext_post_init (envelope value aad n) = None.
Proof.
  pose proof Hactive as (_ & Hid & _). unfold ciphertext_post_init, envelope.
  cbn [ec_ciphertext ec_nonce ec_key_id ec_crypto_version].
  rewrite aesgcm_encrypt_length, random_bytes_length, Nat.eqb_refl, Hid.
  destruct (Nat.ltb_spec (String.length (utf8_encode value) + 16) MIN_CIPHERTEXT_BYTES) as [Hl|];
    [unfold MIN_CIPHERTEXT_BYTES in Hl; lia|done].
Qed.

Lemma wp_encrypt_text value aad X env s (Q : EphemeralPiiCiphertext -> Database -> Prop) :
  storable value -> aad_crypto_version aad = CRYPTO_VERSION_V1 ->
  aad_key_id aad = ak_key_id active ->
  Q (envelope value aad (db_uuid_supply s)) (s <| db_uuid_supply ::= N.succ |>) ->
  wp (encrypt_text value aad (eps_environ store) (Some active)) Q X env s.
Proof.
  intros [Hne Hlen] Hv Hk HQ. unfold encrypt_text.
  destruct (String.eqb_spec value "") as [|_]; [done|]. cbv zeta.
  apply wp_if; [intros Hl%Nat.ltb_lt; lia|intros _].
  rewrite Hv, Z.eqb_refl, Hk, String.eqb_refl. cbn [negb].
  apply wp_bind. unfold require_key_bytes. rewrite active_key_length, Nat.eqb_refl.
  apply wp_ret, wp_bind. unfold wp at 1, token_bytes.
  rewrite random_bytes_length, Nat.eqb_refl. cbn [negb].
  pose proof (envelope_well_formed value aad (db_uuid_supply s)) as Hw. unfold envelope in Hw.
  rewrite Hw. by apply wp_ret.
Qed.

Lemma wp_decrypt_text value aad n X env s (Q : string -> Database -> Prop) :
  aad_crypto_version aad = CRYPTO_VERSION_V1 -> aad_key_id aad = ak_key_id active ->
  Q value s ->
  wp (decrypt_text (envelope value aad n) aad (eps_environ store)) Q X env s.
Proof.
  intros Hv Hk HQ. unfold decrypt_text. cbn [ec_crypto_version ec_key_id ec_nonce ec_ciphertext envelope].
  rewrite Hv, Hk, String.eqb_refl, random_bytes_length, Nat.eqb_refl, aesgcm_encrypt_length.
  cbn [negb orb Z.eqb]. apply wp_if; [by intros|intros _]. apply wp_if; [by intros|intros _].
  apply wp_if; [intros Hl%Nat.ltb_lt; unfold MIN_CIPHERTEXT_BYTES in Hl; lia|intros _].
  apply wp_bind, wp_try, wp_get_key; [done|].
  rewrite active_key_length, Nat.eqb_refl. cbn [negb].
  rewrite aesgcm_decrypt_encrypt; [|apply active_key_length|apply random_bytes_length].
  apply wp_bind, wp_ret. rewrite utf8_decode_encode. by apply wp_ret.
Qed.

(** ** Storing a value *)

Context (Httl : 1 <= eps_ttl_seconds store).

(** The row a value becomes: the supply numbers its key, nonce and reference. *)
Definition stored_row (value : string) (cid : uuid) (kind : EphemeralPiiKind)
    (purpose : EphemeralPiiPurpose) (n : N) (reference : EphemeralPiiReference) (now : instant)
    : EphemeralPiiValue :=
  let aad := MkEphemeralPiiAad CRYPTO_VERSION_V1 (uuid4_of n) (ak_key_id active) kind cid purpose in
  let encrypted := envelope value aad (N.succ n) in
  MkEphemeralPiiValue (uuid4_of n) (EphemeralPiiReferenceOps.digest reference) cid kind purpose
    (ec_ciphertext encrypted) (ec_nonce encrypted) (ec_key_id encrypted) CRYPTO_VERSION_V1 now
    (now + seconds (eps_ttl_seconds store)).

Definition drawn_reference (n : N) : EphemeralPiiReference :=
  MkEphemeralPiiReference (random_bytes n REFERENCE_RAW_BYTES).

(** No stored value has the digest of the reference drawn. *)
Definition unused_reference (s : Database) (n : N) : Prop :=
  forall id x, db_pii_values s !! id = Some x ->
    ep_reference_digest x <> EphemeralPiiReferenceOps.digest (drawn_reference n).

Lemma stored_row_ok value cid kind purpose n reference now s :
  db_pii_values s !! uuid4_of n = None ->
  (forall id x, db_pii_values s !! id = Some x ->
     ep_reference_digest x <> EphemeralPiiReferenceOps.digest reference) ->
  row_ok s (uuid4_of n) (stored_row value cid kind purpose n reference now).
Proof.
  intros Hfresh Hd. pose proof Hactive as (_ & Hid & _). split; [done|]. split_and!; [|done|].
  - cbn [row_checks EphemeralPiiValue_table]. unfold ephemeral_pii_checks, stored_row, envelope.
    cbn [ep_reference_digest ep_nonce ep_ciphertext ep_crypto_version ep_key_id ep_created_at
      ep_expires_at ec_ciphertext ec_nonce ec_key_id].
    unfold EphemeralPiiReferenceOps.digest.
    rewrite sha256_length, random_bytes_length, aesgcm_encrypt_length, (key_id_checked _ Hid).
    rewrite (proj2 (Nat.leb_le 16 _)) by lia.
    rewrite (proj2 (Z.ltb_lt now _)) by (unfold seconds; lia). done.
  - intros id x Hx. right. cbn. unfold uq_ephemeral_pii_values_reference_digest.
    apply String.eqb_neq. intros E. by eapply Hd.
Qed.

Lemma wp_store_one value cid kind purpose X env s
    (Q : option EphemeralPiiHandle -> Database -> Prop) :
  let n := db_uuid_supply s in
  let now := env_statement_timestamp env (db_statement_clock s) in
  let reference := drawn_reference (N.succ (N.succ n)) in
  storable value -> db_pii_values s !! uuid4_of n = None ->
  unused_reference s (N.succ (N.succ n)) ->
  Q (Some (MkEphemeralPiiHandle reference kind purpose))
    (s <| db_pii_values := <[uuid4_of n := stored_row value cid kind purpose n reference now]>
            (db_pii_values s) |>
       <| db_uuid_supply := N.succ (N.succ (N.succ n)) |> <| db_statement_clock ::= S |>) ->
  wp (EphemeralPiiStoreOps.store_one_in_session store value cid kind purpose) Q X env s.
Proof.
  intros n now reference Hst Hfresh Hunused HQ. unfold EphemeralPiiStoreOps.store_one_in_session.
  apply wp_bind. apply (wp_get_active_key _ active); [done|]. apply wp_bind, wp_uuid4. cbv zeta.
  apply wp_bind, wp_encrypt_text; [done|done|done|]. cbn [MAX_REFERENCE_COLLISION_RETRIES].
  cbn [EphemeralPiiStoreOps.store_under_reference]. apply wp_bind. unfold generate_reference.
  apply wp_bind. unfold wp at 1, token_bytes, EphemeralPiiReferenceOps.init.
  rewrite random_bytes_length, Nat.eqb_refl. apply wp_ret, wp_bind.
  unfold ephemeral_pii_repo.insert_if_reference_available. apply wp_bind, wp_db_statement_now.
  dbsimpl. fold n now reference.
  pose proof (stored_row_ok value cid kind purpose n reference now s Hfresh Hunused) as Hok.
  apply wp_insert_with; dbsimpl.
  - intros id x Hx E. apply String.eqb_eq in E. by destruct (Hunused id x Hx).
  - intros _ _ _ _. apply wp_ret. exact HQ.
  - done.
  - intros E. destruct Hok as (_ & Hck & _). by destruct (eq_true_false_abs _ Hck E).
  - intros _ Hno. destruct Hno. split; [exact Hfresh|exact Hok].
Qed.
End Crypto.
