(* ===== verification/ManagerProofs.v ===== *)
(** * Manager activity revokes the bot's work

    The theorems about src/app/services/manager_messages.py and
    src/app/services/takeover.py: the dialog invariant is kept, the open plans
    and the unadmitted messages of the dialog are gone, nothing already admitted
    and no other dialog is touched. *)

From S2P Require Import Prelude Models Database Statements Conversations ReplyPlans Outbound.
From S2P Require Import Messages Mirror HandoffExpiry Dialog ManagerMessages.

(** ** Vocabulary of the statements *)

(** No plan of the dialog can still be claimed and no client-visible message of
    it can still be admitted. *)
Definition revoked (s : Database) (cid : uuid) : Prop :=
  (forall k p, db_reply_plans s !! k = Some p -> rp_conversation_id p = cid ->
     reply_plan_open (rp_status p) = false) /\
  (forall k o, db_outbox_messages s !! k = Some o -> ob_conversation_id o = cid ->
     client_destination (ob_destination_type o) = true ->
     outbound_repo.unadmitted (ob_delivery_status o) = false).

(** Rows of other dialogs, and admitted or finished messages of any dialog, are
    the same before and after. *)
Definition untouched_outside (cid : uuid) (s s' : Database) : Prop :=
  (forall k, k <> cid -> db_conversations s' !! k = db_conversations s !! k) /\
  (forall k p, db_reply_plans s !! k = Some p -> rp_conversation_id p <> cid ->
     db_reply_plans s' !! k = Some p) /\
  (forall k o, db_outbox_messages s !! k = Some o ->
     ob_conversation_id o <> cid \/ outbound_repo.unadmitted (ob_delivery_status o) = false ->
     db_outbox_messages s' !! k = Some o).

(** Nothing of the dialog is open after its plans were closed. *)
Lemma revoked_after s s' cid st reason now :
  closed_status st ->
  db_reply_plans s' =
    sql_update (reply_plan_repo.open_plan_of cid)
      (reply_plan_repo.close_plan_values st reason now) (db_reply_plans s) ->
  db_outbox_messages s' =
    sql_update (outbound_repo.unadmitted_of cid) (outbound_repo.cancel_values now)
      (db_outbox_messages s) ->
  revoked s' cid.
Proof.
  intros Hst Hps Hos. split.
  - intros k p. rewrite Hps, lookup_sql_update_Some. intros (q & Hq & ->) Hc.
    destruct (reply_plan_repo.open_plan_of cid q) eqn:E; [by apply closed_not_open|].
    apply not_true_iff_false. intros Ho. apply not_true_iff_false in E.
    by apply E, open_plan_of_true.
  - intros k o. rewrite Hos, lookup_sql_update_Some. intros (q & Hq & ->) Hc Hd.
    destruct (outbound_repo.unadmitted_of cid q) eqn:E; [done|].
    unfold outbound_repo.unadmitted_of in E. rewrite Hd in E.
    by rewrite bool_decide_eq_true_2, andb_true_l in E.
Qed.

Lemma lookup_outside_plans cid st reason now (ps : gmap uuid ReplyPlan) k p :
  ps !! k = Some p -> rp_conversation_id p <> cid ->
  sql_update (reply_plan_repo.open_plan_of cid)
    (reply_plan_repo.close_plan_values st reason now) ps !! k = Some p.
Proof.
  intros Hp Hne. apply lookup_sql_update_Some. exists p. split; [done|].
  destruct (reply_plan_repo.open_plan_of cid p) eqn:E; [|done].
  by apply open_plan_of_true in E as [? _].
Qed.

Lemma lookup_outside_outbox cid now (os : gmap uuid OutboxMessage) k o :
  os !! k = Some o ->
  ob_conversation_id o <> cid \/ outbound_repo.unadmitted (ob_delivery_status o) = false ->
  sql_update (outbound_repo.unadmitted_of cid) (outbound_repo.cancel_values now) os !! k
    = Some o.
Proof.
  intros Ho Hcase. apply lookup_sql_update_Some. exists o. split; [done|].
  unfold outbound_repo.unadmitted_of. destruct Hcase as [Hne| ->].
  - by rewrite bool_decide_eq_false_2.
  - by rewrite andb_false_r.
Qed.

(** Counters of the dialog advance without overtaking its messages. *)
Lemma event_seqs_ok_advance cs ims mms cid c c' :
  keys_ok cs -> cs !! cid = Some c -> advances c c' ->
  event_seqs_ok cs ims mms -> event_seqs_ok (<[cid := c']> cs) ims mms.
Proof.
  intros Hk Hc (_ & _ & _ & _ & Hq) (H1 & H2 & H3). split_and!; [| |done].
  - intros k m d Hm. rewrite lookup_insert_Some. intros [[Hd <-]|[_ Hd]]; [|eauto].
    etrans; [apply (H1 k m c); [done|congruence]|done].
  - intros k m d q Hm. rewrite lookup_insert_Some. intros [[Hd <-]|[_ Hd]] Hseq; [|eauto].
    etrans; [apply (H2 k m c q); [done|congruence|done]|done].
Qed.

(** ** Takeover *)

Definition takeover_post (s : Database) (cid : uuid) (r : ManagerTakeoverResult)
    (s' : Database) : Prop :=
  exists c c',
    db_conversations s !! cid = Some c /\ db_conversations s' !! cid = Some c' /\
    mtr_conversation_id r = cid /\ mtr_ownership r = conv_ownership c' /\
    mtr_status r = conv_status c' /\
    if mtr_changed r then
      conv_handoff_state c' = HUMAN_ACTIVE /\ conv_ownership c' = MANAGER /\
      conv_manager_epoch c' = conv_manager_epoch c + 1 /\
      conv_context_version c' = conv_context_version c /\
      conv_current_event_seq c' = conv_current_event_seq c /\
      conv_status c <> CLOSED /\ conv_status c' = HANDOFF /\
      conv_handoff_deadline_at c' = Some Infinity /\ revoked s' cid
    else c' = c.

(** Any manager activity: the dialog advances to [c'], its open plans are
    cancelled and its unadmitted messages with them. *)
Lemma manager_activity_ok s s' cid c c' reason now :
  dialog_ok s -> db_conversations s !! cid = Some c -> advances c c' ->
  conv_handoff_state c' = HUMAN_ACTIVE ->
  db_conversations s' = <[cid := c']> (db_conversations s) ->
  db_reply_plans s' =
    sql_update (reply_plan_repo.open_plan_of cid)
      (reply_plan_repo.close_plan_values RP_CANCELLED reason now) (db_reply_plans s) ->
  db_outbox_messages s' =
    sql_update (outbound_repo.unadmitted_of cid) (outbound_repo.cancel_values now)
      (db_outbox_messages s) ->
  event_seqs_ok (<[cid := c']> (db_conversations s)) (db_inbox_messages s')
    (db_manager_messages s') ->
  constraints_ok s' ->
  dialog_ok s' /\ untouched_outside cid s s' /\ revoked s' cid.
Proof.
  intros (Hcon & Hwork & Hseq) Hc Hadv Hst Hcs Hps Hos Hseq' Hcon'.
  assert (dialog_ok s') as Hok'.
  { split; [done|]. rewrite Hcs, Hps, Hos. split; [|done].
    apply work_ok_pause with (cid := cid) (c := c').
    - apply lookup_insert_eq.
    - apply work_ok_revoke with (c := c);
        auto using work_ok_weaken, conversations_keyed; by left.
    - intros Hp. congruence. }
  split_and!; [done| |].
  - unfold untouched_outside. rewrite Hcs, Hps, Hos. split_and!.
    + intros k Hne. by rewrite lookup_insert_ne.
    + intros. by apply lookup_outside_plans.
    + intros. by apply lookup_outside_outbox.
  - eapply revoked_after with (s := s); [by left|done|done].
Qed.

Section Takeover.
Context (env : Env) (s : Database) (cid : uuid) (now : option instant).
Hypothesis Hok : dialog_ok s.

Lemma takeover_unchanged_ok c :
  db_conversations s !! cid = Some c -> conv_handoff_state c <> HUMAN_PAUSE ->
  let s' := s <| db_reply_plans :=
             sql_update (reply_plan_repo.open_plan_of cid)
               (reply_plan_repo.close_plan_values RP_CANCELLED "MANAGER_TAKEOVER"
                  (env_now env)) (db_reply_plans s) |> in
  constraints_ok s' -> dialog_ok s' /\ untouched_outside cid s s'.
Proof.
  intros Hc Hst s' Hcs. destruct Hok as (Hcon & Hwork & Hseq).
  pose proof (constraints_keys_ok (R := Conversation) s Hcon) as Hk. cbn in Hk.
  split; [split; [done|split]|].
  - apply work_ok_pause with (cid := cid) (c := c); [done| |by intros Hp; destruct (Hst Hp)].
    apply work_ok_close_plans with (c := c); auto using work_ok_weaken. by left.
  - done.
  - split_and!; [done| |done]. intros. by apply lookup_outside_plans.
Qed.
End Takeover.

Lemma unchanged_not_paused c :
  conversation_checks c = true ->
  conv_status c = CLOSED \/ conversation_repo.takeover_already c = true ->
  conv_handoff_state c <> HUMAN_PAUSE.
Proof.
  intros Hck [Hst|Hal] Hp.
  - unfold conversation_checks, handoff_consistency in Hck. rewrite Hst, Hp in Hck.
    destruct (conv_ownership c); by rewrite ?andb_false_r in Hck.
  - unfold conversation_repo.takeover_already in Hal. rewrite Hp in Hal.
    rewrite !andb_true_iff, !bool_decide_eq_true in Hal. naive_solver.
Qed.

Lemma takeover_spec env s cid now :
  dialog_ok s ->
  wp (ManagerTakeoverService.apply cid now)
    (fun r s' => dialog_ok s' /\ untouched_outside cid s s' /\ takeover_post s cid r s')
    (fun _ s' => s' = s) env s.
Proof.
  intros Hok. pose proof Hok as (Hcon & _).
  apply wp_session_scope_keeps; [solve_respects|done|].
  unfold apply_manager_takeover_in_session.
  apply wp_bind, wp_bind, wp_apply_manager_takeover; [by apply conversations_keyed| | |done].
  - intros c Hc Hsame. apply wp_bind, wp_bind, wp_db_now, wp_update_where_any; [|done].
    apply wp_bind, wp_when; [done|]. intros _. apply wp_ret, wp_ret. intros Hcs.
    dbsimpl. destruct (takeover_unchanged_ok env s cid Hok c) as [? ?]; [done| |exact Hcs|].
    { eapply unchanged_not_paused; [by eapply conversation_checked|done]. }
    split_and!; [done..|]. exists c, c. split_and!; try done.
    by eapply conversation_key.
  - intros c Hc Hne Hnot. cbv zeta.
    apply wp_bind, wp_bind, wp_db_now, wp_update_where_any; [|done].
    apply wp_bind, wp_when; [|done]. intros _.
    pose proof (conversation_key s cid c Hcon Hc) as Hid.
    apply wp_bind, wp_bind, wp_db_now, wp_update_where_any; [|done].
    apply wp_bind, wp_uuid4, wp_bind, wp_enqueue_manager_takeover; [done|].
    intros _ jobs u. apply wp_ret, wp_ret, wp_ret. cbn [conv_id].
    dbsimpl. cbn. rewrite Hid. intros Hcs.
    set (c' := conversation_repo.apply_manager_takeover_values _ c) in *.
    assert (advances c c') as Hadv by (unfold advances, c'; cbn; split_and!; lia || done).
    match type of Hcs with constraints_ok ?t =>
      destruct (manager_activity_ok s t cid c c' "MANAGER_TAKEOVER" (env_now env))
        as (Hok' & Hout & Hrev); [done..| |done|]
    end.
    { apply event_seqs_ok_advance with (c := c); auto using conversations_keyed. apply Hok. }
    split_and!; [done..|]. exists c, c'. split_and!; [done|by apply lookup_insert_eq|done..].
Qed.

(** ** Manager messages *)

Lemma untouched_opened s c s1 s' :
  opened s c s1 -> untouched_outside (conv_id c) s1 s' -> untouched_outside (conv_id c) s s'.
Proof.
  intros [[-> _]|(n & _ & _ & ->)]; [done|]. intros (H1 & H2 & H3).
  split_and!; [|done|done]. intros k Hne. rewrite H1 by done. cbn.
  by rewrite lookup_insert_ne.
Qed.

Lemma wp_locked_manager_dialog event binding (Q : Conversation -> Database -> Prop) X env s :
  dialog_ok s ->
  (forall c s1, opened s c s1 -> dialog_ok s1 ->
     conv_external_conversation_id c = mme_external_conversation_id event ->
     (forall cid, binding = Some cid -> conv_id c = cid) -> Q c s1) ->
  (forall e s', X e s') ->
  wp (locked_manager_dialog event binding) Q X env s.
Proof.
  intros Hok HQ HX. pose proof Hok as [Hcon _]. unfold locked_manager_dialog.
  destruct binding as [cid|].
  - apply wp_bind, wp_lock_for_update; [intros c Hc|auto].
    apply wp_bind, wp_assert; [intros _|auto]. apply wp_bind, wp_assert; [|auto].
    rewrite String.eqb_eq. intros Hext. apply wp_ret.
    pose proof (conversation_key s cid c Hcon Hc) as Hid.
    apply HQ; [left; by rewrite Hid|done|done|by intros ? [= <-]].
  - apply wp_bind_keeps; [solve_respects|done|]. apply wp_get_or_create; [| |auto].
    + intros k c Hc _ Hext _. pose proof (conversation_key s k c Hcon Hc) as <-.
      apply wp_lock_for_update; [|auto]. intros c' Hc'. assert (c' = c) as -> by congruence.
      apply HQ; [by left|done|done|done].
    + intros c n Hch Hext Hnew Hno Hcon1. apply wp_lock_for_update; [|auto].
      intros c' Hc'. cbn in Hc'. rewrite lookup_insert_eq in Hc'. injection Hc' as <-.
      assert (opened s c (s <| db_conversations := <[conv_id c := c]> (db_conversations s) |>
                            <| db_uuid_supply := n |>)) as Hop.
      { right. exists n. split_and!; [done| |done]. exists (env_now env). congruence. }
      apply HQ; [done|by eapply dialog_ok_opened|done|done].
Qed.

Lemma event_seqs_ok_unnumbered cs ims mms k m :
  mm_conversation_event_seq m = None ->
  event_seqs_ok cs ims mms -> event_seqs_ok cs ims (<[k := m]> mms).
Proof.
  intros Hno (H1 & H2 & H3). split_and!; [done| |].
  - intros k' m' c q. rewrite lookup_insert_Some. intros [[_ <-]|[_ Hm]]; [congruence|eauto].
  - intros k1 m1 k' m' Hm1. rewrite lookup_insert_Some.
    intros [[_ <-]|[_ Hm]]; [congruence|eauto].
Qed.

(** The next number of the dialog goes to one manager message. *)
Lemma event_seqs_ok_numbered cs ims mms k m c c' :
  keys_ok cs -> cs !! conv_id c = Some c -> advances c c' ->
  conv_current_event_seq c' = conv_current_event_seq c + 1 ->
  mm_conversation_id m = conv_id c ->
  mm_conversation_event_seq m = Some (conv_current_event_seq c') ->
  event_seqs_ok cs ims mms -> event_seqs_ok (<[conv_id c := c']> cs) ims (<[k := m]> mms).
Proof.
  intros Hk Hc Hadv Hnext Hmc Hseq Hok.
  destruct (event_seqs_ok_advance cs ims mms (conv_id c) c c') as (H1 & H2 & H3); [done..|].
  destruct Hok as (H0 & _ & _). split_and!; [done| |].
  - intros k' m' d q. rewrite lookup_insert_Some. intros [[_ <-]|[_ Hm]]; [|eauto].
    rewrite Hmc, lookup_insert_eq. intros [= <-] Hq. assert (q = conv_current_event_seq c')
      as -> by congruence. done.
  - intros k1 m1 k' m' Hm1. rewrite lookup_insert_Some. intros [[_ <-]|[_ Hm]]; [|eauto].
    rewrite Hmc, Hseq. intros Hcid [= Heq]. specialize (H0 k1 m1 c Hm1).
    rewrite Hcid in H0. specialize (H0 Hc). lia.
Qed.

Definition known_manager_message (event : SyntheticManagerMessageEvent)
    (m : ManagerMessage) : Prop :=
  mm_channel m = CHANNEL_SYNTHETIC /\
  mm_external_message_id m = mme_external_message_id event.

(** What a chronologically new message does to its dialog. *)
Definition manager_message_applied (event : SyntheticManagerMessageEvent) (deadline : tstz)
    (c c' : Conversation) (m : ManagerMessage) : Prop :=
  exists seq,
    mme_provider_sequence event = Some seq /\
    (forall hwm, conv_manager_sequence_hwm c = Some hwm -> hwm < seq) /\
    conv_status c <> CLOSED /\ mm_status m = APPLIED /\
    mm_conversation_event_seq m = Some (conv_current_event_seq c') /\
    conv_current_event_seq c' = conv_current_event_seq c + 1 /\
    conv_context_version c' = conv_context_version c + 1 /\
    conv_manager_epoch c' = conv_manager_epoch c + 1 /\
    conv_manager_sequence_hwm c' = Some seq /\
    conv_status c' = HANDOFF /\ conv_ownership c' = MANAGER /\
    conv_handoff_state c' = HUMAN_ACTIVE /\ conv_handoff_deadline_at c' = Some deadline.

Definition manager_post (event : SyntheticManagerMessageEvent) (deadline : tstz)
    (s : Database) (r : ManagerMessageApplyResult) (s' : Database) : Prop :=
  let cid := mar_conversation_id r in
  exists c c' m,
    prior s cid c /\ db_conversations s' !! cid = Some c' /\
    db_manager_messages s' !! mar_manager_message_id r = Some m /\
    known_manager_message event m /\ mm_conversation_id m = cid /\
    mm_status m = mar_status r /\ mar_manager_epoch r = conv_manager_epoch c' /\
    mar_event_seq_hwm r = conv_current_event_seq c' /\
    if mar_duplicate r then
      mar_fsm_changed r = false /\ c' = c /\ db_manager_messages s' = db_manager_messages s
    else
      (forall k m0, db_manager_messages s !! k = Some m0 -> ~ known_manager_message event m0) /\
      if mar_fsm_changed r then manager_message_applied event deadline c c' m /\ revoked s' cid
      else c' = c /\ mm_conversation_event_seq m = None /\ mm_status m <> APPLIED.

Lemma opened_same_messages s c s1 :
  opened s c s1 -> db_manager_messages s1 = db_manager_messages s.
Proof. by intros [[-> _]|(? & _ & _ & ->)]. Qed.

Lemma opened_same_clock s c s1 :
  opened s c s1 -> db_statement_clock s1 = db_statement_clock s.
Proof. by intros [[-> _]|(? & _ & _ & ->)]. Qed.

Section ManagerMessage.
Context (env : Env) (event : SyntheticManagerMessageEvent) (pause : Z).
Context (s s1 : Database) (c : Conversation) (m : ManagerMessage) (n : N).
Let deadline := At (env_statement_timestamp env (db_statement_clock s) + seconds pause).
Let s2 := s1 <| db_manager_messages := <[mm_id m := m]> (db_manager_messages s1) |>
             <| db_uuid_supply := n |>.
Hypothesis Hop : opened s c s1.
Hypothesis Hok1 : dialog_ok s1.
Hypothesis Hrow : quarantined_row (conv_id c) CHANNEL_SYNTHETIC
  (mme_external_message_id event) (mme_provider_sequence event) m.
Hypothesis Hnew : forall k m0, db_manager_messages s1 !! k = Some m0 ->
  ~ known_manager_message event m0.
Hypothesis Hcon2 : constraints_ok s2.

Definition manager_goal (r : ManagerMessageApplyResult) (s' : Database) : Prop :=
  dialog_ok s' /\ untouched_outside (mar_conversation_id r) s s' /\
  manager_post event deadline s r s'.

Lemma no_known_before k m0 :
  db_manager_messages s !! k = Some m0 -> ~ known_manager_message event m0.
Proof. rewrite <- (opened_same_messages _ _ _ Hop). apply Hnew. Qed.

Lemma message_keys : keys_ok (db_manager_messages s2).
Proof. exact (constraints_keys_ok (R := ManagerMessage) s2 Hcon2). Qed.

Lemma dialog_lookup : db_conversations s1 !! conv_id c = Some c.
Proof. by eapply opened_lookup. Qed.

(** Closed dialog, stale or missing sequence: only the message is stored. *)
Lemma wp_unapplied (st : ManagerMessageStatus) reason :
  st <> APPLIED ->
  wp (m' ← manager_message_repo.flush_classification m st None reason;
      mret (manager_result c m' false false false 0 0))
    (fun r s' => constraints_ok s' -> manager_goal r s' /\ mar_conversation_id r = conv_id c)
    (fun _ _ => True) env s2.
Proof.
  intros Hst. apply wp_bind, wp_flush_classification;
    [done|apply message_keys|apply lookup_insert_eq|].
  apply wp_ret. intros Hcon'. destruct Hrow as (?&?&?&?&?&?). split; [|done].
  split_and!.
  - split; [done|]. destruct Hok1 as (_ & ? & ?). split; [done|].
    cbn. rewrite insert_insert_eq. by apply event_seqs_ok_unnumbered.
  - eapply untouched_opened; [done|]. by split_and!.
  - exists c, c, (manager_message_repo.classified st None reason m).
    split_and!; try done.
    + by eapply opened_prior.
    + by apply opened_lookup in Hop.
    + apply lookup_insert_eq.
    + cbn. split; [apply no_known_before|]. by split_and!.
Qed.

(** The store a new message leaves, by the tables it wrote. *)
Lemma applied_goal seq c2 m' sF b x y :
  let c1 := conversation_repo.allocate_next_event_seq_values (env_now env) c in
  let moment := env_statement_timestamp env (db_statement_clock s) in
  c2 = c1 \/ c2 = conversation_repo.clear_active_handoff_quarantine_values moment c1 ->
  let c3 := conversation_repo.apply_chronologically_new_manager_message_values seq moment
              pause c2 in
  mme_provider_sequence event = Some seq -> conv_status c <> CLOSED ->
  (forall hwm, conv_manager_sequence_hwm c = Some hwm -> hwm < seq) ->
  m' = manager_message_repo.classified APPLIED (Some (conv_current_event_seq c1))
         "CHRONOLOGICALLY_NEW" m ->
  db_conversations sF = <[conv_id c := c3]> (db_conversations s1) ->
  db_reply_plans sF =
    sql_update (reply_plan_repo.open_plan_of (conv_id c))
      (reply_plan_repo.close_plan_values RP_CANCELLED "MANAGER_MESSAGE" (env_now env))
      (db_reply_plans s1) ->
  db_outbox_messages sF =
    sql_update (outbound_repo.unadmitted_of (conv_id c))
      (outbound_repo.cancel_values (env_now env)) (db_outbox_messages s1) ->
  db_inbox_messages sF = db_inbox_messages s1 ->
  db_manager_messages sF = <[mm_id m := m']> (db_manager_messages s1) ->
  constraints_ok sF -> manager_goal (manager_result c3 m' false true b x y) sF.
Proof.
  intros c1 moment Hc2 c3 Hseq Hst Hhwm -> Hcs Hps Hos His Hms HconF.
  pose proof dialog_lookup as Hc. pose proof Hok1 as (Hcon1 & _ & Hseqs).
  destruct Hrow as (Hmc & Hmch & Hmext & Hmseq & _ & _).
  assert (advances c c3 /\ conv_current_event_seq c3 = conv_current_event_seq c + 1 /\
    conv_context_version c3 = conv_context_version c + 1 /\
    conv_manager_epoch c3 = conv_manager_epoch c + 1 /\ conv_id c3 = conv_id c /\
    conv_current_event_seq c1 = conv_current_event_seq c3) as
    (Hadv & Hq & Hv & He & Hid & Hq1).
  { unfold advances, c3. destruct Hc2 as [->| ->]; cbn; split_and!; lia || done. }
  destruct (manager_activity_ok s1 sF (conv_id c) c c3 "MANAGER_MESSAGE" (env_now env))
    as (Hok' & Hout & Hrev); try done.
  { rewrite His, Hms. eapply event_seqs_ok_numbered; [by apply conversations_keyed|done..| |done].
    rewrite <- Hq1. done. }
  split_and!; [done| |].
  - cbn [manager_result mar_conversation_id]. rewrite Hid. by eapply untouched_opened.
  - exists c, c3, (manager_message_repo.classified APPLIED
      (Some (conv_current_event_seq c1)) "CHRONOLOGICALLY_NEW" m).
    cbn [manager_result mar_conversation_id mar_manager_message_id mar_duplicate
         mar_fsm_changed mm_id].
    rewrite Hid, Hcs, Hms, !lookup_insert_eq. split_and!; try done.
    + by eapply opened_prior.
    + apply no_known_before.
    + exists seq. rewrite <- Hq1. split_and!; done.
Qed.

(** A chronologically new message. *)
Lemma wp_applied seq :
  mme_provider_sequence event = Some seq -> conv_status c <> CLOSED ->
  (forall hwm, conv_manager_sequence_hwm c = Some hwm -> hwm < seq) ->
  wp (apply_new_manager_message c m seq pause)
    (fun r s' => constraints_ok s' -> manager_goal r s' /\ mar_conversation_id r = conv_id c)
    (fun _ _ => True) env s2.
Proof.
  intros Hseq Hst Hhwm. pose proof Hok1 as (Hcon1 & _).
  unfold apply_new_manager_message.
  pose proof (conversations_keyed s1 Hcon1) as Hk. pose proof dialog_lookup as Hc.
  apply wp_bind, wp_allocate_next_event_seq; [done..| |done].
  apply wp_bind, wp_flush_classification; [done|apply message_keys|apply lookup_insert_eq|].
  apply wp_bind, wp_db_statement_now. dbsimpl.
  change (db_statement_clock s2) with (db_statement_clock s1). rewrite (opened_same_clock _ _ _ Hop).
  apply wp_bind, wp_apply_chronologically_new_manager_message; dbsimpl;
    [by apply keys_ok_insert|apply lookup_insert_eq| |done].
  intros c2 b evs n' Hc2.
  apply wp_bind, wp_bind, wp_db_now, wp_update_where_any; [|done].
  apply wp_bind, wp_bind, wp_db_now, wp_update_where_any; [|done].
  assert (forall x, conv_id (conversation_repo.apply_chronologically_new_manager_message_values
    seq x pause c2) = conv_id c) as Hid by (by destruct Hc2 as [->| ->]).
  rewrite !Hid. apply wp_bind, wp_when; intros _.
  - apply wp_bind, wp_uuid4, wp_bind, wp_enqueue_manager_takeover; [done|].
    intros _ jobs u. apply wp_ret, wp_ret. intros HconF.
    split; [|by apply Hid].
    eapply applied_goal with (c2 := c2); try done; cbn; by rewrite !insert_insert_eq.
  - apply wp_ret. intros HconF. split; [|by apply Hid].
    eapply applied_goal with (c2 := c2); try done; cbn; by rewrite !insert_insert_eq.
Qed.
End ManagerMessage.

Lemma classify_new hwm seq :
  classify_manager_sequence hwm (Some seq) = CLASS_CHRONOLOGICALLY_NEW ->
  forall h, hwm = Some h -> h < seq.
Proof. intros H h ->. cbn in H. by destruct (Z.ltb_spec h seq). Qed.

Lemma wp_apply_manager_message event pause binding env s :
  dialog_ok s ->
  wp (apply_manager_message_in_session event pause binding)
    (fun r s' => constraints_ok s' -> manager_goal env event pause s r s' /\
       forall cid, binding = Some cid -> mar_conversation_id r = cid)
    (fun _ _ => True) env s.
Proof.
  intros Hok. unfold apply_manager_message_in_session.
  apply wp_bind, wp_assert; [intros _|done].
  apply wp_bind, wp_locked_manager_dialog; [done| |done]. intros c s1 Hop Hok1 Hext Hbound.
  pose proof (opened_lookup _ _ _ Hop) as Hc. pose proof Hok1 as [Hcon1 _].
  apply wp_bind_keeps; [solve_respects|done|].
  apply wp_insert_quarantined_if_absent; [done| |].
  - intros k m n Hm Hch Hmext Hcon2. apply wp_bind, wp_assert; [|done].
    rewrite bool_decide_eq_true. intros Hmc. apply wp_if; [intros _|done].
    apply wp_ret. intros Hcon'. destruct (manager_message_checked s1 k m Hcon1 Hm) as [Hk _].
    split; [|done]. split_and!.
    + split; [done|]. apply Hok1.
    + eapply untouched_opened; [done|]. by split_and!.
    + exists c, c, m. cbn. rewrite Hk. split_and!; try done.
      * by eapply opened_prior.
      * by eapply opened_same_messages.
  - intros m n Hrow Hfresh Hno Hcon2. pose proof Hrow as (Hmc & _).
    apply wp_bind, wp_assert; [intros _|done]. apply wp_if; [done|]. intros _.
    eapply wp_mono with (Q := fun r s' => constraints_ok s' ->
      manager_goal env event pause s r s' /\ mar_conversation_id r = conv_id c)
      (X := fun _ _ => True); [| |done].
    2: { intros r s' H Hs'. destruct (H Hs') as [Hg ->]. auto. }
    apply wp_if; [intros _; by apply wp_unapplied|].
    rewrite bool_decide_eq_false. intros Hst.
    destruct (classify_manager_sequence _ _) eqn:Hcl;
      [|by apply wp_unapplied|by apply wp_unapplied].
    apply wp_bind, wp_require_some; [|done]. intros seq Hseq. rewrite Hseq in Hcl.
    apply wp_applied; try done. by apply classify_new.
Qed.

Lemma manager_message_spec env s event pause :
  dialog_ok s ->
  wp (SyntheticManagerMessageService.apply event pause)
    (manager_goal env event pause s) (fun _ s' => s' = s) env s.
Proof.
  intros Hok. apply wp_session_scope_keeps; [solve_respects|apply Hok|].
  apply wp_bind, wp_assert; [intros _|done].
  eapply wp_mono; [by apply wp_apply_manager_message| |done]. intros r s' H Hs'. by apply H.
Qed.
