(* ===== verification/DispatchProofs.v ===== *)
(** * Dispatch of reply plans

    The theorems about ReplyPlanWorker: a plan is dispatched at most once, only
    under its lease and with the dialog's current fences, into exactly one
    outbox row that carries those fences; a booking is resolved remotely at most
    once per plan. *)

From S2P Require Import Prelude BookingText Models Database Statements Conversations ReplyPlans.
From S2P Require Import Outbound SelfBooking Messages Mirror ReplyText BookingFields Projections.
From S2P Require Import HandoffExpiry ReplyDispatch Dialog Moves Frames.
Import reply_plan_repo.

(** ** Rules *)

Lemma holds_lease_true token version p :
  holds_lease token version p = true <->
  rp_status p = RP_PROCESSING /\ rp_lease_token p = Some token /\ rp_lease_version p = version.
Proof.
  unfold holds_lease. rewrite !andb_true_iff, bool_decide_eq_true, sql_eq_true, Z.eqb_eq. tauto.
Qed.

(** The fences and the lease of a claim are those of the dialog and of the plan. *)
Definition validated (claim : ReplyPlanClaim) (c : Conversation) (p : ReplyPlan) : Prop :=
  conv_context_version c = rpc_context_version claim /\ conv_ownership c = BOT /\
  conv_handoff_state c = BOT_ACTIVE /\ conv_manager_takeover_at c = None /\
  conv_manager_epoch c = rpc_manager_epoch claim /\
  conv_current_event_seq c = rpc_event_seq_hwm claim /\
  holds_lease (rpc_lease_token claim) (rpc_lease_version claim) p = true /\
  rp_manager_epoch p = rpc_manager_epoch claim /\
  rp_event_seq_hwm p = rpc_event_seq_hwm claim.

Lemma wp_lock_and_validate claim (Q : ReplyPlan -> Database -> Prop) X env s :
  (forall c p, db_conversations s !! rpc_conversation_id claim = Some c ->
     db_reply_plans s !! rpc_plan_id claim = Some p -> validated claim c p -> Q p s) ->
  (db_conversations s !! rpc_conversation_id claim = None ->
   X (Exn RuntimeError "CONVERSATION_LOOKUP_FAILED") s) ->
  (forall msg, X (Exn StaleReplyPlanLeaseError msg) s) ->
  wp (lock_and_validate claim) Q X env s.
Proof.
  intros HQ HX1 HX2. apply wp_bind, wp_lock_for_update; [|done]. intros c Hc.
  repeat (apply wp_if; [intros _; apply wp_raise, HX2|]; intros ?).
  repeat match goal with
  | H : negb _ = false |- _ => apply negb_false_iff in H
  | H : (_ =? _) = true |- _ => apply Z.eqb_eq in H
  | H : bool_decide _ = true |- _ => apply bool_decide_eq_true in H
  end.
  apply wp_bind, wp_get_by_id. dbsimpl.
  destruct (db_reply_plans s !! rpc_plan_id claim) as [p|] eqn:Hp; [|apply wp_raise, HX2].
  apply wp_if; [|intros _; apply wp_raise, HX2].
  rewrite !andb_true_iff, !Z.eqb_eq. intros ((Hl & He) & Hq). apply wp_ret.
  apply (HQ c); [done|done|]. unfold validated. split_and!; try done.
  by destruct (conv_manager_takeover_at c).
Qed.

Section Rules.
Context (X : exn -> Database -> Prop) (env : Env) (s : Database).
Context (HX : forall e s', X e s').

Lemma wp_complete_dispatched_with_lease pid token version p
    (Q : ReplyPlan -> Database -> Prop) :
  keys_ok (db_reply_plans s) -> db_reply_plans s !! pid = Some p ->
  holds_lease token version p = true ->
  (let p' := complete_dispatched_values (env_now env) p in
   Q p' (s <| db_reply_plans := <[pid := p']> (db_reply_plans s) |>)) ->
  wp (complete_dispatched_with_lease pid token version) Q X env s.
Proof.
  intros Hk Hp Hl HQ. unfold complete_dispatched_with_lease.
  apply wp_bind, wp_assert; [intros _|auto]. apply wp_bind, wp_db_now, wp_bind.
  eapply wp_update_by_id; [done|exact Hp|exact Hl| |auto|auto]. intros _ _.
  apply wp_bind, wp_assert; [intros _|auto]. apply wp_bind, wp_get_by_id. dbsimpl.
  rewrite lookup_insert_eq. apply wp_require_some; [|done]. by intros a [= <-].
Qed.

(** The plan is closed as dispatched; the mirror queue may grow. *)
Lemma wp_complete_dispatched claim oid created p
    (Q : ReplyPlanDispatchResult -> Database -> Prop) :
  keys_ok (db_reply_plans s) -> db_reply_plans s !! rpc_plan_id claim = Some p ->
  holds_lease (rpc_lease_token claim) (rpc_lease_version claim) p = true ->
  (forall jobs n, let p' := complete_dispatched_values (env_now env) p in
   Q (MkReplyPlanDispatchResult (rp_id p) RP_DISPATCHED oid created)
     (with_mirror jobs n
        (s <| db_reply_plans := <[rpc_plan_id claim := p']> (db_reply_plans s) |>))) ->
  wp (complete_dispatched claim oid created) Q X env s.
Proof.
  intros Hk Hp Hl HQ. unfold complete_dispatched.
  apply wp_bind, wp_complete_dispatched_with_lease with (p := p); [done..|]. cbv zeta.
  apply wp_bind, wp_enqueue_reply_plan_state_changed; [done|]. intros r jobs n.
  apply wp_ret, HQ.
Qed.

Lemma wp_get_by_idempotency_key key (Q : option OutboxMessage -> Database -> Prop) :
  (forall k o, db_outbox_messages s !! k = Some o -> ob_idempotency_key o = Some key ->
     Q (Some o) s) ->
  ((forall k o, db_outbox_messages s !! k = Some o -> ob_idempotency_key o <> Some key) ->
   Q None s) ->
  wp (outbound_repo.get_by_idempotency_key key) Q X env s.
Proof.
  intros H1 H2. apply wp_select_scalar.
  - intros k o Ho Hkey%sql_eq_true. eauto.
  - intros Hno. apply H2. intros k o Ho Hkey%sql_eq_true. apply Hno in Ho. congruence.
Qed.

(** The key is free: a pending row is inserted. *)
Lemma wp_insert_outbound_new dest key cid pid v payload corr nb max e q
    (Q : OutboxMessage * bool -> Database -> Prop) :
  (forall k o, db_outbox_messages s !! k = Some o -> ob_idempotency_key o <> Some key) ->
  (forall id n, db_outbox_messages s !! id = None ->
     let o := outbound_repo.pending_outbound id dest key cid pid v payload corr nb max e q
                (env_now env) in
     Q (o, true) (s <| db_outbox_messages := <[id := o]> (db_outbox_messages s) |>
                    <| db_uuid_supply := n |>)) ->
  wp (outbound_repo.insert_outbound_if_absent dest key cid pid v payload corr nb max e q)
    Q X env s.
Proof.
  intros Hfree HQ. unfold outbound_repo.insert_outbound_if_absent.
  apply wp_bind, wp_get_by_idempotency_key; [intros k o Ho Hk; by destruct (Hfree k o Ho)|].
  intros _. apply wp_bind, wp_uuid4, wp_bind, wp_db_now.
  set (id := uuid4_of _). set (o := outbound_repo.pending_outbound _ _ _ _ _ _ _ _ _ _ _ _ _).
  apply wp_bind, wp_insert_with; try by auto.
  { intros k r Hr. unfold uq_outbox_idempotency_key, same_key. cbn. dbsimpl.
    destruct (ob_idempotency_key r) as [key'|] eqn:E; [|done].
    rewrite bool_decide_eq_true. intros <-. by destruct (Hfree k r Hr). }
  intros _ Hfresh _ _. dbsimpl. unfold outbound_repo.get_by_idempotency_key.
  apply wp_bind, wp_select_scalar.
  - intros k r. dbsimpl. rewrite lookup_insert_Some, sql_eq_true. intros Hr Hkey.
    apply wp_bind, wp_require_some; [|done]. intros a [= <-]. apply wp_ret.
    destruct Hr as [[<- <-]|[_ Hr]]; [|by destruct (Hfree k r Hr)].
    by apply (HQ id (N.succ (db_uuid_supply s))).
  - intros. apply wp_bind, wp_require_some; [done|auto].
Qed.
End Rules.

(** ** The dispatched state *)

(** The claim is about the plan it names. *)
Definition plan_claim_ok (s : Database) (claim : ReplyPlanClaim) : Prop :=
  exists p, db_reply_plans s !! rpc_plan_id claim = Some p /\
    rp_conversation_id p = rpc_conversation_id claim /\
    rp_context_version p = rpc_context_version claim.

(** The row plan [p] is dispatched into. *)
Definition outbound_of (p : ReplyPlan) (d : DestinationType) (o : OutboxMessage) : Prop :=
  ob_conversation_id o = rp_conversation_id p /\ ob_reply_plan_id o = Some (rp_id p) /\
  ob_idempotency_key o = Some (outbound_key d (rp_id p)) /\
  ob_context_version o = Some (rp_context_version p) /\
  ob_manager_epoch o = rp_manager_epoch p /\ ob_event_seq_hwm o = rp_event_seq_hwm p /\
  ob_destination_type o = d /\ ob_delivery_status o = OB_PENDING /\ ob_attempt_count o = 0.

(** What a committed dispatch of the claim did. *)
Definition dispatch_post (s : Database) (claim : ReplyPlanClaim) (d : DestinationType)
    (r : ReplyPlanDispatchResult) (s' : Database) : Prop :=
  exists c p p' o,
    db_conversations s !! rpc_conversation_id claim = Some c /\
    db_reply_plans s !! rpc_plan_id claim = Some p /\ validated claim c p /\
    plan_fences_eq c p /\
    same_plan p p' /\ rp_status p' = RP_DISPATCHED /\
    outbound_of p d o /\ db_outbox_messages s !! ob_id o = None /\
    db_conversations s' = db_conversations s /\
    db_reply_plans s' = <[rpc_plan_id claim := p']> (db_reply_plans s) /\
    db_outbox_messages s' = <[ob_id o := o]> (db_outbox_messages s) /\
    r = MkReplyPlanDispatchResult (rpc_plan_id claim) RP_DISPATCHED (ob_id o) true /\
    (forall k o', db_outbox_messages s' !! k = Some o' ->
       client_destination (ob_destination_type o') = true ->
       ob_reply_plan_id o' = Some (rpc_plan_id claim) -> k = ob_id o).

Definition dispatch_goal (s : Database) (claim : ReplyPlanClaim) (d : DestinationType)
    (r : ReplyPlanDispatchResult) (s' : Database) : Prop :=
  dialog_ok s' /\ dispatch_post s claim d r s'.

Section Dispatched.
Context (s : Database) (claim : ReplyPlanClaim) (c : Conversation) (p : ReplyPlan).
Hypothesis Hok : dialog_ok s.
Hypothesis Hclaim : plan_claim_ok s claim.
Hypothesis Hc : db_conversations s !! rpc_conversation_id claim = Some c.
Hypothesis Hp : db_reply_plans s !! rpc_plan_id claim = Some p.
Hypothesis Hval : validated claim c p.

Lemma claimed_plan_facts :
  rp_id p = rpc_plan_id claim /\ rp_conversation_id p = rpc_conversation_id claim /\
  rp_context_version p = rpc_context_version claim /\ rp_status p = RP_PROCESSING /\
  rp_manager_epoch p = rpc_manager_epoch claim /\
  rp_event_seq_hwm p = rpc_event_seq_hwm claim /\ plan_fences_eq c p.
Proof using Hok Hclaim Hc Hp Hval.
  pose proof Hok as [Hcon _]. destruct Hclaim as (p0 & Hp0 & H1 & H2). simplify_eq.
  destruct (reply_plan_checked s _ p Hcon Hp) as (Hid & _ & _).
  destruct Hval as (Hv & _ & _ & _ & He' & Hq' & (Hst & _)%holds_lease_true & He & Hq).
  unfold plan_fences_eq. split_and!; congruence.
Qed.

(** Neither key of the plan is taken. *)
Lemma outbound_key_inj d d' u u' :
  client_destination d = true -> client_destination d' = true ->
  outbound_key d u = outbound_key d' u' -> d = d' /\ u = u'.
Proof.
  destruct d, d'; try done; intros _ _ E; cbn in E; try done;
    (split; [done|]); by apply uuid_str_inj, (string_app_inj_l _ _ _ E).
Qed.

Lemma outbound_key_free d k o :
  client_destination d = true -> db_outbox_messages s !! k = Some o ->
  ob_idempotency_key o <> Some (outbound_key d (rpc_plan_id claim)).
Proof.
  intros Hd Ho Hkey. pose proof Hok as (Hcon & (_ & Hos & _) & _).
  destruct claimed_plan_facts as (_ & _ & _ & Hst & _).
  destruct (outbox_checked s k o Hcon Ho) as (_ & _ & c' & Hc').
  destruct (Hos k o c' Ho Hc') as [Hclient Hdraft].
  destruct (client_destination (ob_destination_type o)) eqn:Hcd;
    [|by rewrite Hdraft in Hkey].
  destruct (Hclient eq_refl) as [(pid & q & Hr & Hq & Hqs & _ & _ & _ & _ & Hkey') _].
  rewrite Hkey in Hkey'. injection Hkey' as Hkey'.
  apply outbound_key_inj in Hkey' as [_ <-]; [|done|done]. congruence.
Qed.

Lemma dispatched_ok s' p' o d r :
  client_destination d = true ->
  same_plan p p' -> rp_status p' = RP_DISPATCHED -> outbound_of p d o ->
  db_outbox_messages s !! ob_id o = None ->
  db_conversations s' = db_conversations s ->
  db_reply_plans s' = <[rpc_plan_id claim := p']> (db_reply_plans s) ->
  db_outbox_messages s' = <[ob_id o := o]> (db_outbox_messages s) ->
  db_inbox_messages s' = db_inbox_messages s ->
  db_manager_messages s' = db_manager_messages s ->
  r = MkReplyPlanDispatchResult (rpc_plan_id claim) RP_DISPATCHED (ob_id o) true ->
  constraints_ok s' -> dispatch_goal s claim d r s'.
Proof.
  intros Hd Hsame Hst' Ho Hfresh Ecs Eps Eos Eim Emm -> Hcon'.
  destruct claimed_plan_facts as (Hid & Hpc & Hv & Hst & He & Hq & Hfe).
  pose proof Hok as (Hcon & Hwork & Hseq).
  pose proof Ho as (Ho1 & Ho2 & Ho3 & Ho4 & Ho5 & Ho6 & Ho7 & _).
  pose proof Hval as (_ & _ & Hbot & _).
  assert (plan_moves (db_conversations s) p p') as Hmove.
  { apply plan_moves_processing; [done|done|]. intros Hpr. congruence. }
  split; [split; [done|]|].
  - rewrite Ecs, Eps, Eos, Eim, Emm. split; [|done].
    apply work_ok_insert_outbound with (c := c); [|congruence|congruence| |].
    + eapply work_ok_plan_moves; [by apply conversations_keyed| |done].
      apply table_moves_insert with (r := p); [|done|done].
      intros k q Hq'. eapply plan_moves_refl, dialog_plan_leased; eauto.
    + destruct Hsame as (_ & E1 & E2 & E3 & E4 & _).
      exists (rpc_plan_id claim), p'. rewrite lookup_insert_eq. split_and!; congruence.
    + destruct Hfe as (F1 & F2 & F3). unfold outbox_current, outbox_fences_eq.
      split; [congruence|]. split; [done|]. intros _. split_and!; congruence.
  - exists c, p, p', o. split_and!; try done.
    intros k o'. rewrite Eos, lookup_insert_Some. intros [[<- _]|[_ Ho']]; [done|].
    intros Hcd Hplan. exfalso.
    eapply (dialog_undispatched s (rpc_plan_id claim) p k o'); eauto. congruence.
Qed.
End Dispatched.

(** ** The three dispatching transactions *)

Section Transactions.
Context (env : Env) (s : Database) (claim : ReplyPlanClaim) (c : Conversation) (p : ReplyPlan).
Hypothesis Hok : dialog_ok s.
Hypothesis Hclaim : plan_claim_ok s claim.
Hypothesis Hc : db_conversations s !! rpc_conversation_id claim = Some c.
Hypothesis Hp : db_reply_plans s !! rpc_plan_id claim = Some p.
Hypothesis Hval : validated claim c p.

(** The plan as it is when the outbox row goes in: possibly with a booking
    result written to its payload. *)
Context (p1 : ReplyPlan).
Hypothesis Hsame : same_plan p p1.
Hypothesis Hlease1 :
  holds_lease (rpc_lease_token claim) (rpc_lease_version claim) p1 = true.
Let s1 := s <| db_reply_plans := <[rpc_plan_id claim := p1]> (db_reply_plans s) |>.

Definition new_row (d : DestinationType) (payload : jdict) (id : uuid) (nb : tstz)
    (max_attempts : Z) : OutboxMessage :=
  outbound_repo.pending_outbound id d (outbound_key d (rpc_plan_id claim))
    (rpc_conversation_id claim) (rpc_plan_id claim) (rpc_context_version claim) payload
    (rpc_correlation_id claim) nb max_attempts (rpc_manager_epoch claim)
    (rpc_event_seq_hwm claim) (env_now env).

Lemma wp_insert_dispatched d payload nb max_attempts
    (Q : OutboxMessage * bool -> Database -> Prop) (X : exn -> Database -> Prop) :
  client_destination d = true -> (forall e s', X e s') ->
  (forall id n, db_outbox_messages s !! id = None ->
     let o := new_row d payload id nb max_attempts in
     Q (o, true) (s1 <| db_outbox_messages := <[id := o]> (db_outbox_messages s) |>
                     <| db_uuid_supply := n |>)) ->
  wp (outbound_repo.insert_outbound_if_absent d (outbound_key d (rpc_plan_id claim))
        (rpc_conversation_id claim) (rpc_plan_id claim) (rpc_context_version claim) payload
        (rpc_correlation_id claim) nb max_attempts (rpc_manager_epoch claim)
        (rpc_event_seq_hwm claim)) Q X env s1.
Proof.
  intros Hd HX HQ. apply wp_insert_outbound_new; [done| |exact HQ].
  intros k o Ho. by eapply outbound_key_free.
Qed.

Lemma wp_complete_inserted d payload nb max_attempts id n (X : exn -> Database -> Prop) :
  client_destination d = true -> (forall e s', X e s') -> db_outbox_messages s !! id = None ->
  let o := new_row d payload id nb max_attempts in
  wp (complete_dispatched claim id true)
    (fun r s' => constraints_ok s' -> dispatch_goal s claim d r s') X env
    (s1 <| db_outbox_messages := <[id := o]> (db_outbox_messages s) |>
        <| db_uuid_supply := n |>).
Proof.
  intros Hd HX Hfresh o.
  destruct (claimed_plan_facts s claim c p Hok Hclaim Hc Hp Hval)
    as (Hid & Hpc & Hv & Hst & He & Hq & _).
  pose proof Hok as (Hcon & _). pose proof Hsame as (Hid1 & _).
  apply wp_complete_dispatched with (p := p1); [done| | |done|].
  { dbsimpl. apply keys_ok_insert; [by apply reply_plans_keyed|]. cbn. congruence. }
  { apply lookup_insert_eq. }
  intros jobs u. cbv zeta. intros Hcon'.
  eapply dispatched_ok with (c := c) (p := p) (o := o)
    (p' := complete_dispatched_values (env_now env) p1); try done.
  - split_and!; cbn; congruence.
  - cbn. by rewrite insert_insert_eq.
  - cbn. congruence.
Qed.

(** The idempotency short-circuits are not taken. *)
Lemma wp_no_outbound_yet {B} d (k : option OutboxMessage -> Session B)
    (Q : B -> Database -> Prop) (X : exn -> Database -> Prop) :
  client_destination d = true -> wp (k None) Q X env s1 ->
  wp (existing ← outbound_repo.get_by_idempotency_key (outbound_key d (rpc_plan_id claim));
      k existing) Q X env s1.
Proof.
  intros Hd HQ. apply wp_bind, wp_get_by_idempotency_key; [|done].
  intros i o Ho Hkey. exfalso. by eapply outbound_key_free.
Qed.
End Transactions.

(** The plan's row unchanged. *)
Lemma same_plan_refl p : same_plan p p.
Proof. by split_and!. Qed.

Lemma reply_plans_same s k p :
  db_reply_plans s !! k = Some p ->
  s = s <| db_reply_plans := <[k := p]> (db_reply_plans s) |>.
Proof. intros Hp. rewrite insert_id by done. by destruct s. Qed.

Lemma wp_same_plans {A} (m : Session A) Q X env s k p :
  db_reply_plans s !! k = Some p ->
  wp m Q X env (s <| db_reply_plans := <[k := p]> (db_reply_plans s) |>) -> wp m Q X env s.
Proof. intros Hp. by rewrite <- (reply_plans_same s k p Hp). Qed.

Lemma dispatch_non_booking_spec env s claim :
  dialog_ok s -> plan_claim_ok s claim ->
  wp (session_scope (dispatch_non_booking claim))
    (fun r s' => dispatch_goal s claim
       (if is_vk_client_proof_reply_plan (rpc_payload_json claim)
        then VK_CLIENT_OUTBOUND else SYNTHETIC_OUTBOUND) r s')
    (fun _ s' => s' = s) env s.
Proof.
  intros Hok Hclaim. pose proof Hok as [Hcon _].
  apply wp_session_scope_keeps; [solve_respects|done|].
  apply wp_bind, wp_lock_and_validate; [|done|done]. intros c p Hc Hp Hval.
  apply wp_bind, wp_get_by_id. dbsimpl. rewrite Hc.
  apply wp_bind, wp_require_some; [|done]. intros c0 [= <-].
  pose proof Hval as (_ & _ & _ & _ & _ & _ & Hl & _).
  apply (wp_same_plans _ _ _ _ _ _ p Hp).
  destruct (is_vk_client_proof_reply_plan (rpc_payload_json claim)).
  - unfold dispatch_vk_proof. apply wp_bind, wp_bind, wp_assert; [intros _|done].
    apply wp_bind. destruct (jget (rpc_payload_json claim) "text") as [[]|]; try done.
    apply wp_if; [done|intros _]. apply wp_ret.
    apply (wp_no_outbound_yet env s claim c p Hok Hclaim Hc Hp Hval p VK_CLIENT_OUTBOUND);
      [done|].
    apply wp_bind.
    apply (wp_insert_dispatched env s claim c p Hok Hclaim Hc Hp Hval p VK_CLIENT_OUTBOUND);
      [done|done|].
    intros id n Hfresh. cbv zeta. apply wp_bind, wp_assert; [intros _|done]. apply wp_ret.
    by apply (wp_complete_inserted env s claim c p Hok Hclaim Hc Hp Hval p
      (same_plan_refl p) Hl VK_CLIENT_OUTBOUND).
  - unfold dispatch_synthetic. apply wp_bind, wp_bind, wp_assert; [intros _|done].
    apply (wp_no_outbound_yet env s claim c p Hok Hclaim Hc Hp Hval p SYNTHETIC_OUTBOUND);
      [done|].
    apply wp_bind. by apply wp_raise.
Qed.

(** ** Booking *)

(** What the first booking transaction decided; the outbox short-circuit is not
    taken. *)
Definition prepare_post (s : Database) (claim : ReplyPlanClaim) (r : BookingPrepare)
    (s' : Database) : Prop :=
  exists c p,
    db_conversations s !! rpc_conversation_id claim = Some c /\
    db_reply_plans s !! rpc_plan_id claim = Some p /\ validated claim c p /\
    match r with
    | PREPARE_FINALIZED _ => False
    | PREPARE_RUN_REMOTE payload =>
        jhas (rp_payload_json p) "booking_resolution_started" = false /\
        jhas (rp_payload_json p) "booking_resolution_result" = false /\
        payload = jset (rp_payload_json p) "booking_resolution_started" (JBool true) /\
        exists p', same_plan p p' /\ rp_payload_json p' = payload /\
          holds_lease (rpc_lease_token claim) (rpc_lease_version claim) p' = true /\
          s' = s <| db_reply_plans := <[rpc_plan_id claim := p']> (db_reply_plans s) |>
    | PREPARE_INTERRUPTED payload =>
        payload = rp_payload_json p /\ s' = s /\
        (jhas payload "booking_resolution_started" = true \/
         jhas payload "booking_resolution_result" = true)
    | PREPARE_USE_SAVED_RESULT payload fields =>
        payload = rp_payload_json p /\ s' = s /\
        read_booking_resolution_result payload = Some fields
    end.

Lemma table_set_reply_plans_same s : s <| db_reply_plans := db_reply_plans s |> = s.
Proof. by destruct s. Qed.

(** The marker is written once, under the lease. *)
Lemma wp_try_mark_booking_resolution_started X env s pid token version p
    (Q : bool -> Database -> Prop) :
  keys_ok (db_reply_plans s) -> db_reply_plans s !! pid = Some p ->
  (booking_unmarked token version p = true -> forall p',
     same_plan p p' ->
     rp_payload_json p' = jset (rp_payload_json p) "booking_resolution_started" (JBool true) ->
     rp_status p' = rp_status p -> rp_lease_token p' = rp_lease_token p ->
     rp_lease_version p' = rp_lease_version p ->
     rp_lease_owner p' = rp_lease_owner p -> rp_lease_until p' = rp_lease_until p ->
     Q true (s <| db_reply_plans := <[pid := p']> (db_reply_plans s) |>)) ->
  (booking_unmarked token version p = false -> Q false s) ->
  (forall e s', X e s') ->
  wp (try_mark_booking_resolution_started pid token version) Q X env s.
Proof.
  intros Hk Hp H1 H2 HX. apply wp_bind, wp_db_now.
  destruct (booking_unmarked token version p) eqn:Hb.
  - eapply wp_update_by_id; [done|exact Hp|exact Hb| |auto|auto]. intros _ _.
    by apply H1.
  - apply wp_update_by_id_none; [done| |].
    + intros r Hr. dbsimpl. by simplify_eq.
    + dbsimpl. rewrite table_set_reply_plans_same. auto.
Qed.

Lemma plan_leased_same p p' :
  plan_leased p -> rp_status p' = rp_status p -> rp_lease_token p' = rp_lease_token p ->
  rp_lease_owner p' = rp_lease_owner p -> rp_lease_until p' = rp_lease_until p -> plan_leased p'.
Proof. unfold plan_leased. by intros H -> -> -> ->. Qed.

(** One plan moves. *)
Lemma dialog_ok_plan_moved s k p p' :
  dialog_ok s -> db_reply_plans s !! k = Some p -> plan_moves (db_conversations s) p p' ->
  constraints_ok (s <| db_reply_plans := <[k := p']> (db_reply_plans s) |>) ->
  dialog_ok (s <| db_reply_plans := <[k := p']> (db_reply_plans s) |>).
Proof.
  intros Hok Hp Hm Hcon. eapply dialog_ok_queues_move; [done| |done].
  split_and!; [done..| |].
  - apply table_moves_insert with (r := p); [|done|done].
    intros i q Hq. eapply plan_moves_refl, dialog_plan_leased; eauto.
  - apply table_moves_refl. auto.
Qed.

Lemma wp_use_saved_result payload (Q : BookingPrepare -> Database -> Prop) X env s :
  (forall fields, read_booking_resolution_result payload = Some fields ->
     Q (PREPARE_USE_SAVED_RESULT payload fields) s) ->
  (forall e s', X e s') -> wp (use_saved_result payload) Q X env s.
Proof.
  intros HQ HX. apply wp_bind, wp_require_some; [|auto]. intros fields Hf. by apply wp_ret, HQ.
Qed.

Section Prepare.
Context (env : Env) (s : Database) (claim : ReplyPlanClaim) (c : Conversation) (p : ReplyPlan).
Hypothesis Hok : dialog_ok s.
Hypothesis Hc : db_conversations s !! rpc_conversation_id claim = Some c.
Hypothesis Hp : db_reply_plans s !! rpc_plan_id claim = Some p.
Hypothesis Hval : validated claim c p.

Definition prepare_goal (r : BookingPrepare) (s' : Database) : Prop :=
  constraints_ok s' -> dialog_ok s' /\ prepare_post s claim r s'.

Lemma prepare_saved :
  wp (use_saved_result (rp_payload_json p)) prepare_goal (fun _ _ => True) env s.
Proof.
  apply wp_use_saved_result; [|done]. intros fields Hf _. split; [done|]. exists c, p.
  by split_and!.
Qed.

Lemma prepare_interrupted :
  jhas (rp_payload_json p) "booking_resolution_started" = true \/
  jhas (rp_payload_json p) "booking_resolution_result" = true ->
  wp (mret (PREPARE_INTERRUPTED (rp_payload_json p))) prepare_goal (fun _ _ => True) env s.
Proof. intros H. apply wp_ret. intros _. split; [done|]. exists c, p. by split_and!. Qed.

Lemma prepare_mark :
  wp (mark_or_interrupt claim (rp_payload_json p)) prepare_goal (fun _ _ => True) env s.
Proof.
  pose proof Hok as [Hcon _]. pose proof Hval as (_ & _ & _ & _ & _ & _ & Hl & _).
  pose proof Hl as (Hst & _)%holds_lease_true.
  apply wp_bind, wp_try_mark_booking_resolution_started with (p := p);
    [by apply reply_plans_keyed|done| | |done].
  - intros Hun p' Hsame Hpay E1 E2 E3 E4 E5. apply wp_ret. intros Hcon'. split.
    + eapply dialog_ok_plan_moved; [done|done| |done]. apply plan_moves_processing; [done..|].
      eapply plan_leased_same; [by eapply dialog_plan_leased|done..].
    + exists c, p. unfold booking_unmarked in Hun. rewrite !andb_true_iff, !negb_true_iff in Hun.
      split_and!; try tauto. exists p'. split_and!; try done.
      rewrite holds_lease_true in *. by rewrite E1, E2, E3.
  - intros Hmarked. apply wp_bind, wp_get_by_id. dbsimpl. rewrite Hp.
    apply wp_bind, wp_require_some; [|done]. intros p0 [= <-]. cbv zeta.
    assert (jhas (rp_payload_json p) "booking_resolution_started" = true \/
      jhas (rp_payload_json p) "booking_resolution_result" = true) as Hm.
    { unfold booking_unmarked in Hmarked. rewrite Hl in Hmarked.
      destruct (jhas _ "booking_resolution_started"); [by left|right].
      by destruct (jhas _ "booking_resolution_result"). }
    destruct (booking_resolution_phase (rp_payload_json p));
      [by apply prepare_interrupted.. | apply prepare_saved].
Qed.
End Prepare.

Lemma interrupted_is_marked payload :
  booking_resolution_phase payload = INTERRUPTED ->
  jhas payload "booking_resolution_started" = true.
Proof.
  unfold booking_resolution_phase. intros H.
  destruct (bool_decide (jget payload BOOKING_RESOLUTION_STARTED_KEY = Some (JBool true)))
    eqn:E; [|by repeat case_match].
  apply bool_decide_eq_true in E. unfold jhas, BOOKING_RESOLUTION_STARTED_KEY in *. by rewrite E.
Qed.

Lemma booking_phase1_spec env s claim :
  dialog_ok s -> plan_claim_ok s claim ->
  wp (session_scope (booking_phase1_prepare claim))
    (fun r s' => dialog_ok s' /\ prepare_post s claim r s')
    (fun _ s' => s' = s) env s.
Proof.
  intros Hok Hclaim. pose proof Hok as [Hcon _].
  apply wp_session_scope_keeps; [solve_respects|done|].
  apply wp_bind, wp_lock_and_validate; [|done|done]. intros c p Hc Hp Hval.
  cbv zeta. apply (wp_same_plans _ _ _ _ _ _ p Hp).
  apply (wp_no_outbound_yet env s claim c p Hok Hclaim Hc Hp Hval p SYNTHETIC_OUTBOUND); [done|].
  rewrite <- (reply_plans_same s _ p Hp).
  destruct (booking_resolution_phase (rp_payload_json p)) eqn:Hphase.
  - by apply (prepare_mark env s claim c p).
  - by apply (prepare_mark env s claim c p).
  - apply (prepare_interrupted env s claim c p); [done..|]. left. by apply interrupted_is_marked.
  - by apply (prepare_saved env s claim c p).
Qed.

(** The result is written once, next to the marker. *)
Lemma wp_persist_booking_resolution_result X env s pid token version p result
    (Q : jdict -> Database -> Prop) :
  keys_ok (db_reply_plans s) -> db_reply_plans s !! pid = Some p ->
  holds_lease token version p = true ->
  (forall payload p', same_plan p p' -> rp_payload_json p' = payload ->
     holds_lease token version p' = true -> rp_lease_owner p' = rp_lease_owner p ->
     rp_lease_until p' = rp_lease_until p ->
     Q payload (s <| db_reply_plans := <[pid := p']> (db_reply_plans s) |>)) ->
  (forall e s', X e s') ->
  wp (persist_booking_resolution_result pid token version result) Q X env s.
Proof.
  intros Hk Hp Hl HQ HX. apply wp_bind, wp_get_by_id. dbsimpl. rewrite Hp.
  apply wp_bind, wp_require_some; [|done]. intros p0 [= <-].
  apply wp_bind, wp_assert; [intros _|auto]. cbv zeta.
  set (updated := jset _ "booking_resolution_result" _).
  assert (wp (now ← db_now;
      _ ← update_by_id pid no_guard (fun p =>
        p <| rp_payload_json := updated |> <| rp_updated_at := now |>);
      mret updated) Q X env s) as Hwrite.
  { apply wp_bind, wp_db_now, wp_bind. wp_update Hp. apply wp_ret, HQ; done. }
  destruct (jget (rp_payload_json p) "booking_resolution_result") as [[]|]; try exact Hwrite.
  apply (wp_same_plans _ _ _ _ _ _ p Hp), wp_ret, HQ; done.
Qed.

Lemma wp_build_synthetic_outbound_payload payload fields (Q : jdict -> Database -> Prop) X
    (env : Env) s :
  (forall payload', Q payload' s) -> (forall e s', X e s') ->
  wp (build_synthetic_outbound_payload payload fields) Q X env s.
Proof.
  intros HQ HX. unfold build_synthetic_outbound_payload.
  destruct fields as [fields|]; [|by apply wp_raise]. cbv zeta. apply wp_try, wp_bind.
  unfold render_text_for_booking_fields. cbv zeta.
  repeat (apply wp_if; intros _);
    first [ by apply wp_ret, wp_ret, HQ
          | apply wp_raise; destruct (_ && _); [apply wp_ret, HQ | apply HX] ].
Qed.

Section Finalize.
Context (env : Env) (s : Database) (claim : ReplyPlanClaim) (c : Conversation) (p : ReplyPlan).
Hypothesis Hok : dialog_ok s.
Hypothesis Hclaim : plan_claim_ok s claim.
Hypothesis Hc : db_conversations s !! rpc_conversation_id claim = Some c.
Hypothesis Hp : db_reply_plans s !! rpc_plan_id claim = Some p.
Hypothesis Hval : validated claim c p.

Lemma wp_finalize_outbound p1 payload fields max_attempts :
  same_plan p p1 ->
  holds_lease (rpc_lease_token claim) (rpc_lease_version claim) p1 = true ->
  wp (outbound_payload ← build_synthetic_outbound_payload payload fields;
      '(outbound, created) ← outbound_repo.insert_synthetic_outbound_if_absent
        (rpc_conversation_id claim) (rpc_plan_id claim) (rpc_context_version claim)
        outbound_payload (rpc_correlation_id claim) (rpc_not_before claim)
        max_attempts (rpc_manager_epoch claim) (rpc_event_seq_hwm claim);
      complete_dispatched claim (ob_id outbound) created)
    (fun r s' => constraints_ok s' -> dispatch_goal s claim SYNTHETIC_OUTBOUND r s')
    (fun _ _ => True) env
    (s <| db_reply_plans := <[rpc_plan_id claim := p1]> (db_reply_plans s) |>).
Proof.
  intros Hsame Hl. apply wp_bind, wp_build_synthetic_outbound_payload; [|done].
  intros payload'. apply wp_bind.
  apply (wp_insert_dispatched env s claim c p Hok Hclaim Hc Hp Hval p1 SYNTHETIC_OUTBOUND);
    [done|done|].
  intros id n Hfresh. cbv zeta.
  by apply (wp_complete_inserted env s claim c p Hok Hclaim Hc Hp Hval p1 Hsame Hl
    SYNTHETIC_OUTBOUND).
Qed.
End Finalize.

Lemma booking_phase2_spec env s claim plan_payload fields persist :
  dialog_ok s -> plan_claim_ok s claim ->
  wp (session_scope (booking_phase2_finalize claim plan_payload fields persist))
    (fun r s' => dispatch_goal s claim SYNTHETIC_OUTBOUND r s')
    (fun _ s' => s' = s) env s.
Proof.
  intros Hok Hclaim. pose proof Hok as [Hcon _].
  apply wp_session_scope_keeps; [solve_respects|done|]. unfold booking_phase2_finalize. cbv zeta.
  apply wp_bind, wp_lock_and_validate; [|done|done]. intros c p Hc Hp Hval.
  pose proof Hval as (_ & _ & _ & _ & _ & _ & Hl & _).
  apply (wp_same_plans _ _ _ _ _ _ p Hp).
  apply (wp_no_outbound_yet env s claim c p Hok Hclaim Hc Hp Hval p SYNTHETIC_OUTBOUND); [done|].
  rewrite <- (reply_plans_same s _ p Hp). apply wp_bind, wp_if; intros _.
  - apply wp_persist_booking_resolution_result with (p := p);
      [by apply reply_plans_keyed|done|done| |done].
    intros payload p1 Hsame _ Hl1 _ _. by apply (wp_finalize_outbound env s claim c p).
  - apply wp_ret. apply (wp_same_plans _ _ _ _ _ _ p Hp).
    apply (wp_finalize_outbound env s claim c p); auto using same_plan_refl.
Qed.
