(* ===== verification/ClaimProofs.v ===== *)
(** * Claims of the reply-plan queue

    What claiming, recovering an abandoned lease and failing a claimed plan do
    to the queue: the claimed plan is due, within its attempts and fenced by its
    dialog; the claim carries a fresh lease; the dialog invariant is kept. *)

From S2P Require Import Prelude BookingText Models Database Statements Conversations ReplyPlans.
From S2P Require Import Outbound SelfBooking Messages Mirror ReplyText BookingFields Projections.
From S2P Require Import HandoffExpiry ReplyDispatch Dialog Moves Frames DispatchProofs.
Import reply_plan_repo.

(** ** The claim *)

(** [ReplyPlanClaim] is a copy of a leased row. *)
Definition claim_copies (cl : ReplyPlanClaim) (p : ReplyPlan) : Prop :=
  rpc_plan_id cl = rp_id p /\ rpc_conversation_id cl = rp_conversation_id p /\
  rpc_context_version cl = rp_context_version p /\ rpc_manager_epoch cl = rp_manager_epoch p /\
  rpc_event_seq_hwm cl = rp_event_seq_hwm p /\ rpc_status cl = rp_status p /\
  rpc_not_before cl = rp_not_before p /\ rpc_attempt_count cl = rp_attempt_count p /\
  rpc_max_attempts cl = rp_max_attempts p /\ Some (rpc_lease_owner cl) = rp_lease_owner p /\
  Some (rpc_lease_token cl) = rp_lease_token p /\ rpc_lease_version cl = rp_lease_version p /\
  Some (rpc_lease_until cl) = rp_lease_until p /\ rpc_payload_json cl = rp_payload_json p.

Lemma wp_row_to_claim p (Q : ReplyPlanClaim -> Database -> Prop) X env s :
  (forall cl, claim_copies cl p -> Q cl s) -> (forall e s', X e s') ->
  wp (row_to_claim p) Q X env s.
Proof.
  intros HQ HX. unfold row_to_claim.
  destruct (rp_lease_token p) eqn:E1; [|by apply wp_raise].
  destruct (rp_lease_owner p) eqn:E2; [|by apply wp_raise].
  destruct (rp_lease_until p) eqn:E3; [|by apply wp_raise].
  apply wp_ret, HQ. by split_and!.
Qed.

(** PENDING plans whose time has come. *)
Definition made_ready (moment : instant) (ps : gmap uuid ReplyPlan) : gmap uuid ReplyPlan :=
  sql_update
    (fun p => bool_decide (rp_status p = RP_PENDING) && tstz_due (rp_not_before p) moment)
    (fun p => p <| rp_status := RP_READY |> <| rp_updated_at := moment |>) ps.

Lemma tstz_leb_total x y : tstz_leb x y = true \/ tstz_leb y x = true.
Proof. destruct x as [a|], y as [b|]; cbn; try tauto. lia. Qed.

Lemma tstz_leb_antisym x y : tstz_leb x y = true -> tstz_leb y x = true -> x = y.
Proof. destruct x as [a|], y as [b|]; cbn; try done. intros. f_equal. lia. Qed.

Lemma tstz_leb_trans x y z : tstz_leb x y = true -> tstz_leb y z = true -> tstz_leb x z = true.
Proof. destruct x as [a|], y as [b|], z as [d|]; cbn; try done. lia. Qed.

(** ORDER BY not_before, created_at is a total preorder. *)
Lemma claim_order_total a b : claim_order a b = true \/ claim_order b a = true.
Proof.
  unfold claim_order. destruct (decide (rp_not_before a = rp_not_before b)) as [E|E].
  - rewrite !bool_decide_eq_true_2 by done. lia.
  - rewrite !bool_decide_eq_false_2 by congruence. apply tstz_leb_total.
Qed.

Lemma claim_order_trans a b d :
  claim_order a b = true -> claim_order b d = true -> claim_order a d = true.
Proof.
  unfold claim_order. generalize (rp_not_before a) (rp_not_before b) (rp_not_before d).
  intros x y z. repeat case_bool_decide; subst; try congruence; try lia; auto.
  - intros H1 H2. exfalso. eauto using tstz_leb_antisym.
  - apply tstz_leb_trans.
Qed.

Lemma wp_claim_next_plan worker lease moment (Q : option ReplyPlanClaim -> Database -> Prop)
    X env s :
  keys_ok (db_reply_plans s) ->
  (forall n, (forall k p, made_ready moment (db_reply_plans s) !! k = Some p ->
      claimable (db_conversations s) moment p = true -> env_locked env (rp_id p) = true) ->
   Q None (s <| db_reply_plans := made_ready moment (db_reply_plans s) |>
             <| db_uuid_supply := n |>)) ->
  (forall p token n cl,
     made_ready moment (db_reply_plans s) !! rp_id p = Some p ->
     claimable (db_conversations s) moment p = true -> env_locked env (rp_id p) = false ->
     (forall k q, made_ready moment (db_reply_plans s) !! k = Some q ->
        claimable (db_conversations s) moment q = true -> env_locked env (rp_id q) = false ->
        claim_order p q = true) ->
     let p' := claim_values moment worker token (moment + seconds lease) p in
     claim_copies cl p' ->
     Q (Some cl) (s <| db_reply_plans := <[rp_id p := p']> (made_ready moment (db_reply_plans s)) |>
                    <| db_uuid_supply := n |>)) ->
  (forall e s', X e s') ->
  wp (claim_next worker lease (Some moment)) Q X env s.
Proof.
  intros Hk Hnone Hsome HX. unfold claim_next.
  apply wp_bind, wp_assert; [intros _|auto]. apply wp_bind, wp_resolve_moment.
  apply wp_bind, wp_bind, wp_resolve_moment, wp_update_where; [intros _ _|auto..]. cbn [from_option id].
  dbsimpl. change (sql_update _ _ (db_reply_plans s)) with (made_ready moment (db_reply_plans s)).
  cbv zeta. apply wp_bind, wp_uuid4, wp_bind, wp_get_env, wp_bind, wp_get_state.
  apply wp_bind, wp_select_where. dbsimpl. set (ps1 := made_ready moment (db_reply_plans s)) in *.
  set (cands := filter _ _).
  assert (forall r, r ∈ cands <-> (exists k, ps1 !! k = Some r) /\
    claimable (db_conversations s) moment r = true /\ env_locked env (rp_id r) = false) as Hin
    by (intros r; unfold cands; rewrite list_elem_of_filter, rows_elem, andb_true_iff,
          negb_true_iff; tauto).
  assert (keys_ok ps1) as Hk1 by (by apply keys_ok_sql_update).
  destruct (pick_min claim_order cands) as [p|] eqn:Hpick.
  - pose proof Hpick as ([k Hp] & Hcl & Hlock)%pick_min_elem%Hin.
    pose proof (Hk1 _ _ Hp) as Hid. cbn in Hid. subst k.
    apply wp_bind. wp_update Hp. apply wp_bind, wp_get_by_id. dbsimpl. rewrite lookup_insert_eq.
    apply wp_bind, wp_require_some; [|done]. intros p' [= <-].
    apply wp_bind, wp_row_to_claim; [|done]. intros cl Hcopy. apply wp_ret.
    apply (Hsome p _ (N.succ (db_uuid_supply s)) cl); [done..| |done].
    intros k q Hq Hqc Hql. eapply (pick_min_least claim_order cands);
      [apply claim_order_total|apply claim_order_trans|done|]. apply Hin. eauto.
  - apply wp_ret, (Hnone (N.succ (db_uuid_supply s))). intros k p Hp Hcl.
    apply not_false_iff_true. intros Hl. apply pick_min_none in Hpick.
    assert (p ∈ cands) as Hc by (apply Hin; eauto). rewrite Hpick in Hc.
    by apply not_elem_of_nil in Hc.
Qed.

(** ** Moves of the queue *)

Lemma claimable_facts cs moment p :
  claimable cs moment p = true ->
  rp_attempt_count p < rp_max_attempts p /\ tstz_due (rp_not_before p) moment = true /\
  (exists c, cs !! rp_conversation_id p = Some c /\ plan_fenced_by c p = true) /\
  match rp_status p with
  | RP_READY => True
  | RP_FAILED => rp_lease_until p = None \/ sql_lt (rp_lease_until p) moment = true
  | RP_PROCESSING => sql_lt (rp_lease_until p) moment = true
  | _ => False
  end.
Proof.
  unfold claimable. rewrite !andb_true_iff, Z.ltb_lt. intros (((Ha & Hd) & Hc) & Hst).
  split_and!; [done|done| |].
  - destruct (cs !! rp_conversation_id p); [eauto|done].
  - destruct (rp_status p); try done.
    + by apply andb_true_iff in Hst as [_ ?].
    + apply orb_true_iff in Hst as [H|H]; [left|by right]. by destruct (rp_lease_until p).
Qed.

Lemma plan_fenced_by_true c p :
  plan_fenced_by c p = true ->
  conv_status c = OPEN /\ conv_ownership c = BOT /\ conv_handoff_state c = BOT_ACTIVE /\
  plan_fences_eq c p.
Proof.
  unfold plan_fenced_by, plan_fences_eq.
  rewrite !andb_true_iff, !bool_decide_eq_true, !Z.eqb_eq. intuition.
Qed.

Lemma plan_moves_ready cs moment p :
  rp_status p = RP_PENDING ->
  plan_moves cs p (p <| rp_status := RP_READY |> <| rp_updated_at := moment |>).
Proof.
  intros Hst. split_and!; [by split_and!|by rewrite Hst|by rewrite Hst|done|].
  intros c _ _ (H1 & H2 & _ & H3 & H4 & H5). split_and!; try done. by right.
Qed.

Lemma plan_moves_claim cs moment worker token until p :
  claimable cs moment p = true ->
  plan_moves cs p (claim_values moment worker token until p).
Proof.
  intros (_ & _ & (c & Hc & Hf) & Hst)%claimable_facts.
  apply plan_fenced_by_true in Hf as (_ & _ & Hbot & _).
  split_and!; [by split_and!| | |done|].
  - intros E. by rewrite E in Hst.
  - intros _. by destruct (rp_status p).
  - intros c' Hc' Hpause. congruence.
Qed.

(** A claimed plan leaves processing. *)
Lemma plan_moves_unleased cs p p' :
  same_plan p p' -> rp_status p = RP_PROCESSING -> rp_status p' <> RP_PROCESSING ->
  plan_moves cs p p'.
Proof. intros. by apply plan_moves_processing. Qed.

Lemma queues_move_plans s s' :
  db_conversations s' = db_conversations s -> db_inbox_messages s' = db_inbox_messages s ->
  db_manager_messages s' = db_manager_messages s ->
  db_outbox_messages s' = db_outbox_messages s ->
  table_moves (plan_moves (db_conversations s)) (db_reply_plans s) (db_reply_plans s') ->
  queues_move s s'.
Proof.
  intros E1 E2 E3 E4 Hm. split_and!; [done..|]. rewrite E4. by apply table_moves_refl.
Qed.

Definition leased_all (ps : gmap uuid ReplyPlan) : Prop :=
  forall k p, ps !! k = Some p -> plan_leased p.

Lemma leased_all_moves cs ps ps' :
  table_moves (plan_moves cs) ps ps' -> leased_all ps'.
Proof.
  intros Hm k p Hp.
  by destruct (table_moves_lookup_inv _ _ _ _ _ Hm Hp) as (q & _ & _ & _ & _ & ? & _).
Qed.

Lemma made_ready_moves cs moment ps :
  leased_all ps -> table_moves (plan_moves cs) ps (made_ready moment ps).
Proof.
  intros Hl. apply table_moves_update.
  - intros k p Hp. eapply plan_moves_refl, Hl, Hp.
  - intros k p Hp. rewrite andb_true_iff, bool_decide_eq_true. intros [Hst _].
    by apply plan_moves_ready.
Qed.

(** ** Recovery of an abandoned last attempt *)

Lemma lease_exhausted_true moment p :
  lease_exhausted moment p = true ->
  rp_status p = RP_PROCESSING /\ sql_lt (rp_lease_until p) moment = true /\
  rp_max_attempts p <= rp_attempt_count p.
Proof.
  unfold lease_exhausted. rewrite !andb_true_iff, bool_decide_eq_true, Z.leb_le. tauto.
Qed.

(** Everything but the queue, its mirror and counters is as it was, and plans
    that were not abandoned are. *)
Definition recovered (moment : instant) (s s1 : Database) : Prop :=
  queues_move s s1 /\
  (forall k p, db_reply_plans s1 !! k = Some p ->
     db_reply_plans s !! k = Some p \/ rp_status p = RP_DEAD).

Lemma recovered_refl moment s : dialog_ok s -> recovered moment s s.
Proof.
  intros Hok. split; [|by left]. apply queues_move_plans; try done.
  apply table_moves_refl. intros k p Hp. by eapply plan_moves_refl, dialog_plan_leased.
Qed.

Lemma wp_recover_one_exhausted moment (Q : unit -> Database -> Prop) X env s :
  dialog_ok s -> (forall s1, recovered moment s s1 -> Q tt s1) -> (forall e s', X e s') ->
  wp (recover_one_exhausted moment) Q X env s.
Proof.
  intros Hok HQ HX. pose proof Hok as [Hcon _].
  unfold recover_one_exhausted, find_exhausted_lease.
  apply wp_bind, wp_bind, wp_resolve_moment, wp_bind, wp_select_where, wp_ret.
  destruct (pick_min _ _) as [p|]; cbn [fmap option_fmap option_map];
    [|by apply wp_ret, HQ, recovered_refl].
  cbn [erl_conversation_id erl_plan_id]. apply wp_bind, wp_lock_for_update; [|by auto].
  intros c _. unfold recover_exhausted_lease. apply wp_bind, wp_bind, wp_resolve_moment.
  cbn [from_option id]. apply wp_bind. set (dead := fun p : ReplyPlan => _).
  destruct (db_reply_plans s !! rp_id p) as [q|] eqn:Hq; [|
    apply wp_update_by_id_none; [by apply reply_plans_keyed|by intros r; dbsimpl; rewrite Hq|];
    dbsimpl; rewrite table_set_reply_plans_same; apply wp_ret, wp_ret, HQ, recovered_refl, Hok].
  destruct (lease_exhausted moment q) eqn:Hex.
  - eapply wp_update_by_id; [by apply reply_plans_keyed|exact Hq|exact Hex| |by auto|by auto].
    intros _ _. apply wp_get_by_id. dbsimpl. rewrite lookup_insert_eq.
    apply wp_bind, wp_enqueue_reply_plan_state_changed; [done|]. intros r jobs n.
    apply wp_ret, HQ. apply lease_exhausted_true in Hex as (Hst & _). split.
    + apply queues_move_plans; try done. cbn.
      apply table_moves_insert with (r := q); [|done|by apply plan_moves_unleased].
      intros k p' Hp'. by eapply plan_moves_refl, dialog_plan_leased.
    + intros k p'. cbn. rewrite lookup_insert_Some. intros [[_ <-]|[_ ?]]; [by right|by left].
  - apply wp_update_by_id_none; [by apply reply_plans_keyed| |].
    { intros r Hr. dbsimpl. by simplify_eq. }
    dbsimpl. rewrite table_set_reply_plans_same. by apply wp_ret, wp_ret, HQ, recovered_refl.
Qed.

(** ** claim_one *)

Definition claimed_post (s : Database) (moment : instant) (worker : string) (lease : Z)
    (cl : ReplyPlanClaim) (s' : Database) : Prop :=
  exists c p p',
    db_reply_plans s !! rpc_plan_id cl = Some p /\
    db_reply_plans s' !! rpc_plan_id cl = Some p' /\ claim_copies cl p' /\ same_plan p p' /\
    db_conversations s !! rp_conversation_id p = Some c /\
    conv_status c = OPEN /\ conv_ownership c = BOT /\ conv_handoff_state c = BOT_ACTIVE /\
    plan_fences_eq c p /\
    tstz_due (rp_not_before p) moment = true /\ rp_attempt_count p < rp_max_attempts p /\
    rp_status p' = RP_PROCESSING /\ rp_attempt_count p' = rp_attempt_count p + 1 /\
    rp_lease_version p' = rp_lease_version p + 1 /\
    rp_lease_owner p' = Some worker /\ rp_lease_until p' = Some (moment + seconds lease) /\
    match rp_status p with
    | RP_PENDING | RP_READY => True
    | RP_FAILED => rp_lease_until p = None \/ sql_lt (rp_lease_until p) moment = true
    | RP_PROCESSING => sql_lt (rp_lease_until p) moment = true
    | _ => False
    end.

Definition claim_goal (s : Database) (moment : instant) (worker : string) (lease : Z)
    (r : option ReplyPlanClaim) (s' : Database) : Prop :=
  dialog_ok s' /\
  match r with
  | None => True
  | Some cl => plan_claim_ok s' cl /\ claimed_post s moment worker lease cl s'
  end.

Section ClaimOne.
Context (env : Env) (s s1 : Database) (moment : instant) (worker : string) (lease : Z).
Hypothesis Hok : dialog_ok s.
Hypothesis Hrec : recovered moment s s1.

(** The row as it was before recovery and before it was made ready. *)
Lemma claimed_origin p :
  made_ready moment (db_reply_plans s1) !! rp_id p = Some p -> rp_status p <> RP_DEAD ->
  exists p0, db_reply_plans s !! rp_id p = Some p0 /\
    (p = p0 \/ rp_status p0 = RP_PENDING /\
       p = p0 <| rp_status := RP_READY |> <| rp_updated_at := moment |>).
Proof.
  intros (q & Hq & ->)%lookup_sql_update_Some Hdead.
  destruct (bool_decide _ && _) eqn:E.
  - apply andb_true_iff in E as [E%bool_decide_eq_true _].
    destruct (proj2 Hrec _ _ Hq) as [Hq'|Hd]; [|congruence]. exists q. split; [done|by right].
  - destruct (proj2 Hrec _ _ Hq) as [Hq'|Hd]; [|congruence]. exists q. split; [done|by left].
Qed.

Lemma claimed_ok p token n cl :
  made_ready moment (db_reply_plans s1) !! rp_id p = Some p ->
  claimable (db_conversations s1) moment p = true ->
  let p' := claim_values moment worker token (moment + seconds lease) p in
  claim_copies cl p' ->
  let s' := s1 <| db_reply_plans := <[rp_id p := p']> (made_ready moment (db_reply_plans s1)) |>
               <| db_uuid_supply := n |> in
  constraints_ok s' -> claim_goal s moment worker lease (Some cl) s'.
Proof.
  intros Hp Hcl p' Hcopy s' Hcon'. pose proof Hrec as [Hqm _].
  pose proof Hqm as (Ecs & _ & _ & Hps & _).
  pose proof Hcopy as (Hid & Hcc & Hcv & _). cbn in Hid, Hcc, Hcv.
  pose proof (claimable_facts _ _ _ Hcl) as (Hatt & Hdue & (c & Hc & Hf) & Hst).
  apply plan_fenced_by_true in Hf as (? & ? & ? & ?).
  split; [|split].
  - eapply dialog_ok_queues_move; [exact Hok| |done].
    eapply queues_move_trans; [exact Hqm|]. apply queues_move_plans; try done.
    pose proof (leased_all_moves _ _ _ Hps) as Hl1.
    pose proof (made_ready_moves (db_conversations s1) moment _ Hl1) as Hready.
    eapply table_moves_trans; [apply plan_moves_trans|exact Hready|].
    apply table_moves_insert with (r := p); [|done|by apply plan_moves_claim].
    intros k q Hq. eapply plan_moves_refl, leased_all_moves; [exact Hready|exact Hq].
  - exists p'. cbn. rewrite Hid, lookup_insert_eq. by rewrite Hcc, Hcv.
  - destruct (claimed_origin p Hp) as (p0 & Hp0 & Hor); [intros E; by rewrite E in Hst|].
    exists c, p0, p'. rewrite Hid. cbn. rewrite lookup_insert_eq. rewrite <- Ecs.
    destruct Hor as [->|[Hpend ->]]; cbn in *.
    + split_and!; try done. by destruct (rp_status p0).
    + rewrite Hpend. by split_and!.
Qed.
End ClaimOne.

Lemma claim_one_plan_spec env s worker lease now :
  dialog_ok s ->
  wp (session_scope (claim_one_plan worker lease now))
    (claim_goal s (default (env_now env) now) worker lease)
    (fun _ s' => s' = s) env s.
Proof.
  intros Hok. pose proof Hok as [Hcon _].
  apply wp_session_scope_keeps; [solve_respects|done|].
  apply wp_bind, wp_resolve_moment. set (moment := default _ _).
  apply wp_bind, wp_recover_one_exhausted; [done| |done]. intros s1 Hrec.
  pose proof Hrec as [Hqm _]. pose proof Hqm as (_ & _ & _ & Hps & _).
  apply wp_claim_next_plan; [| | |done].
  - intros k p Hp. destruct (table_moves_lookup_inv _ _ _ _ _ Hps Hp) as (q & Hq & Hsame & _).
    destruct Hsame as (E & _). cbn. rewrite E. by apply (reply_plans_keyed s Hcon).
  - intros n _ Hcon'. split; [|done]. eapply dialog_ok_queues_move; [exact Hok| |done].
    eapply queues_move_trans; [exact Hqm|]. apply queues_move_plans; try done.
    apply made_ready_moves. by eapply leased_all_moves.
  - intros p token n cl Hp Hcl _ _ p' Hcopy Hcon'.
    by apply (claimed_ok s s1 moment worker lease Hok Hrec p token n cl Hp Hcl Hcopy Hcon').
Qed.

(** ** fail_claimed *)

Definition failed_post (s : Database) (retry : Z) (moment : instant) (claim : ReplyPlanClaim)
    (code : string) (p' : ReplyPlan) (s' : Database) : Prop :=
  exists p,
    db_reply_plans s !! rpc_plan_id claim = Some p /\
    holds_lease (rpc_lease_token claim) (rpc_lease_version claim) p = true /\
    db_reply_plans s' = <[rpc_plan_id claim := p']> (db_reply_plans s) /\
    same_plan p p' /\ rp_payload_json p' = rp_payload_json p /\
    rp_attempt_count p' = rp_attempt_count p /\ rp_lease_version p' = rp_lease_version p /\
    rp_lease_token p' = None /\ rp_cancel_reason p' = Some (str_take 64 code) /\
    (rp_max_attempts p <= rp_attempt_count p /\ rp_status p' = RP_DEAD /\
       rp_not_before p' = rp_not_before p \/
     rp_attempt_count p < rp_max_attempts p /\ rp_status p' = RP_FAILED /\
       rp_not_before p' = At (moment + seconds retry)).

Lemma wp_fail_with_lease X env s pid token version code retry
    (Q : ReplyPlan -> Database -> Prop) p :
  keys_ok (db_reply_plans s) -> db_reply_plans s !! pid = Some p ->
  (holds_lease token version p = true ->
   let terminal := rp_max_attempts p <=? rp_attempt_count p in
   let p' := fail_values (if terminal then RP_DEAD else RP_FAILED)
               (if terminal then rp_not_before p else At (env_now env + seconds retry))
               code (env_now env) p in
   Q p' (s <| db_reply_plans := <[pid := p']> (db_reply_plans s) |>)) ->
  (holds_lease token version p = false -> X (Exn StaleReplyPlanLeaseError "REPLY_PLAN_STALE_LEASE") s) ->
  (holds_lease token version p = true -> forall e s', X e s') ->
  wp (fail_with_lease pid token version code retry None) Q X env s.
Proof.
  intros Hk Hp HQ HX1 HX2. unfold fail_with_lease.
  apply wp_bind, wp_resolve_moment, wp_bind, wp_get_by_id. dbsimpl. rewrite Hp.
  apply wp_bind, wp_require_some; [|done]. intros p0 [= <-].
  apply wp_bind, wp_assert; [|auto]. intros Hl. specialize (HX2 Hl). specialize (HQ Hl).
  cbv zeta in HQ. cbn [from_option id].
  assert (forall target nb, reply_plan_transition_allowed RP_PROCESSING target = true ->
    (let p' := fail_values target nb code (env_now env) p in
     Q p' (s <| db_reply_plans := <[pid := p']> (db_reply_plans s) |>)) ->
    wp (_ ← assert_or_raise (reply_plan_transition_allowed RP_PROCESSING target)
          ReplyPlanStateError "REPLY_PLAN_TRANSITION_DENIED";
        updated ← update_by_id pid (holds_lease token version)
          (fail_values target nb code (env_now env));
        _ ← assert_or_raise updated StaleReplyPlanLeaseError "REPLY_PLAN_STALE_LEASE";
        refreshed ← get_by_id pid;
        require_some refreshed RuntimeError "REPLY_PLAN_LOOKUP_FAILED") Q X env s) as Hgo.
  { intros target nb Ht Hq. apply wp_bind, wp_assert; [intros _|by auto]. apply wp_bind.
    eapply wp_update_by_id; [done|exact Hp|exact Hl| |by auto|by auto]. intros _ _.
    apply wp_bind, wp_assert; [intros _|by auto]. apply wp_bind, wp_get_by_id. dbsimpl.
    rewrite lookup_insert_eq. apply wp_require_some; [|done]. by intros a [= <-]. }
  destruct (rp_max_attempts p <=? rp_attempt_count p); by apply Hgo.
Qed.

Lemma fail_claimed_plan_spec env s retry claim code :
  dialog_ok s ->
  wp (session_scope (fail_claimed_plan retry claim code))
    (fun p' s' => dialog_ok s' /\ failed_post s retry (env_now env) claim code p' s')
    (fun _ s' => s' = s) env s.
Proof.
  intros Hok. pose proof Hok as [Hcon _].
  apply wp_session_scope_keeps; [solve_respects|done|].
  apply wp_bind, wp_lock_for_update; [|done]. intros c _.
  destruct (db_reply_plans s !! rpc_plan_id claim) as [p|] eqn:Hp.
  - apply wp_bind, wp_fail_with_lease with (p := p); [by apply reply_plans_keyed|done| |done|done].
    intros Hl. pose proof Hl as (Hst & _)%holds_lease_true. cbv zeta. set (p' := fail_values _ _ _ _ _).
    assert (same_plan p p') as Hsame by by split_and!.
    assert (rp_status p' <> RP_PROCESSING) as Hst'
      by (unfold p'; by destruct (rp_max_attempts p <=? rp_attempt_count p)).
    assert (forall s', db_conversations s' = db_conversations s ->
      db_reply_plans s' = <[rpc_plan_id claim := p']> (db_reply_plans s) ->
      db_outbox_messages s' = db_outbox_messages s ->
      db_inbox_messages s' = db_inbox_messages s ->
      db_manager_messages s' = db_manager_messages s -> constraints_ok s' ->
      dialog_ok s' /\ failed_post s retry (env_now env) claim code p' s') as Hend.
    { intros s' E1 E2 E3 E4 E5 Hcon'. split.
      - eapply dialog_ok_queues_move; [exact Hok| |done]. apply queues_move_plans; try done.
        rewrite E2. apply table_moves_insert with (r := p); [|done|by apply plan_moves_unleased].
        intros k q Hq. by eapply plan_moves_refl, dialog_plan_leased.
      - exists p. split_and!; try done. unfold p'.
        destruct (Z.leb_spec (rp_max_attempts p) (rp_attempt_count p)); [left|right]; done. }
    apply wp_bind, wp_when; intros _; [|apply wp_ret; by apply Hend].
    apply wp_bind, wp_enqueue_reply_plan_state_changed; [done|]. intros r jobs n.
    apply wp_ret, wp_ret. by apply Hend.
  - apply wp_bind, wp_bind, wp_resolve_moment, wp_bind, wp_get_by_id. dbsimpl. rewrite Hp.
    by apply wp_bind, wp_require_some.
Qed.

(** ** Stale leases *)

(** The plan is no longer processed under the claim's lease. *)
Definition plan_lease_lost (s : Database) (claim : ReplyPlanClaim) : Prop :=
  exists p, db_reply_plans s !! rpc_plan_id claim = Some p /\
    holds_lease (rpc_lease_token claim) (rpc_lease_version claim) p = false.

Definition stale_or_missing (e : exn) : Prop :=
  exn_class e = StaleReplyPlanLeaseError \/
  e = Exn RuntimeError "CONVERSATION_LOOKUP_FAILED".

Lemma wp_lock_and_validate_lost {B} claim (k : ReplyPlan -> Session B) env s Q :
  plan_lease_lost s claim ->
  wp (session_scope (p ← lock_and_validate claim; k p)) Q
    (fun e s' => stale_or_missing e /\ s' = s) env s.
Proof.
  intros (p & Hp & Hl). apply wp_session_scope, wp_bind, wp_lock_and_validate.
  - intros c p' _ Hp' (_ & _ & _ & _ & _ & _ & Hl' & _). congruence.
  - intros _. split; [by right|done].
  - intros msg. split; [by left|done].
Qed.
