(* ===== verification/ArbiterProofs.v ===== *)
(** * The outbound arbiter

    The theorems about src/app/services/outbound_arbiter.py and the outbox
    claims: a message is admitted only while its dialog is the bot's and every
    fence is current; what is admitted is never taken back; each transaction
    keeps the dialog invariant. *)

From S2P Require Import Prelude BookingText Models Database Statements Conversations ReplyPlans.
From S2P Require Import Outbound SelfBooking Messages Mirror ReplyText BookingFields Projections.
From S2P Require Import HandoffExpiry ReplyDispatch VkGate Arbiter Dialog Moves Frames.
Import outbound_repo.

(** ** Leases *)

Lemma outbox_lease_true st token version o :
  holds_lease st token version o = true <->
  ob_delivery_status o = st /\ ob_lease_token o = Some token /\ ob_lease_version o = version.
Proof.
  unfold holds_lease. rewrite !andb_true_iff, bool_decide_eq_true, sql_eq_true, Z.eqb_eq. tauto.
Qed.

Lemma outbox_admitted_lease_true token version o :
  holds_admitted_lease token version o = true <->
  ob_delivery_status o = OB_ADMITTED /\ ob_lease_token o = Some token /\
  ob_lease_version o = version /\ is_not_null (ob_admitted_at o) = true.
Proof. unfold holds_admitted_lease. rewrite andb_true_iff, outbox_lease_true. tauto. Qed.

Lemma table_set_outbox_same s : s <| db_outbox_messages := db_outbox_messages s |> = s.
Proof. by destruct s. Qed.

(** One outbox row moves; the other tables of the dialog stay. *)
Definition outbox_moved (s : Database) (k : uuid) (o' : OutboxMessage) (s' : Database) : Prop :=
  db_conversations s' = db_conversations s /\ db_reply_plans s' = db_reply_plans s /\
  db_inbox_messages s' = db_inbox_messages s /\
  db_manager_messages s' = db_manager_messages s /\
  db_outbox_messages s' = <[k := o']> (db_outbox_messages s).

Lemma dialog_ok_outbox s s' :
  dialog_ok s -> db_conversations s' = db_conversations s ->
  db_reply_plans s' = db_reply_plans s -> db_inbox_messages s' = db_inbox_messages s ->
  db_manager_messages s' = db_manager_messages s ->
  table_moves outbox_moves (db_outbox_messages s) (db_outbox_messages s') ->
  constraints_ok s' -> dialog_ok s'.
Proof.
  intros Hok E1 E2 E3 E4 Hm Hcon. eapply dialog_ok_queues_move; [exact Hok| |done].
  split_and!; [done..| |done]. rewrite E2. apply table_moves_refl.
  intros k p Hp. by eapply plan_moves_refl, dialog_plan_leased.
Qed.

Lemma dialog_ok_outbox_moved s k o o' s' :
  dialog_ok s -> db_outbox_messages s !! k = Some o -> outbox_moves o o' ->
  outbox_moved s k o' s' -> constraints_ok s' -> dialog_ok s'.
Proof.
  intros Hok Ho Hm (E1 & E2 & E3 & E4 & E5) Hcon. eapply dialog_ok_outbox; try done.
  rewrite E5. by apply table_moves_insert with (r := o).
Qed.

(** ** Admission *)

(** The dialog and the message as the arbiter found them. *)
Definition admissible (s : Database) (claim : OutboundClaim) (moment : instant)
    (c : Conversation) (o : OutboxMessage) : Prop :=
  db_conversations s !! obc_conversation_id claim = Some c /\
  db_outbox_messages s !! obc_outbound_id claim = Some o /\
  conv_status c = OPEN /\ conv_ownership c = BOT /\ conv_handoff_state c = BOT_ACTIVE /\
  conv_manager_takeover_at c = None /\
  holds_lease OB_PROCESSING (obc_lease_token claim) (obc_lease_version claim) o = true /\
  client_destination (ob_destination_type o) = true /\
  (match ob_not_before o with Some t => tstz_due t moment = true | None => True end) /\
  (match ob_context_version o with Some v => v = conv_context_version c | None => True end) /\
  ob_manager_epoch o = conv_manager_epoch c /\
  ob_event_seq_hwm o = conv_current_event_seq c /\
  (forall pid, ob_reply_plan_id o = Some pid -> exists p,
     db_reply_plans s !! pid = Some p /\ rp_status p = RP_DISPATCHED /\ plan_fences_eq c p).

Lemma wp_check_dialog c (Q : unit -> Database -> Prop) X env s :
  (conv_ownership c = BOT -> conv_status c = OPEN -> conv_handoff_state c = BOT_ACTIVE ->
   conv_manager_takeover_at c = None -> Q tt s) ->
  (forall msg, X (Exn OutboundArbiterDenied msg) s) -> wp (check_dialog c) Q X env s.
Proof.
  intros HQ HX. unfold check_dialog.
  repeat (apply wp_if; [intros _; apply wp_raise, HX|]; intros ?).
  rewrite ?negb_false_iff, ?bool_decide_eq_true in *. apply wp_ret, HQ; try done.
  by destruct (conv_manager_takeover_at c).
Qed.

Lemma wp_check_outbound claim moment c o (Q : unit -> Database -> Prop) X env s :
  (holds_lease OB_PROCESSING (obc_lease_token claim) (obc_lease_version claim) o = true ->
   client_destination (ob_destination_type o) = true ->
   match ob_not_before o with Some t => tstz_due t moment = true | None => True end ->
   match ob_context_version o with Some v => v = conv_context_version c | None => True end ->
   ob_manager_epoch o = conv_manager_epoch c -> ob_event_seq_hwm o = conv_current_event_seq c ->
   Q tt s) ->
  (forall e, exn_class e = OutboundArbiterDenied \/ exn_class e = StaleOutboundLeaseError ->
     X e s) ->
  wp (check_outbound claim moment c o) Q X env s.
Proof.
  intros HQ HX. unfold check_outbound.
  repeat (apply wp_if; [intros _; apply wp_raise, HX; cbn; tauto|]; intros ?).
  rewrite ?negb_false_iff, ?Z.eqb_eq in *. apply wp_ret, HQ; try done.
  - destruct (ob_not_before o); [by apply negb_false_iff|done].
  - destruct (ob_context_version o); [by apply Z.eqb_eq, negb_false_iff|done].
Qed.

Lemma wp_check_dispatched_plan c o (Q : unit -> Database -> Prop) X env s :
  ((forall pid, ob_reply_plan_id o = Some pid -> exists p,
      db_reply_plans s !! pid = Some p /\ rp_status p = RP_DISPATCHED /\
      rp_context_version p = conv_context_version c /\
      rp_manager_epoch p = ob_manager_epoch o /\ rp_event_seq_hwm p = ob_event_seq_hwm o) ->
   Q tt s) ->
  (forall msg, X (Exn OutboundArbiterDenied msg) s) ->
  wp (check_dispatched_plan c o) Q X env s.
Proof.
  intros HQ HX. unfold check_dispatched_plan.
  destruct (ob_reply_plan_id o) as [pid|] eqn:Hpid; [|by apply wp_ret, HQ].
  apply wp_bind, wp_get_by_id. dbsimpl.
  destruct (db_reply_plans s !! pid) as [p|] eqn:Hp; [|by apply wp_raise].
  repeat (apply wp_if; [intros _; apply wp_raise, HX|]; intros ?).
  rewrite ?negb_false_iff, ?bool_decide_eq_true, ?Z.eqb_eq in *.
  apply wp_ret, HQ. intros pid' [= <-]. eauto 10.
Qed.

(** The request is read from the row. *)
Definition request_of (o : OutboxMessage) (r : SyntheticOutboundRequest) : Prop :=
  sor_outbound_id r = uuid_str (ob_id o) /\
  sor_conversation_id r = uuid_str (ob_conversation_id o) /\
  sor_text r = persisted_outbound_reply_text (ob_payload_json o) /\
  (sor_text r = None -> is_machine_only_outbound_payload (ob_payload_json o) = true).

Lemma wp_request_from_outbound o (Q : SyntheticOutboundRequest -> Database -> Prop) X env s :
  (forall r, request_of o r -> Q r s) ->
  (persisted_outbound_reply_text (ob_payload_json o) = None ->
   is_machine_only_outbound_payload (ob_payload_json o) = false ->
   X (Exn OutboundArbiterDenied "OUTBOUND_REPLY_TEXT_MISSING") s) ->
  wp (request_from_outbound o) Q X env s.
Proof.
  intros HQ HX. unfold request_from_outbound. cbv zeta. apply wp_bind, wp_try, wp_bind.
  unfold require_persisted_outbound_text.
  destruct (persisted_outbound_reply_text (ob_payload_json o)) as [text|] eqn:Ht; cbn [require_some].
  - apply wp_ret, wp_ret, wp_ret, HQ. by split_and!.
  - apply wp_raise. cbn. apply wp_if.
    + intros Hm. apply wp_ret, wp_ret, HQ. by split_and!.
    + intros Hm. by apply wp_raise, HX.
Qed.

Lemma wp_mark_admitted X env s oid token version moment o (Q : OutboxMessage -> Database -> Prop) :
  keys_ok (db_outbox_messages s) -> db_outbox_messages s !! oid = Some o ->
  holds_lease OB_PROCESSING token version o = true ->
  (let o' := mark_admitted_values moment o in
   Q o' (s <| db_outbox_messages := <[oid := o']> (db_outbox_messages s) |>)) ->
  (forall e s', X e s') ->
  wp (mark_admitted_with_lease oid token version (Some moment)) Q X env s.
Proof.
  intros Hk Ho Hl HQ HX. apply wp_bind, wp_resolve_moment, wp_bind, wp_assert; [intros _|auto].
  by apply (wp_update_returning (R := OutboxMessage)) with (r := o).
Qed.

Definition admitted_post (s : Database) (claim : OutboundClaim) (moment : instant)
    (r : SyntheticOutboundRequest) (s' : Database) : Prop :=
  exists c o,
    admissible s claim moment c o /\
    let o' := mark_admitted_values moment o in
    request_of o' r /\
    s' = s <| db_outbox_messages := <[obc_outbound_id claim := o']> (db_outbox_messages s) |>.

Lemma outbox_moves_admitted moment o :
  ob_delivery_status o = OB_PROCESSING -> outbox_moves o (mark_admitted_values moment o).
Proof. intros Hst. split; [by split_and!|done]. Qed.

Lemma wp_admit_in_session settings claim now (Q : SyntheticOutboundRequest -> Database -> Prop)
    X env s :
  keys_ok (db_outbox_messages s) ->
  (forall r s', admitted_post s claim (default (env_now env) now) r s' -> Q r s') ->
  (forall e s', X e s') -> wp (admit_in_session settings claim now) Q X env s.
Proof.
  intros Hk HQ HX. apply wp_bind, wp_resolve_moment. set (moment := default _ _) in *.
  apply wp_bind, wp_assert; [intros _|done]. apply wp_bind, wp_get_by_id. dbsimpl.
  apply wp_bind, wp_require_some; [|done]. intros c Hc.
  apply wp_bind, wp_check_dialog; [|done]. intros Hbot Hopen Hact Htk.
  apply wp_bind, wp_get_by_id, wp_bind, wp_require_some; [|done]. dbsimpl. intros o Ho.
  apply wp_bind, wp_check_outbound; [|done]. intros Hl Hd Hnb Hv He Hq.
  apply wp_bind, wp_check_dispatched_plan; [|done]. intros Hplan.
  apply wp_bind, wp_mark_admitted with (o := o); [done|done|done| |done].
  cbv zeta. apply wp_request_from_outbound; [|done]. intros r Hr. apply HQ.
  exists c, o. split; [|done]. split_and!; try done. intros pid Hpid.
  destruct (Hplan pid Hpid) as (p & Hp & Hps & H1 & H2 & H3). exists p.
  split_and!; try done. by split_and!; congruence.
Qed.

Lemma admit_in_session_spec settings env s claim now :
  dialog_ok s ->
  wp (session_scope (admit_in_session settings claim now))
    (fun r s' => dialog_ok s' /\ admitted_post s claim (default (env_now env) now) r s')
    (fun _ s' => s' = s) env s.
Proof.
  intros Hok. pose proof Hok as [Hcon _].
  apply wp_session_scope_keeps; [solve_respects|done|].
  apply wp_admit_in_session; [by apply outbox_keyed| |done]. intros r s' Hpost Hcon'.
  split; [|done]. destruct Hpost as (c & o & Hadm & Hr & ->).
  destruct Hadm as (_ & Ho & _ & _ & _ & _ & (Hst & _)%outbox_lease_true & _).
  eapply dialog_ok_outbox_moved; [done|done|by apply outbox_moves_admitted| |done]. by split_and!.
Qed.

(** ** Claims *)

Definition outbound_claim_copies (cl : OutboundClaim) (o : OutboxMessage) : Prop :=
  obc_outbound_id cl = ob_id o /\ obc_conversation_id cl = ob_conversation_id o /\
  obc_manager_epoch cl = ob_manager_epoch o /\ obc_event_seq_hwm cl = ob_event_seq_hwm o /\
  obc_destination_type cl = ob_destination_type o /\
  obc_delivery_status cl = ob_delivery_status o /\
  obc_attempt_count cl = ob_attempt_count o /\ Some (obc_lease_owner cl) = ob_lease_owner o /\
  Some (obc_lease_token cl) = ob_lease_token o /\ obc_lease_version cl = ob_lease_version o /\
  Some (obc_lease_until cl) = ob_lease_until o /\ obc_payload_json cl = ob_payload_json o.

Lemma wp_outbound_row_to_claim o (Q : OutboundClaim -> Database -> Prop) X env s :
  (forall cl, outbound_claim_copies cl o -> Q cl s) -> (forall e s', X e s') ->
  wp (row_to_claim o) Q X env s.
Proof.
  intros HQ HX. unfold row_to_claim.
  destruct (ob_lease_token o) eqn:E1; [|by apply wp_raise].
  destruct (ob_lease_owner o) eqn:E2; [|by apply wp_raise].
  destruct (ob_lease_until o) eqn:E3; [|by apply wp_raise].
  apply wp_ret, HQ. by split_and!.
Qed.

(** The abandoned last attempts are dead. *)
Definition buried (moment : instant) (os : gmap uuid OutboxMessage) : gmap uuid OutboxMessage :=
  sql_update (exhausted moment) (fun o =>
    o <| ob_delivery_status := OB_DEAD |> <| ob_lease_owner := None |>
      <| ob_lease_token := None |> <| ob_lease_until := None |>
      <| ob_updated_at := moment |>) os.

Lemma buried_moves moment os : table_moves outbox_moves os (buried moment os).
Proof. apply table_moves_update; [auto|]. intros k o _ _. split; [by split_and!|done]. Qed.

Lemma buried_lookup moment os k o :
  buried moment os !! k = Some o -> ob_delivery_status o <> OB_DEAD -> os !! k = Some o.
Proof.
  intros (o0 & Ho & ->)%lookup_sql_update_Some. destruct (exhausted moment o0); [done|auto].
Qed.

Lemma outbound_claimable_facts moment o :
  claimable moment o = true ->
  client_destination (ob_destination_type o) = true /\
  (ob_delivery_status o = OB_ADMITTED \/ ob_attempt_count o < ob_max_attempts o) /\
  (match ob_not_before o with Some t => tstz_due t moment = true | None => True end) /\
  match ob_delivery_status o with
  | OB_PENDING => True
  | OB_FAILED | OB_ADMITTED => ob_lease_until o = None \/ sql_lt (ob_lease_until o) moment = true
  | OB_PROCESSING => sql_lt (ob_lease_until o) moment = true
  | _ => False
  end.
Proof.
  unfold claimable. rewrite !andb_true_iff, orb_true_iff, bool_decide_eq_true, Z.ltb_lt.
  intros (((Hd & Ha) & Hnb) & Hst). split_and!; [done|done|by destruct (ob_not_before o)|].
  destruct (ob_delivery_status o); try done.
  - by apply andb_true_iff in Hst as [_ ?].
  - apply orb_true_iff in Hst as [H|H]; [left|by right]. by destruct (ob_lease_until o).
  - apply orb_true_iff in Hst as [H|H]; [left|by right]. by destruct (ob_lease_until o).
Qed.

Lemma outbox_moves_claim moment worker token until o :
  claimable moment o = true -> outbox_moves o (claim_values moment worker token until o).
Proof.
  intros (_ & _ & _ & Hst)%outbound_claimable_facts. split; [by split_and!|].
  cbn. by destruct (ob_delivery_status o).
Qed.

(** What a claim leaves: a fresh lease on a row that was free and due; an
    admitted row stays admitted. *)
Definition outbound_claimed_post (s : Database) (moment : instant) (worker : string)
    (lease : Z) (cl : OutboundClaim) (s' : Database) : Prop :=
  exists o o',
    db_outbox_messages s !! obc_outbound_id cl = Some o /\ claimable moment o = true /\
    db_outbox_messages s' !! obc_outbound_id cl = Some o' /\ outbound_claim_copies cl o' /\
    same_outbound o o' /\ ob_admitted_at o' = ob_admitted_at o /\
    ob_delivery_status o' =
      (if bool_decide (ob_delivery_status o = OB_ADMITTED) then OB_ADMITTED else OB_PROCESSING) /\
    ob_attempt_count o' = ob_attempt_count o + 1 /\
    ob_lease_version o' = ob_lease_version o + 1 /\ ob_lease_owner o' = Some worker /\
    ob_lease_until o' = Some (moment + seconds lease).

Definition outbound_claim_goal (locked : uuid -> bool) (s : Database) (moment : instant)
    (worker : string) (lease : Z) (r : option OutboundClaim) (s' : Database) : Prop :=
  dialog_ok s' /\
  match r with
  | None => forall k o, db_outbox_messages s !! k = Some o -> claimable moment o = true ->
              locked (ob_id o) = true
  | Some cl => outbound_claimed_post s moment worker lease cl s'
  end.

Lemma buried_claimable moment os k o :
  os !! k = Some o -> claimable moment o = true -> buried moment os !! k = Some o.
Proof.
  intros Ho Hcl. apply lookup_sql_update_Some. exists o. split; [done|].
  destruct (exhausted moment o) eqn:E; [|done]. exfalso.
  apply outbound_claimable_facts in Hcl as (_ & Ha & _).
  unfold exhausted in E. rewrite !andb_true_iff, bool_decide_eq_true, Z.leb_le in E.
  destruct E as ((((_ & E1) & _) & _) & E2). destruct Ha; [congruence|lia].
Qed.

Lemma outbound_claim_next_spec env s worker lease now :
  dialog_ok s ->
  wp (session_scope (claim_next worker lease now))
    (outbound_claim_goal (env_locked env) s (default (env_now env) now) worker lease)
    (fun _ s' => s' = s) env s.
Proof.
  intros Hok. pose proof Hok as [Hcon _].
  apply wp_session_scope_keeps; [solve_respects|done|]. unfold claim_next.
  apply wp_bind, wp_assert; [intros _|done]. apply wp_bind, wp_resolve_moment.
  set (moment := default _ _). unfold recover_exhausted_leases.
  apply wp_bind, wp_bind, wp_resolve_moment, wp_update_where; [intros _ _|done..].
  cbn [from_option id]. dbsimpl. fold (buried moment (db_outbox_messages s)).
  cbv zeta. apply wp_bind, wp_uuid4, wp_bind, wp_get_env, wp_bind, wp_select_where. dbsimpl.
  set (os1 := buried moment (db_outbox_messages s)). set (cands := filter _ _).
  assert (forall r, r ∈ cands <-> (exists k, os1 !! k = Some r) /\
    claimable moment r = true /\ env_locked env (ob_id r) = false) as Hin
    by (intros r; unfold cands; rewrite list_elem_of_filter, rows_elem, andb_true_iff,
          negb_true_iff; tauto).
  assert (keys_ok os1) as Hk1 by (apply keys_ok_sql_update; [by apply outbox_keyed|done]).
  pose proof (buried_moves moment (db_outbox_messages s)) as Hb. fold os1 in Hb.
  destruct (pick_min claim_order cands) as [o|] eqn:Hpick.
  - pose proof Hpick as ([k Ho] & Hcl & Hlock)%pick_min_elem%Hin.
    pose proof (Hk1 _ _ Ho) as Hid. cbn in Hid. subst k.
    apply wp_bind. wp_update Ho. apply wp_bind, wp_get_by_id. dbsimpl. rewrite lookup_insert_eq.
    apply wp_bind, wp_require_some; [|done]. intros o' [= <-].
    apply wp_bind, wp_outbound_row_to_claim; [|done]. intros cl Hcopy. apply wp_ret. intros Hcon'.
    split.
    + eapply dialog_ok_outbox; try done. cbn.
      eapply table_moves_trans; [apply outbox_moves_trans|exact Hb|].
      apply table_moves_insert with (r := o); [auto|done|by apply outbox_moves_claim].
    + pose proof Hcopy as (Hid & _). cbn in Hid. eexists o, _. rewrite Hid. cbn.
      rewrite lookup_insert_eq. split_and!; try done.
      apply (buried_lookup moment); [done|].
      apply outbound_claimable_facts in Hcl as (_ & _ & _ & Hst). intros E. by rewrite E in Hst.
  - apply wp_ret. intros Hcon'. split; [by eapply dialog_ok_outbox|].
    intros k o Ho Hcl. apply not_false_iff_true. intros Hl. apply pick_min_none in Hpick.
    assert (o ∈ cands) as Hc; [|rewrite Hpick in Hc; by apply not_elem_of_nil in Hc].
    apply Hin. split_and!; [|done|done]. exists k. by apply buried_claimable.
Qed.

(** ** Delivery and failure under the lease *)

Lemma same_dialog_activate o :
  respects same_dialog (SelfBookingActiveOfferService.activate_from_delivered_outbound o).
Proof. solve_respects. Qed.

Lemma same_dialog_enqueue_outbound_delivered cid oid v corr :
  respects same_dialog (amocrm_mirror.enqueue_outbound_delivered cid oid v corr).
Proof. solve_respects. Qed.

Lemma same_dialog_enqueue_bot_outbound_projection cid oid corr :
  respects same_dialog (amocrm_chat_projection.enqueue_bot_outbound_projection cid oid corr).
Proof. solve_respects. Qed.

#[export] Hint Resolve same_dialog_activate same_dialog_enqueue_outbound_delivered
  same_dialog_enqueue_bot_outbound_projection : respects.

Lemma outbox_moved_same s k o' s1 s2 :
  outbox_moved s k o' s1 -> same_dialog s1 s2 -> outbox_moved s k o' s2.
Proof. intros (?&?&?&?&?) (?&?&?&?&?). split_and!; congruence. Qed.

(** A row in the hands of its lease holder changes status. *)
Definition lease_outcome (s : Database) (claim : OutboundClaim) (from : DeliveryStatus)
    (o' : OutboxMessage) (s' : Database) : Prop :=
  exists o,
    db_outbox_messages s !! obc_outbound_id claim = Some o /\
    holds_lease from (obc_lease_token claim) (obc_lease_version claim) o = true /\
    outbox_moved s (obc_outbound_id claim) o' s' /\ same_outbound o o' /\
    ob_admitted_at o' = ob_admitted_at o /\ ob_attempt_count o' = ob_attempt_count o /\
    ob_lease_version o' = ob_lease_version o.

Definition delivered_post (s : Database) (claim : OutboundClaim) (r : OutboxMessage * uuid)
    (s' : Database) : Prop :=
  lease_outcome s claim OB_ADMITTED r.1 s' /\ ob_delivery_status r.1 = OB_DELIVERED /\
  is_not_null (ob_admitted_at r.1) = true.

Lemma mark_delivered_same pid moment o :
  same_outbound o (mark_delivered_values pid moment o) /\
  ob_delivery_status (mark_delivered_values pid moment o) = OB_DELIVERED /\
  ob_admitted_at (mark_delivered_values pid moment o) = ob_admitted_at o /\
  ob_attempt_count (mark_delivered_values pid moment o) = ob_attempt_count o /\
  ob_lease_version (mark_delivered_values pid moment o) = ob_lease_version o.
Proof.
  unfold mark_delivered_values. destruct pid as [z|]; [destruct (0 <? z)|];
    (split; [by split_and!|done]).
Qed.

Lemma wp_mark_delivered_lost X env s oid token version now pid
    (Q : OutboxMessage -> Database -> Prop) :
  keys_ok (db_outbox_messages s) ->
  (forall o, db_outbox_messages s !! oid = Some o ->
     holds_admitted_lease token version o = false) ->
  X (Exn StaleOutboundLeaseError "OUTBOUND_STALE_LEASE") s ->
  wp (mark_delivered_with_lease oid token version now pid) Q X env s.
Proof.
  intros Hk Hno HX. apply wp_bind, wp_resolve_moment, wp_bind, wp_assert; [intros _|done].
  apply wp_bind, wp_update_by_id_none; [done|done|]. dbsimpl.
  rewrite table_set_outbox_same. by apply wp_bind, wp_assert.
Qed.

Lemma wp_mark_delivered X env s oid token version now pid
    (Q : OutboxMessage -> Database -> Prop) :
  keys_ok (db_outbox_messages s) ->
  (forall o, db_outbox_messages s !! oid = Some o ->
     holds_admitted_lease token version o = true ->
     let o' := mark_delivered_values pid (default (env_now env) now) o in
     Q o' (s <| db_outbox_messages := <[oid := o']> (db_outbox_messages s) |>)) ->
  (forall e s', X e s') ->
  wp (mark_delivered_with_lease oid token version now pid) Q X env s.
Proof.
  intros Hk HQ HX.
  destruct (db_outbox_messages s !! oid) as [o|] eqn:Ho;
    [|apply wp_mark_delivered_lost; [done|by rewrite Ho|done]].
  destruct (holds_admitted_lease token version o) eqn:Hl;
    [|apply wp_mark_delivered_lost; [done| |done]; intros o0 Ho0; by simplify_eq].
  apply wp_bind, wp_resolve_moment, wp_bind, wp_assert; [intros _|auto].
  apply (wp_update_returning (R := OutboxMessage)) with (r := o); auto.
Qed.

(** The offer and the mirror job leave the dialog alone. *)
Lemma wp_after_delivered X env s1 o' (Q : OutboxMessage * uuid -> Database -> Prop) :
  (forall corr s', same_dialog s1 s' -> Q (o', corr) s') -> (forall e s', X e s') ->
  wp (bind_offer_and_mirror o') Q X env s1.
Proof.
  intros HQ HX.
  apply wp_bind. eapply wp_same_dialog; [apply same_dialog_activate| |done]. intros a s2 Hs2.
  apply wp_bind. eapply wp_same_dialog; [solve_respects| |done]. intros _ s2' Hs2'.
  apply wp_bind. eapply wp_same_dialog; [solve_respects| |done]. intros corr s3 Hs3.
  apply wp_bind. eapply wp_same_dialog; [apply same_dialog_enqueue_outbound_delivered| |done].
  intros j s4 Hs4. apply wp_ret, HQ. etrans; [exact Hs2|]. etrans; [exact Hs2'|]. by etrans.
Qed.

Lemma wp_record_delivered X env s claim pid now (Q : OutboxMessage * uuid -> Database -> Prop) :
  keys_ok (db_outbox_messages s) ->
  (forall r s', delivered_post s claim r s' -> Q r s') -> (forall e s', X e s') ->
  wp (record_delivered claim pid now) Q X env s.
Proof.
  intros Hk HQ HX. apply wp_bind, wp_lock_for_update; [|done]. intros c _.
  apply wp_bind, wp_mark_delivered; [done| |done]. intros o Ho Hl. cbv zeta.
  apply wp_after_delivered; [|done]. intros corr s' Hs'. apply HQ.
  destruct (mark_delivered_same pid (default (env_now env) now) o)
    as (Hsame & Hst & Hadm & Hatt & Hlv).
  apply outbox_admitted_lease_true in Hl as (Hst0 & Htok & Hver & Hadm0).
  split; [|split; [exact Hst|by cbn; rewrite Hadm]].
  exists o. split; [done|]. split; [by apply outbox_lease_true|].
  split; [|split_and!; [done..]]. eapply outbox_moved_same; [|exact Hs']. by split_and!.
Qed.

Lemma record_delivered_spec env s claim pid now :
  dialog_ok s ->
  wp (session_scope (record_delivered claim pid now))
    (fun r s' => dialog_ok s' /\ delivered_post s claim r s')
    (fun _ s' => s' = s) env s.
Proof.
  intros Hok. pose proof Hok as [Hcon _].
  apply wp_session_scope_keeps; [solve_respects|done|].
  apply wp_record_delivered; [by apply outbox_keyed| |done]. intros r s' Hpost Hcon'.
  split; [|done]. destruct Hpost as ((o & Ho & _ & Hm & Hsame & _) & Hst & _).
  eapply dialog_ok_outbox_moved; [exact Hok|exact Ho| |exact Hm|done].
  split; [done|]. by rewrite Hst.
Qed.

(** The row [fail_with_lease] and [fail_admitted_delivery_with_lease] leave. *)
Definition failed_row (s : Database) (claim : OutboundClaim) (from target : DeliveryStatus)
    (o' : OutboxMessage) (s' : Database) : Prop :=
  lease_outcome s claim from o' s' /\ ob_delivery_status o' = target /\ ob_lease_token o' = None.

Lemma wp_fail_update X env s claim guard target nb moment o c1 m1
    (Q : OutboxMessage -> Database -> Prop) :
  keys_ok (db_outbox_messages s) -> db_outbox_messages s !! obc_outbound_id claim = Some o ->
  guard o = true -> (forall e s', X e s') ->
  (let o' := fail_values target nb moment o in
   Q o' (s <| db_outbox_messages := <[obc_outbound_id claim := o']> (db_outbox_messages s) |>)) ->
  wp (updated ← update_by_id (obc_outbound_id claim) guard (fail_values target nb moment);
      _ ← assert_or_raise updated c1 m1;
      refreshed ← get_by_id (obc_outbound_id claim);
      require_some refreshed RuntimeError "OUTBOUND_LOOKUP_FAILED") Q X env s.
Proof. intros. by apply (wp_update_returning (R := OutboxMessage)) with (r := o). Qed.

Section Failures.
Context (env : Env) (s : Database) (claim : OutboundClaim).
Hypothesis Hok : dialog_ok s.

Lemma failed_row_ok from target nb moment o :
  db_outbox_messages s !! obc_outbound_id claim = Some o ->
  holds_lease from (obc_lease_token claim) (obc_lease_version claim) o = true ->
  (unadmitted target = true -> unadmitted from = true) ->
  let o' := fail_values target nb moment o in
  let s' := s <| db_outbox_messages :=
                   <[obc_outbound_id claim := o']> (db_outbox_messages s) |> in
  constraints_ok s' -> dialog_ok s' /\ failed_row s claim from target o' s'.
Proof.
  intros Ho Hl Hun o' s' Hcon'. pose proof Hl as (Hst & _)%outbox_lease_true.
  assert (same_outbound o o') as Hsame by by split_and!.
  split; [|split_and!; [exists o; by split_and!|done|done]].
  eapply dialog_ok_outbox_moved; [exact Hok|exact Ho| |by split_and!|done].
  split; [done|]. cbn. by rewrite Hst.
Qed.

(** A denied claim is retried until its attempts are used up. *)
Lemma fail_with_lease_spec retry now :
  wp (session_scope (fail_with_lease (obc_outbound_id claim) (obc_lease_token claim)
        (obc_lease_version claim) retry now))
    (fun o' s' => dialog_ok s' /\
       failed_row s claim OB_PROCESSING
         (if ob_max_attempts o' <=? ob_attempt_count o' then OB_DEAD else OB_FAILED) o' s')
    (fun _ s' => s' = s) env s.
Proof.
  pose proof Hok as [Hcon _]. apply wp_session_scope_keeps; [solve_respects|done|].
  apply wp_bind, wp_resolve_moment, wp_bind, wp_get_by_id. dbsimpl.
  apply wp_bind, wp_require_some; [|done]. intros o Ho.
  apply wp_bind, wp_assert; [|done]. intros Hl.
  destruct (ob_max_attempts o <=? ob_attempt_count o) eqn:Ht;
    (apply wp_bind, wp_assert; [intros _|done]);
    (eapply wp_fail_update; [by apply outbox_keyed|done|done|done|]);
    cbv zeta; intros Hcon'; cbn; rewrite Ht; by apply failed_row_ok.
Qed.

(** A failed transport leaves the row admitted, or dead when it cannot be
    retried: never cancelled, never back before admission. *)
Lemma fail_admitted_spec permanent retry now :
  wp (session_scope (fail_admitted_delivery_with_lease (obc_outbound_id claim)
        (obc_lease_token claim) (obc_lease_version claim) permanent retry now))
    (fun o' s' => dialog_ok s' /\
       failed_row s claim OB_ADMITTED
         (if permanent || (ob_max_attempts o' <=? ob_attempt_count o')
          then OB_DEAD else OB_ADMITTED) o' s')
    (fun _ s' => s' = s) env s.
Proof.
  pose proof Hok as [Hcon _]. apply wp_session_scope_keeps; [solve_respects|done|].
  apply wp_bind, wp_resolve_moment, wp_bind, wp_get_by_id. dbsimpl.
  apply wp_bind, wp_require_some; [|done]. intros o Ho.
  apply wp_bind, wp_assert; [|done]. intros Hl. cbv zeta.
  assert (holds_lease OB_ADMITTED (obc_lease_token claim) (obc_lease_version claim) o = true)
    as Hl' by (by apply andb_true_iff in Hl as [? _]).
  destruct (permanent || (ob_max_attempts o <=? ob_attempt_count o)) eqn:Ht;
    (apply wp_bind, wp_assert; [intros _|done]);
    (eapply wp_fail_update; [by apply outbox_keyed|done|done|done|]);
    cbv zeta; intros Hcon'; cbn; rewrite Ht; by apply failed_row_ok.
Qed.

(** Reading a reclaimed admission changes nothing. *)
Lemma prepare_reclaimed_spec :
  wp (session_scope (prepare_reclaimed_admission claim))
    (fun r s' => s' = s /\ exists o,
       db_outbox_messages s !! obc_outbound_id claim = Some o /\
       holds_admitted_lease (obc_lease_token claim) (obc_lease_version claim) o = true /\
       client_destination (ob_destination_type o) = true /\ request_of o r)
    (fun _ s' => s' = s) env s.
Proof.
  apply wp_session_scope. apply wp_bind, wp_lock_for_update; [|done]. intros c _.
  apply wp_bind, wp_get_by_id, wp_bind, wp_require_some; [|done]. dbsimpl. intros o Ho.
  apply wp_bind, wp_assert; [|done]. intros Hl.
  apply wp_bind, wp_assert; [|done]. intros Hd.
  apply wp_request_from_outbound; [|done]. eauto 10.
Qed.

(** The provider id is written once; a repetition with the same id is a no-op. *)
Lemma record_provider_spec pid now :
  wp (session_scope (record_provider_message_id claim pid now))
    (fun _ s' => dialog_ok s' /\
       (s' = s \/ exists o', lease_outcome s claim OB_ADMITTED o' s' /\
          ob_delivery_status o' = OB_ADMITTED /\ ob_provider_message_id o' = Some pid))
    (fun _ s' => s' = s) env s.
Proof.
  pose proof Hok as [Hcon _]. apply wp_session_scope_keeps; [solve_respects|done|].
  apply wp_bind, wp_lock_for_update; [|done]. intros c _.
  apply wp_bind, wp_bind, wp_assert; [intros _|done]. apply wp_bind, wp_resolve_moment.
  set (guard := fun o : OutboxMessage => _). set (v := fun o : OutboxMessage => _). apply wp_bind.
  destruct (db_outbox_messages s !! obc_outbound_id claim) as [o|] eqn:Ho.
  - destruct (guard o) eqn:Hg.
    + eapply wp_update_by_id; [by apply outbox_keyed|exact Ho|exact Hg| |done|done].
      intros _ _. apply wp_bind, wp_get_by_id. dbsimpl. rewrite lookup_insert_eq.
      apply wp_require_some; [|done]. intros o' [= <-]. apply wp_ret. intros Hcon'.
      unfold guard in Hg. rewrite !andb_true_iff in Hg. destruct Hg as ((_ & [Hl _]%andb_true_iff) & _).
      pose proof Hl as (Hst & _)%outbox_lease_true.
      assert (same_outbound o (v o)) as Hsame by by split_and!.
      assert (outbox_moves o (v o)) as Hm by by split.
      split; [eapply dialog_ok_outbox_moved; [exact Hok|exact Ho|exact Hm|by split_and!|done]|].
      right. exists (v o). split_and!; [exists o; by split_and!|done|done].
    + apply wp_update_by_id_none; [by apply outbox_keyed| |].
      { intros r Hr. dbsimpl. by simplify_eq. }
      dbsimpl. rewrite table_set_outbox_same. apply wp_bind, wp_get_by_id. dbsimpl. rewrite Ho.
      cbn [negb]. apply wp_if; [|done]. intros _. apply wp_ret, wp_ret. intros _.
      split; [done|by left].
  - apply wp_update_by_id_none; [by apply outbox_keyed|by intros r; dbsimpl; rewrite Ho|].
    dbsimpl. rewrite table_set_outbox_same. apply wp_bind, wp_get_by_id. dbsimpl. by rewrite Ho.
Qed.
End Failures.
