(* ===== verification/ExpiryProofs.v ===== *)
(** * A due handoff returns to the bot

    The theorems about src/app/services/handoff_expiry.py: under the dialog
    invariant the quarantine branch is dead, a due dialog goes back to the bot
    with nothing of the manager's time left, and a paused dialog keeps exactly
    its deferred plan. *)

From S2P Require Import Prelude Models Database Statements Conversations ReplyPlans Outbound.
From S2P Require Import HandoffExpiry Dialog ManagerProofs.

(** ** The claim *)

Lemma wp_claim_next_due_handoff (Q : option Conversation -> Database -> Prop) X env s :
  let t := env_statement_timestamp env (db_statement_clock s) in
  let s1 := s <| db_statement_clock ::= S |> in
  (forall cid c, db_conversations s !! cid = Some c ->
     conversation_repo.handoff_due t c = true -> env_locked env (conv_id c) = false ->
     Q (Some c) s1) ->
  ((forall cid c, db_conversations s !! cid = Some c ->
      conversation_repo.handoff_due t c = true -> env_locked env (conv_id c) = true) ->
   Q None s1) ->
  wp conversation_repo.claim_next_due_handoff Q X env s.
Proof.
  intros t s1 Hsome Hnone. unfold conversation_repo.claim_next_due_handoff.
  apply wp_bind, wp_get_env, wp_bind, wp_db_statement_now, wp_bind, wp_select_where, wp_ret.
  dbsimpl. fold t s1. set (due := filter _ _).
  assert (forall c, c ∈ due <-> (exists cid, db_conversations s !! cid = Some c) /\
    conversation_repo.handoff_due t c = true /\ env_locked env (conv_id c) = false) as Hdue.
  { intros c. unfold due. rewrite list_elem_of_filter, rows_elem, andb_true_iff, negb_true_iff.
    tauto. }
  destruct (pick_min _ due) as [c|] eqn:Hp.
  - apply pick_min_elem, Hdue in Hp as ([cid Hc] & ? & ?). eauto.
  - apply pick_min_none in Hp. apply Hnone. intros cid c Hc Hd.
    apply not_false_iff_true. intros Hl.
    assert (c ∈ due) as Hin by (apply Hdue; eauto). rewrite Hp in Hin.
    by apply not_elem_of_nil in Hin.
Qed.

(** ** The two returns *)

Lemma handoff_due_state t c :
  conversation_repo.handoff_due t c = true ->
  conv_status c = HANDOFF /\ conv_ownership c = MANAGER /\
  conv_handoff_state c <> BOT_ACTIVE /\
  exists d, conv_handoff_deadline_at c = Some d /\ tstz_due d t = true.
Proof.
  unfold conversation_repo.handoff_due. rewrite !andb_true_iff, !bool_decide_eq_true.
  intros ((((? & ?) & Hst) & Hd) & _). split_and!; [done|done|by destruct (conv_handoff_state c)|].
  destruct (conv_handoff_deadline_at c); [eauto|done].
Qed.

Lemma wp_return_due_handoff_to_bot c moment plan (Q : Conversation -> Database -> Prop) X env s :
  keys_ok (db_conversations s) -> db_conversations s !! conv_id c = Some c ->
  (let c' := conversation_repo.return_due_handoff_to_bot_values moment plan c in
   Q c' (s <| db_conversations := <[conv_id c := c']> (db_conversations s) |>)) ->
  (forall e s', exn_class e <> HandoffExpiryInvariantError -> X e s') ->
  wp (conversation_repo.return_due_handoff_to_bot c moment plan) Q X env s.
Proof.
  intros Hk Hc HQ HX. unfold conversation_repo.return_due_handoff_to_bot. apply wp_bind.
  destruct (conversation_repo.return_due_handoff_to_bot_guard c moment c) eqn:Hg.
  - eapply wp_update_by_id; [done|exact Hc|exact Hg| |by auto|by auto].
    intros _ _. apply wp_bind, wp_assert; [intros _|by auto].
    eapply wp_refresh; [dbsimpl; apply lookup_insert_eq|done].
  - apply wp_update_by_id_none; [done| |].
    { intros r Hr. dbsimpl. assert (r = c) as -> by congruence. done. }
    apply wp_bind, wp_assert; [done|]. intros _. by apply HX.
Qed.

(** A paused dialog's plan passes every check. *)
Lemma wp_lock_current_deferred_plan c (Q : ReplyPlan -> Database -> Prop) X env s :
  pause_inv (db_reply_plans s) c -> conv_handoff_state c = HUMAN_PAUSE ->
  (forall pid p, conv_active_reply_plan_id c = Some pid -> db_reply_plans s !! pid = Some p ->
     deferred_plan_ok c p -> Q p s) ->
  wp (lock_current_deferred_plan c) Q X env s.
Proof.
  intros Hinv Hst HQ. destruct (Hinv Hst) as (_ & pid & p & Ha & Hp & Hok).
  unfold lock_current_deferred_plan. rewrite Ha.
  apply wp_bind, wp_get_by_id. dbsimpl. rewrite Hp.
  pose proof Hok as (Hpc & Hty & Hps & (Hv & He & Hq) & Hd & Hm).
  rewrite Hpc, Hty, Hv, He, Hq, Hd, Hm, !Z.eqb_refl.
  repeat (apply wp_if; [rewrite negb_true_iff; intros Hf; exfalso|intros _]).
  all: try (rewrite bool_decide_eq_false in Hf; by destruct Hf).
  all: try done.
  - rewrite orb_false_iff, !bool_decide_eq_false in Hf. tauto.
  - apply wp_ret. eauto.
Qed.

Definition expiry_post (s : Database) (t moment : instant) (h : HandoffExpiryResult)
    (s' : Database) : Prop :=
  let cid := her_conversation_id h in
  exists c c',
    db_conversations s !! cid = Some c /\ db_conversations s' !! cid = Some c' /\
    conversation_repo.handoff_due t c = true /\
    c' = conversation_repo.return_due_handoff_to_bot_values moment
           (her_active_reply_plan_id h) c /\
    her_quarantine_reason h = None /\ db_ops_events s' = db_ops_events s /\
    match her_transition h with
    | HUMAN_ACTIVE_TO_BOT =>
        conv_handoff_state c = HUMAN_ACTIVE /\ her_active_reply_plan_id h = None /\
        revoked s' cid
    | HUMAN_PAUSE_TO_BOT =>
        conv_handoff_state c = HUMAN_PAUSE /\ db_reply_plans s' = db_reply_plans s /\
        db_outbox_messages s' = db_outbox_messages s /\
        exists pid p, her_active_reply_plan_id h = Some pid /\
          conv_active_reply_plan_id c = Some pid /\
          db_reply_plans s' !! pid = Some p /\ plan_fences_eq c' p /\
          (rp_status p = RP_PENDING \/ rp_status p = RP_READY) /\
          tstz_due (rp_not_before p) t = true
    | EXPIRY_QUARANTINED => False
    end.

Section Expiry.
Context (env : Env) (s : Database) (cid : uuid) (c : Conversation) (t moment : instant).
Context (clock : nat).
Let s2 := s <| db_statement_clock := clock |>.
Hypothesis Hok : dialog_ok s.
Hypothesis Hc : db_conversations s !! cid = Some c.
Hypothesis Hdue : conversation_repo.handoff_due t c = true.

Definition expiry_goal (h : HandoffExpiryResult) (s' : Database) : Prop :=
  dialog_ok s' /\ untouched_outside cid s s' /\ her_conversation_id h = cid /\
  expiry_post s t moment h s'.

Lemma wp_expire_active (X : exn -> Database -> Prop) :
  conv_handoff_state c = HUMAN_ACTIVE ->
  (forall e s', exn_class e <> HandoffExpiryInvariantError -> X e s') ->
  wp (expire_claimed c moment) (fun h s' => constraints_ok s' -> expiry_goal h s') X env s2.
Proof.
  intros Hst HX. pose proof Hok as (Hcon & Hwork & Hseq).
  pose proof (conversation_key s cid c Hcon Hc) as Hid.
  unfold expire_claimed. rewrite Hst, Hid.
  apply wp_bind, wp_bind, wp_db_now, wp_update_where; [intros _ _|by auto..].
  apply wp_bind, wp_bind, wp_db_now, wp_update_where; [intros _ _|by auto..].
  dbsimpl. apply wp_bind, wp_return_due_handoff_to_bot; dbsimpl;
    [by apply conversations_keyed|by rewrite Hid| |done].
  cbv zeta. apply wp_ret. intros Hcon'. rewrite Hid in *.
  set (c' := conversation_repo.return_due_handoff_to_bot_values moment None c) in *.
  assert (advances c c') as Hadv by (unfold advances; split_and!; reflexivity).
  split_and!; [split; [done|split]| |done|].
  - apply work_ok_pause with (cid := cid) (c := c'); [apply lookup_insert_eq| |done].
    apply work_ok_revoke with (c := c);
      auto using conversations_keyed, work_ok_weaken; by left.
  - eapply event_seqs_ok_advance; eauto using conversations_keyed.
  - split_and!.
    + intros k Hne. cbn. by rewrite lookup_insert_ne.
    + intros. by apply lookup_outside_plans.
    + intros. by apply lookup_outside_outbox.
  - cbn. rewrite Hid. exists c, c'. split_and!; try done.
    + apply lookup_insert_eq.
    + cbn [her_transition]. split_and!; [done..|].
      eapply revoked_after with (s := s); [by left|reflexivity..].
Qed.

Lemma wp_expire_pause (X : exn -> Database -> Prop) :
  conv_handoff_state c = HUMAN_PAUSE ->
  (forall e s', exn_class e <> HandoffExpiryInvariantError -> X e s') ->
  wp (expire_claimed c moment) (fun h s' => constraints_ok s' -> expiry_goal h s') X env s2.
Proof.
  intros Hst HX. pose proof Hok as (Hcon & Hwork & Hseq).
  pose proof (conversation_key s cid c Hcon Hc) as Hid.
  unfold expire_claimed. rewrite Hst.
  apply wp_bind, wp_lock_current_deferred_plan; [by apply (proj2 (proj2 Hwork) cid)|done|].
  intros pid p Ha Hp Hdef. destruct (reply_plan_checked s pid p Hcon Hp) as (Hpid & _ & _).
  apply wp_bind, wp_return_due_handoff_to_bot; dbsimpl;
    [by apply conversations_keyed|by rewrite Hid| |done].
  cbv zeta. apply wp_ret. intros Hcon'. rewrite Hid, Hpid in *.
  set (c' := conversation_repo.return_due_handoff_to_bot_values moment (Some pid) c) in *.
  assert (advances c c') as Hadv by (unfold advances; split_and!; reflexivity).
  destruct Hdef as (_ & _ & Hps & Heq & Hd & _).
  split_and!; [split; [done|split]| |done|].
  - apply work_ok_pause with (cid := cid) (c := c'); [apply lookup_insert_eq| |done].
    apply work_ok_same_fences with (c := c); auto using conversations_keyed, work_ok_weaken.
    right. rewrite Hst. done.
  - eapply event_seqs_ok_advance; eauto using conversations_keyed.
  - split_and!; [|done|done]. intros k Hne. cbn. by rewrite lookup_insert_ne.
  - cbn. rewrite Hid. exists c, c'. split_and!; try done; [apply lookup_insert_eq|].
    cbn [her_transition]. split_and!; [done..|]. exists pid, p. split_and!; try done.
    destruct (handoff_due_state t c Hdue) as (_ & _ & _ & d & Hd' & Hdd). congruence.
Qed.
End Expiry.

Lemma expire_one_spec env s :
  dialog_ok s ->
  let t := env_statement_timestamp env (db_statement_clock s) in
  let moment := env_statement_timestamp env (S (db_statement_clock s)) in
  wp expire_one
    (fun r s' =>
       match r with
       | Some h => expiry_goal s (her_conversation_id h) t moment h s'
       | None =>
           (forall cid c, db_conversations s !! cid = Some c ->
              conversation_repo.handoff_due t c = true -> env_locked env (conv_id c) = true) /\
           s' = s <| db_statement_clock ::= S |>
       end)
    (fun _ s' => s' = s) env s.
Proof.
  intros Hok t moment. pose proof Hok as [Hcon _].
  apply wp_session_scope_keeps; [solve_respects|done|].
  apply wp_bind, wp_claim_next_due_handoff.
  - intros cid c Hc Hdue _. apply wp_bind, wp_db_statement_now. dbsimpl. fold moment.
    apply wp_bind, wp_try.
    assert (forall (e : exn) (s' : Database), exn_class e <> HandoffExpiryInvariantError ->
      if is_invariant_error e then False else True) as HX.
    { intros e _ He. unfold is_invariant_error. by rewrite bool_decide_eq_false_2. }
    eapply (wp_mono _ (fun h s' => constraints_ok s' -> expiry_goal s cid t moment h s') _
      (fun e _ => if is_invariant_error e then False else True)).
    + destruct (conv_handoff_state c) eqn:Hst.
      * by destruct (handoff_due_state t c Hdue) as (_ & _ & ? & _).
      * by apply (wp_expire_active env s cid c t moment (S (S (db_statement_clock s)))).
      * by apply (wp_expire_pause env s cid c t moment (S (S (db_statement_clock s)))).
    + intros h s' Hh. apply wp_ret. intros Hcon'. specialize (Hh Hcon').
      pose proof Hh as (_ & _ & Hid & _). by rewrite Hid.
    + intros e s' He. by destruct (is_invariant_error e).
  - intros Hall. by apply wp_ret.
Qed.
