(* ===== verification/InboundProofs.v ===== *)
(** * One client message, one reply

    The theorems about src/app/services/inbound.py: a duplicate changes neither
    dialog nor plans, a new message advances the fences by one, revokes the
    earlier work of the dialog and leaves exactly one open plan (none in a
    closed dialog), deferred to the pause deadline while a manager talks. *)

From S2P Require Import Prelude Models Database Statements Conversations ReplyPlans Outbound.
From S2P Require Import SelfBooking Messages Mirror Projections HandoffExpiry Dialog Frames.
From S2P Require Import EphemeralPii Inbound ManagerProofs ExpiryProofs.

(** ** The planned reply *)

Definition same_fences (c c' : Conversation) : Prop :=
  conv_id c' = conv_id c /\ conv_context_version c' = conv_context_version c /\
  conv_manager_epoch c' = conv_manager_epoch c /\
  conv_current_event_seq c' = conv_current_event_seq c /\
  conv_status c' = conv_status c /\ conv_ownership c' = conv_ownership c /\
  conv_channel c' = conv_channel c.

(** Bot's turn: due after the response delay.  Manager's turn: due at the pause
    deadline, which an already running pause keeps.  Closed: nothing. *)
Definition reply_planned (now moment : instant) (pause : Z) (c c' : Conversation)
    (plan : option ReplyPlan) : Prop :=
  same_fences c c' /\
  match plan with
  | Some p =>
      conv_active_reply_plan_id c' = Some (rp_id p) /\ rp_conversation_id p = conv_id c /\
      rp_plan_type p = CLIENT_REPLY /\ rp_status p = RP_PENDING /\ plan_fences_eq c' p /\
      rp_attempt_count p = 0 /\
      match conv_handoff_state c with
      | BOT_ACTIVE =>
          conv_handoff_state c' = BOT_ACTIVE /\
          rp_not_before p = At (now + milliseconds BOT_RESPONSE_DELAY_MS)
      | HUMAN_ACTIVE =>
          conv_handoff_state c' = HUMAN_PAUSE /\ deferred_plan_ok c' p /\
          conv_handoff_deadline_at c' = Some (At (moment + seconds pause))
      | HUMAN_PAUSE =>
          conv_handoff_state c' = HUMAN_PAUSE /\ deferred_plan_ok c' p /\
          conv_handoff_deadline_at c' = conv_handoff_deadline_at c
      end
  | None =>
      conv_status c = CLOSED /\ conv_handoff_state c = BOT_ACTIVE /\
      conv_handoff_state c' = BOT_ACTIVE /\ conv_active_reply_plan_id c' = None
  end.

Definition add_plan (plan : option ReplyPlan) (ps : gmap uuid ReplyPlan) : gmap uuid ReplyPlan :=
  match plan with Some p => <[rp_id p := p]> ps | None => ps end.

Lemma checks_consistency c : conversation_checks c = true -> handoff_consistency c = true.
Proof. unfold conversation_checks. rewrite !andb_true_iff. tauto. Qed.

Lemma allows_automatic_reply_state c :
  conversation_checks c = true ->
  conversation_allows_automatic_reply c = bool_decide (conv_status c = OPEN) /\
  (conv_status c = HANDOFF <-> conv_handoff_state c <> BOT_ACTIVE) /\
  (conv_status c = HANDOFF -> is_not_null (conv_handoff_deadline_at c) = true).
Proof.
  intros Hc%checks_consistency.
  unfold handoff_consistency, conversation_allows_automatic_reply in *.
  destruct (conv_status c), (conv_ownership c), (conv_handoff_state c); try done;
    rewrite !andb_true_iff in Hc; destruct Hc as [[Hd _] Ht];
    unfold is_not_null in *; destruct (conv_manager_takeover_at c); try done;
    cbn; split_and!; naive_solver.
Qed.

Lemma deferred_marker iid booking :
  jget (client_reply_plan_payload iid booking true) "deferred_for_handoff" = Some (JBool true).
Proof. unfold client_reply_plan_payload. by destruct booking. Qed.

(** The plan of a manager's turn, with the dialog [c'] that points to it. *)
Lemma deferred_planned now moment pause c c1 c' p payload d max_attempts u :
  same_fences c c1 ->
  c' = c1 <| conv_active_reply_plan_id := Some (rp_id p) |> <| conv_updated_at := u |> ->
  planned_row (conv_id c) (conv_context_version c) (conv_manager_epoch c)
    (conv_current_event_seq c) payload d max_attempts p ->
  jget payload "deferred_for_handoff" = Some (JBool true) ->
  conv_handoff_deadline_at c1 = Some d -> conv_handoff_state c1 = HUMAN_PAUSE ->
  match conv_handoff_state c with
  | HUMAN_ACTIVE => d = At (moment + seconds pause)
  | HUMAN_PAUSE => Some d = conv_handoff_deadline_at c
  | BOT_ACTIVE => False
  end ->
  reply_planned now moment pause c c' (Some p).
Proof.
  intros (Hid & Hv & He & Hq & Hs & Ho & Hch) -> (Hpc & Hpv & Hpe & Hpq & Hty & Hps & Hnb & Hpl & Hat & _)
    Hm Hd Hp Hst.
  assert (plan_fences_eq (c1 <| conv_active_reply_plan_id := Some (rp_id p) |>
    <| conv_updated_at := u |>) p) as Hf by (split_and!; cbn; congruence).
  assert (deferred_plan_ok (c1 <| conv_active_reply_plan_id := Some (rp_id p) |>
    <| conv_updated_at := u |>) p) as Hdef.
  { split_and!; try done; [cbn; congruence|by left|cbn; congruence|congruence]. }
  split; [by split_and!|]. split_and!; try done; try congruence.
  destruct (conv_handoff_state c); [done| |]; split_and!; try done; cbn; congruence.
Qed.

Section PlanReply.
Context (pause : Z) (event : SyntheticInboundEvent) (inbox : InboxMessage).
Context (X : exn -> Database -> Prop) (env : Env) (s : Database) (c : Conversation).
Hypothesis HX : forall e s', X e s'.
Hypothesis Hk : keys_ok (db_conversations s).
Hypothesis Hc : db_conversations s !! conv_id c = Some c.
Hypothesis Hck : conversation_checks c = true.
Let now := env_now env.
Let moment := env_statement_timestamp env (db_statement_clock s).

(** The tables after [plan_reply]. *)
Definition planned_state (c' : Conversation) (plan : option ReplyPlan) (s' : Database) : Prop :=
  db_conversations s' = <[conv_id c := c']> (db_conversations s) /\
  db_reply_plans s' = add_plan plan (db_reply_plans s) /\
  (forall p, plan = Some p -> db_reply_plans s !! rp_id p = None) /\
  db_outbox_messages s' = db_outbox_messages s /\
  db_inbox_messages s' = db_inbox_messages s /\
  db_manager_messages s' = db_manager_messages s.

Context (Q : Conversation * option ReplyPlan -> Database -> Prop).
Hypothesis HQ : forall c' plan s',
  reply_planned now moment pause c c' plan -> planned_state c' plan s' -> Q (c', plan) s'.

Lemma wp_plan_reply : wp (plan_reply pause event c inbox) Q X env s.
Proof.
  destruct (allows_automatic_reply_state c Hck) as (Hallow & Hho & Hdl).
  unfold plan_reply. apply wp_if; [|intros Hno; apply wp_if].
  - rewrite Hallow, bool_decide_eq_true. intros Hopen.
    assert (conv_handoff_state c = BOT_ACTIVE) as Hst.
    { destruct (conv_handoff_state c) eqn:E; [done| |]; exfalso;
        assert (conv_status c = HANDOFF) by (by apply Hho); congruence. }
    apply wp_bind, wp_uuid4, wp_bind, wp_create_client_reply_plan; [done|].
    intros p n Hp Hfresh. apply wp_bind, wp_assign_active_reply_plan_id; dbsimpl; [done..| |done].
    intros u. apply wp_ret. destruct Hp as (Hpc & Hv & He & Hq & Hty & Hps & Hnb & Hpl & Hat & Hmx).
    apply HQ; [|by split_and!; try done; intros ? [= <-]].
    split; [by split_and!|]. rewrite Hst. by split_and!.
  - rewrite andb_true_iff, bool_decide_eq_true, negb_true_iff, bool_decide_eq_false.
    intros [Hh Hst]. apply wp_bind, wp_db_statement_now. fold moment.
    apply wp_bind. unfold conversation_repo.enter_or_continue_human_pause.
    apply wp_bind, wp_assert; [intros _|auto]. specialize (Hdl Hh).
    apply wp_if; [|intros Hnp; apply wp_if].
    + rewrite bool_decide_eq_true. intros Hpause. apply wp_ret.
      destruct (conv_handoff_deadline_at c) as [d|] eqn:Hd; [|done].
      apply wp_bind, wp_require_some; [|done]. intros d' [= <-].
      apply wp_bind, wp_uuid4, wp_bind, wp_create_client_reply_plan; [done|]. dbsimpl.
      intros p n Hp Hfresh. apply wp_bind, wp_assign_active_reply_plan_id; dbsimpl; [done..| |done].
      intros u. apply wp_ret. apply HQ; [|by split_and!; try done; intros ? [= <-]].
      eapply (deferred_planned now moment pause c c);
        [done|done|exact Hp|apply deferred_marker|done|done|]. by rewrite Hpause.
    + rewrite negb_true_iff, bool_decide_eq_false. intros Hna.
      rewrite bool_decide_eq_false in Hnp. by destruct (conv_handoff_state c).
    + rewrite negb_false_iff, bool_decide_eq_true. intros Hact.
      apply wp_bind. wp_update Hc. apply wp_bind. eapply wp_refresh; [apply lookup_insert_eq|].
      apply wp_ret. set (c1 := conversation_repo.enter_or_continue_human_pause_values _ _ c).
      apply wp_bind, wp_require_some; [|done]. intros d [= <-].
      apply wp_bind, wp_uuid4, wp_bind, wp_create_client_reply_plan; [done|]. dbsimpl.
      intros p n Hp Hfresh. apply wp_bind, wp_assign_active_reply_plan_id; dbsimpl;
        [by apply keys_ok_insert|apply lookup_insert_eq| |done].
      intros u. apply wp_ret. apply HQ.
      * eapply (deferred_planned now moment pause c c1);
          [done|done|exact Hp|apply deferred_marker|done|done|]. by rewrite Hact.
      * split_and!; try done; [|by intros ? [= <-]]. cbn. by rewrite insert_insert_eq.
  - intros Hnh. apply wp_bind, wp_assign_active_reply_plan_id; [done..| |done]. intros u.
    apply wp_ret. apply HQ; [|by split_and!].
    assert (conv_status c = CLOSED /\ conv_handoff_state c = BOT_ACTIVE) as [Hcl Hst].
    { rewrite Hallow, bool_decide_eq_false in Hno.
      rewrite andb_false_iff, bool_decide_eq_false, negb_false_iff, bool_decide_eq_true in Hnh.
      destruct (conv_status c) eqn:E1; [done|naive_solver|]. split; [done|].
      destruct (conv_handoff_state c); [done| |]; naive_solver. }
    split; [by split_and!|]. by rewrite Hst.
Qed.
End PlanReply.

(** ** The dialog after a new message *)

Lemma event_seqs_ok_inbox cs ims mms k m c c' :
  keys_ok cs -> cs !! conv_id c = Some c -> advances c c' ->
  conv_current_event_seq c' = conv_current_event_seq c + 1 ->
  inbox_conversation_id m = conv_id c ->
  inbox_conversation_event_seq m = conv_current_event_seq c' ->
  event_seqs_ok cs ims mms -> event_seqs_ok (<[conv_id c := c']> cs) (<[k := m]> ims) mms.
Proof.
  intros Hk Hc Hadv Hnext Hmc Hseq Hok.
  destruct (event_seqs_ok_advance cs ims mms (conv_id c) c c') as (H1 & H2 & H3); [done..|].
  destruct Hok as (_ & H0 & _). split_and!; [|done|].
  - intros k' m' d. rewrite lookup_insert_Some. intros [[_ <-]|[_ Hm]]; [|eauto].
    rewrite Hmc, lookup_insert_eq. intros [= <-]. lia.
  - intros k1 m1 k' m'. rewrite lookup_insert_Some. intros [[_ <-]|[_ Hm]] Hm'; [|eauto].
    rewrite Hmc, Hseq. intros Hcid Heq. specialize (H0 k' m' c (conv_current_event_seq c') Hm').
    rewrite <- Hcid in H0. specialize (H0 Hc Heq). lia.
Qed.

(** Drafts are not client-visible rows. *)
Definition drafted (os os' : gmap uuid OutboxMessage) : Prop :=
  os' = os \/ exists o, ob_destination_type o = INTERNAL_DRAFT /\
    ob_idempotency_key o = None /\ os !! ob_id o = None /\ os' = <[ob_id o := o]> os.

Lemma work_ok_drafted except cs ps os os' :
  drafted os os' -> work_ok except cs ps os -> work_ok except cs ps os'.
Proof.
  intros [->|(o & Hd & Hkey & Hf & ->)]; [done|]. intros (H1 & H2 & H3). split_and!; [done| |done].
  intros k o' c. rewrite lookup_insert_Some. intros [[_ <-]|[_ Ho]]; [|by eapply H2].
  intros _. unfold outbox_inv. by rewrite Hd.
Qed.

Lemma drafted_lookup os os' k o : drafted os os' -> os !! k = Some o -> os' !! k = Some o.
Proof.
  intros [->|(d & _ & _ & Hf & ->)]; [done|]. intros Ho.
  rewrite lookup_insert_ne; [done|]. intros Heq. by rewrite Heq, Ho in Hf.
Qed.

(** Every plan of the dialog that is still open is the new one, and every
    client-visible message of it is past admission or cancelled. *)
Definition only_open_plan (s : Database) (cid : uuid) (plan : option ReplyPlan) : Prop :=
  (forall k p, db_reply_plans s !! k = Some p -> rp_conversation_id p = cid ->
     reply_plan_open (rp_status p) = true -> plan = Some p) /\
  (forall k o, db_outbox_messages s !! k = Some o -> ob_conversation_id o = cid ->
     client_destination (ob_destination_type o) = true ->
     outbound_repo.unadmitted (ob_delivery_status o) = false).

Section Accepted.
Context (now at_ moment : instant) (pause : Z) (s s' : Database).
Context (c c2 c' : Conversation) (m : InboxMessage) (plan : option ReplyPlan).
Let cid := conv_id c.
Let ps := sql_update (reply_plan_repo.open_plan_of cid)
            (reply_plan_repo.close_plan_values RP_SUPERSEDED "NEW_CLIENT_MESSAGE" at_)
            (db_reply_plans s).
Let os := sql_update (outbound_repo.unadmitted_of cid) (outbound_repo.cancel_values at_)
            (db_outbox_messages s).
Hypothesis Hok : dialog_ok s.
Hypothesis Hc : db_conversations s !! cid = Some c.
Hypothesis Hadv : advances c c2.
Hypothesis Hchannel : conv_channel c = CHANNEL_SYNTHETIC.
Hypothesis Hnext : conv_current_event_seq c2 = conv_current_event_seq c + 1.
Hypothesis Hplan : reply_planned now moment pause c2 c' plan.
Hypothesis Hmc : inbox_conversation_id m = cid.
Hypothesis Hmseq : inbox_conversation_event_seq m = conv_current_event_seq c2.
Hypothesis Hcs : db_conversations s' = <[cid := c']> (db_conversations s).
Hypothesis Hps : db_reply_plans s' = add_plan plan ps.
Hypothesis Hfresh : forall p, plan = Some p -> db_reply_plans s !! rp_id p = None.
Hypothesis Hos : drafted os (db_outbox_messages s').
Hypothesis His : db_inbox_messages s' = <[inbox_id m := m]> (db_inbox_messages s).
Hypothesis Hms : db_manager_messages s' = db_manager_messages s.
Hypothesis Hcon' : constraints_ok s'.

Lemma accepted_advances : advances c c'.
Proof.
  destruct Hadv as (?&?&?&?&?), Hplan as [(Hid&Hv&He&Hq&_&_&Hch) _]. unfold advances.
  rewrite Hid, Hv, He, Hq, Hch. done.
Qed.

Lemma superseded_fresh p : plan = Some p -> ps !! rp_id p = None.
Proof. intros Hp. unfold ps. rewrite lookup_sql_update, Hfresh; done. Qed.

Lemma accepted_work :
  work_ok None (<[cid := c']> (db_conversations s)) (add_plan plan ps) os.
Proof.
  pose proof Hok as (Hcon & Hwork & _). pose proof accepted_advances as Ha.
  pose proof superseded_fresh as Hsf.
  pose proof Hplan as [(Hid&Hv&He&Hq&_) Hpl].
  assert (work_ok (Some cid) (<[cid := c']> (db_conversations s)) ps os) as Hw.
  { apply work_ok_revoke with (c := c); auto using work_ok_weaken, conversations_keyed.
    by right. }
  assert (conv_id c' = cid) as Hid' by apply Ha.
  apply work_ok_pause with (cid := cid) (c := c'); [apply lookup_insert_eq| |].
  - destruct plan as [p|]; [|done].
    destruct Hpl as (_ & Hpc & _ & Hst & Hfe & _ & Hcase). cbn.
    apply work_ok_insert_plan with (c := c'); auto.
    + apply lookup_insert_eq.
    + destruct Hadv as (? & _). unfold cid. congruence.
    + intros _. destruct (conv_handoff_state c2); destruct Hcase as [-> _]; done.
  - intros Hpause. destruct plan as [p|]; cbn.
    + destruct Hpl as (Hact & _ & _ & _ & _ & _ & Hcase).
      split; [by rewrite <- Hchannel; apply Ha|]. exists (rp_id p), p.
      split_and!; [done|apply lookup_insert_eq|].
      destruct (conv_handoff_state c2); destruct Hcase as [E Hcase]; [congruence|tauto..].
    + destruct Hpl as (_ & _ & E & _). congruence.
Qed.

Lemma accepted_ok : dialog_ok s'.
Proof.
  pose proof Hok as (Hcon & _ & Hseq). pose proof Hplan as [(_&_&_&Hq&_) _].
  split; [done|]. rewrite Hcs, Hps, His, Hms. split.
  - eapply work_ok_drafted; [exact Hos|apply accepted_work].
  - apply event_seqs_ok_inbox; auto using conversations_keyed, accepted_advances; congruence.
Qed.

Lemma accepted_outside : untouched_outside cid s s'.
Proof.
  pose proof superseded_fresh as Hsf. split_and!.
  - intros k Hne. by rewrite Hcs, lookup_insert_ne.
  - intros k p Hp Hne. rewrite Hps.
    assert (ps !! k = Some p) as Hp' by (by apply lookup_outside_plans).
    destruct plan as [q|]; cbn; [|done]. rewrite lookup_insert_ne; [done|].
    intros Heq. by rewrite <- Heq, Hsf in Hp'.
  - intros k o Ho Hcase. eapply drafted_lookup; [exact Hos|]. by apply lookup_outside_outbox.
Qed.

Lemma accepted_only : only_open_plan s' cid plan.
Proof.
  assert (revoked (s <| db_reply_plans := ps |> <| db_outbox_messages := os |>) cid) as [Hr1 Hr2].
  { eapply (revoked_after s); [by right|reflexivity..]. }
  split.
  - intros k p. rewrite Hps. intros Hp Hpc Ho.
    destruct plan as [q|]; cbn in Hp; [|by rewrite (Hr1 k p Hp Hpc) in Ho].
    rewrite lookup_insert_Some in Hp. destruct Hp as [[_ <-]|[_ Hp]]; [done|].
    by rewrite (Hr1 k p Hp Hpc) in Ho.
  - intros k o Ho Hoc Hd. destruct Hos as [E|(d & Hdd & _ & _ & E)]; rewrite E in Ho.
    + by apply (Hr2 k o).
    + rewrite lookup_insert_Some in Ho. destruct Ho as [[_ <-]|[_ Ho]]; [|by apply (Hr2 k o)].
      by rewrite Hdd in Hd.
Qed.
End Accepted.

(** ** The service *)

Lemma wp_get_or_create_opened ch ext (Q : Conversation * bool -> Database -> Prop) X env s :
  dialog_ok s ->
  (forall c b s1, opened s c s1 -> dialog_ok s1 -> conv_channel c = ch ->
     conv_external_conversation_id c = ext -> Q (c, b) s1) ->
  (forall e s', X e s') ->
  wp (conversation_repo.get_or_create ch ext) Q X env s.
Proof.
  intros Hok HQ HX. pose proof Hok as [Hcon _].
  eapply wp_mono; [eapply (wp_respects keeps); [solve_respects|]|
    intros a s' [H [_ Hk]]; exact (H (Hk Hcon))|by auto].
  apply (wp_get_or_create (fun _ _ => True) env s ch ext
    (fun a s' => constraints_ok s' -> Q a s')); [| |done].
  - intros k c Hc Hch Hext _. pose proof (conversation_key s k c Hcon Hc) as <-.
    apply HQ; [by left|done..].
  - intros c n Hch Hext Hnew Hno Hcon1.
    assert (opened s c (s <| db_conversations := <[conv_id c := c]> (db_conversations s) |>
                          <| db_uuid_supply := n |>)) as Hop.
    { right. exists n. split_and!; [done| |done]. exists (env_now env). congruence. }
    apply HQ; [done|by eapply dialog_ok_opened|done..].
Qed.

Lemma opened_same_inbox s c s1 :
  opened s c s1 -> db_inbox_messages s1 = db_inbox_messages s.
Proof. by intros [[-> _]|(? & _ & _ & ->)]. Qed.

Definition known_inbox (event : SyntheticInboundEvent) (m : InboxMessage) : Prop :=
  inbox_channel m = CHANNEL_SYNTHETIC /\
  inbox_external_message_id m = sie_external_message_id event.

(** What [accept] leaves behind. *)
Definition accept_post (env : Env) (pause : Z) (event : SyntheticInboundEvent)
    (s : Database) (r : InboundAcceptResult) (s' : Database) : Prop :=
  let c' := iar_conversation r in
  let m := iar_inbox r in
  exists c,
    prior s (conv_id c') c /\ db_conversations s' !! conv_id c' = Some c' /\
    db_inbox_messages s' !! inbox_id m = Some m /\ known_inbox event m /\
    inbox_conversation_id m = conv_id c' /\
    if iar_duplicate r then
      c' = c /\ iar_reply_plan r = None /\
      db_reply_plans s' = db_reply_plans s /\ db_inbox_messages s' = db_inbox_messages s
    else
      (forall k m0, db_inbox_messages s !! k = Some m0 -> ~ known_inbox event m0) /\
      conv_context_version c' = conv_context_version c + 1 /\
      conv_current_event_seq c' = conv_current_event_seq c + 1 /\
      conv_manager_epoch c' = conv_manager_epoch c /\
      inbox_conversation_event_seq m = conv_current_event_seq c' /\
      only_open_plan s' (conv_id c') (iar_reply_plan r) /\
      exists c2 tick,
        conv_handoff_state c2 = conv_handoff_state c /\
        conv_handoff_deadline_at c2 = conv_handoff_deadline_at c /\
        conv_status c2 = conv_status c /\
        reply_planned (env_now env) (env_statement_timestamp env tick) pause c2 c'
          (iar_reply_plan r).

Definition accept_goal (env : Env) (pause : Z) (event : SyntheticInboundEvent)
    (s : Database) (r : InboundAcceptResult) (s' : Database) : Prop :=
  dialog_ok s' /\ untouched_outside (conv_id (iar_conversation r)) s s' /\
  accept_post env pause event s r s'.

Lemma same_dialog_admit_step pii event c :
  respects same_dialog (admit_confirm_selected_slot pii event c).
Proof. unfold admit_confirm_selected_slot. solve_respects. Qed.

(** The dialog row just before the reply is planned. *)
Definition bumped (env : Env) (received_at : instant) (c : Conversation) : Conversation :=
  conversation_repo.bump_context_for_new_message_values received_at (env_now env)
    (conversation_repo.allocate_next_event_seq_values (env_now env) c).

Section Advance.
Context (pause : Z) (pii : option EphemeralPiiStore).
Context (event : SyntheticInboundEvent) (m : InboxMessage) (received_at : instant).
Context (env : Env) (s : Database) (c : Conversation).
Let c1 := conversation_repo.allocate_next_event_seq_values (env_now env) c.
Let c2 := bumped env received_at c.
Hypothesis Hk : keys_ok (db_conversations s).
Hypothesis Hc : db_conversations s !! conv_id c = Some c1.
Hypothesis Hcon : constraints_ok s.

(** Tables after [advance_dialog], up to what is not the dialog's. *)
Definition advanced_state (c' : Conversation) (plan : option ReplyPlan) (s' : Database) : Prop :=
  db_conversations s' = <[conv_id c := c']> (db_conversations s) /\
  db_reply_plans s' =
    add_plan plan
      (sql_update (reply_plan_repo.open_plan_of (conv_id c))
         (reply_plan_repo.close_plan_values RP_SUPERSEDED "NEW_CLIENT_MESSAGE" (env_now env))
         (db_reply_plans s)) /\
  (forall p, plan = Some p -> db_reply_plans s !! rp_id p = None) /\
  db_outbox_messages s' =
    sql_update (outbound_repo.unadmitted_of (conv_id c))
      (outbound_repo.cancel_values (env_now env)) (db_outbox_messages s) /\
  db_inbox_messages s' = db_inbox_messages s /\
  db_manager_messages s' = db_manager_messages s.

Lemma wp_advance_dialog (Q : Conversation * option ReplyPlan -> Database -> Prop)
    (X : exn -> Database -> Prop) :
  (forall c' plan s' tick,
     reply_planned (env_now env) (env_statement_timestamp env tick) pause c2 c' plan ->
     advanced_state c' plan s' -> Q (c', plan) s') ->
  (forall e s', X e s') ->
  wp (advance_dialog pause pii event c1 m received_at) Q X env s.
Proof.
  intros HQ HX. unfold advance_dialog, conversation_repo.bump_context_for_new_message.
  apply wp_bind, wp_bind, wp_db_now, wp_bind. wp_update Hc.
  apply wp_bind, wp_assert; [intros _|auto]. eapply wp_refresh; [apply lookup_insert_eq|].
  match goal with H : row_ok _ _ _ |- _ => destruct H as (_ & Hck & _) end. fold c2 in Hck |- *.
  change (conv_id c2) with (conv_id c).
  apply wp_bind, wp_bind, wp_db_now, wp_update_where_any; [|done].
  apply wp_bind, wp_bind, wp_db_now, wp_update_where_any; [|done]. dbsimpl.
  apply wp_bind. eapply wp_same_dialog; [|intros a s3 Hs3|done].
  { apply respects_if; [|apply same_dialog_admit_step]. solve_respects. }
  destruct Hs3 as (E1 & E2 & E3 & E4 & E5). dbsimpl.
  apply wp_plan_reply; [done| | |exact Hck|].
  - rewrite E1. by apply keys_ok_insert.
  - rewrite E1. apply lookup_insert_eq.
  - intros c' plan s' Hpl (F1 & F2 & F3 & F4 & F5 & F6).
    eapply HQ; [exact Hpl|]. change (conv_id c2) with (conv_id c) in *.
    split_and!.
    + rewrite F1, E1. apply insert_insert_eq.
    + by rewrite F2, E2.
    + intros p Hp. specialize (F3 p Hp). rewrite E2, lookup_sql_update in F3.
      by destruct (db_reply_plans s !! rp_id p).
    + by rewrite F4, E3.
    + by rewrite F5, E4.
    + by rewrite F6, E5.
Qed.
End Advance.

(** Draft and CRM queues: the dialog's other tables stand still. *)
Lemma wp_finish_accept event b created c m plan (Q : InboundAcceptResult -> Database -> Prop)
    (X : exn -> Database -> Prop) env s :
  keys_ok (db_outbox_messages s) ->
  (forall r s',
     iar_conversation r = c -> iar_inbox r = m -> iar_duplicate r = negb created ->
     iar_reply_plan r = plan ->
     db_conversations s' = db_conversations s -> db_reply_plans s' = db_reply_plans s ->
     drafted (db_outbox_messages s) (db_outbox_messages s') ->
     db_inbox_messages s' = db_inbox_messages s ->
     db_manager_messages s' = db_manager_messages s -> Q r s') ->
  (forall e s', X e s') ->
  wp (finish_accept event b created c m plan) Q X env s.
Proof.
  intros Hk HQ HX. unfold finish_accept. cbv zeta. apply wp_bind.
  assert (forall o co s2,
    db_conversations s2 = db_conversations s -> db_reply_plans s2 = db_reply_plans s ->
    drafted (db_outbox_messages s) (db_outbox_messages s2) ->
    db_inbox_messages s2 = db_inbox_messages s ->
    db_manager_messages s2 = db_manager_messages s ->
    wp (_ ← when created (
          correlation_id ← uuid4;
          _ ← amocrm_mirror.enqueue_client_message_received (conv_id c) (inbox_id m)
            (conv_context_version c) correlation_id;
          correlation_id ← uuid4;
          _ ← amocrm_chat_projection.enqueue_client_inbound_projection (conv_id c)
            (inbox_id m) correlation_id;
          mret tt);
        mret (MkInboundAcceptResult c m o b created co (negb created)
                (conversation_allows_automatic_reply c) (conv_context_version c) plan
                (is_not_null plan))) Q X env s2) as Htail.
  { intros o co s2 H1 H2 H3 H4 H5. apply wp_bind. eapply wp_same_dialog; [|intros a s' Hs'|done].
    - apply respects_when; [apply _|]. solve_respects.
    - destruct Hs' as (E1 & E2 & E3 & E4 & E5). apply wp_ret.
      apply HQ; try done; congruence. }
  apply wp_create_internal_draft_outbox; [done| | | |done].
  - intros k o Ho. apply Htail; try done. by left.
  - intros o [o' co] n Hd Hkey Hf. apply Htail; try done. right. by exists o.
  - intros o [o' co] n Ho. apply Htail; try done. by left.
Qed.

Lemma wp_take_inbox event received_at c (Q : Conversation * InboxMessage * bool -> Database -> Prop)
    (X : exn -> Database -> Prop) env s :
  keys_ok (db_conversations s) -> db_conversations s !! conv_id c = Some c ->
  (forall k m, db_inbox_messages s !! k = Some m -> known_inbox event m -> Q (c, m, false) s) ->
  (forall m n,
     let c1 := conversation_repo.allocate_next_event_seq_values (env_now env) c in
     (forall k m0, db_inbox_messages s !! k = Some m0 -> ~ known_inbox event m0) ->
     known_inbox event m -> inbox_conversation_id m = conv_id c ->
     inbox_conversation_event_seq m = conv_current_event_seq c1 ->
     Q (c1, m, true)
       (s <| db_conversations := <[conv_id c := c1]> (db_conversations s) |>
          <| db_inbox_messages := <[inbox_id m := m]> (db_inbox_messages s) |>
          <| db_uuid_supply := n |>)) ->
  (forall e s', X e s') ->
  wp (take_inbox event c received_at) Q X env s.
Proof.
  intros Hk Hc Hold Hnew HX. unfold take_inbox.
  apply wp_bind, wp_get_inbox_by_external.
  - intros k m Hm Hch Hext. apply wp_ret. by apply (Hold k m).
  - intros Hno. apply wp_bind, wp_allocate_next_event_seq; [done..| |done].
    apply wp_bind, wp_insert_inbox_new; [done|exact Hno|].
    intros m n Hmc Hch Hext Hseq _ _. apply wp_ret. by apply Hnew.
Qed.

Lemma wp_accept pause pii event env s :
  dialog_ok s ->
  wp (accept pause pii event)
    (fun r s' => constraints_ok s' -> accept_goal env pause event s r s')
    (fun _ _ => True) env s.
Proof.
  intros Hok. unfold accept. apply wp_bind, wp_assert; [intros _|done].
  apply wp_bind, wp_assert; [intros _|done].
  apply wp_bind. unfold received_at_utc. apply wp_bind, wp_get_env, wp_ret.
  set (received_at := default _ _).
  apply wp_bind, wp_get_or_create_opened; [done| |done]. intros c b s1 Hop Hok1 Hchan Hext.
  pose proof (opened_lookup _ _ _ Hop) as Hc. pose proof Hok1 as [Hcon1 _].
  apply wp_bind, wp_lock_for_update; [|done]. intros c0 Hc0.
  assert (c0 = c) as -> by congruence.
  apply wp_bind_keeps; [solve_respects|done|].
  apply wp_take_inbox; [by apply conversations_keyed|done| | |done].
  - intros k m Hm Hknown _. apply wp_bind, wp_assert; [|done].
    rewrite bool_decide_eq_true. intros Hmc. apply wp_bind, wp_ret.
    apply wp_finish_accept; [by apply outbox_keyed| |done].
    intros r s' Hrc Hrm Hdup Hplan E1 E2 E3 E4 E5 Hcon'.
    destruct (inbox_checked s1 k m Hcon1 Hm) as [Hmk _].
    unfold accept_goal, accept_post. rewrite Hrc, Hrm, Hdup, Hplan. split_and!.
    + destruct Hok1 as (_ & ? & ?). split; [done|]. rewrite E1, E2, E4, E5.
      split; [|done]. by eapply work_ok_drafted.
    + eapply untouched_opened; [done|]. split_and!.
      * intros. by rewrite E1.
      * intros. by rewrite E2.
      * intros. by eapply drafted_lookup.
    + exists c. rewrite E1, E2, E4. split_and!; try done; [by eapply opened_prior|by subst k|].
      by destruct Hop as [[-> _]|(n & _ & _ & ->)].
  - intros m n c1 Hno Hknown Hmc Hseq Hcon2. apply wp_bind, wp_assert; [intros _|done].
    apply wp_bind_keeps; [solve_respects|done|].
    apply (wp_advance_dialog pause pii event m received_at env _ c); [| | |done].
    + apply (conversations_keyed _ Hcon2).
    + apply lookup_insert_eq.
    + intros c' plan s3 tick Hpl (F1 & F2 & F3 & F4 & F5 & F6) Hcon3. dbsimpl.
      rewrite insert_insert_eq in F1.
      apply wp_finish_accept; [by apply outbox_keyed| |done].
      intros r s' Hrc Hrm Hdup Hplan E1 E2 E3 E4 E5 Hcon'.
      assert (dialog_ok s' /\ untouched_outside (conv_id c) s1 s' /\
        only_open_plan s' (conv_id c) plan) as (Hok' & Hout & Honly).
      { rewrite F1 in E1. rewrite F2 in E2. rewrite F4 in E3. rewrite F5 in E4. rewrite F6 in E5.
        assert (advances c (bumped env received_at c)) as Hadv
          by (unfold advances, bumped; cbn; split_and!; lia || done).
        split_and!.
        - by eapply accepted_ok with (s := s1) (c2 := bumped env received_at c).
        - by eapply accepted_outside.
        - by eapply accepted_only with (s := s1). }
      pose proof Hpl as [(Hid & Hv & He & Hq & _) _].
      change (conv_id (bumped env received_at c)) with (conv_id c) in Hid.
      unfold accept_goal, accept_post. rewrite Hrc, Hrm, Hdup, Hplan, Hid.
      split_and!; [done|by eapply untouched_opened|].
      exists c. rewrite E1, E4, F1, F5, !lookup_insert_eq. cbn [negb]. split_and!; try done.
      * by eapply opened_prior.
      * rewrite <- (opened_same_inbox _ _ _ Hop). apply Hno.
      * by rewrite Hseq, Hq.
      * by exists (bumped env received_at c), tick.
Qed.

Lemma accept_spec pause pii event env s :
  dialog_ok s ->
  wp (session_scope (accept pause pii event)) (accept_goal env pause event s)
    (fun _ s' => s' = s) env s.
Proof.
  intros Hok. apply wp_session_scope_keeps; [solve_respects|apply Hok|by apply wp_accept].
Qed.
