(* ===== verification/History.v ===== *)
(** * History of rows

    What every transaction of the services respects, whatever it does and
    however it ends: rows are never deleted from the dialog tables, what a row
    is about never changes, statuses only move along the transition tables,
    lease versions, attempt counters and the fences of a dialog only grow, an
    admission is never taken back and the marker of a booking resolution is
    never erased.  The same holds of the events of the ingress queue. *)

From S2P Require Import Prelude BookingText Models Database Statements Conversations ReplyPlans.
From S2P Require Import Outbound SelfBooking Messages Mirror ReplyText BookingFields Projections.
From S2P Require Import Inbound ManagerMessages HandoffExpiry ReplyDispatch VkGate Arbiter Dialog.
From S2P Require Import Moves Frames DispatchProofs ClaimProofs ArbiterProofs.

(** ** Rows *)

(** [current] can become [target] by transitions the table allows. *)
Definition plan_status_le : relation ReplyPlanStatus :=
  rtc (fun a b => reply_plan_transition_allowed a b = true).
Definition outbound_status_le : relation DeliveryStatus :=
  rtc (fun a b => outbound_transition_allowed a b = true).

Definition conversation_history (c c' : Conversation) : Prop :=
  advances c c' /\
  conv_external_conversation_id c' = conv_external_conversation_id c.

Definition plan_history (p p' : ReplyPlan) : Prop :=
  same_plan p p' /\ plan_status_le (rp_status p) (rp_status p') /\
  rp_lease_version p <= rp_lease_version p' /\ rp_attempt_count p <= rp_attempt_count p' /\
  (jhas (rp_payload_json p) "booking_resolution_started" = true ->
   jhas (rp_payload_json p') "booking_resolution_started" = true).

Definition outbox_history (o o' : OutboxMessage) : Prop :=
  same_outbound o o' /\ outbound_status_le (ob_delivery_status o) (ob_delivery_status o') /\
  ob_lease_version o <= ob_lease_version o' /\ ob_attempt_count o <= ob_attempt_count o' /\
  (ob_admitted_at o' = ob_admitted_at o \/
   ob_admitted_at o = None /\ outbound_repo.unadmitted (ob_delivery_status o) = true).

Definition ingress_status_le : relation IngressStatus :=
  rtc (fun a b => ingress_transition_allowed a b = true).

(** What never changes in an ingress event. *)
Definition same_event (e e' : IngressEvent) : Prop :=
  ing_id e' = ing_id e /\ ing_channel e' = ing_channel e /\
  ing_external_event_id e' = ing_external_event_id e /\
  ing_external_conversation_id e' = ing_external_conversation_id e /\
  ing_event_type e' = ing_event_type e /\ ing_max_attempts e' = ing_max_attempts e /\
  ing_correlation_id e' = ing_correlation_id e /\ ing_envelope_json e' = ing_envelope_json e /\
  ing_created_at e' = ing_created_at e.

(** Attempts are only taken while there are some left. *)
Definition ingress_history (e e' : IngressEvent) : Prop :=
  same_event e e' /\ ingress_status_le (ing_status e) (ing_status e') /\
  ing_lease_version e <= ing_lease_version e' /\
  ing_attempt_count e <= ing_attempt_count e' /\
  ing_attempt_count e' <= Z.max (ing_attempt_count e) (ing_max_attempts e).

(** Nothing comes back to the near side of admission. *)
Lemma unadmitted_le a b :
  outbound_status_le a b -> outbound_repo.unadmitted b = true -> outbound_repo.unadmitted a = true.
Proof.
  intros H. induction H as [|x y z Hxy _ IH]; [done|]. intros Hz. specialize (IH Hz).
  by destruct x, y.
Qed.

(** Terminal statuses absorb. *)
Lemma outbound_terminal_le a b :
  outbound_status_le a b -> OUTBOUND_TRANSITIONS a = [] -> b = a.
Proof.
  intros H. destruct H as [|x y z Hxy _]; [done|]. unfold outbound_transition_allowed in Hxy.
  rewrite bool_decide_eq_true in Hxy. intros E. rewrite E in Hxy. by apply not_elem_of_nil in Hxy.
Qed.

Lemma plan_terminal_le a b :
  plan_status_le a b -> reply_plan_open a = false -> b = a.
Proof.
  intros H. destruct H as [|x y z Hxy _]; [done|]. by destruct x, y.
Qed.

Lemma ingress_terminal_le a b :
  ingress_status_le a b -> INGRESS_TRANSITIONS a = [] -> b = a.
Proof.
  intros H. destruct H as [|x y z Hxy _]; [done|]. unfold ingress_transition_allowed in Hxy.
  rewrite bool_decide_eq_true in Hxy. intros E. rewrite E in Hxy. by apply not_elem_of_nil in Hxy.
Qed.

Lemma same_event_trans e1 e2 e3 : same_event e1 e2 -> same_event e2 e3 -> same_event e1 e3.
Proof. intros (?&?&?&?&?&?&?&?&?) (?&?&?&?&?&?&?&?&?). split_and!; congruence. Qed.

#[export] Instance ingress_history_preorder : PreOrder ingress_history.
Proof.
  split.
  - intros e. split; [by split_and!|]. split_and!; [apply rtc_refl|lia..].
  - intros a b c (H1 & H2 & ? & ? & ?) (G1 & G2 & ? & ? & ?).
    split; [by eapply same_event_trans|]. split_and!; [by etrans|lia|lia|].
    destruct H1 as (_&_&_&_&_&E&_). lia.
Qed.

#[export] Instance conversation_history_preorder : PreOrder conversation_history.
Proof.
  split; [by intros c|].
  intros a b c ((?&?&?&?&?)&?) ((?&?&?&?&?)&?).
  split; [split_and!; [congruence|congruence|lia..]|congruence].
Qed.

#[export] Instance plan_history_preorder : PreOrder plan_history.
Proof.
  split.
  - intros p. by split_and!.
  - intros a b c (H1 & H2 & ? & ? & H5) (G1 & G2 & ? & ? & G5).
    split_and!; [by eapply same_plan_trans|by etrans|lia|lia|auto].
Qed.

#[export] Instance outbox_history_preorder : PreOrder outbox_history.
Proof.
  split.
  - intros p. split; [by split_and!|]. split_and!; [apply rtc_refl|done|done|by left].
  - intros a b c (H1 & H2 & ? & ? & H5) (G1 & G2 & ? & ? & G5).
    split_and!; [|by etrans|lia|lia|].
    + destruct H1 as (?&?&?&?&?&?&?&?&?&?), G1 as (?&?&?&?&?&?&?&?&?&?). split_and!; congruence.
    + destruct H5 as [E|[E Hu]]; [|by right]. rewrite <- E.
      destruct G5 as [E'|[E' Hu]]; [by left|right]. split; [done|].
      by eapply unadmitted_le.
Qed.

(** ** Tables *)

Definition evolves {R} (move : R -> R -> Prop) (t t' : gmap uuid R) : Prop :=
  forall k r, t !! k = Some r -> exists r', t' !! k = Some r' /\ move r r'.

#[export] Instance evolves_preorder {R} (move : R -> R -> Prop) `{!PreOrder move} :
  PreOrder (evolves move).
Proof.
  split.
  - intros t k r Hr. by exists r.
  - intros t1 t2 t3 H1 H2 k r Hr. destruct (H1 k r Hr) as (r' & Hr' & Hm).
    destruct (H2 k r' Hr') as (r'' & Hr'' & Hm'). exists r''. split; [done|by etrans].
Qed.

Lemma evolves_insert {R} (move : R -> R -> Prop) `{!PreOrder move} (t : gmap uuid R) k r :
  t !! k = None -> evolves move t (<[k := r]> t).
Proof.
  intros Hk i q Hq. exists q. split; [|done]. rewrite lookup_insert_ne; congruence.
Qed.

Lemma evolves_update {R} `{Table R} (move : R -> R -> Prop) `{!PreOrder move} c v t :
  (forall k r, t !! k = Some r -> c r = true -> move r (v r)) ->
  evolves move t (sql_update c v t).
Proof.
  intros Hv k r Hr. rewrite lookup_sql_update, Hr. simpl. eexists. split; [done|].
  destruct (c r) eqn:E; [eauto|done].
Qed.

Lemma evolves_moved {R} (move : R -> R -> Prop) `{!PreOrder move} (t : gmap uuid R) k r r' :
  t !! k = Some r -> move r r' -> evolves move t (<[k := r']> t).
Proof.
  intros Hk Hm i q Hq. destruct (decide (i = k)) as [->|Hne].
  - exists r'. rewrite lookup_insert_eq. split; [done|congruence].
  - exists q. by rewrite lookup_insert_ne.
Qed.

Definition history (s s' : Database) : Prop :=
  evolves conversation_history (db_conversations s) (db_conversations s') /\
  evolves plan_history (db_reply_plans s) (db_reply_plans s') /\
  evolves outbox_history (db_outbox_messages s) (db_outbox_messages s') /\
  evolves ingress_history (db_ingress_events s) (db_ingress_events s').

#[export] Instance history_preorder : PreOrder history.
Proof.
  split.
  - intros s. by split_and!.
  - intros s1 s2 s3 (?&?&?&?) (?&?&?&?). split_and!; by etrans.
Qed.

(** The constraints are needed to know that an id names one row. *)
Definition traces (s s' : Database) : Prop :=
  keeps s s' /\ (constraints_ok s -> history s s').

#[export] Instance traces_preorder : PreOrder traces.
Proof.
  split; [by intros s|]. intros s1 s2 s3 [H1 G1] [H2 G2]. split; [by etrans|].
  intros Hc. etrans; [by apply G1|]. apply G2. by apply H1.
Qed.

(** ** Statements *)

Lemma respects_traces {A} (m : Session A) :
  respects keeps m -> (forall env s, constraints_ok s -> history s (snd (m env s))) ->
  respects traces m.
Proof. intros H1 H2 env s. split; [apply H1|auto]. Qed.

(** The four watched tables, and the class of their row moves. *)
Class Watched (R : Type) `{T : Table R} := {
  row_history : R -> R -> Prop;
  row_history_preorder : PreOrder row_history;
  watched_set : forall t s, evolves row_history (table_get s) t -> history s (table_set t s)
}.
#[export] Existing Instance row_history_preorder.

#[export] Instance Conversation_watched : Watched Conversation.
Proof. exists conversation_history; [apply _|]. intros t s H. by split_and!. Defined.
#[export] Instance ReplyPlan_watched : Watched ReplyPlan.
Proof. exists plan_history; [apply _|]. intros t s H. by split_and!. Defined.
#[export] Instance OutboxMessage_watched : Watched OutboxMessage.
Proof. exists outbox_history; [apply _|]. intros t s H. by split_and!. Defined.
#[export] Instance IngressEvent_watched : Watched IngressEvent.
Proof. exists ingress_history; [apply _|]. intros t s H. by split_and!. Defined.

Section Watched.
Context {R : Type} `{TL : TableLaws R, W : !Watched R}.

Lemma traces_insert_with a r : respects traces (insert_with (R := R) a r).
Proof.
  apply respects_traces; [apply keeps_insert_with|]. intros env s _.
  pose proof (wp_insert_with (fun _ s' => history s s') env s a r (fun _ s' => history s s')) as H.
  unfold wp in H. destruct (insert_with a r env s) as [[b|e] s']; simpl;
    (apply H; try done; intros; apply watched_set, evolves_insert; [apply _|done]).
Qed.

Lemma traces_insert_row r : respects traces (insert_row (R := R) r).
Proof.
  apply respects_bind; [apply _|apply traces_insert_with|]. intros; apply respects_ret, _.
Qed.

Lemma traces_update_where c v :
  (forall r, row_checks r = true -> c r = true -> row_history r (v r)) ->
  respects traces (update_where (R := R) c v).
Proof.
  intros Hv. apply respects_traces; [apply keeps_update_where|]. intros env s Hcon.
  pose proof (wp_update_where (fun _ s' => history s s') env s c v (fun _ s' => history s s')) as H.
  unfold wp in H. destruct (update_where c v env s) as [[b|e] s']; simpl;
    (apply H; try done; intros; apply watched_set, evolves_update; [apply _|]);
    intros k r Hr; apply (constraints_table s Hcon) in Hr as (_ & _ & ? & _); auto.
Qed.

Lemma traces_update_by_id id g v :
  (forall r, row_checks r = true -> g r = true -> row_history r (v r)) ->
  respects traces (update_by_id (R := R) id g v).
Proof.
  intros Hv. apply respects_bind; [apply _| |intros; apply respects_ret, _].
  apply traces_update_where. intros r Hck [_ Hg]%id_and_true. auto.
Qed.
End Watched.

(** Other tables and plain reads. *)
Lemma traces_of {A} (m : Session A) :
  respects keeps m -> respects history m -> respects traces m.
Proof. intros H1 H2. apply respects_traces; [done|]. intros env s _. apply H2. Qed.

#[export] Instance history_ops : Unwatched history ConversationOpsEvent.
Proof. by intros t s; split_and!. Qed.
#[export] Instance history_inbox : Unwatched history InboxMessage.
Proof. by intros t s; split_and!. Qed.
#[export] Instance history_manager_messages : Unwatched history ManagerMessage.
Proof. by intros t s; split_and!. Qed.
#[export] Instance history_mirror : Unwatched history AmoCrmMirrorJob.
Proof. by intros t s; split_and!. Qed.
#[export] Instance history_projections : Unwatched history AmocrmMessageProjection.
Proof. by intros t s; split_and!. Qed.
#[export] Instance history_chat_bindings : Unwatched history AmocrmChatBinding.
Proof. by intros t s; split_and!. Qed.
#[export] Instance history_offers : Unwatched history SelfBookingActiveOffer.
Proof. by intros t s; split_and!. Qed.
#[export] Instance history_pendings : Unwatched history SelfBookingCreatePending.
Proof. by intros t s; split_and!. Qed.
#[export] Instance history_pii_values : Unwatched history EphemeralPiiValue.
Proof. by intros t s; split_and!. Qed.
#[export] Instance history_pii : Unwatched history SelfBookingPiiAdmission.
Proof. by intros t s; split_and!. Qed.

Lemma history_uuid4 : respects history uuid4.
Proof. intros env s. by split_and!. Qed.
Lemma history_statement_now : respects history db_statement_now.
Proof. intros env s. by split_and!. Qed.

(** ** The values the repositories write *)

Ltac one_transition := apply rtc_once; reflexivity.

(** A dialog row: the counters and the identity, whatever else is written. *)
Ltac conversation_step :=
  intros ? _ _; split; [unfold advances; split_and!; cbn; lia || done | by split].

Lemma history_close_plan status reason now cid p :
  closed_status status -> reply_plan_repo.open_plan_of cid p = true ->
  plan_history p (reply_plan_repo.close_plan_values status reason now p).
Proof.
  intros Hst [_ Ho]%open_plan_of_true. split_and!; try done.
  cbn. destruct Hst as [-> | ->], (rp_status p); try done; one_transition.
Qed.

Lemma history_make_ready moment p :
  rp_status p = RP_PENDING ->
  plan_history p (p <| rp_status := RP_READY |> <| rp_updated_at := moment |>).
Proof. intros Hst. split_and!; try done. cbn. rewrite Hst. one_transition. Qed.

(** Leaving PROCESSING: dispatched, failed or dead. *)
Lemma history_plan_leaves p p' :
  same_plan p p' -> rp_status p = RP_PROCESSING ->
  reply_plan_transition_allowed RP_PROCESSING (rp_status p') = true ->
  rp_lease_version p' = rp_lease_version p -> rp_attempt_count p' = rp_attempt_count p ->
  rp_payload_json p' = rp_payload_json p -> plan_history p p'.
Proof.
  intros Hs Hst Ht Hv Ha Hp. split; [done|]. split_and!; [|lia|lia|by rewrite Hp].
  rewrite Hst. by apply rtc_once.
Qed.

(** A payload written over the old one with the marker set. *)
Lemma history_payload p p' :
  same_plan p p' -> rp_status p' = rp_status p -> rp_lease_version p' = rp_lease_version p ->
  rp_attempt_count p' = rp_attempt_count p ->
  jhas (rp_payload_json p') "booking_resolution_started" = true -> plan_history p p'.
Proof.
  intros Hs E1 E2 E3 Hp. unfold plan_history. rewrite E1, E2, E3. split; [done|]. by split_and!.
Qed.

Lemma history_claim_plan cs moment worker token until p :
  reply_plan_repo.claimable cs moment p = true ->
  plan_history p (reply_plan_repo.claim_values moment worker token until p).
Proof.
  intros (_ & _ & _ & Hst)%claimable_facts. split; [by split_and!|]. split_and!; try (cbn; lia); [|done].
  cbn. destruct (rp_status p); try done; first [apply rtc_refl|one_transition].
Qed.

Lemma history_outbox_leaves o o' from :
  same_outbound o o' -> ob_delivery_status o = from ->
  (ob_delivery_status o' = from \/
   outbound_transition_allowed from (ob_delivery_status o') = true) ->
  ob_lease_version o' = ob_lease_version o -> ob_attempt_count o' = ob_attempt_count o ->
  (ob_admitted_at o' = ob_admitted_at o \/
   ob_admitted_at o = None /\ outbound_repo.unadmitted from = true) -> outbox_history o o'.
Proof.
  intros Hs <- Ht Hv Ha Hadm. split; [done|]. split_and!; [|lia|lia|done].
  destruct Ht as [-> | Ht]; [apply rtc_refl|by apply rtc_once].
Qed.

Lemma history_claim_outbound moment worker token until o :
  outbound_repo.claimable moment o = true ->
  outbox_history o (outbound_repo.claim_values moment worker token until o).
Proof.
  intros (_ & _ & _ & Hst)%outbound_claimable_facts.
  split; [by split_and!|]. split_and!; try (cbn; lia); [|by left].
  cbn. destruct (ob_delivery_status o); try done; first [apply rtc_refl|one_transition].
Qed.

(** Until admission there is no admission time. *)
Lemma processing_not_admitted o :
  outbox_checks o = true -> ob_delivery_status o = OB_PROCESSING -> ob_admitted_at o = None.
Proof.
  unfold outbox_checks. rewrite !andb_true_iff. intros H Hst. rewrite Hst in H.
  destruct H as ((((((_ & H) & _) & _) & _) & _) & _).
  destruct (ob_admitted_at o); [|done]. cbn in H. by rewrite andb_false_r in H.
Qed.

(** ** The routines *)

Lemma traces_uuid4 : respects traces uuid4.
Proof. apply traces_of; [apply keeps_uuid4|apply history_uuid4]. Qed.
Lemma traces_statement_now : respects traces db_statement_now.
Proof. apply traces_of; [apply keeps_db_statement_now|apply history_statement_now]. Qed.

#[export] Hint Resolve history_uuid4 history_statement_now traces_uuid4 traces_statement_now
  : respects.

(** Statements of unwatched tables, by their table. *)
Ltac traces_elsewhere := apply traces_of; [eauto 2 with respects | eauto 2 with respects].

#[export] Hint Extern 1 (respects traces (insert_with _ _)) =>
  first [apply traces_insert_with | traces_elsewhere] : respects.
#[export] Hint Extern 1 (respects traces (insert_on_conflict_do_nothing _ _)) =>
  first [apply traces_insert_with | traces_elsewhere] : respects.
#[export] Hint Extern 1 (respects traces (insert_row _)) =>
  first [apply traces_insert_row | traces_elsewhere] : respects.
#[export] Hint Extern 3 (respects traces (update_where _ _)) => traces_elsewhere : respects.
#[export] Hint Extern 3 (respects traces (update_by_id _ _ _)) => traces_elsewhere : respects.
#[export] Hint Extern 3 (respects traces (insert_on_conflict_do_update _ _ _)) =>
  traces_elsewhere : respects.
#[export] Hint Extern 3 (respects traces (delete_where _)) => traces_elsewhere : respects.

(** UPDATEs of a dialog row. *)
#[export] Hint Extern 2 (respects traces (update_by_id (R := Conversation) _ _ _)) =>
  apply traces_update_by_id; conversation_step : respects.

Lemma traces_supersede cid reason :
  respects traces (reply_plan_repo.supersede_open_plans cid reason).
Proof.
  apply respects_bind; [apply _|solve_respects|]. intros now. apply traces_update_where.
  intros p _. apply history_close_plan. by right.
Qed.

Lemma traces_cancel_open_plans cid reason :
  respects traces (reply_plan_repo.cancel_open_plans_for_takeover cid reason).
Proof.
  apply respects_bind; [apply _|solve_respects|]. intros now. apply traces_update_where.
  intros p _. apply history_close_plan. by left.
Qed.

Lemma traces_cancel_unadmitted cid :
  respects traces (outbound_repo.cancel_unadmitted_for_conversation cid).
Proof.
  apply respects_bind; [apply _|solve_respects|]. intros now. apply traces_update_where.
  intros o _. unfold outbound_repo.unadmitted_of. rewrite !andb_true_iff. intros [_ Hun].
  eapply history_outbox_leaves; [by split_and!|reflexivity| |done|done|by left].
  right. cbn. by destruct (ob_delivery_status o).
Qed.

#[export] Hint Resolve traces_supersede traces_cancel_open_plans traces_cancel_unadmitted
  : respects.

Lemma traces_recover_exhausted_lease pid now :
  respects traces (reply_plan_repo.recover_exhausted_lease pid now).
Proof.
  apply respects_bind; [apply _|solve_respects|]. intros moment.
  apply respects_bind; [apply _| |intros []; solve_respects].
  apply traces_update_by_id. intros p _ (Hst & _)%lease_exhausted_true.
  by apply history_plan_leaves.
Qed.

Lemma traces_mark_ready now : respects traces (reply_plan_repo.mark_ready_due_plans now).
Proof.
  apply respects_bind; [apply _|solve_respects|]. intros moment. apply traces_update_where.
  intros p _. rewrite andb_true_iff, bool_decide_eq_true. intros [Hst _].
  by apply history_make_ready.
Qed.

Lemma traces_complete_dispatched pid token version :
  respects traces (reply_plan_repo.complete_dispatched_with_lease pid token version).
Proof.
  unfold reply_plan_repo.complete_dispatched_with_lease.
  apply respects_bind; [apply _|solve_respects|]. intros _.
  apply respects_bind; [apply _|solve_respects|]. intros now.
  apply respects_bind; [apply _| |intros; solve_respects].
  apply traces_update_by_id. intros p _ (Hst & _)%holds_lease_true.
  by apply history_plan_leaves.
Qed.

Lemma traces_fail_with_lease pid token version code retry now :
  respects traces (reply_plan_repo.fail_with_lease pid token version code retry now).
Proof.
  unfold reply_plan_repo.fail_with_lease.
  apply respects_bind; [apply _|solve_respects|]. intros moment.
  apply respects_bind; [apply _|solve_respects|]. intros o.
  apply respects_bind; [apply _|solve_respects|]. intros plan.
  apply respects_bind; [apply _|solve_respects|]. intros _.
  destruct (rp_max_attempts plan <=? rp_attempt_count plan);
    (apply respects_bind; [apply _|solve_respects|]; intros _);
    (apply respects_bind; [apply _| |intros; solve_respects]);
    apply traces_update_by_id; intros p _ (Hst & _)%holds_lease_true;
    by apply history_plan_leaves.
Qed.

Lemma jhas_jset_same d k v : jhas (jset d k v) k = true.
Proof. unfold jhas. by rewrite jget_jset_eq. Qed.

Lemma jhas_jset_other d k k' v : k <> k' -> jhas (jset d k v) k' = jhas d k'.
Proof. intros. unfold jhas. by rewrite jget_jset_ne. Qed.

Lemma traces_try_mark pid token version :
  respects traces (reply_plan_repo.try_mark_booking_resolution_started pid token version).
Proof.
  apply respects_bind; [apply _|solve_respects|]. intros now. apply traces_update_by_id.
  intros p _ _. apply history_payload; [by split_and!|done..|]. apply jhas_jset_same.
Qed.

Lemma traces_persist pid token version result :
  respects traces (reply_plan_repo.persist_booking_resolution_result pid token version result).
Proof.
  unfold reply_plan_repo.persist_booking_resolution_result.
  apply respects_bind; [apply _|solve_respects|]. intros o.
  apply respects_bind; [apply _|solve_respects|]. intros plan.
  apply respects_bind; [apply _|solve_respects|]. intros _. cbv zeta.
  assert (forall payload, jhas payload "booking_resolution_started" = true ->
    respects traces (now ← db_now;
      _ ← update_by_id pid no_guard (fun p =>
        p <| rp_payload_json := payload |> <| rp_updated_at := now |>);
      mret payload)) as Hw.
  { intros payload Hp. apply respects_bind; [apply _|solve_respects|]. intros now.
    apply respects_bind; [apply _| |intros; solve_respects].
    apply traces_update_by_id. intros p _ _. apply history_payload; [by split_and!|done..]. }
  destruct (jget _ _) as [[]|]; try solve_respects; apply Hw;
    rewrite jhas_jset_other by done; apply jhas_jset_same.
Qed.

#[export] Hint Resolve traces_recover_exhausted_lease traces_mark_ready
  traces_complete_dispatched traces_fail_with_lease traces_try_mark traces_persist : respects.

Lemma history_wp {A} (m : Session A) env s :
  wp m (fun _ s' => history s s') (fun _ s' => history s s') env s -> history s (snd (m env s)).
Proof. unfold wp. by destruct (m env s) as [[a|e] s']. Qed.

Lemma wp_history_then {A} (m : Session A) env s s1 :
  history s s1 -> respects history m ->
  wp m (fun _ s' => history s s') (fun _ s' => history s s') env s1.
Proof.
  intros H Hm. eapply wp_mono; [by apply respects_wp|intros; by etrans|intros; by etrans].
Qed.

(** The end of both [claim_next]: the picked row is updated and read back. *)
Lemma traces_claim_picked {R B} `{TL : TableLaws R, W : !Watched R} (f : Env -> Database -> R -> bool)
    (pick : list R -> option R) (v : R -> R) (k : R -> Session (option B)) :
  (forall l r, pick l = Some r -> r ∈ l) ->
  (forall env s r, f env s r = true -> row_history r (v r)) ->
  (forall r, respects keeps (k r)) -> (forall r, respects history (k r)) ->
  respects traces (
    env ← get_env; s ← get_state; candidates ← select_where (f env s);
    match pick candidates with
    | None => mret None
    | Some r => _ ← update_by_id (row_id r) no_guard v; k r
    end).
Proof.
  intros Hpick Hv Hk1 Hk2. apply respects_traces.
  { apply respects_bind; [apply _|apply respects_get_env, _|]. intros env.
    apply respects_bind; [apply _|apply respects_get_state, _|]. intros s.
    apply respects_bind; [apply _|apply keeps_select_where|]. intros l.
    destruct (pick l); [|apply respects_ret, _].
    apply respects_bind; [apply _|apply keeps_update_by_id|]. intros; apply Hk1. }
  intros env s Hcon. apply history_wp.
  apply wp_bind, wp_get_env, wp_bind, wp_get_state, wp_bind, wp_select_where.
  destruct (pick _) as [r|] eqn:E; [|by apply wp_ret].
  apply Hpick, list_elem_of_filter in E as [Hf [id Hr]%rows_elem].
  pose proof (constraints_keys_ok (R := R) s Hcon) as Hkeys.
  pose proof (Hkeys _ _ Hr) as Hid. subst id. apply wp_bind.
  eapply wp_update_by_id; [exact Hkeys|exact Hr|done| |done|done]. intros _ _.
  apply wp_history_then; [|apply Hk2].
  apply watched_set. eapply evolves_moved; [apply _|exact Hr|by eapply Hv].
Qed.

Lemma traces_claim_next_plan worker lease now :
  respects traces (reply_plan_repo.claim_next worker lease now).
Proof.
  unfold reply_plan_repo.claim_next.
  apply respects_bind; [apply _|solve_respects|]. intros _.
  apply respects_bind; [apply _|solve_respects|]. intros moment.
  apply respects_bind; [apply _|solve_respects|]. intros _. cbv zeta.
  apply respects_bind; [apply _|solve_respects|]. intros token.
  refine (traces_claim_picked (R := ReplyPlan) (fun env s p =>
    reply_plan_repo.claimable (db_conversations s) moment p && negb (env_locked env (rp_id p)))
    (pick_min reply_plan_repo.claim_order)
    (reply_plan_repo.claim_values moment worker token (moment + seconds lease))
    (fun candidate => plan ← get_by_id (rp_id candidate);
       plan ← require_some plan RuntimeError "REPLY_PLAN_CLAIM_LOOKUP_FAILED";
       claim ← reply_plan_repo.row_to_claim plan; mret (Some claim)) _ _ _ _).
  - apply pick_min_elem.
  - intros env s p [Hc _]%andb_true_iff. by eapply history_claim_plan.
  - intros p. solve_respects.
  - intros p. solve_respects.
Qed.

Lemma traces_claim_next_outbound worker lease now :
  respects traces (outbound_repo.claim_next worker lease now).
Proof.
  unfold outbound_repo.claim_next.
  apply respects_bind; [apply _|solve_respects|]. intros _.
  apply respects_bind; [apply _|solve_respects|]. intros moment.
  apply respects_bind; [apply _| |].
  { apply respects_bind; [apply _|solve_respects|]. intros m. apply traces_update_where.
    intros o _. unfold outbound_repo.exhausted. rewrite !andb_true_iff, bool_decide_eq_true.
    intros ((((_ & Hst) & _) & _) & _).
    eapply history_outbox_leaves; [by split_and!|exact Hst|by right|done|done|by left]. }
  intros _. cbv zeta. apply respects_bind; [apply _|solve_respects|]. intros token.
  pose proof (traces_claim_picked (R := OutboxMessage) (fun env s o =>
    outbound_repo.claimable moment o && negb (env_locked env (ob_id o)))
    (pick_min outbound_repo.claim_order)
    (outbound_repo.claim_values moment worker token (moment + seconds lease))
    (fun candidate => row ← get_by_id (ob_id candidate);
       row ← require_some row RuntimeError "OUTBOUND_CLAIM_LOOKUP_FAILED";
       claim ← outbound_repo.row_to_claim row; mret (Some claim))) as H.
  intros env s. refine (H _ _ _ _ env s).
  - apply pick_min_elem.
  - intros env' s' o [Hc _]%andb_true_iff. by eapply history_claim_outbound.
  - intros p. solve_respects.
  - intros p. solve_respects.
Qed.

Lemma traces_mark_admitted oid token version now :
  respects traces (outbound_repo.mark_admitted_with_lease oid token version now).
Proof.
  unfold outbound_repo.mark_admitted_with_lease.
  apply respects_bind; [apply _|solve_respects|]. intros moment.
  apply respects_bind; [apply _|solve_respects|]. intros _.
  apply respects_bind; [apply _| |intros; solve_respects].
  apply traces_update_by_id. intros o Hck (Hst & _)%outbox_lease_true.
  eapply history_outbox_leaves; [by split_and!|exact Hst|by right|done|done|].
  right. split; [by apply processing_not_admitted|done].
Qed.

Lemma traces_mark_delivered oid token version now pid :
  respects traces (outbound_repo.mark_delivered_with_lease oid token version now pid).
Proof.
  unfold outbound_repo.mark_delivered_with_lease.
  apply respects_bind; [apply _|solve_respects|]. intros moment.
  apply respects_bind; [apply _|solve_respects|]. intros _.
  apply respects_bind; [apply _| |intros; solve_respects].
  apply traces_update_by_id. intros o _ (Hst & _)%outbox_admitted_lease_true.
  destruct (mark_delivered_same pid moment o) as (Hs & Ht & Ha & Hc & Hv).
  eapply history_outbox_leaves; [done|exact Hst|rewrite Ht; by right|done|done|by left].
Qed.

Lemma traces_set_provider oid token version pid now :
  respects traces (outbound_repo.set_vk_provider_message_id_with_lease oid token version pid now).
Proof.
  unfold outbound_repo.set_vk_provider_message_id_with_lease.
  apply respects_bind; [apply _|solve_respects|]. intros _.
  apply respects_bind; [apply _|solve_respects|]. intros moment.
  apply respects_bind; [apply _| |intros; solve_respects].
  apply traces_update_by_id. intros o _ _.
  eapply history_outbox_leaves; [by split_and!|reflexivity|by left|done|done|by left].
Qed.

Lemma traces_fail_outbound oid token version retry now :
  respects traces (outbound_repo.fail_with_lease oid token version retry now).
Proof.
  unfold outbound_repo.fail_with_lease.
  apply respects_bind; [apply _|solve_respects|]. intros moment.
  apply respects_bind; [apply _|solve_respects|]. intros r.
  apply respects_bind; [apply _|solve_respects|]. intros row.
  apply respects_bind; [apply _|solve_respects|]. intros _.
  destruct (ob_max_attempts row <=? ob_attempt_count row);
    (apply respects_bind; [apply _|solve_respects|]; intros _);
    (apply respects_bind; [apply _| |intros; solve_respects]);
    apply traces_update_by_id; intros o _ (Hst & _)%outbox_lease_true;
    (eapply history_outbox_leaves; [by split_and!|exact Hst|by right|done|done|by left]).
Qed.

Lemma traces_fail_admitted oid token version permanent retry now :
  respects traces
    (outbound_repo.fail_admitted_delivery_with_lease oid token version permanent retry now).
Proof.
  unfold outbound_repo.fail_admitted_delivery_with_lease.
  apply respects_bind; [apply _|solve_respects|]. intros moment.
  apply respects_bind; [apply _|solve_respects|]. intros r.
  apply respects_bind; [apply _|solve_respects|]. intros row.
  apply respects_bind; [apply _|solve_respects|]. intros _. cbv zeta.
  apply respects_bind; [apply _|solve_respects|]. intros _.
  apply respects_bind; [apply _| |intros; solve_respects].
  apply traces_update_by_id. intros o _ (Hst & _)%outbox_admitted_lease_true.
  destruct (permanent || _).
  - eapply history_outbox_leaves; [by split_and!|exact Hst|by right|done|done|by left].
  - eapply history_outbox_leaves; [by split_and!|exact Hst|by left|done|done|by left].
Qed.

#[export] Hint Resolve traces_claim_next_plan traces_claim_next_outbound traces_mark_admitted
  traces_mark_delivered traces_set_provider traces_fail_outbound traces_fail_admitted : respects.
