(* ===== verification/IngressProofs.v ===== *)
(** * The ingress queue: every event is applied once

    The routines of src/app/repositories/ingress.py and the transactions of
    IngressWorker (src/app/services/ingress.py): what they respect, what a claim
    takes, how an event ends, and that the effect on the dialog and the
    completion of the event are one commit. *)

From S2P Require Import Prelude BookingText Models Database Statements Conversations ReplyPlans.
From S2P Require Import Outbound SelfBooking Messages Mirror BookingFields VkClient Projections.
From S2P Require Import Inbound ManagerMessages VkObserver Bindings ReplyDispatch VkGate.
From S2P Require Import IngressQueue Ingress IngressWorker Dialog Frames ManagerProofs ExpiryProofs.
From S2P Require Import InboundProofs History.
Import ingress_repo.

(** ** History of events *)

Lemma ingress_lease_true token version e :
  holds_lease token version e = true <->
  ing_status e = ING_PROCESSING /\ ing_lease_token e = Some token /\
  ing_lease_version e = version.
Proof.
  unfold holds_lease, sql_eq. rewrite !andb_true_iff, bool_decide_eq_true, Z.eqb_eq.
  destruct (ing_lease_token e) as [t|]; [rewrite bool_decide_eq_true|]; naive_solver.
Qed.

Lemma ingress_claimable_facts moment e :
  claimable moment e = true ->
  ing_attempt_count e < ing_max_attempts e /\
  (ing_status e = ING_RECEIVED \/
   ing_status e = ING_FAILED /\ (exists t, ing_next_attempt_at e = Some t /\ t <= moment) \/
   ing_status e = ING_PROCESSING /\ (exists t, ing_lease_until e = Some t /\ t < moment)).
Proof.
  unfold claimable. rewrite andb_true_iff, Z.ltb_lt. intros [Ha Hst]. split; [done|].
  destruct (ing_status e); try done; [by left|right; right|right; left]; (split; [done|]).
  - rewrite andb_true_iff in Hst. destruct Hst as [_ Hst]. unfold sql_lt in Hst.
    destruct (ing_lease_until e) as [t|]; [|done]. exists t. split; [done|]. by apply Z.ltb_lt.
  - destruct (ing_next_attempt_at e) as [t|]; [|done]. exists t. split; [done|]. by apply Z.leb_le.
Qed.

Lemma history_claim_ingress moment worker token until e :
  claimable moment e = true -> ingress_history e (claim_values moment worker token until e).
Proof.
  intros [Ha Hst]%ingress_claimable_facts. split; [by split_and!|]. split_and!; try (cbn; lia).
  cbn. destruct Hst as [->|[[-> _]|[-> _]]]; first [apply rtc_refl|one_transition].
Qed.

(** Leaving PROCESSING under the lease, by completion, failure or burial. *)
Lemma history_ingress_leaves e e' :
  same_event e e' -> ing_status e = ING_PROCESSING ->
  ingress_transition_allowed ING_PROCESSING (ing_status e') = true ->
  ing_lease_version e' = ing_lease_version e -> ing_attempt_count e' = ing_attempt_count e ->
  ingress_history e e'.
Proof.
  intros Hs Hst Ht Hv Ha. split; [done|]. split_and!; [|lia..]. rewrite Hst. by apply rtc_once.
Qed.

Lemma traces_ingress_recover now : respects traces (recover_exhausted_leases now).
Proof.
  apply respects_bind; [apply _|solve_respects|]. intros moment. apply traces_update_where.
  intros e _. unfold exhausted. rewrite !andb_true_iff, bool_decide_eq_true.
  intros (((Hst & _) & _) & _). by apply history_ingress_leaves.
Qed.

Lemma traces_ingress_complete eid token version :
  respects traces (complete_with_lease eid token version).
Proof.
  unfold complete_with_lease.
  apply respects_bind; [apply _|solve_respects|]. intros moment.
  apply respects_bind; [apply _|solve_respects|]. intros _.
  apply respects_bind; [apply _| |intros; solve_respects].
  apply traces_update_by_id. intros e _ (Hst & _)%ingress_lease_true.
  by apply history_ingress_leaves.
Qed.

Lemma traces_ingress_fail eid token version code retry now :
  respects traces (fail_with_lease eid token version code retry now).
Proof.
  unfold fail_with_lease.
  apply respects_bind; [apply _|solve_respects|]. intros moment.
  apply respects_bind; [apply _|solve_respects|]. intros o.
  apply respects_bind; [apply _|solve_respects|]. intros event.
  apply respects_bind; [apply _|solve_respects|]. intros _.
  destruct (ing_max_attempts event <=? ing_attempt_count event);
    (apply respects_bind; [apply _|solve_respects|]; intros _);
    (apply respects_bind; [apply _| |intros; solve_respects]);
    apply traces_update_by_id; intros e _ (Hst & _)%ingress_lease_true;
    by apply history_ingress_leaves.
Qed.

#[export] Hint Resolve traces_ingress_recover traces_ingress_complete traces_ingress_fail
  : respects.

Lemma traces_ingress_claim worker lease now : respects traces (claim_next worker lease now).
Proof.
  unfold claim_next.
  apply respects_bind; [apply _|solve_respects|]. intros _.
  apply respects_bind; [apply _|solve_respects|]. intros moment.
  apply respects_bind; [apply _|solve_respects|]. intros _. cbv zeta.
  apply respects_bind; [apply _|solve_respects|]. intros token.
  pose proof (traces_claim_picked (R := IngressEvent) (fun env s e =>
    claimable moment e && negb (env_locked env (ing_id e)))
    (pick_min claim_order)
    (claim_values moment worker token (moment + seconds lease))
    (fun candidate => row ← get_by_id (ing_id candidate);
       row ← require_some row RuntimeError "INGRESS_CLAIM_LOOKUP_FAILED";
       claim ← row_to_claim row; mret (Some claim))) as H.
  intros env s. refine (H _ _ _ _ env s).
  - apply pick_min_elem.
  - intros env' s' e [Hc _]%andb_true_iff. by eapply history_claim_ingress.
  - intros p. solve_respects.
  - intros p. solve_respects.
Qed.

#[export] Hint Resolve traces_ingress_claim : respects.

(** ** The end of an event *)

Definition same_ingress (s s' : Database) : Prop :=
  db_ingress_events s' = db_ingress_events s.

#[export] Instance same_ingress_preorder : PreOrder same_ingress.
Proof. split; [by intros s|]. intros s1 s2 s3 H1 H2. unfold same_ingress in *. congruence. Qed.

#[export] Instance ingress_conversations : Unwatched same_ingress Conversation. Proof. done. Qed.
#[export] Instance ingress_ops : Unwatched same_ingress ConversationOpsEvent. Proof. done. Qed.
#[export] Instance ingress_inbox : Unwatched same_ingress InboxMessage. Proof. done. Qed.
#[export] Instance ingress_manager : Unwatched same_ingress ManagerMessage. Proof. done. Qed.
#[export] Instance ingress_plans : Unwatched same_ingress ReplyPlan. Proof. done. Qed.
#[export] Instance ingress_outbox : Unwatched same_ingress OutboxMessage. Proof. done. Qed.
#[export] Instance ingress_mirror : Unwatched same_ingress AmoCrmMirrorJob. Proof. done. Qed.
#[export] Instance ingress_projections : Unwatched same_ingress AmocrmMessageProjection.
Proof. done. Qed.
#[export] Instance ingress_offers : Unwatched same_ingress SelfBookingActiveOffer.
Proof. done. Qed.
#[export] Instance ingress_pendings : Unwatched same_ingress SelfBookingCreatePending.
Proof. done. Qed.
#[export] Instance ingress_pii_values : Unwatched same_ingress EphemeralPiiValue.
Proof. done. Qed.
#[export] Instance ingress_pii : Unwatched same_ingress SelfBookingPiiAdmission.
Proof. done. Qed.
#[export] Instance ingress_bindings : Unwatched same_ingress AmocrmChatBinding.
Proof. done. Qed.

Lemma same_ingress_uuid4 : respects same_ingress uuid4.
Proof. done. Qed.
Lemma same_ingress_statement_now : respects same_ingress db_statement_now.
Proof. done. Qed.
#[export] Hint Resolve same_ingress_uuid4 same_ingress_statement_now : respects.

(** The event of [claim] under its lease, and what completion makes of it. *)
Definition event_held (claim : IngressClaim) (s : Database) (e : IngressEvent) : Prop :=
  db_ingress_events s !! igc_event_id claim = Some e /\
  holds_lease (igc_lease_token claim) (igc_lease_version claim) e = true.

Definition with_ingress (events : gmap uuid IngressEvent) (s : Database) : Database :=
  s <| db_ingress_events := events |>.

Lemma wp_complete_claim claim (Q : IngressEvent -> Database -> Prop)
    (X : exn -> Database -> Prop) env s :
  keys_ok (db_ingress_events s) ->
  (forall e, event_held claim s e ->
     let e' := complete_values (env_now env) e in
     Q e' (with_ingress (<[igc_event_id claim := e']> (db_ingress_events s)) s)) ->
  (forall e s', X e s') ->
  wp (complete_claim claim) Q X env s.
Proof.
  intros Hk HQ HX. unfold complete_claim, complete_with_lease.
  apply wp_bind, wp_resolve_moment. apply wp_bind, wp_assert; [intros _|auto]. apply wp_bind.
  destruct (db_ingress_events s !! igc_event_id claim) as [e|] eqn:He.
  - destruct (holds_lease (igc_lease_token claim) (igc_lease_version claim) e) eqn:Hl.
    + eapply wp_update_by_id; [exact Hk|exact He|exact Hl| |auto|auto]. intros _ _.
      apply wp_bind, wp_assert; [intros _|auto]. apply wp_bind, wp_get_by_id. dbsimpl.
      rewrite lookup_insert_eq. apply wp_require_some; [|auto]. intros a [= <-].
      by apply HQ.
    + apply wp_update_by_id_none; [exact Hk| |].
      * intros r Hr. dbsimpl. congruence.
      * apply wp_bind, wp_assert; [done|auto].
  - apply wp_update_by_id_none; [exact Hk| |].
    + intros r Hr. dbsimpl. congruence.
    + apply wp_bind, wp_assert; [done|auto].
Qed.

(** The rest of a transaction that has not touched the queue yet. *)
Lemma wp_bind_event {A B} (m : Session A) (k : A -> Session B) Q X env s :
  respects keeps m -> respects same_ingress m -> constraints_ok s ->
  wp m (fun a s1 => constraints_ok s1 -> same_ingress s s1 -> wp (k a) Q X env s1) X env s ->
  wp (m ≫= k) Q X env s.
Proof.
  intros Hk Hi Hcon Hm. apply wp_bind_keeps; [done..|].
  eapply wp_mono; [apply (wp_respects same_ingress _ _ _ _ _ Hi Hm)| |by intros ? ? []].
  intros a s1 [H Hs] Hcon1. by apply H.
Qed.

(** An event ended by the claim: what the transaction did before, [G], and the
    completion, in one database. *)
Definition event_applied (env : Env) (claim : IngressClaim) {A}
    (f : A -> IngressEvent -> IngressProcessResult) (G : A -> Database -> Prop)
    (s : Database) (r : IngressProcessResult) (s' : Database) : Prop :=
  exists a s1 e,
    event_held claim s e /\ G a s1 /\ r = f a (complete_values (env_now env) e) /\
    s' = with_ingress (<[igc_event_id claim := complete_values (env_now env) e]>
                         (db_ingress_events s)) s1.

Lemma wp_end_event {A} (a : A) f (G : A -> Database -> Prop) claim env s s1 :
  constraints_ok s1 -> same_ingress s s1 -> G a s1 ->
  wp (e ← complete_claim claim; mret (f a e)) (event_applied env claim f G s)
    (fun _ _ => True) env s1.
Proof.
  intros Hcon Hs HG. apply wp_bind, wp_complete_claim; [|intros e [He Hl]|done].
  - exact (constraints_keys_ok (R := IngressEvent) s1 Hcon).
  - apply wp_ret. exists a, s1, e. unfold same_ingress in Hs. unfold event_held.
    by rewrite <- Hs.
Qed.

Lemma with_ingress_same_dialog events s : same_dialog s (with_ingress events s).
Proof. by split_and!. Qed.

(** ** A client message of the synthetic channel *)

Definition synthetic_result (a : InboundAcceptResult) (e : IngressEvent) : IngressProcessResult :=
  MkIngressProcessResult (ing_id e) (ing_status e) (iar_duplicate a)
    (Some (inbox_id (iar_inbox a))) (Some (ob_id (iar_outbox a)))
    (Some (conv_id (iar_conversation a))).

Lemma synthetic_in_session_spec pause pii claim inbound env s :
  dialog_ok s ->
  wp (session_scope (synthetic_in_session pause pii claim inbound))
    (fun r s' => dialog_ok s' /\
       event_applied env claim synthetic_result (accept_goal env pause inbound s) s r s')
    (fun _ s' => s' = s) env s.
Proof.
  intros Hok. pose proof Hok as [Hcon _].
  apply wp_session_scope_keeps; [solve_respects|done|]. unfold synthetic_in_session.
  apply wp_bind_event; [solve_respects..|done|].
  eapply wp_mono; [by apply wp_accept| |done]. intros a s1 HG Hcon1 Hs.
  eapply wp_mono; [by apply (wp_end_event a synthetic_result (accept_goal env pause inbound s)
    claim env s s1); auto| |done].
  intros r s' Happ Hcon'. split; [|done].
  destruct Happ as (a' & s1' & e & _ & [Hok1 _] & _ & ->).
  eapply dialog_ok_same; [exact Hok1|apply with_ingress_same_dialog|done].
Qed.

(** ** Claims *)

Definition buried_events (moment : instant) (es : gmap uuid IngressEvent)
    : gmap uuid IngressEvent := sql_update (exhausted moment) (bury_values moment) es.

Lemma buried_events_claimable moment es k e :
  es !! k = Some e -> claimable moment e = true -> buried_events moment es !! k = Some e.
Proof.
  intros He Hcl. apply lookup_sql_update_Some. exists e. split; [done|].
  destruct (exhausted moment e) eqn:E; [|done]. exfalso.
  apply ingress_claimable_facts in Hcl as [Ha _].
  unfold exhausted in E. rewrite !andb_true_iff, Z.leb_le in E. lia.
Qed.

Lemma buried_events_lookup moment es k e :
  buried_events moment es !! k = Some e -> claimable moment e = true -> es !! k = Some e.
Proof.
  intros (e0 & He & ->)%lookup_sql_update_Some. destruct (exhausted moment e0); [|done].
  intros [_ Hst]%ingress_claimable_facts. cbn in Hst. naive_solver.
Qed.

(** The claim describes the row, which is leased to the worker. *)
Definition ingress_claim_copies (claim : IngressClaim) (e : IngressEvent) : Prop :=
  igc_event_id claim = ing_id e /\ igc_channel claim = ing_channel e /\
  igc_external_event_id claim = ing_external_event_id e /\
  igc_external_conversation_id claim = ing_external_conversation_id e /\
  igc_event_type claim = ing_event_type e /\ igc_envelope_json claim = ing_envelope_json e /\
  igc_correlation_id claim = ing_correlation_id e /\
  holds_lease (igc_lease_token claim) (igc_lease_version claim) e = true.

(** A fresh lease on an event that was due, for one of its attempts. *)
Definition ingress_claimed (s : Database) (moment : instant) (worker : string) (lease : Z)
    (claim : IngressClaim) (s' : Database) : Prop :=
  exists e e',
    db_ingress_events s !! igc_event_id claim = Some e /\ claimable moment e = true /\
    db_ingress_events s' !! igc_event_id claim = Some e' /\ ingress_claim_copies claim e' /\
    same_event e e' /\ ing_attempt_count e' = ing_attempt_count e + 1 /\
    ing_lease_version e' = ing_lease_version e + 1 /\ ing_lease_owner e' = Some worker /\
    ing_lease_until e' = Some (moment + seconds lease).

Definition ingress_claim_goal (locked : uuid -> bool) (s : Database) (moment : instant)
    (worker : string) (lease : Z) (r : option IngressClaim) (s' : Database) : Prop :=
  same_dialog s s' /\
  match r with
  | None => db_ingress_events s' = buried_events moment (db_ingress_events s) /\
      forall k e, db_ingress_events s !! k = Some e -> claimable moment e = true ->
        locked (ing_id e) = true
  | Some claim => ingress_claimed s moment worker lease claim s'
  end.

Lemma wp_ingress_claim env s worker lease now :
  constraints_ok s ->
  wp (claim_next worker lease now)
    (fun r s' => constraints_ok s' ->
       ingress_claim_goal (env_locked env) s (default (env_now env) now) worker lease r s')
    (fun _ _ => True) env s.
Proof.
  intros Hcon. pose proof (constraints_keys_ok (R := IngressEvent) s Hcon) as Hk.
  unfold claim_next. apply wp_bind, wp_assert; [intros _|done]. apply wp_bind, wp_resolve_moment.
  set (moment := default _ _). unfold recover_exhausted_leases.
  apply wp_bind, wp_bind, wp_resolve_moment, wp_update_where; [intros _ _|done..].
  cbn [from_option id]. dbsimpl. fold (buried_events moment (db_ingress_events s)).
  cbv zeta. apply wp_bind, wp_uuid4, wp_bind, wp_get_env, wp_bind, wp_select_where. dbsimpl.
  set (es1 := buried_events moment (db_ingress_events s)). set (cands := filter _ _).
  assert (forall r, r ∈ cands <-> (exists k, es1 !! k = Some r) /\
    claimable moment r = true /\ env_locked env (ing_id r) = false) as Hin
    by (intros r; unfold cands; rewrite list_elem_of_filter, rows_elem, andb_true_iff,
          negb_true_iff; tauto).
  assert (keys_ok es1) as Hk1 by (by apply keys_ok_sql_update).
  destruct (pick_min claim_order cands) as [e|] eqn:Hpick.
  - pose proof Hpick as ([k He] & Hcl & Hlock)%pick_min_elem%Hin.
    pose proof (Hk1 _ _ He) as Hid. cbn in Hid. subst k.
    apply wp_bind. wp_update He. apply wp_bind, wp_get_by_id. dbsimpl. rewrite lookup_insert_eq.
    apply wp_bind, wp_require_some; [|done]. intros e' [= <-].
    apply wp_bind. cbn. apply wp_ret, wp_ret. intros _. split; [by split_and!|].
    eexists e, _. cbn. rewrite lookup_insert_eq. split_and!; try done.
    + by apply (buried_events_lookup moment).
    + split_and!; try done. apply ingress_lease_true. by split_and!.
  - apply wp_ret. intros _. split; [by split_and!|]. split; [done|].
    intros k e He Hcl. apply not_false_iff_true. intros Hl. apply pick_min_none in Hpick.
    assert (e ∈ cands) as Hc; [|rewrite Hpick in Hc; by apply not_elem_of_nil in Hc].
    apply Hin. split_and!; [|done|done]. exists k. by apply buried_events_claimable.
Qed.

(** ** Failures *)

(** A failed event waits for the retry or is dead after its last attempt. *)
Definition event_failed (s : Database) (eid token : uuid) (version : Z) (code : string)
    (retry : Z) (moment : instant) (e' : IngressEvent) (s' : Database) : Prop :=
  exists e,
    db_ingress_events s !! eid = Some e /\ holds_lease token version e = true /\
    s' = with_ingress (<[eid := e']> (db_ingress_events s)) s /\
    same_event e e' /\ ing_attempt_count e' = ing_attempt_count e /\
    ing_lease_version e' = ing_lease_version e /\ ing_lease_token e' = None /\
    ing_error_code e' = Some (str_take 64 code) /\
    if ing_max_attempts e <=? ing_attempt_count e
    then ing_status e' = ING_DEAD /\ ing_next_attempt_at e' = None
    else ing_status e' = ING_FAILED /\ ing_next_attempt_at e' = Some (moment + seconds retry).

Lemma wp_ingress_fail env s eid token version code retry now :
  constraints_ok s ->
  wp (fail_with_lease eid token version code retry now)
    (fun e' s' => event_failed s eid token version code retry (default (env_now env) now) e' s')
    (fun _ _ => True) env s.
Proof.
  intros Hcon. pose proof (constraints_keys_ok (R := IngressEvent) s Hcon) as Hk.
  apply wp_bind, wp_resolve_moment, wp_bind, wp_get_by_id. dbsimpl.
  apply wp_bind, wp_require_some; [|done]. intros e He.
  apply wp_bind, wp_assert; [|done]. intros Hl.
  destruct (ing_max_attempts e <=? ing_attempt_count e) eqn:Ht;
    (apply wp_bind, wp_assert; [intros _|done]);
    (apply (wp_update_returning (R := IngressEvent)) with (r := e); [done..| |done]);
    exists e; rewrite Ht; by split_and!.
Qed.
