(* ===== verification/AdapterProofs.v ===== *)
(** * Receipt of events

    The adapters of src/app/services/ingress.py, vk_client_ingress.py and
    amocrm_manager_ingress.py and the VK webhook: an acknowledgement names a
    stored event, a repeated delivery stores nothing, another event under the
    same id is a conflict. *)

From S2P Require Import Prelude BookingText Models Database Statements Conversations ReplyPlans.
From S2P Require Import Outbound SelfBooking Messages Mirror BookingFields VkClient Projections.
From S2P Require Import Inbound ManagerMessages VkObserver Bindings ReplyDispatch VkGate.
From S2P Require Import IngressQueue Ingress IngressWorker Dialog Frames ManagerProofs ExpiryProofs.
From S2P Require Import InboundProofs History IngressProofs.
Import ingress_repo.

(** Only the event queue and the UUID supply differ. *)
Definition with_events (events : gmap uuid IngressEvent) (n : N) (s : Database) : Database :=
  s <| db_ingress_events := events |> <| db_uuid_supply := n |>.

Lemma with_events_same s : with_events (db_ingress_events s) (db_uuid_supply s) s = s.
Proof. by destruct s. Qed.

Lemma with_events_same_dialog events n s : same_dialog s (with_events events n s).
Proof. by split_and!. Qed.

Definition only_supply (s s' : Database) : Prop :=
  exists n, s' = with_events (db_ingress_events s) n s.

Lemma only_supply_same s : only_supply s s.
Proof. exists (db_uuid_supply s). by rewrite with_events_same. Qed.

Definition event_key (channel : IngressChannel) (external_id : string) (e : IngressEvent) : Prop :=
  ing_channel e = channel /\ ing_external_event_id e = external_id.

Lemma wp_find_event X env s ch ext (Q : option IngressEvent -> Database -> Prop) :
  (forall k e, db_ingress_events s !! k = Some e -> event_key ch ext e -> Q (Some e) s) ->
  ((forall k e, db_ingress_events s !! k = Some e -> ~ event_key ch ext e) -> Q None s) ->
  wp (get_by_channel_external ch ext) Q X env s.
Proof.
  intros H1 H2. apply wp_select_scalar.
  - intros k e He. rewrite andb_true_iff, bool_decide_eq_true, String.eqb_eq. eauto.
  - intros Hno. apply H2. intros k e He [Hch Hext]. apply Hno in He.
    by rewrite bool_decide_eq_true_2, Hext, String.eqb_refl in He.
Qed.

Section Receipt.
Context (channel : IngressChannel) (ext conv : string) (type : IngressEventType).
Context (envelope : jdict) (correlation_id : uuid) (max_attempts : Z).

(** The new event is stored as it was received, before any attempt. *)
Definition event_received (now : instant) (s : Database) (row : IngressEvent) (s' : Database)
    : Prop :=
  (forall k e, db_ingress_events s !! k = Some e -> ~ event_key channel ext e) /\
  db_ingress_events s !! ing_id row = None /\
  row = received_event (ing_id row) channel ext conv type envelope correlation_id max_attempts now /\
  exists n, s' = with_events (<[ing_id row := row]> (db_ingress_events s)) n s.

(** It was here already, and the queue stays as it is. *)
Definition event_known (s : Database) (row : IngressEvent) (s' : Database) : Prop :=
  db_ingress_events s !! ing_id row = Some row /\ event_key channel ext row /\ only_supply s s'.

Lemma wp_insert_if_absent (X : exn -> Database -> Prop) env s :
  constraints_ok s ->
  forall Q : IngressEvent * bool -> Database -> Prop,
  (forall row s', event_received (env_now env) s row s' -> Q (row, true) s') ->
  (forall row, event_known s row s -> Q (row, false) s) ->
  (forall c msg s', c <> IngressIdempotencyConflict -> c <> VkClientIngressIdempotencyConflict ->
     X (Exn c msg) s') ->
  wp (insert_if_absent channel ext conv type envelope correlation_id max_attempts) Q X env s.
Proof.
  intros Hcon Q Hnew Hold HX. pose proof (constraints_keys_ok (R := IngressEvent) s Hcon) as Hk.
  unfold insert_if_absent. apply wp_bind, wp_assert; [intros _|intros; by apply HX].
  apply wp_bind, wp_assert; [intros _|intros; by apply HX]. apply wp_bind, wp_find_event.
  { intros k e He Hkey. apply wp_ret, Hold. pose proof (Hk _ _ He) as Hid. cbn in Hid. subst k.
    split_and!; [done..|apply only_supply_same]. }
  intros Hno. apply wp_bind, wp_uuid4, wp_bind, wp_db_now. set (u := uuid4_of _).
  set (row := received_event _ _ _ _ _ _ _ _ _).
  apply wp_bind, wp_insert_with; try (intros; by apply HX).
  { intros k e He Hcf. exfalso. cbn in Hcf. unfold uq_ingress_channel_external_event_id in Hcf.
    rewrite andb_true_iff, bool_decide_eq_true, String.eqb_eq in Hcf.
    apply (Hno k e He). unfold event_key. cbn in Hcf. naive_solver. }
  intros _ Hfresh _ _. dbsimpl. apply wp_bind, wp_find_event; dbsimpl.
  - intros k e He Hkey. apply wp_bind, wp_require_some; [|intros; by apply HX].
    intros a [= <-]. apply wp_ret. apply lookup_insert_Some in He as [[_ <-]|[_ He]];
      [|by destruct (Hno k e He)].
    apply Hnew. split_and!; try done. by exists (N.succ (db_uuid_supply s)).
  - intros Hno'. exfalso. apply (Hno' u row); [|by split]. cbn. by rewrite lookup_insert_eq.
Qed.

(** The acknowledgement of a delivery: [matches] is what the adapter compares of
    a stored event. *)
Definition delivery_acknowledged (matches : IngressEvent -> bool) (now : instant) (s : Database)
    (ack : IngressAck) (s' : Database) : Prop :=
  exists row, ack = ack_of row (negb (ack_duplicate ack)) /\
    if ack_duplicate ack then event_known s row s' /\ matches row = true
    else event_received now s row s'.

(** Another event is stored under the id. *)
Definition delivery_conflicts (matches : IngressEvent -> bool) (s : Database) : Prop :=
  exists k row, db_ingress_events s !! k = Some row /\ event_key channel ext row /\
    matches row = false.

Lemma wp_receive matches conflict passes env s :
  constraints_ok s ->
  (conflict = IngressIdempotencyConflict \/ conflict = VkClientIngressIdempotencyConflict) ->
  passes = (fun e => bool_decide (exn_class e = conflict)) ->
  wp (persist_failure passes (session_scope (
       '(row, created) ← insert_if_absent channel ext conv type envelope correlation_id max_attempts;
       _ ← assert_or_raise (created || matches row) conflict "INGRESS_IDEMPOTENCY_CONFLICT";
       mret (ack_of row created))))
    (delivery_acknowledged matches (env_now env) s)
    (fun e s' => s' = s /\
       (exn_class e = conflict /\ delivery_conflicts matches s \/ exn_class e = IngressPersistError))
    env s.
Proof.
  intros Hcon Hcf ->. apply wp_try, wp_session_scope, wp_bind, wp_insert_if_absent; [done|..].
  - intros row s' Hrow. apply wp_bind, wp_assert; [intros _|done]. apply wp_ret.
    by exists row.
  - intros row Hknown. apply wp_bind, wp_assert.
    + intros Hm. apply wp_ret. by exists row.
    + intros Hm. cbn. rewrite bool_decide_eq_true_2 by done. split; [done|]. left. split; [done|].
      destruct Hknown as (Hrow & Hkey & _). by exists (ing_id row), row.
  - intros c msg s' H1 H2. rewrite bool_decide_eq_false_2 by (cbn; naive_solver). cbn.
    apply wp_raise. by split; [|right].
Qed.
End Receipt.

(** ** The adapters *)

(** What an adapter does with an event: [key], [type] and [envelope] as it
    stores them, [matches] as it compares them. *)
Definition adapter_answers (channel : IngressChannel) (ext conv : string)
    (type : IngressEventType) (envelope : jdict) (given : option uuid) (max_attempts : Z)
    (matches : IngressEvent -> bool) (now : instant) (s : Database) (ack : IngressAck)
    (s' : Database) : Prop :=
  exists correlation_id, (forall id, given = Some id -> correlation_id = id) /\
    delivery_acknowledged channel ext conv type envelope correlation_id max_attempts matches
      now s ack s'.

(** The identity of the correlation costs a UUID at most. *)
Lemma wp_correlation_id (given : option uuid) (Q : uuid -> Database -> Prop) X env s :
  (forall id n, (forall id', given = Some id' -> id = id') ->
     Q id (with_events (db_ingress_events s) n s)) ->
  wp (correlation_id_or_new given) Q X env s.
Proof.
  intros HQ. destruct given as [id|]; cbn.
  - apply wp_ret. rewrite <- (with_events_same s) at 1. apply HQ. by intros ? [= <-].
  - apply wp_uuid4. apply (HQ _ (N.succ (db_uuid_supply s))). done.
Qed.

Lemma constraints_with_supply n s :
  constraints_ok s -> constraints_ok (with_events (db_ingress_events s) n s).
Proof. by destruct s. Qed.

Lemma received_with_supply ch ext conv type envelope corr max matches now s n ack s' :
  delivery_acknowledged ch ext conv type envelope corr max matches now
    (with_events (db_ingress_events s) n s) ack s' ->
  delivery_acknowledged ch ext conv type envelope corr max matches now s ack s'.
Proof.
  intros (row & Hack & H). exists row. split; [done|]. destruct (ack_duplicate ack).
  - destruct H as [(Hrow & Hkey & n' & ->) Hm]. split; [|done]. split_and!; [done..|]. by exists n'.
  - destruct H as (Hno & Hfresh & Hrow & n' & ->). split_and!; [done..|]. by exists n'.
Qed.

(** The bodies differ in what they store and compare. *)
Ltac adapter :=
  apply wp_bind, wp_assert; [intros _|by split; [apply only_supply_same|right; right]];
  apply wp_bind, wp_correlation_id; intros corr n Hcorr;
  eapply wp_mono;
    [eapply wp_receive; [by apply constraints_with_supply|auto|reflexivity]
    |intros ack s' Hack; exists corr; split; [done|by eapply received_with_supply]
    |intros e s' [-> [[H1 H2]|H1]]; (split; [by exists n|]); [by left|by right; left]].

Section Adapters.
Context `{PyLib} (max_attempts : Z) (env : Env) (s : Database).
Hypothesis Hcon : constraints_ok s.

(** Either the event is stored, or nothing is: a conflict or a failed write. *)
Definition adapter_refuses (ch : IngressChannel) (ext : string) (matches : IngressEvent -> bool)
    (conflict : exc_class) (e : exn) : Prop :=
  exn_class e = conflict /\ delivery_conflicts ch ext matches s \/
  exn_class e = IngressPersistError \/ exn_class e = ValueError.

Lemma vk_accept_spec event :
  wp (VkClientIngressAdapter.accept max_attempts event)
    (adapter_answers INGRESS_VK (vge_external_event_id event) (vge_external_conversation_id event)
       VK_CLIENT_MESSAGE (vk_envelope event) (vge_correlation_id event) max_attempts
       (fun row => vk_duplicate_matches row event) (env_now env) s)
    (fun e s' => only_supply s s' /\ adapter_refuses INGRESS_VK (vge_external_event_id event)
       (fun row => vk_duplicate_matches row event) VkClientIngressIdempotencyConflict e) env s.
Proof. adapter. Qed.

Lemma vk_accept_reply_spec event :
  wp (VkClientIngressAdapter.accept_message_reply max_attempts event)
    (adapter_answers INGRESS_VK (vre_external_event_id event) (vre_external_conversation_id event)
       VK_CLIENT_MESSAGE_REPLY (vk_reply_envelope event) (vre_correlation_id event) max_attempts
       (fun row => vk_reply_duplicate_matches row event) (env_now env) s)
    (fun e s' => only_supply s s' /\ adapter_refuses INGRESS_VK (vre_external_event_id event)
       (fun row => vk_reply_duplicate_matches row event) VkClientIngressIdempotencyConflict e) env s.
Proof. adapter. Qed.

Lemma amocrm_accept_spec event :
  wp (AmoCrmManagerIngressAdapter.accept max_attempts event)
    (adapter_answers INGRESS_AMOCRM (mge_external_message_id event) (mge_amocrm_chat_id event)
       AMOCRM_MANAGER_MESSAGE (amocrm_manager_envelope event) (mge_correlation_id event)
       max_attempts (fun row => amocrm_duplicate_matches row event) (env_now env) s)
    (fun e s' => only_supply s s' /\ adapter_refuses INGRESS_AMOCRM (mge_external_message_id event)
       (fun row => amocrm_duplicate_matches row event) IngressIdempotencyConflict e) env s.
Proof. adapter. Qed.
End Adapters.

(** The synthetic adapter compares nothing. *)
Lemma synthetic_accept_spec max_attempts event env s :
  constraints_ok s ->
  wp (SyntheticIngressAdapter.accept max_attempts event)
    (adapter_answers INGRESS_SYNTHETIC (sge_external_event_id event)
       (sge_external_conversation_id event) SYNTHETIC_MESSAGE (synthetic_envelope event)
       (sge_correlation_id event) max_attempts (fun _ => true) (env_now env) s)
    (fun e s' => only_supply s s' /\
       (exn_class e = ValueError \/ exn_class e = IngressPersistError)) env s.
Proof.
  intros Hcon. apply wp_bind, wp_assert; [intros _|by split; [apply only_supply_same|left]].
  apply wp_bind, wp_assert; [intros _|by split; [apply only_supply_same|left]].
  apply wp_bind, wp_correlation_id. intros corr n Hcorr.
  apply wp_try, wp_session_scope, wp_bind, wp_insert_if_absent; [by apply constraints_with_supply|..].
  - intros row s' Hrow. apply wp_ret. exists corr. split; [done|].
    apply (received_with_supply _ _ _ _ _ _ _ _ _ _ n). by exists row.
  - intros row Hrow. apply wp_ret. exists corr. split; [done|].
    apply (received_with_supply _ _ _ _ _ _ _ _ _ _ n). by exists row.
  - intros c msg s' _ _. cbn. apply wp_raise. split; [by exists n|by right].
Qed.

(** No dialog is touched by a delivery. *)
Lemma adapter_answers_dialog ch ext conv type envelope given max matches now s ack s' :
  adapter_answers ch ext conv type envelope given max matches now s ack s' -> same_dialog s s'.
Proof.
  intros (corr & _ & row & _ & H). destruct (ack_duplicate ack).
  - destruct H as [(_ & _ & n & ->) _]. apply with_events_same_dialog.
  - destruct H as (_ & _ & _ & n & ->). apply with_events_same_dialog.
Qed.

(** ** The VK webhook *)

Section Webhook.
Context `{PyLib} (env : Env) (s : Database).
Hypothesis Hcon : constraints_ok s.

(** The answer to a delivery of [event], [valid] by its schema: 200 when it is
    stored or not valid, 409 on a conflict, 503 when it could not be stored. *)
Definition delivery_answered (valid : bool) (ch : IngressChannel) (ext conv : string)
    (type : IngressEventType) (envelope : jdict) (matches : IngressEvent -> bool)
    (r : VkClientWebhookHttpResult) (s' : Database) : Prop :=
  r = MkVkClientWebhookHttpResult "ok" 200 /\ valid = true /\
    (exists ack, adapter_answers ch ext conv type envelope None DEFAULT_MAX_ATTEMPTS matches
       (env_now env) s ack s') \/
  r = MkVkClientWebhookHttpResult "ok" 200 /\ valid = false /\ s' = s \/
  r = MkVkClientWebhookHttpResult "conflict" 409 /\ only_supply s s' /\
    delivery_conflicts ch ext matches s \/
  r = MkVkClientWebhookHttpResult "unavailable" 503 /\ only_supply s s'.

Definition callback_answered (body : CallbackBody) (config : VkClientCallbackConfig)
    (r : VkClientWebhookHttpResult) (s' : Database) : Prop :=
  match parse_vk_client_callback body config with
  | Returned (WEBHOOK_MESSAGE m) =>
      exists event_id conversation_id,
        vk_client_external_event_id (vnm_group_id m) (vnm_from_id m)
          (vnm_conversation_message_id m) = Some event_id /\
        vk_client_external_conversation_id (vnm_group_id m) (vnm_from_id m) =
          Some conversation_id /\
        let event := MkVkClientIngressEvent event_id conversation_id (vnm_text m)
          (Some (vnm_occurred_at m)) None in
        delivery_answered (vk_ingress_event_valid event) INGRESS_VK event_id conversation_id
          VK_CLIENT_MESSAGE (vk_envelope event)
          (fun row => vk_duplicate_matches row event) r s'
  | Returned (WEBHOOK_MESSAGE_REPLY m) =>
      exists event_id conversation_id,
        vk_client_external_reply_event_id (vnr_group_id m) (vnr_peer_id m)
          (vnr_conversation_message_id m) = Some event_id /\
        vk_client_external_conversation_id (vnr_group_id m) (vnr_peer_id m) =
          Some conversation_id /\
        let event := MkVkClientMessageReplyIngressEvent event_id conversation_id
          (vnr_group_id m) (vnr_peer_id m) (vnr_conversation_message_id m)
          (vnr_provider_message_id m) (vnr_occurred_at m) (vnr_random_id m)
          (vnr_provenance m) None in
        delivery_answered (vk_reply_event_valid event) INGRESS_VK event_id conversation_id
          VK_CLIENT_MESSAGE_REPLY (vk_reply_envelope event)
          (fun row => vk_reply_duplicate_matches row event) r s'
  | Returned (WEBHOOK_CONFIRMATION text) => r = MkVkClientWebhookHttpResult text 200 /\ s' = s
  | Returned _ => r = MkVkClientWebhookHttpResult "ok" 200 /\ s' = s
  | Raised _ => False
  end.

Lemma wp_answer_refused (Q : VkClientWebhookHttpResult -> Database -> Prop)
    (X : exn -> Database -> Prop) e (s' : Database) :
  (exn_class e = VkClientIngressIdempotencyConflict ->
   Q (MkVkClientWebhookHttpResult "conflict" 409) s') ->
  (exn_class e = IngressPersistError -> Q (MkVkClientWebhookHttpResult "unavailable" 503) s') ->
  (exn_class e = ValidationError -> Q (MkVkClientWebhookHttpResult "ok" 200) s') ->
  (exn_class e = ValueError -> X e s') ->
  exn_class e ∈ [VkClientIngressIdempotencyConflict; IngressPersistError; ValidationError;
                 ValueError] ->
  if is_not_null (webhook_failure e)
  then wp (mret (default (MkVkClientWebhookHttpResult "ok" 200) (webhook_failure e))) Q X env s'
  else X e s'.
Proof.
  unfold webhook_failure. destruct e as [c msg]. cbn. intros H1 H2 H3 H4 Hc.
  rewrite !elem_of_cons, elem_of_nil in Hc.
  destruct Hc as [->|[->|[->|[->|[]]]]]; cbn; [by apply wp_ret, H1|by apply wp_ret, H2
    |by apply wp_ret, H3|by apply H4].
Qed.

(** Both kinds of messages are validated, then accepted. *)
Lemma wp_deliver {V} (o1 o2 : option string) (make : string -> string -> V) (valid : V -> bool)
    (accept : V -> Session IngressAck) ch type (envelope : V -> jdict)
    (matches : V -> IngressEvent -> bool) :
  (forall a b, let event := make a b in
     wp (accept event)
       (adapter_answers ch a b type (envelope event) None DEFAULT_MAX_ATTEMPTS (matches event)
          (env_now env) s)
       (fun e s' => only_supply s s' /\
          adapter_refuses s ch a (matches event) VkClientIngressIdempotencyConflict e) env s) ->
  wp (try_except
        (_ ← (event ← (event_id ← require_some o1 ValueError "INVALID_VK_CLIENT_ID";
                       conversation_id ← require_some o2 ValueError "INVALID_VK_CLIENT_ID";
                       let event := make event_id conversation_id in
                       _ ← assert_or_raise (valid event) ValidationError "";
                       mret event);
              accept event);
         mret (MkVkClientWebhookHttpResult "ok" 200))
        (fun e => is_not_null (webhook_failure e))
        (fun e => mret (default (MkVkClientWebhookHttpResult "ok" 200) (webhook_failure e))))
    (fun r s' => exists a b, o1 = Some a /\ o2 = Some b /\ let event := make a b in
       delivery_answered (valid event) ch a b type (envelope event) (matches event) r s')
    (fun _ s' => only_supply s s') env s.
Proof.
  intros Hacc. apply wp_try, wp_bind, wp_bind, wp_bind, wp_require_some; [intros a Ha|intros _].
  2:{ apply wp_answer_refused; try done; [intros _; apply only_supply_same|set_solver]. }
  apply wp_bind, wp_require_some; [intros b Hb|intros _].
  2:{ apply wp_answer_refused; try done; [intros _; apply only_supply_same|set_solver]. }
  cbv zeta. apply wp_bind, wp_assert; intros Hv.
  2:{ apply wp_answer_refused; try done; [intros _|set_solver].
      exists a, b. split_and!; try done. right; left. by split_and!. }
  apply wp_ret. eapply wp_mono; [by apply Hacc| |].
  - intros ack s' Hack. apply wp_ret. exists a, b. split_and!; try done.
    left. split_and!; try done. by exists ack.
  - intros e s' [Hs Href]. apply wp_answer_refused; [| | |done|].
    + intros Hc. exists a, b. split_and!; try done. right; right; left.
      destruct Href as [[_ Hd]|[E|E]]; [done|congruence..].
    + intros Hc. exists a, b. split_and!; try done. by right; right; right.
    + intros Hc. destruct Href as [[E _]|[E|E]]; congruence.
    + destruct Href as [[-> _]|[->| ->]]; set_solver.
Qed.

Lemma handle_vk_client_callback_spec body config :
  wp (handle_vk_client_callback body config) (callback_answered body config)
    (fun _ s' => only_supply s s') env s.
Proof.
  unfold handle_vk_client_callback, callback_answered. cbv zeta.
  destruct (parse_vk_client_callback body config) as [[text|m|m| |]|e];
    [by apply wp_ret| | |by apply wp_ret..|apply wp_raise, only_supply_same].
  - apply (wp_deliver (vk_client_external_event_id _ _ _) (vk_client_external_conversation_id _ _)
      (fun a b => MkVkClientIngressEvent a b (vnm_text m) (Some (vnm_occurred_at m)) None)
      vk_ingress_event_valid (VkClientIngressAdapter.accept DEFAULT_MAX_ATTEMPTS) _ _ vk_envelope
      (fun event row => vk_duplicate_matches row event)).
    intros a b. by apply vk_accept_spec.
  - apply (wp_deliver (vk_client_external_reply_event_id _ _ _)
      (vk_client_external_conversation_id _ _)
      (fun a b => MkVkClientMessageReplyIngressEvent a b (vnr_group_id m) (vnr_peer_id m)
        (vnr_conversation_message_id m) (vnr_provider_message_id m) (vnr_occurred_at m)
        (vnr_random_id m) (vnr_provenance m) None)
      vk_reply_event_valid (VkClientIngressAdapter.accept_message_reply DEFAULT_MAX_ATTEMPTS) _ _
      vk_reply_envelope (fun event row => vk_reply_duplicate_matches row event)).
    intros a b. by apply vk_accept_reply_spec.
Qed.
End Webhook.
