(* ===== verification/VkProofs.v ===== *)
(** * The VK channel: observing, answering for proof, external takeover

    The theorems about src/app/services/vk_client_inbound.py,
    src/app/services/vk_client_outbound_proof.py and
    src/app/services/vk_client_message_reply.py: a VK message moves nothing but
    the counters of its dialog and the inbox, the proof trigger replaces the
    dialog's open work by one plan, and an outgoing message of somebody else
    takes the dialog over like a manager's message. *)

From S2P Require Import Prelude BookingText Models Database Statements Conversations ReplyPlans.
From S2P Require Import Outbound SelfBooking Messages Mirror BookingFields VkClient Projections.
From S2P Require Import Inbound ManagerMessages VkObserver Bindings HandoffExpiry ReplyDispatch.
From S2P Require Import VkGate IngressQueue Ingress IngressWorker Dialog Frames ManagerProofs.
From S2P Require Import ExpiryProofs InboundProofs History IngressProofs.
Import ingress_repo.

(** ** Observing *)

(** A VK dialog may run ahead of its work: what is left behind is refused when
    it is used. *)
Lemma work_ok_observe cs ps os cid c c' :
  keys_ok cs -> cs !! cid = Some c -> conv_channel c = CHANNEL_VK -> advances c c' ->
  conv_manager_epoch c' = conv_manager_epoch c ->
  conv_handoff_state c' = conv_handoff_state c ->
  work_ok None cs ps os -> work_ok None (<[cid := c']> cs) ps os.
Proof.
  intros Hk Hc Hvk (Hid & Hch & Hv & _ & Hq) He Hst (Hps & Hos & Hpause). split_and!.
  - intros k p d Hp. rewrite lookup_insert_Some. intros [[Hpc <-]|[Hne Hd]]; [|eauto].
    destruct (Hps k p c Hp) as ((?&?&?) & Hl & Hopen); [congruence|].
    split_and!; [unfold plan_fences_le; lia|done|]. intros Ho. destruct (Hopen Ho) as [? _].
    split; [congruence|]. rewrite Hch, Hvk. done.
  - intros k o d Ho. rewrite lookup_insert_Some. intros [[Hoc <-]|[Hne Hd]]; [|by eapply Hos].
    destruct (Hos k o c Ho) as [Hclient Hdraft]; [congruence|].
    split; [intros Hdest|done]. destruct (Hclient Hdest) as [Hdisp Hcur]. split; [done|].
    intros Hun. destruct (Hcur Hun) as (?&?&_). split_and!; [congruence..|].
    rewrite Hch, Hvk. done.
  - intros k d. rewrite lookup_insert_Some. intros [[<- <-]|[Hne Hd]] Hex; [|by apply (Hpause k)].
    intros Hp. rewrite Hst in Hp. destruct (Hpause cid c Hc Hex Hp) as [E _]. congruence.
Qed.

Definition known_vk_inbox (event : VkClientInboundEvent) (m : InboxMessage) : Prop :=
  inbox_channel m = CHANNEL_VK /\ inbox_external_message_id m = vie_external_message_id event.

(** [s1] with the new message [m] of the dialog [c], now [c']. *)
Definition observed (c c' : Conversation) (m : InboxMessage) (n : N) (s1 : Database) : Database :=
  s1 <| db_conversations := <[conv_id c := c']> (db_conversations s1) |>
     <| db_inbox_messages := <[inbox_id m := m]> (db_inbox_messages s1) |>
     <| db_uuid_supply := n |>.

(** What the observer leaves: a repetition changes nothing, a new message is
    stored and advances the dialog's context version and event number. *)
Definition observer_post (env : Env) (event : VkClientInboundEvent) (s : Database)
    (r : VkClientInboundAcceptResult) (s' : Database) : Prop :=
  let m := var_inbox r in
  exists c s1,
    opened s c s1 /\ conv_channel c = CHANNEL_VK /\
    conv_external_conversation_id c = vie_external_conversation_id event /\
    known_vk_inbox event m /\ inbox_conversation_id m = conv_id c /\
    var_created_inbox r = negb (var_duplicate r) /\
    if var_duplicate r then
      var_conversation r = c /\ s' = s1 /\ db_inbox_messages s !! inbox_id m = Some m
    else
      (forall k m0, db_inbox_messages s !! k = Some m0 -> ~ known_vk_inbox event m0) /\
      var_conversation r =
        bumped env (default (env_wall_clock env) (vie_received_at event)) c /\
      inbox_conversation_event_seq m = conv_current_event_seq c + 1 /\
      exists n, s' = observed c (var_conversation r) m n s1.

Lemma bumped_advances env at_ c :
  advances c (bumped env at_ c) /\
  conv_current_event_seq (bumped env at_ c) = conv_current_event_seq c + 1 /\
  conv_context_version (bumped env at_ c) = conv_context_version c + 1 /\
  conv_manager_epoch (bumped env at_ c) = conv_manager_epoch c /\
  conv_handoff_state (bumped env at_ c) = conv_handoff_state c.
Proof. unfold advances, bumped. cbn. split_and!; lia || done. Qed.

Lemma observed_ok s1 env at_ c m n :
  dialog_ok s1 -> db_conversations s1 !! conv_id c = Some c -> conv_channel c = CHANNEL_VK ->
  inbox_conversation_id m = conv_id c ->
  inbox_conversation_event_seq m = conv_current_event_seq c + 1 ->
  constraints_ok (observed c (bumped env at_ c) m n s1) ->
  dialog_ok (observed c (bumped env at_ c) m n s1).
Proof.
  intros (Hcon & Hw & Hq) Hc Hvk Hmc Hseq Hcon'.
  destruct (bumped_advances env at_ c) as (Ha & E1 & _ & E2 & E3).
  split; [done|]. cbn. split.
  - eapply work_ok_observe; eauto using conversations_keyed.
  - apply event_seqs_ok_inbox; eauto using conversations_keyed.
Qed.

Lemma wp_observer_accept event env s :
  dialog_ok s ->
  wp (VkClientInboundService.accept event)
    (fun r s' => constraints_ok s' -> dialog_ok s' /\ observer_post env event s r s')
    (fun _ _ => True) env s.
Proof.
  intros Hok. unfold VkClientInboundService.accept. apply wp_bind, wp_assert; [intros _|done].
  apply wp_bind, wp_get_env. cbv zeta. set (at_ := default _ _).
  apply wp_bind, wp_get_or_create_opened; [done| |done]. intros c b s1 Hop Hok1 Hch Hext.
  pose proof (opened_lookup _ _ _ Hop) as Hc. pose proof Hok1 as [Hcon1 _].
  apply wp_bind, wp_lock_for_update; [|done]. intros c0 Hc0. assert (c0 = c) as -> by congruence.
  apply wp_bind. unfold VkClientInboundService.take_inbox. apply wp_bind, wp_get_inbox_by_external.
  - intros k m Hm Hmch Hmext. apply wp_ret. apply wp_bind, wp_assert; [|done].
    rewrite bool_decide_eq_true. intros Hmc. apply wp_bind, wp_ret, wp_ret. intros _.
    split; [done|]. destruct (inbox_checked s1 k m Hcon1 Hm) as [Hk _]. exists c, s1. cbn.
    split_and!; try done. rewrite Hk, <- (opened_same_inbox _ _ _ Hop). done.
  - intros Hno. apply wp_bind, wp_allocate_next_event_seq; [by apply conversations_keyed|done| |done].
    apply wp_bind, wp_insert_inbox_new; [done|exact Hno|].
    intros m n Hmc Hmch Hmext Hseq _ _. apply wp_ret. apply wp_bind, wp_assert; [intros _|done].
    apply wp_bind, wp_bind, wp_db_now, wp_bind.
    eapply wp_update_by_id with (r := conversation_repo.allocate_next_event_seq_values (env_now env) c);
      dbsimpl; [|apply lookup_insert_eq|done| |done|done].
    { apply keys_ok_insert; [by apply conversations_keyed|done]. }
    intros _ _. apply wp_bind, wp_assert; [intros _|done].
    eapply wp_refresh; [dbsimpl; apply lookup_insert_eq|]. apply wp_ret. intros Hcon'.
    dbsimpl. rewrite insert_insert_eq in *. change (conv_id (conversation_repo.allocate_next_event_seq_values (env_now env) c)) with (conv_id c) in *.
    split; [by apply (observed_ok s1 env at_ c m n)|].
    exists c, s1. cbn. split_and!; try done.
    + rewrite <- (opened_same_inbox _ _ _ Hop). exact Hno.
    + by exists n.
Qed.

(** ** The proof plan *)

(** The gate of [maybe_create_vk_client_proof_reply_plan]. *)
Definition proof_due (settings : Settings) (config : option VkClientOutboundConfig)
    (c : Conversation) (text : string) (created : bool) : bool :=
  created && match config with
  | Some config =>
      bool_decide (conv_channel c = CHANNEL_VK) &&
      vk_client_outbound_proof_allowed settings config (conv_external_conversation_id c) text
  | None => false
  end.

(** The plan of the proof trigger: current, due after the response delay, the
    only open one of the dialog. *)
Definition proof_planned (env : Env) (c c' : Conversation) (p : ReplyPlan)
    (s s' : Database) : Prop :=
  conv_active_reply_plan_id c' = Some (rp_id p) /\ same_fences c c' /\
  conv_handoff_state c' = conv_handoff_state c /\
  conv_handoff_deadline_at c' = conv_handoff_deadline_at c /\
  db_conversations s' = <[conv_id c := c']> (db_conversations s) /\
  db_inbox_messages s' = db_inbox_messages s /\ db_manager_messages s' = db_manager_messages s /\
  db_reply_plans s' !! rp_id p = Some p /\ rp_conversation_id p = conv_id c /\
  rp_status p = RP_PENDING /\ plan_fences_eq c' p /\
  rp_not_before p = At (env_now env + milliseconds BOT_RESPONSE_DELAY_MS) /\
  only_open_plan s' (conv_id c) (Some p) /\ untouched_outside (conv_id c) s s'.

Definition proof_post (env : Env) (settings : Settings) (config : option VkClientOutboundConfig)
    (c : Conversation) (text : string) (created : bool) (s : Database)
    (plan : option ReplyPlan) (s' : Database) : Prop :=
  match plan with
  | None => proof_due settings config c text created = false /\ s' = s
  | Some p => proof_due settings config c text created = true /\
      exists c', proof_planned env c c' p s s'
  end.

Section ProofPlan.
Context (env : Env) (s sF : Database) (c c' : Conversation) (p : ReplyPlan).
Let now := env_now env.
Let ps := sql_update (reply_plan_repo.open_plan_of (conv_id c))
  (reply_plan_repo.close_plan_values RP_SUPERSEDED "VK_CLIENT_PROOF_TRIGGER" now)
  (db_reply_plans s).
Let os := sql_update (outbound_repo.unadmitted_of (conv_id c)) (outbound_repo.cancel_values now)
  (db_outbox_messages s).
Hypothesis Hok : dialog_ok s.
Hypothesis Hc : db_conversations s !! conv_id c = Some c.
Hypothesis Hvk : conv_channel c = CHANNEL_VK.
Hypothesis Hsame : same_fences c c'.
Hypothesis Hstate : conv_handoff_state c' = conv_handoff_state c.
Hypothesis Hdeadline : conv_handoff_deadline_at c' = conv_handoff_deadline_at c.
Hypothesis Hfresh : ps !! rp_id p = None.
Hypothesis Hpc : rp_conversation_id p = conv_id c.
Hypothesis Hpst : rp_status p = RP_PENDING.
Hypothesis Hpf : plan_fences_eq c p.
Hypothesis Hcs : db_conversations sF = <[conv_id c := c']> (db_conversations s).
Hypothesis Hps : db_reply_plans sF = <[rp_id p := p]> ps.
Hypothesis Hos : db_outbox_messages sF = os.
Hypothesis His : db_inbox_messages sF = db_inbox_messages s.
Hypothesis Hms : db_manager_messages sF = db_manager_messages s.
Hypothesis HconF : constraints_ok sF.

Lemma same_fences_advances : advances c c'.
Proof. destruct Hsame as (?&?&?&?&_&_&?). unfold advances. split_and!; congruence || lia. Qed.

Lemma proof_plan_ok : dialog_ok sF.
Proof.
  pose proof Hok as (Hcon & Hw & Hq). destruct Hsame as (E1 & E2 & E3 & E4 & _ & _ & E5).
  pose proof same_fences_advances as Hadv.
  split; [done|]. rewrite Hcs, Hps, Hos, His, Hms. split.
  - apply work_ok_pause with (cid := conv_id c) (c := c'); [apply lookup_insert_eq| |].
    + apply work_ok_insert_plan with (c := c'); [apply lookup_insert_eq| |done|done| |done|].
      * apply work_ok_revoke with (c := c); auto using work_ok_weaken, conversations_keyed.
        by right.
      * destruct Hpf as (?&?&?). split_and!; congruence.
      * rewrite E5, Hvk. done.
    + intros Hp. rewrite Hstate in Hp. destruct Hw as (_ & _ & Hpause).
      destruct (Hpause (conv_id c) c Hc ltac:(done) Hp) as [E _]. congruence.
  - apply event_seqs_ok_advance with (c := c); auto using conversations_keyed.
Qed.

Lemma proof_plan_planned :
  conv_active_reply_plan_id c' = Some (rp_id p) ->
  rp_not_before p = At (now + milliseconds BOT_RESPONSE_DELAY_MS) ->
  proof_planned env c c' p s sF.
Proof.
  intros Hact Hnb. pose proof Hsame as (E1 & E2 & E3 & E4 & _ & _ & E5).
  destruct Hpf as (F1 & F2 & F3).
  split_and!; try done; try congruence.
  - rewrite Hps. apply lookup_insert_eq.
  - split_and!; congruence.
  - split; [rewrite Hps|rewrite Hos].
    + intros k q. rewrite lookup_insert_Some. intros [[_ <-]|[_ Hq]]; [done|].
      intros Hqc Ho. exfalso. unfold ps in Hq. apply lookup_sql_update_Some in Hq as (q0 & _ & ->).
      destruct (reply_plan_repo.open_plan_of (conv_id c) q0) eqn:E; [done|].
      apply not_true_iff_false in E. apply E, open_plan_of_true. done.
    + intros k o. unfold os. rewrite lookup_sql_update_Some. intros (o0 & _ & ->) Hoc Hd.
      destruct (outbound_repo.unadmitted_of (conv_id c) o0) eqn:E; [done|].
      unfold outbound_repo.unadmitted_of in E. rewrite Hd in E.
      by rewrite bool_decide_eq_true_2, andb_true_l in E.
  - split_and!; [|intros k q Hq Hne; rewrite Hps, lookup_insert_ne|].
    + intros k Hne. rewrite Hcs, lookup_insert_ne; done.
    + unfold ps. by apply lookup_outside_plans.
    + intros <-. unfold ps in Hfresh. rewrite lookup_sql_update, Hq in Hfresh. done.
    + intros k o Ho Hcase. rewrite Hos. unfold os. by apply lookup_outside_outbox.
Qed.
End ProofPlan.

Lemma wp_proof_plan settings config c text created env s :
  dialog_ok s -> db_conversations s !! conv_id c = Some c ->
  wp (maybe_create_vk_client_proof_reply_plan settings config c text created)
    (fun r s' => constraints_ok s' ->
       dialog_ok s' /\ proof_post env settings config c text created s r.2 s')
    (fun _ _ => True) env s.
Proof.
  intros Hok Hc. pose proof Hok as [Hcon _]. unfold maybe_create_vk_client_proof_reply_plan.
  assert (proof_due settings config c text created = false ->
    wp (mret (c, None)) (fun r s' => constraints_ok s' ->
       dialog_ok s' /\ proof_post env settings config c text created s r.2 s')
    (fun _ _ => True) env s) as Hnone by (intros; by apply wp_ret).
  apply wp_if; [rewrite negb_true_iff; intros ->; apply Hnone; done|].
  rewrite negb_false_iff. intros ->.
  destruct config as [config|]; [|apply Hnone; done].
  apply wp_if.
  { rewrite negb_true_iff. intros E. apply Hnone. unfold proof_due. by rewrite E. }
  rewrite negb_false_iff, bool_decide_eq_true. intros Hvk.
  apply wp_if.
  { rewrite negb_true_iff. intros E. apply Hnone. unfold proof_due.
    by rewrite E, andb_false_r. }
  rewrite negb_false_iff. intros Hgate. apply wp_bind, wp_require_some; [|done]. intros reply _.
  apply wp_bind, wp_bind, wp_db_now, wp_update_where_any; [|done].
  apply wp_bind, wp_bind, wp_db_now, wp_update_where_any; [|done].
  apply wp_bind, wp_uuid4, wp_bind, wp_create_client_reply_plan; [done|]. dbsimpl.
  intros p n (Hpc & Hv & He & Hq & _ & Hst & Hnb & _) Hfresh.
  apply wp_bind, wp_assign_active_reply_plan_id; dbsimpl;
    [by apply conversations_keyed|done| |done].
  intros u. apply wp_ret. intros HconF. cbn [fst snd].
  set (c' := c <| conv_active_reply_plan_id := Some (rp_id p) |> <| conv_updated_at := u |>) in *.
  split; [by eapply (proof_plan_ok env s _ c c' p)|]. split.
  { unfold proof_due. by rewrite bool_decide_eq_true_2, Hgate. }
  exists c'. by eapply proof_plan_planned.
Qed.

(** ** A VK message as the worker applies it *)

Definition vk_client_result (a : VkClientInboundAcceptResult) (e : IngressEvent)
    : IngressProcessResult :=
  MkIngressProcessResult (ing_id e) (ing_status e) (var_duplicate a)
    (Some (inbox_id (var_inbox a))) None (Some (conv_id (var_conversation a))).

(** The message is observed, then the proof trigger may plan one reply. *)
Definition vk_client_goal (env : Env) (settings : Settings)
    (config : option VkClientOutboundConfig) (inbound : VkClientInboundEvent) (s : Database)
    (a : VkClientInboundAcceptResult) (s' : Database) : Prop :=
  dialog_ok s' /\
  exists s1 plan,
    observer_post env inbound s a s1 /\
    proof_post env settings config (var_conversation a) (vie_text inbound)
      (var_created_inbox a) s1 plan s'.

Lemma observer_lookup env event s a s1 :
  observer_post env event s a s1 ->
  db_conversations s1 !! conv_id (var_conversation a) = Some (var_conversation a).
Proof.
  intros (c & s0 & Hop & _ & _ & _ & _ & _ & H). destruct (var_duplicate a).
  - destruct H as (-> & -> & _). by eapply opened_lookup.
  - destruct H as (_ & E & _ & n & ->). rewrite E. unfold observed. cbn.
    change (conv_id (bumped env _ c)) with (conv_id c). apply lookup_insert_eq.
Qed.

Lemma vk_client_in_session_spec settings config claim inbound env s :
  dialog_ok s ->
  wp (session_scope (vk_client_in_session settings config claim inbound))
    (fun r s' => dialog_ok s' /\
       event_applied env claim vk_client_result (vk_client_goal env settings config inbound s)
         s r s')
    (fun _ s' => s' = s) env s.
Proof.
  intros Hok. pose proof Hok as [Hcon _].
  apply wp_session_scope_keeps; [solve_respects|done|]. unfold vk_client_in_session.
  apply wp_bind_event; [solve_respects..|done|].
  eapply wp_mono; [by apply wp_observer_accept| |done]. intros a s1 HG Hcon1 Hs1.
  destruct (HG Hcon1) as [Hok1 Hobs].
  apply wp_bind_event; [solve_respects..|done|].
  eapply wp_mono; [apply wp_proof_plan; [done|by eapply observer_lookup]| |done].
  intros plan s2 HP Hcon2 Hs2. destruct (HP Hcon2) as [Hok2 Hproof].
  eapply wp_mono; [apply (wp_end_event a vk_client_result
    (vk_client_goal env settings config inbound s) claim env s s2); [done|by etrans|]| |done].
  - split; [done|]. by exists s1, plan.2.
  - intros r s' Happ Hcon'. split; [|done]. destruct Happ as (a' & s1' & e & _ & [Hok1' _] & _ & ->).
    eapply dialog_ok_same; [exact Hok1'|apply with_ingress_same_dialog|done].
Qed.

(** ** An outgoing message of the community *)

(** [k] names the VK row [o] of the dialog. *)
Definition vk_row (s : Database) (cid k : uuid) (o : OutboxMessage) : Prop :=
  db_outbox_messages s !! k = Some o /\ ob_conversation_id o = cid /\
  ob_destination_type o = VK_CLIENT_OUTBOUND.

Section OwnEcho.
Context `{PyLib} (provenance : VkReplyProvenanceTechnical) (provenance_key : option string).

(** The message may be the row's echo: it carries no marker, or the authentic
    marker of this row. *)
Definition may_echo (k : uuid) : Prop :=
  provenance = PROVENANCE_ABSENT \/
  exists key, provenance_key = Some key /\
    verify_vk_outbound_provenance_technical provenance key = Returned (Some k).

(** What the classification says of the stored rows. *)
Definition echo_class (s : Database) (cid : uuid) (provider_message_id : Z)
    (own : VkClientReplyClassification) : Prop :=
  match own with
  | OWN_TEYA_ECHO => exists k o, vk_row s cid k o /\ may_echo k /\
      ob_provider_message_id o = Some provider_message_id
  | OWN_ECHO_RACE_RETRY => exists k o, vk_row s cid k o /\ may_echo k /\
      ob_provider_message_id o = None /\ ob_delivery_status o = OB_ADMITTED
  | EXTERNAL_ACTOR => forall k o, vk_row s cid k o -> may_echo k ->
      ob_provider_message_id o <> Some provider_message_id /\
      (ob_provider_message_id o = None -> ob_delivery_status o <> OB_ADMITTED)
  | _ => False
  end.

Lemma wp_classify_own_echo c provider_message_id (Q : VkClientReplyClassification -> Database -> Prop)
    (X : exn -> Database -> Prop) env s :
  0 < provider_message_id ->
  (forall own, echo_class s (conv_id c) provider_message_id own -> Q own s) ->
  (forall e s', X e s') ->
  wp (classify_own_echo c provider_message_id provenance provenance_key) Q X env s.
Proof.
  intros Hpos HQ HX. unfold classify_own_echo.
  assert (provenance = PROVENANCE_FOREIGN ->
    forall k, ~ may_echo k) as Hforeign.
  { intros E k [E'|(key & _ & Hv)]; [congruence|]. rewrite E in Hv.
    unfold verify_vk_outbound_provenance_technical in Hv. by destruct (String.eqb key ""). }
  destruct provenance as [| |oid mac] eqn:Eprov.
  - apply wp_bind. unfold outbound_repo.find_vk_outbound_by_provider_message_id.
    apply wp_if; [intros Hle%Z.leb_le; lia|]. intros _. apply wp_select_scalar.
    + intros k o Ho. rewrite !andb_true_iff, !bool_decide_eq_true, sql_eq_true.
      intros [[Hc Hd] Hp]. apply wp_if; [|done]. intros _. apply wp_ret, HQ.
      exists k, o. split_and!; try done. by left.
    + intros Hno. apply wp_if; [done|]. intros _. apply wp_bind.
      unfold outbound_repo.has_admitted_vk_outbound_without_provider_id.
      apply wp_bind, wp_select_scalar.
      * intros k o Ho. rewrite !andb_true_iff, !bool_decide_eq_true.
        intros [[[Hc Hd] Ha] Hp]. apply wp_ret, wp_if; [|done]. intros _. apply wp_ret, HQ.
        exists k, o. split_and!; try done; [by left|]. by destruct (ob_provider_message_id o).
      * intros Hno2. apply wp_ret, wp_if; [done|]. intros _. apply wp_ret, HQ.
        intros k o (Ho & Hc & Hd) _. specialize (Hno k o Ho). specialize (Hno2 k o Ho).
        rewrite !bool_decide_eq_true_2 in Hno, Hno2 by done. cbn in Hno, Hno2. split.
        -- intros E. rewrite E in Hno. unfold sql_eq in Hno. by rewrite bool_decide_eq_true_2 in Hno.
        -- intros E E2. rewrite E, E2 in Hno2. done.
  - apply wp_ret, HQ. intros k o _ Hm. by destruct (Hforeign eq_refl k).
  - unfold classify_candidate.
    assert ((forall key, provenance_key = Some key ->
      verify_vk_outbound_provenance_technical (PROVENANCE_BOT_TV_CANDIDATE oid mac) key =
        Returned None) -> Q EXTERNAL_ACTOR s) as Hext.
    { intros Hv. apply HQ. intros k o _ [E|(key & Ek & E)]; [congruence|].
      rewrite Eprov, (Hv key Ek) in E. done. }
    destruct provenance_key as [key|] eqn:Ekey; [|by apply wp_ret, Hext].
    apply wp_if; [rewrite String.eqb_eq; intros ->; apply wp_ret, Hext; by intros ? [= <-]|].
    intros _. apply wp_bind.
    destruct (verify_vk_outbound_provenance_technical (PROVENANCE_BOT_TV_CANDIDATE oid mac) key)
      as [[k|]|e] eqn:Hv; [apply wp_ret|apply wp_ret, wp_ret, Hext; by intros ? [= <-]
        |apply wp_raise, HX].
    assert (forall k', may_echo k' -> k' = k) as Honly.
    { intros k' [E|(key' & E0 & E)]; [congruence|]. rewrite Ekey in E0. injection E0 as <-.
      rewrite Eprov, Hv in E. by injection E. }
    assert (may_echo k) as Hk by (right; exists key; by rewrite Eprov).
    apply wp_bind, wp_bind, wp_get_by_id. dbsimpl.
    assert ((forall o, vk_row s (conv_id c) k o -> False) -> Q EXTERNAL_ACTOR s) as Hnone.
    { intros Hf. apply HQ. intros k' o Hr ->%Honly. by destruct (Hf o). }
    destruct (db_outbox_messages s !! k) as [o|] eqn:Ho;
      [|apply wp_ret, wp_ret, Hnone; intros o (E & _); congruence].
    apply wp_if.
    { rewrite negb_true_iff, bool_decide_eq_false. intros Hc. apply wp_ret, wp_ret, Hnone.
      intros o' (E & E2 & _). congruence. }
    rewrite negb_false_iff, bool_decide_eq_true. intros Hc. apply wp_if.
    { rewrite negb_true_iff, bool_decide_eq_false. intros Hd. apply wp_ret, wp_ret, Hnone.
      intros o' (E & _ & E2). congruence. }
    rewrite negb_false_iff, bool_decide_eq_true. intros Hd. apply wp_ret.
    assert (vk_row s (conv_id c) k o) as Hrow by done.
    assert (ob_provider_message_id o <> Some provider_message_id ->
      (ob_provider_message_id o = None -> ob_delivery_status o <> OB_ADMITTED) ->
      Q EXTERNAL_ACTOR s) as Hother.
    { intros H1 H2. apply HQ. intros k' o' (E & _) ->%Honly. by assert (o' = o) as -> by congruence. }
    destruct (ob_provider_message_id o) as [id|] eqn:Hid; apply wp_if.
    + intros ->%Z.eqb_eq. apply wp_ret, HQ. by exists k, o.
    + intros Hne%Z.eqb_neq. apply wp_ret, Hother; [|done]. congruence.
    + rewrite bool_decide_eq_true. intros Ha. apply wp_ret, HQ. by exists k, o.
    + rewrite bool_decide_eq_false. intros Ha. by apply wp_ret, Hother.
Qed.
End OwnEcho.

(** What the envelope of a reply says. *)
Definition reply_decoded (envelope : jdict) (ext : string) (pmid cmid : Z)
    (provenance : VkReplyProvenanceTechnical) : Prop :=
  jget envelope "external_conversation_id" = Some (JStr ext) /\
  positive_int (jget envelope "provider_message_id") = Some pmid /\
  positive_int (jget envelope "conversation_message_id") = Some cmid /\
  from_envelope_fragment (jget envelope "provenance") = Some provenance.

Lemma positive_int_pos v z : positive_int v = Some z -> 0 < z.
Proof.
  unfold positive_int. destruct v as [[]|]; try done. destruct (Z.leb_spec z0 0); [done|].
  by intros [= <-].
Qed.

(** Somebody else answered: the dialog as [apply_external_actor] leaves it. *)
Definition externally_taken (cmid : Z) (deadline : tstz) (c c' : Conversation) : Prop :=
  conv_status c <> CLOSED /\
  (forall hwm, conv_vk_client_external_reply_hwm c = Some hwm -> hwm < cmid) /\
  conv_vk_client_external_reply_hwm c' = Some cmid /\
  conv_context_version c' = conv_context_version c + 1 /\
  conv_manager_epoch c' = conv_manager_epoch c + 1 /\
  conv_current_event_seq c' = conv_current_event_seq c /\
  conv_status c' = HANDOFF /\ conv_ownership c' = MANAGER /\
  conv_handoff_state c' = HUMAN_ACTIVE /\ conv_handoff_deadline_at c' = Some deadline.

Section Reply.
Context `{PyLib} (env : Env) (pause : Z) (config : VkClientExternalTakeoverConfig).
Context (s : Database).

(** Why a reply leaves the dialog alone. *)
Definition reply_ignored (ext : string) (pmid cmid : Z) (provenance : VkReplyProvenanceTechnical)
    (r : VkClientMessageReplyApplyResult) : Prop :=
  let found P := exists cid c, vrr_conversation_id r = Some cid /\
    db_conversations s !! cid = Some c /\ conv_channel c = CHANNEL_VK /\
    conv_external_conversation_id c = ext /\ P cid c in
  match vrr_classification r with
  | FEATURE_OFF => fsm_mutation_allowed config ext = false
  | UNRESOLVED_CONVERSATION => forall k c, db_conversations s !! k = Some c ->
      ~ (conv_channel c = CHANNEL_VK /\ conv_external_conversation_id c = ext)
  | OWN_TEYA_ECHO => found (fun cid _ =>
      echo_class provenance (vet_provenance_key config) s cid pmid OWN_TEYA_ECHO)
  | CONVERSATION_CLOSED => found (fun _ c => conv_status c = CLOSED)
  | REPLY_STALE => found (fun _ c =>
      exists hwm, conv_vk_client_external_reply_hwm c = Some hwm /\ cmid <= hwm)
  | _ => False
  end.

Definition reply_goal (envelope : jdict) (r : VkClientMessageReplyApplyResult)
    (s' : Database) : Prop :=
  dialog_ok s' /\
  exists ext pmid cmid provenance,
    reply_decoded envelope ext pmid cmid provenance /\
    if vrr_fsm_changed r then
      fsm_mutation_allowed config ext = true /\ vrr_classification r = EXTERNAL_ACTOR /\
      exists cid c c',
        vrr_conversation_id r = Some cid /\ db_conversations s !! cid = Some c /\
        conv_channel c = CHANNEL_VK /\ conv_external_conversation_id c = ext /\
        echo_class provenance (vet_provenance_key config) s cid pmid EXTERNAL_ACTOR /\
        db_conversations s' !! cid = Some c' /\
        externally_taken cmid
          (At (env_statement_timestamp env (db_statement_clock s) + seconds pause)) c c' /\
        revoked s' cid /\ untouched_outside cid s s'
    else s' = s /\ reply_ignored ext pmid cmid provenance r.

Context (ext : string) (pmid cmid : Z) (provenance : VkReplyProvenanceTechnical) (envelope : jdict).
Context (c : Conversation).
Hypothesis Hok : dialog_ok s.
Hypothesis Hdec : reply_decoded envelope ext pmid cmid provenance.
Hypothesis Hgate : fsm_mutation_allowed config ext = true.
Hypothesis Hc : db_conversations s !! conv_id c = Some c.
Hypothesis Hvk : conv_channel c = CHANNEL_VK.
Hypothesis Hext : conv_external_conversation_id c = ext.
Hypothesis Hecho : echo_class provenance (vet_provenance_key config) s (conv_id c) pmid EXTERNAL_ACTOR.
Hypothesis Hopen : conv_status c <> CLOSED.
Hypothesis Hhwm : forall hwm, conv_vk_client_external_reply_hwm c = Some hwm -> hwm < cmid.

Lemma external_taken_goal c2 x y sF :
  let moment := env_statement_timestamp env (db_statement_clock s) in
  c2 = c \/ c2 = conversation_repo.clear_active_handoff_quarantine_values moment c ->
  let c3 := conversation_repo.apply_chronologically_new_vk_external_reply_values cmid moment
              pause c2 in
  db_conversations sF = <[conv_id c := c3]> (db_conversations s) ->
  db_reply_plans sF =
    sql_update (reply_plan_repo.open_plan_of (conv_id c))
      (reply_plan_repo.close_plan_values RP_CANCELLED "VK_CLIENT_EXTERNAL_REPLY" (env_now env))
      (db_reply_plans s) ->
  db_outbox_messages sF =
    sql_update (outbound_repo.unadmitted_of (conv_id c))
      (outbound_repo.cancel_values (env_now env)) (db_outbox_messages s) ->
  db_inbox_messages sF = db_inbox_messages s ->
  db_manager_messages sF = db_manager_messages s -> constraints_ok sF ->
  reply_goal envelope
    (MkVkClientMessageReplyApplyResult EXTERNAL_ACTOR (Some (conv_id c)) true x y) sF.
Proof.
  intros moment Hc2 c3 Hcs Hps Hos His Hms HconF. pose proof Hok as (Hcon & _ & Hq).
  assert (conv_id c3 = conv_id c) as Hid by (by destruct Hc2 as [->| ->]).
  assert (advances c c3) as Hadv.
  { unfold advances, c3. destruct Hc2 as [->| ->]; cbn; split_and!; lia || done. }
  destruct (manager_activity_ok s sF (conv_id c) c c3 "VK_CLIENT_EXTERNAL_REPLY" (env_now env))
    as (Hok' & Hout & Hrev); try done.
  { rewrite His, Hms. apply event_seqs_ok_advance with (c := c); auto using conversations_keyed. }
  split; [done|]. exists ext, pmid, cmid, provenance.
  cbn [vrr_fsm_changed vrr_classification vrr_conversation_id]. split_and!; try done.
  exists (conv_id c), c, c3. rewrite Hcs, lookup_insert_eq. split_and!; try done.
  split_and!; try done; unfold c3; destruct Hc2 as [->| ->]; cbn; lia || done.
Qed.

Lemma wp_external_actor :
  wp (apply_external_actor c cmid pause)
    (fun r s' => constraints_ok s' -> reply_goal envelope r s') (fun _ _ => True) env s.
Proof.
  pose proof Hok as (Hcon & _). pose proof (conversations_keyed s Hcon) as Hk.
  unfold apply_external_actor. apply wp_bind, wp_db_statement_now.
  set (moment := env_statement_timestamp env (db_statement_clock s)).
  apply wp_bind, wp_apply_chronologically_new_vk_external_reply; dbsimpl; [done|done| |done].
  intros c2 b evs n Hc2 _. cbv zeta.
  apply wp_bind, wp_bind, wp_db_now, wp_update_where_any; [|done].
  apply wp_bind, wp_bind, wp_db_now, wp_update_where_any; [|done].
  assert (conv_id (conversation_repo.apply_chronologically_new_vk_external_reply_values cmid
    moment pause c2) = conv_id c) as Hid by (by destruct Hc2 as [->| ->]).
  rewrite !Hid. apply wp_bind, wp_when; intros _.
  - apply wp_bind, wp_uuid4, wp_bind, wp_enqueue_manager_takeover; [done|].
    intros _ jobs u. apply wp_ret, wp_ret. intros HconF.
    rewrite ?Hid. by eapply external_taken_goal.
  - apply wp_ret. intros HconF. rewrite ?Hid. by eapply external_taken_goal.
Qed.
End Reply.

Lemma wp_vk_reply `{PyLib} envelope pause config env s :
  dialog_ok s ->
  wp (apply_vk_client_message_reply_in_session envelope pause config)
    (fun r s' => constraints_ok s' -> reply_goal env pause config s envelope r s')
    (fun _ _ => True) env s.
Proof.
  intros Hok. pose proof Hok as [Hcon _]. unfold apply_vk_client_message_reply_in_session.
  destruct (jget envelope "external_conversation_id") as [[]|] eqn:E1; try by apply wp_raise.
  rename s0 into ext.
  destruct (positive_int (jget envelope "provider_message_id")) as [pmid|] eqn:E2;
    [|by apply wp_raise].
  destruct (positive_int (jget envelope "conversation_message_id")) as [cmid|] eqn:E3;
    [|by apply wp_raise].
  destruct (from_envelope_fragment (jget envelope "provenance")) as [provenance|] eqn:E4;
    [|by apply wp_raise].
  assert (reply_decoded envelope ext pmid cmid provenance) as Hdec by done.
  assert (forall r, vrr_fsm_changed r = false ->
    reply_ignored config s ext pmid cmid provenance r ->
    wp (mret r) (fun r s' => constraints_ok s' -> reply_goal env pause config s envelope r s')
      (fun _ _ => True) env s) as Hsame.
  { intros r Hf Hr. apply wp_ret. intros _. split; [done|].
    exists ext, pmid, cmid, provenance. rewrite Hf. by split_and!. }
  apply wp_if; [intros; by apply wp_raise|]. intros _.
  apply wp_if; [rewrite negb_true_iff; intros Hoff; by apply Hsame|].
  rewrite negb_false_iff. intros Hgate. apply wp_bind, wp_get_by_channel_external;
    [|intros Hno; by apply Hsame].
  intros k c Hk Hvk Hext. pose proof (conversation_key s k c Hcon Hk) as <-.
  apply wp_bind, wp_lock_for_update; [|done]. intros c0 Hc0. assert (c0 = c) as -> by congruence.
  apply wp_bind, wp_classify_own_echo; [by eapply positive_int_pos| |done]. intros own Hown.
  unfold apply_classified_reply.
  assert (forall cl, reply_ignored config s ext pmid cmid provenance
      (reply_unchanged cl (Some (conv_id c))) ->
    wp (mret (reply_unchanged cl (Some (conv_id c))))
      (fun r s' => constraints_ok s' -> reply_goal env pause config s envelope r s')
      (fun _ _ => True) env s) as Hun by (intros; by apply Hsame).
  apply wp_if; [intros; by apply wp_raise|]. rewrite bool_decide_eq_false. intros Hrace.
  apply wp_if.
  { rewrite bool_decide_eq_true. intros ->. apply Hun. by exists (conv_id c), c. }
  rewrite bool_decide_eq_false. intros Hnown. apply wp_if.
  { rewrite bool_decide_eq_true. intros Hcl. apply Hun. by exists (conv_id c), c. }
  rewrite bool_decide_eq_false. intros Hopen.
  destruct (classify_manager_sequence _ _) eqn:Hcls.
  - apply wp_external_actor with (ext := ext) (pmid := pmid) (provenance := provenance); try done.
    + by destruct own.
    + by apply classify_new.
  - apply Hun. exists (conv_id c), c. split_and!; try done. cbn in Hcls.
    destruct (conv_vk_client_external_reply_hwm c) as [hwm|]; [|done]. exists hwm.
    destruct (Z.ltb_spec hwm cmid); done.
  - exfalso. cbn in Hcls. destruct (conv_vk_client_external_reply_hwm c); [|done].
    by destruct (_ <? _).
Qed.

Definition vk_reply_result (a : VkClientMessageReplyApplyResult) (e : IngressEvent)
    : IngressProcessResult :=
  MkIngressProcessResult (ing_id e) (ing_status e) false None None (vrr_conversation_id a).

Lemma vk_reply_in_session_spec `{PyLib} pause config claim env s :
  dialog_ok s ->
  wp (session_scope (vk_reply_in_session pause config claim))
    (fun r s' => dialog_ok s' /\
       event_applied env claim vk_reply_result
         (reply_goal env pause config s (igc_envelope_json claim)) s r s')
    (fun _ s' => s' = s) env s.
Proof.
  intros Hok. pose proof Hok as [Hcon _].
  apply wp_session_scope_keeps; [solve_respects|done|]. unfold vk_reply_in_session.
  apply wp_bind_event; [solve_respects..|done|].
  eapply wp_mono; [by apply wp_vk_reply| |done]. intros a s1 HG Hcon1 Hs.
  eapply wp_mono; [apply (wp_end_event a vk_reply_result
    (reply_goal env pause config s (igc_envelope_json claim)) claim env s s1); auto| |done].
  intros r s' Happ Hcon'. split; [|done].
  destruct Happ as (a' & s1' & e & _ & [Hok1 _] & _ & ->).
  eapply dialog_ok_same; [exact Hok1|apply with_ingress_same_dialog|done].
Qed.
