(* ===== verification/AmocrmProofs.v ===== *)
(** * Manager messages from amoCRM

    The amoCRM branch of IngressWorker (src/app/services/ingress.py): an echo of
    the bot's own projection changes nothing but a binding, any other message
    is the manager message of the dialog its chat is bound to. *)

From S2P Require Import Prelude BookingText Models Database Statements Conversations ReplyPlans.
From S2P Require Import Outbound SelfBooking Messages Mirror BookingFields VkClient Projections.
From S2P Require Import Inbound ManagerMessages VkObserver Bindings HandoffExpiry ReplyDispatch.
From S2P Require Import VkGate IngressQueue Ingress IngressWorker Dialog Frames ManagerProofs.
From S2P Require Import ExpiryProofs InboundProofs History IngressProofs.
Import ingress_repo.

(** Only the bindings differ. *)
Definition only_bindings (s s' : Database) : Prop :=
  s' = s <| db_chat_bindings := db_chat_bindings s' |>.

#[export] Instance only_bindings_preorder : PreOrder only_bindings.
Proof.
  split; [by intros []|]. intros s1 s2 s3 H1 H2. unfold only_bindings in *. by rewrite H2, H1.
Qed.

#[export] Instance only_bindings_unwatched : Unwatched only_bindings AmocrmChatBinding.
Proof. done. Qed.

Lemma only_bindings_dialog s s' : only_bindings s s' -> same_dialog s s'.
Proof. unfold only_bindings. intros ->. by split_and!. Qed.

Lemma dialog_ok_bindings s s' :
  dialog_ok s -> only_bindings s s' -> constraints_ok s' -> dialog_ok s'.
Proof. intros Hok H. apply dialog_ok_same with s; [done|]. by apply only_bindings_dialog. Qed.

(** The chat is bound to the dialog. *)
Definition chat_bound (s : Database) (amocrm_chat_id : string) (cid : uuid) : Prop :=
  exists k b, db_chat_bindings s !! k = Some b /\ cb_amocrm_chat_id b = amocrm_chat_id /\
    cb_status b = BINDING_ACTIVE /\ cb_conversation_id b = cid.

Lemma wp_get_active_binding chat (Q : option AmocrmChatBinding -> Database -> Prop)
    (X : exn -> Database -> Prop) env s :
  (forall b, chat_bound s chat (cb_conversation_id b) -> Q (Some b) s) -> Q None s ->
  (forall e, X e s) ->
  wp (binding_repo.get_active_by_amocrm_chat_id chat) Q X env s.
Proof.
  intros HQ HN HX. apply wp_bind, wp_select_where. case_match; [apply wp_raise, HX|].
  apply wp_ret. destruct (filter _ _) as [|b l] eqn:E; [done|]. apply HQ.
  assert (b ∈ b :: l) as Hin by (by left). rewrite <- E in Hin.
  apply list_elem_of_filter in Hin as [Hb [k Hk]%rows_elem].
  rewrite andb_true_iff, String.eqb_eq, bool_decide_eq_true in Hb. destruct Hb as [? ?]. by exists k, b.
Qed.

Lemma wp_bound_conversation chat client (Q : Conversation -> Database -> Prop)
    (X : exn -> Database -> Prop) env s :
  constraints_ok s ->
  (forall c s1, chat_bound s chat (conv_id c) -> db_conversations s !! conv_id c = Some c ->
     only_bindings s s1 -> Q c s1) ->
  (forall e s', X e s') ->
  wp (bound_conversation chat client) Q X env s.
Proof.
  intros Hcon HQ HX. unfold bound_conversation. apply wp_bind, wp_try, wp_get_active_binding.
  - intros b Hb. apply wp_bind, wp_require_some; [|auto]. intros ? [= <-]. apply wp_bind.
    assert (forall s1, only_bindings s s1 ->
      wp (conversation ← get_by_id (R := Conversation) (cb_conversation_id b);
          require_some conversation ValueError "BINDING_CONVERSATION_MISSING") Q X env s1) as Hend.
    { intros s1 Hs1. apply wp_bind, wp_get_by_id. dbsimpl. apply wp_require_some; [|auto].
      intros c Hc. destruct (only_bindings_dialog _ _ Hs1) as (E & _). rewrite E in Hc.
      pose proof (conversation_key _ _ _ Hcon Hc) as Hid. rewrite <- Hid in Hb, Hc. auto. }
    destruct client as [client|]; [|by apply wp_ret, Hend].
    apply wp_try. eapply wp_mono; [apply (respects_wp only_bindings)|..].
    + solve_respects.
    + intros a s1 Hs1. by apply Hend.
    + intros e s1 _. case_match; [apply wp_raise|]; auto.
  - apply wp_bind, wp_require_some; [done|auto].
  - intros e. case_match; [apply wp_raise|]; auto.
Qed.

(** What the envelope of a manager event says. *)
Record ManagerEnvelope := MkManagerEnvelope {
  men_chat : string;
  men_message : string;
  men_external : string;
  men_sequence : Z;
  men_text : string
}.

Definition manager_decoded (claim : IngressClaim) (d : ManagerEnvelope) : Prop :=
  let envelope := igc_envelope_json claim in
  nonempty_str (jget envelope "amocrm_chat_id") = Some (men_chat d) /\
  nonempty_str (jget envelope "amocrm_message_id") = Some (men_message d) /\
  nonempty_str (jget envelope "external_message_id") = Some (men_external d) /\
  as_int (jget envelope "provider_sequence") = Some (men_sequence d) /\
  nonempty_str (jget envelope "text") = Some (men_text d) /\
  igc_external_event_id claim = men_external d /\
  igc_external_conversation_id claim = men_chat d.

(** The message as the manager's service sees it. *)
Definition manager_event_of (c : Conversation) (d : ManagerEnvelope)
    : SyntheticManagerMessageEvent :=
  MkSyntheticManagerMessageEvent "synthetic" (conv_external_conversation_id c)
    (men_external d) (Some (men_sequence d)) None (men_text d).

(** The bot's own message came back from the CRM. *)
Definition projected_before (s : Database) (d : ManagerEnvelope) : Prop :=
  exists k p, db_projections s !! k = Some p /\ pj_amocrm_message_id p = Some (men_message d).

Definition amocrm_goal (env : Env) (pause : Z) (claim : IngressClaim) (s : Database)
    (a : option ManagerMessageApplyResult) (s' : Database) : Prop :=
  dialog_ok s' /\
  exists d, manager_decoded claim d /\
    match a with
    | None => projected_before s d /\ only_bindings s s'
    | Some r => ~ projected_before s d /\
        exists c s1, chat_bound s (men_chat d) (conv_id c) /\
          db_conversations s !! conv_id c = Some c /\ only_bindings s s1 /\
          manager_goal env (manager_event_of c d) pause s1 r s' /\
          mar_conversation_id r = conv_id c
    end.

Definition amocrm_result (a : option ManagerMessageApplyResult) (e : IngressEvent)
    : IngressProcessResult :=
  MkIngressProcessResult (ing_id e) (ing_status e)
    (match a with Some r => mar_duplicate r | None => true end) None None None.

(** The echo branch writes bindings only. *)
Lemma capture_from_echo_bindings chat client :
  respects only_bindings (capture_from_echo chat client).
Proof. solve_respects. Qed.

Section Transaction.
Context (env : Env) (pause : Z) (claim : IngressClaim) (s : Database).
Hypothesis Hok : dialog_ok s.

(** The dialog part of the transaction is done in [s1]. *)
Lemma wp_amocrm_end a s1 :
  constraints_ok s1 -> same_ingress s s1 -> amocrm_goal env pause claim s a s1 ->
  wp (e ← complete_claim claim; mret (amocrm_result a e))
    (fun r s' => constraints_ok s' -> dialog_ok s' /\
       event_applied env claim amocrm_result (amocrm_goal env pause claim s) s r s')
    (fun _ _ => True) env s1.
Proof.
  intros Hcon1 Hs HG. eapply wp_mono; [by apply wp_end_event| |done].
  intros r s' Happ Hcon'. split; [|done]. destruct Happ as (a' & s1' & e & _ & [Hok1 _] & _ & ->).
  eapply dialog_ok_same; [exact Hok1|apply with_ingress_same_dialog|done].
Qed.

Lemma amocrm_manager_in_session_spec :
  wp (session_scope (amocrm_manager_in_session pause claim))
    (fun r s' => dialog_ok s' /\
       event_applied env claim amocrm_result (amocrm_goal env pause claim s) s r s')
    (fun _ s' => s' = s) env s.
Proof.
  pose proof Hok as [Hcon _].
  apply wp_session_scope_keeps; [solve_respects|done|]. unfold amocrm_manager_in_session.
  destruct (nonempty_str (jget _ "amocrm_chat_id")) as [chat|] eqn:E1; [|by apply wp_raise].
  destruct (nonempty_str (jget _ "amocrm_message_id")) as [message|] eqn:E2; [|by apply wp_raise].
  destruct (nonempty_str (jget _ "external_message_id")) as [ext|] eqn:E3; [|by apply wp_raise].
  destruct (as_int (jget _ "provider_sequence")) as [seq|] eqn:E4; [|by apply wp_raise].
  destruct (nonempty_str (jget _ "text")) as [text|] eqn:E5; [|by apply wp_raise].
  apply wp_bind, wp_assert; [|done]. rewrite String.eqb_eq. intros E6.
  apply wp_bind, wp_assert; [|done]. rewrite String.eqb_eq. intros E7. cbv zeta.
  set (d := MkManagerEnvelope chat message ext seq text).
  assert (manager_decoded claim d) as Hd by done.
  apply wp_bind, wp_select_scalar.
  - intros k p Hp Hid%sql_eq_true. apply wp_if; [intros _|done].
    apply wp_bind_event; [solve_respects..|done|].
    eapply wp_mono; [apply (respects_wp only_bindings), capture_from_echo_bindings| |done].
    intros u s1 Hs1 Hcon1 Hi1. apply (wp_amocrm_end None); [done..|].
    split; [by eapply dialog_ok_bindings|]. exists d. split; [done|]. split; [|done].
    by exists k, p.
  - intros Hno. apply wp_if; [done|]. intros _.
    assert (~ projected_before s d) as Hnp.
    { intros (k & p & Hp & Hid). specialize (Hno k p Hp). by rewrite (proj2 (sql_eq_true _ _) Hid) in Hno. }
    apply wp_bind_event; [solve_respects..|done|].
    apply wp_bound_conversation; [done| |done]. intros c s1 Hb Hc Hs1 Hcon1 Hi1.
    assert (dialog_ok s1) as Hok1 by (by eapply dialog_ok_bindings).
    apply wp_bind, wp_assert; [intros _|done].
    apply wp_bind_event; [solve_respects..|done|].
    eapply wp_mono; [by apply wp_apply_manager_message| |done].
    intros r s2 HG Hcon2 Hi2. destruct (HG Hcon2) as [Hg Hr].
    eapply wp_mono; [apply (wp_amocrm_end (Some r) s2); [done|by etrans|]|auto|done].
    split; [apply Hg|]. exists d. split; [done|]. split; [done|]. exists c, s1.
    split_and!; try done. by apply Hr.
Qed.
End Transaction.
