(* ===== verification/Progress.v ===== *)
(** * Services that return

    The specifications say what a transaction did when it returned; here, when
    it does return.  A transaction is [total] on a database when it raises
    nothing: the statements violate no constraint, no lookup fails and no guard
    of the code rejects.  Integer columns have room for one more increment, and
    the next UUID is unused. *)

From S2P Require Import Prelude Models Database Statements Conversations ReplyPlans Outbound.
From S2P Require Import Messages Mirror ReplyText Projections ManagerMessages ReplyDispatch.
From S2P Require Import VkGate Arbiter Dialog DispatchProofs ClaimProofs ArbiterProofs.

(** No exception leaves the computation. *)
Definition total {E S A} (m : M E S A) (env : E) (s : S) : Prop :=
  wp m (fun _ _ => True) (fun _ _ => False) env s.

Lemma total_returns {E S A} (m : M E S A) env s : total m env s -> exists a s', m env s = (Returned a, s').
Proof. unfold total, wp. destruct (m env s) as [[a|e] s']; [eauto|done]. Qed.

Lemma total_session_scope {A} (body : Session A) env s :
  total body env s -> total (session_scope body) env s.
Proof. intros H. apply wp_session_scope. by eapply wp_mono; [exact H| |]. Qed.

(** A total computation meets the specification it has when it returns. *)
Lemma total_spec {E S A} (m : M E S A) Q X env s :
  total m env s -> wp m Q X env s -> exists a s', m env s = (Returned a, s') /\ Q a s'.
Proof. unfold total, wp. destruct (m env s) as [[a|e] s']; [eauto|done]. Qed.

(** ** Statements that violate nothing *)

(** [r'] can take the place of [r] whatever else is stored. *)
Definition harmless {R} `{Table R} (r r' : R) : Prop :=
  row_id r' = row_id r /\ row_fits r' = true /\ row_checks r' = true /\
  (forall s, row_references s r = true -> row_references s r' = true) /\
  (forall x, row_conflict r' x = true -> row_conflict r x = true).

Section Statements.
Context {R : Type} `{TL : TableLaws R} (X : exn -> Database -> Prop) (env : Env) (s : Database).
Hypothesis Hcon : constraints_ok s.

Lemma harmless_update c v :
  (forall id r, table_get s !! id = Some r -> c r = true -> harmless r (v r)) ->
  update_fits c v (table_get s) /\
  update_ok c v s (table_set (sql_update c v (table_get s)) s).
Proof.
  intros Hv. split; intros id r Hr Hc; [by eapply Hv|].
  destruct (Hv _ _ Hr Hc) as (Hid & _ & Hck & Href & Hcf).
  destruct (constraints_table s Hcon _ _ Hr) as (_ & Hid0 & _ & Href0 & Hu).
  split_and!; [by rewrite Hid|done| |].
  - eapply references_grow; [apply set_grows, grows_in_sql_update|auto].
  - rewrite table_get_set. apply map_Forall_lookup_2. intros id2 r2.
    rewrite lookup_sql_update_Some. intros (r0 & Hr0 & ->).
    destruct (Hu id2 r0 Hr0) as [->|Hno]; [by left|right].
    apply not_true_iff_false. intros H. apply Hcf in H.
    destruct (c r0) eqn:Hc0; [|congruence]. rewrite row_conflict_sym in H.
    apply (Hv _ _ Hr0 Hc0) in H. rewrite row_conflict_sym in H. congruence.
Qed.

Lemma wp_harmless_update c v Q :
  (forall id r, table_get s !! id = Some r -> c r = true -> harmless r (v r)) ->
  Q (matched c (table_get s)) (table_set (sql_update c v (table_get s)) s) ->
  wp (update_where c v) Q X env s.
Proof.
  intros Hv HQ. destruct (harmless_update c v Hv). by apply wp_update_where.
Qed.

Lemma wp_harmless_update_by_id id guard v r (Q : bool -> Database -> Prop) :
  table_get s !! id = Some r -> guard r = true -> harmless r (v r) ->
  Q true (table_set (<[id := v r]> (table_get s)) s) ->
  wp (update_by_id id guard v) Q X env s.
Proof.
  intros Hr Hg Hv HQ. pose proof (constraints_keys_ok s Hcon) as Hk.
  unfold update_by_id. apply wp_bind, wp_harmless_update.
  - intros id' r' Hr' [Hid _]%id_and_true. apply Hk in Hr' as Hid'.
    assert (id' = id) as -> by congruence. by simplify_eq.
  - apply wp_ret. rewrite matched_by_id, Hr, Hg by done. by rewrite (sql_update_by_id id guard v _ r).
Qed.
End Statements.

Ltac harmless :=
  split_and!; [done| | |by intros ?|by intros ?].

(** ** Mirror jobs *)

Lemma length_hex_digits w n : String.length (hex_digits w n) = w.
Proof.
  revert n. induction w as [|w IH]; intros n; [done|]. simpl hex_digits.
  rewrite string_length_app, IH. cbn. lia.
Qed.

Lemma length_str_take n str : String.length (str_take n str) = Nat.min n (String.length str).
Proof. revert str. induction n as [|n IH]; intros [|ch str]; [done..|]. cbn. by rewrite IH. Qed.

Lemma length_str_drop n str : String.length (str_drop n str) = (String.length str - n)%nat.
Proof. revert str. induction n as [|n IH]; intros [|ch str]; [done..|]. cbn. by rewrite IH. Qed.

(** A UUID has 128 bits; its text has 36 characters. *)
Definition uuid_ok (u : uuid) : bool := (u <? 2 ^ 128)%N.

Lemma length_uuid_str u : uuid_ok u = true -> String.length (uuid_str u) = 36%nat.
Proof.
  unfold uuid_ok, uuid_str, uuid_hex. intros ->.
  rewrite !string_length_app, !length_str_take, !length_str_drop, length_hex_digits. reflexivity.
Qed.

(** The next [n] UUIDs of the supply name no row of the table. *)
Definition unused {R} (t : gmap uuid R) (n : N) : Prop := t !! uuid4_of n = None.

Section Enqueue.
Import mirror_repo amocrm_mirror.
Context (env : Env) (s : Database).
Hypothesis Hfresh : unused (db_mirror_jobs s) (db_uuid_supply s).

Lemma total_enqueue_if_absent t k sid cid key payload corr v n :
  key <> ""%string -> (String.length key <= MIRROR_KEY_MAX_LENGTH)%nat ->
  0 < n -> in_int4 n = true ->
  match v with Some z => 0 <= z /\ in_int4 z = true | None => True end ->
  assert_mirror_payload_is_safe payload env s = (Returned tt, s) ->
  is_not_null (db_conversations s !! cid) = true ->
  total (enqueue_if_absent t k sid cid key payload corr v n) env s.
Proof.
  intros Hkey Hlen Hn Hn4 Hv Hsafe Hc. unfold total, enqueue_if_absent.
  apply wp_bind, wp_assert; [intros _|].
  2: { intros H. apply negb_false_iff, orb_true_iff in H as [H%String.eqb_eq|H%Nat.ltb_lt]; [done|lia]. }
  apply wp_bind, wp_assert; [intros _|intros H%negb_false_iff%Z.leb_le; lia].
  apply wp_bind. unfold wp at 1. rewrite Hsafe.
  apply wp_bind, wp_select_scalar; [intros; by apply wp_ret|]. intros Hnone.
  apply wp_bind, wp_uuid4, wp_bind, wp_db_now, wp_bind.
  set (job := pending_job _ _ _ _ _ _ _ _ _ _ _).
  assert (row_fits job = true) as Hfits.
  { cbn. unfold mirror_job_fits, job. cbn. rewrite Hn4. destruct v as [z|]; [|done].
    by destruct Hv as [_ ->]. }
  assert (row_checks job = true) as Hchecks.
  { cbn. unfold mirror_job_checks, job. cbn. rewrite (proj2 (Z.ltb_lt 0 n) Hn).
    destruct v as [z|]; [|done]. cbn. apply Z.leb_le. lia. }
  apply wp_insert_with.
  - intros id r Hr Harb. exfalso. apply String.eqb_eq in Harb.
    assert (String.eqb (mj_mirror_key r) key = false) as E by (by apply (Hnone id)).
    cbn in Harb. subst. by rewrite String.eqb_refl in E.
  - intros _ _ _ _. apply wp_bind, wp_select_scalar.
    + intros. apply wp_bind, wp_require_some; [|done]. intros. by apply wp_ret.
    + intros Hno. exfalso. specialize (Hno (mj_id job) job (lookup_insert_eq _ _ _)).
      cbn in Hno. by rewrite String.eqb_refl in Hno.
  - intros E. congruence.
  - intros E. congruence.
  - intros Harb Hno. apply Hno. split; [exact Hfresh|]. split_and!; [done|done|exact Hc|].
    apply map_Forall_lookup_2. intros id r Hr. right. by apply (Harb id).
Qed.
End Enqueue.

(** ** Takeover *)

Section Takeover.
Import conversation_repo reply_plan_repo outbound_repo.
Implicit Types (c : Conversation) (s : Database).

Lemma takeover_harmless moment c :
  conversation_fits c = true -> conversation_checks c = true ->
  conv_manager_epoch c < int4_max ->
  harmless c (apply_manager_takeover_values moment c).
Proof.
  intros Hf Hck Hmax. harmless.
  - cbn in *. unfold conversation_fits, conversation_checks in *. cbn. rewrite !andb_true_iff in *.
    destruct Hf as ((((? & He) & ?) & ?) & ?), Hck as (((((((_ & Hep) & _) & _) & _) & _) & _) & _).
    split_and!; try done. unfold in_int4 in *. apply Z.leb_le in Hep.
    apply andb_true_iff. split; apply Z.leb_le; unfold int4_max in *; lia.
  - cbn in *. unfold conversation_checks in *. cbn. rewrite !andb_true_iff in *.
    destruct Hck as (((((((? & Hep) & ?) & ?) & _) & ?) & ?) & ?). split_and!; try done.
    apply Z.leb_le in Hep. apply Z.leb_le. lia.
Qed.

Lemma close_harmless st reason now p :
  reply_plan_fits p = true -> reply_plan_checks p = true ->
  harmless p (close_plan_values st reason now p).
Proof. intros Hf Hck. harmless; done. Qed.

Lemma cancel_harmless now o :
  outbox_fits o = true -> outbox_checks o = true -> unadmitted (ob_delivery_status o) = true ->
  harmless o (cancel_values now o).
Proof.
  intros Hf Hck Hun. harmless; [done|]. cbn in *. unfold outbox_checks in *. cbn.
  rewrite !andb_true_iff in *.
  destruct Hck as ((((((((((? & ?) & ?) & ?) & ?) & Hadm) & _) & _) & _) & _) & ?).
  split_and!; try done.
  - destruct (ob_admitted_at o); [|done]. cbn in Hadm.
    destruct (ob_delivery_status o); try done; by rewrite andb_false_r in Hadm.
  - by rewrite orb_true_r.
Qed.

Lemma wp_close_plans st reason now cid (Q : Z -> Database -> Prop) X env s :
  constraints_ok s ->
  (forall ps, Q (matched (open_plan_of cid) (db_reply_plans s)) (s <| db_reply_plans := ps |>)) ->
  wp (update_where (open_plan_of cid) (close_plan_values st reason now)) Q X env s.
Proof.
  intros Hcon HQ. apply wp_harmless_update; [done| |apply HQ].
  intros id p Hp _. destruct (constraints_table s Hcon _ _ Hp) as (Hf & _ & Hck & _).
  by apply close_harmless.
Qed.

Lemma wp_cancel_outbox now cid (Q : Z -> Database -> Prop) X env s :
  constraints_ok s ->
  (forall os, Q (matched (unadmitted_of cid) (db_outbox_messages s))
                (s <| db_outbox_messages := os |>)) ->
  wp (update_where (unadmitted_of cid) (cancel_values now)) Q X env s.
Proof.
  intros Hcon HQ. apply wp_harmless_update; [done| |apply HQ].
  intros id o Ho Hun. destruct (constraints_table s Hcon _ _ Ho) as (Hf & _ & Hck & _).
  apply cancel_harmless; [done..|]. unfold unadmitted_of in Hun. by apply andb_true_iff in Hun as [_ ?].
Qed.

(** What the later statements of the transaction rely on. *)
Definition mirror_ready (s : Database) (cid : uuid) (s' : Database) : Prop :=
  is_not_null (db_conversations s' !! cid) = true /\ db_mirror_jobs s' = db_mirror_jobs s /\
  db_uuid_supply s' = db_uuid_supply s.

Lemma wp_apply_takeover_total env s cid c now :
  constraints_ok s -> db_conversations s !! cid = Some c -> conv_manager_epoch c < int4_max ->
  wp (apply_manager_takeover cid now)
    (fun r s' => conv_id r.1 = cid /\ mirror_ready s cid s') (fun _ _ => False) env s.
Proof.
  intros Hcon Hc Hmax. pose proof (conversation_key _ _ _ Hcon Hc) as <-.
  destruct (conversation_checked _ _ _ Hcon Hc) as [Hf Hck].
  assert (mirror_ready s (conv_id c) s) as Hsame by (unfold mirror_ready; by rewrite Hc).
  unfold apply_manager_takeover.
  apply wp_bind, wp_resolve_moment, wp_bind, wp_lock_for_update; [|by rewrite Hc].
  intros c0 Hc0. assert (c0 = c) as -> by congruence.
  apply wp_if; intros _; [by apply wp_ret|]. apply wp_if; intros _; [by apply wp_ret|].
  apply wp_bind. eapply wp_harmless_update_by_id; [done|exact Hc|done|by apply takeover_harmless|].
  apply wp_bind. eapply wp_refresh; [dbsimpl; apply lookup_insert_eq|].
  apply wp_ret. split; [done|]. split_and!; [|done..]. dbsimpl. by rewrite lookup_insert_eq.
Qed.

Lemma total_enqueue_manager_takeover env s cid corr :
  uuid_ok cid = true -> unused (db_mirror_jobs s) (db_uuid_supply s) ->
  is_not_null (db_conversations s !! cid) = true ->
  total (amocrm_mirror.enqueue_manager_takeover cid corr) env s.
Proof.
  intros Hcid Hfresh Hc. apply wp_bind. unfold safe_mirror_payload. cbv zeta. apply wp_bind.
  unfold wp at 1. cbn. apply wp_ret. apply total_enqueue_if_absent; try done.
  unfold manager_takeover_mirror_key. rewrite string_length_app, length_uuid_str by done.
  unfold mirror_repo.MIRROR_KEY_MAX_LENGTH. cbn. lia.
Qed.

(** A manager can always take an existing dialog over. *)
Lemma takeover_total env s cid c now :
  constraints_ok s -> db_conversations s !! cid = Some c -> uuid_ok cid = true ->
  conv_manager_epoch c < int4_max ->
  unused (db_mirror_jobs s) (N.succ (db_uuid_supply s)) ->
  total (ManagerTakeoverService.apply cid now) env s.
Proof.
  intros Hcon Hc Hcid Hmax Hfresh. apply total_session_scope. unfold total.
  apply wp_bind. unfold apply_manager_takeover_in_session.
  apply wp_bind_keeps; [solve_respects|done|].
  eapply wp_mono; [by eapply wp_apply_takeover_total| |done].
  intros [c' changed] s1 [Hid (Hex & Ejobs & Esupply)] Hcon1. cbn in Hid.
  apply wp_bind_keeps; [solve_respects|done|].
  apply wp_bind, wp_db_now, wp_close_plans; [done|]. intros ps Hcon2.
  apply wp_bind. destruct changed; [|by apply wp_ret]. cbn [when].
  apply wp_bind, wp_bind, wp_db_now, wp_cancel_outbox; [done|]. intros os.
  apply wp_bind, wp_uuid4, wp_bind. rewrite Hid. dbsimpl.
  eapply wp_mono; [apply total_enqueue_manager_takeover; dbsimpl|done|done]; [done| |done].
  by rewrite Ejobs, Esupply.
Qed.
End Takeover.

(** ** Outbox rows under a lease *)

Section Outbox.
Import outbound_repo.
Implicit Types (o : OutboxMessage) (s : Database) (claim : OutboundClaim).

(** The CHECK constraints as the proofs use them. *)
Lemma outbox_checks_facts o :
  outbox_checks o = true ->
  0 <= ob_attempt_count o /\ 0 <= ob_lease_version o /\
  (ob_delivery_status o = OB_PROCESSING -> ob_leased o = true /\ ob_admitted_at o = None).
Proof.
  unfold outbox_checks. rewrite !andb_true_iff, !Z.leb_le.
  intros ((((((((((? & ?) & ?) & ?) & ?) & Hadm) & _) & _) & _) & Hl) & _).
  split_and!; [done..|]. intros E. rewrite E in *. split; [done|].
  destruct (ob_admitted_at o); [|done]. by rewrite andb_false_r in Hadm.
Qed.

Ltac checks Hck :=
  harmless; [done|]; cbn in *; unfold outbox_checks in *; cbn;
  rewrite !andb_true_iff in *;
  destruct Hck as ((((((((((? & ?) & ?) & ?) & ?) & Hadm) & Hst) & Hdel) & Hwhole) & Hl) & ?).

Lemma mark_admitted_harmless moment o :
  outbox_fits o = true -> outbox_checks o = true ->
  client_destination (ob_destination_type o) = true -> ob_delivery_status o = OB_PROCESSING ->
  harmless o (mark_admitted_values moment o).
Proof.
  intros Hf Hck Hd E. checks Hck. rewrite E in *. split_and!; try done. by rewrite Hd.
Qed.

Lemma fail_harmless target nb moment o :
  outbox_fits o = true -> outbox_checks o = true ->
  (target = OB_DEAD \/ target = OB_FAILED /\ ob_admitted_at o = None \/
   target = OB_ADMITTED /\ ob_delivery_status o = OB_ADMITTED) ->
  (ob_admitted_at o = None \/ ob_delivery_status o = OB_ADMITTED) ->
  harmless o (fail_values target nb moment o).
Proof.
  intros Hf Hck Ht Hpre. checks Hck. split_and!; try done.
  - destruct Hpre as [->|E]; [done|]. rewrite E in *.
    destruct (ob_admitted_at o); [|done].
    destruct Ht as [->|[[_ ?]|[-> _]]]; [|done|]; by destruct (client_destination _).
  - destruct Ht as [->|[[-> _]|[-> E]]]; [done..|]. by rewrite E in Hst.
  - destruct Ht as [->|[[-> _]|[-> _]]]; by rewrite orb_true_r.
  - by destruct Ht as [->|[[-> _]|[-> _]]].
Qed.

Lemma outbox_row s k o : constraints_ok s -> db_outbox_messages s !! k = Some o ->
  outbox_fits o = true /\ outbox_checks o = true.
Proof.
  intros Hcon Ho. pose proof (constraints_table (R := OutboxMessage) s Hcon) as Ht.
  by destruct (Ht k o Ho) as (? & _ & ? & _).
Qed.

(** UPDATE ... RETURNING of a row under its lease, then SELECT. *)
Lemma wp_total_returning s id guard v o c1 m1 c2 m2 (Q : OutboxMessage -> Database -> Prop) X env :
  constraints_ok s -> db_outbox_messages s !! id = Some o -> guard o = true ->
  harmless o (v o) ->
  Q (v o) (s <| db_outbox_messages := <[id := v o]> (db_outbox_messages s) |>) ->
  wp (updated ← update_by_id id guard v; _ ← assert_or_raise updated c1 m1;
      row ← get_by_id id; require_some row c2 m2) Q X env s.
Proof.
  intros Hcon Ho Hg Hv HQ. apply wp_bind. eapply wp_harmless_update_by_id; [done|exact Ho|done|done|].
  apply wp_bind, wp_ret, wp_bind, wp_get_by_id. dbsimpl. rewrite lookup_insert_eq.
  by apply wp_ret.
Qed.

Lemma total_check_outbound claim moment c o env s :
  holds_lease OB_PROCESSING (obc_lease_token claim) (obc_lease_version claim) o = true ->
  client_destination (ob_destination_type o) = true ->
  match ob_not_before o with Some t => tstz_due t moment = true | None => True end ->
  match ob_context_version o with Some v => v = conv_context_version c | None => True end ->
  ob_manager_epoch o = conv_manager_epoch c -> ob_event_seq_hwm o = conv_current_event_seq c ->
  obc_manager_epoch claim = ob_manager_epoch o -> obc_event_seq_hwm claim = ob_event_seq_hwm o ->
  check_outbound claim moment c o env s = (Returned tt, s).
Proof.
  intros Hl Hd Hnb Hv He Hq Hce Hcq. unfold check_outbound. rewrite Hl, Hd.
  apply outbox_lease_true in Hl as (Hst & _). rewrite Hst, Hce, Hcq, He, Hq, !Z.eqb_refl. cbn [negb].
  rewrite bool_decide_eq_false_2 by done.
  destruct (ob_not_before o) as [t|]; [rewrite Hnb|]; cbn [negb];
    (destruct (ob_context_version o) as [v|]; [rewrite Hv, Z.eqb_refl|]; done).
Qed.

Lemma total_check_dialog c env s :
  conv_ownership c = BOT -> conv_status c = OPEN -> conv_handoff_state c = BOT_ACTIVE ->
  conv_manager_takeover_at c = None -> check_dialog c env s = (Returned tt, s).
Proof. intros H1 H2 H3 H4. unfold check_dialog. by rewrite H1, H2, H3, H4. Qed.

Lemma total_check_plan c o env s :
  ob_manager_epoch o = conv_manager_epoch c -> ob_event_seq_hwm o = conv_current_event_seq c ->
  (forall pid, ob_reply_plan_id o = Some pid -> exists p,
     db_reply_plans s !! pid = Some p /\ rp_status p = RP_DISPATCHED /\ plan_fences_eq c p) ->
  check_dispatched_plan c o env s = (Returned tt, s).
Proof.
  intros He Hq Hp. unfold check_dispatched_plan. destruct (ob_reply_plan_id o) as [pid|]; [|done].
  destruct (Hp pid eq_refl) as (p & Hlk & Hst & E1 & E2 & E3).
  unfold get_by_id, mbind, M_bind, get_state. cbn. rewrite Hlk, Hst. cbn [negb].
  by rewrite E1, E2, E3, He, Hq, !Z.eqb_refl.
Qed.

(** The row has something to say, or needs no text. *)
Definition sendable o : Prop :=
  persisted_outbound_reply_text (ob_payload_json o) <> None \/
  is_machine_only_outbound_payload (ob_payload_json o) = true.

Lemma total_request_from_outbound o env s : sendable o -> total (request_from_outbound o) env s.
Proof.
  intros [H|H]; apply wp_request_from_outbound; intros; try done; congruence.
Qed.

(** The gate opens for an admissible row. *)
Lemma admit_total settings claim now env s c o :
  constraints_ok s -> admissible s claim (default (env_now env) now) c o ->
  obc_manager_epoch claim = ob_manager_epoch o -> obc_event_seq_hwm claim = ob_event_seq_hwm o ->
  sendable o -> total (session_scope (admit_in_session settings claim now)) env s.
Proof.
  intros Hcon Hadm Hce Hcq Hsend. apply total_session_scope.
  destruct Hadm as (Hc & Ho & Hopen & Hbot & Hact & Htk & Hl & Hd & Hnb & Hv & He & Hq & Hp).
  destruct (outbox_row _ _ _ Hcon Ho) as [Hf Hck].
  pose proof Hl as (Hst & _)%outbox_lease_true.
  unfold total, admit_in_session. apply wp_bind, wp_resolve_moment. set (moment := default _ _) in *.
  assert (is_automatic_outbound_allowed settings SEND_MESSAGE = false) as ->
    by (unfold is_automatic_outbound_allowed; by repeat case_match).
  apply wp_bind, wp_ret, wp_bind, wp_get_by_id. dbsimpl. rewrite Hc. apply wp_bind, wp_ret.
  apply wp_bind. unfold wp at 1. rewrite total_check_dialog by done.
  apply wp_bind, wp_get_by_id. dbsimpl. rewrite Ho. apply wp_bind, wp_ret.
  apply wp_bind. unfold wp at 1. rewrite total_check_outbound by done.
  apply wp_bind. unfold wp at 1. rewrite total_check_plan by done.
  apply wp_bind. unfold mark_admitted_with_lease. apply wp_bind, wp_resolve_moment, wp_bind, wp_ret.
  cbn [from_option id].
  eapply wp_total_returning; [done|exact Ho|done|by apply mark_admitted_harmless|].
  by apply total_request_from_outbound.
Qed.

(** A worker that still holds its lease can give the row back. *)
Lemma fail_total retry now env s claim o :
  constraints_ok s -> db_outbox_messages s !! obc_outbound_id claim = Some o ->
  holds_lease OB_PROCESSING (obc_lease_token claim) (obc_lease_version claim) o = true ->
  total (session_scope (fail_with_lease (obc_outbound_id claim) (obc_lease_token claim)
    (obc_lease_version claim) retry now)) env s.
Proof.
  intros Hcon Ho Hl. apply total_session_scope. destruct (outbox_row _ _ _ Hcon Ho) as [Hf Hck].
  pose proof Hl as (Hst & _)%outbox_lease_true.
  destruct (outbox_checks_facts o Hck) as (_ & _ & Hp). destruct (Hp Hst) as [_ Hna].
  unfold total, fail_with_lease. apply wp_bind, wp_resolve_moment, wp_bind, wp_get_by_id. dbsimpl.
  rewrite Ho. apply wp_bind, wp_ret, wp_bind. rewrite Hl. apply wp_ret.
  destruct (_ <=? _); cbv beta iota zeta; apply wp_bind, wp_ret;
    (eapply wp_total_returning; [done|exact Ho|done| |done]);
    apply fail_harmless; auto.
Qed.

Lemma fail_admitted_total permanent retry now env s claim o :
  constraints_ok s -> db_outbox_messages s !! obc_outbound_id claim = Some o ->
  holds_admitted_lease (obc_lease_token claim) (obc_lease_version claim) o = true ->
  total (session_scope (fail_admitted_delivery_with_lease (obc_outbound_id claim)
    (obc_lease_token claim) (obc_lease_version claim) permanent retry now)) env s.
Proof.
  intros Hcon Ho Hl. apply total_session_scope. destruct (outbox_row _ _ _ Hcon Ho) as [Hf Hck].
  pose proof Hl as (Hst & _)%outbox_admitted_lease_true.
  unfold total, fail_admitted_delivery_with_lease.
  apply wp_bind, wp_resolve_moment, wp_bind, wp_get_by_id. dbsimpl.
  rewrite Ho. apply wp_bind, wp_ret, wp_bind. rewrite Hl. apply wp_ret. cbv zeta.
  destruct (permanent || _); apply wp_bind, wp_ret;
    (eapply wp_total_returning; [done|exact Ho|done| |done]);
    apply fail_harmless; auto.
Qed.

(** Counters with room for one more attempt. *)
Definition outbound_room s : Prop :=
  forall k o, db_outbox_messages s !! k = Some o ->
    ob_attempt_count o < int4_max /\ ob_lease_version o < int4_max.

Lemma bury_harmless moment o :
  outbox_fits o = true -> outbox_checks o = true -> exhausted moment o = true ->
  harmless o (o <| ob_delivery_status := OB_DEAD |> <| ob_lease_owner := None |>
    <| ob_lease_token := None |> <| ob_lease_until := None |> <| ob_updated_at := moment |>).
Proof.
  intros Hf Hck Hex. checks Hck. split_and!; try done.
  - unfold exhausted in Hex. rewrite !andb_true_iff, bool_decide_eq_true in Hex.
    destruct Hex as ((((_ & E) & _) & _) & _). rewrite E in Hadm.
    destruct (ob_admitted_at o); [|done]. by rewrite andb_false_r in Hadm.
  - by rewrite orb_true_r.
Qed.

Lemma claim_harmless moment worker token until o :
  outbox_fits o = true -> outbox_checks o = true -> claimable moment o = true ->
  ob_attempt_count o < int4_max -> ob_lease_version o < int4_max ->
  harmless o (claim_values moment worker token until o).
Proof.
  intros Hf Hck Hcl Hma Hmv. apply outbox_checks_facts in Hck as Hfacts.
  destruct Hfacts as (Ha & Hv & _).
  apply outbound_claimable_facts in Hcl as (Hd & _ & _ & Hst0). harmless.
  - cbn in *. unfold outbox_fits in *. cbn. rewrite !andb_true_iff in *.
    destruct Hf as ((((((? & ?) & ?) & _) & ?) & _) & ?). unfold in_int4, int4_max in *.
    rewrite !andb_true_iff, !Z.leb_le in *. split_and!; try done; lia.
  - cbn in *. unfold outbox_checks in *. cbn. rewrite !andb_true_iff in *.
    destruct Hck as ((((((((((? & ?) & ?) & ?) & ?) & Hadm) & Hst) & Hdel) & Hwhole) & Hl) & ?).
    rewrite !Z.leb_le in *. split_and!; try done; try lia; rewrite ?Hd in *; cbn in *;
      destruct (ob_admitted_at o) as [x|]; cbn in *; try done;
      destruct (ob_delivery_status o); by cbn in *.
Qed.

Lemma total_row_to_claim o env s :
  is_not_null (ob_lease_token o) = true -> is_not_null (ob_lease_owner o) = true ->
  is_not_null (ob_lease_until o) = true -> total (row_to_claim o) env s.
Proof.
  unfold row_to_claim.
  destruct (ob_lease_token o), (ob_lease_owner o), (ob_lease_until o); done.
Qed.

(** Claiming never fails; with the specification: a due row nobody holds is
    claimed. *)
Lemma outbound_claim_total worker lease now env s :
  constraints_ok s -> outbound_room s -> 0 < lease ->
  total (session_scope (claim_next worker lease now)) env s.
Proof.
  intros Hcon Hroom Hlease. apply total_session_scope. unfold total, claim_next.
  apply wp_bind, wp_assert; [intros _|intros H%negb_false_iff%Z.leb_le; lia].
  apply wp_bind, wp_resolve_moment. set (moment := default _ _).
  apply wp_bind_keeps; [solve_respects|done|].
  apply wp_bind, wp_resolve_moment. cbn [from_option id].
  apply wp_harmless_update; [done| |].
  { intros k o Ho Hex. destruct (outbox_row _ _ _ Hcon Ho). by apply bury_harmless. }
  dbsimpl. intros Hcon1. cbv zeta.
  apply wp_bind_keeps; [solve_respects|done|]. apply wp_uuid4. intros Hcon2.
  apply wp_bind, wp_get_env, wp_bind, wp_select_where. dbsimpl.
  destruct (pick_min claim_order _) as [o|] eqn:Hpick; [|by apply wp_ret].
  apply pick_min_elem, list_elem_of_filter in Hpick as [Hcl [k Ho]%rows_elem].
  apply andb_true_iff in Hcl as [Hcl _].
  fold (buried moment (db_outbox_messages s)) in *.
  assert (ob_attempt_count o < int4_max /\ ob_lease_version o < int4_max) as [Hra Hrv].
  { apply (Hroom k), (buried_lookup moment); [done|].
    apply outbound_claimable_facts in Hcl as (_ & _ & _ & Hst). intros E. by rewrite E in Hst. }
  destruct (outbox_row _ _ _ Hcon1 Ho) as [Hf Hck].
  pose proof (outbox_keyed _ Hcon1 _ _ Ho) as Hid. cbn in Hid. subst k.
  apply wp_bind. eapply wp_harmless_update_by_id; [exact Hcon2|exact Ho|done|by apply claim_harmless|].
  apply wp_bind, wp_get_by_id. dbsimpl. rewrite lookup_insert_eq. apply wp_bind, wp_ret, wp_bind.
  eapply wp_mono; [by apply total_row_to_claim|done|done].
Qed.
End Outbox.
