(* ===== verification/SelfBookingProofs.v ===== *)
(** * Self-booking commands: specifications

    The statements on a command never fail, a claim takes one attempt and a
    lease, and one execution leaves the command terminal or ready again; the
    booking service is called at most once, with the command's own key and slot,
    and only while the command's fences are the dialog's. *)

From S2P Require Import Prelude BookingText Models Database Statements Conversations SelfBooking.
From S2P Require Import EphemeralPii BookingCreate SelfBookingExecution Frames PiiProofs.
Import SelfBookingCreatePendingService.

(** ** What an execution may write *)

(** Everything but the command [pid], values of the store that are gone, the UUID
    supply and the clock. *)
Definition touches_command (pid : uuid) (s s' : Database) : Prop :=
  exists t v n k,
    s' = s <| db_create_pendings := t |> <| db_pii_values := v |> <| db_uuid_supply := n |>
           <| db_statement_clock := k |> /\
    (db_uuid_supply s <= n)%N /\ v ⊆ db_pii_values s /\
    (forall j, j <> pid -> t !! j = db_create_pendings s !! j) /\
    (db_create_pendings s !! pid = None -> t !! pid = None).

#[export] Instance touches_command_preorder pid : PreOrder (touches_command pid).
Proof.
  split.
  - intros s. exists (db_create_pendings s), (db_pii_values s), (db_uuid_supply s),
      (db_statement_clock s). split; [by destruct s|]. by split_and!.
  - intros s1 s2 s3 (t & v & n & k & -> & Hn & Hv & Ht & Hd)
      (t' & v' & n' & k' & -> & Hn' & Hv' & Ht' & Hd').
    cbn in *. exists t', v', n', k'. split; [by destruct s1|]. split_and!; [lia|by etrans| |auto].
    intros j Hj. rewrite Ht' by done. auto.
Qed.

(** The command as it was made. *)
Definition same_command (p p' : SelfBookingCreatePending) : Prop :=
  sb_id p' = sb_id p /\ sb_conversation_id p' = sb_conversation_id p /\
  sb_channel p' = sb_channel p /\
  sb_confirm_external_message_id p' = sb_confirm_external_message_id p /\
  sb_command_version p' = sb_command_version p /\ sb_max_attempts p' = sb_max_attempts p /\
  sb_idempotency_key p' = sb_idempotency_key p /\ sb_slot_id p' = sb_slot_id p /\
  sb_starts_at p' = sb_starts_at p /\
  sb_fence_context_version p' = sb_fence_context_version p /\
  sb_fence_manager_epoch p' = sb_fence_manager_epoch p /\
  sb_fence_event_seq_hwm p' = sb_fence_event_seq_hwm p /\
  sb_phone_ref_token p' = sb_phone_ref_token p /\ sb_name_ref_token p' = sb_name_ref_token p /\
  sb_created_at p' = sb_created_at p.

#[export] Instance same_command_preorder : PreOrder same_command.
Proof.
  split; [by intros p; split_and!|].
  intros p1 p2 p3 H1 H2. unfold same_command in *. intuition congruence.
Qed.

(** A terminal command never changes; attempts only grow. *)
Definition command_history (p p' : SelfBookingCreatePending) : Prop :=
  same_command p p' /\ sb_attempt_count p <= sb_attempt_count p' /\
  (self_booking_active (sb_state p) = false -> p' = p).

#[export] Instance command_history_preorder : PreOrder command_history.
Proof.
  split; [by intros p; split_and!|].
  intros p1 p2 p3 (H1 & A1 & T1) (H2 & A2 & T2). split_and!; [by etrans|lia|].
  intros Ht. rewrite T2; [by apply T1|]. by rewrite T1.
Qed.

(** ** Statements on one command *)

(** UPDATE of a command that keeps its identity and does not become active. *)
Lemma wp_update_command X env s pid (guard : SelfBookingCreatePending -> bool) v p
    (Q : bool -> Database -> Prop) :
  constraints_ok s -> db_create_pendings s !! pid = Some p ->
  same_command p (v p) ->
  (guard p = true -> create_pending_fits (v p) = true) ->
  (guard p = true -> create_pending_checks (v p) = true) ->
  (guard p = true -> self_booking_active (sb_state (v p)) = true ->
   self_booking_active (sb_state p) = true) ->
  (guard p = true -> Q true (s <| db_create_pendings := <[pid := v p]> (db_create_pendings s) |>)) ->
  (guard p = false -> Q false s) ->
  wp (update_by_id pid guard v) Q X env s.
Proof.
  intros Hcon Hp Hsame Hf Hck Hact HQt HQf. destruct (guard p) eqn:Hg.
  - assert (table_ok (R := SelfBookingCreatePending) s) as Hok by apply Hcon.
    destruct (Hok pid p Hp) as (_ & _ & _ & Href & _).
    pose proof Hsame as (E1 & E2 & E3 & E4 & _).
    eapply wp_update_returns; [exact Hcon|exact Hp|done|exact E1|auto..| |auto].
    + cbn. by rewrite E2.
    + intros k x _. cbn. unfold uq_self_booking_create_pendings_confirm,
        uq_self_booking_create_pendings_active_conversation. rewrite E2, E3, E4.
      rewrite !orb_true_iff, !andb_true_iff. intros [H|[[Ha H1] H2]]; [by left|].
      right. split; [split; [by auto|done]|done].
  - apply wp_update_by_id_none; [by apply (constraints_keys_ok (R := SelfBookingCreatePending))| |].
    + intros r Hr. dbsimpl. congruence.
    + destruct s. exact (HQf eq_refl).
Qed.

(** The database with other commands, UUID supply and clock. *)
Definition with_commands (t : gmap uuid SelfBookingCreatePending) (n : N) (k : nat)
    (s : Database) : Database :=
  s <| db_create_pendings := t |> <| db_uuid_supply := n |> <| db_statement_clock := k |>.

Lemma touches_with_commands pid t n k s :
  (db_uuid_supply s <= n)%N -> (forall j, j <> pid -> t !! j = db_create_pendings s !! j) ->
  (db_create_pendings s !! pid = None -> t !! pid = None) ->
  touches_command pid s (with_commands t n k s).
Proof. intros. by exists t, (db_pii_values s), n, k. Qed.

Lemma touches_updated pid p p' v n k s :
  db_create_pendings s !! pid = Some p -> (db_uuid_supply s <= n)%N -> v ⊆ db_pii_values s ->
  touches_command pid s
    (with_commands (<[pid := p']> (db_create_pendings s)) n k (s <| db_pii_values := v |>)).
Proof.
  intros Hp Hn Hv. exists (<[pid := p']> (db_create_pendings s)), v, n, k. split; [done|].
  split_and!; [done|done| |congruence]. intros j Hj. by rewrite lookup_insert_ne.
Qed.

Lemma constraints_counters s n k :
  constraints_ok s -> constraints_ok (s <| db_uuid_supply := n |> <| db_statement_clock := k |>).
Proof. intros H. by destruct (keeps_only_counters s (fun _ => n) (fun _ => k)) as [_ Hk]; apply Hk. Qed.

(** ** The claim *)

(** Attempts used up; the claim would have made it EXPIRED. *)
Definition exhausted (now : instant) (p : SelfBookingCreatePending) : bool :=
  (sb_max_attempts p <=? sb_attempt_count p) &&
  (bool_decide (sb_state p = SB_READY) ||
   (bool_decide (sb_state p = SB_EXECUTING) && pending_repo.execution_lease_expired now p)).

Definition claimed_command (token : uuid) (now : instant) (p : SelfBookingCreatePending)
    : SelfBookingCreatePending :=
  pending_repo.claim_values token (now + seconds EXECUTION_LEASE_SECONDS) now p.

Definition expired_command (now : instant) (p : SelfBookingCreatePending)
    : SelfBookingCreatePending :=
  pending_repo.terminal_values SB_EXPIRED (Some "MAX_ATTEMPTS_EXCEEDED"%string)
    (Some "EXPIRED"%string) now p.

Lemma command_row s pid p :
  constraints_ok s -> db_create_pendings s !! pid = Some p ->
  sb_id p = pid /\ create_pending_fits p = true /\ create_pending_checks p = true.
Proof.
  intros Hcon Hp. assert (table_ok (R := SelfBookingCreatePending) s) as Hok by apply Hcon.
  by destruct (Hok pid p Hp) as (Hf & Hid & Hck & _).
Qed.

Lemma claimed_row token now p :
  create_pending_fits p = true -> create_pending_checks p = true ->
  sb_attempt_count p <? sb_max_attempts p = true ->
  create_pending_fits (claimed_command token now p) = true /\
  create_pending_checks (claimed_command token now p) = true.
Proof.
  unfold create_pending_fits, create_pending_checks, in_int4, int4_max. cbn -[Z.leb printable_id
    char_length_between canonical_uuid String.eqb]. rewrite !andb_true_iff, !Z.leb_le, Z.ltb_lt.
  intuition lia.
Qed.

Section Claim.
Context (X : exn -> Database -> Prop) (env : Env) (s : Database) (pid : uuid).

Lemma wp_claim_command (Q : option SelfBookingCreatePending -> Database -> Prop) :
  constraints_ok s ->
  let now := env_statement_timestamp env (db_statement_clock s) in
  let n := N.succ (db_uuid_supply s) in
  let token := uuid4_of (db_uuid_supply s) in
  (forall p, db_create_pendings s !! pid = Some p -> pending_repo.claimable now p = true ->
     Q (Some (claimed_command token now p))
       (with_commands (<[pid := claimed_command token now p]> (db_create_pendings s)) n
          (S (db_statement_clock s)) s)) ->
  (forall p, db_create_pendings s !! pid = Some p -> exhausted now p = true ->
     Q None (with_commands (<[pid := expired_command now p]> (db_create_pendings s)) n
       (S (db_statement_clock s)) s)) ->
  ((forall p, db_create_pendings s !! pid = Some p ->
      pending_repo.claimable now p = false /\ exhausted now p = false) ->
   forall k, Q None (with_commands (db_create_pendings s) n k s)) ->
  wp (claim_for_execution pid None) Q X env s.
Proof.
  intros Hcon now n token HQ1 HQ2 HQ3. unfold claim_for_execution.
  apply wp_bind, wp_uuid4, wp_bind, wp_get_by_id. dbsimpl.
  destruct (db_create_pendings s !! pid) as [p|] eqn:Hp.
  2: { apply wp_ret. apply (HQ3 ltac:(done) (db_statement_clock s)). }
  destruct (command_row _ _ _ Hcon Hp) as (Hid & Hf & Hck).
  apply wp_bind, wp_db_statement_now. dbsimpl. fold now.
  assert (constraints_ok (s <| db_uuid_supply ::= N.succ |> <| db_statement_clock ::= S |>)) as Hcon2
    by (by apply (constraints_counters s n (S (db_statement_clock s)))).
  assert (forall b (Q' : option SelfBookingCreatePending -> Database -> Prop) s2,
    (if b : bool then Q' (db_create_pendings s2 !! pid) s2 else Q' None s2) ->
    wp (if negb b then mret None else get_by_id pid) Q' X env s2) as Hend.
  { intros [] Q' s2 H; [by apply wp_get_by_id|by apply wp_ret]. }
  assert (forall b, b = false -> pending_repo.claimable now p = b -> exhausted now p = b -> 
    Q None (s <| db_uuid_supply ::= N.succ |> <| db_statement_clock ::= S |>)) as Hnone.
  { intros b -> H1 H2. refine (HQ3 _ (S (db_statement_clock s))). intros ? [= <-]. done. }
  apply wp_bind. unfold pending_repo.claimable, exhausted in *.
  destruct (sb_state p) eqn:Hst; cbn -[Z.leb Z.ltb] in *.
  3-6: apply wp_ret, Hend, (Hnone false); [done|by rewrite andb_false_r..].
  - unfold pending_repo.expire_exhausted_attempts, pending_repo.claim_for_execution. rewrite Hid.
    apply wp_if; intros Hmax.
    + apply wp_bind, (wp_update_command _ _ _ _ _ _ p); try done.
      * intros _. apply wp_ret, Hend, (HQ2 p); [done|]. by rewrite Hmax, Hst.
      * rewrite Hst, Hmax. done.
    + rewrite Z.leb_gt, <- Z.ltb_lt in Hmax.
      destruct (claimed_row token now p Hf Hck Hmax) as [Hf' Hck'].
      apply (wp_update_command _ _ _ _ _ _ p); try done.
      all: try (intros; by rewrite Hst).
      * intros _. apply wp_get_by_id. dbsimpl. rewrite lookup_insert_eq. apply (HQ1 p); [done|].
        by rewrite Hmax, Hst.
      * by rewrite Hst, Hmax, Z.eqb_refl.
  - unfold pending_repo.mark_terminal, pending_repo.reclaim_expired_execution. rewrite Hid.
    apply wp_if; intros Hmax.
    + apply andb_true_iff in Hmax as [Hexp Hmax].
      apply wp_bind, wp_bind, wp_assert; [intros _|done].
      apply (wp_update_command _ _ _ _ _ _ p); try done.
      all: try (intros; by rewrite Hst).
      * intros _. apply wp_ret, Hend, (HQ2 p); [done|]. by rewrite Hmax, Hst, Hexp.
      * by rewrite Hst.
    + assert (forall q, bool_decide (sb_state p = SB_EXECUTING) &&
        (sb_command_version p =? sb_command_version p) &&
        pending_repo.execution_lease_expired now p && q = true ->
        pending_repo.execution_lease_expired now p = true /\ q = true) as Hguard.
      { intros q. rewrite !andb_true_iff. tauto. }
      apply (wp_update_command _ _ _ _ _ _ p); try done.
      1-3: intros [Hexp Ha]%Hguard;
        first [by rewrite Hst | by apply (claimed_row token now p Hf Hck Ha)].
      * intros [Hexp Ha]%Hguard. apply wp_get_by_id. dbsimpl. rewrite lookup_insert_eq.
        apply (HQ1 p); [done|]. by rewrite Ha, Hst, Hexp.
      * rewrite Hst, Z.eqb_refl. cbn. intros Hno. apply wp_ret, (Hnone false); [done| |].
        -- rewrite andb_comm. exact Hno.
        -- rewrite andb_comm. exact Hmax.
Qed.
End Claim.

(** ** The statements of a claimed command *)

Section Claimed.
Context (X : exn -> Database -> Prop) (env : Env) (s : Database) (pid : uuid).
Context (p : SelfBookingCreatePending) (lease : uuid).
Context (Hcon : constraints_ok s) (Hp : db_create_pendings s !! pid = Some p).
Context (Hst : sb_state p = SB_EXECUTING) (Hlease : sb_execution_lease_token p = Some lease).

Definition command_ended (state : SelfBookingCreatePendingState) (code outcome : string)
    (now : instant) : SelfBookingCreatePending :=
  pending_repo.terminal_values state (Some code) (Some outcome) now p.

Lemma wp_finish state outcome code result_outcome booking_id
    (Q : SelfBookingCreateExecutionResult -> Database -> Prop) :
  self_booking_active state = false ->
  (forall now, Q (result_of p outcome (Some state) (Some code) booking_id)
     (with_commands (<[pid := command_ended state code result_outcome now]> (db_create_pendings s))
        (db_uuid_supply s) (S (db_statement_clock s)) s)) ->
  wp (finish p lease state outcome code result_outcome booking_id) Q X env s.
Proof.
  intros Hs HQ. destruct (command_row _ _ _ Hcon Hp) as (Hid & Hf & Hck).
  unfold finish. apply wp_bind, wp_db_statement_now. cbv zeta.
  apply wp_bind. unfold pending_repo.mark_terminal. rewrite Hs, Hid.
  apply wp_bind, wp_assert; [intros _|done].
  apply (wp_update_command _ _ _ _ _ _ p); try done.
  - intros _. cbn. congruence.
  - intros _. apply wp_ret. apply HQ.
  - by rewrite Hst, Hlease, (proj2 (sql_eq_true (Some lease) lease) eq_refl).
Qed.

Lemma wp_fail_terminal code (Q : SelfBookingCreateExecutionResult -> Database -> Prop) :
  (forall now, Q (result_of p EXEC_FAILED (Some SB_FAILED) (Some code) None)
     (with_commands (<[pid := command_ended SB_FAILED code "FAILED" now]> (db_create_pendings s))
        (db_uuid_supply s) (S (db_statement_clock s)) s)) ->
  wp (fail_terminal p lease code) Q X env s.
Proof. intros HQ. by apply wp_finish. Qed.

Definition command_released (code : string) (now : instant) : SelfBookingCreatePending :=
  p <| sb_state := SB_READY |>
    <| sb_execution_lease_token := None |>
    <| sb_execution_lease_expires_at := None |>
    <| sb_result_code := Some code |>
    <| sb_result_outcome := None |>
    <| sb_updated_at := now |>.

Lemma wp_release code now (Q : bool -> Database -> Prop) :
  Q true (with_commands (<[pid := command_released code now]> (db_create_pendings s))
            (db_uuid_supply s) (db_statement_clock s) s) ->
  wp (pending_repo.release_to_ready p lease (Some code) now) Q X env s.
Proof.
  intros HQ. destruct (command_row _ _ _ Hcon Hp) as (Hid & Hf & Hck).
  unfold pending_repo.release_to_ready. rewrite Hid.
  apply (wp_update_command _ _ _ _ _ _ p); try done.
  - intros _ _. by rewrite Hst.
  - by rewrite Hst, Hlease, (proj2 (sql_eq_true (Some lease) lease) eq_refl).
Qed.

Lemma wp_cancel_stale (Q : bool -> Database -> Prop) :
  (forall c, db_conversations s !! sb_conversation_id p = Some c ->
     pending_fences_stale c p = false -> Q false s) ->
  (forall c now, db_conversations s !! sb_conversation_id p = Some c ->
     pending_fences_stale c p = true ->
     Q true (with_commands
       (<[pid := command_ended SB_CANCELLED "FENCE_STALE_OR_TAKEOVER" "CANCELLED" now]>
          (db_create_pendings s)) (db_uuid_supply s) (S (db_statement_clock s)) s)) ->
  wp (cancel_if_conversation_fences_stale pid) Q X env s.
Proof.
  intros HQ1 HQ2. destruct (command_row _ _ _ Hcon Hp) as (Hid & Hf & Hck).
  assert (table_ok (R := SelfBookingCreatePending) s) as Hok by apply Hcon.
  destruct (Hok pid p Hp) as (_ & _ & _ & Href & _). cbn in Href.
  unfold exists_row in Href. destruct (db_conversations s !! _) as [c|] eqn:Hc; [|done].
  unfold cancel_if_conversation_fences_stale. apply wp_bind, wp_get_by_id. dbsimpl. rewrite Hp.
  rewrite Hst. cbn [negb self_booking_active]. apply wp_bind, wp_get_by_id. dbsimpl. rewrite Hc.
  apply wp_if; [intros Hfresh%negb_true_iff; apply wp_ret; by eapply HQ1|].
  intros Hstale%negb_false_iff. apply wp_bind, wp_db_statement_now.
  unfold pending_repo.mark_terminal. rewrite Hid. apply wp_bind, wp_assert; [intros _|done].
  apply (wp_update_command _ _ _ _ _ _ p); try done.
  - intros _. by apply (HQ2 c).
  - by rewrite Hst.
Qed.
End Claimed.

(** ** Statements and calls of an open transaction *)

Lemma wp_stmt {A} (body : Session A) (Q : A -> World -> Prop) X env w :
  wp body (fun a s' => Q a (w <| w_db := s' |>)) (fun e s' => X e (w <| w_db := s' |>)) env (w_db w) ->
  wp (stmt body) Q X env w.
Proof. unfold wp, stmt. by destruct (body env (w_db w)) as [[a|e] s']. Qed.

Lemma wp_call_outside {E B} call (answer : nat -> result B) (Q : B -> World -> Prop) X (env : E) w :
  (forall b, answer (length (w_calls w)) = Returned b ->
     Q b (w <| w_calls ::= fun calls => calls ++ [call] |>)) ->
  (forall e, answer (length (w_calls w)) = Raised e ->
     X e (w <| w_calls ::= fun calls => calls ++ [call] |>)) ->
  wp (call_outside call answer) Q X env w.
Proof.
  intros HQ HX. unfold wp, call_outside.
  destruct (answer (length (w_calls w))) as [b|e] eqn:E'; [by apply HQ|by apply HX].
Qed.

(** The world after some calls and statements. *)
Definition later (calls : list external_call) (s : Database) (w : World) : World :=
  w <| w_calls ::= fun before => before ++ calls |> <| w_db := s |>.

Lemma later_now w : later [] (w_db w) w = w.
Proof.
  destruct w as [n s calls ids]. change (MkWorld n s (calls ++ []) ids = MkWorld n s calls ids).
  by rewrite app_nil_r.
Qed.

(** ** The call that creates a booking *)

Lemma idempotency_key_same v k : require_canonical_idempotency_key v = Some k -> k = v.
Proof.
  unfold require_canonical_idempotency_key, require_canonical_backend_uuid.
  destruct (_ || _); [done|]. destruct (String.eqb_spec v (str_lower v)) as [E|]; [|done].
  cbn [negb]. destruct (negb _ || _); [done|]. destruct (_ || _); [done|].
  destruct (negb (str_matches _ _)); [done|].
  destruct (String.eqb_spec (uuid_str (unhex 0 (str_lower v))) (str_lower v)) as [E'|]; [|done].
  cbn [negb]. intros [= <-]. congruence.
Qed.

Section Create.
Context `{WireLib} (config : BookingEligibilityHttpConfig) (answer : nat -> S2sReply).

(** The request was posted, as one call. *)
Definition posted (request : BookingCreateRemoteRequest) (calls : list external_call) : Prop :=
  exists body, json_dumps_utf8 (create_json_object request) = Some body /\
    calls = [BookingCreatePost (bookings_url config) body].

(** The n-th answer of the outside is the service's word that the request's
    booking exists. *)
Definition confirmed_by (request : BookingCreateRemoteRequest) (n : nat)
    (success : BookingCreateRemoteSuccess) : Prop :=
  exists response payload,
    answer n = S2sResponse response /\ s2r_status_code response = 200 /\
    json_loads_utf8 (s2r_body response) = Some payload /\
    parse_booking_create_success_payload payload request = Some success.

Lemma wp_post_create request env w
    (Q : BookingCreateRemoteSuccess -> World -> Prop) (X : exn -> World -> Prop) :
  (forall success calls, posted request calls ->
     confirmed_by request (length (w_calls w)) success -> Q success (later calls (w_db w) w)) ->
  (forall code, code = "CONFIG_INVALID"%string \/ code = "REQUEST_INVALID"%string ->
     X (Exn BookingCreateHttpError code) w) ->
  (forall code calls, posted request calls ->
     X (Exn BookingCreateHttpError code) (later calls (w_db w) w)) ->
  wp (post_create (http_transport answer) config request) Q X env w.
Proof.
  intros HQ HX HX'. unfold post_create.
  apply wp_if; intros _; [by apply wp_raise, HX; left|].
  apply wp_if; intros _; [by apply wp_raise, HX; left|].
  apply wp_bind. unfold encode_booking_create_request_body.
  destruct (json_dumps_utf8 _) as [body|] eqn:Hbody; [|by apply wp_raise, HX; left].
  apply wp_if; intros _; [by apply wp_raise, HX; right|]. apply wp_ret, wp_bind.
  assert (posted request [BookingCreatePost (bookings_url config) body]) as Hposted by (by eexists).
  apply wp_call_outside; [|done]. intros reply [= Hreply].
  match goal with |- wp _ _ _ _ ?w' => replace w' with
    (later [BookingCreatePost (bookings_url config) body] (w_db w) w) by (by destruct w) end.
  cbn [post_request s2s_url s2s_body].
  destruct reply as [response|code|]; [|repeat (apply wp_if; intros _); by apply wp_raise, HX'
    |by apply wp_raise, HX'].
  apply wp_bind. unfold interpret_success_response.
  apply wp_if; intros _; [by apply wp_raise, HX'|].
  apply wp_if; [intros _; by apply wp_raise, HX'|]. intros Hstatus%negb_false_iff%Z.eqb_eq.
  apply wp_if; intros _; [by apply wp_raise, HX'|]. apply wp_if; intros _; [by apply wp_raise, HX'|].
  destruct (json_loads_utf8 _) as [payload|] eqn:Hp; [|by apply wp_raise, HX']. apply wp_ret.
  destruct (parse_booking_create_success_payload payload request) as [success|] eqn:Hs;
    [|by apply wp_raise, HX'].
  apply wp_ret, HQ; [done|]. by eexists _, _.
Qed.
End Create.

(** ** Confirming the slot of a command *)

(** The request is about the command: its own key and its own slot. *)
Definition asks_for (p : SelfBookingCreatePending) (request : BookingCreateRemoteRequest) : Prop :=
  bcr_idempotency_key request = sb_idempotency_key p /\ bcr_slot_id request = sb_slot_id p.

Lemma built_request key slot name phone c1 c2 ref request :
  build_booking_create_remote_request key slot name phone c1 c2 ref = Some request ->
  bcr_idempotency_key request = key /\ bcr_slot_id request = slot.
Proof.
  unfold build_booking_create_remote_request. destruct (negb c1), (negb c2); try done.
  intros H. apply bind_Some in H as (k & Hk%idempotency_key_same & H).
  apply bind_Some in H as (? & _ & H). apply bind_Some in H as (? & _ & H).
  apply bind_Some in H as (? & _ & H). destruct ref as [ref|].
  - apply bind_Some in H as (? & _ & [= <-]). done.
  - by injection H as <-.
Qed.

Section Confirming.
Context `{WireLib} `{ClientRefResolver}.
Context (client : option (BookingEligibilityHttpConfig * (nat -> S2sReply))).

(** The create client of the worker: the HTTP client, when there is one. *)
Definition http_client : option (BookingCreatePort Env World) :=
  (fun '(config, answer) => http_create_client config answer) <$> client.

Context (p : SelfBookingCreatePending) (env : Env) (w : World).
Context (Q : BookingCreateApplicationResult -> World -> Prop) (X : exn -> World -> Prop).

(** What confirming may come to: no call and a rejection for good, or one post
    and what its answer says. *)
Definition confirm_handled : Prop :=
  (forall reason key, Q (BookingCreateRejectedResult BOOKING_FAIL_CLOSED reason key) w) /\
  (forall config answer request calls,
     client = Some (config, answer) -> asks_for p request -> posted config request calls ->
     (forall outcome reason key,
        (outcome = RETRY_LATER -> reason ∈ CREATE_RETRY_LATER_CODES) ->
        Q (BookingCreateRejectedResult outcome reason key) (later calls (w_db w) w)) /\
     (forall success starts_at key,
        confirmed_by answer request (length (w_calls w)) success ->
        Q (BookingCreateConfirmedResult (bcs_booking_id success) (bcs_slot_id success) starts_at
             (bcs_idempotent_replay success) key) (later calls (w_db w) w))).

Lemma http_error_codes code key :
  exists outcome, map_create_http_error code key = BookingCreateRejectedResult outcome code key /\
    (outcome = RETRY_LATER -> code ∈ CREATE_RETRY_LATER_CODES).
Proof.
  unfold map_create_http_error. repeat (case_bool_decide; [by eexists|]). by eexists.
Qed.

Lemma wp_confirm_selected_slot slot name phone ref :
  slot_from_pending p = Some slot ->
  (outside_calendar (avs_starts_at slot) = true -> X (Exn OverflowError "date value out of range") w) ->
  confirm_handled ->
  wp (confirm_selected_slot http_client slot (sb_idempotency_key p) name phone true true ref)
    Q X env w.
Proof.
  intros Hslot HX [HQ HQc]. unfold confirm_selected_slot. cbv zeta.
  destruct (require_canonical_idempotency_key (sb_idempotency_key p)) as [key|] eqn:Hkey;
    [|apply wp_ret, HQ].
  apply idempotency_key_same in Hkey as ->. cbn [negb andb].
  assert (avs_slot_id slot = sb_slot_id p) as Hid.
  { unfold slot_from_pending in Hslot. apply bind_Some in Hslot as (? & _ & Hslot).
    by apply bind_Some in Hslot as (? & _ & [= <-]). }
  unfold request_for_slot. destruct (parse_bot_slot_id (avs_slot_id slot)) as [parts|] eqn:Hparts.
  2: { apply wp_bind, wp_ret. destruct http_client; apply wp_ret, HQ. }
  apply wp_bind, wp_bind. unfold format_canonical_booking_starts_at at 1.
  apply wp_if; [intros; by apply wp_raise, HX|]. intros Hutc. apply wp_ret, wp_ret.
  match goal with |- wp (match ?r with _ => _ end) _ _ _ _ => destruct r as [request|] eqn:Hreq end.
  2: { destruct http_client; apply wp_ret, HQ. }
  apply bind_Some in Hreq as (starts & _ & Hreq).
  repeat (match type of Hreq with (if ?b then _ else _) = _ => destruct b; [done|] end).
  apply built_request in Hreq as [Hk Hs].
  unfold http_client. destruct client as [[config answer]|] eqn:Hclient; [|apply wp_ret, HQ].
  cbn [fmap option_fmap option_map]. apply wp_bind, wp_try, wp_bind.
  unfold http_create_client, create_booking.
  destruct (build_booking_create_remote_request _ _ _ _ _ _ _) as [request'|] eqn:Hreq'.
  2: { apply wp_raise. cbn. apply wp_ret. apply wp_ret, HQ. }
  apply built_request in Hreq' as [Hk' Hs'].
  assert (asks_for p request') as Hasks by (split; congruence).
  apply wp_post_create.
  - intros success calls Hposted Hconf. apply wp_ret.
    destruct (HQc _ _ _ _ eq_refl Hasks Hposted) as [HQr HQs].
    apply wp_bind. unfold assert_success_matches_available_slot.
    apply wp_if; intros _; [apply wp_ret, wp_ret; by apply HQr|].
    apply wp_bind. unfold format_canonical_booking_starts_at. rewrite Hutc. apply wp_ret, wp_ret.
    apply wp_if; intros _; [apply wp_ret; by apply HQr|]. apply wp_ret. by apply HQs.
  - intros code Hcode. cbn. apply wp_ret, wp_ret. destruct Hcode as [-> | ->]; apply HQ.
  - intros code calls Hposted. cbn. apply wp_ret, wp_ret.
    destruct (http_error_codes code (sb_idempotency_key p)) as (outcome & -> & Hretry).
    by apply (proj1 (HQc _ _ _ _ eq_refl Hasks Hposted)).
Qed.

Lemma wp_confirm_for_conversation slot name phone :
  slot_from_pending p = Some slot ->
  (outside_calendar (avs_starts_at slot) = true -> X (Exn OverflowError "date value out of range") w) ->
  confirm_handled ->
  wp (confirm_selected_slot_for_conversation http_client resolve_client_ref slot
        (sb_conversation_id p) (sb_idempotency_key p) name phone true true) Q X env w.
Proof.
  intros Hslot HX Hh. unfold confirm_selected_slot_for_conversation, resolve_client_ref.
  apply wp_bind, wp_bind, wp_get_env, wp_bind, wp_get_state, wp_ret.
  destruct (resolve_for_conversation _ _ _) as [ref| | |];
    [by apply wp_confirm_selected_slot|apply wp_ret, Hh..].
Qed.
End Confirming.

(** ** One execution *)

Section Execute.
Context `{WireLib} `{CryptoLib} `{ClientRefResolver} (store : EphemeralPiiStore).
Context (client : option (BookingEligibilityHttpConfig * (nat -> S2sReply))).

(** The service was asked for the command's booking, by one post. *)
Definition asked (p : SelfBookingCreatePending) (calls : list external_call) : Prop :=
  exists config answer request,
    client = Some (config, answer) /\ asks_for p request /\ posted config request calls.

(** The result describes the row. *)
Definition reports (r : SelfBookingCreateExecutionResult) (p : SelfBookingCreatePending) : Prop :=
  ser_pending_id r = Some (sb_id p) /\ ser_pending_state r = Some (sb_state p) /\
  ser_result_code r = sb_result_code p /\ ser_idempotency_key r = Some (sb_idempotency_key p).

(** What became of a claimed command, by the outcome reported: [c] is its
    dialog, [before] the number of calls made before. *)
Definition command_outcome (p : SelfBookingCreatePending) (c : Conversation) (before : nat)
    (r : SelfBookingCreateExecutionResult) (calls : list external_call)
    (p' : SelfBookingCreatePending) : Prop :=
  match ser_outcome r with
  | EXEC_CANCELLED => pending_fences_stale c p = true /\ sb_state p' = SB_CANCELLED /\ calls = []
  | EXEC_FAILED =>
      pending_fences_stale c p = false /\ sb_state p' = SB_FAILED /\ (calls = [] \/ asked p calls)
  | EXEC_RETRY_SCHEDULED =>
      pending_fences_stale c p = false /\ sb_state p' = SB_READY /\ asked p calls /\
      exists code, sb_result_code p' = Some code /\ code ∈ CREATE_RETRY_LATER_CODES
  | EXEC_SUCCEEDED =>
      pending_fences_stale c p = false /\ sb_state p' = SB_SUCCEEDED /\
      exists config answer request success,
        client = Some (config, answer) /\ asks_for p request /\ posted config request calls /\
        confirmed_by answer request before success /\
        ser_booking_id r = Some (bcs_booking_id success)
  | _ => False
  end.

(** The values of the store: kept, but for the command's own once it succeeded. *)
Definition values_left (p : SelfBookingCreatePending) (r : SelfBookingCreateExecutionResult)
    (before after : gmap uuid EphemeralPiiValue) : Prop :=
  after ⊆ before /\
  forall id x, before !! id = Some x -> after !! id = Some x \/
    (ser_outcome r = EXEC_SUCCEEDED /\ ep_conversation_id x = sb_conversation_id p /\
     ep_allowed_purpose x = BOOKING_PHONE_WRITE).

Definition executed_post (pid : uuid) (env : Env) (s : Database) (before : nat)
    (r : SelfBookingCreateExecutionResult) (calls : list external_call) (s' : Database) : Prop :=
  let now := env_statement_timestamp env (db_statement_clock s) in
  touches_command pid s s' /\
  ((exists p c p',
      db_create_pendings s !! pid = Some p /\ pending_repo.claimable now p = true /\
      db_conversations s !! sb_conversation_id p = Some c /\
      db_create_pendings s' = <[pid := p']> (db_create_pendings s) /\
      same_command p p' /\ sb_attempt_count p' = sb_attempt_count p + 1 /\
      sb_execution_lease_token p' = None /\ reports r p' /\
      values_left p r (db_pii_values s) (db_pii_values s') /\
      command_outcome p c before r calls p') \/
   (calls = [] /\ (ser_outcome r = EXEC_CLAIM_DENIED \/ ser_outcome r = EXEC_EXPIRED) /\
    db_pii_values s' = db_pii_values s /\
    (forall p, db_create_pendings s !! pid = Some p -> pending_repo.claimable now p = false) /\
    (db_create_pendings s' = db_create_pendings s \/
     exists p, db_create_pendings s !! pid = Some p /\ exhausted now p = true /\
       db_create_pendings s' = <[pid := expired_command now p]> (db_create_pendings s)))).

(** The start of the command has no UTC time; the code raises before any call. *)
Definition unrepresentable_start (pid : uuid) (s : Database) : Prop :=
  exists p, db_create_pendings s !! pid = Some p /\
    outside_calendar (parse_studio_starts_at (sb_starts_at p)) = true.

Lemma wp_not_claimed pid env s (Q : SelfBookingCreateExecutionResult -> Database -> Prop) X :
  (forall r, ser_outcome r = EXEC_CLAIM_DENIED \/ ser_outcome r = EXEC_EXPIRED -> Q r s) ->
  wp (not_claimed pid) Q X env s.
Proof.
  intros HQ. unfold not_claimed. apply wp_bind, wp_get_by_id, wp_ret. apply HQ.
  destruct (table_get s !! pid); [|by left]. case_bool_decide; [by right|by left].
Qed.

Section Claimed.
Context (env : Env) (w : World) (pid : uuid) (p : SelfBookingCreatePending) (lease : uuid).
Context (Hcon : constraints_ok (w_db w)) (Hp : db_create_pendings (w_db w) !! pid = Some p).
Context (Hst : sb_state p = SB_EXECUTING) (Hlease : sb_execution_lease_token p = Some lease).
Context (Q : SelfBookingCreateExecutionResult -> World -> Prop) (X : exn -> World -> Prop).

(** How the execution of a claimed command may end. *)
Definition claimed_ends (c : Conversation) : Prop :=
  forall r calls p' v n k, (db_uuid_supply (w_db w) <= n)%N ->
    same_command p p' -> sb_attempt_count p' = sb_attempt_count p ->
    sb_execution_lease_token p' = None -> reports r p' ->
    values_left p r (db_pii_values (w_db w)) v ->
    command_outcome p c (length (w_calls w)) r calls p' ->
    Q r (later calls (with_commands (<[pid := p']> (db_create_pendings (w_db w))) n k
      ((w_db w) <| db_pii_values := v |>)) w).

Lemma values_kept r t : values_left p r t t.
Proof. split; [done|]. by left. Qed.

Lemma wp_apply_rejected c result calls key :
  claimed_ends c -> pending_fences_stale c p = false ->
  (exists outcome reason, result = BookingCreateRejectedResult outcome reason key /\
     (outcome = RETRY_LATER -> reason ∈ CREATE_RETRY_LATER_CODES /\ asked p calls) /\
     (calls = [] \/ asked p calls)) ->
  wp (apply_create_result p lease result) Q X env (later calls (w_db w) w).
Proof.
  intros HQ Hfresh (outcome & reason & -> & Hretry & Hcalls).
  assert (outcome = RETRY_LATER \/ outcome <> RETRY_LATER) as [-> | Hne]
    by (destruct outcome; by auto).
  - destruct (Hretry eq_refl) as [Hcode Hasked]. cbn [apply_create_result]. apply wp_stmt.
    apply wp_bind, wp_db_statement_now, wp_bind. cbn [later w_db field_set].
    eapply (wp_release _ _ _ pid p lease); [exact Hcon|exact Hp|done..|]. apply wp_ret.
    apply (HQ _ _ _ (db_pii_values (w_db w)));
      [apply N.le_refl|by split_and!|done|done|by split_and!|apply values_kept|].
    unfold command_outcome; cbn. split_and!; [done..|]. by eexists.
  - assert (wp (stmt (fail_terminal p lease reason)) Q X env (later calls (w_db w) w)) as Hwp.
    { apply wp_stmt. eapply (wp_fail_terminal _ _ _ pid p lease); [exact Hcon|exact Hp|done..|].
      intros now. destruct (command_row _ _ _ Hcon Hp) as (Hid & _).
      apply (HQ _ _ _ (db_pii_values (w_db w)));
        [done|by split_and!|done|done|by split_and!|apply values_kept|].
      unfold command_outcome. cbn. by split_and!. }
    by destruct outcome.
Qed.

(** The pair of the command is deleted, or what there is of it. *)
Lemma wp_best_effort_delete s (R : Database -> Prop) :
  constraints_ok s ->
  (forall s', sheds (fun x => ep_conversation_id x = sb_conversation_id p /\
     ep_allowed_purpose x = BOOKING_PHONE_WRITE) s s' -> R s') ->
  wp (best_effort_delete_pii (sb_conversation_id p) (sb_phone_ref_token p) (sb_name_ref_token p))
    (fun _ => R) (fun _ _ => False) env s.
Proof.
  set (own := fun x => _ /\ _). intros Hs HR.
  assert (forall token kind s1 (R1 : Database -> Prop), constraints_ok s1 ->
    (forall s2, sheds own s1 s2 -> constraints_ok s2 -> R1 s2) ->
    wp (delete_pii token (sb_conversation_id p) kind) (fun _ => R1) (fun _ _ => False) env s1)
    as Hdel.
  { intros token kind s1 R1 Hs1 HR1. apply wp_keeps; [solve_respects|done|].
    apply wp_try. destruct (EphemeralPiiReferenceOps.parse token) as [reference|].
    - apply wp_bind, wp_ret, wp_delete;
        [exact (constraints_keys_ok (R := EphemeralPiiValue) s1 Hs1)| |].
      + intros s2 (v & k & -> & Hv & Hrest) Hs2. apply HR1; [|done]. exists v, k.
        split; [done|]. split; [done|]. intros id x Hx.
        destruct (Hrest id x Hx) as [|(_ & ? & _ & ?)]; [by left|by right].
      + apply wp_ret. intros. by apply HR1.
    - apply wp_bind, wp_raise, wp_ret. intros. by apply HR1. }
  unfold best_effort_delete_pii. apply wp_bind, Hdel; [done|]. intros s1 Hd1 Hs1.
  apply Hdel; [done|]. intros s2 Hd2 _. apply HR. by etrans.
Qed.

Lemma wp_apply_confirmed c config answer request calls success starts_at key :
  claimed_ends c -> pending_fences_stale c p = false ->
  client = Some (config, answer) -> asks_for p request -> posted config request calls ->
  confirmed_by answer request (length (w_calls w)) success ->
  wp (apply_create_result p lease (BookingCreateConfirmedResult (bcs_booking_id success)
        (bcs_slot_id success) starts_at (bcs_idempotent_replay success) key))
    Q X env (later calls (w_db w) w).
Proof.
  intros HQ Hfresh Hclient Hasks Hposted Hconf. cbn [apply_create_result]. apply wp_bind, wp_stmt.
  apply wp_keeps; [solve_respects|exact Hcon|].
  eapply (wp_finish _ _ _ pid p lease); [exact Hcon|exact Hp|done..|]. intros now Hcon'.
  apply wp_bind, wp_when; [intros _|by rewrite bool_decide_eq_true_2]. apply wp_stmt.
  eapply wp_mono; [eapply wp_best_effort_delete; [exact Hcon'|intros s' Hs'; exact Hs']
    | |done].
  intros _ s' (v & k & -> & Hv & Hrest). apply wp_ret.
  destruct (command_row _ _ _ Hcon Hp) as (Hid & _).
  apply (HQ _ _ _ v); [apply N.le_refl|by split_and!|done|done|by split_and!| |].
  - split; [exact Hv|]. intros id x Hx.
    destruct (Hrest id x Hx) as [|[? ?]]; [by left|by right].
  - unfold command_outcome. cbn. split_and!; [done..|].
    by exists config, answer, request, success.
Qed.
End Claimed.

Lemma claimed_ends_ticked w pid p Q c k :
  claimed_ends w pid p Q c ->
  claimed_ends (w <| w_db := (w_db w) <| db_statement_clock := k |> |>) pid p Q c.
Proof. intros HQ r calls p' v n k'. exact (HQ r calls p' v n k'). Qed.

(** Reading the client's data reads only, whatever it finds. *)
Lemma wp_read_booking_pii p env s (Q : option (string * string) -> Database -> Prop) X :
  (forall found k, Q found (s <| db_statement_clock := k |>)) ->
  wp (read_booking_pii store p) Q X env s.
Proof.
  intros HQ.
  assert (forall token kind, respects ticks (read_pii store token (sb_conversation_id p) kind))
    as Hread by (intros; solve_respects).
  unfold read_booking_pii. apply wp_bind, wp_try, wp_bind.
  eapply wp_mono; [apply respects_wp, Hread| |].
  - intros phone s1 [k ->]. apply wp_bind. eapply wp_mono; [apply respects_wp, Hread| |].
    + intros name s2 [k' ->]. apply wp_ret, wp_ret, (HQ _ k').
    + intros e s2 [k' ->]. apply wp_ret, wp_ret, (HQ _ k').
  - intros e s1 [k ->]. apply wp_ret, wp_ret, (HQ _ k).
Qed.

Section ClaimedCommand.
Context (env : Env) (w : World) (pid : uuid) (p : SelfBookingCreatePending) (lease : uuid).
Context (Hcon : constraints_ok (w_db w)) (Hp : db_create_pendings (w_db w) !! pid = Some p).
Context (Hst : sb_state p = SB_EXECUTING) (Hlease : sb_execution_lease_token p = Some lease).
Context (Q : SelfBookingCreateExecutionResult -> World -> Prop) (X : exn -> World -> Prop).

(** What follows a successful comparison of the fences. *)
Lemma wp_execute_current c :
  claimed_ends w pid p Q c -> pending_fences_stale c p = false ->
  (outside_calendar (parse_studio_starts_at (sb_starts_at p)) = true ->
   X (Exn OverflowError "date value out of range") w) ->
  forall slot name phone, slot_from_pending p = Some slot ->
  wp (create_result ← confirm_selected_slot_for_conversation (http_client client)
        resolve_client_ref slot (sb_conversation_id p) (sb_idempotency_key p) name phone true true;
      apply_create_result p lease create_result) Q X env w.
Proof.
  intros HQ Hfresh HX slot name phone Hslot.
  assert (avs_starts_at slot = parse_studio_starts_at (sb_starts_at p)) as Hstart.
  { unfold slot_from_pending in Hslot. apply bind_Some in Hslot as (starts & Hs & Hslot).
    apply bind_Some in Hslot as (? & _ & [= <-]). cbn. f_equal.
    unfold require_canonical_booking_starts_at in Hs.
    repeat (match type of Hs with (if ?b then _ else _) = _ => destruct b; [done|] end).
    by injection Hs. }
  apply wp_bind, (wp_confirm_for_conversation client p env w _ _ slot name phone Hslot);
    [by rewrite Hstart|]. split.
  - intros reason key. rewrite <- (later_now w).
    apply (wp_apply_rejected env w pid p lease Hcon Hp Hst Hlease Q X c _ [] key); [done|done|].
    eexists _, _. split; [done|]. split; [done|by left].
  - intros config answer request calls Hclient Hasks Hposted. split.
    + intros outcome reason key Hretry.
      assert (asked p calls) as Hasked by (by exists config, answer, request).
      apply (wp_apply_rejected env w pid p lease Hcon Hp Hst Hlease Q X c _ calls key);
        [done|done|]. eexists _, _. split; [done|]. split; [by auto|by right].
    + intros success starts_at key Hconf.
      by eapply (wp_apply_confirmed env w pid p lease Hcon Hp Hst Hlease Q X c).
Qed.
End ClaimedCommand.

Section ClaimedExecution.
Context (env : Env) (w : World) (pid : uuid) (p : SelfBookingCreatePending) (lease : uuid).
Context (Hcon : constraints_ok (w_db w)) (Hp : db_create_pendings (w_db w) !! pid = Some p).
Context (Hst : sb_state p = SB_EXECUTING) (Hlease : sb_execution_lease_token p = Some lease).
Context (Q : SelfBookingCreateExecutionResult -> World -> Prop) (X : exn -> World -> Prop).

Lemma wp_execute_claimed :
  (forall c, db_conversations (w_db w) !! sb_conversation_id p = Some c ->
     claimed_ends w pid p Q c) ->
  (forall k, outside_calendar (parse_studio_starts_at (sb_starts_at p)) = true ->
   X (Exn OverflowError "date value out of range")
     (w <| w_db := (w_db w) <| db_statement_clock := k |> |>)) ->
  wp (execute_claimed store (http_client client) p lease) Q X env w.
Proof.
  intros HQ HX. destruct (command_row _ _ _ Hcon Hp) as (Hid & _).
  unfold execute_claimed. rewrite Hid. apply wp_bind, wp_stmt.
  eapply (wp_cancel_stale _ _ _ pid p); [exact Hcon|exact Hp|done|..].
  2: { intros c now Hc Hstale. apply wp_stmt, wp_bind, wp_get_by_id, wp_ret.
    set (p' := command_ended p SB_CANCELLED _ _ now).
    set (s' := with_commands (<[pid := p']> (db_create_pendings (w_db w))) _ _ (w_db w)).
    change (Q (result_of p EXEC_CANCELLED (Some SB_CANCELLED)
      ((<[pid := p']> (db_create_pendings (w_db w)) !! pid) ≫= sb_result_code) None)
      (w <| w_db := s' |>)).
    rewrite lookup_insert_eq. replace (w <| w_db := s' |>) with (later [] s' w)
      by (destruct w as [m d calls ids];
          change (MkWorld m s' (calls ++ []) ids = MkWorld m s' calls ids); by rewrite app_nil_r).
    apply (HQ c Hc _ _ _ (db_pii_values (w_db w)));
      [apply N.le_refl|by split_and!|done|done|by split_and!|apply values_kept|].
    unfold command_outcome. cbn. by split_and!. }
  intros c Hc Hfresh. specialize (HQ c Hc).
  assert (w <| w_db := w_db w |> = w) as -> by (by destruct w).
  apply wp_bind, wp_stmt, wp_read_booking_pii. intros found k.
  set (w' := w <| w_db := _ |>).
  assert (claimed_ends w' pid p Q c) as HQ' by (by apply claimed_ends_ticked).
  assert (constraints_ok (w_db w')) as Hcon' by exact Hcon.
  assert (forall code, wp (stmt (fail_terminal p lease code)) Q X env w') as Hfail.
  { intros code. rewrite <- (later_now w').
    apply (wp_apply_rejected env w' pid p lease Hcon' Hp Hst Hlease Q X c
      (BookingCreateRejectedResult BOOKING_FAIL_CLOSED code "") [] "");
      [done|done|]. eexists _, _. split; [done|]. split; [done|by left]. }
  destruct found as [[phone name]|]; [|apply Hfail].
  destruct (slot_from_pending p) as [slot|] eqn:Hslot; [|apply Hfail].
  by apply (wp_execute_current env w' pid p lease Hcon' Hp Hst Hlease Q X c HQ' Hfresh (HX k)).
Qed.
End ClaimedExecution.
End Execute.

(** ** Relations of the database, seen from an open transaction *)

Definition on_db (P : Database -> Database -> Prop) (w w' : World) : Prop := P (w_db w) (w_db w').

#[export] Instance on_db_preorder P `{!PreOrder P} : PreOrder (on_db P).
Proof. split; [intros w; unfold on_db; done|]. intros w1 w2 w3 H1 H2. unfold on_db in *. by etrans. Qed.

Lemma respects_stmt {A} P (body : Session A) : respects P body -> respects (on_db P) (stmt body).
Proof.
  intros Hb env w. specialize (Hb env (w_db w)). unfold stmt, on_db.
  by destruct (body env (w_db w)) as [[a|e] s'].
Qed.

Lemma respects_call {E B} P `{!PreOrder P} call (answer : nat -> result B) :
  respects (E := E) (on_db P) (call_outside call answer).
Proof. intros env w. unfold on_db. cbn. reflexivity. Qed.

#[export] Hint Extern 1 (respects (on_db _) (call_outside _ _)) => apply respects_call; apply _ : respects.
#[export] Hint Extern 1 (respects (on_db _) (stmt _)) => apply respects_stmt; solve_respects : respects.

Section Spec.
Context `{WireLib} `{CryptoLib} `{ClientRefResolver} (store : EphemeralPiiStore).
Context (client : option (BookingEligibilityHttpConfig * (nat -> S2sReply))).

Lemma execute_keeps pid : respects (on_db keeps) (execute store (http_client client) pid).
Proof. unfold http_client, http_create_client. destruct client as [[config answer]|]; cbn; solve_respects. Qed.

Lemma execute_spec pid env w :
  constraints_ok (w_db w) ->
  wp (execute store (http_client client) pid)
    (fun r w' => exists calls s', w' = later calls s' w /\
       executed_post client pid env (w_db w) (length (w_calls w)) r calls s')
    (fun e w' => e = Exn OverflowError "date value out of range" /\
       unrepresentable_start pid (w_db w) /\ w_calls w' = w_calls w) env w.
Proof.
  intros Hcon. unfold execute. apply wp_bind, wp_stmt.
  apply wp_keeps; [solve_respects|exact Hcon|]. set (s := w_db w).
  set (now := env_statement_timestamp env (db_statement_clock s)).
  assert (forall r t n k, (db_uuid_supply s <= n)%N ->
    (ser_outcome r = EXEC_CLAIM_DENIED \/ ser_outcome r = EXEC_EXPIRED) ->
    (forall p, db_create_pendings s !! pid = Some p -> pending_repo.claimable now p = false) ->
    (t = db_create_pendings s \/
     exists p, db_create_pendings s !! pid = Some p /\ exhausted now p = true /\
       t = <[pid := expired_command now p]> (db_create_pendings s)) ->
    exists calls s', w <| w_db := with_commands t n k s |> = later calls s' w /\
      executed_post client pid env s (length (w_calls w)) r calls s') as Hunclaimed.
  { intros r t n k Hn Hr Hno Ht. exists [], (with_commands t n k s). split.
    - destruct w as [m d calls ids]. unfold later, field_set. cbn. by rewrite app_nil_r.
    - split; [|by right]. destruct Ht as [->|(p & Hp & _ & ->)];
        [by apply touches_with_commands
        |exact (touches_updated pid p _ (db_pii_values s) n k s Hp Hn ltac:(done))]. }
  apply wp_claim_command; [exact Hcon|..]; fold s now.
  - intros p Hp Hclaim Hcon1. set (p1 := claimed_command _ now p) in *.
    set (s1 := with_commands _ _ _ s) in *. destruct (command_row _ _ _ Hcon Hp) as (Hid & _).
    assert (db_create_pendings s1 !! pid = Some p1) as Hp1 by (cbn; apply lookup_insert_eq).
    cbn [sb_execution_lease_token p1 claimed_command pending_repo.claim_values].
    change (sb_execution_lease_token p1) with (Some (uuid4_of (db_uuid_supply s))).
    eapply (wp_execute_claimed store client env (w <| w_db := s1 |>) pid p1);
      [exact Hcon1|exact Hp1|done|done|..].
    + intros c Hc r calls p' v n k Hn Hsame Hatt Hlease Hrep Hval Hout.
      exists calls, (with_commands (<[pid := p']> (db_create_pendings s)) n k
        (s <| db_pii_values := v |>)). split.
      { destruct w as [m d ? ids]. unfold later, field_set. cbn. unfold s1. cbn.
        rewrite insert_insert_eq. done. }
      assert (db_uuid_supply s <= n)%N by (cbn in Hn; lia).
      split; [apply (touches_updated _ p); [done|done|exact (proj1 Hval)]|].
      left. exists p, c, p'. split_and!; try done.
    + intros k Hutc. split_and!; [done| |done]. by exists p.
  - intros p Hp Hex _. apply wp_stmt, wp_not_claimed. intros r Hr.
    apply Hunclaimed; [cbn; lia|done| |right; by exists p].
    intros q [= <-]%(eq_trans (eq_sym Hp)). unfold exhausted, pending_repo.claimable in *.
    apply andb_true_iff in Hex as [Hmax _]. rewrite Z.leb_le in Hmax.
    destruct (Z.ltb_spec (sb_attempt_count p) (sb_max_attempts p)); [lia|done].
  - intros Hno k _. apply wp_stmt, wp_not_claimed. intros r Hr.
    apply Hunclaimed; [cbn; lia|done| |by left]. intros p Hp. by apply Hno.
Qed.
End Spec.

(** ** Executions as steps of the system *)

(** The worker executed [pid] on [s]: some store, resolver and service answered,
    [r] was reported, [calls] were made and the database [s'] was committed. *)
Definition executes (pid : uuid) (r : result SelfBookingCreateExecutionResult)
    (calls : list external_call) (s s' : Database) : Prop :=
  exists (wire : WireLib) (crypto : CryptoLib) (resolver : ClientRefResolver) store
      client env w w',
    w_db w = s /\ execute store (http_client client) pid env w = (r, w') /\
    w_calls w' = w_calls w ++ calls /\
    s' = match r with Returned _ => w_db w' | Raised _ => s end.

Lemma executes_spec pid r calls s s' :
  constraints_ok s -> executes pid r calls s s' ->
  (exists a (wire : WireLib) client env before,
     r = Returned a /\ executed_post client pid env s before a calls s') \/
  (exists e, r = Raised e /\ s' = s /\ calls = [] /\ unrepresentable_start pid s).
Proof.
  intros Hcon (wire & crypto & resolver & store & client & env & w & w' & <- & Hrun & Hcalls & ->).
  pose proof (execute_spec store client pid env w Hcon) as Hwp. unfold wp in Hwp. rewrite Hrun in Hwp.
  destruct r as [a|e].
  - left. destruct Hwp as (calls' & s' & -> & Hpost). exists a, wire, client, env, (length (w_calls w)).
    split; [done|]. destruct w as [m d calls0 ids]. cbn in *.
    by apply app_inv_head in Hcalls as <-.
  - right. destruct Hwp as (-> & Hutc & Heq). exists (Exn OverflowError "date value out of range").
    split_and!; try done. rewrite Heq in Hcalls.
    rewrite <- (app_nil_r (w_calls w)) in Hcalls at 1. by apply app_inv_head in Hcalls as <-.
Qed.

Lemma executes_touches pid r calls s s' :
  constraints_ok s -> executes pid r calls s s' -> touches_command pid s s' /\ keeps s s'.
Proof.
  intros Hcon Hex. split.
  - destruct (executes_spec _ _ _ _ _ Hcon Hex) as [(a & wire & client & env & n & _ & H & _)
      |(e & _ & -> & _)]; [exact H|reflexivity].
  - destruct Hex as (wire & crypto & resolver & store & client & env & w & w' & <- & Hrun & _ & ->).
    pose proof (execute_keeps store client pid env w) as Hk. rewrite Hrun in Hk.
    destruct r; [exact Hk|reflexivity].
Qed.

Lemma touches_same_dialog pid s s' : touches_command pid s s' -> same_dialog s s'.
Proof. intros (t & v & n & k & -> & _). by split_and!. Qed.

(** The command moved along [command_history]; every other one is untouched. *)
Lemma executes_commands pid r calls s s' :
  constraints_ok s -> executes pid r calls s s' ->
  (forall j, j <> pid -> db_create_pendings s' !! j = db_create_pendings s !! j) /\
  (forall p, db_create_pendings s !! pid = Some p ->
     exists p', db_create_pendings s' !! pid = Some p' /\ command_history p p').
Proof.
  intros Hcon Hex. pose proof (executes_touches _ _ _ _ _ Hcon Hex) as [(t & v & n & k & Es & _ & _ & Ht & _) _].
  split; [intros j Hj; rewrite Es; by apply Ht|]. intros p Hp.
  destruct (executes_spec _ _ _ _ _ Hcon Hex) as [(a & wire & client & env & b & _ & _ & H)
    |(e & _ & -> & _)]; [|by exists p].
  destruct H as [(q & c & p' & Hq & Hcl & _ & -> & Hsame & Hatt & _)|(_ & _ & _ & _ & [-> |(q & Hq & Hx & ->)])].
  - assert (q = p) as -> by congruence. exists p'. rewrite lookup_insert_eq.
    split; [done|]. split; [done|]. split; [lia|].
    intros Hterm. unfold pending_repo.claimable in Hcl. destruct (sb_state p);
      cbn in Hcl; rewrite ?andb_false_r in Hcl; done.
  - by exists p.
  - assert (q = p) as -> by congruence. eexists. rewrite lookup_insert_eq. split; [done|].
    split; [by split_and!|]. split; [done|]. unfold exhausted in Hx.
    intros Hterm. destruct (sb_state p); cbn in Hx; rewrite ?andb_false_r in Hx; done.
Qed.
