(* ===== verification/System.v ===== *)
(** * The system as a sequence of committed transactions

    Every worker and request handler changes the database by transactions that
    are serialised by row locks; a run of the system is a sequence of them in
    any order, with any environments, by any number of workers.  The only thing
    a worker carries from one transaction to a later one that the database does
    not re-check is the identity of a claimed plan, so a state is the database
    and the plan claims issued so far.  [reachable] starts from the empty
    database; the dialog invariant holds in every reachable state, and [history]
    between any two states of a run. *)

From S2P Require Import Prelude BookingText Models Database Statements Conversations ReplyPlans.
From S2P Require Import Outbound SelfBooking Messages Mirror ReplyText BookingFields Projections.
From S2P Require Import Inbound ManagerMessages HandoffExpiry ReplyDispatch VkGate Arbiter Dialog.
From S2P Require Import Moves Frames ManagerProofs ExpiryProofs InboundProofs DispatchProofs.
From S2P Require Import ClaimProofs ArbiterProofs History VkClient VkObserver Bindings IngressQueue.
From S2P Require Import Ingress IngressWorker IngressProofs AdapterProofs VkProofs AmocrmProofs.
From S2P Require Import EphemeralPii PiiAdmission PiiProofs SelfBookingExecution SelfBookingProofs.

Import outbound_repo(obc_outbound_id, obc_lease_token, obc_lease_version).

Record System := MkSystem { sys_db : Database; sys_claims : list reply_plan_repo.ReplyPlanClaim }.

(** The transaction [body] ran on [s], in some environment, and left [s'];
    [session_scope] restores [s] when it raises. *)
Definition runs {A} (body : Session A) (r : result A) (s s' : Database) : Prop :=
  exists env, session_scope body env s = (r, s').

(** Transactions whose bodies take no plan claim. *)
Inductive service : forall A, Session A -> Prop :=
  | service_accept pause pii event : service _ (accept pause pii event)
  | service_takeover cid now : service _ (ManagerTakeoverService.apply cid now)
  | service_manager_message event pause :
      service _ (SyntheticManagerMessageService.apply event pause)
  | service_expire : service _ expire_one
  | service_outbound_claim worker lease now :
      service _ (outbound_repo.claim_next worker lease now)
  | service_admit settings claim now : service _ (admit_in_session settings claim now)
  | service_reclaim claim : service _ (prepare_reclaimed_admission claim)
  | service_provider claim pid now : service _ (record_provider_message_id claim pid now)
  | service_delivered claim pid now : service _ (record_delivered claim pid now)
  | service_fail_outbound (claim : outbound_repo.OutboundClaim) retry now :
      service _ (outbound_repo.fail_with_lease (obc_outbound_id claim)
                   (obc_lease_token claim) (obc_lease_version claim) retry now)
  | service_fail_admitted (claim : outbound_repo.OutboundClaim) permanent retry now :
      service _ (outbound_repo.fail_admitted_delivery_with_lease (obc_outbound_id claim)
                   (obc_lease_token claim) (obc_lease_version claim) permanent retry now)
  | service_projection cid oid corr :
      service _ (amocrm_chat_projection.enqueue_bot_outbound_projection cid oid corr)
  | service_fail_plan retry claim code : service _ (fail_claimed_plan retry claim code)
  | service_mirror_claim worker lease now :
      service _ (mirror_repo.claim_next worker lease now)
  | service_mirror_revalidate claim now :
      service _ (amocrm_mirror.process_revalidate claim now)
  | service_mirror_complete claim now : service _ (amocrm_mirror.process_complete claim now)
  | service_mirror_fail jid token version code retry now :
      service _ (mirror_repo.fail_with_lease jid token version code retry now)
  | service_receive_synthetic max event : service _ (SyntheticIngressAdapter.accept max event)
  | service_receive_vk `{PyLib} max event : service _ (VkClientIngressAdapter.accept max event)
  | service_receive_vk_reply `{PyLib} max event :
      service _ (VkClientIngressAdapter.accept_message_reply max event)
  | service_receive_amocrm max event : service _ (AmoCrmManagerIngressAdapter.accept max event)
  | service_vk_callback `{PyLib} body config : service _ (handle_vk_client_callback body config)
  | service_ingress_claim worker lease now :
      service _ (ingress_repo.claim_next worker lease now)
  | service_ingress_fail eid token version code retry now :
      service _ (ingress_repo.fail_with_lease eid token version code retry now)
  | service_ingress_synthetic pause pii claim inbound :
      service _ (synthetic_in_session pause pii claim inbound)
  | service_ingress_vk settings config claim inbound :
      service _ (vk_client_in_session settings config claim inbound)
  | service_ingress_vk_reply `{PyLib} pause config claim :
      service _ (vk_reply_in_session pause config claim)
  | service_ingress_amocrm pause claim : service _ (amocrm_manager_in_session pause claim)
  | service_bind cid chat integration :
      service _ (binding_repo.insert_active_if_absent cid chat integration)
  | service_find_command : service _ SelfBookingCreateExecutionWorker.find_claimable
  | service_admit_pii `{CryptoLib} store macs cid request phone name mac key_id :
      service _ (SelfBookingPiiAdmissionService.admit_once store macs cid request phone name mac
                   key_id)
  | service_replay_pii macs cid request phone name :
      service _ (SelfBookingPiiAdmissionService.admit_replay_only macs cid request phone name)
  | service_store_pii `{CryptoLib} store plaintext cid kind purpose :
      service _ (EphemeralPiiStoreOps.store_value store plaintext cid kind purpose)
  | service_consume_pii `{CryptoLib} store reference cid kind purpose :
      service _ (EphemeralPiiStoreOps.consume_once store reference cid kind purpose)
  | service_delete_pii reference cid kind purpose :
      service _ (EphemeralPiiStoreOps.delete reference cid kind purpose)
  | service_purge_pii limit : service _ (EphemeralPiiStoreOps.purge_expired limit).

(** Transactions that dispatch under an issued claim. *)
Inductive dispatch (claim : reply_plan_repo.ReplyPlanClaim) : forall A, Session A -> Prop :=
  | dispatch_plain : dispatch claim _ (dispatch_non_booking claim)
  | dispatch_prepare : dispatch claim _ (booking_phase1_prepare claim)
  | dispatch_finalize payload fields persist :
      dispatch claim _ (booking_phase2_finalize claim payload fields persist).

Inductive step : System -> System -> Prop :=
  | step_service A (body : Session A) r s s' claims :
      service A body -> runs body r s s' ->
      step (MkSystem s claims) (MkSystem s' claims)
  | step_claim worker lease now r s s' claims :
      runs (claim_one_plan worker lease now) r s s' ->
      step (MkSystem s claims)
        (MkSystem s' match r with Returned (Some cl) => cl :: claims | _ => claims end)
  | step_dispatch A (body : Session A) claim r s s' claims :
      claim ∈ claims -> dispatch claim A body -> runs body r s s' ->
      step (MkSystem s claims) (MkSystem s' claims)
  | step_execute pid r calls s s' claims :
      executes pid r calls s s' -> step (MkSystem s claims) (MkSystem s' claims).

Definition initial : System := MkSystem empty_database [].

Definition reachable (x : System) : Prop := rtc step initial x.

(** ** Every transaction respects the history of rows *)

Lemma service_traces A (body : Session A) : service A body -> respects traces body.
Proof. intros []; solve_respects. Qed.

Lemma dispatch_traces claim A (body : Session A) : dispatch claim A body -> respects traces body.
Proof. intros []; solve_respects. Qed.

Lemma claim_one_traces worker lease now : respects traces (claim_one_plan worker lease now).
Proof. solve_respects. Qed.

Lemma runs_history {A} (body : Session A) r s s' :
  respects traces body -> constraints_ok s -> runs body r s s' -> history s s'.
Proof.
  intros Hb Hcon [env Hrun].
  assert (respects traces (session_scope body)) as Hs by (apply respects_session_scope; [apply _|done]).
  specialize (Hs env s). rewrite Hrun in Hs. by apply Hs.
Qed.

(** ** The dialog invariant is kept *)

Lemma session_scope_twice {A} (body : Session A) env s :
  session_scope (session_scope body) env s = session_scope body env s.
Proof. unfold session_scope. by destruct (body env s) as [[a|e] s']. Qed.

(** A specification of the transaction read off a run of it. *)
Lemma runs_spec {A} (body : Session A) (Q : Env -> A -> Database -> Prop) r s s' :
  (forall env, wp (session_scope body) (Q env) (fun _ s' => s' = s) env s) ->
  runs body r s s' ->
  match r with Returned a => exists env, Q env a s' | Raised _ => s' = s end.
Proof.
  intros H [env Hrun]. specialize (H env). unfold wp in H. rewrite Hrun in H.
  destruct r; [by exists env|done].
Qed.

Lemma runs_dialog_ok {A} (body : Session A) r s s' :
  dialog_ok s ->
  (forall env, wp (session_scope body) (fun _ s' => dialog_ok s') (fun _ s' => s' = s) env s) ->
  runs body r s s' -> dialog_ok s'.
Proof.
  intros Hok H Hrun. pose proof (runs_spec body (fun _ _ => dialog_ok) r s s' H Hrun) as Hr.
  destruct r; [by destruct Hr|by subst].
Qed.

Lemma runs_same_dialog {A} (body : Session A) s :
  dialog_ok s -> respects same_dialog body -> respects keeps body ->
  forall env, wp (session_scope body) (fun _ s' => dialog_ok s') (fun _ s' => s' = s) env s.
Proof.
  intros Hok Hb Hk env. apply wp_session_scope_keeps; [done|apply Hok|].
  eapply wp_same_dialog; [exact Hb| |done]. intros a s' Hs Hcon. by eapply dialog_ok_same.
Qed.

Lemma wp_nested {A} (body : Session A) Q X env s :
  wp (session_scope body) Q X env s -> wp (session_scope (session_scope body)) Q X env s.
Proof. unfold wp. by rewrite session_scope_twice. Qed.

(** The invariant is the first conjunct of a specification. *)
Tactic Notation "from_spec" tactic(tac) :=
  intros env; eapply wp_mono; [tac; done | intros ? ? [? _]; assumption | done].

Lemma service_dialog_ok A (body : Session A) s :
  service A body -> dialog_ok s ->
  forall env, wp (session_scope body) (fun _ s' => dialog_ok s') (fun _ s' => s' = s) env s.
Proof.
  intros Hb Hok. destruct Hb.
  - from_spec (apply accept_spec).
  - from_spec (apply wp_nested, takeover_spec).
  - from_spec (apply wp_nested, manager_message_spec).
  - intros env. eapply wp_mono; [by apply wp_nested, expire_one_spec| |done].
    intros [h|] s' H; [apply H|]. destruct H as [_ ->]. eapply dialog_ok_same; [exact Hok|done|].
    pose proof (keeps_only_counters s (fun n => n) S) as [_ Hk]. destruct s. apply Hk, Hok.
  - from_spec (apply outbound_claim_next_spec).
  - from_spec (apply admit_in_session_spec).
  - intros env. eapply wp_mono; [by apply prepare_reclaimed_spec| |done]. by intros r s' [-> _].
  - from_spec (apply record_provider_spec).
  - from_spec (apply record_delivered_spec).
  - from_spec (apply fail_with_lease_spec).
  - from_spec (apply fail_admitted_spec).
  - apply runs_same_dialog; [done|solve_respects..].
  - from_spec (apply fail_claimed_plan_spec).
  - apply runs_same_dialog; [done|solve_respects..].
  - apply runs_same_dialog; [done|solve_respects..].
  - apply runs_same_dialog; [done|solve_respects..].
  - apply runs_same_dialog; [done|solve_respects..].
  - apply runs_same_dialog; [done|solve_respects..].
  - apply runs_same_dialog; [done|solve_respects..].
  - apply runs_same_dialog; [done|solve_respects..].
  - apply runs_same_dialog; [done|solve_respects..].
  - apply runs_same_dialog; [done|solve_respects..].
  - apply runs_same_dialog; [done|solve_respects..].
  - apply runs_same_dialog; [done|solve_respects..].
  - from_spec (apply synthetic_in_session_spec).
  - from_spec (apply vk_client_in_session_spec).
  - from_spec (apply vk_reply_in_session_spec).
  - from_spec (apply amocrm_manager_in_session_spec).
  - apply runs_same_dialog; [done|solve_respects..].
  - apply runs_same_dialog; [done|solve_respects..].
  - apply runs_same_dialog; [done|solve_respects..].
  - apply runs_same_dialog; [done|solve_respects..].
  - apply runs_same_dialog; [done|solve_respects..].
  - apply runs_same_dialog; [done|solve_respects..].
  - apply runs_same_dialog; [done|solve_respects..].
  - apply runs_same_dialog; [done|solve_respects..].
Qed.

Lemma dispatch_dialog_ok claim A (body : Session A) s :
  dispatch claim A body -> dialog_ok s -> plan_claim_ok s claim ->
  forall env, wp (session_scope body) (fun _ s' => dialog_ok s') (fun _ s' => s' = s) env s.
Proof.
  intros Hb Hok Hcl. destruct Hb.
  - from_spec (apply dispatch_non_booking_spec).
  - from_spec (apply booking_phase1_spec).
  - from_spec (apply booking_phase2_spec).
Qed.

(** A claim keeps naming its plan. *)
Lemma plan_claim_ok_history s s' claim :
  plan_claim_ok s claim -> history s s' -> plan_claim_ok s' claim.
Proof.
  intros (p & Hp & E1 & E2) (_ & Hps & _). destruct (Hps _ _ Hp) as (p' & Hp' & Hsame & _).
  destruct Hsame as (_ & F1 & F2 & _). exists p'. split_and!; congruence.
Qed.

(** An execution writes no table the history watches. *)
Lemma touches_history pid s s' : touches_command pid s s' -> history s s'.
Proof. intros (t & v & n & k & -> & _). by split_and!. Qed.

Definition system_ok (x : System) : Prop :=
  dialog_ok (sys_db x) /\ Forall (plan_claim_ok (sys_db x)) (sys_claims x).

Lemma claims_history s s' claims :
  Forall (plan_claim_ok s) claims -> history s s' -> Forall (plan_claim_ok s') claims.
Proof. intros H Hh. eapply Forall_impl; [exact H|]. intros cl Hcl. by eapply plan_claim_ok_history. Qed.

Lemma step_ok x y : step x y -> system_ok x -> system_ok y /\ history (sys_db x) (sys_db y).
Proof.
  intros Hstep [Hok Hcl]. pose proof Hok as [Hcon _].
  destruct Hstep as [A body r s s' claims Hb Hrun|worker lease now r s s' claims Hrun
                    |A body claim r s s' claims Hin Hb Hrun|pid r calls s s' claims Hex]; cbn in *.
  - assert (history s s') as Hh by (eapply runs_history; [by eapply service_traces|done|done]).
    split; [split|done]; [|by eapply claims_history].
    eapply runs_dialog_ok; [exact Hok|by eapply service_dialog_ok|done].
  - assert (history s s') as Hh by (eapply runs_history; [by eapply claim_one_traces|done|done]).
    pose proof (runs_spec _ (fun env => claim_goal s (default (env_now env) now) worker lease) r s s'
      (fun env => claim_one_plan_spec env s worker lease now Hok) Hrun) as Hr.
    pose proof (claims_history _ _ _ Hcl Hh) as Hcl'.
    destruct r as [[cl|]|]; cbn in Hr; [|by destruct Hr as (env & ? & _)|by subst].
    destruct Hr as (env & Hok' & Hnew & _). split; [split; [done|by constructor]|done].
  - assert (history s s') as Hh by (eapply runs_history; [by eapply dispatch_traces|done|done]).
    rewrite Forall_forall in Hcl. pose proof (Hcl claim Hin) as Hclaim.
    split; [split|done]; [|rewrite <- Forall_forall in Hcl; by eapply claims_history].
    eapply runs_dialog_ok; [exact Hok|by eapply dispatch_dialog_ok|done].
  - destruct (executes_touches _ _ _ _ _ Hcon Hex) as [Ht [_ Hk]].
    pose proof (touches_history _ _ _ Ht) as Hh.
    split; [split|done]; [|by eapply claims_history].
    eapply dialog_ok_same; [exact Hok|by eapply touches_same_dialog|auto].
Qed.

Lemma run_ok x y : rtc step x y -> system_ok x -> system_ok y /\ history (sys_db x) (sys_db y).
Proof.
  intros H. induction H as [|x y z Hxy _ IH]; [done|]. intros Hx.
  destruct (step_ok _ _ Hxy Hx) as [Hy Hh]. destruct (IH Hy) as [Hz Hh']. split; [done|by etrans].
Qed.

Lemma dialog_ok_empty : dialog_ok empty_database.
Proof.
  split; [split_and!; intros id r Hr; by destruct (lookup_empty_Some _ _ Hr)|].
  split; split_and!; intros *; cbn [db_conversations db_reply_plans db_outbox_messages
    db_inbox_messages db_manager_messages empty_database]; rewrite ?lookup_empty; done.
Qed.

Lemma reachable_ok x : reachable x -> system_ok x.
Proof.
  intros H. apply (run_ok initial x H). split; [apply dialog_ok_empty|constructor].
Qed.
