(* ===== verification/Commands.v ===== *)
(** * Self-booking commands along runs

    What happens to the commands while the system runs: transactions only add
    commands that were never tried, executions move one command at a time.  A run
    with its log remembers what was sent for which command. *)

From S2P Require Import Prelude BookingText Models Database Statements Conversations SelfBooking.
From S2P Require Import Outbound Messages Mirror Projections ReplyDispatch Inbound ManagerMessages.
From S2P Require Import HandoffExpiry Arbiter VkClient VkObserver Bindings IngressQueue Ingress.
From S2P Require Import IngressWorker EphemeralPii BookingCreate PiiAdmission SelfBookingExecution.
From S2P Require Import Dialog Frames PiiProofs SelfBookingProofs System.
Import SelfBookingCreatePendingService.

(** ** Transactions only add commands *)

Definition commands_grow (s s' : Database) : Prop :=
  db_create_pendings s ⊆ db_create_pendings s' /\
  forall pid p, db_create_pendings s' !! pid = Some p -> db_create_pendings s !! pid = None ->
    sb_attempt_count p = 0 /\ 1 <= sb_max_attempts p.

#[export] Instance commands_grow_preorder : PreOrder commands_grow.
Proof.
  split.
  - intros s. split; [done|]. intros pid p Hp Hn. congruence.
  - intros s1 s2 s3 [K1 N1] [K2 N2]. split; [by etrans|]. intros pid p Hp Hn.
    destruct (db_create_pendings s2 !! pid) as [q|] eqn:Hq; [|by apply (N2 pid)].
    pose proof (lookup_weaken _ _ _ _ Hq K2) as Hq'. apply (N1 pid); congruence.
Qed.

(** A change of anything else. *)
Lemma commands_same s s' : db_create_pendings s' = db_create_pendings s -> commands_grow s s'.
Proof. intros E. split; rewrite E; [done|]. intros pid p Hp Hn. congruence. Qed.

#[export] Instance commands_grow_conversations : Unwatched commands_grow Conversation.
Proof. intros t s. by apply commands_same. Qed.
#[export] Instance commands_grow_ops : Unwatched commands_grow ConversationOpsEvent.
Proof. intros t s. by apply commands_same. Qed.
#[export] Instance commands_grow_inbox : Unwatched commands_grow InboxMessage.
Proof. intros t s. by apply commands_same. Qed.
#[export] Instance commands_grow_manager : Unwatched commands_grow ManagerMessage.
Proof. intros t s. by apply commands_same. Qed.
#[export] Instance commands_grow_plans : Unwatched commands_grow ReplyPlan.
Proof. intros t s. by apply commands_same. Qed.
#[export] Instance commands_grow_outbox : Unwatched commands_grow OutboxMessage.
Proof. intros t s. by apply commands_same. Qed.
#[export] Instance commands_grow_mirror : Unwatched commands_grow AmoCrmMirrorJob.
Proof. intros t s. by apply commands_same. Qed.
#[export] Instance commands_grow_projections : Unwatched commands_grow AmocrmMessageProjection.
Proof. intros t s. by apply commands_same. Qed.
#[export] Instance commands_grow_ingress : Unwatched commands_grow IngressEvent.
Proof. intros t s. by apply commands_same. Qed.
#[export] Instance commands_grow_offers : Unwatched commands_grow SelfBookingActiveOffer.
Proof. intros t s. by apply commands_same. Qed.
#[export] Instance commands_grow_admissions : Unwatched commands_grow SelfBookingPiiAdmission.
Proof. intros t s. by apply commands_same. Qed.
#[export] Instance commands_grow_pii_values : Unwatched commands_grow EphemeralPiiValue.
Proof. intros t s. by apply commands_same. Qed.
#[export] Instance commands_grow_bindings : Unwatched commands_grow AmocrmChatBinding.
Proof. intros t s. by apply commands_same. Qed.

Lemma commands_grow_uuid4 : respects commands_grow uuid4.
Proof. intros env s. by apply commands_same. Qed.
Lemma commands_grow_statement_now : respects commands_grow db_statement_now.
Proof. intros env s. by apply commands_same. Qed.

Lemma respects_of_wp {A} (P : Database -> Database -> Prop) (m : Session A) :
  (forall env s, wp m (fun _ s' => P s s') (fun _ s' => P s s') env s) -> respects P m.
Proof. intros H env s. specialize (H env s). unfold wp in H. by destruct (m env s) as [[a|e] s']. Qed.

(** A command enters untried. *)
Lemma commands_grow_insert_row (r : SelfBookingCreatePending) :
  sb_attempt_count r = 0 -> respects commands_grow (insert_row r).
Proof.
  intros Hr. apply respects_bind; [apply _| |intros; apply respects_ret, _].
  apply respects_of_wp. intros env s. apply wp_insert_with; [by intros| |by intros..].
  intros _ Hfree (_ & Hck & _) _. split; [by apply insert_subseteq|]. intros k p Hk Hn.
  change (<[sb_id r := r]> (db_create_pendings s) !! k = Some p) in Hk.
  apply lookup_insert_Some in Hk as [[_ <-]|[_ Hk]].
  - split; [done|]. change (create_pending_checks r = true) in Hck.
    unfold create_pending_checks in Hck. rewrite !andb_true_iff in Hck. lia.
  - by rewrite Hk in Hn.
Qed.

Lemma commands_grow_insert pid cid ch ext state version max key slot starts cv me hwm phone name
    now :
  respects commands_grow (pending_repo.insert_pending pid cid ch ext state version 0 max key slot
    starts cv me hwm phone name now).
Proof.
  unfold pending_repo.insert_pending. cbv zeta.
  apply respects_bind; [apply _| |intros; apply respects_ret, _].
  apply respects_session_scope; [apply _|]. by apply commands_grow_insert_row.
Qed.

#[export] Hint Resolve commands_grow_uuid4 commands_grow_statement_now commands_grow_insert
  : respects.

Lemma service_commands A (body : Session A) : service A body -> respects commands_grow body.
Proof. intros []; solve_respects. Qed.

Lemma dispatch_commands claim A (body : Session A) :
  dispatch claim A body -> respects commands_grow body.
Proof. intros []; solve_respects. Qed.

Lemma claim_one_commands worker lease now :
  respects commands_grow (claim_one_plan worker lease now).
Proof. solve_respects. Qed.

(** ** Runs with the log of what was sent *)

(** The steps of the system but executions. *)
Inductive transact : System -> System -> Prop :=
  | transact_service A (body : Session A) r s s' claims :
      service A body -> runs body r s s' -> transact (MkSystem s claims) (MkSystem s' claims)
  | transact_claim worker lease now r s s' claims :
      runs (claim_one_plan worker lease now) r s s' ->
      transact (MkSystem s claims)
        (MkSystem s' match r with Returned (Some cl) => cl :: claims | _ => claims end)
  | transact_dispatch A (body : Session A) claim r s s' claims :
      claim ∈ claims -> dispatch claim A body -> runs body r s s' ->
      transact (MkSystem s claims) (MkSystem s' claims).

(** Which command each call to the booking service was made for. *)
Definition call_log := list (uuid * external_call).

Inductive logged : System -> call_log -> System -> Prop :=
  | logged_nothing x : logged x [] x
  | logged_transact x y log z : transact x y -> logged y log z -> logged x log z
  | logged_execute pid r calls s s' claims log z :
      executes pid r calls s s' -> logged (MkSystem s' claims) log z ->
      logged (MkSystem s claims) ((pair pid <$> calls) ++ log) z.

Lemma transact_step x y : transact x y -> step x y.
Proof.
  intros [A body r s s' claims ??|worker lease now r s s' claims ?|A body cl r s s' claims ???];
    [by eapply step_service|by eapply step_claim|by eapply step_dispatch].
Qed.

Lemma logged_run x log y : logged x log y -> rtc step x y.
Proof.
  induction 1; [done|eapply rtc_l; [by apply transact_step|done]|].
  eapply rtc_l; [by eapply step_execute|done].
Qed.

Lemma step_cases x y :
  step x y -> transact x y \/
  exists pid r calls, executes pid r calls (sys_db x) (sys_db y) /\ sys_claims y = sys_claims x.
Proof.
  intros [A body r s s' claims Hb Hrun|worker lease now r s s' claims Hrun
         |A body cl r s s' claims Hin Hb Hrun|pid r calls s s' claims He].
  - left. by eapply transact_service.
  - left. by eapply transact_claim.
  - left. by eapply transact_dispatch.
  - right. by exists pid, r, calls.
Qed.

(** Every run has its log. *)
Lemma run_logged x y : rtc step x y -> exists log, logged x log y.
Proof.
  induction 1 as [x|x y z Hxy _ [log IH]]; [exists []; constructor|].
  destruct (step_cases _ _ Hxy) as [Ht|(pid & r & calls & He & E)].
  - exists log. by eapply logged_transact.
  - destruct x as [s claims], y as [s' claims']. cbn in *. subst claims'.
    eexists. by eapply logged_execute.
Qed.

Lemma runs_respects {A} (P : Database -> Database -> Prop) `{!PreOrder P} (body : Session A) r s s' :
  respects P body -> runs body r s s' -> P s s'.
Proof.
  intros Hb [env Hrun].
  assert (respects P (session_scope body)) as Hs by (apply respects_session_scope; [apply _|done]).
  specialize (Hs env s). by rewrite Hrun in Hs.
Qed.

Lemma transact_commands x y : transact x y -> commands_grow (sys_db x) (sys_db y).
Proof.
  intros [A body r s s' claims Hb Hr|worker lease now r s s' claims Hr
         |A body cl r s s' claims _ Hb Hr]; cbn; (eapply runs_respects; [apply _| |exact Hr]);
    [by eapply service_commands|apply claim_one_commands|by eapply dispatch_commands].
Qed.

(** ** Attempts are bounded *)

Definition attempts_bounded (s : Database) : Prop :=
  forall pid p, db_create_pendings s !! pid = Some p -> sb_attempt_count p <= sb_max_attempts p.

Lemma grow_attempts_bounded s s' : commands_grow s s' -> attempts_bounded s -> attempts_bounded s'.
Proof.
  intros [Hk Hn] Hb pid p Hp. destruct (db_create_pendings s !! pid) as [q|] eqn:Hq.
  - pose proof (lookup_weaken _ _ _ _ Hq Hk) as Hq'. assert (p = q) as -> by congruence. by eapply Hb.
  - destruct (Hn pid p Hp Hq). lia.
Qed.

(** ** What was asked *)

(** A call asks the booking service for the booking of [p], under its key. *)
Definition asks (p : SelfBookingCreatePending) (call : external_call) : Prop :=
  exists wire : WireLib, exists config request,
    asks_for p request /\ posted config request [call].

Lemma asks_same p p' call : same_command p p' -> asks p call -> asks p' call.
Proof.
  intros Hs (wire & config & request & [E1 E2] & Hposted). exists wire, config, request.
  split; [|done]. unfold same_command in Hs. split; intuition congruence.
Qed.

Lemma asks_same_back p p' call : same_command p p' -> asks p' call -> asks p call.
Proof.
  intros Hs (wire & config & request & [E1 E2] & Hposted). exists wire, config, request.
  split; [|done]. unfold same_command in Hs. split; intuition congruence.
Qed.

Lemma asks_posted (wire : WireLib) config request p calls :
  asks_for p request -> posted config request calls -> exists call, calls = [call] /\ asks p call.
Proof.
  intros Hasks Hposted. pose proof Hposted as (body & _ & ->). eexists. split; [done|].
  by exists wire, config, request.
Qed.

(** What one execution sends, and what it does to the attempts of its command. *)
Lemma executes_attempts pid r calls s s' :
  constraints_ok s -> executes pid r calls s s' -> attempts_bounded s ->
  attempts_bounded s' /\
  (calls <> [] -> exists p, db_create_pendings s !! pid = Some p /\
     self_booking_active (sb_state p) = true /\
     exists p', db_create_pendings s' !! pid = Some p' /\ command_history p p' /\
       sb_attempt_count p' = sb_attempt_count p + 1 /\
       exists call, calls = [call] /\ asks p call).
Proof.
  intros Hcon Hex Hb. destruct (executes_commands _ _ _ _ _ Hcon Hex) as [Hothers Hself].
  destruct (executes_spec _ _ _ _ _ Hcon Hex) as [(a & wire & client & env & b & _ & _ & H)
    |(e & _ & -> & -> & _)]; [|by split].
  destruct H as [(p & c & p' & Hp & Hcl & _ & Es & Hsame & Hatt & _ & _ & _ & Hout)
                |(-> & _ & _ & _ & Hend)].
  - assert (sb_attempt_count p < sb_max_attempts p) as Hlt.
    { unfold pending_repo.claimable in Hcl. apply andb_true_iff in Hcl as [Hlt _].
      by apply Z.ltb_lt. }
    assert (sb_max_attempts p' = sb_max_attempts p) as Hmax by apply Hsame.
    split.
    + intros j q. rewrite Es, lookup_insert_Some. intros [[<- <-]|[_ Hq]]; [lia|by eapply Hb].
    + intros Hne. exists p. split; [done|].
      destruct (Hself p Hp) as (q & Hq & Hhist). rewrite Es, lookup_insert_eq in Hq.
      injection Hq as <-. split.
      * unfold pending_repo.claimable in Hcl. destruct (sb_state p); try done;
          cbn in Hcl; by rewrite andb_false_r in Hcl.
      * exists p'. rewrite Es, lookup_insert_eq. split_and!; [done..|].
        unfold command_outcome, asked in Hout. destruct (ser_outcome a); try done.
        -- destruct Hout as (_ & _ & config & answer & request & success & _ & ? & ? & _).
           eauto using asks_posted.
        -- destruct Hout as (_ & _ & [->|(config & answer & request & _ & ? & ?)]); [done|].
           eauto using asks_posted.
        -- by destruct Hout as (_ & _ & ->).
        -- destruct Hout as (_ & _ & (config & answer & request & _ & ? & ?) & _).
           eauto using asks_posted.
  - split; [|done]. destruct Hend as [E|(p & Hp & _ & E)]; intros j q; rewrite E; [apply Hb|].
    rewrite lookup_insert_Some. intros [[<- <-]|[_ Hq]]; [cbn; by eapply Hb|by eapply Hb].
Qed.

Lemma run_attempts x y :
  rtc step x y -> system_ok x -> attempts_bounded (sys_db x) -> attempts_bounded (sys_db y).
Proof.
  induction 1 as [x|x y z Hxy _ IH]; [done|]. intros Hok Hb.
  apply IH; [by apply (step_ok x y Hxy)|]. destruct (step_cases _ _ Hxy) as [Ht|(pid & r & calls & He & _)].
  - by eapply grow_attempts_bounded, Hb; apply transact_commands.
  - by eapply executes_attempts, Hb; [apply Hok|].
Qed.

Lemma reachable_attempts x : reachable x -> attempts_bounded (sys_db x).
Proof.
  intros H. apply (run_attempts initial x H); [by apply reachable_ok, rtc_refl|].
  intros pid p Hp. by destruct (lookup_empty_Some _ _ Hp).
Qed.

(** ** The log of a command *)

Definition calls_for (pid : uuid) (log : call_log) : list external_call :=
  snd <$> filter (fun e => e.1 = pid) log.

Lemma calls_for_app pid l1 l2 : calls_for pid (l1 ++ l2) = calls_for pid l1 ++ calls_for pid l2.
Proof.
  unfold calls_for. induction l1 as [|e l1 IH]; [done|]. cbn.
  destruct (decide _); [exact (f_equal (cons _) IH)|exact IH].
Qed.

Lemma calls_for_own pid calls : calls_for pid (pair pid <$> calls) = calls.
Proof.
  unfold calls_for. induction calls as [|c calls IH]; [done|]. cbn.
  rewrite decide_True by done. cbn. by f_equal.
Qed.

Lemma calls_for_other pid pid' calls : pid' <> pid -> calls_for pid (pair pid' <$> calls) = [].
Proof.
  intros Hne. unfold calls_for. induction calls as [|c calls IH]; [done|]. cbn.
  rewrite decide_False by done. exact IH.
Qed.

(** Along a run: what was sent for a command, and how often. *)
Lemma logged_command x log y :
  logged x log y -> system_ok x -> attempts_bounded (sys_db x) -> forall pid,
  (forall p, db_create_pendings (sys_db x) !! pid = Some p ->
     exists p', db_create_pendings (sys_db y) !! pid = Some p' /\ command_history p p' /\
       sb_attempt_count p + Z.of_nat (length (calls_for pid log)) <= sb_attempt_count p' /\
       Forall (asks p) (calls_for pid log) /\
       (self_booking_active (sb_state p) = false -> calls_for pid log = [])) /\
  (db_create_pendings (sys_db x) !! pid = None -> calls_for pid log <> [] ->
     exists p', db_create_pendings (sys_db y) !! pid = Some p' /\
       Z.of_nat (length (calls_for pid log)) <= sb_attempt_count p' /\
       Forall (asks p') (calls_for pid log)).
Proof.
  induction 1 as [x|x y log z Hxy _ IH|eid r calls s s' claims log z He _ IH]; intros Hok Hb pid.
  - split; [|done]. intros p Hp. exists p. split_and!; [done..|cbn; lia|constructor|done].
  - destruct (step_ok _ _ (transact_step _ _ Hxy) Hok) as [Hok' _].
    pose proof (transact_commands _ _ Hxy) as Hgrow.
    destruct (IH Hok' (grow_attempts_bounded _ _ Hgrow Hb) pid) as [IH1 IH2].
    destruct Hgrow as [Hk Hn]. split.
    + intros p Hp. by apply IH1, (lookup_weaken _ _ _ _ Hp Hk).
    + intros Hnone Hne. destruct (db_create_pendings (sys_db y) !! pid) as [q|] eqn:Hq; [|by apply IH2].
      destruct (Hn pid q Hq Hnone) as [Hzero _].
      destruct (IH1 q eq_refl) as (p' & Hp' & [Hs _] & Hlen & Hall & _). exists p'.
      split_and!; [done|lia|]. eapply Forall_impl; [exact Hall|]. intros call. by apply asks_same.
  - destruct Hok as [Hdok Hcl]. pose proof (proj1 Hdok) as Hcon.
    destruct (step_ok _ _ (step_execute eid r calls s s' claims He) (conj Hdok Hcl)) as [Hok' _].
    destruct (executes_attempts _ _ _ _ _ Hcon He Hb) as [Hb' Hcalls].
    destruct (executes_commands _ _ _ _ _ Hcon He) as [Hothers Hself].
    destruct (IH Hok' Hb' pid) as [IH1 IH2]. cbn [sys_db] in *. rewrite calls_for_app.
    destruct (decide (eid = pid)) as [->|Hne].
    + rewrite calls_for_own. split.
      * intros p Hp. destruct (Hself p Hp) as (p1 & Hp1 & Hh1).
        destruct (IH1 p1 Hp1) as (p' & Hp' & Hh' & Hlen & Hall & Hact).
        pose proof Hh1 as (Hs1 & Ha1 & Ht1). exists p'. split; [done|]. split; [by etrans|].
        assert (Forall (asks p) (calls_for pid log)) as Hall'
          by (eapply Forall_impl; [exact Hall|]; intros call; by apply asks_same_back).
        destruct (decide (calls = [])) as [->|Hne].
        { split_and!; [cbn [app]; lia|done|]. intros Hterm. by rewrite (Ht1 Hterm) in Hact; apply Hact. }
        destruct (Hcalls Hne) as (q & Hq & Hactive & q' & Hq' & _ & Hone & call & -> & Hasks).
        assert (q = p) as -> by congruence. assert (q' = p1) as -> by congruence.
        split_and!; [cbn [app length]; lia|by constructor|congruence].
      * intros Hnone. destruct (decide (calls = [])) as [->|Hne].
        { intros Hlog. apply IH2; [|done].
          destruct (executes_touches _ _ _ _ _ Hcon He)
            as [(t & v & n & k & -> & _ & _ & _ & Hgone) _]. by apply Hgone. }
        destruct (Hcalls Hne) as (q & Hq & _). congruence.
    + rewrite calls_for_other by done. cbn [app]. rewrite <- (Hothers pid) by done. by split.
Qed.
