(* ===== verification/Handoff.v ===== *)
(** * The handoff as an abstract machine

    What the dialog services promise to whoever reads only the state of the
    dialogs: every dialog is the bot's, a person's until a deadline, a person's
    while the client waits, or closed, with three counters; every transaction of
    the system moves at most one dialog, by one event of [handoff_step].  The
    rows, queues and leases of the database are the implementation. *)

From S2P Require Import Prelude BookingText Models Database Statements Conversations ReplyPlans.
From S2P Require Import Outbound SelfBooking Messages Mirror ReplyText BookingFields Projections.
From S2P Require Import Inbound ManagerMessages HandoffExpiry ReplyDispatch VkGate Arbiter Dialog.
From S2P Require Import VkClient VkObserver Bindings IngressQueue Ingress IngressWorker Frames.
From S2P Require Import ManagerProofs ExpiryProofs InboundProofs DispatchProofs ClaimProofs.
From S2P Require Import ArbiterProofs History IngressProofs AdapterProofs VkProofs AmocrmProofs.
From S2P Require Import EphemeralPii PiiProofs SelfBookingExecution SelfBookingProofs System.

(** ** The machine *)

Inductive Phase :=
  | PhaseBot
  | PhaseHuman (until : tstz)
  | PhasePaused (until : tstz)
  | PhaseClosed.

Record Handoff := MkHandoff {
  ho_phase : Phase;
  ho_version : Z;
  ho_epoch : Z;
  ho_seq : Z
}.

Inductive HandoffEvent :=
  | ClientWrote (until : tstz)
  | ClientObserved
  | PersonWrote (until : tstz)
  | PersonAnswered (until : tstz)
  | TakenOver
  | HandedBack (now : instant).

(** The client's message starts the wait of a person's dialog, [until] the end of
    the pause; a wait that runs keeps its end. *)
Definition client_phase (until : tstz) (p : Phase) : Phase :=
  match p with PhaseHuman _ => PhasePaused until | p => p end.

Inductive handoff_step : HandoffEvent -> Handoff -> Handoff -> Prop :=
  | client_wrote until p v e q :
      handoff_step (ClientWrote until) (MkHandoff p v e q)
        (MkHandoff (client_phase until p) (v + 1) e (q + 1))
  | client_observed p v e q :
      handoff_step ClientObserved (MkHandoff p v e q) (MkHandoff p (v + 1) e (q + 1))
  | person_wrote until p v e q :
      p <> PhaseClosed ->
      handoff_step (PersonWrote until) (MkHandoff p v e q)
        (MkHandoff (PhaseHuman until) (v + 1) (e + 1) (q + 1))
  | person_answered until p v e q :
      p <> PhaseClosed ->
      handoff_step (PersonAnswered until) (MkHandoff p v e q)
        (MkHandoff (PhaseHuman until) (v + 1) (e + 1) q)
  | taken_over p v e q :
      p <> PhaseClosed ->
      handoff_step TakenOver (MkHandoff p v e q) (MkHandoff (PhaseHuman Infinity) v (e + 1) q)
  | handed_back now until p v e q :
      p = PhaseHuman until \/ p = PhasePaused until -> tstz_due until now = true ->
      handoff_step (HandedBack now) (MkHandoff p v e q) (MkHandoff PhaseBot v e q).

Definition initial_handoff : Handoff := MkHandoff PhaseBot 0 0 0.

(** A system of dialogs: one of them moves, or none. *)
Definition dialogs_step (f g : uuid -> Handoff) : Prop :=
  (forall k, g k = f k) \/
  exists cid event, handoff_step event (f cid) (g cid) /\ forall k, k <> cid -> g k = f k.

(** ** The abstraction *)

Definition phase_of (c : Conversation) : Phase :=
  let until := default Infinity (conv_handoff_deadline_at c) in
  match conv_status c, conv_handoff_state c with
  | CLOSED, _ => PhaseClosed
  | _, BOT_ACTIVE => PhaseBot
  | _, HUMAN_ACTIVE => PhaseHuman until
  | _, HUMAN_PAUSE => PhasePaused until
  end.

Definition handoff_of (c : Conversation) : Handoff :=
  MkHandoff (phase_of c) (conv_context_version c) (conv_manager_epoch c)
    (conv_current_event_seq c).

(** A dialog that does not exist is as it would start. *)
Definition dialog_of (s : Database) (cid : uuid) : Handoff :=
  match db_conversations s !! cid with Some c => handoff_of c | None => initial_handoff end.

Lemma dialog_of_lookup s cid c : db_conversations s !! cid = Some c -> dialog_of s cid = handoff_of c.
Proof. unfold dialog_of. by intros ->. Qed.

Lemma dialog_of_prior s cid c : prior s cid c -> dialog_of s cid = handoff_of c.
Proof.
  intros [Hc|(Hno & _ & t & ->)]; [by apply dialog_of_lookup|]. unfold dialog_of. by rewrite Hno.
Qed.

Lemma phase_closed c : phase_of c = PhaseClosed <-> conv_status c = CLOSED.
Proof. unfold phase_of. destruct (conv_status c), (conv_handoff_state c); split; done. Qed.

(** ** What moves no dialog *)

Definition still_dialogs (s s' : Database) : Prop := forall k, dialog_of s' k = dialog_of s k.

#[export] Instance still_dialogs_preorder : PreOrder still_dialogs.
Proof. split; [by intros s k|]. intros s1 s2 s3 H1 H2 k. by rewrite H2, H1. Qed.

Lemma still_same_conversations s s' :
  db_conversations s' = db_conversations s -> still_dialogs s s'.
Proof. intros E k. unfold dialog_of. by rewrite E. Qed.

#[export] Instance still_ops : Unwatched still_dialogs ConversationOpsEvent.
Proof. intros t s. by apply still_same_conversations. Qed.
#[export] Instance still_dialogs_inbox : Unwatched still_dialogs InboxMessage.
Proof. intros t s. by apply still_same_conversations. Qed.
#[export] Instance still_manager_messages : Unwatched still_dialogs ManagerMessage.
Proof. intros t s. by apply still_same_conversations. Qed.
#[export] Instance still_plans : Unwatched still_dialogs ReplyPlan.
Proof. intros t s. by apply still_same_conversations. Qed.
#[export] Instance still_outbox : Unwatched still_dialogs OutboxMessage.
Proof. intros t s. by apply still_same_conversations. Qed.
#[export] Instance still_mirror : Unwatched still_dialogs AmoCrmMirrorJob.
Proof. intros t s. by apply still_same_conversations. Qed.
#[export] Instance still_projections : Unwatched still_dialogs AmocrmMessageProjection.
Proof. intros t s. by apply still_same_conversations. Qed.
#[export] Instance still_ingress : Unwatched still_dialogs IngressEvent.
Proof. intros t s. by apply still_same_conversations. Qed.
#[export] Instance still_offers : Unwatched still_dialogs SelfBookingActiveOffer.
Proof. intros t s. by apply still_same_conversations. Qed.
#[export] Instance still_pendings : Unwatched still_dialogs SelfBookingCreatePending.
Proof. intros t s. by apply still_same_conversations. Qed.
#[export] Instance still_pii_values : Unwatched still_dialogs EphemeralPiiValue.
Proof. intros t s. by apply still_same_conversations. Qed.
#[export] Instance still_pii : Unwatched still_dialogs SelfBookingPiiAdmission.
Proof. intros t s. by apply still_same_conversations. Qed.
#[export] Instance still_bindings : Unwatched still_dialogs AmocrmChatBinding.
Proof. intros t s. by apply still_same_conversations. Qed.

Lemma still_uuid4 : respects still_dialogs uuid4.
Proof. intros env s. by apply still_same_conversations. Qed.
Lemma still_statement_now : respects still_dialogs db_statement_now.
Proof. intros env s. by apply still_same_conversations. Qed.
#[export] Hint Resolve still_uuid4 still_statement_now : respects.

Lemma service_moves_none A (body : Session A) s :
  respects still_dialogs body -> forall env,
  wp (session_scope body) (fun _ s' => dialogs_step (dialog_of s) (dialog_of s'))
    (fun _ s' => s' = s) env s.
Proof.
  intros Hb env. apply wp_session_scope. eapply wp_mono; [by apply (respects_wp still_dialogs)| |done].
  intros a s' H. by left.
Qed.

(** One dialog moved. *)
Lemma moved_one s s' cid event :
  handoff_step event (dialog_of s cid) (dialog_of s' cid) ->
  (forall k, k <> cid -> db_conversations s' !! k = db_conversations s !! k) ->
  dialogs_step (dialog_of s) (dialog_of s').
Proof.
  intros Hs Hout. right. exists cid, event. split; [done|]. intros k Hne. unfold dialog_of.
  by rewrite Hout.
Qed.

Lemma moved_none s s' cid c :
  prior s cid c -> db_conversations s' !! cid = Some c ->
  (forall k, k <> cid -> db_conversations s' !! k = db_conversations s !! k) ->
  dialogs_step (dialog_of s) (dialog_of s').
Proof.
  intros Hp Hc Hout. left. intros k. destruct (decide (k = cid)) as [->|Hne].
  - by rewrite (dialog_of_prior _ _ _ Hp), (dialog_of_lookup _ _ _ Hc).
  - unfold dialog_of. by rewrite Hout.
Qed.

Lemma step_with_ingress s s1 events :
  dialogs_step (dialog_of s) (dialog_of s1) ->
  dialogs_step (dialog_of s) (dialog_of (with_ingress events s1)).
Proof. done. Qed.

(** ** What moves one *)

(** The step, up to its arguments. *)
Lemma client_wrote_step c c' until :
  conv_context_version c' = conv_context_version c + 1 ->
  conv_current_event_seq c' = conv_current_event_seq c + 1 ->
  conv_manager_epoch c' = conv_manager_epoch c -> phase_of c' = client_phase until (phase_of c) ->
  handoff_step (ClientWrote until) (handoff_of c) (handoff_of c').
Proof. unfold handoff_of. intros -> -> -> ->. apply client_wrote. Qed.

Lemma reply_planned_phase now moment pause c c2 c' plan :
  conv_handoff_state c2 = conv_handoff_state c ->
  conv_handoff_deadline_at c2 = conv_handoff_deadline_at c -> conv_status c2 = conv_status c ->
  reply_planned now moment pause c2 c' plan ->
  phase_of c' = client_phase (At (moment + seconds pause)) (phase_of c).
Proof.
  intros E1 E2 E3 [(_ & _ & _ & _ & Hst & _) H]. unfold phase_of. rewrite Hst, E3.
  destruct plan as [p|].
  - destruct H as (_ & _ & _ & _ & _ & _ & H). rewrite E1 in H.
    destruct (conv_handoff_state c).
    + destruct H as [-> _]. by destruct (conv_status c).
    + destruct H as (-> & _ & ->). by destruct (conv_status c).
    + destruct H as (-> & _ & ->). rewrite E2. by destruct (conv_status c).
  - destruct H as (Hc & _). rewrite E3 in Hc. by rewrite Hc.
Qed.

Lemma accept_moves env pause event s r s' :
  accept_goal env pause event s r s' -> dialogs_step (dialog_of s) (dialog_of s').
Proof.
  intros (_ & (Hout & _) & c & Hp & Hc' & _ & _ & _ & H). destruct (iar_duplicate r).
  - destruct H as (E & _). rewrite E in *. by eapply moved_none.
  - destruct H as (_ & Hv & Hq & He & _ & _ & c2 & tick & E1 & E2 & E3 & Hpl).
    eapply moved_one; [|exact Hout].
    rewrite (dialog_of_prior _ _ _ Hp), (dialog_of_lookup _ _ _ Hc').
    apply client_wrote_step; [done..|]. by eapply reply_planned_phase.
Qed.

(** A person's activity ends in a person's dialog. *)
Lemma phase_human c until :
  conv_status c = HANDOFF -> conv_handoff_state c = HUMAN_ACTIVE ->
  conv_handoff_deadline_at c = Some until -> phase_of c = PhaseHuman until.
Proof. unfold phase_of. by intros -> -> ->. Qed.

Lemma manager_moves env event pause s r s' :
  manager_goal env event pause s r s' -> dialogs_step (dialog_of s) (dialog_of s').
Proof.
  intros (_ & (Hout & _) & c & c' & m & Hp & Hc' & _ & _ & _ & _ & _ & _ & H).
  destruct (mar_duplicate r); [destruct H as (_ & -> & _); by eapply moved_none|].
  destruct H as [_ H]. destruct (mar_fsm_changed r); [|destruct H as [-> _]; by eapply moved_none].
  destruct H as [(seq & _ & _ & Hopen & _ & _ & Hq & Hv & He & _ & Hst & _ & Hh & Hd) _].
  eapply moved_one; [|exact Hout].
  rewrite (dialog_of_prior _ _ _ Hp), (dialog_of_lookup _ _ _ Hc'). unfold handoff_of.
  rewrite Hq, Hv, He, (phase_human c' _ Hst Hh Hd). apply person_wrote. by rewrite phase_closed.
Qed.

Lemma takeover_moves s cid r s' :
  untouched_outside cid s s' -> takeover_post s cid r s' ->
  dialogs_step (dialog_of s) (dialog_of s').
Proof.
  intros (Hout & _) (c & c' & Hc & Hc' & _ & _ & _ & H). destruct (mtr_changed r).
  - destruct H as (Hh & _ & He & Hv & Hq & Hopen & Hst & Hd & _).
    eapply moved_one; [|exact Hout].
    rewrite (dialog_of_lookup _ _ _ Hc), (dialog_of_lookup _ _ _ Hc'). unfold handoff_of.
    rewrite Hq, Hv, He, (phase_human c' _ Hst Hh Hd). apply taken_over. by rewrite phase_closed.
  - subst c'. eapply moved_none; [by left|done|done].
Qed.

Lemma expiry_moves s cid t moment h s' :
  constraints_ok s -> expiry_goal s cid t moment h s' -> dialogs_step (dialog_of s) (dialog_of s').
Proof.
  intros Hcon (_ & (Hout & _) & Ecid & c & c' & Hc & Hc' & Hdue & -> & _ & _ & Htr).
  rewrite Ecid in *. eapply moved_one; [|exact Hout].
  rewrite (dialog_of_lookup _ _ _ Hc), (dialog_of_lookup _ _ _ Hc').
  unfold conversation_repo.handoff_due in Hdue. rewrite !andb_true_iff, bool_decide_eq_true in Hdue.
  destruct Hdue as ((((Hst & _) & Hh) & Hd) & _).
  destruct (conv_handoff_deadline_at c) as [until|] eqn:Ed; [|done].
  change (handoff_of (conversation_repo.return_due_handoff_to_bot_values _ _ _)) with
    (MkHandoff PhaseBot (conv_context_version c) (conv_manager_epoch c) (conv_current_event_seq c)).
  apply (handed_back t until); [|done]. unfold phase_of. rewrite Hst, Ed.
  destruct (conv_handoff_state c); [done|by left|by right].
Qed.

Lemma observer_moves env event s a s1 :
  observer_post env event s a s1 -> dialogs_step (dialog_of s) (dialog_of s1).
Proof.
  intros (c & s0 & Hop & _ & _ & _ & _ & _ & H).
  assert (forall k, k <> conv_id c -> db_conversations s0 !! k = db_conversations s !! k) as Hout.
  { destruct Hop as [[-> _]|(? & _ & _ & ->)]; [done|]. intros k Hne. cbn. by rewrite lookup_insert_ne. }
  destruct (var_duplicate a).
  - destruct H as (_ & -> & _). eapply moved_none; [by eapply opened_prior|by eapply opened_lookup|done].
  - destruct H as (_ & E & _ & n & ->). destruct (bumped_advances env
      (default (env_wall_clock env) (vie_received_at event)) c) as (_ & Hq & Hv & He & Hh).
    apply (moved_one _ _ (conv_id c) ClientObserved).
    + rewrite (dialog_of_prior _ _ _ (opened_prior _ _ _ Hop)).
      rewrite (dialog_of_lookup _ _ (var_conversation a)) by (cbn; apply lookup_insert_eq).
      rewrite E. unfold handoff_of. rewrite Hq, Hv, He.
      change (phase_of (bumped env _ c)) with (phase_of c). apply client_observed.
    + intros k Hne. cbn. rewrite lookup_insert_ne by done. by apply Hout.
Qed.

Lemma proof_still env settings config c text created s plan s' :
  db_conversations s !! conv_id c = Some c ->
  proof_post env settings config c text created s plan s' -> still_dialogs s s'.
Proof.
  intros Hc H k. destruct plan as [p|]; [|by destruct H as [_ ->]].
  destruct H as (_ & c' & _ & (_ & E1 & E2 & E3 & E4 & _ & _) & Hh & Hd & Hcs & _).
  unfold dialog_of. rewrite Hcs. destruct (decide (k = conv_id c)) as [->|Hne].
  - rewrite lookup_insert_eq, Hc. unfold handoff_of, phase_of. by rewrite E1, E2, E3, E4, Hh, Hd.
  - by rewrite lookup_insert_ne.
Qed.

Lemma dialogs_step_still s s1 s2 :
  dialogs_step (dialog_of s) (dialog_of s1) -> still_dialogs s1 s2 ->
  dialogs_step (dialog_of s) (dialog_of s2).
Proof.
  intros [H|(cid & event & Hs & Hout)] H2; [left|right; exists cid, event].
  - intros k. by rewrite H2.
  - rewrite H2. split; [done|]. intros k Hne. rewrite H2. by apply Hout.
Qed.

Lemma vk_client_moves env settings config inbound s a s' :
  vk_client_goal env settings config inbound s a s' -> dialogs_step (dialog_of s) (dialog_of s').
Proof.
  intros (_ & s1 & plan & Hobs & Hproof). eapply dialogs_step_still; [by eapply observer_moves|].
  eapply proof_still; [by eapply observer_lookup|done].
Qed.

Lemma reply_moves `{PyLib} env pause config s envelope r s' :
  reply_goal env pause config s envelope r s' -> dialogs_step (dialog_of s) (dialog_of s').
Proof.
  intros (_ & ext & pmid & cmid & provenance & _ & H'). destruct (vrr_fsm_changed r).
  - destruct H' as (_ & _ & cid & c & c' & _ & Hc & _ & _ & _ & Hc' &
      (Hopen & _ & _ & Hv & He & Hq & Hst & _ & Hh & Hd) & _ & Hout & _).
    eapply moved_one; [|exact Hout].
    rewrite (dialog_of_lookup _ _ _ Hc), (dialog_of_lookup _ _ _ Hc'). unfold handoff_of.
    rewrite Hq, Hv, He, (phase_human c' _ Hst Hh Hd). apply person_answered. by rewrite phase_closed.
  - destruct H' as [-> _]. by left.
Qed.

Lemma amocrm_moves env pause claim s a s' :
  amocrm_goal env pause claim s a s' -> dialogs_step (dialog_of s) (dialog_of s').
Proof.
  intros (_ & d & _ & H). destruct a as [r|].
  - destruct H as (_ & c & s1 & _ & _ & Hb & Hm & _). apply manager_moves in Hm.
    unfold only_bindings in Hb. rewrite Hb in Hm. exact Hm.
  - destruct H as [_ Hb]. unfold only_bindings in Hb. rewrite Hb. by left.
Qed.

(** The completion of the event moves nothing more. *)
Lemma event_moves {A} env claim f (G : A -> Database -> Prop) s r s' :
  (forall a s1, G a s1 -> dialogs_step (dialog_of s) (dialog_of s1)) ->
  event_applied env claim f G s r s' -> dialogs_step (dialog_of s) (dialog_of s').
Proof. intros HG (a & s1 & e & _ & Ha & _ & ->). by apply step_with_ingress, (HG a). Qed.

(** ** The refinement *)

Lemma service_moves A (body : Session A) s :
  service A body -> dialog_ok s ->
  forall env, wp (session_scope body) (fun _ s' => dialogs_step (dialog_of s) (dialog_of s'))
    (fun _ s' => s' = s) env s.
Proof.
  intros Hb Hok. destruct Hb; try (apply service_moves_none; solve_respects).
  - intros env. eapply wp_mono; [by apply accept_spec|intros r s'; by apply accept_moves|done].
  - intros env. eapply wp_mono; [by apply wp_nested, takeover_spec| |done].
    intros r s' (_ & Hout & Hp). by eapply takeover_moves.
  - intros env. eapply wp_mono; [by apply wp_nested, manager_message_spec| |done].
    intros r s'. apply manager_moves.
  - intros env. eapply wp_mono; [by apply wp_nested, expire_one_spec| |done].
    intros [h|] s' H; [by eapply expiry_moves; [apply Hok|]|]. destruct H as [_ ->]. by left.
  - intros env. eapply wp_mono; [by apply synthetic_in_session_spec| |done].
    intros r s' [_ H]. eapply event_moves; [|exact H]. intros a s1. apply accept_moves.
  - intros env. eapply wp_mono; [by apply vk_client_in_session_spec| |done].
    intros r s' [_ H]. eapply event_moves; [|exact H]. intros a s1. apply vk_client_moves.
  - intros env. eapply wp_mono; [by apply vk_reply_in_session_spec| |done].
    intros r s' [_ H']. eapply event_moves; [|exact H']. intros a s1. apply reply_moves.
  - intros env. eapply wp_mono; [by apply amocrm_manager_in_session_spec| |done].
    intros r s' [_ H]. eapply event_moves; [|exact H]. intros a s1. apply amocrm_moves.
Qed.

Lemma dispatch_moves claim A (body : Session A) : dispatch claim A body -> respects still_dialogs body.
Proof. intros []; solve_respects. Qed.

Lemma claim_one_moves worker lease now : respects still_dialogs (claim_one_plan worker lease now).
Proof. solve_respects. Qed.

Lemma runs_still {A} (body : Session A) r s s' :
  respects still_dialogs body -> runs body r s s' -> still_dialogs s s'.
Proof.
  intros Hb [env Hrun].
  assert (respects still_dialogs (session_scope body)) as H by (apply respects_session_scope; [apply _|done]).
  specialize (H env s). by rewrite Hrun in H.
Qed.

Lemma step_moves x y :
  step x y -> dialog_ok (sys_db x) -> dialogs_step (dialog_of (sys_db x)) (dialog_of (sys_db y)).
Proof.
  intros Hstep Hok. destruct Hstep as [A body r s s' claims Hb Hrun|worker lease now r s s' claims Hrun
    |A body claim r s s' claims Hin Hb Hrun|pid r calls s s' claims Hex]; cbn in *.
  - pose proof (runs_spec body (fun _ _ s' => dialogs_step (dialog_of s) (dialog_of s')) r s s'
      (service_moves _ _ _ Hb Hok) Hrun) as H. destruct r; [by destruct H|subst; by left].
  - left. by apply (runs_still _ _ _ _ (claim_one_moves worker lease now) Hrun).
  - left. by apply (runs_still _ _ _ _ (dispatch_moves _ _ _ Hb) Hrun).
  - left. destruct Hok as [Hcon _].
    destruct (executes_touches _ _ _ _ _ Hcon Hex) as [(t & v & n & k & -> & _) _].
    by apply still_same_conversations.
Qed.

(** The columns of a dialog that go with its phase. *)
Definition phase_columns (c : Conversation) : Prop :=
  match phase_of c with
  | PhaseBot => conv_status c = OPEN /\ conv_ownership c = BOT /\
      conv_handoff_deadline_at c = None /\ conv_manager_takeover_at c = None
  | PhaseHuman until => conv_status c = HANDOFF /\ conv_ownership c = MANAGER /\
      conv_handoff_deadline_at c = Some until /\ conv_human_pause_anchor_at c = None
  | PhasePaused until => conv_status c = HANDOFF /\ conv_ownership c = MANAGER /\
      conv_handoff_deadline_at c = Some until /\ is_not_null (conv_human_pause_anchor_at c) = true
  | PhaseClosed => conv_status c = CLOSED /\ conv_ownership c = BOT /\
      conv_handoff_deadline_at c = None
  end.

Lemma checked_phase c : conversation_checks c = true -> phase_columns c.
Proof.
  intros Hck%checks_consistency. revert Hck. unfold handoff_consistency, phase_columns, phase_of.
  destruct (conv_status c), (conv_ownership c), (conv_handoff_state c); try done;
    destruct (conv_handoff_deadline_at c), (conv_human_pause_anchor_at c), (conv_manager_takeover_at c);
    done.
Qed.
