(* ===== verification/TextProofs.v ===== *)
(** * Proofs about the texts and payloads the client may get

    What [sanitize_booking_result_fields] lets through, stated without the code:
    [closed_fields].  Every result is closed and a closed one passes unchanged. *)

From S2P Require Import Prelude BookingText Models Database ReplyText BookingFields.

(** ** Strings and lists of strings *)

Lemma str_in_elem x l : str_in x l = true <-> x ∈ l.
Proof.
  unfold str_in. rewrite existsb_exists. split.
  - intros (y & Hy%list_elem_of_In & ->%String.eqb_eq). done.
  - intros H. exists x. split; [by apply list_elem_of_In|apply String.eqb_refl].
Qed.

Lemma str_in_false x l : str_in x l = false <-> x ∉ l.
Proof. rewrite <- not_true_iff_false, str_in_elem. done. Qed.

Lemma require_calendar_date_same v d : require_calendar_date v = Some d -> d = v.
Proof. unfold require_calendar_date. by repeat case_match; intros [= <-]. Qed.

Lemma require_starts_at_same v t : require_canonical_booking_starts_at v = Some t -> t = v.
Proof. unfold require_canonical_booking_starts_at. by repeat case_match; intros [= <-]. Qed.

Lemma require_safe_slot_id_str v id :
  require_safe_slot_id v = Some id -> v = Some (JStr id).
Proof.
  unfold require_safe_slot_id. destruct v as [[| | |s| |]|]; try done.
  by destruct (_ || _); [|intros [= <-]].
Qed.

Definition calendar_day (d : string) : Prop := require_calendar_date d = Some d.
Definition safe_slot_id (id : string) : Prop := require_safe_slot_id (Some (JStr id)) = Some id.
Definition canonical_start (t : string) : Prop := require_canonical_booking_starts_at t = Some t.

(** Each string is greater than the one before, the first than [previous]. *)
Fixpoint increasing (previous : option string) (l : list string) : Prop :=
  match l with
  | [] => True
  | x :: l => match previous with Some p => String.ltb p x = true | None => True end /\
              increasing (Some x) l
  end.

(** No repetition, and nothing from [seen]. *)
Fixpoint fresh_in (seen l : list string) : Prop :=
  match l with [] => True | x :: l => (x ∉ seen) /\ fresh_in (x :: seen) l end.

Lemma not_before_iff (previous : option string) (x : string) :
  match previous with Some p => negb (String.ltb p x) | None => false end = false <->
  match previous with Some p => String.ltb p x = true | None => True end.
Proof. destruct previous; [by rewrite negb_false_iff|done]. Qed.

(** ** Dates *)

Lemma sanitize_dates_spec seen previous items keys :
  sanitize_dates_from seen previous items = Some keys <->
  items = JStr <$> keys /\ Forall calendar_day keys /\ fresh_in seen keys /\ increasing previous keys.
Proof.
  revert seen previous keys. induction items as [|item items IH]; intros seen previous keys.
  - split; [by intros [= <-]|]. intros (H & _). by destruct keys.
  - split.
    + destruct item as [| | |d| |]; try done. cbn [sanitize_dates_from].
      intros (key & Hkey & H)%bind_Some. pose proof (require_calendar_date_same _ _ Hkey) as ->.
      destruct (str_in d seen) eqn:Hseen; [done|]. apply str_in_false in Hseen.
      destruct (match previous with Some p => negb (String.ltb p d) | None => false end) eqn:Hprev;
        [done|]. apply not_before_iff in Hprev.
      apply bind_Some in H as (rest & (-> & Hcal & Hfresh & Hinc)%IH & [= <-]).
      split_and!; [done|by constructor|done|done].
    + intros (Heq & Hcal & Hfresh & Hinc). destruct keys as [|key keys]; [done|].
      injection Heq as -> Heq. apply Forall_cons_1 in Hcal as [Hkey Hcal].
      destruct Hfresh as [Hseen Hfresh], Hinc as [Hprev Hinc]. cbn [sanitize_dates_from].
      unfold calendar_day in Hkey. rewrite Hkey. cbn [mbind option_bind].
      apply str_in_false in Hseen. rewrite Hseen. apply not_before_iff in Hprev. rewrite Hprev.
      by rewrite (proj2 (IH (key :: seen) (Some key) keys)).
Qed.

(** ** Slots *)

Lemma sanitize_slot_ids_spec seen items ids :
  sanitize_slot_ids_from seen items = Some ids <->
  items = JStr <$> ids /\ Forall safe_slot_id ids /\ fresh_in seen ids.
Proof.
  revert seen ids. induction items as [|item items IH]; intros seen ids.
  - split; [by intros [= <-]|]. intros (H & _). by destruct ids.
  - split.
    + cbn [sanitize_slot_ids_from]. intros (id & Hid & H)%bind_Some.
      pose proof (require_safe_slot_id_str _ _ Hid) as [= ->].
      destruct (str_in id seen) eqn:Hseen; [done|]. apply str_in_false in Hseen.
      apply bind_Some in H as (rest & (-> & Hsafe & Hfresh)%IH & [= <-]).
      split_and!; [done|by constructor|done].
    + intros (Heq & Hsafe & Hfresh). destruct ids as [|id ids]; [done|].
      injection Heq as -> Heq. apply Forall_cons_1 in Hsafe as [Hid Hsafe].
      destruct Hfresh as [Hseen Hfresh]. cbn [sanitize_slot_ids_from].
      unfold safe_slot_id in Hid. rewrite Hid. cbn [mbind option_bind].
      apply str_in_false in Hseen. rewrite Hseen.
      by rewrite (proj2 (IH (id :: seen) ids)).
Qed.

(** The offered slots name the offered ids, in order of their start. *)
Lemma sanitize_offered_sound seen_ids seen_starts previous ids items slots :
  sanitize_offered_from seen_ids seen_starts previous ids items = Some slots ->
  aos_slot_id <$> slots = ids /\ Forall safe_slot_id ids /\ fresh_in seen_ids ids /\
  Forall canonical_start (aos_starts_at <$> slots) /\
  fresh_in seen_starts (aos_starts_at <$> slots) /\
  increasing previous (aos_starts_at <$> slots).
Proof.
  revert seen_ids seen_starts previous items slots.
  induction ids as [|expected ids IH]; intros seen_ids seen_starts previous [|item items] slots; try done.
  - intros [= <-]. by split_and!.
  - destruct item as [| | | | |item]; try done. cbn [sanitize_offered_from].
    destruct (negb (keys_are _ _)); [done|]. intros (id & Hid & H)%bind_Some.
    apply require_safe_slot_id_str in Hid as Hitem.
    destruct (String.eqb_spec id expected) as [->|]; [|done]. cbn [negb] in H.
    destruct (str_in expected seen_ids) eqn:Hseen; [done|]. apply str_in_false in Hseen.
    apply bind_Some in H as (t & Ht & H).
    destruct (str_in t seen_starts) eqn:Hstart; [done|]. apply str_in_false in Hstart.
    destruct (match previous with Some p => negb (String.ltb p t) | None => false end) eqn:Hprev;
      [done|]. apply not_before_iff in Hprev.
    apply bind_Some in H as (rest & Hrest & [= <-]).
    apply IH in Hrest as (<- & ? & ? & ? & ? & ?).
    assert (canonical_start t) as Hcan.
    { destruct (pyget item "starts_at") as [[| | |s| |]|]; try done.
      pose proof (require_starts_at_same _ _ Ht) as ->. done. }
    rewrite Hitem in Hid. split_and!; try done; by constructor.
Qed.

(** One round of the loop on a slot in wire form. *)
Lemma sanitize_offered_cons seen_ids seen_starts previous id t ids slots :
  safe_slot_id id -> canonical_start t -> id ∉ seen_ids -> t ∉ seen_starts ->
  match previous with Some p => String.ltb p t = true | None => True end ->
  sanitize_offered_from seen_ids seen_starts previous (id :: ids)
    (slot_json (MkActiveOfferSlot id t) :: slots) =
  (rest ← sanitize_offered_from (id :: seen_ids) (t :: seen_starts) (Some t) ids slots;
   Some (MkActiveOfferSlot id t :: rest)).
Proof.
  intros Hid Ht Hseen%str_in_false Hstart%str_in_false Hprev%not_before_iff.
  transitivity (
    slot_id ← require_safe_slot_id (Some (JStr id));
    if negb (String.eqb slot_id id) then None
    else if str_in slot_id seen_ids then None
    else starts_at ← require_canonical_booking_starts_at t;
         if str_in starts_at seen_starts then None
         else if match previous with Some p => negb (String.ltb p starts_at) | None => false end
         then None
         else rest ← sanitize_offered_from (slot_id :: seen_ids) (starts_at :: seen_starts)
                (Some starts_at) ids slots;
              Some (MkActiveOfferSlot slot_id starts_at :: rest)); [reflexivity|].
  rewrite Hid. cbn [mbind option_bind]. rewrite String.eqb_refl. cbn [negb].
  rewrite Hseen, Ht. cbn [mbind option_bind]. by rewrite Hstart, Hprev.
Qed.

Lemma sanitize_offered_complete seen_ids seen_starts previous slots :
  Forall safe_slot_id (aos_slot_id <$> slots) -> fresh_in seen_ids (aos_slot_id <$> slots) ->
  Forall canonical_start (aos_starts_at <$> slots) ->
  fresh_in seen_starts (aos_starts_at <$> slots) ->
  increasing previous (aos_starts_at <$> slots) ->
  sanitize_offered_from seen_ids seen_starts previous (aos_slot_id <$> slots)
    (slot_json <$> slots) = Some slots.
Proof.
  revert seen_ids seen_starts previous. induction slots as [|[id t] slots IH]; [done|].
  intros seen_ids seen_starts previous Hsafe Hids Hcan Hstarts Hinc.
  apply Forall_cons_1 in Hsafe as [Hid Hsafe], Hcan as [Ht Hcan].
  destruct Hids as [Hseen Hids], Hstarts as [Hstart Hstarts], Hinc as [Hprev Hinc].
  rewrite !fmap_cons, sanitize_offered_cons by done. cbn [aos_slot_id aos_starts_at].
  by rewrite IH.
Qed.

(** ** The closed shapes *)

Definition with_kind (kind : bool) (fields : jdict) : jdict :=
  if kind then fields ++ [("client_message_kind", JStr "OFFER_SLOTS")] else fields.

Definition few {A} (limit : nat) (l : list A) : Prop := (0 < length l <= limit)%nat.

Definition allowed_reason (reason : option string) : Prop :=
  match reason with Some r => r ∈ ALLOWED_BOOKING_REASONS | None => True end.

(** All a saved or sent booking result can be. *)
Inductive closed_fields : jdict -> Prop :=
  | closed_offer_days keys today :
      few MAX_OFFER_DAYS keys -> Forall calendar_day keys -> fresh_in [] keys ->
      increasing None keys -> calendar_day today ->
      closed_fields
        [ ("booking_action", JStr "OFFER_DAYS"); ("booking_reason", JNull);
          ("booking_available_date_keys", JArr (JStr <$> keys));
          ("booking_studio_today", JStr today) ]
  | closed_offer_ids ids kind :
      few MAX_OFFERED_SLOTS ids -> Forall safe_slot_id ids -> fresh_in [] ids ->
      closed_fields (with_kind kind
        [ ("booking_action", JStr "OFFER_SLOTS"); ("booking_reason", JNull);
          ("booking_offered_slot_ids", JArr (JStr <$> ids)) ])
  | closed_offer_slots slots kind :
      few MAX_OFFERED_SLOTS slots -> Forall safe_slot_id (aos_slot_id <$> slots) ->
      fresh_in [] (aos_slot_id <$> slots) -> Forall canonical_start (aos_starts_at <$> slots) ->
      fresh_in [] (aos_starts_at <$> slots) -> increasing None (aos_starts_at <$> slots) ->
      closed_fields (with_kind kind
        [ ("booking_action", JStr "OFFER_SLOTS"); ("booking_reason", JNull);
          ("booking_offered_slot_ids", JArr (JStr <$> (aos_slot_id <$> slots)));
          ("booking_offered_slots", JArr (slot_json <$> slots)) ])
  | closed_handoff reason kind :
      allowed_reason reason -> kind ∈ HANDOFF_MESSAGE_KINDS ->
      closed_fields
        [ ("booking_action", JStr "MANAGER_HANDOFF"); ("booking_reason", json_text reason);
          ("client_message_kind", JStr kind) ]
  | closed_unavailable reason :
      allowed_reason reason ->
      closed_fields
        [ ("booking_action", JStr "SERVICE_UNAVAILABLE"); ("booking_reason", json_text reason);
          ("client_message_kind", JStr "SERVICE_TEMPORARILY_UNAVAILABLE") ].

Lemma interrupted_closed : closed_fields interrupted_booking_fields.
Proof. apply (closed_unavailable (Some _)). apply str_in_elem. reflexivity. Qed.

Lemma allowlisted_allowed raw : allowed_reason (allowlisted_reason raw).
Proof.
  destruct raw as [[| | |r| |]|]; try done; cbn [allowlisted_reason allowed_reason];
    try (apply str_in_elem; reflexivity).
  destruct (str_in r ALLOWED_BOOKING_REASONS) eqn:E; [by apply str_in_elem|].
  apply str_in_elem. reflexivity.
Qed.

Lemma few_lengths {A} limit (l : list A) :
  ((length l =? 0)%nat || (limit <? length l)%nat) = false <-> few limit l.
Proof. unfold few. rewrite orb_false_iff, Nat.eqb_neq, Nat.ltb_ge. lia. Qed.

Lemma few_fmap {A B} limit (f : A -> B) (l : list A) : few limit (f <$> l) <-> few limit l.
Proof. unfold few. by rewrite length_fmap. Qed.

(** ** The sanitiser is onto the closed shapes *)

Lemma offer_slots_ids_some raw ids :
  offer_slots_ids raw = Some ids -> few MAX_OFFERED_SLOTS ids /\ Forall safe_slot_id ids /\
    fresh_in [] ids.
Proof.
  unfold offer_slots_ids, sanitize_slot_ids_list. intros H.
  destruct (negb _); [done|]. destruct (is_not_null _); [done|].
  destruct (pyget raw _) as [[| | | |items|]|]; try done.
  destruct (_ || _) eqn:Hlen; [done|]. apply few_lengths in Hlen.
  apply sanitize_slot_ids_spec in H as (-> & ? & ?). by rewrite few_fmap in Hlen.
Qed.

Lemma offered_slots_some ids raw slots :
  sanitize_offered_slots_new ids raw = Some slots ->
  few MAX_OFFERED_SLOTS slots /\ aos_slot_id <$> slots = ids /\
  Forall canonical_start (aos_starts_at <$> slots) /\
  fresh_in [] (aos_starts_at <$> slots) /\ increasing None (aos_starts_at <$> slots).
Proof.
  unfold sanitize_offered_slots_new. destruct raw as [[| | | |items|]|]; try done.
  destruct (negb _) eqn:Heq; [done|]. apply negb_false_iff, Nat.eqb_eq in Heq.
  destruct (_ || _) eqn:Hlen; [done|]. apply few_lengths in Hlen.
  intros (<- & _ & _ & ? & ? & ?)%sanitize_offered_sound. rewrite length_fmap in Heq.
  split_and!; try done. unfold few in *. lia.
Qed.

Lemma jset_absent d key v : jget d key = None -> jset d key v = d ++ [(key, v)].
Proof.
  induction d as [|[k w] d IH]; [done|]. cbn. destruct (String.eqb k key); [done|].
  intros H. by rewrite IH.
Qed.

Lemma with_offer_slots_kind_some raw x fields f :
  with_offer_slots_kind raw (("booking_action", x) :: fields) = Some f ->
  jget fields "client_message_kind" = None ->
  exists kind, f = with_kind kind (("booking_action", x) :: fields).
Proof.
  unfold with_offer_slots_kind. intros H Hno.
  destruct (is_null _); [injection H as <-; by exists false|].
  destruct (is_str _ _); [|done]. injection H as <-. exists true. cbn [with_kind].
  exact (f_equal (cons _) (jset_absent _ _ _ Hno)).
Qed.

Lemma sanitize_days_closed raw f : sanitize_offer_days_fields raw = Some f -> closed_fields f.
Proof.
  unfold sanitize_offer_days_fields. intros H.
  do 2 (destruct (negb _); [done|]). destruct (is_not_null _); [done|].
  destruct (pyget raw "booking_available_date_keys") as [[| | | |items|]|]; try done.
  destruct (_ || _) eqn:Hlen; [done|]. apply few_lengths in Hlen.
  apply bind_Some in H as (keys & Hkeys & Hrest).
  apply sanitize_dates_spec in Hkeys as (-> & Hcal & Hfresh & Hinc).
  rewrite few_fmap in Hlen. apply bind_Some in Hrest as (today & Htoday & [= <-]).
  apply closed_offer_days; try done.
  destruct (pyget raw "booking_studio_today") as [[| | |day| |]|]; try done.
  pose proof (require_calendar_date_same _ _ Htoday) as ->. done.
Qed.

Lemma sanitize_slots_closed raw f : sanitize_offer_slots_fields raw = Some f -> closed_fields f.
Proof.
  unfold sanitize_offer_slots_fields. intros H. destruct (_ || _); [|destruct (_ || _); [|done]].
  - apply bind_Some in H as (ids & Hids & H1).
    apply offer_slots_ids_some in Hids as (? & ? & ?).
    apply with_offer_slots_kind_some in H1 as [kind ->]; [|done]. by apply closed_offer_ids.
  - apply bind_Some in H as (ids & Hids & H1).
    apply offer_slots_ids_some in Hids as (_ & Hsafe & Hfresh).
    apply bind_Some in H1 as (slots & Hslots & H2).
    apply offered_slots_some in Hslots as (? & <- & ? & ? & ?).
    apply with_offer_slots_kind_some in H2 as [kind ->]; [|done]. by apply closed_offer_slots.
Qed.

Lemma sanitize_closed raw : closed_fields (sanitize_booking_result_fields raw).
Proof.
  destruct raw as [| | | | |raw]; try apply interrupted_closed. unfold sanitize_booking_result_fields.
  cbv zeta. destruct (is_str _ "OFFER_DAYS").
  { destruct (sanitize_offer_days_fields raw) eqn:E; [by eapply sanitize_days_closed|].
    apply interrupted_closed. }
  destruct (is_str _ "OFFER_SLOTS").
  { destruct (sanitize_offer_slots_fields raw) eqn:E; [by eapply sanitize_slots_closed|].
    apply interrupted_closed. }
  destruct (is_str _ "MANAGER_HANDOFF"); [|destruct (is_str _ "SERVICE_UNAVAILABLE");
    [|apply interrupted_closed]].
  - unfold sanitize_closed_action. cbv zeta. cbn [String.eqb Ascii.eqb Bool.eqb].
    destruct (pyget raw "client_message_kind") as [[| | |kind| |]|]; try apply interrupted_closed.
    destruct (str_in kind _) eqn:E; [|apply interrupted_closed].
    apply (closed_handoff (allowlisted_reason _)); [apply allowlisted_allowed|by apply str_in_elem].
  - unfold sanitize_closed_action. cbv zeta. cbn [String.eqb Ascii.eqb Bool.eqb].
    destruct (_ || _); [|apply interrupted_closed].
    apply (closed_unavailable (allowlisted_reason _)), allowlisted_allowed.
Qed.

Lemma allowlisted_again reason :
  allowed_reason reason -> allowlisted_reason (JStr <$> reason) = reason.
Proof. destruct reason as [r|]; [|done]. intros H%str_in_elem.
  change (allowlisted_reason (JStr <$> Some r)) with
    (if str_in r ALLOWED_BOOKING_REASONS then Some r else Some "UNKNOWN_OUTCOME"%string).
  by rewrite H.
Qed.

Lemma pyget_reason a reason kind :
  pyget [("booking_action", a); ("booking_reason", json_text reason);
         ("client_message_kind", kind)] "booking_reason" = JStr <$> reason.
Proof. by destruct reason. Qed.

Lemma sanitize_days_same keys today :
  few MAX_OFFER_DAYS keys -> Forall calendar_day keys -> fresh_in [] keys ->
  increasing None keys -> calendar_day today ->
  let f := [ ("booking_action", JStr "OFFER_DAYS"); ("booking_reason", JNull);
             ("booking_available_date_keys", JArr (JStr <$> keys));
             ("booking_studio_today", JStr today) ] in
  sanitize_booking_result_fields (JObj f) = f.
Proof.
  intros Hlen Hcal Hfresh Hinc Htoday f.
  rewrite <- (few_fmap _ JStr), <- few_lengths in Hlen.
  transitivity (default interrupted_booking_fields (
    if (length (JStr <$> keys) =? 0)%nat || (MAX_OFFER_DAYS <? length (JStr <$> keys))%nat then None
    else
      keys ← sanitize_dates_from [] None (JStr <$> keys);
      studio_today ← require_calendar_date today;
      Some [ ("booking_action", JStr "OFFER_DAYS"); ("booking_reason", JNull);
             ("booking_available_date_keys", JArr (JStr <$> keys));
             ("booking_studio_today", JStr studio_today) ])); [reflexivity|].
  rewrite Hlen, (proj2 (sanitize_dates_spec _ _ _ keys)) by done. cbn [mbind option_bind].
  unfold calendar_day in Htoday. by rewrite Htoday.
Qed.

Lemma sanitize_ids_same ids kind :
  few MAX_OFFERED_SLOTS ids -> Forall safe_slot_id ids -> fresh_in [] ids ->
  let f := with_kind kind
    [ ("booking_action", JStr "OFFER_SLOTS"); ("booking_reason", JNull);
      ("booking_offered_slot_ids", JArr (JStr <$> ids)) ] in
  sanitize_booking_result_fields (JObj f) = f.
Proof.
  intros Hlen Hsafe Hfresh f. rewrite <- (few_fmap _ JStr), <- few_lengths in Hlen.
  transitivity (default interrupted_booking_fields (
    slot_ids ← (if (length (JStr <$> ids) =? 0)%nat ||
                   (MAX_OFFERED_SLOTS <? length (JStr <$> ids))%nat
                then None else sanitize_slot_ids_from [] (JStr <$> ids));
    with_offer_slots_kind f
      [ ("booking_action", JStr "OFFER_SLOTS"); ("booking_reason", JNull);
        ("booking_offered_slot_ids", JArr (JStr <$> slot_ids)) ])).
  { by destruct kind. }
  rewrite Hlen, (proj2 (sanitize_slot_ids_spec _ _ ids)) by done. by destruct kind.
Qed.

Lemma sanitize_slots_same slots kind :
  few MAX_OFFERED_SLOTS slots -> Forall safe_slot_id (aos_slot_id <$> slots) ->
  fresh_in [] (aos_slot_id <$> slots) -> Forall canonical_start (aos_starts_at <$> slots) ->
  fresh_in [] (aos_starts_at <$> slots) -> increasing None (aos_starts_at <$> slots) ->
  let f := with_kind kind
    [ ("booking_action", JStr "OFFER_SLOTS"); ("booking_reason", JNull);
      ("booking_offered_slot_ids", JArr (JStr <$> (aos_slot_id <$> slots)));
      ("booking_offered_slots", JArr (slot_json <$> slots)) ] in
  sanitize_booking_result_fields (JObj f) = f.
Proof.
  intros Hlen Hsafe Hfresh Hcan Hstarts Hinc f. set (ids := aos_slot_id <$> slots) in *.
  assert ((length (JStr <$> ids) =? 0)%nat ||
    (MAX_OFFERED_SLOTS <? length (JStr <$> ids))%nat = false) as Hids.
  { apply few_lengths. subst ids. by rewrite !few_fmap. }
  assert ((length (slot_json <$> slots) =? 0)%nat ||
    (MAX_OFFERED_SLOTS <? length (slot_json <$> slots))%nat = false) as Hslots.
  { apply few_lengths. by rewrite few_fmap. }
  transitivity (default interrupted_booking_fields (
    slot_ids ← (if (length (JStr <$> ids) =? 0)%nat ||
                   (MAX_OFFERED_SLOTS <? length (JStr <$> ids))%nat
                then None else sanitize_slot_ids_from [] (JStr <$> ids));
    offered ← sanitize_offered_slots_new slot_ids (Some (JArr (slot_json <$> slots)));
    with_offer_slots_kind f
      [ ("booking_action", JStr "OFFER_SLOTS"); ("booking_reason", JNull);
        ("booking_offered_slot_ids", JArr (JStr <$> slot_ids));
        ("booking_offered_slots", JArr (slot_json <$> offered)) ])).
  { by destruct kind. }
  rewrite Hids, (proj2 (sanitize_slot_ids_spec _ _ ids)) by done. cbn [mbind option_bind].
  unfold sanitize_offered_slots_new. rewrite Hslots. subst ids.
  rewrite !length_fmap, Nat.eqb_refl. cbn [negb].
  rewrite sanitize_offered_complete by done. by destruct kind.
Qed.

Lemma sanitize_handoff_same reason kind :
  allowed_reason reason -> kind ∈ HANDOFF_MESSAGE_KINDS ->
  let f := [ ("booking_action", JStr "MANAGER_HANDOFF"); ("booking_reason", json_text reason);
             ("client_message_kind", JStr kind) ] in
  sanitize_booking_result_fields (JObj f) = f.
Proof.
  intros Hr Hk%str_in_elem f.
  transitivity (if str_in kind HANDOFF_MESSAGE_KINDS
    then [ ("booking_action", JStr "MANAGER_HANDOFF");
           ("booking_reason", json_text (allowlisted_reason (pyget f "booking_reason")));
           ("client_message_kind", JStr kind) ]
    else interrupted_booking_fields); [reflexivity|].
  unfold f. by rewrite Hk, pyget_reason, allowlisted_again.
Qed.

Lemma sanitize_unavailable_same reason :
  allowed_reason reason ->
  let f := [ ("booking_action", JStr "SERVICE_UNAVAILABLE"); ("booking_reason", json_text reason);
             ("client_message_kind", JStr "SERVICE_TEMPORARILY_UNAVAILABLE") ] in
  sanitize_booking_result_fields (JObj f) = f.
Proof.
  intros Hr f.
  transitivity [ ("booking_action", JStr "SERVICE_UNAVAILABLE");
    ("booking_reason", json_text (allowlisted_reason (pyget f "booking_reason")));
    ("client_message_kind", JStr "SERVICE_TEMPORARILY_UNAVAILABLE") ]; [reflexivity|].
  unfold f. by rewrite pyget_reason, allowlisted_again.
Qed.

Lemma sanitize_closed_same f : closed_fields f -> sanitize_booking_result_fields (JObj f) = f.
Proof.
  intros []; auto using sanitize_days_same, sanitize_ids_same, sanitize_slots_same,
    sanitize_handoff_same, sanitize_unavailable_same.
Qed.

(** ** Every sanitised result has a client text, or is for the buttons alone *)

Lemma render_closed {E S} f (env : E) (s : S) :
  closed_fields f ->
  (exists text, render_text_for_booking_fields f env s = (Returned text, s)) \/
  jget f "booking_action" = Some (JStr "OFFER_DAYS") /\
  render_text_for_booking_fields f env s =
    (Raised (Exn OutboundReplyTextError "OUTBOUND_REPLY_TEXT_NOT_RENDERABLE"), s).
Proof.
  intros [keys today ? ? ? ? ?|ids kind ? ? ?|slots kind ? ? ? ? ? ?|reason kind Hr Hk|reason Hr].
  - by right.
  - left. destruct kind; eexists; reflexivity.
  - left. destruct kind; eexists; reflexivity.
  - left. apply str_in_elem in Hk. unfold str_in in Hk. cbn [existsb HANDOFF_MESSAGE_KINDS] in Hk.
    rewrite !orb_true_iff, !String.eqb_eq in Hk. destruct Hk as [->|[->|Hk]];
      [by eexists; vm_compute..|done].
  - left. by eexists; vm_compute.
Qed.

Lemma build_payload_returns {E S} plan_payload fields (env : E) (s : S) :
  exists payload,
    build_synthetic_outbound_payload plan_payload (Some fields) env s = (Returned payload, s).
Proof.
  unfold build_synthetic_outbound_payload, try_except. cbv zeta.
  set (f := sanitize_booking_result_fields _). unfold mbind, M_bind.
  destruct (render_closed f env s (sanitize_closed _)) as [[text ->]|[Ha ->]].
  - eexists. reflexivity.
  - rewrite (bool_decide_eq_true_2 _ Ha). eexists. reflexivity.
Qed.
