(* ===== verification/Fresh.v ===== *)
(** * Generated keys and names

    Every primary key but the one of an active offer comes from the UUID supply:
    [minted s u] says [u] was drawn from it before [s].  Insertions store minted
    keys, so the next UUID is never the key of a stored row, in any database the
    services reach.  Chat projections are named after their source. *)

From S2P Require Import Prelude BookingText Models Database Statements Conversations ReplyPlans.
From S2P Require Import Outbound SelfBooking Messages Mirror ReplyText BookingFields Projections.
From S2P Require Import Inbound ManagerMessages HandoffExpiry ReplyDispatch VkGate Arbiter Frames.
From S2P Require Import EphemeralPii PiiProofs SelfBookingProofs System.

Definition minted (s : Database) (u : uuid) : Prop :=
  exists n, (n < db_uuid_supply s)%N /\ u = uuid4_of n.

Definition keys_minted (s : Database) {R} (t : gmap uuid R) : Prop :=
  forall k r, t !! k = Some r -> minted s k.

Definition supply_ok (s : Database) : Prop :=
  keys_minted s (db_conversations s) /\ keys_minted s (db_ops_events s) /\
  keys_minted s (db_inbox_messages s) /\ keys_minted s (db_manager_messages s) /\
  keys_minted s (db_reply_plans s) /\ keys_minted s (db_outbox_messages s) /\
  keys_minted s (db_mirror_jobs s) /\ keys_minted s (db_projections s) /\
  keys_minted s (db_ingress_events s) /\ keys_minted s (db_create_pendings s) /\
  keys_minted s (db_pii_admissions s) /\ keys_minted s (db_chat_bindings s) /\
  keys_minted s (db_pii_values s).

Lemma uuid4_of_inj n m : uuid4_of n = uuid4_of m -> n = m.
Proof. intros H. by rewrite <- (uuid4_rank_of n), <- (uuid4_rank_of m), H. Qed.

(** The next UUID names no row. *)
Lemma minted_unused s {R} (t : gmap uuid R) n :
  keys_minted s t -> (db_uuid_supply s <= n)%N -> t !! uuid4_of n = None.
Proof.
  intros Ht Hn. destruct (t !! uuid4_of n) as [r|] eqn:E; [|done].
  apply Ht in E as (m & Hm & E%uuid4_of_inj). lia.
Qed.

Lemma minted_mono s s' u : (db_uuid_supply s <= db_uuid_supply s')%N -> minted s u -> minted s' u.
Proof. intros H (n & Hn & ->). exists n. split; [lia|done]. Qed.

(** UUIDs have 128 bits as long as the supply stays below 2^122. *)
Lemma uuid4_of_bound n : (n < 2 ^ 122)%N -> (uuid4_of n < 2 ^ 128)%N.
Proof.
  intros Hn. unfold uuid4_of.
  assert (n mod 2 ^ 62 < 2 ^ 62)%N by (apply N.mod_lt; lia).
  assert (n / 2 ^ 62 mod 2 ^ 12 < 2 ^ 12)%N by (apply N.mod_lt; lia).
  assert (n / 2 ^ 74 < 2 ^ 48)%N by (apply N.Div0.div_lt_upper_bound; lia).
  set (a := (n mod 2 ^ 62)%N) in *. set (b := (n / 2 ^ 62 mod 2 ^ 12)%N) in *.
  set (c := (n / 2 ^ 74)%N) in *. clearbody a b c. lia.
Qed.

(** ** Computations that store minted keys *)

(** [m], started when the UUIDs of [known] are minted, keeps [supply_ok]. *)
Definition mints {A} (known : list uuid) (m : Session A) : Prop :=
  forall env s, Forall (minted s) known -> supply_ok s ->
    supply_ok (snd (m env s)) /\ (db_uuid_supply s <= db_uuid_supply (snd (m env s)))%N.

Section Rules.
Context {A B : Type} (known : list uuid).

Lemma mints_same (m : Session A) : (forall env s, snd (m env s) = s) -> mints known m.
Proof. intros H env s _ Hs. rewrite H. split; [done|lia]. Qed.

Lemma mints_ret (a : A) : mints known (mret a).
Proof. by apply mints_same. Qed.

Lemma mints_raise c msg : mints known (raise (A := A) c msg).
Proof. by apply mints_same. Qed.

Lemma mints_bind (m : Session A) (k : A -> Session B) :
  mints known m -> (forall a, mints known (k a)) -> mints known (m ≫= k).
Proof.
  intros Hm Hk env s Hl Hs. destruct (Hm env s Hl Hs) as [Hs1 Hle].
  unfold mbind, M_bind. destruct (m env s) as [[a|e] s1]; cbn in *; [|done].
  destruct (Hk a env s1) as [Hs2 Hle2]; [|done|split; [done|lia]].
  eapply Forall_impl; [exact Hl|]. intros u. by apply minted_mono.
Qed.

Lemma mints_uuid4 (k : uuid -> Session B) :
  (forall u, mints (u :: known) (k u)) -> mints known (uuid4 ≫= k).
Proof.
  intros Hk env s Hl Hs. unfold mbind, M_bind. cbn.
  set (s1 := s <| db_uuid_supply ::= N.succ |>).
  assert (db_uuid_supply s1 = N.succ (db_uuid_supply s)) as E by done.
  assert (forall u, minted s u -> minted s1 u) as Hmono by (intros u; apply minted_mono; lia).
  destruct (Hk (uuid4_of (db_uuid_supply s)) env s1) as [Hs2 Hle].
  - constructor; [exists (db_uuid_supply s); split; [lia|done]|].
    eapply Forall_impl; [exact Hl|exact Hmono].
  - destruct Hs as (?&?&?&?&?&?&?&?&?&?&?&?&?). split_and!; intros k0 r Hr; apply Hmono; eauto.
  - split; [exact Hs2|]. fold s1. lia.
Qed.

Lemma mints_try (m : Session A) handled handler :
  mints known m -> (forall e, mints known (handler e)) ->
  mints known (try_except m handled handler).
Proof.
  intros Hm Hh env s Hl Hs. destruct (Hm env s Hl Hs) as [Hs1 Hle].
  unfold try_except. destruct (m env s) as [[a|e] s1]; cbn in *; [done|].
  destruct (handled e); [|done]. destruct (Hh e env s1) as [Hs2 Hle2]; [|done|split; [done|lia]].
  eapply Forall_impl; [exact Hl|]. intros u. by apply minted_mono.
Qed.

Lemma mints_scope (m : Session A) : mints known m -> mints known (session_scope m).
Proof.
  intros Hm env s Hl Hs. destruct (Hm env s Hl Hs) as [Hs1 Hle].
  unfold session_scope. destruct (m env s) as [[a|e] s1]; cbn in *; [done|]. split; [done|lia].
Qed.

End Rules.

Lemma mints_uuid4_alone known : mints known uuid4.
Proof.
  intros env s _ Hs. split; [|cbn; lia]. destruct Hs as (?&?&?&?&?&?&?&?&?&?&?&?&?).
  split_and!; intros k r Hr; apply (minted_mono s); cbn in *; eauto; lia.
Qed.

Lemma mints_statement_now known : mints known db_statement_now.
Proof. intros env s _ Hs. split; [exact Hs|cbn; lia]. Qed.

Lemma mints_resolve_moment known now : mints known (resolve_moment now).
Proof. destruct now; by apply mints_same. Qed.

(** A table whose keys are minted, or one outside [supply_ok]. *)
Class MintedTable (R : Type) `{T : Table R} := minted_table : forall s t,
  supply_ok s ->
  (forall k r, t !! k = Some r -> is_Some (table_get s !! k) \/ minted s k) ->
  supply_ok (table_set (R := R) t s) /\
  db_uuid_supply (table_set (R := R) t s) = db_uuid_supply s.

Ltac minted_table :=
  intros s t Hs Ht; split; [|done];
  destruct Hs as (?&?&?&?&?&?&?&?&?&?&?&?&?); split_and!; cbn;
  first [ assumption
        | intros k r Hr; destruct (Ht k r Hr) as [[? ?]|?]; [cbn in *; eauto|assumption] ].

#[export] Instance minted_chat_bindings : MintedTable AmocrmChatBinding. Proof. minted_table. Qed.
#[export] Instance minted_conversations : MintedTable Conversation. Proof. minted_table. Qed.
#[export] Instance minted_ops : MintedTable ConversationOpsEvent. Proof. minted_table. Qed.
#[export] Instance minted_inbox : MintedTable InboxMessage. Proof. minted_table. Qed.
#[export] Instance minted_manager : MintedTable ManagerMessage. Proof. minted_table. Qed.
#[export] Instance minted_plans : MintedTable ReplyPlan. Proof. minted_table. Qed.
#[export] Instance minted_outbox : MintedTable OutboxMessage. Proof. minted_table. Qed.
#[export] Instance minted_mirror : MintedTable AmoCrmMirrorJob. Proof. minted_table. Qed.
#[export] Instance minted_projections : MintedTable AmocrmMessageProjection.
Proof. minted_table. Qed.
#[export] Instance minted_ingress : MintedTable IngressEvent. Proof. minted_table. Qed.
#[export] Instance minted_offers : MintedTable SelfBookingActiveOffer. Proof. minted_table. Qed.
#[export] Instance minted_pendings : MintedTable SelfBookingCreatePending.
Proof. minted_table. Qed.
#[export] Instance minted_pii_values : MintedTable EphemeralPiiValue. Proof. minted_table. Qed.
#[export] Instance minted_pii : MintedTable SelfBookingPiiAdmission. Proof. minted_table. Qed.

Section Statements.
Context {R : Type} `{MT : MintedTable R} (known : list uuid).

Lemma mints_get_by_id id : mints known (get_by_id (R := R) id).
Proof. by apply mints_same. Qed.

Lemma mints_select_where p : mints known (select_where (R := R) p).
Proof. by apply mints_same. Qed.

Lemma mints_select_scalar p : mints known (select_scalar (R := R) p).
Proof. by apply mints_same. Qed.

Lemma mints_refresh r : mints known (refresh (R := R) r).
Proof.
  apply mints_bind; [apply mints_get_by_id|]. intros [r'|]; [apply mints_ret|apply mints_raise].
Qed.

Lemma mints_insert_with a r : row_id r ∈ known -> mints known (insert_with a r).
Proof.
  intros Hin env s Hl Hs. pose proof (proj1 (Forall_forall _ _) Hl _ Hin) as Hr.
  unfold insert_with, mbind, M_bind, get_state, put_state, raise, mret, M_ret.
  repeat case_match; simplify_eq; cbn [snd fst]; try by (split; [done|lia]).
  destruct (minted_table s (<[row_id r:=r]> (table_get s)) Hs) as [Hs' E]; [|split; [done|lia]].
  intros k r0 Hk. rewrite lookup_insert_Some in Hk. destruct Hk as [[<- _]|[_ Hk]]; [by right|left; eauto].
Qed.

Lemma mints_insert_row r : row_id r ∈ known -> mints known (insert_row r).
Proof. intros H. apply mints_bind; [by apply mints_insert_with|]. intros; apply mints_ret. Qed.

Lemma mints_update_where c v : mints known (update_where (R := R) c v).
Proof.
  intros env s _ Hs.
  unfold update_where, mbind, M_bind, get_state, put_state, raise, mret, M_ret.
  repeat case_match; simplify_eq; cbn [snd fst]; try by (split; [done|lia]).
  destruct (minted_table s (sql_update c v (table_get s)) Hs) as [Hs' E]; [|split; [done|lia]].
  intros k r0 (r1 & Hr1 & _)%lookup_sql_update_Some. left. eauto.
Qed.

Lemma mints_update_by_id id g v : mints known (update_by_id (R := R) id g v).
Proof. apply mints_bind; [apply mints_update_where|]. intros; apply mints_ret. Qed.

Lemma mints_delete_where c : mints known (delete_where (R := R) c).
Proof.
  intros env s _ Hs.
  unfold delete_where, mbind, M_bind, get_state, put_state, mret, M_ret. cbn [fst snd].
  destruct (minted_table s (filter (fun kv => c kv.2 = false) (table_get s)) Hs) as [Hs' E];
    [|split; [done|lia]].
  intros k r Hr. apply map_lookup_filter_Some in Hr as [Hr _]. left. eauto.
Qed.
End Statements.

(** The key of an offer is its conversation's. *)
Lemma mints_upsert_offer known (r : SelfBookingActiveOffer) c v :
  mints known (insert_on_conflict_do_update r c v).
Proof.
  intros env s Hl Hs.
  unfold insert_on_conflict_do_update, insert_row, insert_with, update_by_id, update_where,
    mbind, M_bind, get_state, put_state, raise, mret, M_ret.
  repeat case_match; simplify_eq; split; first [exact Hs | cbn; lia].
Qed.

Lemma mints_token_bytes `{CryptoLib} known count : mints known (token_bytes count).
Proof. intros env s. exact (mints_uuid4_alone known env s). Qed.

Lemma mints_store_under_reference `{CryptoLib} known store n record_id cid kind purpose
    encrypted :
  record_id ∈ known ->
  mints known (EphemeralPiiStoreOps.store_under_reference store n record_id cid kind purpose
    encrypted).
Proof.
  intros Hin. induction n as [|n IH]; cbn; [apply mints_ret|]. apply mints_bind.
  - apply mints_bind; [apply mints_token_bytes|]. intros raw.
    destruct (EphemeralPiiReferenceOps.init raw); [apply mints_ret|apply mints_raise].
  - intros reference. apply mints_bind; [|intros []; [apply mints_ret|exact IH]].
    apply mints_bind; [apply mints_statement_now|]. intros now. by apply mints_insert_with.
Qed.

(** Decides [mints] goals by the shape of the computation. *)
Ltac solve_mints :=
  lazymatch goal with
  | |- mints _ (mbind _ uuid4) => apply mints_uuid4; intros; solve_mints
  | |- mints _ (mbind _ _) => apply mints_bind; [solve_mints | intros; solve_mints]
  | |- mints _ (mret _) => apply mints_ret
  | |- mints _ (raise _ _) => apply mints_raise
  | |- mints _ uuid4 => apply mints_uuid4_alone
  | |- mints _ (token_bytes _) => apply mints_token_bytes
  | |- mints _ (EphemeralPiiStoreOps.store_under_reference _ _ _ _ _ _ _) =>
      apply mints_store_under_reference; set_solver
  | |- mints _ get_env => by apply mints_same
  | |- mints _ get_state => by apply mints_same
  | |- mints _ db_now => by apply mints_same
  | |- mints _ db_statement_now => apply mints_statement_now
  | |- mints _ (resolve_moment _) => apply mints_resolve_moment
  | |- mints _ (session_scope _) => apply mints_scope; solve_mints
  | |- mints _ (begin_nested _) => apply mints_scope; solve_mints
  | |- mints _ (try_except _ _ _) => apply mints_try; [solve_mints | intros; solve_mints]
  | |- mints _ (get_by_id _) => apply mints_get_by_id
  | |- mints _ (select_where _) => apply mints_select_where
  | |- mints _ (select_scalar _) => apply mints_select_scalar
  | |- mints _ (refresh _) => apply mints_refresh
  | |- mints _ (update_where _ _) => apply mints_update_where
  | |- mints _ (update_by_id _ _ _) => apply mints_update_by_id
  | |- mints _ (delete_where _) => apply mints_delete_where
  | |- mints _ (insert_with _ _) => apply mints_insert_with; cbn; set_solver
  | |- mints _ (insert_row _) => apply mints_insert_row; cbn; set_solver
  | |- mints _ (insert_on_conflict_do_update _ _ _) => apply mints_upsert_offer
  | |- mints _ (match ?x with _ => _ end) => destruct x; solve_mints
  | |- mints _ (let _ := _ in _) => cbv zeta; solve_mints
  | |- mints _ ?m => let f := head_of m in unfold f; cbv beta; solve_mints
  end.

Lemma service_mints A (body : Session A) : service A body -> mints [] body.
Proof. intros []; solve_mints. Qed.

Lemma dispatch_mints claim A (body : Session A) : dispatch claim A body -> mints [] body.
Proof. intros []; solve_mints. Qed.

Lemma claim_one_mints worker lease now : mints [] (claim_one_plan worker lease now).
Proof. solve_mints. Qed.

Lemma runs_supply {A} (body : Session A) r s s' :
  mints [] body -> supply_ok s -> runs body r s s' -> supply_ok s'.
Proof.
  intros Hb Hs [env Hrun]. destruct (mints_scope [] body Hb env s) as [Hs' _]; [constructor|done|].
  by rewrite Hrun in Hs'.
Qed.

Lemma touches_supply pid s s' : touches_command pid s s' -> supply_ok s -> supply_ok s'.
Proof.
  intros (t & v & n & k & -> & Hn & Hv & Ht & Hnone) (?&?&?&?&?&?&?&?&?&Hp&?&?&Hpii).
  assert (forall R (rows : gmap uuid R), keys_minted s rows ->
    keys_minted (with_commands t n k s) rows) as Hm.
  { intros R rows Hrows j r Hr. eapply minted_mono; [exact Hn|by eapply Hrows]. }
  assert (keys_minted s v) as Hv' by (intros j x Hx; eapply Hpii, lookup_weaken; done).
  split_and!; try (by apply Hm). apply (Hm _ t). intros j r Hr.
  assert (exists p, db_create_pendings s !! j = Some p) as [p Hj]; [|by eapply Hp].
  destruct (decide (j = pid)) as [-> |Hne]; [|exists r; by rewrite <- Ht].
  destruct (db_create_pendings s !! pid) as [p|] eqn:E; [by exists p|]. by rewrite Hnone in Hr.
Qed.

(** In a reachable database every generated key was drawn from the supply. *)
Lemma reachable_supply x : reachable x -> supply_ok (sys_db x).
Proof.
  intros Hx. apply rtc_ind_r with (P := fun y => supply_ok (sys_db y)) in Hx; [done| |].
  - split_and!; intros k r Hr; by destruct (lookup_empty_Some k r Hr).
  - intros y z Hry Hstep Hy. pose proof (reachable_ok _ Hry) as [[Hcon _] _].
    destruct Hstep as [| | |pid r calls s s' claims Hex]; cbn in *;
      [eapply runs_supply; try done; eauto using service_mints, dispatch_mints, claim_one_mints..|].
    destruct (executes_touches _ _ _ _ _ Hcon Hex) as [Ht _]. by eapply touches_supply.
Qed.

(** ** Projections are named after their source *)

Definition source_msgid (kind : AmocrmProjectionSourceKind) (source_id : uuid) : string :=
  (match kind with CLIENT_INBOUND => "c" | BOT_OUTBOUND => "b" end) +:+ uuid_hex source_id.

Definition projections_named (s : Database) : Prop :=
  forall k p, db_projections s !! k = Some p ->
    pj_integration_msgid p = source_msgid (pj_source_kind p) (pj_source_id p).

Definition names (s s' : Database) : Prop := projections_named s -> projections_named s'.

#[export] Instance names_preorder : PreOrder names.
Proof. split; [intros s H; exact H|intros s1 s2 s3 H1 H2 H; exact (H2 (H1 H))]. Qed.

#[export] Instance names_conversations : Unwatched names Conversation. Proof. intros t s H; exact H. Qed.
#[export] Instance names_ops : Unwatched names ConversationOpsEvent. Proof. intros t s H; exact H. Qed.
#[export] Instance names_inbox : Unwatched names InboxMessage. Proof. intros t s H; exact H. Qed.
#[export] Instance names_manager : Unwatched names ManagerMessage. Proof. intros t s H; exact H. Qed.
#[export] Instance names_plans : Unwatched names ReplyPlan. Proof. intros t s H; exact H. Qed.
#[export] Instance names_outbox : Unwatched names OutboxMessage. Proof. intros t s H; exact H. Qed.
#[export] Instance names_mirror : Unwatched names AmoCrmMirrorJob. Proof. intros t s H; exact H. Qed.
#[export] Instance names_ingress : Unwatched names IngressEvent. Proof. intros t s H; exact H. Qed.
#[export] Instance names_chat_bindings : Unwatched names AmocrmChatBinding. Proof. intros t s H; exact H. Qed.
#[export] Instance names_offers : Unwatched names SelfBookingActiveOffer. Proof. intros t s H; exact H. Qed.
#[export] Instance names_pendings : Unwatched names SelfBookingCreatePending.
Proof. intros t s H; exact H. Qed.
#[export] Instance names_pii_values : Unwatched names EphemeralPiiValue. Proof. intros t s H; exact H. Qed.
#[export] Instance names_pii : Unwatched names SelfBookingPiiAdmission. Proof. intros t s H; exact H. Qed.

Lemma names_uuid4 : respects names uuid4.
Proof. intros env s H; exact H. Qed.
Lemma names_statement_now : respects names db_statement_now.
Proof. intros env s H; exact H. Qed.

Lemma msgid_of_source {E S} kind sid (env : E) (s : S) msgid s' :
  integration_msgid_for_source kind sid env s = (Returned msgid, s') -> msgid = source_msgid kind sid.
Proof. unfold integration_msgid_for_source. case_match; [done|]. by intros [= <- _]. Qed.

Lemma names_enqueue cid kind sid corr n :
  respects names (projection_repo.enqueue_if_absent cid kind sid corr n).
Proof.
  intros env s. enough (wp (projection_repo.enqueue_if_absent cid kind sid corr n)
    (fun _ s' => names s s') (fun _ s' => names s s') env s) as H.
  { unfold wp in H. by destruct (projection_repo.enqueue_if_absent _ _ _ _ _ _ _) as [[]]. }
  assert (names s s) as Hsame by (intros H; exact H).
  apply wp_bind, wp_assert; [intros _|done]. apply wp_bind.
  unfold wp at 1. destruct (integration_msgid_for_source kind sid env s) as [[msgid|e] s1] eqn:Em.
  2: { unfold integration_msgid_for_source in Em. cbv zeta in Em. case_match; by inversion Em; subst. }
  assert (s1 = s) as -> by (unfold integration_msgid_for_source in Em; cbv zeta in Em; case_match; by inversion Em).
  apply msgid_of_source in Em as ->.
  apply wp_bind, wp_select_scalar; [intros; by apply wp_ret|]. intros _.
  apply wp_bind, wp_uuid4, wp_bind, wp_db_statement_now, wp_bind.
  assert (forall b s2, names s s2 ->
    wp (row ← projection_repo.get_by_source kind sid;
        row ← require_some row RuntimeError "AMOCRM_PROJECTION_LOOKUP_FAILED"; mret (row, b : bool))
      (fun _ s' => names s s') (fun _ s' => names s s') env s2) as Htail.
  { intros b s2 Hn. apply wp_bind, wp_select_scalar; intros;
      (apply wp_bind, wp_require_some; [intros; by apply wp_ret|done]). }
  apply wp_insert_with; [intros; by apply Htail| |done..].
  intros _ _ _ _. apply Htail. intros Hs k p. dbsimpl. rewrite lookup_insert_Some.
  intros [[_ <-]|[_ Hp]]; [done|by eapply Hs].
Qed.
#[export] Hint Resolve names_uuid4 names_statement_now names_enqueue : respects.

Lemma service_names A (body : Session A) : service A body -> respects names body.
Proof. intros []; solve_respects. Qed.
Lemma dispatch_names claim A (body : Session A) : dispatch claim A body -> respects names body.
Proof. intros []; solve_respects. Qed.
Lemma claim_one_names worker lease now : respects names (claim_one_plan worker lease now).
Proof. solve_respects. Qed.

Lemma runs_names {A} (body : Session A) r s s' :
  respects names body -> projections_named s -> runs body r s s' -> projections_named s'.
Proof.
  intros Hb Hs [env Hrun].
  assert (respects names (session_scope body)) as Hsc by (apply respects_session_scope; [apply _|done]).
  specialize (Hsc env s). rewrite Hrun in Hsc. by apply Hsc.
Qed.

Lemma reachable_named x : reachable x -> projections_named (sys_db x).
Proof.
  intros Hx. apply rtc_ind_r with (P := fun y => projections_named (sys_db y)) in Hx; [done| |].
  - intros k p Hp. by destruct (lookup_empty_Some k p Hp).
  - intros y z Hry Hstep Hy. pose proof (reachable_ok _ Hry) as [[Hcon _] _].
    destruct Hstep as [| | |pid r calls s s' claims Hex]; cbn in *;
      [eapply runs_names; try done; eauto using service_names, dispatch_names, claim_one_names..|].
    destruct (executes_touches _ _ _ _ _ Hcon Hex) as [(t & v & n & k & -> & _) _]. exact Hy.
Qed.
