(* ===== verification/Returns.v ===== *)
(** * Transactions that return: messages of the client

    With the specifications of [InboundProofs], a client message is always
    taken: nothing the database or the code checks can refuse it in a reachable
    database whose counters have room. *)

From S2P Require Import Prelude BookingText Models Database Statements Conversations ReplyPlans.
From S2P Require Import Outbound SelfBooking Messages Mirror ReplyText Projections Inbound.
From S2P Require Import ManagerMessages HandoffExpiry ReplyDispatch VkGate Arbiter Dialog Frames.
From S2P Require Import EphemeralPii ManagerProofs InboundProofs Progress System Fresh.

(** ** Composition *)

Lemma wp_total {E S A} (m : M E S A) Q X env s :
  total m env s -> wp m Q X env s -> wp m Q (fun _ _ => False) env s.
Proof. unfold total, wp. destruct (m env s) as [[a|e] s']; done. Qed.

(** The rest of a transaction, knowing what its beginning did. *)
Lemma total_bind {A B} (m : Session A) (k : A -> Session B) Q X env s :
  total m env s -> wp m Q X env s ->
  (forall a s', Q a s' -> total (k a) env s') -> total (m ≫= k) env s.
Proof.
  intros Hm HQ Hk. apply wp_bind. eapply wp_mono; [by eapply wp_total| |done].
  intros a s' Ha. by apply Hk.
Qed.

(** What a computation that respects a relation leaves is related as well. *)
Lemma wp_and_respects {A} (P : Database -> Database -> Prop) (m : Session A) Q X env s :
  respects P m -> wp m (fun a s' => P s s' -> Q a s') X env s -> wp m Q X env s.
Proof.
  intros HP Hm. eapply wp_mono; [apply (wp_respects P _ _ _ _ _ HP Hm)| |]; naive_solver.
Qed.

Lemma wp_mints {A} (m : Session A) Q X env s :
  mints [] m -> supply_ok s -> wp m (fun a s' => supply_ok s' -> Q a s') X env s ->
  wp m Q X env s.
Proof.
  intros Hm Hs Hwp. destruct (Hm env s) as [Hs' _]; [constructor|done|].
  unfold wp in *. destruct (m env s) as [[a|e] s']; auto.
Qed.

(** Both invariants of the store, handed to the rest of the transaction. *)
Lemma wp_kept {A} (m : Session A) Q X env s :
  respects keeps m -> mints [] m -> constraints_ok s -> supply_ok s ->
  wp m (fun a s' => constraints_ok s' -> supply_ok s' -> Q a s') X env s -> wp m Q X env s.
Proof.
  intros Hk Hm Hcon Hsup Hwp. apply wp_mints; [done..|].
  apply (wp_and_respects keeps); [done|]. eapply wp_mono; [exact Hwp| |done].
  intros a s' H [_ Hk'] Hs'. by apply H; [apply Hk'|].
Qed.

Section Statements.
Context {R : Type} `{TL : TableLaws R} (X : exn -> Database -> Prop) (env : Env) (s : Database).

(** INSERT of a row nothing speaks against. *)
Lemma wp_insert_returns arbiter r Q :
  row_fits r = true -> row_checks r = true -> row_references s r = true ->
  table_get s !! row_id r = None ->
  (forall id r', table_get s !! id = Some r' -> arbiter r r' = true -> Q false s) ->
  ((forall id r', table_get s !! id = Some r' -> arbiter r r' = false) ->
   (forall id r', table_get s !! id = Some r' -> row_conflict r r' = false) /\
   Q true (table_set (<[row_id r := r]> (table_get s)) s)) ->
  wp (insert_with arbiter r) Q X env s.
Proof.
  intros Hf Hck Href Hnew Hdup Hins. apply wp_insert_with; [exact Hdup| |congruence|congruence|].
  - intros _ _ _ Harb. by apply Hins.
  - intros Harb Hno. destruct Hno. split; [done|]. split_and!; [done..|].
    apply map_Forall_lookup_2. intros id r' Hr'. right. by apply (proj1 (Hins Harb) id).
Qed.

Lemma wp_insert_row_returns r (Q : unit -> Database -> Prop) :
  row_fits r = true -> row_checks r = true -> row_references s r = true ->
  table_get s !! row_id r = None ->
  (forall id r', table_get s !! id = Some r' -> row_conflict r r' = false) ->
  Q tt (table_set (<[row_id r := r]> (table_get s)) s) ->
  wp (insert_row r) Q X env s.
Proof.
  intros. by apply wp_bind, wp_insert_returns.
Qed.

End Statements.

(** ** Rows of the dialog that stay within their columns *)

(** Counters of every dialog with room for one more step, and UUIDs left. *)
Definition room (s : Database) : Prop :=
  (forall cid c, db_conversations s !! cid = Some c ->
     conv_context_version c < int4_max /\ conv_manager_epoch c < int4_max /\
     conv_current_event_seq c < int8_max) /\
  (db_uuid_supply s + 8 < 2 ^ 122)%N.

Ltac in_range :=
  unfold conversation_fits, conversation_checks, in_int8_opt, in_int4, in_int8, int4_max,
    int8_max in *;
  cbn -[Z.leb handoff_quarantine_consistency] in *;
  rewrite ?andb_true_iff, ?Z.leb_le in *; intuition (lia || done).

Lemma allocated_row now c :
  conversation_fits c = true -> conversation_checks c = true ->
  conv_current_event_seq c < int8_max ->
  conversation_fits (conversation_repo.allocate_next_event_seq_values now c) = true /\
  conversation_checks (conversation_repo.allocate_next_event_seq_values now c) = true.
Proof. intros. in_range. Qed.

Lemma bumped_row at_ now c :
  conversation_fits c = true -> conversation_checks c = true ->
  conv_context_version c < int4_max ->
  conversation_fits (conversation_repo.bump_context_for_new_message_values at_ now c) = true /\
  conversation_checks (conversation_repo.bump_context_for_new_message_values at_ now c) = true.
Proof. intros. in_range. Qed.

Lemma paused_row moment pause c :
  conversation_fits c = true -> conversation_checks c = true ->
  conv_handoff_state c = HUMAN_ACTIVE ->
  conversation_fits (conversation_repo.enter_or_continue_human_pause_values moment pause c) = true /\
  conversation_checks (conversation_repo.enter_or_continue_human_pause_values moment pause c) = true.
Proof.
  intros Hf Hck Hst. split; [done|].
  assert (forall d : Conversation, conv_handoff_state d = HUMAN_ACTIVE ->
    handoff_consistency d = true -> conv_status d = HANDOFF /\ conv_ownership d = MANAGER /\
      is_not_null (conv_manager_takeover_at d) = true) as Hcons.
  { intros d E. unfold handoff_consistency. rewrite E.
    destruct (conv_status d), (conv_ownership d); try done. rewrite !andb_true_iff. tauto. }
  unfold conversation_checks in *. rewrite !andb_true_iff in *.
  destruct Hck as (((((((? & ?) & ?) & ?) & Hho) & ?) & ?) & ?). split_and!; try done.
  destruct (Hcons c Hst Hho) as (E1 & E2 & E3). unfold handoff_consistency. cbn.
  by rewrite E1, E2, E3.
Qed.

Section Dialog.
Context (env : Env) (s : Database).
Hypothesis Hcon : constraints_ok s.

(** UPDATE of a dialog under its lock. *)
Lemma wp_conversation_returns c v X (Q : bool -> Database -> Prop) :
  db_conversations s !! conv_id c = Some c ->
  conv_id (v c) = conv_id c -> conv_channel (v c) = conv_channel c ->
  conv_external_conversation_id (v c) = conv_external_conversation_id c ->
  conversation_fits (v c) = true /\ conversation_checks (v c) = true ->
  exists_row_opt (db_reply_plans s) (conv_active_reply_plan_id (v c)) = true ->
  Q true (s <| db_conversations := <[conv_id c := v c]> (db_conversations s) |>) ->
  wp (update_by_id (conv_id c) no_guard v) Q X env s.
Proof.
  intros Hc E1 E2 E3 [Hf Hck] Href HQ.
  eapply wp_update_returns; [done|exact Hc|done|done|done|done|done| |done].
  intros k x _. cbn. by rewrite E2, E3.
Qed.

(** The plan a stored dialog points to exists. *)
Lemma active_plan_exists c :
  db_conversations s !! conv_id c = Some c ->
  exists_row_opt (db_reply_plans s) (conv_active_reply_plan_id c) = true.
Proof.
  intros Hc. pose proof (constraints_table (R := Conversation) s Hcon) as Ht.
  by destruct (Ht _ _ Hc) as (_ & _ & _ & Href & _).
Qed.

Lemma total_get_or_create ch ext :
  supply_ok s -> total (conversation_repo.get_or_create ch ext) env s.
Proof.
  intros Hsup. unfold total, conversation_repo.get_or_create.
  apply wp_bind, wp_get_by_channel_external; [intros; by apply wp_ret|]. intros Hno.
  apply wp_bind, wp_uuid4, wp_bind, wp_db_now, wp_bind.
  apply wp_insert_returns; [done..|by eapply minted_unused; [apply Hsup|]| |].
  - intros k c Hc. cbn. rewrite andb_true_iff, bool_decide_eq_true, String.eqb_eq.
    intros [E1 E2]. by destruct (Hno k c Hc).
  - intros Harb. split; [done|]. apply wp_bind, wp_get_by_channel_external.
    + intros. apply wp_bind, wp_ret. by apply wp_ret.
    + intros Hn. by destruct (Hn _ _ (lookup_insert_eq _ _ _)).
Qed.

Lemma total_allocate c :
  db_conversations s !! conv_id c = Some c -> conv_current_event_seq c < int8_max ->
  total (conversation_repo.allocate_next_event_seq c) env s.
Proof.
  intros Hc Hq. destruct (conversation_checked s _ c Hcon Hc) as [Hf Hck].
  apply wp_bind, wp_db_now, wp_bind, wp_conversation_returns; try done.
  - by apply allocated_row.
  - by apply (active_plan_exists c).
  - apply wp_bind, wp_ret. eapply wp_refresh; [apply lookup_insert_eq|done].
Qed.

(** A plan for a context version no plan of the dialog has yet. *)
Lemma wp_create_plan_returns c corr payload delay attempts now nb X (Q : ReplyPlan -> Database -> Prop) :
  supply_ok s -> db_conversations s !! conv_id c = Some c ->
  (forall k p, db_reply_plans s !! k = Some p -> rp_conversation_id p = conv_id c ->
     rp_context_version p <> conv_context_version c) ->
  0 <= delay -> in_int4 delay = true -> 0 < attempts -> in_int4 attempts = true ->
  (forall p, rp_conversation_id p = conv_id c -> db_reply_plans s !! rp_id p = None ->
     Q p (s <| db_uuid_supply ::= N.succ |>
            <| db_reply_plans := <[rp_id p := p]> (db_reply_plans s) |>)) ->
  wp (reply_plan_repo.create_client_reply_plan (conv_id c) (conv_context_version c) corr payload
        delay attempts now nb (conv_manager_epoch c) (conv_current_event_seq c)) Q X env s.
Proof.
  intros Hsup Hc Hnew Hd Hd4 Ha Ha4 HQ. destruct (conversation_checked s _ c Hcon Hc) as [Hf Hck].
  assert (0 <= conv_context_version c /\ 0 <= conv_manager_epoch c /\ 0 <= conv_current_event_seq c)
    as (Hv0 & He0 & Hq0) by in_range.
  unfold reply_plan_repo.create_client_reply_plan.
  apply wp_bind, wp_assert; [intros _|rewrite negb_false_iff, Z.ltb_lt; lia].
  apply wp_bind, wp_assert; [intros _|rewrite negb_false_iff, orb_true_iff, !Z.ltb_lt; lia].
  apply wp_bind, wp_resolve_moment. cbv zeta. apply wp_bind, wp_uuid4, wp_bind.
  apply wp_insert_row_returns.
  - cbn. unfold reply_plan_fits. cbn. unfold conversation_fits in Hf.
    rewrite !andb_true_iff in *. intuition.
  - cbn. unfold reply_plan_checks. cbn. rewrite !andb_true_iff, !Z.leb_le, Z.ltb_lt. lia.
  - cbn. unfold exists_row. by rewrite Hc.
  - dbsimpl. eapply minted_unused; [apply Hsup|done].
  - intros k p Hp. cbn. unfold uq_reply_plans_conversation_context_version. cbn.
    apply not_true_iff_false. rewrite andb_true_iff, bool_decide_eq_true, Z.eqb_eq.
    intros [E1 E2]. by apply (Hnew k p).
  - apply wp_ret. apply HQ; [done|]. eapply minted_unused; [apply Hsup|done].
Qed.

Lemma total_assign_plan c pid :
  db_conversations s !! conv_id c = Some c ->
  exists_row_opt (db_reply_plans s) pid = true ->
  total (conversation_repo.assign_active_reply_plan_id c pid) env s.
Proof.
  intros Hc Hp. destruct (conversation_checked s _ c Hcon Hc) as [Hf Hck].
  apply wp_if; intros _; [by apply wp_ret|].
  by apply wp_bind, wp_db_now, wp_bind, wp_conversation_returns.
Qed.
End Dialog.

(** ** The reply plan *)

Section PlanReply.
Context (pause : Z) (event : SyntheticInboundEvent) (inbox : InboxMessage) (env : Env).
Hypothesis Hpause : conversation_repo.pause_seconds_in_range pause = true.

(** No plan of the dialog carries its context version yet. *)
Definition version_free (s : Database) (c : Conversation) : Prop :=
  forall k p, db_reply_plans s !! k = Some p -> rp_conversation_id p = conv_id c ->
    rp_context_version p <> conv_context_version c.

(** Plan, pointer to it, result. *)
Lemma wp_plan_and_point s c payload delay nb now :
  constraints_ok s -> supply_ok s -> db_conversations s !! conv_id c = Some c ->
  version_free s c -> 0 <= delay -> in_int4 delay = true ->
  total (
    correlation_id ← uuid4;
    reply_plan ← reply_plan_repo.create_client_reply_plan (conv_id c) (conv_context_version c)
      correlation_id payload delay reply_plan_repo.DEFAULT_MAX_ATTEMPTS now nb
      (conv_manager_epoch c) (conv_current_event_seq c);
    conversation ← conversation_repo.assign_active_reply_plan_id c (Some (rp_id reply_plan));
    mret (conversation, Some reply_plan)) env s.
Proof.
  intros Hcon Hsup Hc Hfree Hd Hd4. unfold total.
  apply wp_bind_keeps; [solve_respects|done|]. apply (wp_mints uuid4); [solve_mints|done|].
  apply wp_uuid4. intros Hsup1 Hcon1.
  apply wp_bind_keeps; [solve_respects|done|]. apply wp_create_plan_returns; try done.
  intros p Hpc Hp Hcon2. apply wp_bind. eapply wp_mono; [apply total_assign_plan; try done| |done].
  - dbsimpl. unfold exists_row_opt, exists_row. by rewrite lookup_insert_eq.
  - intros c' s' _. by apply wp_ret.
Qed.

Lemma total_plan_reply s c :
  constraints_ok s -> supply_ok s -> db_conversations s !! conv_id c = Some c ->
  version_free s c -> total (plan_reply pause event c inbox) env s.
Proof.
  intros Hcon Hsup Hc Hfree. destruct (conversation_checked s _ c Hcon Hc) as [Hf Hck].
  destruct (allows_automatic_reply_state c Hck) as (_ & _ & Hdl).
  unfold total, plan_reply. apply wp_if; [|intros _; apply wp_if].
  - intros _. by apply wp_plan_and_point.
  - rewrite andb_true_iff, bool_decide_eq_true, negb_true_iff, bool_decide_eq_false.
    intros [Hh Hst]. specialize (Hdl Hh).
    apply wp_bind_keeps; [solve_respects|done|].
    apply (wp_mints db_statement_now); [solve_mints|done|].
    apply wp_db_statement_now. set (moment := env_statement_timestamp _ _). intros Hsup1 Hcon1.
    set (s1 := s <| db_statement_clock ::= S |>) in *.
    assert (db_conversations s1 !! conv_id c = Some c) as Hc1 by done.
    assert (forall d s', constraints_ok s' -> supply_ok s' ->
      db_conversations s' !! conv_id d = Some d -> version_free s' d ->
      is_not_null (conv_handoff_deadline_at d) = true ->
      total (
        deadline ← require_some (conv_handoff_deadline_at d) RuntimeError
          "HUMAN_PAUSE_DEADLINE_MISSING";
        correlation_id ← uuid4;
        reply_plan ← reply_plan_repo.create_client_reply_plan (conv_id d)
          (conv_context_version d) correlation_id
          (client_reply_plan_payload (uuid_str (inbox_id inbox)) (sie_booking event) true)
          0 reply_plan_repo.DEFAULT_MAX_ATTEMPTS (Some moment) (Some deadline)
          (conv_manager_epoch d) (conv_current_event_seq d);
        conversation ← conversation_repo.assign_active_reply_plan_id d (Some (rp_id reply_plan));
        mret (conversation, Some reply_plan)) env s') as Hrest.
    { intros d s' H1 H2 H3 H4 H5. apply wp_bind, wp_require_some; [|by destruct (conv_handoff_deadline_at d)].
      intros deadline _. by apply wp_plan_and_point. }
    apply wp_bind_keeps; [solve_respects|done|].
    eapply (wp_mints (conversation_repo.enter_or_continue_human_pause _ _ _)); [solve_mints|done|].
    apply wp_bind, wp_assert; [intros _|congruence].
    apply wp_if; [intros _; apply wp_ret; intros ? _; by apply Hrest|]. intros Hnp.
    apply wp_if; [intros _; apply wp_ret; intros ? _; by apply Hrest|].
    rewrite negb_false_iff, bool_decide_eq_true. intros Hact.
    apply wp_bind, wp_conversation_returns; try done.
    + by apply paused_row.
    + by apply (active_plan_exists s1 Hcon1 c).
    + apply wp_bind. eapply wp_refresh; [apply lookup_insert_eq|]. apply wp_ret. intros Hsup2 Hcon2.
      apply Hrest; try done. apply lookup_insert_eq.
  - intros _. apply wp_bind. eapply wp_mono; [by apply total_assign_plan| |done].
    intros c' s' _. by apply wp_ret.
Qed.
End PlanReply.

(** ** Names of projections *)

Lemma str_matches_app l1 l2 a b :
  str_matches l1 a = true -> str_matches l2 b = true -> str_matches (l1 ++ l2) (a +:+ b) = true.
Proof.
  revert a. induction l1 as [|p l1 IH]; intros [|ch a]; try done.
  change (String ch a +:+ b) with (String ch (a +:+ b)). cbn [str_matches app].
  rewrite !andb_true_iff. intros [? ?] ?. split; [done|by apply IH].
Qed.

Lemma is_lower_hex_digit d : (d < 16)%N -> is_lower_hex (hex_digit d) = true.
Proof.
  intros H. destruct d as [|p]; [done|].
  assert (p < 16)%positive as Hp by lia.
  by do 5 (destruct p as [p|p|]; try done).
Qed.

Lemma hex_digits_match w n : str_matches (replicate w is_lower_hex) (hex_digits w n) = true.
Proof.
  revert n. induction w as [|w IH]; intros n; [done|]. cbn [hex_digits].
  replace (S w) with (w + 1)%nat by lia. rewrite replicate_add. apply str_matches_app; [apply IH|].
  cbn. rewrite andb_true_r. apply is_lower_hex_digit, N.mod_lt. done.
Qed.

Lemma source_msgid_format kind sid :
  uuid_ok sid = true -> integration_msgid_format (source_msgid kind sid) = true.
Proof.
  unfold uuid_ok, integration_msgid_format, source_msgid, uuid_hex. intros ->.
  destruct kind; exact (hex_digits_match 32 sid).
Qed.

Lemma source_msgid_inj kind sid kind' sid' :
  source_msgid kind sid = source_msgid kind' sid' -> kind = kind' /\ sid = sid'.
Proof.
  unfold source_msgid. destruct kind, kind'; intros [= E];
    (split; [done|]); by apply uuid_hex_inj.
Qed.

(** ** The stored message *)

Section Stored.
Context (env : Env) (s : Database).
Hypothesis Hcon : constraints_ok s.
Hypothesis Hsup : supply_ok s.

(** A number above every number of the dialog is free in the inbox. *)
Lemma total_insert_inbox ch cid c ext seq payload at_ :
  db_conversations s !! cid = Some c -> 0 < seq -> seq <= int8_max ->
  (forall k m, db_inbox_messages s !! k = Some m -> inbox_conversation_id m = cid ->
     inbox_conversation_event_seq m < seq) ->
  total (message_repo.insert_inbox_if_absent cid ch ext seq payload at_) env s.
Proof.
  intros Hc Hq Hmax Hseq. unfold total, message_repo.insert_inbox_if_absent.
  apply wp_bind, wp_get_inbox_by_external; [intros; by apply wp_ret|]. intros Hno.
  apply wp_bind, wp_uuid4, wp_bind, wp_db_now, wp_bind. apply wp_insert_returns.
  - cbn. unfold inbox_fits. cbn. in_range.
  - cbn. unfold inbox_checks. cbn. by apply Z.ltb_lt.
  - cbn. unfold exists_row. by rewrite Hc.
  - dbsimpl. eapply minted_unused; [apply Hsup|done].
  - intros k m Hm. unfold uq_inbox_channel_external_message_id. cbn.
    rewrite andb_true_iff, bool_decide_eq_true, String.eqb_eq. intros [E1 E2].
    by destruct (Hno k m Hm).
  - intros Harb. split.
    + intros k m Hm. cbn. apply orb_false_iff. split; [by apply (Harb k)|].
      unfold uq_inbox_conversation_event_seq. cbn. apply not_true_iff_false.
      rewrite andb_true_iff, bool_decide_eq_true, Z.eqb_eq. intros [E1 E2].
      specialize (Hseq k m Hm (eq_sym E1)). lia.
    + apply wp_bind, wp_get_inbox_by_external.
      * intros. apply wp_bind, wp_ret. by apply wp_ret.
      * intros Hn. by destruct (Hn _ _ (lookup_insert_eq _ _ _)).
Qed.

(** The draft. *)
Lemma total_create_draft cid iid c m payload :
  db_conversations s !! cid = Some c -> db_inbox_messages s !! iid = Some m ->
  total (message_repo.create_internal_draft_outbox cid iid payload) env s.
Proof.
  intros Hc Hm. unfold total, message_repo.create_internal_draft_outbox.
  apply wp_bind, wp_select_scalar; [intros; by apply wp_ret|]. intros Hno.
  apply wp_bind, wp_uuid4, wp_bind, wp_db_now, wp_bind.
  set (d := message_repo.internal_draft _ _ _ _ _).
  apply wp_insert_returns; [done..| | | |].
  - cbn. unfold exists_row. by rewrite Hc, Hm.
  - dbsimpl. eapply minted_unused; [apply Hsup|done].
  - intros k o Ho Harb. exfalso. specialize (Hno k o Ho). revert Harb Hno. cbn.
    unfold uq_outbox_source_inbox_destination, same_key, sql_eq. cbn.
    destruct (ob_source_inbox_id o) as [i|]; [|done].
    rewrite andb_true_iff, !bool_decide_eq_true. intros [-> <-].
    by rewrite !bool_decide_eq_true_2.
  - intros Harb. split.
    + intros k o Ho. cbn. unfold uq_outbox_idempotency_key, uq_outbox_reply_plan_destination,
        uq_outbox_vk_provider_message_id. cbn. rewrite !orb_false_r. by apply (Harb k).
    + apply wp_bind, wp_select_scalar; [intros; apply wp_bind, wp_ret; by apply wp_ret|].
      intros Hn. specialize (Hn (ob_id d) d (lookup_insert_eq _ _ _)). exfalso. revert Hn.
      unfold sql_eq. cbn. by rewrite !bool_decide_eq_true_2.
Qed.

(** The chat projection. *)
Lemma total_enqueue_projection cid c sid kind corr :
  projections_named s -> db_conversations s !! cid = Some c -> uuid_ok sid = true ->
  total (projection_repo.enqueue_if_absent cid kind sid corr projection_repo.DEFAULT_MAX_ATTEMPTS)
    env s.
Proof.
  intros Hnamed Hc Hsid. unfold total, projection_repo.enqueue_if_absent.
  apply wp_bind, wp_assert; [intros _|done]. apply wp_bind.
  assert (String.length (source_msgid kind sid) = 33%nat) as Hlen.
  { unfold source_msgid, uuid_hex. unfold uuid_ok in Hsid. rewrite Hsid.
    rewrite string_length_app, length_hex_digits. by destruct kind. }
  unfold integration_msgid_for_source. cbv zeta. fold (source_msgid kind sid).
  rewrite Hlen. cbn [Nat.ltb Nat.leb INTEGRATION_MSGID_MAX_LENGTH]. apply wp_ret.
  apply wp_bind, wp_select_scalar; [intros; by apply wp_ret|]. intros Hno.
  apply wp_bind, wp_uuid4, wp_bind, wp_db_statement_now, wp_bind.
  set (d := projection_repo.pending_projection _ _ _ _ _ _ _ _).
  apply wp_insert_returns; [done| | | | |].
  - cbn. unfold projection_checks. cbn [d projection_repo.pending_projection pj_integration_msgid
      pj_attempt_count pj_max_attempts pj_lease_version pj_status].
    by rewrite source_msgid_format.
  - cbn. unfold exists_row. by rewrite Hc.
  - dbsimpl. eapply minted_unused; [apply Hsup|done].
  - intros k p Hp. unfold uq_amocrm_message_projections_source. cbn.
    rewrite andb_true_iff, !bool_decide_eq_true. intros [E1 E2].
    specialize (Hno k p Hp). cbn in Hno. by rewrite <- E1, <- E2, !bool_decide_eq_true_2 in Hno.
  - intros Harb. split.
    + intros k p Hp. cbn. rewrite orb_false_r. apply orb_false_iff. split; [by apply (Harb k)|].
      apply not_true_iff_false. intros E%String.eqb_eq. specialize (Harb k p Hp).
      rewrite (Hnamed k p Hp) in E. apply source_msgid_inj in E as [-> ->].
      unfold uq_amocrm_message_projections_source in Harb. cbn in Harb.
      by rewrite !bool_decide_eq_true_2 in Harb.
    + apply wp_bind, wp_select_scalar; [intros; apply wp_bind, wp_ret; by apply wp_ret|].
      intros Hn. specialize (Hn (pj_id d) d (lookup_insert_eq _ _ _)). cbn in Hn.
      by rewrite !bool_decide_eq_true_2 in Hn.
Qed.
End Stored.

(** ** The message and its number *)

Section Accept.
Context (pause : Z) (pii : option EphemeralPiiStore).
Context (event : SyntheticInboundEvent) (env : Env).
Hypothesis Hpause : conversation_repo.pause_seconds_in_range pause = true.

(** The inbox row of a message, stored or new. *)
Lemma total_take_message ch ext payload s c at_ :
  dialog_ok s -> supply_ok s -> db_conversations s !! conv_id c = Some c ->
  conv_current_event_seq c < int8_max ->
  total (
    inbox ← message_repo.get_inbox_by_external ch ext;
    match inbox with
    | Some inbox => mret (c, inbox, false)
    | None =>
        conversation ← conversation_repo.allocate_next_event_seq c;
        '(inbox, created) ← message_repo.insert_inbox_if_absent (conv_id conversation) ch ext
          (conv_current_event_seq conversation) payload at_;
        mret (conversation, inbox, created)
    end) env s.
Proof.
  intros (Hcon & _ & Hseqs & _) Hsup Hc Hq. unfold total.
  apply wp_bind, wp_get_inbox_by_external; [intros; by apply wp_ret|]. intros _.
  apply wp_bind_keeps; [solve_respects|done|].
  apply (wp_mints (conversation_repo.allocate_next_event_seq _)); [solve_mints|done|].
  eapply wp_total; [by apply total_allocate|].
  apply wp_allocate_next_event_seq with (X := fun _ _ => True); [by apply conversations_keyed|done| |done].
  intros c1 Hsup1 Hcon1.
  destruct (conversation_checked s _ c Hcon Hc) as [Hf Hck].
  assert (0 <= conv_current_event_seq c) as Hq0 by in_range.
  assert (conv_current_event_seq c1 = conv_current_event_seq c + 1) as Hq1 by (cbn; lia).
  apply wp_bind. eapply wp_mono; [apply (total_insert_inbox env _ Hsup1 ch (conv_id c1) c1)| |done].
  - apply lookup_insert_eq.
  - lia.
  - lia.
  - intros k m Hm Hmc. specialize (Hseqs k m c Hm). rewrite Hmc in Hseqs. specialize (Hseqs Hc). lia.
  - intros [m b] s' _. by apply wp_ret.
Qed.

Lemma total_take_inbox s c at_ :
  dialog_ok s -> supply_ok s -> db_conversations s !! conv_id c = Some c ->
  conv_current_event_seq c < int8_max -> total (take_inbox event c at_) env s.
Proof. intros. by apply total_take_message. Qed.

Lemma total_advance s c m at_ :
  let c1 := conversation_repo.allocate_next_event_seq_values (env_now env) c in
  constraints_ok s -> supply_ok s -> db_conversations s !! conv_id c = Some c1 ->
  conv_context_version c < int4_max ->
  (forall k p, db_reply_plans s !! k = Some p -> rp_conversation_id p = conv_id c ->
     rp_context_version p <= conv_context_version c) ->
  total (advance_dialog pause pii event c1 m at_) env s.
Proof.
  intros c1 Hcon Hsup Hc Hv Hplans. destruct (conversation_checked s _ c1 Hcon Hc) as [Hf Hck].
  unfold total, advance_dialog.
  apply wp_bind_keeps; [solve_respects|done|].
  apply (wp_mints (conversation_repo.bump_context_for_new_message _ _)); [solve_mints|done|].
  apply wp_bind, wp_db_now, wp_bind. apply (wp_conversation_returns _ _ Hcon c1); try done.
  { by apply bumped_row. }
  { by apply (active_plan_exists s Hcon c1). }
  apply wp_bind, wp_ret. eapply wp_refresh; [apply lookup_insert_eq|].
  set (c2 := conversation_repo.bump_context_for_new_message_values at_ _ c1).
  intros Hsup1 Hcon1. change (conv_id c2) with (conv_id c).
  apply wp_bind_keeps; [solve_respects|done|].
  apply (wp_mints (reply_plan_repo.supersede_open_plans _ _)); [solve_mints|done|].
  apply wp_bind, wp_db_now, wp_harmless_update; [done| |].
  { intros k p Hp _. destruct (constraints_table _ Hcon1 _ _ Hp) as (Hfp & _ & Hckp & _).
    by apply close_harmless. }
  dbsimpl. set (ps := sql_update _ _ (db_reply_plans s)). intros Hsup2 Hcon2.
  apply wp_bind_keeps; [solve_respects|done|].
  apply (wp_mints (outbound_repo.cancel_unadmitted_for_conversation _)); [solve_mints|done|].
  apply wp_bind, wp_db_now, wp_cancel_outbox; [done|]. intros os Hsup3 Hcon3.
  apply wp_bind_keeps; [solve_respects|done|].
  match goal with |- wp ?m _ _ _ _ => apply (wp_mints m); [solve_mints|done|] end.
  eapply wp_total.
  { destruct (negb (preserves_active_offer event)); [done|]. unfold total, admit_confirm_selected_slot.
    destruct (sie_action event), pii; try done. apply wp_try.
    unfold wp. by destruct (_ ≫= _) as [[]]. }
  eapply (wp_same_dialog _ _ (fun _ _ => True)); [|intros ? s4 Hs4 Hsup4 Hcon4|done].
  { apply respects_if; [|apply same_dialog_admit_step]. solve_respects. }
  destruct Hs4 as (E1 & E2 & _). dbsimpl. apply total_plan_reply; [done..| |].
  - rewrite E1. apply lookup_insert_eq.
  - intros k p Hp. rewrite E2 in Hp. apply lookup_sql_update_Some in Hp as (p0 & Hp0 & ->).
    specialize (Hplans k p0 Hp0). cbn. destruct (reply_plan_repo.open_plan_of _ p0); cbn; lia.
Qed.
End Accept.

(** ** How far the supply moves *)

Definition still (s s' : Database) : Prop := db_uuid_supply s' = db_uuid_supply s.

#[export] Instance still_preorder : PreOrder still.
Proof. split; [done|]. intros s1 s2 s3 H1 H2. unfold still in *. congruence. Qed.

#[export] Instance still_conversations : Unwatched still Conversation. Proof. done. Qed.
#[export] Instance still_inbox : Unwatched still InboxMessage. Proof. done. Qed.

(** At most [k] UUIDs are drawn. *)
Definition draws {A} (k : N) (m : Session A) : Prop :=
  forall env s, (db_uuid_supply (snd (m env s)) <= db_uuid_supply s + k)%N.

Lemma draws_still {A} (m : Session A) : respects still m -> draws 0 m.
Proof. intros H env s. specialize (H env s). unfold still in H. lia. Qed.

Lemma draws_bind {A B} j k (m : Session A) (f : A -> Session B) :
  draws j m -> (forall a, draws k (f a)) -> draws (j + k) (m ≫= f).
Proof.
  intros Hm Hf env s. specialize (Hm env s). unfold mbind, M_bind.
  destruct (m env s) as [[a|e] s1]; cbn [snd] in *; [|lia]. specialize (Hf a env s1). lia.
Qed.

Lemma draws_uuid4 {B} k (f : uuid -> Session B) :
  (forall u, draws k (f u)) -> draws (1 + k) (uuid4 ≫= f).
Proof. intros H. apply draws_bind; [|done]. intros env s. cbn. lia. Qed.

Lemma draws_weaken {A} j k (m : Session A) : (j <= k)%N -> draws j m -> draws k m.
Proof. intros Hle Hm env s. specialize (Hm env s). lia. Qed.

Lemma draws_get_or_create ch ext : draws 1 (conversation_repo.get_or_create ch ext).
Proof.
  apply (draws_bind 0); [apply draws_still; solve_respects|]. intros [c|].
  - apply (draws_weaken 0); [done|]. apply draws_still. solve_respects.
  - apply (draws_uuid4 0). intros. apply draws_still. solve_respects.
Qed.

Lemma draws_take_inbox event c at_ : draws 1 (take_inbox event c at_).
Proof.
  apply (draws_bind 0); [apply draws_still; solve_respects|]. intros [m|].
  - apply (draws_weaken 0); [done|]. apply draws_still. solve_respects.
  - apply (draws_bind 0); [apply draws_still; solve_respects|]. intros d.
    apply (draws_bind 1 0); [|intros []; apply draws_still; solve_respects].
    apply (draws_bind 0); [apply draws_still; solve_respects|]. intros [m|].
    + apply (draws_weaken 0); [done|]. apply draws_still. solve_respects.
    + apply (draws_uuid4 0). intros. apply draws_still. solve_respects.
Qed.

(** A minted key is a UUID of 128 bits. *)
Lemma minted_uuid_ok s u : minted s u -> (db_uuid_supply s <= 2 ^ 122)%N -> uuid_ok u = true.
Proof.
  intros (n & Hn & ->) Hs. apply N.ltb_lt, uuid4_of_bound. lia.
Qed.

Lemma supply_ok_drawn s : supply_ok s -> supply_ok (s <| db_uuid_supply ::= N.succ |>).
Proof.
  intros (?&?&?&?&?&?&?&?&?&?&?&?&?). split_and!; intros k r Hr; apply (minted_mono s);
    cbn in *; eauto; lia.
Qed.

(** ** What the result is returned with *)

Section Finish.
Context (event : SyntheticInboundEvent) (env : Env).

(** The queues only the CRM reads, filled for a new message. *)
Lemma total_client_message_mirror s c iid corr :
  supply_ok s -> constraints_ok s -> uuid_ok iid = true ->
  db_conversations s !! conv_id c = Some c ->
  total (amocrm_mirror.enqueue_client_message_received (conv_id c) iid (conv_context_version c)
    corr) env s.
Proof.
  intros Hsup Hcon Hiid Hc. destruct (conversation_checked s _ c Hcon Hc) as [Hf Hck].
  apply wp_bind. unfold safe_mirror_payload. cbv zeta. apply wp_bind.
  unfold wp at 1. cbn. apply wp_ret. apply total_enqueue_if_absent; try done.
  - eapply minted_unused; [apply Hsup|done].
  - unfold client_message_mirror_key. rewrite string_length_app, length_uuid_str by done.
    unfold mirror_repo.MIRROR_KEY_MAX_LENGTH. cbn. lia.
  - by in_range.
  - by rewrite Hc.
Qed.

Lemma total_finish_accept s b created c m plan :
  constraints_ok s -> supply_ok s -> projections_named s ->
  db_conversations s !! conv_id c = Some c -> db_inbox_messages s !! inbox_id m = Some m ->
  uuid_ok (inbox_id m) = true ->
  total (finish_accept event b created c m plan) env s.
Proof.
  intros Hcon Hsup Hnamed Hc Hm Hiid. unfold total, finish_accept. cbv zeta.
  assert (forall s', constraints_ok s' -> supply_ok s' -> projections_named s' ->
    db_conversations s' !! conv_id c = Some c ->
    total (when created (
      correlation_id ← uuid4;
      _ ← amocrm_mirror.enqueue_client_message_received (conv_id c) (inbox_id m)
        (conv_context_version c) correlation_id;
      correlation_id ← uuid4;
      _ ← amocrm_chat_projection.enqueue_client_inbound_projection (conv_id c)
        (inbox_id m) correlation_id;
      mret tt)) env s') as Hqueues.
  { intros s' Hcon' Hsup' Hn' Hc'. unfold total. destruct created; [|by apply wp_ret]. cbn [when].
    apply wp_bind_keeps; [solve_respects|done|]. apply (wp_mints uuid4); [solve_mints|done|].
    apply wp_uuid4. intros Hsup1 Hcon1.
    apply wp_bind_keeps; [solve_respects|done|].
    apply (wp_mints (amocrm_mirror.enqueue_client_message_received _ _ _ _)); [solve_mints|done|].
    eapply wp_total; [by apply total_client_message_mirror|].
    apply Mirror.wp_enqueue_client_message_received with (X := fun _ _ => True); [done|].
    intros r jobs u Hsup2 Hcon2. apply wp_bind, wp_uuid4, wp_bind.
    unfold amocrm_chat_projection.enqueue_client_inbound_projection.
    apply wp_bind. unfold amocrm_chat_projection.chat_egress_enabled. apply wp_bind, wp_get_env, wp_ret.
    apply wp_if; intros _; [apply wp_ret; by apply wp_ret|]. apply wp_bind.
    eapply wp_mono; [eapply total_enqueue_projection; try done| |done].
    - by apply supply_ok_drawn.
    - intros; apply wp_ret; by apply wp_ret. }
  apply wp_bind_keeps; [solve_respects|done|].
  apply (wp_mints (message_repo.create_internal_draft_outbox _ _ _)); [solve_mints|done|].
  eapply wp_total; [by eapply total_create_draft|].
  apply Messages.wp_create_internal_draft_outbox with (X := fun _ _ => True); [done|..].
  - intros k o _ _ _. apply wp_bind. eapply wp_mono; [by apply Hqueues| |done]. intros; by apply wp_ret.
  - intros o [? ?] n _ _ _ Hsup1 Hcon1. apply wp_bind.
    eapply wp_mono; [by apply Hqueues| |done]. intros; by apply wp_ret.
  - intros o [? ?] n _ Hsup1 Hcon1. apply wp_bind.
    eapply wp_mono; [by apply Hqueues| |done]. intros; by apply wp_ret.
  - by apply outbox_keyed.
Qed.
End Finish.

(** ** The whole transaction *)

Definition sound (s : Database) : Prop :=
  constraints_ok s /\ supply_ok s /\ projections_named s.

Lemma wp_bind_sound {A B} (m : Session A) (k : A -> Session B) Q X env s :
  respects keeps m -> mints [] m -> respects names m -> sound s ->
  wp m (fun a s' => sound s' -> wp (k a) Q X env s') X env s -> wp (m ≫= k) Q X env s.
Proof.
  intros Hk Hm Hn (H1 & H2 & H3) Hwp. apply wp_bind_keeps; [done..|]. apply wp_mints; [done..|].
  apply (wp_and_respects names); [done|]. eapply wp_mono; [exact Hwp| |done].
  intros a s' H Hn' Hs' Hc'. apply H. split_and!; auto.
Qed.

Lemma wp_draws {A} k (m : Session A) Q X env s :
  draws k m ->
  wp m (fun a s' => (db_uuid_supply s' <= db_uuid_supply s + k)%N -> Q a s') X env s ->
  wp m Q X env s.
Proof. intros Hm Hwp. specialize (Hm env s). unfold wp in *. destruct (m env s) as [[a|e] s']; auto. Qed.

(** No dialog but the event's own has its message. *)
Definition event_of_dialog (s : Database) (event : SyntheticInboundEvent) : Prop :=
  forall k m c, db_inbox_messages s !! k = Some m -> known_inbox event m ->
    db_conversations s !! inbox_conversation_id m = Some c ->
    conv_channel c = CHANNEL_SYNTHETIC /\
    conv_external_conversation_id c = sie_external_conversation_id event.

Lemma inbox_dialog s k m :
  constraints_ok s -> db_inbox_messages s !! k = Some m ->
  exists c, db_conversations s !! inbox_conversation_id m = Some c.
Proof.
  intros Hcon Hm. pose proof (constraints_table (R := InboxMessage) s Hcon) as Ht.
  destruct (Ht k m Hm) as (_ & _ & _ & Href & _). cbn in Href. unfold exists_row in Href.
  destruct (db_conversations s !! inbox_conversation_id m); [eauto|done].
Qed.

Lemma same_dialog_key s c d :
  constraints_ok s -> db_conversations s !! conv_id c = Some c ->
  db_conversations s !! conv_id d = Some d -> conv_channel c = conv_channel d ->
  conv_external_conversation_id c = conv_external_conversation_id d -> conv_id c = conv_id d.
Proof.
  intros Hcon Hc Hd E1 E2. pose proof (constraints_table (R := Conversation) s Hcon) as Ht.
  destruct (Ht _ _ Hc) as (_ & _ & _ & _ & Hu).
  destruct (Hu _ _ Hd) as [H|H]; [done|]. exfalso. revert H. cbn. rewrite E1, E2, String.eqb_refl.
  by rewrite bool_decide_eq_true_2.
Qed.

(** The opened dialog is the one of its external name. *)
Lemma opened_key s c s1 k d :
  opened s c s1 -> constraints_ok s -> constraints_ok s1 -> db_conversations s !! k = Some d ->
  conv_channel d = conv_channel c ->
  conv_external_conversation_id d = conv_external_conversation_id c -> k = conv_id c.
Proof.
  intros Hop Hcon Hcon1 Hd E1 E2. pose proof (conversation_key s _ d Hcon Hd) as Hdk.
  rewrite <- Hdk. apply (same_dialog_key s1); try done; [|by eapply opened_lookup]. rewrite Hdk.
  destruct Hop as [[-> _]|(? & Hno & _ & ->)]; [done|].
  cbn. rewrite lookup_insert_ne; [done|]. congruence.
Qed.

Section AcceptTotal.
Context (pause : Z) (pii : option EphemeralPiiStore).
Context (event : SyntheticInboundEvent) (env : Env).
Hypothesis Hpause : conversation_repo.pause_seconds_in_range pause = true.

(** Everything the transaction needs of its dialog once it is open. *)
Lemma total_accept_opened s1 c b at_ :
  dialog_ok s1 -> sound s1 -> db_conversations s1 !! conv_id c = Some c ->
  conv_context_version c < int4_max -> conv_current_event_seq c < int8_max ->
  (db_uuid_supply s1 + 1 <= 2 ^ 122)%N ->
  (forall k m, db_inbox_messages s1 !! k = Some m -> known_inbox event m ->
     inbox_conversation_id m = conv_id c) ->
  total (
    '(conversation, inbox, created_inbox) ← take_inbox event c at_;
    _ ← assert_or_raise (bool_decide (inbox_conversation_id inbox = conv_id conversation))
      RuntimeError "INBOX_CONVERSATION_MISMATCH";
    '(conversation, reply_plan) ←
      (if created_inbox then advance_dialog pause pii event conversation inbox at_
       else mret (conversation, None));
    finish_accept event b created_inbox conversation inbox reply_plan) env s1.
Proof.
  intros Hok Hsnd Hc Hv Hq Huuid Hown. pose proof Hsnd as (Hcon & Hsup & Hnamed).
  unfold total. apply wp_bind_sound; [solve_respects|solve_mints|solve_respects|done|].
  apply (wp_draws 1); [apply draws_take_inbox|].
  eapply wp_total; [by apply total_take_inbox|].
  apply wp_take_inbox with (X := fun _ _ => True); [by apply conversations_keyed|done| | |done].
  - intros k m Hm Hknown _ _. apply wp_bind, wp_assert.
    2: { rewrite bool_decide_eq_false. intros []. by eapply Hown. }
    intros _. apply wp_bind, wp_ret. destruct (inbox_checked s1 k m Hcon Hm) as [Hmk _].
    apply total_finish_accept; [done..|by subst k|].
    destruct Hsup as (_ & _ & Hi & _). apply (minted_uuid_ok s1); [|lia].
    apply (Hi _ m). by subst k.
  - intros m n c1 Hno Hknown Hmc Hseq. dbsimpl. intros Hn Hsnd2. pose proof Hsnd2 as (Hcon2 & Hsup2 & _).
    apply wp_bind, wp_assert; [intros _|rewrite bool_decide_eq_false; done].
    apply wp_bind_sound; [solve_respects|solve_mints|solve_respects|done|].
    eapply wp_total.
    { apply (total_advance pause pii event env Hpause _ c); [done|done| |done|].
      - apply lookup_insert_eq.
      - intros k p Hp Hpc. destruct Hok as (_ & (Hw & _) & _).
        destruct (Hw k p c Hp) as ((? & _) & _); [by rewrite Hpc|done]. }
    apply (wp_advance_dialog pause pii event m at_ env _ c) with (X := fun _ _ => True); [| | |done].
    + apply (conversations_keyed _ Hcon2).
    + apply lookup_insert_eq.
    + intros c' plan s3 tick Hpl (F1 & F2 & F3 & F4 & F5 & F6) (Hcon3 & Hsup3 & Hn3).
      pose proof Hpl as [(Hid & _) _]. change (conv_id (bumped env at_ c)) with (conv_id c) in Hid.
      apply total_finish_accept; [done..| | |].
      * rewrite F1, Hid. apply lookup_insert_eq.
      * rewrite F5. apply lookup_insert_eq.
      * apply (minted_uuid_ok (s1 <| db_uuid_supply := n |>)); [|cbn; lia].
        destruct Hsup2 as (_ & _ & Hi & _). destruct (Hi (inbox_id m) m) as (j & ? & ->).
        { apply lookup_insert_eq. }
        by exists j.
Qed.

Lemma total_accept s :
  dialog_ok s -> supply_ok s -> projections_named s -> room s ->
  sie_channel event = "synthetic"%string -> event_of_dialog s event ->
  total (accept pause pii event) env s.
Proof.
  intros Hok Hsup Hnamed [Hroom Huuid] Hch Hown. pose proof Hok as (Hcon & _).
  unfold total, accept. apply wp_bind, wp_assert; [intros _|congruence].
  apply wp_bind, wp_assert; [intros _|by rewrite Hch, String.eqb_refl].
  apply wp_bind. unfold received_at_utc. apply wp_bind, wp_get_env, wp_ret.
  set (at_ := default _ _).
  apply wp_bind_sound; [solve_respects|solve_mints|solve_respects|done|].
  apply (wp_draws 1); [apply draws_get_or_create|].
  eapply wp_total; [by apply total_get_or_create|].
  apply wp_get_or_create_opened with (X := fun _ _ => True); [done| |done]. intros c b s1 Hop Hok1 Hcc Hext Hn Hsnd.
  pose proof (opened_lookup _ _ _ Hop) as Hc.
  apply wp_bind, wp_lock_for_update; [|by rewrite Hc]. intros c0 Hc0.
  assert (c0 = c) as -> by congruence.
  assert (conv_context_version c < int4_max /\ conv_current_event_seq c < int8_max) as [Hv Hq].
  { destruct (opened_prior _ _ _ Hop) as [Hp|(_ & _ & Hf)].
    - destruct (Hroom _ _ Hp) as (? & _ & ?). done.
    - destruct Hf as [t ->]. done. }
  apply total_accept_opened; try done; [lia|].
  intros k m Hm Hknown. rewrite (opened_same_inbox _ _ _ Hop) in Hm.
  destruct (inbox_dialog s k m Hcon Hm) as [d Hd].
  destruct (Hown k m d Hm Hknown Hd) as [E1 E2].
  eapply opened_key; [exact Hop|done|apply Hok1|exact Hd|congruence..].
Qed.
End AcceptTotal.

(** What the request itself must bring. *)
Definition accept_ready (s : Database) (pause : Z) (event : SyntheticInboundEvent) : Prop :=
  conversation_repo.pause_seconds_in_range pause = true /\
  sie_channel event = "synthetic"%string /\ event_of_dialog s event /\ room s.
