(* ===== verification/ReturnsPlans.v ===== *)
(** * Transactions that return: reply plans

    A worker that holds a plan of a dialog nobody interrupted can dispatch it:
    no statement of the booking transactions, of the VK dispatch or of the
    failure path is refused, in a database the services reach. *)

From S2P Require Import Prelude BookingText Models Database Statements Conversations ReplyPlans.
From S2P Require Import Outbound SelfBooking Messages Mirror ReplyText BookingFields Projections.
From S2P Require Import HandoffExpiry ReplyDispatch Dialog Moves Frames ManagerProofs DispatchProofs.
From S2P Require Import ClaimProofs Progress System TextProofs Fresh Returns.
Import reply_plan_repo.

(** ** The pieces of a dispatch *)

Lemma plan_row_facts s k p :
  constraints_ok s -> db_reply_plans s !! k = Some p ->
  reply_plan_fits p = true /\ reply_plan_checks p = true /\
  is_not_null (db_conversations s !! rp_conversation_id p) = true.
Proof.
  intros Hcon Hp. pose proof (constraints_table (R := ReplyPlan) s Hcon) as Ht.
  by destruct (Ht k p Hp) as (? & _ & ? & ? & _).
Qed.

(** The numbers a claim carries are in the ranges of its plan's columns. *)
Record claim_in_range (claim : ReplyPlanClaim) (max_attempts : Z) : Prop := {
  range_version : 0 <= rpc_context_version claim /\ in_int4 (rpc_context_version claim) = true;
  range_epoch : 0 <= rpc_manager_epoch claim /\ in_int4 (rpc_manager_epoch claim) = true;
  range_seq : 0 <= rpc_event_seq_hwm claim /\ in_int8 (rpc_event_seq_hwm claim) = true;
  range_attempts : 0 < max_attempts /\ in_int4 max_attempts = true
}.

(** The builder's payloads pass the check. *)
Lemma safe_payload_returns {E S} t k sid cid v st (env : E) (s : S) :
  exists payload, safe_mirror_payload t k sid cid v st env s = (Returned payload, s) /\
    assert_mirror_payload_is_safe payload env s = (Returned tt, s).
Proof. destruct v, st; eexists; split; reflexivity. Qed.

Lemma total_enqueue_plan_state env s cid pid st v corr :
  supply_ok s -> uuid_ok pid = true -> is_not_null (db_conversations s !! cid) = true ->
  0 <= v -> in_int4 v = true ->
  total (amocrm_mirror.enqueue_reply_plan_state_changed cid pid st v corr) env s.
Proof.
  intros Hsup Hpid Hc Hv Hv4. unfold total, amocrm_mirror.enqueue_reply_plan_state_changed. cbv zeta.
  destruct (safe_payload_returns REPLY_PLAN_STATE_CHANGED SUBJECT_REPLY_PLAN pid cid (Some v)
    (Some (enum_value st)) env s) as (payload & Hpay & Hsafe).
  apply wp_bind. unfold wp at 1. rewrite Hpay. apply total_enqueue_if_absent; try done.
  - eapply minted_unused; [apply Hsup|done].
  - unfold reply_plan_state_mirror_key. rewrite !string_length_app, length_uuid_str by done.
    destruct st; vm_compute; lia.
Qed.

Lemma total_complete_dispatched env s claim oid created p :
  constraints_ok s -> supply_ok s -> db_reply_plans s !! rpc_plan_id claim = Some p ->
  holds_lease (rpc_lease_token claim) (rpc_lease_version claim) p = true ->
  uuid_ok (rpc_plan_id claim) = true ->
  is_not_null (db_conversations s !! rpc_conversation_id claim) = true ->
  0 <= rpc_context_version claim -> in_int4 (rpc_context_version claim) = true ->
  total (complete_dispatched claim oid created) env s.
Proof.
  intros Hcon Hsup Hp Hl Hpid Hc Hv Hv4. destruct (plan_row_facts s _ p Hcon Hp) as (Hf & Hck & _).
  destruct (reply_plan_checked s _ p Hcon Hp) as (Hid & _ & _).
  unfold total, complete_dispatched.
  apply wp_bind_keeps; [solve_respects|done|].
  apply (wp_mints (complete_dispatched_with_lease _ _ _)); [solve_mints|done|].
  unfold complete_dispatched_with_lease. apply wp_bind, wp_assert; [intros _|done].
  apply wp_bind, wp_db_now, wp_bind.
  eapply wp_harmless_update_by_id; [done|exact Hp|exact Hl|harmless; done|].
  apply wp_bind, wp_ret, wp_bind, wp_get_by_id. dbsimpl. rewrite lookup_insert_eq.
  apply wp_ret. intros Hsup' Hcon'. apply wp_bind.
  eapply wp_mono; [apply total_enqueue_plan_state; try done| |done].
  - cbn. by rewrite Hid.
  - intros; by apply wp_ret.
Qed.

Section Insert.
Context (env : Env) (s : Database) (d : DestinationType) (claim : ReplyPlanClaim).
Hypothesis Hd : client_destination d = true.
Let key := outbound_key d (rpc_plan_id claim).

Lemma total_insert_outbound payload nb max_attempts :
  supply_ok s -> claim_in_range claim max_attempts ->
  is_not_null (db_conversations s !! rpc_conversation_id claim) = true ->
  is_not_null (db_reply_plans s !! rpc_plan_id claim) = true ->
  (forall k o, db_outbox_messages s !! k = Some o -> ob_idempotency_key o <> Some key) ->
  (forall k o, db_outbox_messages s !! k = Some o ->
     client_destination (ob_destination_type o) = true ->
     ob_reply_plan_id o <> Some (rpc_plan_id claim)) ->
  total (outbound_repo.insert_outbound_if_absent d key (rpc_conversation_id claim)
    (rpc_plan_id claim) (rpc_context_version claim) payload (rpc_correlation_id claim) nb
    max_attempts (rpc_manager_epoch claim) (rpc_event_seq_hwm claim)) env s.
Proof.
  intros Hsup [[Hv Hv4] [He He4] [Hq Hq8] [Ha Ha4]] Hc Hp Hfree Hplan.
  unfold total, outbound_repo.insert_outbound_if_absent.
  apply wp_bind, wp_get_by_idempotency_key; [intros k o Ho Hk; by destruct (Hfree k o Ho)|].
  intros _. apply wp_bind, wp_uuid4, wp_bind, wp_db_now, wp_bind.
  set (o := outbound_repo.pending_outbound _ _ _ _ _ _ _ _ _ _ _ _ _).
  apply wp_insert_returns.
  - cbn -[in_int4 in_int8]. unfold outbox_fits. cbn -[in_int4 in_int8].
    by rewrite Hv4, He4, Hq8, Ha4.
  - cbn -[Z.leb Z.ltb]. unfold outbox_checks. cbn -[Z.leb Z.ltb].
    apply Z.leb_le in He, Hq. apply Z.ltb_lt in Ha. by rewrite He, Hq, Ha, orb_true_r.
  - cbn. unfold exists_row. by rewrite Hc, Hp.
  - dbsimpl. eapply minted_unused; [apply Hsup|done].
  - intros k r Hr Harb. exfalso. revert Harb. unfold uq_outbox_idempotency_key, same_key. cbn.
    destruct (ob_idempotency_key r) as [key'|] eqn:E; [|done].
    rewrite bool_decide_eq_true. intros <-. by destruct (Hfree k r Hr).
  - intros Harb. split.
    + intros k r Hr. change (row_conflict o r) with (uq_outbox_source_inbox_destination o r ||
        uq_outbox_idempotency_key o r || uq_outbox_reply_plan_destination o r ||
        uq_outbox_vk_provider_message_id o r).
      rewrite (Harb k r Hr). apply orb_false_iff.
      split; [|unfold uq_outbox_vk_provider_message_id; cbn; by rewrite ?andb_false_r].
      unfold uq_outbox_reply_plan_destination, same_key. cbn. destruct (ob_reply_plan_id r) as [i|] eqn:E; [|done].
      apply not_true_iff_false. rewrite andb_true_iff, !bool_decide_eq_true. intros [<- Ed].
      by destruct (Hplan k r Hr); [rewrite <- Ed|].
    + unfold outbound_repo.get_by_idempotency_key.
      apply wp_bind, wp_select_scalar; [intros; apply wp_bind, wp_ret; by apply wp_ret|].
      intros Hno. specialize (Hno _ _ (lookup_insert_eq _ _ _)). exfalso. revert Hno.
      unfold sql_eq. cbn. by rewrite bool_decide_eq_true_2.
Qed.
End Insert.

(** ** A plan that is still the worker's *)

Lemma wp_lock_and_validate_ok claim c p (Q : ReplyPlan -> Database -> Prop) X env s :
  db_conversations s !! rpc_conversation_id claim = Some c ->
  db_reply_plans s !! rpc_plan_id claim = Some p -> validated claim c p ->
  Q p s -> wp (lock_and_validate claim) Q X env s.
Proof.
  intros Hc Hp (Hv & Ho & Hst & Htk & He & Hq & Hl & Hpe & Hpq) HQ. unfold lock_and_validate.
  apply wp_bind, wp_lock_for_update; [|by rewrite Hc]. intros c0 Hc0.
  assert (c0 = c) as -> by congruence.
  rewrite Hv, Ho, Hst, Htk, He, Hq, !Z.eqb_refl. cbn [negb].
  rewrite !bool_decide_eq_true_2 by done. cbn [negb is_not_null].
  apply wp_bind, wp_get_by_id. dbsimpl. rewrite Hp, Hl, Hpe, Hpq, !Z.eqb_refl. by apply wp_ret.
Qed.

(** What a worker needs to go on: its claim validates, and UUIDs are left. *)
Definition plan_in_hand (s : Database) (claim : ReplyPlanClaim) : Prop :=
  supply_ok s /\ (db_uuid_supply s <= 2 ^ 122)%N /\
  exists c p, db_conversations s !! rpc_conversation_id claim = Some c /\
    db_reply_plans s !! rpc_plan_id claim = Some p /\ validated claim c p.

Section Held.
Context (env : Env) (s : Database) (claim : ReplyPlanClaim) (c : Conversation) (p : ReplyPlan).
Hypothesis Hok : dialog_ok s.
Hypothesis Hclaim : plan_claim_ok s claim.
Hypothesis Hsup : supply_ok s.
Hypothesis Huuid : (db_uuid_supply s <= 2 ^ 122)%N.
Hypothesis Hc : db_conversations s !! rpc_conversation_id claim = Some c.
Hypothesis Hp : db_reply_plans s !! rpc_plan_id claim = Some p.
Hypothesis Hval : validated claim c p.

Lemma held_in_range : claim_in_range claim (rp_max_attempts p).
Proof.
  pose proof Hok as [Hcon _]. destruct (plan_row_facts s _ p Hcon Hp) as (Hf & Hck & _).
  destruct (claimed_plan_facts s claim c p Hok Hclaim Hc Hp Hval) as (_ & _ & Hv & _ & He & Hq & _).
  unfold reply_plan_fits, reply_plan_checks in *.
  rewrite !andb_true_iff, ?Z.leb_le, ?Z.ltb_lt in *.
  split; [rewrite <- Hv|rewrite <- He|rewrite <- Hq|]; tauto.
Qed.

Lemma held_uuid : uuid_ok (rpc_plan_id claim) = true.
Proof. destruct Hsup as (_ & _ & _ & _ & Hps & _). by eapply minted_uuid_ok; [eapply Hps|]. Qed.

Context (p1 : ReplyPlan).
Hypothesis Hsame : same_plan p p1.
Hypothesis Hlease : holds_lease (rpc_lease_token claim) (rpc_lease_version claim) p1 = true.
Let s1 := s <| db_reply_plans := <[rpc_plan_id claim := p1]> (db_reply_plans s) |>.
Hypothesis Hcon1 : constraints_ok s1.
Hypothesis Hsup1 : supply_ok s1.

(** The row goes in, and the plan can be closed after it. *)
Lemma wp_insert_returned d payload nb (Q : OutboxMessage * bool -> Database -> Prop) :
  client_destination d = true ->
  (forall o s2, ob_destination_type o = d ->
     total (complete_dispatched claim (ob_id o) true) env s2 -> Q (o, true) s2) ->
  wp (outbound_repo.insert_outbound_if_absent d
      (outbound_key d (rpc_plan_id claim)) (rpc_conversation_id claim) (rpc_plan_id claim)
      (rpc_context_version claim) payload (rpc_correlation_id claim) nb (rp_max_attempts p)
      (rpc_manager_epoch claim) (rpc_event_seq_hwm claim)) Q (fun _ _ => False) env s1.
Proof.
  intros Hd HQ. pose proof held_in_range as Hrange.
  destruct (claimed_plan_facts s claim c p Hok Hclaim Hc Hp Hval) as (_ & _ & _ & Hst & _).
  assert (forall k o, db_outbox_messages s1 !! k = Some o ->
    ob_idempotency_key o <> Some (outbound_key d (rpc_plan_id claim))) as Hfree.
  { intros i o Ho. by eapply (outbound_key_free s claim c p Hok Hclaim Hc Hp Hval). }
  apply wp_kept; [solve_respects|solve_mints|done..|].
  eapply wp_total.
  { apply total_insert_outbound; try done; [cbn; by rewrite Hc|cbn; by rewrite lookup_insert_eq|].
    intros i o Ho Hcd. eapply (dialog_undispatched s _ p i o Hok Hp); [by rewrite Hst|done..]. }
  apply wp_insert_outbound_new with (X := fun _ _ => True); [done|done|].
  intros id n Hfresh o Hcon2 Hsup2. apply HQ; [done|].
  eapply total_complete_dispatched; [done|done|apply lookup_insert_eq|done|apply held_uuid| | |];
    [cbn; by rewrite Hc|apply Hrange..].
Qed.

(** From the payload to the result. *)
Lemma total_finalize_outbound payload fields :
  total (
    outbound_payload ← build_synthetic_outbound_payload payload (Some fields);
    '(outbound, created) ← outbound_repo.insert_synthetic_outbound_if_absent
      (rpc_conversation_id claim) (rpc_plan_id claim) (rpc_context_version claim)
      outbound_payload (rpc_correlation_id claim) (rpc_not_before claim)
      (rp_max_attempts p) (rpc_manager_epoch claim) (rpc_event_seq_hwm claim);
    complete_dispatched claim (ob_id outbound) created) env s1.
Proof.
  destruct (build_payload_returns payload fields env s1) as [out Hout].
  apply wp_bind. unfold wp at 1. rewrite Hout.
  by apply wp_bind, (wp_insert_returned SYNTHETIC_OUTBOUND).
Qed.
End Held.

(** Nothing of the dialog's own rows speaks against the plan's statements. *)
Lemma total_persist env s pid token version p result :
  constraints_ok s -> db_reply_plans s !! pid = Some p -> holds_lease token version p = true ->
  total (persist_booking_resolution_result pid token version result) env s.
Proof.
  intros Hcon Hp Hl. destruct (plan_row_facts s _ p Hcon Hp) as (Hf & Hck & _).
  apply wp_bind, wp_get_by_id. dbsimpl. rewrite Hp. apply wp_bind, wp_ret.
  apply wp_bind, wp_assert; [intros _|congruence]. cbv zeta.
  set (updated := jset _ "booking_resolution_result" _).
  assert (total (now ← db_now;
      _ ← update_by_id pid no_guard (fun p =>
        p <| rp_payload_json := updated |> <| rp_updated_at := now |>);
      mret updated) env s) as Hwrite.
  { apply wp_bind, wp_db_now, wp_bind.
    eapply wp_harmless_update_by_id; [done|exact Hp|done|harmless; done|by apply wp_ret]. }
  destruct (jget (rp_payload_json p) "booking_resolution_result") as [[]|]; try exact Hwrite.
  by apply wp_ret.
Qed.

Lemma total_try_mark env s pid token version p :
  constraints_ok s -> db_reply_plans s !! pid = Some p ->
  total (try_mark_booking_resolution_started pid token version) env s.
Proof.
  intros Hcon Hp. destruct (plan_row_facts s _ p Hcon Hp) as (Hf & Hck & _).
  apply wp_bind, wp_db_now. destruct (booking_unmarked token version p) eqn:Hun.
  - eapply wp_harmless_update_by_id; [done|exact Hp|exact Hun|harmless; done|done].
  - apply wp_update_by_id_none; [by apply reply_plans_keyed| |done].
    intros r Hr. dbsimpl. by simplify_eq.
Qed.

(** ** The transactions *)

Section Transactions.
Context (env : Env) (s : Database) (claim : ReplyPlanClaim).
Hypothesis Hok : dialog_ok s.
Hypothesis Hclaim : plan_claim_ok s claim.
Hypothesis Hhand : plan_in_hand s claim.

Lemma total_booking_finalize payload fields persist :
  total (booking_phase2_finalize claim payload fields persist) env s.
Proof.
  destruct Hhand as (Hsup & Huuid & c & p & Hc & Hp & Hval). pose proof Hok as [Hcon _].
  pose proof Hval as (_ & _ & _ & _ & _ & _ & Hl & _).
  unfold total, booking_phase2_finalize. cbv zeta.
  apply wp_bind. eapply wp_lock_and_validate_ok; [exact Hc|exact Hp|done|].
  apply (wp_same_plans _ _ _ _ _ _ p Hp).
  apply (wp_no_outbound_yet env s claim c p Hok Hclaim Hc Hp Hval p SYNTHETIC_OUTBOUND); [done|].
  rewrite <- (reply_plans_same s _ p Hp).
  destruct (_ && _).
  - apply wp_bind_keeps; [solve_respects|done|].
    apply (wp_mints (persist_booking_resolution_result _ _ _ _)); [solve_mints|done|].
    eapply wp_total; [by eapply total_persist|].
    apply wp_persist_booking_resolution_result with (p := p) (X := fun _ _ => True);
      [by apply reply_plans_keyed|done|done| |done].
    intros payload' p1 Hsame _ Hl1 _ _ Hsup1 Hcon1.
    by apply (total_finalize_outbound env s claim c p).
  - apply wp_bind, wp_ret, (wp_same_plans _ _ _ _ _ _ p Hp).
    apply (total_finalize_outbound env s claim c p); auto using same_plan_refl;
      by rewrite <- (reply_plans_same s _ p Hp).
Qed.

Lemma total_saved payload :
  booking_resolution_phase payload = HAS_RESULT -> total (use_saved_result payload) env s.
Proof.
  unfold booking_resolution_phase. intros H. destruct (negb _); [done|].
  apply wp_bind, wp_require_some; [intros; by apply wp_ret|]. unfold read_booking_resolution_result, pyget.
  destruct (jget payload BOOKING_RESOLUTION_RESULT_KEY) as [[]|]; try done; by destruct (bool_decide _).
Qed.

Lemma total_booking_prepare : total (booking_phase1_prepare claim) env s.
Proof.
  destruct Hhand as (Hsup & Huuid & c & p & Hc & Hp & Hval). pose proof Hok as [Hcon _].
  unfold total, booking_phase1_prepare.
  apply wp_bind. eapply wp_lock_and_validate_ok; [exact Hc|exact Hp|done|]. cbv zeta.
  apply (wp_same_plans _ _ _ _ _ _ p Hp).
  apply (wp_no_outbound_yet env s claim c p Hok Hclaim Hc Hp Hval p SYNTHETIC_OUTBOUND); [done|].
  rewrite <- (reply_plans_same s _ p Hp).
  assert (total (mark_or_interrupt claim (rp_payload_json p)) env s) as Hmark.
  { apply wp_bind. eapply wp_total; [by eapply total_try_mark|].
    apply wp_try_mark_booking_resolution_started with (p := p) (X := fun _ _ => True);
      [by apply reply_plans_keyed|done| | |done].
    - intros. by apply wp_ret.
    - intros _. apply wp_bind, wp_get_by_id. dbsimpl. rewrite Hp. apply wp_bind, wp_ret. cbv zeta.
      destruct (booking_resolution_phase (rp_payload_json p)) eqn:Hphase; try by apply wp_ret.
      by apply total_saved. }
  destruct (booking_resolution_phase (rp_payload_json p)) eqn:Hphase; [done..| |].
  - by apply wp_ret.
  - by apply total_saved.
Qed.

(** Without booking: the closed VK proof is sent to a VK dialog and to no other;
    any other plan has no text to send. *)
Lemma total_vk_proof c :
  db_conversations s !! rpc_conversation_id claim = Some c ->
  is_vk_client_proof_reply_plan (rpc_payload_json claim) = true -> conv_channel c = CHANNEL_VK ->
  total (dispatch_non_booking claim) env s.
Proof.
  destruct Hhand as (Hsup & Huuid & c0 & p & Hc0 & Hp & Hval). intros Hc Hproof Hch.
  assert (c0 = c) as -> by congruence. pose proof Hok as [Hcon _].
  pose proof Hval as (_ & _ & _ & _ & _ & _ & Hl & _).
  unfold total, dispatch_non_booking. apply wp_bind.
  eapply wp_lock_and_validate_ok; [exact Hc|exact Hp|done|].
  apply wp_bind, wp_get_by_id. dbsimpl. rewrite Hc. apply wp_bind, wp_ret. rewrite Hproof.
  unfold dispatch_vk_proof. apply wp_bind, wp_bind, wp_assert; [intros _|by rewrite Hch].
  apply wp_bind. unfold is_vk_client_proof_reply_plan in Hproof.
  apply andb_true_iff in Hproof as [_ Htext].
  destruct (jget (rpc_payload_json claim) "text") as [[| | |text| |]|]; try done.
  apply negb_true_iff in Htext. rewrite Htext. apply wp_ret.
  apply (wp_same_plans _ _ _ _ _ _ p Hp).
  apply (wp_no_outbound_yet env s claim c p Hok Hclaim Hc Hp Hval p VK_CLIENT_OUTBOUND); [done|].
  apply wp_bind.
  apply (wp_insert_returned env s claim c p Hok Hclaim Hsup Huuid Hc Hp Hval p
    (same_plan_refl p) Hl) with (d := VK_CLIENT_OUTBOUND);
    [by rewrite <- (reply_plans_same s _ p Hp)..|done|].
  intros o s2 Ho Hcomplete. apply wp_bind, wp_assert; [intros _|by rewrite Ho].
  by apply wp_ret.
Qed.

Lemma no_text_to_send c :
  db_conversations s !! rpc_conversation_id claim = Some c ->
  is_vk_client_proof_reply_plan (rpc_payload_json claim) = false ->
  dispatch_non_booking claim env s =
    (Raised (if bool_decide (conv_channel c = CHANNEL_VK)
             then Exn RuntimeError "VK_OUTBOUND_PROOF_REQUIRED"
             else Exn OutboundReplyTextError "OUTBOUND_REPLY_TEXT_MISSING"), s).
Proof.
  destruct Hhand as (Hsup & Huuid & c0 & p & Hc0 & Hp & Hval). intros Hc Hproof.
  assert (c0 = c) as -> by congruence.
  enough (wp (dispatch_non_booking claim) (fun _ _ => False) (fun e s' => s' = s /\
    e = if bool_decide (conv_channel c = CHANNEL_VK)
        then Exn RuntimeError "VK_OUTBOUND_PROOF_REQUIRED"
        else Exn OutboundReplyTextError "OUTBOUND_REPLY_TEXT_MISSING") env s) as H.
  { unfold wp in H. destruct (dispatch_non_booking claim env s) as [[]]; [done|].
    by destruct H as [-> ->]. }
  unfold dispatch_non_booking. apply wp_bind.
  eapply wp_lock_and_validate_ok; [exact Hc|exact Hp|done|].
  apply wp_bind, wp_get_by_id. dbsimpl. rewrite Hc. apply wp_bind, wp_ret. rewrite Hproof.
  unfold dispatch_synthetic. apply wp_bind, wp_bind, wp_assert.
  - intros Hch%negb_true_iff. apply wp_bind, wp_get_by_idempotency_key.
    + intros k o Ho Hkey. exfalso.
      by eapply (outbound_key_free s claim c p Hok Hclaim Hc Hp Hval SYNTHETIC_OUTBOUND).
    + intros _. apply wp_bind. unfold wp. cbn. by rewrite Hch.
  - intros Hch%negb_false_iff. by rewrite Hch.
Qed.

Lemma total_fail_plan retry code :
  total (fail_claimed_plan retry claim code) env s.
Proof.
  destruct Hhand as (Hsup & Huuid & c & p & Hc & Hp & Hval). pose proof Hok as [Hcon _].
  pose proof Hval as (_ & _ & _ & _ & _ & _ & Hl & _).
  destruct (plan_row_facts s _ p Hcon Hp) as (Hf & Hck & _).
  destruct (reply_plan_checked s _ p Hcon Hp) as (Hid & _ & _).
  pose proof (held_in_range s claim c p Hok Hclaim Hc Hp Hval) as [[Hv Hv4] _ _ _].
  unfold total, fail_claimed_plan. apply wp_bind, wp_lock_for_update; [|by rewrite Hc]. intros c0 _.
  apply wp_bind_keeps; [solve_respects|done|].
  apply (wp_mints (fail_with_lease _ _ _ _ _ _)); [solve_mints|done|].
  unfold fail_with_lease. apply wp_bind, wp_resolve_moment, wp_bind, wp_get_by_id. dbsimpl.
  rewrite Hp. apply wp_bind, wp_ret, wp_bind, wp_assert; [intros _|congruence].
  assert (forall target nb, reply_plan_transition_allowed RP_PROCESSING target = true ->
    wp (_ ← assert_or_raise (reply_plan_transition_allowed RP_PROCESSING target)
          ReplyPlanStateError "REPLY_PLAN_TRANSITION_DENIED";
        updated ← update_by_id (rpc_plan_id claim)
          (holds_lease (rpc_lease_token claim) (rpc_lease_version claim))
          (fail_values target nb code (env_now env));
        _ ← assert_or_raise updated StaleReplyPlanLeaseError "REPLY_PLAN_STALE_LEASE";
        refreshed ← get_by_id (rpc_plan_id claim);
        require_some refreshed RuntimeError "REPLY_PLAN_LOOKUP_FAILED")
      (fun p' s' => supply_ok s' -> constraints_ok s' ->
         wp (_ ← when (bool_decide (rp_status p' = RP_DEAD)) (
               _ ← amocrm_mirror.enqueue_reply_plan_state_changed (rpc_conversation_id claim)
                 (rp_id p') (rp_status p') (rpc_context_version claim) (rpc_correlation_id claim);
               mret tt);
             mret p') (fun _ _ => True) (fun _ _ => False) env s')
      (fun _ _ => False) env s) as Hgo.
  { intros target nb Ht. apply wp_bind, wp_assert; [intros _|congruence]. apply wp_bind.
    eapply wp_harmless_update_by_id; [done|exact Hp|exact Hl|harmless; done|].
    apply wp_bind, wp_ret, wp_bind, wp_get_by_id. dbsimpl. rewrite lookup_insert_eq.
    apply wp_ret. intros Hsup1 Hcon1. apply wp_bind, wp_when; intros _; [|by apply wp_ret].
    apply wp_bind. eapply wp_mono; [apply total_enqueue_plan_state; try done| |done].
    - cbn. rewrite Hid. by eapply (held_uuid s claim p Hsup Huuid Hp).
    - cbn. by rewrite Hc.
    - intros. by apply wp_ret, wp_ret. }
  destruct (rp_max_attempts p <=? rp_attempt_count p); by apply Hgo.
Qed.
End Transactions.

(** ** The claim *)

(** Lease versions with room for one more claim. *)
Definition plans_room (s : Database) : Prop :=
  forall k p, db_reply_plans s !! k = Some p -> rp_lease_version p < int4_max.

Lemma claimed_row_harmless moment worker token until p :
  reply_plan_fits p = true -> reply_plan_checks p = true ->
  rp_attempt_count p < rp_max_attempts p -> rp_lease_version p < int4_max ->
  harmless p (claim_values moment worker token until p).
Proof.
  unfold reply_plan_fits, reply_plan_checks, in_int4.
  rewrite !andb_true_iff, !Z.leb_le, !Z.ltb_lt.
  intros ((((((? & ?) & ?) & ?) & ?) & ?) & ?) ((((((? & ?) & ?) & ?) & ?) & ?) & ?) Ha Hv.
  harmless; cbn; unfold reply_plan_fits, reply_plan_checks, in_int4;
    cbn -[Z.leb Z.ltb Z.succ in_int8]; rewrite !andb_true_iff, ?Z.leb_le, ?Z.ltb_lt;
    split_and!; try done; lia.
Qed.

Lemma total_plan_row_to_claim moment worker token until p env s :
  total (row_to_claim (claim_values moment worker token until p)) env s.
Proof. exact I. Qed.

Section Claim.
Context (env : Env) (s : Database).
Hypothesis Hcon : constraints_ok s.
Hypothesis Hsup : supply_ok s.
Hypothesis Hroom : plans_room s.

Lemma wp_recover_returns moment (Q : unit -> Database -> Prop) :
  (db_uuid_supply s <= 2 ^ 122)%N ->
  (forall s1, plans_room s1 -> constraints_ok s1 -> supply_ok s1 -> Q tt s1) ->
  wp (recover_one_exhausted moment) Q (fun _ _ => False) env s.
Proof.
  intros Huuid HQ. apply wp_kept; [solve_respects|solve_mints|done..|].
  unfold recover_one_exhausted, find_exhausted_lease.
  apply wp_bind, wp_bind, wp_resolve_moment, wp_bind, wp_select_where, wp_ret.
  destruct (pick_min _ _) as [p|] eqn:Hpick; cbn [fmap option_fmap option_map];
    [|by apply wp_ret; intros; apply HQ].
  cbn [erl_conversation_id erl_plan_id from_option id] in *.
  apply pick_min_elem, list_elem_of_filter in Hpick as [Hex [k Hp]%rows_elem].
  destruct (reply_plan_checked s k p Hcon Hp) as (Hid & _ & _). subst k.
  destruct (plan_row_facts s _ p Hcon Hp) as (Hf & Hck & Hc).
  apply wp_bind, wp_lock_for_update; [|by destruct (db_conversations s !! _)]. intros c _.
  unfold recover_exhausted_lease. apply wp_bind_keeps; [solve_respects|done|].
  match goal with |- wp ?m _ _ _ _ => apply (wp_mints m); [solve_mints|done|] end.
  apply wp_bind, wp_resolve_moment. cbn [from_option id]. apply wp_bind.
  eapply wp_harmless_update_by_id; [done|exact Hp|exact Hex|harmless; done|].
  apply wp_get_by_id. dbsimpl. rewrite lookup_insert_eq. intros Hsup1 Hcon1. apply wp_bind.
  eapply wp_total.
  { apply total_enqueue_plan_state; [done| |done|..].
    - destruct Hsup as (_ & _ & _ & _ & Hps & _). by eapply minted_uuid_ok; [eapply Hps|].
    - unfold reply_plan_checks in Hck. cbn. rewrite !andb_true_iff, !Z.leb_le in Hck. tauto.
    - unfold reply_plan_fits in Hf. cbn. rewrite !andb_true_iff in Hf. tauto. }
  apply wp_enqueue_reply_plan_state_changed with (X := fun _ _ => True); [done|].
  intros r jobs n. apply wp_ret. intros Hcon2 Hsup2. apply HQ; [|done..].
  intros k q. cbn. rewrite lookup_insert_Some. intros [[_ <-]|[_ Hq]]; [|by eapply Hroom].
  cbn. by eapply Hroom.
Qed.

(** The row of a candidate takes the claim. *)
Lemma total_take_candidate p worker token moment until :
  db_reply_plans s !! rp_id p = Some p -> rp_attempt_count p < rp_max_attempts p ->
  total (
    _ ← update_by_id (rp_id p) no_guard (claim_values moment worker token until);
    plan ← get_by_id (rp_id p);
    plan ← require_some plan RuntimeError "REPLY_PLAN_CLAIM_LOOKUP_FAILED";
    claim ← row_to_claim plan;
    mret (Some claim)) env s.
Proof.
  intros Hp Ha. destruct (plan_row_facts s _ p Hcon Hp) as (Hf & Hck & _).
  pose proof (Hroom _ p Hp) as Hv.
  apply wp_bind. eapply wp_harmless_update_by_id;
    [done|exact Hp|done|by apply claimed_row_harmless|].
  apply wp_bind, wp_get_by_id. dbsimpl. rewrite lookup_insert_eq. apply wp_bind, wp_ret.
  apply wp_bind. eapply wp_mono; [apply total_plan_row_to_claim|intros; by apply wp_ret|done].
Qed.
End Claim.

Lemma plans_room_ready s moment n :
  plans_room s ->
  plans_room (s <| db_reply_plans := made_ready moment (db_reply_plans s) |> <| db_uuid_supply := n |>).
Proof.
  intros Hroom k p (q & Hq & ->)%lookup_sql_update_Some. specialize (Hroom _ q Hq).
  by destruct (_ && _).
Qed.

Lemma total_claim_next env s worker lease moment :
  constraints_ok s -> plans_room s -> 0 < lease ->
  total (claim_next worker lease (Some moment)) env s.
Proof.
  intros Hcon Hroom Hlease. unfold total, claim_next.
  apply wp_bind, wp_assert; [intros _|intros H%negb_false_iff%Z.leb_le; lia].
  apply wp_bind, wp_resolve_moment. cbn [from_option id].
  apply wp_bind_keeps; [solve_respects|done|]. apply wp_bind, wp_resolve_moment.
  apply wp_harmless_update; [done| |].
  { intros k p Hp _. destruct (plan_row_facts s k p Hcon Hp) as (Hf & Hck & _). harmless; done. }
  dbsimpl. cbn [from_option id]. change (sql_update _ _ (db_reply_plans s)) with
    (made_ready moment (db_reply_plans s)).
  intros Hcon1. cbv zeta.
  apply wp_bind_keeps; [solve_respects|done|]. apply wp_uuid4. intros Hcon2.
  pose proof (plans_room_ready s moment (N.succ (db_uuid_supply s)) Hroom) as Hroom2.
  change (_ <| db_uuid_supply ::= N.succ |>) with
    (s <| db_reply_plans := made_ready moment (db_reply_plans s) |>
       <| db_uuid_supply := N.succ (db_uuid_supply s) |>) in *.
  revert Hcon2 Hroom2. generalize (s <| db_reply_plans := made_ready moment (db_reply_plans s) |>
       <| db_uuid_supply := N.succ (db_uuid_supply s) |>). intros s2 Hcon2 Hroom2.
  apply wp_bind, wp_get_env, wp_bind, wp_get_state, wp_bind, wp_select_where. dbsimpl.
  destruct (pick_min _ _) as [p|] eqn:Hpick; [|by apply wp_ret].
  apply pick_min_elem, list_elem_of_filter in Hpick as [Hcl [k Hp]%rows_elem].
  apply andb_true_iff in Hcl as [Hcl _]. apply claimable_facts in Hcl as (Ha & _).
  destruct (reply_plan_checked s2 k p Hcon2 Hp) as (Hid & _ & _). subst k.
  by apply total_take_candidate.
Qed.


Lemma total_claim_one env s worker lease now :
  constraints_ok s -> supply_ok s -> (db_uuid_supply s <= 2 ^ 122)%N -> plans_room s -> 0 < lease ->
  total (claim_one_plan worker lease now) env s.
Proof.
  intros Hcon Hsup Huuid Hroom Hlease. unfold total, claim_one_plan.
  apply wp_bind, wp_resolve_moment, wp_bind, wp_recover_returns; [done..|].
  intros s1 Hroom1 Hcon1 _. by apply total_claim_next.
Qed.
