(* ===== verification/ReturnsWorkers.v ===== *)
(** * Transactions that return: the workers

    What [Returns] shows of client messages, shown of handoff expiry, of the
    manager's messages and of the record of a delivery: in a database the
    services reach, whose counters have room, their transactions return.  The
    exception is a delivered offer the active-offer table cannot hold. *)

From S2P Require Import Prelude BookingText Models Database Statements Conversations ReplyPlans.
From S2P Require Import Outbound SelfBooking Messages Mirror ReplyText BookingFields Projections.
From S2P Require Import Inbound ManagerMessages HandoffExpiry ReplyDispatch VkGate Arbiter Dialog.
From S2P Require Import Moves Frames ManagerProofs DispatchProofs ClaimProofs ArbiterProofs ExpiryProofs.
From S2P Require Import InboundProofs History Progress System Fresh Returns ReturnsPlans.

(** ** Handoff expiry *)

Section Expiry.
Context (env : Env) (s : Database) (cid : uuid) (c : Conversation) (t moment : instant).
Hypothesis Hok : dialog_ok s.
Hypothesis Hc : db_conversations s !! cid = Some c.
Hypothesis Hdue : conversation_repo.handoff_due t c = true.
Hypothesis Hlater : t <= moment.

Lemma returned_row pid :
  conversation_fits c = true -> conversation_checks c = true ->
  conversation_fits (conversation_repo.return_due_handoff_to_bot_values moment pid c) = true /\
  conversation_checks (conversation_repo.return_due_handoff_to_bot_values moment pid c) = true.
Proof.
  intros Hf Hck. split; [done|]. unfold conversation_checks in *. rewrite !andb_true_iff in *.
  destruct Hck as (((((((? & ?) & ?) & ?) & _) & ?) & ?) & ?). by split_and!.
Qed.

Lemma still_due : conversation_repo.return_due_handoff_to_bot_guard c moment c = true.
Proof.
  destruct (handoff_due_state t c Hdue) as (H1 & H2 & _ & d & H3 & H4).
  unfold conversation_repo.return_due_handoff_to_bot_guard. rewrite H1, H2, H3.
  rewrite !bool_decide_eq_true_2 by done. cbn. destruct d; cbn in *; try done.
  apply Z.leb_le in H4. apply Z.leb_le. lia.
Qed.

(** The statement finds its row unchanged. *)
Lemma total_return_to_bot s' pid :
  constraints_ok s' -> db_conversations s' = db_conversations s ->
  exists_row_opt (db_reply_plans s') pid = true ->
  total (conversation_repo.return_due_handoff_to_bot c moment pid) env s'.
Proof.
  intros Hcon' E Hp. pose proof Hok as [Hcon _].
  pose proof (conversation_key s cid c Hcon Hc) as <-.
  destruct (conversation_checked s _ c Hcon Hc) as [Hf Hck].
  destruct (returned_row pid Hf Hck) as [Hf' Hck'].
  assert (db_conversations s' !! conv_id c = Some c) as Hc' by (by rewrite E).
  apply wp_bind. eapply wp_update_returns; [done|exact Hc'|apply still_due|done..| |].
  - intros x. done.
  - apply wp_bind, wp_ret. eapply wp_refresh; [apply lookup_insert_eq|done].
Qed.
End Expiry.

(** Later statements of a transaction see no earlier time. *)
Definition clock_runs (env : Env) : Prop :=
  forall n, env_statement_timestamp env n <= env_statement_timestamp env (S n).

Lemma total_expire_one env s :
  dialog_ok s -> clock_runs env -> total expire_one env s.
Proof.
  intros Hok Hclock. pose proof Hok as (Hcon & Hwork & _). apply total_session_scope. unfold total.
  apply wp_bind_keeps; [solve_respects|done|]. apply wp_claim_next_due_handoff; [|intros; by apply wp_ret].
  intros cid c Hc Hdue _ Hcon1. set (t := env_statement_timestamp env (db_statement_clock s)) in *.
  apply wp_bind_keeps; [solve_respects|done|]. apply wp_db_statement_now. dbsimpl.
  set (moment := env_statement_timestamp env (S (db_statement_clock s))). intros Hcon2.
  assert (t <= moment) as Hlater by apply Hclock.
  pose proof (conversation_key s cid c Hcon Hc) as Hid.
  apply wp_bind, wp_try, (wp_mono _ (fun _ _ => True) _ (fun _ _ => False)); [| |by intros].
  2: { intros h s' _. by apply wp_ret. }
  set (s2 := _ <| db_statement_clock ::= S |>) in *. unfold expire_claimed.
  destruct (conv_handoff_state c) eqn:Hst.
  - by destruct (handoff_due_state t c Hdue) as (_ & _ & ? & _).
  - apply wp_bind_keeps; [solve_respects|done|]. apply wp_bind, wp_db_now, wp_close_plans; [done|].
    intros ps Hcon3. apply wp_bind_keeps; [solve_respects|done|].
    apply wp_bind, wp_db_now, wp_cancel_outbox; [done|]. intros os Hcon4.
    apply wp_bind. eapply wp_mono; [by eapply (total_return_to_bot env s cid c t)| |done].
    intros; by apply wp_ret.
  - apply wp_bind, wp_lock_current_deferred_plan; [by apply (proj2 (proj2 Hwork) cid)|done|].
    intros pid p _ Hp _. destruct (reply_plan_checked s pid p Hcon Hp) as (Hpid & _ & _).
    apply wp_bind. eapply wp_mono; [eapply (total_return_to_bot env s cid c t); try done| |done].
    + rewrite Hpid. exact (f_equal is_not_null Hp).
    + intros; by apply wp_ret.
Qed.

(** ** Manager messages *)

Lemma conversation_check_facts c :
  conversation_checks c = true ->
  0 <= conv_context_version c /\ 0 <= conv_manager_epoch c /\ 0 <= conv_current_event_seq c /\
  handoff_quarantine_consistency c = true /\
  null_or (fun s => str_in s HANDOFF_QUARANTINE_REASONS) (conv_handoff_quarantine_reason c) = true /\
  null_or (fun s => str_in s HANDOFF_QUARANTINE_CLEAR_PATHS) (conv_handoff_quarantine_clear_path c)
    = true.
Proof. unfold conversation_checks. rewrite !andb_true_iff, !Z.leb_le. tauto. Qed.

(** Two rows of a dialog that agree but for the columns of the quarantine. *)
Lemma cleared_row moment c :
  conversation_fits c = true -> conversation_checks c = true ->
  handoff_expiry_quarantine_is_active c = true ->
  let c' := conversation_repo.clear_active_handoff_quarantine_values moment c in
  conversation_fits c' = true /\ conversation_checks c' = true.
Proof.
  intros Hf Hck Hact c'. split; [done|].
  destruct (conversation_check_facts c Hck) as (_ & _ & _ & Hq & _).
  unfold conversation_checks in *. rewrite !andb_true_iff in *.
  destruct Hck as (((((((? & ?) & ?) & ?) & ?) & _) & ?) & ?). split_and!; try done.
  unfold handoff_expiry_quarantine_is_active, handoff_quarantine_consistency in *.
  apply andb_true_iff in Hact as [E1 E2]. cbn. rewrite E1 in *.
  destruct (is_not_null (conv_handoff_quarantine_reason c)); [done|].
  done.
Qed.

Lemma total_clear_quarantine env s c moment :
  constraints_ok s -> supply_ok s -> db_conversations s !! conv_id c = Some c ->
  total (conversation_repo.clear_active_handoff_quarantine_for_manager_message c moment) env s.
Proof.
  intros Hcon Hsup Hc. destruct (conversation_checked s _ c Hcon Hc) as [Hf Hck].
  destruct (conversation_check_facts c Hck) as (H1 & H2 & _ & Hq & Hreason & _).
  apply wp_if; [intros _; by apply wp_ret|]. rewrite negb_false_iff. intros Hact.
  destruct (cleared_row moment c Hf Hck Hact) as [Hf' Hck'].
  destruct (conv_handoff_quarantine_reason c) as [reason|] eqn:Er.
  2: { exfalso. unfold handoff_expiry_quarantine_is_active, handoff_quarantine_consistency in *.
       rewrite Er in Hq. apply andb_true_iff in Hact as [Hact _]. rewrite Hact in Hq. done. }
  change (str_in reason HANDOFF_QUARANTINE_REASONS = true) in Hreason.
  apply wp_bind. apply wp_if; [intros _; apply wp_ret|congruence].
  apply wp_bind_keeps; [solve_respects|done|].
  unfold conversation_repo.append_conversation_ops_event.
  apply wp_bind, wp_assert; [intros _|congruence].
  apply wp_bind, wp_assert; [intros _|done].
  apply wp_bind, wp_uuid4, wp_bind, wp_db_now. cbv zeta.
  apply wp_bind, wp_insert_row_returns.
  - cbn. unfold conversation_ops_event_fits. cbn. unfold conversation_fits in Hf.
    rewrite !andb_true_iff in Hf. by destruct Hf as ((((-> & ->) & _) & _) & _).
  - cbn. unfold conversation_ops_event_checks. cbn [oe_reason_code oe_event_type oe_clear_path
      oe_manager_epoch oe_context_version]. rewrite Hreason.
    rewrite (proj2 (Z.leb_le _ _) H1), (proj2 (Z.leb_le _ _) H2). done.
  - cbn. unfold exists_row. by rewrite Hc.
  - dbsimpl. eapply minted_unused; [apply Hsup|done].
  - done.
  - dbsimpl. apply wp_ret. intros Hcon2.
    assert (conversation_repo.clear_active_handoff_quarantine_guard reason c = true) as Hg.
    { unfold conversation_repo.clear_active_handoff_quarantine_guard,
        handoff_expiry_quarantine_is_active in *. rewrite Hact, Er. by apply bool_decide_eq_true. }
    apply wp_bind. eapply wp_update_returns; [done|exact Hc|exact Hg|done|exact Hf'|exact Hck'| |done|].
    + by apply (active_plan_exists _ Hcon2 c).
    + apply wp_bind, wp_ret, wp_bind. eapply wp_refresh; [apply lookup_insert_eq|]. by apply wp_ret.
Qed.

(** The dialog row a new manager message leaves fits its table. *)
Lemma messaged_row seq moment pause c :
  conversation_fits c = true -> conversation_checks c = true ->
  conv_context_version c < int4_max -> conv_manager_epoch c < int4_max ->
  0 <= seq -> in_int8 seq = true ->
  let c' := conversation_repo.apply_chronologically_new_manager_message_values seq moment pause c in
  conversation_fits c' = true /\ conversation_checks c' = true.
Proof.
  intros Hf Hck Hv He Hs0 Hs c'.
  destruct (conversation_check_facts c Hck) as (H1 & H2 & H3 & Hq & Hr & Hp).
  unfold conversation_fits in Hf. rewrite !andb_true_iff in Hf.
  destruct Hf as ((((Hf1 & Hf2) & Hf3) & _) & Hf5).
  split.
  - unfold conversation_fits, c'. cbn -[in_int4 in_int8]. rewrite Hf3, Hf5, Hs.
    unfold in_int4, int4_max in *. rewrite !andb_true_iff, !Z.leb_le in *. lia.
  - unfold conversation_checks in *. rewrite !andb_true_iff in *.
    destruct Hck as (((((((? & ?) & ?) & _) & _) & ?) & ?) & ?).
    split_and!; try done; apply Z.leb_le; cbn; lia.
Qed.

(** A message the schema validated. *)
Definition manager_message_valid (event : SyntheticManagerMessageEvent) : Prop :=
  mme_channel event = "synthetic"%string /\
  (1 <= String.length (mme_text event) <= MANAGER_MESSAGE_TEXT_MAX_LENGTH)%nat /\
  match mme_provider_sequence event with Some z => 0 <= z <= int8_max | None => True end.

Lemma total_insert_quarantined env event s c reason :
  manager_message_valid event -> supply_ok s -> db_conversations s !! conv_id c = Some c ->
  total (manager_message_repo.insert_quarantined_if_absent (conv_id c) CHANNEL_SYNTHETIC
    (mme_external_message_id event) (mme_provider_sequence event)
    (mme_provider_occurred_at event) (mme_text event) reason) env s.
Proof.
  intros (_ & [Hl1 Hl2] & Hz) Hsup Hc.
  unfold total, manager_message_repo.insert_quarantined_if_absent, manager_message_repo.get_by_external.
  apply wp_bind, wp_uuid4, wp_bind, wp_db_now, wp_bind.
  set (m := MkManagerMessage _ _ _ _ _ _ _ _ _ _ _ _).
  assert (forall s' b, db_manager_messages s' !! mm_id m = Some m \/ (exists k m',
      db_manager_messages s' !! k = Some m' /\
      uq_manager_messages_channel_external_message_id m m' = true) ->
    wp (message ← select_scalar (fun m => bool_decide (mm_channel m = CHANNEL_SYNTHETIC) &&
          String.eqb (mm_external_message_id m) (mme_external_message_id event));
        message ← require_some message RuntimeError "MANAGER_MESSAGE_LOOKUP_FAILED";
        mret (message, b : bool)) (fun _ _ => True) (fun _ _ => False) env s') as Hread.
  { intros s' b Hfound. apply wp_bind, wp_select_scalar; [intros; apply wp_bind, wp_ret; by apply wp_ret|].
    intros Hno. exfalso. destruct Hfound as [Hm|(k & m' & Hm' & Hu)].
    - specialize (Hno _ _ Hm). cbn in Hno. by rewrite String.eqb_refl in Hno.
    - specialize (Hno _ _ Hm'). cbn in Hu. unfold uq_manager_messages_channel_external_message_id in Hu.
      apply andb_true_iff in Hu as [E1%bool_decide_eq_true E2%String.eqb_eq].
      by rewrite <- E1, <- E2, String.eqb_refl, bool_decide_eq_true_2 in Hno. }
  apply wp_insert_returns.
  - cbn. unfold manager_message_fits. cbn. destruct (mme_provider_sequence event); [|done]. by in_range.
  - cbn. unfold manager_message_checks. cbn [m mm_channel mm_provider_sequence mm_status
      mm_conversation_event_seq mm_body_text].
    rewrite bool_decide_eq_true_2, !andb_true_iff, !Z.leb_le by done. cbn [is_null].
    split_and!; try done; try lia. destruct (mme_provider_sequence event); [|done].
    apply Z.leb_le. lia.
  - cbn. unfold exists_row. by rewrite Hc.
  - dbsimpl. eapply minted_unused; [apply Hsup|done].
  - intros k m' Hm' Hu. apply Hread. right. by exists k, m'.
  - intros Harb. split.
    + intros k m' Hm'. cbn. rewrite (Harb k m' Hm'). unfold uq_manager_messages_conversation_event_seq.
      cbn. by rewrite andb_false_r.
    + apply Hread. left. apply lookup_insert_eq.
Qed.

(** The flush of a message row that keeps its number, or takes a new one. *)
Lemma total_flush env s m st seq reason :
  constraints_ok s -> db_manager_messages s !! mm_id m = Some m ->
  mm_conversation_event_seq m = None ->
  match st, seq with
  | APPLIED, Some q =>
      is_not_null (mm_provider_sequence m) = true /\ 0 < q /\ in_int8 q = true /\
      (forall k m' q', db_manager_messages s !! k = Some m' ->
         mm_conversation_id m' = mm_conversation_id m ->
         mm_conversation_event_seq m' = Some q' -> q' < q)
  | STALE, None => is_not_null (mm_provider_sequence m) = true
  | QUARANTINED, None => True
  | _, _ => False
  end ->
  total (manager_message_repo.flush_classification m st seq reason) env s.
Proof.
  intros Hcon Hm Hnone Hst. pose proof (constraints_table (R := ManagerMessage) s Hcon) as Ht.
  destruct (Ht _ _ Hm) as (Hf & _ & Hck & Href & _). cbn in Hf, Hck, Href.
  unfold manager_message_fits in Hf. apply andb_true_iff in Hf as [Hf _].
  unfold manager_message_checks in Hck. rewrite !andb_true_iff in Hck.
  destruct Hck as (((((H1 & H2) & _) & H4) & H5) & _).
  apply wp_bind. eapply wp_update_returns; [done|exact Hm|done|done| | |exact Href| |by apply wp_ret].
  - cbn. unfold manager_message_fits. cbn. rewrite Hf. cbn.
    destruct seq as [q|]; [|done]. destruct st; try done. apply Hst.
  - cbn -[Z.ltb]. unfold manager_message_checks. cbn -[Z.ltb Z.leb].
    rewrite H1, H2, H4, H5. destruct st, seq as [q|]; try done.
    + destruct Hst as (-> & Hq & _). by rewrite (proj2 (Z.ltb_lt 0 q) Hq).
    + by rewrite Hst.
  - intros k m' Hm'. cbn. unfold uq_manager_messages_channel_external_message_id,
      uq_manager_messages_conversation_event_seq. cbn. rewrite !orb_true_iff. intros [H|H]; [by left|].
    exfalso. apply andb_true_iff in H as [Hc H]. apply bool_decide_eq_true in Hc.
    destruct seq as [q|]; [|done]. destruct (mm_conversation_event_seq m') as [q'|] eqn:E; [|done].
    cbn in H. apply bool_decide_eq_true in H as <-. destruct st; try done.
    destruct Hst as (_ & _ & _ & Hq). specialize (Hq k m' q Hm' (eq_sym Hc) E). lia.
Qed.

Section ManagerMessage.
Context (env : Env) (pause : Z).
Hypothesis Hpause : conversation_repo.pause_seconds_in_range pause = true.

(** The dialog taken to the manager. *)
Lemma total_apply_chronologically_new s c seq moment :
  constraints_ok s -> supply_ok s -> db_conversations s !! conv_id c = Some c ->
  0 <= seq -> in_int8 seq = true ->
  conv_context_version c < int4_max -> conv_manager_epoch c < int4_max ->
  total (conversation_repo.apply_chronologically_new_manager_message c seq moment pause) env s.
Proof.
  intros Hcon Hsup Hc Hs0 Hs8 Hv He. destruct (conversation_checked s _ c Hcon Hc) as [Hf Hck].
  unfold total, conversation_repo.apply_chronologically_new_manager_message.
  apply wp_bind, wp_assert; [intros _|congruence].
  apply wp_bind_keeps; [solve_respects|done|].
  eapply wp_total; [by apply total_clear_quarantine|].
  apply wp_clear_active_handoff_quarantine with (X := fun _ _ => True);
    [by apply conversations_keyed|done| | |done].
  - intros b _ _. apply wp_bind, wp_conversation_returns; try done; [by apply messaged_row|].
    apply wp_bind. eapply wp_refresh; [apply lookup_insert_eq|]. by apply wp_ret.
  - intros b evs n Hact c' Hcon'. destruct (cleared_row moment c Hf Hck Hact) as [Hf' Hck'].
    assert (db_conversations (with_ops evs n (s <| db_conversations := <[conv_id c := c']>
      (db_conversations s) |>)) !! conv_id c' = Some c') as Hc' by apply lookup_insert_eq.
    apply wp_bind, (wp_conversation_returns _ _ Hcon' c'); try done; [by apply messaged_row|].
    apply wp_bind. eapply wp_refresh; [apply lookup_insert_eq|]. by apply wp_ret.
Qed.

(** The branch of a chronologically new message. *)
Lemma total_apply_new s c m seq :
  constraints_ok s -> supply_ok s -> uuid_ok (conv_id c) = true ->
  db_conversations s !! conv_id c = Some c -> db_manager_messages s !! mm_id m = Some m ->
  mm_conversation_id m = conv_id c -> mm_conversation_event_seq m = None ->
  mm_provider_sequence m = Some seq -> 0 <= seq -> in_int8 seq = true ->
  conv_context_version c < int4_max -> conv_manager_epoch c < int4_max ->
  conv_current_event_seq c < int8_max ->
  (forall k m' q, db_manager_messages s !! k = Some m' -> mm_conversation_id m' = conv_id c ->
     mm_conversation_event_seq m' = Some q -> q <= conv_current_event_seq c) ->
  total (apply_new_manager_message c m seq pause) env s.
Proof.
  intros Hcon Hsup Hcid Hc Hm Hmc Hnone Hseq Hs0 Hs8 Hv He Hq Hbound.
  destruct (conversation_checked s _ c Hcon Hc) as [Hf Hck].
  unfold total, apply_new_manager_message.
  apply wp_bind_keeps; [solve_respects|done|].
  apply (wp_mints (conversation_repo.allocate_next_event_seq _)); [solve_mints|done|].
  eapply wp_total; [by apply total_allocate|].
  apply wp_allocate_next_event_seq with (X := fun _ _ => True);
    [by apply conversations_keyed|done| |done]. intros c1 Hsup1 Hcon1.
  assert (conv_current_event_seq c1 = conv_current_event_seq c + 1) as Eq1 by (cbn; lia).
  destruct (conversation_check_facts c Hck) as (_ & _ & Hq0 & _).
  apply wp_bind_keeps; [solve_respects|done|].
  apply (wp_mints (manager_message_repo.mark_applied _ _)); [solve_mints|done|].
  eapply wp_total.
  { apply total_flush; [done|exact Hm|done|]. split_and!; [by rewrite Hseq|lia| |].
    - rewrite Eq1. in_range.
    - intros k m' q Hm' Hmc' Hq'. specialize (Hbound k m' q Hm'). rewrite Hmc', Hmc in Hbound.
      specialize (Hbound eq_refl Hq'). lia. }
  apply wp_flush_classification with (X := fun _ _ => True);
    [done|exact (constraints_keys_ok (R := ManagerMessage) _ Hcon1)|exact Hm|].
  intros m1 Hsup2 Hcon2. dbsimpl.
  apply wp_bind_keeps; [solve_respects|done|].
  apply (wp_mints db_statement_now); [solve_mints|done|]. apply wp_db_statement_now.
  set (moment := env_statement_timestamp _ _). intros Hsup3 Hcon3.
  apply wp_bind_keeps; [solve_respects|done|].
  eapply (wp_mints (conversation_repo.apply_chronologically_new_manager_message _ _ _ _));
    [solve_mints|done|].
  eapply wp_total; [apply total_apply_chronologically_new; try done; apply lookup_insert_eq|].
  apply wp_apply_chronologically_new_manager_message with (X := fun _ _ => True);
    [apply (conversations_keyed _ Hcon3)|apply lookup_insert_eq| |done].
  intros c2 b evs n Hc2. dbsimpl. cbv zeta.
  set (c3 := conversation_repo.apply_chronologically_new_manager_message_values _ _ _ c2).
  assert (conv_id c3 = conv_id c) as Hid by (by destruct Hc2 as [->| ->]). intros Hsup4 Hcon4.
  apply wp_bind_keeps; [solve_respects|done|].
  apply (wp_mints (reply_plan_repo.cancel_open_plans_for_takeover _ _)); [solve_mints|done|].
  apply wp_bind, wp_db_now, wp_close_plans; [done|]. intros ps Hsup5 Hcon5.
  apply wp_bind_keeps; [solve_respects|done|].
  apply (wp_mints (outbound_repo.cancel_unadmitted_for_manager_message _)); [solve_mints|done|].
  apply wp_bind, wp_db_now, wp_cancel_outbox; [done|]. intros os Hsup6 Hcon6.
  apply wp_bind, (wp_mono _ (fun _ _ => True) _ (fun _ _ => False));
    [|intros; by apply wp_ret|done].
  destruct b; [|by apply wp_ret]. cbn [when].
  apply wp_bind, wp_uuid4, wp_bind.
  eapply wp_mono; [apply total_enqueue_manager_takeover| |done]; [by rewrite Hid| | |].
  - eapply minted_unused; [apply supply_ok_drawn, Hsup6|done].
  - rewrite Hid. cbn. by rewrite lookup_insert_eq.
  - intros; by apply wp_ret.
Qed.
End ManagerMessage.

(** No dialog but the event's own has its message. *)
Definition manager_event_of_dialog (s : Database) (event : SyntheticManagerMessageEvent) : Prop :=
  forall k m c, db_manager_messages s !! k = Some m -> known_manager_message event m ->
    db_conversations s !! mm_conversation_id m = Some c ->
    conv_channel c = CHANNEL_SYNTHETIC /\
    conv_external_conversation_id c = mme_external_conversation_id event.

Lemma manager_message_dialog s k m :
  constraints_ok s -> db_manager_messages s !! k = Some m ->
  exists c, db_conversations s !! mm_conversation_id m = Some c.
Proof.
  intros Hcon Hm. pose proof (constraints_table (R := ManagerMessage) s Hcon) as Ht.
  destruct (Ht k m Hm) as (_ & _ & _ & Href & _). cbn in Href. unfold exists_row in Href.
  destruct (db_conversations s !! mm_conversation_id m); [eauto|done].
Qed.

#[export] Instance still_manager : Unwatched still ManagerMessage. Proof. done. Qed.

Lemma draws_insert_quarantined cid ch ext seq at_ body reason :
  draws 1 (manager_message_repo.insert_quarantined_if_absent cid ch ext seq at_ body reason).
Proof. apply (draws_uuid4 0). intros. apply draws_still. solve_respects. Qed.

Section ApplyTotal.
Context (env : Env) (event : SyntheticManagerMessageEvent) (pause : Z).
Hypothesis Hvalid : manager_message_valid event.
Hypothesis Hpause : conversation_repo.pause_seconds_in_range pause = true.

(** From the stored message on. *)
Lemma total_classify s c m :
  dialog_ok s -> supply_ok s -> db_conversations s !! conv_id c = Some c ->
  (db_uuid_supply s <= 2 ^ 122)%N ->
  conv_context_version c < int4_max -> conv_manager_epoch c < int4_max ->
  conv_current_event_seq c < int8_max ->
  db_manager_messages s !! mm_id m = Some m ->
  quarantined_row (conv_id c) CHANNEL_SYNTHETIC (mme_external_message_id event)
    (mme_provider_sequence event) m ->
  total (
    if bool_decide (conv_status c = CLOSED) then
      message ← manager_message_repo.flush_classification m QUARANTINED None "CONVERSATION_CLOSED";
      mret (manager_result c message false false false 0 0)
    else
      match classify_manager_sequence (conv_manager_sequence_hwm c)
              (mme_provider_sequence event) with
      | CLASS_QUARANTINED =>
          message ← manager_message_repo.flush_classification m QUARANTINED None
            "MISSING_PROVIDER_SEQUENCE";
          mret (manager_result c message false false false 0 0)
      | CLASS_STALE =>
          message ← manager_message_repo.mark_stale m;
          mret (manager_result c message false false false 0 0)
      | CLASS_CHRONOLOGICALLY_NEW =>
          provider_sequence ← require_some (mme_provider_sequence event) RuntimeError
            "MANAGER_SEQUENCE_CLASSIFICATION_BROKEN";
          apply_new_manager_message c m provider_sequence pause
      end) env s.
Proof.
  intros (Hcon & _ & Hseqs) Hsup Hc Huuid Hv He Hq Hm (Hmc & _ & _ & Hms & _ & Hnone).
  assert (forall st reason, st <> APPLIED ->
    (st = STALE -> is_not_null (mme_provider_sequence event) = true) ->
    total (message ← manager_message_repo.flush_classification m st None reason;
           mret (manager_result c message false false false 0 0)) env s) as Hunapplied.
  { intros st reason Hst Hsome. apply wp_bind.
    eapply wp_mono; [apply total_flush; try done| |done]; [|intros; by apply wp_ret].
    destruct st; [done| |done]. rewrite Hms. by apply Hsome. }
  apply wp_if; intros _; [by apply Hunapplied|].
  destruct Hvalid as (_ & _ & Hz). unfold classify_manager_sequence.
  destruct (mme_provider_sequence event) as [q|]; [|by apply Hunapplied].
  assert (total (provider_sequence ← require_some (Some q) RuntimeError
      "MANAGER_SEQUENCE_CLASSIFICATION_BROKEN";
    apply_new_manager_message c m provider_sequence pause) env s) as Hnew.
  { apply wp_bind, wp_ret. apply total_apply_new; try done.
    - destruct Hsup as (Hcs & _). by eapply minted_uuid_ok; [eapply Hcs|].
    - lia.
    - in_range.
    - intros k m' q' Hm' Hmc' Hq'. destruct Hseqs as (_ & H & _).
      apply (H k m' c); [done|by rewrite Hmc'|done]. }
  destruct (conv_manager_sequence_hwm c) as [hwm|]; [destruct (hwm <? q)|]; [done| |done].
  by apply Hunapplied.
Qed.

Lemma total_manager_message s :
  dialog_ok s -> supply_ok s -> room s -> manager_event_of_dialog s event ->
  total (SyntheticManagerMessageService.apply event pause) env s.
Proof.
  intros Hok Hsup [Hroom Huuid] Hown. pose proof Hok as (Hcon & _). apply total_session_scope.
  unfold total. apply wp_bind, wp_assert; [intros _|congruence].
  unfold apply_manager_message_in_session. destruct Hvalid as (Hch & _).
  apply wp_bind, wp_assert; [intros _|by rewrite Hch, String.eqb_refl].
  unfold locked_manager_dialog. apply wp_bind, wp_bind.
  apply (wp_mints (conversation_repo.get_or_create _ _)); [solve_mints|done|].
  apply (wp_draws 1); [apply draws_get_or_create|].
  eapply wp_total; [by apply total_get_or_create|].
  apply wp_get_or_create_opened with (X := fun _ _ => True); [done| |done].
  intros c b s1 Hop Hok1 Hcc Hext Hn Hsup1. pose proof Hok1 as (Hcon1 & _).
  pose proof (opened_lookup _ _ _ Hop) as Hc.
  apply wp_lock_for_update; [|by rewrite Hc]. intros c0 Hc0. assert (c0 = c) as -> by congruence.
  apply wp_bind_keeps; [solve_respects|done|].
  apply (wp_mints (manager_message_repo.insert_quarantined_if_absent _ _ _ _ _ _ _)); [solve_mints|done|].
  apply (wp_draws 1); [apply draws_insert_quarantined|].
  eapply wp_total; [by apply total_insert_quarantined|].
  apply wp_insert_quarantined_if_absent with (X := fun _ _ => True); [done| |].
  - intros k m n Hm Hmch Hmext _ _ _. apply wp_bind, wp_assert; [intros _; by apply wp_ret|].
    rewrite bool_decide_eq_false. intros []. rewrite (opened_same_messages _ _ _ Hop) in Hm.
    destruct (manager_message_dialog s k m Hcon Hm) as [d Hd].
    destruct (Hown k m d Hm (conj Hmch Hmext) Hd) as [E1 E2].
    eapply opened_key; [exact Hop|done|done|exact Hd|congruence..].
  - intros m n Hrow Hnew _ Hn2 Hsup2 Hcon2. pose proof Hrow as (Hmc & _).
    apply wp_bind, wp_assert; [intros _|by rewrite bool_decide_eq_true_2].
    cbn [negb].
    assert (conv_context_version c < int4_max /\ conv_manager_epoch c < int4_max /\
      conv_current_event_seq c < int8_max) as (Hv & He & Hq).
    { destruct (opened_prior _ _ _ Hop) as [Hp|(_ & _ & Hf)]; [by apply (Hroom _ _ Hp)|].
      destruct Hf as [t ->]. done. }
    eapply total_classify; try done; [| |apply lookup_insert_eq].
    + split; [done|]. destruct Hok1 as (_ & ? & ?). split; [done|].
      apply event_seqs_ok_unnumbered; [apply Hrow|done].
    + lia.
Qed.
End ApplyTotal.

(** What the request itself must bring. *)
Definition manager_message_ready (s : Database) (pause : Z)
    (event : SyntheticManagerMessageEvent) : Prop :=
  conversation_repo.pause_seconds_in_range pause = true /\
  manager_message_valid event /\ manager_event_of_dialog s event /\ room s.

(** ** Deliveries *)

Lemma outbox_conversation_exists s k o :
  constraints_ok s -> db_outbox_messages s !! k = Some o ->
  is_not_null (db_conversations s !! ob_conversation_id o) = true.
Proof.
  intros Hcon Ho. destruct (outbox_checked s k o Hcon Ho) as (_ & _ & c & Hc). by rewrite Hc.
Qed.

Lemma delivered_harmless moment o :
  outbox_fits o = true -> outbox_checks o = true ->
  ob_delivery_status o = OB_ADMITTED -> harmless o (outbound_repo.mark_delivered_values None moment o).
Proof.
  intros Hf Hck Hst. harmless; [done|]. cbn in *. unfold outbox_checks in *. cbn.
  rewrite !andb_true_iff in *.
  destruct Hck as ((((((((((? & ?) & ?) & ?) & ?) & Hadm) & Had) & _) & _) & _) & ?).
  rewrite Hst in *. apply andb_true_iff in Had as [-> Hna]. split_and!; try done.
  destruct (ob_admitted_at o); [|done]. by rewrite orb_true_r.
Qed.

(** What the dialog invariant says of an admitted row. *)
Lemma admitted_fences s k o token version :
  dialog_ok s -> db_outbox_messages s !! k = Some o ->
  outbound_repo.holds_admitted_lease token version o = true ->
  0 <= ob_manager_epoch o /\ 0 <= ob_event_seq_hwm o /\
  exists v, ob_context_version o = Some v /\ 0 <= v /\ in_int4 v = true.
Proof.
  intros Hok Ho Hl. pose proof Hok as (Hcon & (_ & Hos & _) & _).
  destruct (outbox_row s k o Hcon Ho) as [Hf Hck].
  pose proof Hl as (Hlease & Hna)%andb_true_iff. pose proof Hlease as (Hst & _)%outbox_lease_true.
  destruct (outbox_checked s k o Hcon Ho) as (_ & _ & c & Hc).
  unfold outbox_checks in Hck. rewrite !andb_true_iff, !Z.leb_le in Hck.
  destruct Hck as ((((((((((_ & _) & _) & He) & Hq) & _) & Had) & _) & _) & _) & _).
  rewrite Hst in Had. apply andb_true_iff in Had as [Hcd _].
  destruct (proj1 (Hos k o c Ho Hc) Hcd) as [(pid & p & _ & Hp & _ & _ & Hv & _) _].
  destruct (plan_row_facts s pid p Hcon Hp) as (Hfp & Hckp & _).
  unfold reply_plan_fits, reply_plan_checks in *. rewrite !andb_true_iff, !Z.leb_le in *.
  split_and!; [done..|]. exists (rp_context_version p). tauto.
Qed.

Section Delivery.
Context (env : Env) (s : Database) (claim : outbound_repo.OutboundClaim) (o : OutboxMessage).
Hypothesis Hok : dialog_ok s.
Hypothesis Hc : is_not_null (db_conversations s !! outbound_repo.obc_conversation_id claim) = true.
Hypothesis Ho : db_outbox_messages s !! outbound_repo.obc_outbound_id claim = Some o.
Hypothesis Hl : outbound_repo.holds_admitted_lease (outbound_repo.obc_lease_token claim)
  (outbound_repo.obc_lease_version claim) o = true.

(** The row is written before the offer is bound. *)
Lemma wp_record_delivered_row now X (Q : OutboxMessage * uuid -> Database -> Prop) :
  (forall o', same_outbound o o' -> ob_delivery_status o' = OB_DELIVERED ->
     let s' := s <| db_outbox_messages :=
       <[outbound_repo.obc_outbound_id claim := o']> (db_outbox_messages s) |> in
     constraints_ok s' -> wp (bind_offer_and_mirror o') Q X env s') ->
  wp (record_delivered claim None now) Q X env s.
Proof.
  intros HQ. pose proof Hok as [Hcon _]. destruct (outbox_row s _ o Hcon Ho) as [Hf Hck].
  pose proof Hl as (Hlease & Hna)%andb_true_iff. pose proof Hlease as (Hst & _)%outbox_lease_true.
  unfold record_delivered. apply wp_bind, wp_lock_for_update.
  2: { intros E. by rewrite E in Hc. }
  intros c _. apply wp_bind_keeps; [solve_respects|done|].
  apply wp_bind, wp_resolve_moment, wp_bind, wp_assert; [intros _|done].
  eapply wp_total_returning; [done|exact Ho|exact Hl|by apply delivered_harmless|].
  intros Hcon'. by apply HQ.
Qed.

(** A row that offers no slots. *)
Lemma total_record_delivered now :
  supply_ok s -> (db_uuid_supply s <= 2 ^ 122)%N ->
  jget (ob_payload_json o) "booking_action" <> Some (JStr "OFFER_SLOTS") ->
  total (record_delivered claim None now) env s.
Proof.
  intros Hsup Huuid Hoffer. pose proof Hok as [Hcon _].
  destruct (admitted_fences s _ o _ _ Hok Ho Hl) as (He & Hq & v & Hv & Hv0 & Hv4).
  pose proof (outbox_conversation_exists s _ o Hcon Ho) as Hco.
  destruct (outbox_checked s _ o Hcon Ho) as (Hid & _).
  apply wp_record_delivered_row. intros o' Hsame Hst s' Hcon'.
  destruct Hsame as (Ei & Ec & _ & _ & Ev & Ee & Eq & _ & Ep & _).
  assert (supply_ok s') as Hsup'.
  { destruct Hsup as (?&?&?&?&?&Hos&?&?&?&?&?&?&?). split_and!; try done.
    intros k r. cbn. rewrite lookup_insert_Some. intros [[<- _]|[_ Hr]]; by eapply Hos. }
  unfold bind_offer_and_mirror. apply wp_bind.
  unfold SelfBookingActiveOfferService.activate_from_delivered_outbound.
  rewrite Hst, bool_decide_eq_true_2 by done. cbn [negb].
  rewrite Ev, Ee, Eq, Ep, Hv. unfold SelfBookingActiveOfferService.require_nonneg_int.
  rewrite !(proj2 (Z.leb_le _ _)) by done. rewrite bool_decide_eq_false_2 by done. apply wp_ret.
  apply wp_bind, wp_when; [intros _; apply wp_ret|done].
  assert (forall corr s2, supply_ok s2 -> db_conversations s2 = db_conversations s' ->
    wp (_ ← amocrm_mirror.enqueue_outbound_delivered (ob_conversation_id o') (ob_id o')
          (Some v) corr; mret (o', corr)) (fun _ _ => True) (fun _ _ => False) env s2) as Hmirror.
  { intros corr s2 Hsup2 Ecs. apply wp_bind.
    destruct (safe_payload_returns OUTBOUND_DELIVERED_META SUBJECT_OUTBOX_MESSAGE (ob_id o')
      (ob_conversation_id o') (Some v) (Some (enum_value OB_DELIVERED)) env s2)
      as (payload & Hpay & Hsafe).
    unfold amocrm_mirror.enqueue_outbound_delivered. apply wp_bind. unfold wp at 1. rewrite Hpay.
    eapply wp_mono; [apply total_enqueue_if_absent; try done|intros; by apply wp_ret|done].
    - eapply minted_unused; [apply Hsup2|done].
    - unfold outbound_delivered_mirror_key. rewrite string_length_app, length_uuid_str.
      { unfold mirror_repo.MIRROR_KEY_MAX_LENGTH. cbn. lia. }
      rewrite Ei, Hid. destruct Hsup as (_ & _ & _ & _ & _ & Hos & _).
      by eapply minted_uuid_ok; [eapply Hos|].
    - by rewrite Ec, Ecs. }
  destruct (ob_correlation_id o') as [corr|]; [apply wp_bind, wp_ret; by apply Hmirror|].
  apply wp_bind, wp_uuid4. apply Hmirror; [by apply supply_ok_drawn|done].
Qed.

(** A row that offers slots no active offer can be made of. *)
Lemma delivery_undone now :
  jget (ob_payload_json o) "booking_action" = Some (JStr "OFFER_SLOTS") ->
  require_active_offer_slots (jget (ob_payload_json o) "booking_offered_slots") = None ->
  session_scope (record_delivered claim None now) env s =
    (Raised (Exn OutboundArbiterDenied "ACTIVE_OFFER_OFFER_SLOTS_INVALID"), s).
Proof.
  intros Hoffer Hslots.
  destruct (admitted_fences s _ o _ _ Hok Ho Hl) as (He & Hq & v & Hv & Hv0 & _).
  enough (wp (record_delivered claim None now) (fun _ _ => False)
    (fun e _ => e = Exn OutboundArbiterDenied "ACTIVE_OFFER_OFFER_SLOTS_INVALID") env s) as H.
  { unfold wp, session_scope in *. destruct (record_delivered claim None now env s) as [[]]; [done|].
    by subst. }
  apply wp_record_delivered_row. intros o' Hsame Hst s' _.
  destruct Hsame as (_ & _ & _ & _ & Ev & Ee & Eq & _ & Ep & _).
  unfold bind_offer_and_mirror. apply wp_bind.
  unfold SelfBookingActiveOfferService.activate_from_delivered_outbound.
  rewrite Hst, bool_decide_eq_true_2 by done. cbn [negb].
  rewrite Ev, Ee, Eq, Ep, Hv. unfold SelfBookingActiveOfferService.require_nonneg_int.
  rewrite !(proj2 (Z.leb_le _ _)) by done. rewrite bool_decide_eq_true_2 by done. cbn [negb].
  rewrite Hslots. apply wp_ret, wp_bind, wp_when; [intros _|done].
  by apply wp_assert.
Qed.
End Delivery.
