(* ===== verification/ReturnsIngress.v ===== *)
(** * Transactions that return: the ingress queue

    A valid delivery is stored, a due event is claimed, and the transaction that
    applies a VK message under the event's lease returns: nothing the database
    or the code checks refuses them while integer columns have room. *)

From S2P Require Import Prelude BookingText Models Database Statements Conversations ReplyPlans.
From S2P Require Import Outbound SelfBooking Messages Mirror ReplyText Projections Inbound.
From S2P Require Import ManagerMessages HandoffExpiry ReplyDispatch VkGate Arbiter Dialog Frames.
From S2P Require Import ManagerProofs InboundProofs Progress System Fresh Returns ReturnsPlans.
From S2P Require Import ReturnsWorkers VkClient VkObserver Bindings IngressQueue Ingress.
From S2P Require Import IngressWorker History IngressProofs AdapterProofs VkProofs.
Import ingress_repo.

(** ** Receipt *)

Section Receipt.
Context (channel : IngressChannel) (ext conv : string) (type : IngressEventType).
Context (envelope : jdict) (max_attempts : Z) (env : Env).
Hypothesis Hmax : 0 < max_attempts <= int4_max.
Hypothesis Hpair : channel_event_pairing channel type = true.

Lemma total_insert_if_absent correlation_id s :
  supply_ok s ->
  total (insert_if_absent channel ext conv type envelope correlation_id max_attempts) env s.
Proof.
  intros Hsup. unfold total, insert_if_absent.
  apply wp_bind, wp_assert; [intros _|rewrite negb_false_iff, Z.leb_le; lia].
  apply wp_bind, wp_assert; [intros _|congruence].
  apply wp_bind, wp_find_event; [intros; by apply wp_ret|]. intros Hno.
  apply wp_bind, wp_uuid4, wp_bind, wp_db_now, wp_bind. apply wp_insert_returns.
  - cbn. unfold ingress_fits, in_int4, int4_max in *. cbn.
    rewrite !andb_true_iff, !Z.leb_le. lia.
  - cbn. unfold ingress_checks. cbn. rewrite (proj2 (Z.ltb_lt _ _)) by lia. cbn.
    by destruct channel, type.
  - done.
  - dbsimpl. eapply minted_unused; [apply Hsup|done].
  - intros k e He. cbn. unfold uq_ingress_channel_external_event_id. cbn.
    rewrite andb_true_iff, bool_decide_eq_true, String.eqb_eq. intros [E1 E2].
    by destruct (Hno k e He).
  - intros Harb. split; [intros k e He; by apply (Harb k)|].
    apply wp_bind, wp_find_event; [intros; apply wp_bind, wp_ret; by apply wp_ret|].
    intros Hn. by destruct (Hn _ _ (lookup_insert_eq _ _ _)).
Qed.

(** A delivery the adapter has not seen another event of. *)
Lemma total_receive matches conflict passes (given : option uuid) s :
  constraints_ok s -> supply_ok s ->
  (forall k e, db_ingress_events s !! k = Some e -> event_key channel ext e -> matches e = true) ->
  total (
    _ ← assert_or_raise (negb (max_attempts <=? 0)) ValueError "max_attempts must be positive";
    correlation_id ← correlation_id_or_new given;
    persist_failure passes (session_scope (
      '(row, created) ←
        insert_if_absent channel ext conv type envelope correlation_id max_attempts;
      _ ← assert_or_raise (created || matches row) conflict "INGRESS_IDEMPOTENCY_CONFLICT";
      mret (ack_of row created)))) env s.
Proof.
  intros Hcon Hsup Hm. unfold total.
  apply wp_bind, wp_assert; [intros _|rewrite negb_false_iff, Z.leb_le; lia].
  apply wp_bind_keeps; [destruct given; solve_respects|done|].
  apply wp_mints; [destruct given; solve_mints|done|].
  apply wp_correlation_id. intros corr n _ Hsup1 Hcon1.
  apply wp_try, wp_session_scope, wp_bind. eapply wp_mono; [eapply wp_total;
    [by apply total_insert_if_absent|]| |done].
  - eapply (wp_insert_if_absent _ _ _ _ _ _ _ (fun _ _ => True)); [done| | |done].
    + intros row s' H. by instantiate (1 := fun '(row, created) _ => created || matches row = true).
    + intros row (Hrow & Hkey & _). by apply (Hm (ing_id row)).
  - intros [row created] s' Hok. apply wp_bind, wp_assert; [intros _|congruence]. by apply wp_ret.
Qed.
End Receipt.

(** ** The claim *)

Definition ingress_room (s : Database) : Prop :=
  forall k e, db_ingress_events s !! k = Some e -> ing_lease_version e < int4_max.

Lemma ingress_row s k e :
  constraints_ok s -> db_ingress_events s !! k = Some e ->
  ingress_fits e = true /\ ingress_checks e = true.
Proof.
  intros Hcon He. pose proof (constraints_table (R := IngressEvent) s Hcon) as Ht.
  by destruct (Ht k e He) as (? & _ & ? & _).
Qed.

Lemma ingress_claim_harmless moment worker token until e :
  ingress_fits e = true -> ingress_checks e = true ->
  claimable moment e = true -> ing_lease_version e < int4_max ->
  harmless e (claim_values moment worker token until e).
Proof.
  intros Hf Hck [Ha _]%ingress_claimable_facts Hv.
  unfold ingress_fits, ingress_checks, in_int4 in *. rewrite !andb_true_iff, !Z.leb_le, Z.ltb_lt in *.
  harmless; cbn; unfold ingress_fits, ingress_checks, in_int4;
    cbn -[Z.leb Z.ltb Z.succ]; rewrite !andb_true_iff, ?Z.leb_le, ?Z.ltb_lt;
    destruct Hck as (((? & ?) & ?) & ?); split_and!; try done; lia.
Qed.

Lemma total_ingress_claim worker lease now env s :
  constraints_ok s -> ingress_room s -> 0 < lease ->
  total (claim_next worker lease now) env s.
Proof.
  intros Hcon Hroom Hlease. unfold total, claim_next.
  apply wp_bind, wp_assert; [intros _|intros H%negb_false_iff%Z.leb_le; lia].
  apply wp_bind, wp_resolve_moment. set (moment := default _ _).
  apply wp_bind_keeps; [solve_respects|done|]. unfold recover_exhausted_leases.
  apply wp_bind, wp_resolve_moment. cbn [from_option id].
  apply wp_harmless_update; [done| |].
  { intros k e He _. destruct (ingress_row _ _ _ Hcon He). harmless; done. }
  dbsimpl. fold (buried_events moment (db_ingress_events s)). intros Hcon1. cbv zeta.
  apply wp_bind_keeps; [solve_respects|done|]. apply wp_uuid4. intros Hcon2.
  apply wp_bind, wp_get_env, wp_bind, wp_select_where. dbsimpl.
  destruct (pick_min claim_order _) as [e|] eqn:Hpick; [|by apply wp_ret].
  apply pick_min_elem, list_elem_of_filter in Hpick as [Hcl [k He]%rows_elem].
  apply andb_true_iff in Hcl as [Hcl _].
  assert (ing_lease_version e < int4_max) as Hv
    by (apply (Hroom k), (buried_events_lookup moment); done).
  destruct (ingress_row _ _ _ Hcon1 He) as [Hf Hck].
  pose proof (constraints_keys_ok (R := IngressEvent) _ Hcon1 _ _ He) as Hid. cbn in Hid. subst k.
  apply wp_bind. eapply wp_harmless_update_by_id;
    [exact Hcon2|exact He|done|by apply ingress_claim_harmless|].
  apply wp_bind, wp_get_by_id. dbsimpl. rewrite lookup_insert_eq. by apply wp_bind, wp_ret, wp_bind.
Qed.

(** ** The end of an event *)

Lemma total_complete_claim claim e env s :
  constraints_ok s -> event_held claim s e -> total (complete_claim claim) env s.
Proof.
  intros Hcon [He Hl]. destruct (ingress_row _ _ _ Hcon He) as [Hf Hck].
  unfold total, complete_claim, complete_with_lease. apply wp_bind, wp_resolve_moment.
  apply wp_bind, wp_assert; [intros _|done]. apply wp_bind.
  eapply wp_harmless_update_by_id; [exact Hcon|exact He|exact Hl|harmless; done|].
  apply wp_bind, wp_ret, wp_bind, wp_get_by_id. dbsimpl. rewrite lookup_insert_eq. by apply wp_ret.
Qed.

(** ** A VK message *)

(** No dialog but the event's own has its message. *)
Definition vk_event_of_dialog (s : Database) (event : VkClientInboundEvent) : Prop :=
  forall k m c, db_inbox_messages s !! k = Some m -> known_vk_inbox event m ->
    db_conversations s !! inbox_conversation_id m = Some c ->
    conv_channel c = CHANNEL_VK /\
    conv_external_conversation_id c = vie_external_conversation_id event.

Section VkMessage.
Context (event : VkClientInboundEvent) (env : Env).

(** The event is stored and the dialog advanced. *)
Lemma total_observer_accept s :
  dialog_ok s -> supply_ok s -> room s -> vie_channel event = "vk"%string ->
  vk_event_of_dialog s event -> total (VkClientInboundService.accept event) env s.
Proof.
  intros Hok Hsup [Hroom _] Hch Hown. pose proof Hok as (Hcon & _).
  unfold total, VkClientInboundService.accept.
  apply wp_bind, wp_assert; [intros _|by rewrite Hch, String.eqb_refl].
  apply wp_bind, wp_get_env. cbv zeta. set (at_ := default _ _).
  apply wp_bind. apply wp_kept; [solve_respects|solve_mints|done..|].
  eapply wp_total; [by apply total_get_or_create|].
  apply wp_get_or_create_opened with (X := fun _ _ => True); [done| |done].
  intros c b s1 Hop Hok1 Hcc Hext Hcon1 Hsup1. pose proof (opened_lookup _ _ _ Hop) as Hc.
  apply wp_bind, wp_lock_for_update; [|by rewrite Hc]. intros c0 Hc0.
  assert (c0 = c) as -> by congruence.
  assert (conv_context_version c < int4_max /\ conv_current_event_seq c < int8_max) as [Hv Hq].
  { destruct (opened_prior _ _ _ Hop) as [Hp|(_ & _ & Hf)].
    - destruct (Hroom _ _ Hp) as (? & _ & ?). done.
    - destruct Hf as [t ->]. done. }
  apply wp_bind. apply wp_kept; [solve_respects|solve_mints|done..|].
  eapply wp_total; [by apply total_take_message|].
  apply wp_bind, wp_get_inbox_by_external.
  - intros k m Hm Hmch Hmext. apply wp_ret. intros _ _. apply wp_bind, wp_assert.
    2: { rewrite bool_decide_eq_false. intros []. rewrite (opened_same_inbox _ _ _ Hop) in Hm.
         destruct (inbox_dialog s k m Hcon Hm) as [d Hd].
         destruct (Hown k m d Hm (conj Hmch Hmext) Hd) as [E1 E2].
         eapply opened_key; [exact Hop|done|apply Hok1|exact Hd|congruence..]. }
    intros _. apply wp_bind, wp_ret. by apply wp_ret.
  - intros Hno. apply wp_bind, wp_allocate_next_event_seq with (X := fun _ _ => True);
      [by apply conversations_keyed|done| |done].
    set (c1 := conversation_repo.allocate_next_event_seq_values (env_now env) c).
    apply wp_bind, (wp_insert_inbox_new (fun _ _ => True)); [done|exact Hno|].
    intros m n Hmc _ _ _ _ _. apply wp_ret. dbsimpl. intros Hcon2 Hsup2.
    apply wp_bind, wp_assert; [intros _|rewrite bool_decide_eq_false; done].
    destruct (conversation_checked _ _ c1 Hcon2 (lookup_insert_eq _ _ _)) as [Hf Hck].
    apply wp_bind, wp_bind, wp_db_now, wp_bind, (wp_conversation_returns _ _ Hcon2 c1); try done.
    + apply lookup_insert_eq.
    + by apply bumped_row.
    + apply (active_plan_exists _ Hcon2 c1), lookup_insert_eq.
    + apply wp_bind, wp_ret. eapply wp_refresh; [apply lookup_insert_eq|]. by apply wp_ret.
Qed.
End VkMessage.

Section VkWork.
Context (settings : Settings) (config : option VkClientOutboundConfig) (env : Env).

(** A gated proof plan is written whenever the dialog's version is free. *)
Lemma total_proof_plan c text created s :
  constraints_ok s -> supply_ok s -> db_conversations s !! conv_id c = Some c ->
  (created = true -> version_free s c) ->
  total (maybe_create_vk_client_proof_reply_plan settings config c text created) env s.
Proof.
  intros Hcon Hsup Hc Hfree. unfold total, maybe_create_vk_client_proof_reply_plan.
  apply wp_if; [intros _; by apply wp_ret|]. rewrite negb_false_iff. intros Hcr.
  specialize (Hfree Hcr). destruct config as [cfg|]; [|by apply wp_ret].
  apply wp_if; [intros _; by apply wp_ret|]. intros _.
  apply wp_if; [intros _; by apply wp_ret|]. rewrite negb_false_iff. intros Hgate.
  apply wp_bind, wp_require_some; [intros reply _|intros E].
  2: { exfalso. revert Hgate. unfold vk_client_outbound_proof_allowed, proof_config_complete.
       rewrite E. cbn [truthy]. rewrite andb_false_r.
       by destruct (vk_client_outbound_send_allowed _ _ _), (vkc_proof_enabled cfg). }
  apply wp_bind_keeps; [solve_respects|done|].
  apply (wp_mints (reply_plan_repo.supersede_open_plans _ _)); [solve_mints|done|].
  apply wp_bind, wp_db_now, wp_harmless_update; [done| |].
  { intros k p Hp _. destruct (constraints_table _ Hcon _ _ Hp) as (Hfp & _ & Hckp & _).
    by apply close_harmless. }
  dbsimpl. set (ps := sql_update _ _ (db_reply_plans s)). intros Hsup1 Hcon1.
  apply wp_bind_keeps; [solve_respects|done|].
  apply (wp_mints (outbound_repo.cancel_unadmitted_for_conversation _)); [solve_mints|done|].
  apply wp_bind, wp_db_now, wp_cancel_outbox; [done|]. intros os Hsup2 Hcon2.
  eapply wp_mono; [apply wp_plan_and_point; try done|done|done].
  intros k p. dbsimpl. intros (p0 & Hp0 & ->)%lookup_sql_update_Some Hpc.
  specialize (Hfree k p0 Hp0). destruct (reply_plan_repo.open_plan_of _ p0); auto.
Qed.

(** After a new message no plan of the dialog has its context version. *)
Lemma observed_version_free event s a s1 :
  dialog_ok s -> observer_post env event s a s1 -> var_created_inbox a = true ->
  version_free s1 (var_conversation a).
Proof.
  intros [Hcon [[Hps _] _]] (c & s0 & Hop & _ & _ & _ & _ & Hcr & H) Ht.
  rewrite Ht in Hcr. destruct (var_duplicate a); [done|]. destruct H as (_ & -> & _ & n & ->).
  intros k p. cbn. intros Hp Hpc.
  assert (db_conversations s !! conv_id c = Some c /\ db_reply_plans s !! k = Some p) as [Hc Hp'].
  { destruct Hop as [[-> Hc]|(? & Hno & _ & ->)]; [done|]. exfalso. cbn in Hp.
    pose proof (constraints_table (R := ReplyPlan) s Hcon k p Hp) as (_ & _ & _ & Href & _).
    cbn in Href. unfold exists_row in Href. rewrite Hpc in Href. by rewrite Hno in Href. }
  destruct (Hps k p c Hp') as ((Hv & _) & _); [by rewrite Hpc|]. cbn. lia.
Qed.

(** A held event with a VK message is applied and completed. *)
Lemma total_vk_client claim e inbound s :
  dialog_ok s -> supply_ok s -> room s -> vie_channel inbound = "vk"%string ->
  vk_event_of_dialog s inbound -> event_held claim s e ->
  total (vk_client_in_session settings config claim inbound) env s.
Proof.
  intros Hok Hsup Hroom Hch Hown [He Hl]. pose proof Hok as (Hcon & _).
  unfold total, vk_client_in_session. apply wp_bind.
  apply wp_kept; [solve_respects|solve_mints|done..|].
  apply (wp_and_respects same_ingress); [solve_respects|].
  apply (wp_and_respects keeps); [solve_respects|].
  eapply wp_mono; [eapply wp_total; [by apply total_observer_accept|by apply wp_observer_accept]| |done].
  intros a s1 Hobs [_ Hk1] Hi1 Hcon1 Hsup1. destruct (Hobs Hcon1) as [Hok1 Hpost].
  apply wp_bind. apply wp_kept; [solve_respects|solve_mints|done..|].
  apply (wp_and_respects same_ingress); [solve_respects|].
  eapply wp_mono; [apply total_proof_plan; [done..|by eapply observer_lookup|]| |done].
  { intros Ht. eapply observed_version_free; [exact Hok|exact Hpost|exact Ht]. }
  intros plan s2 _ Hi2 Hcon2 _. apply wp_bind.
  eapply wp_mono; [apply (total_complete_claim claim e); [done|]|intros; by apply wp_ret|done].
  split; [|done]. unfold same_ingress in *. by rewrite Hi2, Hi1.
Qed.
End VkWork.
