(* ===== verification/WorkerProofs.v ===== *)
(** * Workers between their transactions

    The theorems about OutboundArbiter.admit_claimed and
    ReplyPlanWorker.dispatch_claimed as sequences of transactions and calls to
    the outside, under any interference that itself consists of transactions of
    the system: the transport is called at most once per claim and only for a
    row that is durably admitted, with the text stored in the row. *)

From S2P Require Import Prelude BookingText Models Database Statements Conversations ReplyPlans.
From S2P Require Import Outbound SelfBooking Messages Mirror ReplyText BookingFields Projections.
From S2P Require Import Inbound ManagerMessages HandoffExpiry ReplyDispatch VkGate Arbiter Dialog.
From S2P Require Import Moves Frames DispatchProofs ClaimProofs ArbiterProofs History System.
Import outbound_repo.

(** ** Quiet parts of a process *)

(** What other workers do between the transactions keeps the constraints and
    the history of rows. *)
Class Orderly (other : Interference) : Prop :=
  orderly : forall n s, traces s (@interfere other n s).

#[export] Instance alone_orderly : Orderly alone.
Proof. intros n s. reflexivity. Qed.

(** The database moved on; nobody outside was called. *)
Definition quiet (w w' : World) : Prop :=
  w_calls w' = w_calls w /\ traces (w_db w) (w_db w').

#[export] Instance quiet_preorder : PreOrder quiet.
Proof.
  split; [by intros w|]. intros a b c [H1 H2] [H3 H4]. split; [congruence|by etrans].
Qed.

Section Process.
Context `{other : Interference, Ho : !Orderly other}.

Lemma quiet_transaction {A} (body : Session A) :
  respects traces body -> respects quiet (transaction body).
Proof.
  intros Hb envs w. unfold transaction.
  pose proof (respects_session_scope traces body Hb (envs (w_transactions w))
    (interfere (w_transactions w) (w_db w))) as Hs.
  destruct (session_scope _ _ _) as [r s']. cbn in *. split; [done|].
  etrans; [apply (orderly (w_transactions w))|done].
Qed.

(** A transaction with a specification, run at some point of the process. *)
Lemma wp_transaction {A} (body : Session A) (Q : A -> World -> Prop) (X : exn -> World -> Prop)
    envs w :
  respects traces body -> constraints_ok (w_db w) ->
  (forall s, traces (w_db w) s -> constraints_ok s ->
     wp (session_scope body) (fun a s' => forall w', quiet w w' -> w_db w' = s' -> Q a w')
       (fun e s' => forall w', quiet w w' -> X e w') (envs (w_transactions w)) s) ->
  wp (transaction body) Q X envs w.
Proof.
  intros Hb Hcon H. pose proof (orderly (w_transactions w) (w_db w)) as Htr.
  assert (constraints_ok (interfere (w_transactions w) (w_db w))) as Hcon' by (by apply Htr).
  specialize (H _ Htr Hcon'). pose proof (quiet_transaction body Hb envs w) as Hq.
  unfold wp, transaction in *. destruct (session_scope _ _ _) as [[a|e] s']; cbn in *; eauto.
Qed.
End Process.

(** ** The arbiter *)

(** The row is durably admitted and the request was read from it. *)
Definition durable (claim : OutboundClaim) (r : SyntheticOutboundRequest) (s : Database) : Prop :=
  exists o, db_outbox_messages s !! obc_outbound_id claim = Some o /\
    ob_admitted_at o <> None /\ request_of o r.

Lemma durable_history claim r s s' : durable claim r s -> history s s' -> durable claim r s'.
Proof.
  intros (o & Ho & Ha & Hr) (_ & _ & Hos & _). destruct (Hos _ _ Ho) as (o' & Ho' & Hsame & _ & _ & _ & Hadm).
  exists o'. split; [done|]. split.
  - destruct Hadm as [-> |[? _]]; done.
  - destruct Hsame as (E1 & E2 & _ & _ & _ & _ & _ & _ & E3 & _).
    unfold request_of in *. by rewrite E1, E2, E3.
Qed.

Lemma quiet_durable claim r w w' :
  constraints_ok (w_db w) -> quiet w w' -> durable claim r (w_db w) -> durable claim r (w_db w').
Proof. intros Hcon [_ [_ Hh]] Hd. eapply durable_history; [done|auto]. Qed.

Lemma quiet_constraints w w' : quiet w w' -> constraints_ok (w_db w) -> constraints_ok (w_db w').
Proof. intros [_ [[_ H] _]]. done. Qed.

(** The peer is the one the claimed row's conversation names, and the
    configuration lets the process write to it. *)
Definition vk_gate_ok (settings : Settings) (vk_config : option VkClientOutboundConfig)
    (claim : OutboundClaim) (peer : Z) (s : Database) : Prop :=
  exists config group c,
    vk_config = Some config /\ vkc_group_id config = Some group /\
    db_conversations s !! obc_conversation_id claim = Some c /\
    vk_client_outbound_send_allowed settings config (conv_external_conversation_id c) = true /\
    parse_vk_client_peer_id (conv_external_conversation_id c) group = Some peer.

Lemma vk_gate_history settings vk_config claim peer s s' :
  vk_gate_ok settings vk_config claim peer s -> history s s' ->
  vk_gate_ok settings vk_config claim peer s'.
Proof.
  intros (config & group & c & Ec & Eg & Hc & Hallowed & Hpeer) (Hcs & _ & _).
  destruct (Hcs _ _ Hc) as (c' & Hc' & _ & Eext).
  exists config, group, c'. by rewrite Eext.
Qed.

(** What [admit_claimed] may have told the outside. *)
Definition transport_ok (settings : Settings) (vk_config : option VkClientOutboundConfig)
    (claim : OutboundClaim) (w w' : World) : Prop :=
  w_calls w' = w_calls w \/
  exists call o,
    w_calls w' = w_calls w ++ [call] /\
    db_outbox_messages (w_db w') !! obc_outbound_id claim = Some o /\ ob_admitted_at o <> None /\
    match call with
    | SinkCall id text =>
        id = uuid_str (obc_outbound_id claim) /\
        text = persisted_outbound_reply_text (ob_payload_json o)
    | VkSendCall peer text id =>
        id = obc_outbound_id claim /\
        persisted_outbound_reply_text (ob_payload_json o) = Some text /\
        vk_gate_ok settings vk_config claim peer (w_db w')
    | _ => False
    end.

Section Arbiter.
Context `{other : Interference, Ho : !Orderly other}.
Context (settings : Settings) (vk_config : option VkClientOutboundConfig)
  (forced : SyntheticOutboundOutcome)
  (vk_sender : nat -> Z -> string -> uuid -> result VkClientSendResult).
Context (claim : OutboundClaim) (now : option instant).

Lemma quiet_fail_claim : respects quiet (OutboundArbiter.fail_claim claim).
Proof.
  apply respects_try; [apply _| |intros; apply respects_ret, _].
  apply respects_bind; [apply _| |intros; apply respects_ret, _].
  apply quiet_transaction. solve_respects.
Qed.

Lemma quiet_fail_admitted permanent :
  respects quiet (OutboundArbiter.fail_admitted_delivery claim permanent now).
Proof.
  apply respects_try; [apply _| |intros; apply respects_ret, _].
  apply respects_bind; [apply _| |intros; apply respects_ret, _].
  apply quiet_transaction. solve_respects.
Qed.

Lemma quiet_record_success result :
  respects quiet (OutboundArbiter.record_success claim result now).
Proof.
  apply respects_bind; [apply _| |intros _].
  { destruct (obc_destination_type claim); try apply respects_ret, _.
    destruct (sres_provider_message_id result); try apply respects_ret, _.
    apply respects_when; [apply _|]. apply quiet_transaction. solve_respects. }
  apply respects_bind; [apply _|apply quiet_transaction; solve_respects|intros [delivered corr]].
  apply respects_bind; [apply _| |intros; apply respects_ret, _].
  apply respects_when; [apply _|].
  apply respects_try; [apply _| |intros; apply respects_ret, _].
  apply respects_bind; [apply _| |intros; apply respects_ret, _].
  apply quiet_transaction. solve_respects.
Qed.

(** A request comes with a durable admission; failures stay quiet. *)
Lemma wp_obtain_request envs w :
  constraints_ok (w_db w) ->
  wp (OutboundArbiter.obtain_request settings claim now)
    (fun r w' => quiet w w' /\ durable claim r (w_db w')) (fun _ w' => quiet w w') envs w.
Proof.
  intros Hcon. unfold OutboundArbiter.obtain_request. apply wp_if; intros _.
  - apply wp_transaction; [solve_respects|done|]. intros s _ Hs.
    eapply wp_mono; [by apply prepare_reclaimed_spec| |by auto].
    intros r s' [-> (o & Ho' & (_ & _ & _ & Hadm)%outbox_admitted_lease_true & _ & Hr)] w' Hq Hw.
    split; [done|]. exists o. rewrite Hw. split_and!; [done| |done].
    by destruct (ob_admitted_at o).
  - apply wp_try, wp_transaction; [solve_respects|done|]. intros s _ Hs. apply wp_session_scope.
    eapply (wp_admit_in_session _ _ _ _ (fun e _ => forall w', quiet w w' -> _));
      [by apply outbox_keyed| |].
    + intros r s' (c & o & Hadm & Hr & ->) w' Hq Hw. split; [done|].
      eexists. rewrite Hw. cbn. rewrite lookup_insert_eq. by split_and!.
    + intros e _ w' Hq. destruct (negb _); [|done].
      apply wp_bind. eapply wp_mono; [by apply respects_wp, quiet_fail_claim| |].
      * intros u w'' Hq'. apply wp_raise. by etrans.
      * intros e' w'' Hq'. by etrans.
Qed.

(** The transport step: at most one call, for a durable row. *)
Definition told (r : SyntheticOutboundRequest) (w w' : World) : Prop :=
  w_db w' = w_db w /\
  (w_calls w' = w_calls w \/
   exists call, w_calls w' = w_calls w ++ [call] /\
     match call with
     | SinkCall id text => id = sor_outbound_id r /\ text = sor_text r
     | VkSendCall peer text id =>
         id = obc_outbound_id claim /\ sor_text r = Some text /\
         vk_gate_ok settings vk_config claim peer (w_db w)
     | _ => False
     end).

Lemma wp_sink_deliver r envs w :
  wp (sink_deliver forced r) (fun _ w' => told r w w') (fun _ w' => told r w w') envs w.
Proof.
  unfold sink_deliver. apply wp_bind, wp_get_state, wp_if; intros _; [apply wp_ret; by split; [|left]|].
  apply wp_bind. unfold call_outside, wp at 1. cbn.
  assert (forall w', w_db w' = w_db w ->
    w_calls w' = w_calls w ++ [SinkCall (sor_outbound_id r) (sor_text r)] -> told r w w') as Hone.
  { intros w' E1 E2. split; [done|]. right. eexists. by split; [exact E2|]. }
  destruct forced; [apply wp_bind, wp_get_state, wp_bind, wp_put_state, wp_ret|apply wp_ret..];
    by apply Hone.
Qed.

Lemma wp_deliver_vk_client r envs w :
  constraints_ok (w_db w) ->
  wp (OutboundArbiter.deliver_vk_client settings vk_config vk_sender claim r)
    (fun _ w' => exists w1, quiet w w1 /\ told r w1 w')
    (fun _ w' => exists w1, quiet w w1 /\ told r w1 w') envs w.
Proof.
  intros Hcon. unfold OutboundArbiter.deliver_vk_client.
  apply wp_bind, wp_transaction; [solve_respects|done|]. intros s _ _. apply wp_session_scope.
  unfold conversation_repo.get_by_id_for_update. apply wp_get_by_id. intros w1 Hq Edb.
  assert (exists w0, quiet w w0 /\ told r w0 w1) as Hsame.
  { exists w1. split; [done|]. by split; [|left]. }
  destruct (table_get s !! _) as [c|] eqn:Hc; [|by apply wp_ret]. cbv zeta.
  destruct vk_config as [config|] eqn:Hvk; [|by apply wp_ret].
  apply wp_if; [intros _; by apply wp_ret|]. rewrite negb_false_iff. intros Hgate.
  apply wp_bind, wp_require_some; [|done]. intros group Hgroup.
  destruct (parse_vk_client_peer_id _ group) as [peer|] eqn:Hpeer; [|by apply wp_ret].
  destruct (sor_text r) as [text|] eqn:Htext; [|by apply wp_ret].
  destruct text as [|ch text]; [by apply wp_ret|].
  apply wp_bind. unfold call_outside, wp at 1. cbn.
  assert (forall w', w_db w' = w_db w1 ->
    w_calls w' = w_calls w1 ++ [VkSendCall peer (String ch text) (obc_outbound_id claim)] ->
    exists w0, quiet w w0 /\ told r w0 w') as Hone.
  { intros w' E1 E2. exists w1. split; [done|]. split; [done|]. right. eexists. split; [done|].
    split_and!; [done|done|]. rewrite Hvk. exists config, group, c. rewrite Edb. by split_and!. }
  destruct (vk_sender _ _ _ _) as [res|e]; [apply wp_ret|]; by apply Hone.
Qed.

Lemma told_transport r w w1 w2 w3 :
  constraints_ok (w_db w1) -> quiet w w1 -> durable claim r (w_db w1) -> told r w1 w2 ->
  quiet w2 w3 -> transport_ok settings vk_config claim w w3.
Proof.
  intros Hcon Hq1 Hd [Edb Hcalls] Hq3.
  assert (durable claim r (w_db w3)) as (o & Hoo & Ha & Hid & _ & Htext & _).
  { eapply quiet_durable; [|exact Hq3|]; by rewrite Edb. }
  assert (ob_id o = obc_outbound_id claim) as Hoid.
  { apply (outbox_keyed (w_db w3)); [|done]. eapply quiet_constraints; [exact Hq3|by rewrite Edb]. }
  destruct Hq1 as [E1 _], Hq3 as [E3 [_ H3]]. unfold transport_ok. rewrite <- E1.
  destruct Hcalls as [E2|(call & E2 & Hcall)]; [left; congruence|right].
  exists call, o. split; [congruence|]. split_and!; [done..|].
  destruct call; try done.
  - destruct Hcall as [-> ->]. by rewrite Hid, Htext, Hoid.
  - destruct Hcall as (-> & E & Hgate). rewrite <- Htext, E. split_and!; [done..|].
    eapply vk_gate_history; [exact Hgate|]. rewrite <- Edb. apply H3. by rewrite Edb.
Qed.
Definition recorded (s : Database) : Prop :=
  exists o, db_outbox_messages s !! obc_outbound_id claim = Some o /\
    ob_delivery_status o = OB_DELIVERED /\ ob_admitted_at o <> None.

Lemma recorded_history s s' : recorded s -> history s s' -> recorded s'.
Proof.
  intros (o & Hoo & Hst & Ha) (_ & _ & Hos & _).
  destruct (Hos _ _ Hoo) as (o' & Ho' & _ & Hle & _ & _ & Hadm).
  exists o'. split_and!; [done| |].
  - rewrite <- Hst. apply outbound_terminal_le; [done|by rewrite Hst].
  - by destruct Hadm as [-> |[? _]].
Qed.

Lemma wp_record_success result envs w :
  constraints_ok (w_db w) ->
  wp (OutboundArbiter.record_success claim result now)
    (fun res w' => quiet w w' /\ recorded (w_db w') /\
       res = MkArbiterAdmitResult true (obc_outbound_id claim) OB_DELIVERED)
    (fun _ w' => quiet w w') envs w.
Proof.
  intros Hcon. unfold OutboundArbiter.record_success. apply wp_bind.
  eapply wp_mono; [apply (respects_wp quiet)| |done].
  { destruct (obc_destination_type claim); try apply respects_ret, _.
    destruct (sres_provider_message_id result); try apply respects_ret, _.
    apply respects_when; [apply _|]. apply quiet_transaction. solve_respects. }
  intros u w1 Hq1. pose proof (quiet_constraints _ _ Hq1 Hcon) as Hcon1.
  apply wp_bind, wp_transaction; [solve_respects|done|]. intros s _ Hs. apply wp_session_scope.
  apply wp_record_delivered; [by apply outbox_keyed| |cbn in Hq1; intros e _ w2 Hq2; by etrans].
  intros [delivered corr] s' ((o & _ & _ & Hm & _) & Hst & Hadm) w2 Hq2 <-.
  pose proof (quiet_constraints _ _ Hq2 Hcon1) as Hcon2.
  destruct Hm as (_ & _ & _ & _ & Eos). cbn in *.
  assert (db_outbox_messages (w_db w2) !! obc_outbound_id claim = Some delivered) as Hrow
    by (rewrite Eos; apply lookup_insert_eq).
  assert (ob_id delivered = obc_outbound_id claim) as Hid by (by apply (outbox_keyed (w_db w2))).
  assert (recorded (w_db w2)) as Hrec.
  { exists delivered. split_and!; [done|done|]. by destruct (ob_admitted_at delivered). }
  apply wp_bind. eapply wp_mono; [apply (respects_wp quiet)| |].
  { apply respects_when; [apply _|]. apply respects_try; [apply _| |intros; apply respects_ret, _].
    apply respects_bind; [apply _| |intros; apply respects_ret, _].
    apply quiet_transaction. solve_respects. }
  - intros v w3 Hq3. apply wp_ret. rewrite Hid, Hst.
    split; [etrans; [exact Hq1|]; by etrans|]. split; [|done].
    eapply recorded_history; [exact Hrec|]. destruct Hq3 as [_ [_ Hh]]. auto.
  - intros e w3 Hq3. etrans; [exact Hq1|]. by etrans.
Qed.

Lemma admit_claimed_spec envs w :
  constraints_ok (w_db w) ->
  wp (OutboundArbiter.admit_claimed settings vk_config forced vk_sender claim now)
    (fun res w' => transport_ok settings vk_config claim w w' /\ recorded (w_db w') /\
       res = MkArbiterAdmitResult true (obc_outbound_id claim) OB_DELIVERED)
    (fun _ w' => transport_ok settings vk_config claim w w') envs w.
Proof.
  intros Hcon. unfold OutboundArbiter.admit_claimed. apply wp_bind.
  assert (forall w', quiet w w' -> transport_ok settings vk_config claim w w') as Hsilent
    by (intros w' [E _]; by left).
  eapply wp_mono; [by apply wp_obtain_request| |by auto]. intros r w1 [Hq1 Hd].
  pose proof (quiet_constraints _ _ Hq1 Hcon) as Hcon1.
  assert (forall w1' w2 w3, quiet w1 w1' -> told r w1' w2 -> quiet w2 w3 ->
    transport_ok settings vk_config claim w w3) as Hend.
  { intros w1' w2 w3 Hqa Ht Hqb.
    apply (told_transport r w w1' w2 w3); [by eapply quiet_constraints|by etrans|by eapply quiet_durable|done|done]. }
  apply wp_bind. eapply (wp_mono _ (fun _ w2 => exists w1', quiet w1 w1' /\ told r w1' w2) _
    (fun _ w2 => exists w1' w2', quiet w1 w1' /\ told r w1' w2' /\ quiet w2' w2)).
  - destruct (obc_destination_type claim).
    + apply wp_bind. eapply wp_mono; [apply respects_wp, quiet_fail_admitted| |].
      * intros u w2 Hq2. apply wp_raise. exists w1, w1. split_and!; [done| |done]. by split; [|left].
      * intros e w2 Hq2. exists w1, w1. split_and!; [done| |done]. by split; [|left].
    + eapply wp_mono; [apply wp_sink_deliver|intros res w2 Ht; by exists w1|].
      intros e w2 Ht. by exists w1, w2.
    + eapply wp_mono; [by apply wp_deliver_vk_client|by eauto|].
      intros e w2 (w1' & Hqa & Ht). by exists w1', w2.
  - intros result w2 (w1' & Hqa & Ht).
    assert (constraints_ok (w_db w2)) as Hcon2.
    { destruct Ht as [-> _]. by eapply quiet_constraints. }
    destruct (sres_outcome result).
    + eapply wp_mono; [by apply wp_record_success| |by eauto].
      intros res w3 (Hqb & Hrec & ->). by eauto.
    + apply wp_bind. eapply wp_mono; [apply respects_wp, quiet_fail_admitted| |by eauto].
      intros u w3 Hqb. apply wp_raise. by eauto.
    + apply wp_bind. eapply wp_mono; [apply respects_wp, quiet_fail_admitted| |by eauto].
      intros u w3 Hqb. apply wp_raise. by eauto.
  - intros e w2 (w1' & w2' & Hqa & Ht & Hqb). by eauto.
Qed.
End Arbiter.

(** ** The reply plan worker *)

(** What other workers do keeps the dialog invariant as well. *)
Class Peaceful (other : Interference) : Prop :=
  peaceful : forall n s, dialog_ok s ->
    dialog_ok (@interfere other n s) /\ history s (@interfere other n s).

#[export] Instance alone_peaceful : Peaceful alone.
Proof. intros n s Hok. by split. Qed.

(** The database moved on within the invariant. *)
Definition calm (w w' : World) : Prop :=
  dialog_ok (w_db w') /\ history (w_db w) (w_db w').

(** The booking flow was called at most once, for a plan nobody had started to
    resolve, whose marker is now durable. *)
Definition booking_told (claim : reply_plan_repo.ReplyPlanClaim) (w w' : World) : Prop :=
  w_calls w' = w_calls w \/
  exists payload p p',
    w_calls w' = w_calls w ++ [BookingFlowCall payload] /\
    db_reply_plans (w_db w) !! reply_plan_repo.rpc_plan_id claim = Some p /\
    jhas (rp_payload_json p) "booking_resolution_started" = false /\
    db_reply_plans (w_db w') !! reply_plan_repo.rpc_plan_id claim = Some p' /\
    jhas (rp_payload_json p') "booking_resolution_started" = true.

(** The claimed plan ended in exactly the row the result names. *)
Definition dispatch_done (claim : reply_plan_repo.ReplyPlanClaim) (r : ReplyPlanDispatchResult)
    (s : Database) : Prop :=
  exists p o,
    db_reply_plans s !! reply_plan_repo.rpc_plan_id claim = Some p /\
    rp_status p = RP_DISPATCHED /\
    db_outbox_messages s !! ob_id o = Some o /\
    ob_reply_plan_id o = Some (reply_plan_repo.rpc_plan_id claim) /\
    client_destination (ob_destination_type o) = true /\
    r = MkReplyPlanDispatchResult (reply_plan_repo.rpc_plan_id claim) RP_DISPATCHED (ob_id o) true.

Lemma dispatch_post_done s claim d r s' :
  constraints_ok s -> client_destination d = true ->
  dispatch_post s claim d r s' -> dispatch_done claim r s'.
Proof.
  intros Hcon Hd (c & p & p' & o & _ & Hp & _ & _ & Hsame & Hst & Hout & _ & _ & Eps & Eos & -> & _).
  destruct Hout as (_ & Eplan & _ & _ & _ & _ & Ed & _).
  pose proof (reply_plans_keyed s Hcon _ _ Hp) as Hid. cbn in Hid.
  exists p', o. rewrite Eps, Eos, !lookup_insert_eq, Ed, Eplan, Hid. by split_and!.
Qed.

Section Dispatch.
Context `{other : Interference, Hpeace : !Peaceful other}.
Context (resolve : nat -> jdict -> result jdict) (retry : Z).
Context (claim : reply_plan_repo.ReplyPlanClaim).

Lemma wp_calm_transaction {A} (body : Session A) (Q : A -> World -> Prop)
    (X : exn -> World -> Prop) envs w :
  respects traces body -> dialog_ok (w_db w) ->
  (forall env s, dialog_ok s -> history (w_db w) s ->
     wp (session_scope body)
       (fun a s' => dialog_ok s' /\ (forall w', w_calls w' = w_calls w -> calm w w' ->
                                       history s s' -> w_db w' = s' -> Q a w'))
       (fun e s' => s' = s /\ (forall w', w_calls w' = w_calls w -> calm w w' -> X e w'))
       env s) ->
  wp (transaction body) Q X envs w.
Proof.
  intros Hb Hok H. destruct (peaceful (w_transactions w) (w_db w) Hok) as [Hok1 Hh1].
  specialize (H (envs (w_transactions w)) _ Hok1 Hh1).
  pose proof (respects_session_scope traces body Hb (envs (w_transactions w))
    (interfere (w_transactions w) (w_db w))) as [_ Hh2].
  specialize (Hh2 (proj1 Hok1)).
  unfold wp, transaction in *. destruct (session_scope _ _ _) as [[a|e] s']; cbn in *.
  - destruct H as [Hok' H]. apply H; try done. split; [done|]. by etrans.
  - destruct H as [-> H]. apply H; [done|]. by split.
Qed.

Lemma calm_trans w1 w2 w3 : calm w1 w2 -> calm w2 w3 -> calm w1 w3.
Proof. intros [_ H1] [H2 H3]. split; [done|by etrans]. Qed.

Lemma claim_ok_later w w' : plan_claim_ok (w_db w) claim -> calm w w' -> plan_claim_ok (w_db w') claim.
Proof. intros H [_ Hh]. by eapply plan_claim_ok_history. Qed.

(** The marker outlives whatever follows. *)
Lemma told_later w w1 w2 : booking_told claim w w1 -> calm w1 w2 -> w_calls w2 = w_calls w1 ->
  booking_told claim w w2.
Proof.
  intros [E|(payload & p & p' & E & Hp & Hun & Hp' & Hm)] [_ (_ & Hps & _)] E2;
    [left; congruence|right].
  destruct (Hps _ _ Hp') as (p2 & Hp2 & _ & _ & _ & _ & Hmark).
  exists payload, p, p2. rewrite E2. split_and!; auto.
Qed.

Lemma unmarked_before w s p :
  plan_claim_ok (w_db w) claim -> history (w_db w) s ->
  db_reply_plans s !! reply_plan_repo.rpc_plan_id claim = Some p ->
  jhas (rp_payload_json p) "booking_resolution_started" = false ->
  exists p0, db_reply_plans (w_db w) !! reply_plan_repo.rpc_plan_id claim = Some p0 /\
    jhas (rp_payload_json p0) "booking_resolution_started" = false.
Proof.
  intros (p0 & Hp0 & _) (_ & Hps & _) Hp Hun. exists p0. split; [done|].
  destruct (Hps _ _ Hp0) as (p1 & Hp1 & _ & _ & _ & _ & Hmark). simplify_eq.
  destruct (jhas (rp_payload_json p0) _) eqn:E; [|done]. by rewrite Hmark in Hun.
Qed.

(** The last transaction of the booking path. *)
Lemma wp_finalize payload fields persist envs w :
  dialog_ok (w_db w) -> plan_claim_ok (w_db w) claim ->
  wp (transaction (booking_phase2_finalize claim payload fields persist))
    (fun r w' => calm w w' /\ w_calls w' = w_calls w /\ dispatch_done claim r (w_db w'))
    (fun _ w' => calm w w' /\ w_calls w' = w_calls w) envs w.
Proof.
  intros Hok Hcl. apply wp_calm_transaction; [solve_respects|done|]. intros env s Hs Hh.
  eapply wp_mono; [apply booking_phase2_spec; [done|by eapply plan_claim_ok_history]| |].
  - intros r s' [Hok' Hpost]. split; [done|]. intros w' E Hc _ <-. split_and!; [done..|].
    eapply dispatch_post_done; [apply Hs| |exact Hpost]; done.
  - intros e s' ->. by split.
Qed.

(** What [dispatch_booking] and [dispatch_claimed] may have done. *)
Definition dispatch_trace (w w' : World) : Prop := calm w w' /\ booking_told claim w w'.

Lemma dispatch_booking_spec envs w :
  dialog_ok (w_db w) -> plan_claim_ok (w_db w) claim ->
  wp (ReplyPlanWorker.dispatch_booking resolve claim)
    (fun r w' => dispatch_trace w w' /\ dispatch_done claim r (w_db w'))
    (fun _ w' => dispatch_trace w w') envs w.
Proof.
  intros Hok Hcl. unfold ReplyPlanWorker.dispatch_booking.
  apply wp_bind, wp_calm_transaction; [solve_respects|done|]. intros env s Hs Hh.
  pose proof (plan_claim_ok_history _ _ _ Hcl Hh) as Hcls.
  eapply wp_mono; [by apply booking_phase1_spec| |].
  2: { intros e s' ->. split; [done|]. intros w' E Hc. split; [done|by left]. }
  intros prepare s1 [Hok1 (c & p & _ & Hp & _ & Hprep)]. split; [done|].
  intros w1 E1 Hc1 Hh1 Edb.
  assert (dialog_ok (w_db w1) /\ plan_claim_ok (w_db w1) claim) as [Hokw Hclw].
  { split; [apply Hc1|by eapply claim_ok_later]. }
  assert (forall payload fields persist,
    wp (transaction (booking_phase2_finalize claim payload fields persist))
      (fun r w' => dispatch_trace w w' /\ dispatch_done claim r (w_db w'))
      (fun _ w' => dispatch_trace w w') envs w1) as Hend.
  { intros. eapply wp_mono; [by apply wp_finalize| |].
    - intros r w2 (Hc2 & E2 & Hdone). split; [|done].
      split; [by eapply calm_trans|left; congruence].
    - intros e w2 (Hc2 & E2). split; [by eapply calm_trans|left; congruence]. }
  destruct prepare as [r|payload|payload|payload fields]; [done| |apply Hend..].
  destruct Hprep as (Hun & _ & -> & p' & _ & Epay & _ & Es1).
  destruct (unmarked_before w s p Hcl Hh Hp Hun) as (p0 & Hp0 & Hun0).
  assert (forall w2, w_db w2 = w_db w1 ->
    w_calls w2 = w_calls w1 ++ [BookingFlowCall (rp_payload_json p')] ->
    dispatch_trace w w2) as Htold.
  { intros w2 Ew Ecalls. split; [split; rewrite Ew; apply Hc1|]. right.
    exists (rp_payload_json p'), p0, p'. rewrite Ecalls, E1, Ew, Edb, Es1. cbn.
    rewrite lookup_insert_eq. split_and!; try done.
    rewrite Epay. unfold jhas. by rewrite jget_jset_eq. }
  unfold ReplyPlanWorker.resolve_booking_off_transaction. rewrite <- Epay.
  apply wp_bind. unfold call_outside, wp at 1. cbn.
  destruct (resolve _ _) as [fields|e]; [|by apply Htold].
  set (w2 := w1 <| w_calls ::= _ |>).
  assert (dispatch_trace w w2) as [Hc2 Ht2] by (by apply Htold).
  eapply wp_mono; [apply wp_finalize; [apply Hc2|by eapply claim_ok_later]| |].
  - intros r w3 (Hc3 & E3 & Hdone). split; [|done].
    split; [by eapply calm_trans|by eapply told_later].
  - intros e w3 (Hc3 & E3). split; [by eapply calm_trans|by eapply told_later].
Qed.

Lemma wp_dispatch_plain envs w :
  dialog_ok (w_db w) -> plan_claim_ok (w_db w) claim ->
  wp (transaction (dispatch_non_booking claim))
    (fun r w' => dispatch_trace w w' /\ dispatch_done claim r (w_db w'))
    (fun _ w' => dispatch_trace w w') envs w.
Proof.
  intros Hok Hcl. apply wp_calm_transaction; [solve_respects|done|]. intros env s Hs Hh.
  eapply wp_mono; [apply dispatch_non_booking_spec; [done|by eapply plan_claim_ok_history]| |].
  - intros r s' [Hok' Hpost]. split; [done|]. intros w' E Hc _ <-.
    split; [split; [done|by left]|]. eapply dispatch_post_done; [apply Hs| |exact Hpost].
    by destruct (is_vk_client_proof_reply_plan _).
  - intros e s' ->. split; [done|]. intros w' E Hc. split; [done|by left].
Qed.

Lemma wp_fail_claimed code envs w :
  dialog_ok (w_db w) ->
  wp (ReplyPlanWorker.fail_claimed retry claim code)
    (fun _ w' => calm w w' /\ w_calls w' = w_calls w)
    (fun _ w' => calm w w' /\ w_calls w' = w_calls w) envs w.
Proof.
  intros Hok. apply wp_calm_transaction; [solve_respects|done|]. intros env s Hs Hh.
  eapply wp_mono; [by apply fail_claimed_plan_spec| |].
  - intros p' s' [Hok' _]. by split.
  - intros e s' ->. by split.
Qed.

Lemma dispatch_claimed_spec envs w :
  dialog_ok (w_db w) -> plan_claim_ok (w_db w) claim ->
  wp (ReplyPlanWorker.dispatch_claimed resolve retry claim)
    (fun r w' => dispatch_trace w w' /\ dispatch_done claim r (w_db w'))
    (fun _ w' => dispatch_trace w w') envs w.
Proof.
  intros Hok Hcl. unfold ReplyPlanWorker.dispatch_claimed. apply wp_try.
  eapply wp_mono; [| |].
  { apply wp_if; intros _; [by apply wp_dispatch_plain|by apply dispatch_booking_spec]. }
  { done. }
  intros e w1 [Hc Ht]. destruct (negb _); [|by split].
  apply wp_bind. eapply wp_mono; [apply wp_fail_claimed, Hc| |].
  - intros u w2 [Hc2 E2]. apply wp_raise. split; [by eapply calm_trans|by eapply told_later].
  - intros e' w2 [Hc2 E2]. split; [by eapply calm_trans|by eapply told_later].
Qed.
End Dispatch.
