(* ===== verification/Scenario.v ===== *)
(** * A dialog, executed

    Concrete transactions on concrete databases: a first client message, the
    claim and the booking dispatch of its plan, the claim, admission and
    delivery of the outbox row, and the other events that can interrupt it.
    Everything evaluates; the witnesses of the theorems use these states. *)

From S2P Require Import Prelude BookingText Models Database Statements Conversations ReplyPlans.
From S2P Require Import Outbound SelfBooking Messages Mirror ReplyText BookingFields Projections.
From S2P Require Import Inbound ManagerMessages HandoffExpiry ReplyDispatch VkGate Arbiter Dialog.
From S2P Require Import ManagerProofs InboundProofs DispatchProofs ClaimProofs ArbiterProofs.
From S2P Require Import History Progress System Fresh Returns ReturnsPlans ReturnsWorkers.

(** The environment [seconds] after the epoch: an exact clock, no locked row. *)
Definition at_second (seconds : Z) : Env := {|
  env_now := seconds * 1000000;
  env_statement_timestamp := fun _ => seconds * 1000000;
  env_locked := fun _ => false;
  env_wall_clock := seconds * 1000000;
  env_chat_egress_enabled := true
|}.

(** The database a transaction leaves, and the value it returns. *)
Definition after {A} (body : Session A) (env : Env) (s : Database) : Database :=
  (session_scope body env s).2.
Definition answer {A} (body : Session A) (env : Env) (s : Database) : result A :=
  (session_scope body env s).1.

(** The value of a computation known to return one. *)
Definition returned {A} (r : result A) : match r with Returned _ => A | Raised _ => unit end :=
  match r with Returned a => a | Raised _ => tt end.
Definition found {A} (r : result (option A)) :
    match r with Returned (Some _) => A | _ => unit end :=
  match r with Returned (Some a) => a | _ => tt end.

Definition first_message : SyntheticInboundEvent := {|
  sie_channel := "synthetic";
  sie_external_conversation_id := "dialog-1";
  sie_external_message_id := "message-1";
  sie_text := "hello";
  sie_received_at := None;
  sie_booking := Some [("scenario", JStr "slots")];
  sie_action := None
|}.

Definition second_message : SyntheticInboundEvent :=
  MkSyntheticInboundEvent "synthetic" "dialog-1" "message-2" "are you there?" None None None.

Definition manager_message : SyntheticManagerMessageEvent :=
  MkSyntheticManagerMessageEvent "synthetic" "dialog-1" "manager-1" (Some 7) None "I am here".

Definition offered_slot : ActiveOfferSlot := {|
  aos_slot_id := "bs1.6c0b1c7e-6a55-4f5a-9c3e-0d1f2a3b4c5d.7d1c2d8f-7b66-4e6b-8d4f-1e2f3b4c5d6e.2026-03-05.1030";
  aos_starts_at := "2026-03-05T10:30:00+05:00"
|}.

Definition offer_fields : jdict :=
  [ ("booking_action", JStr "OFFER_SLOTS"); ("booking_reason", JNull);
    ("booking_offered_slot_ids", JArr [JStr (aos_slot_id offered_slot)]);
    ("booking_offered_slots", JArr [slot_json offered_slot]) ].

(** ** The bot answers *)

Definition planned : Database := after (accept 600 None first_message) (at_second 0) empty_database.

Definition claimed : Database := after (claim_one_plan "worker" 30 None) (at_second 6) planned.
Definition plan_claim : reply_plan_repo.ReplyPlanClaim :=
  Eval vm_compute in found (answer (claim_one_plan "worker" 30 None) (at_second 6) planned).

Definition prepared : Database := after (booking_phase1_prepare plan_claim) (at_second 6) claimed.
Definition marked_payload : jdict :=
  Eval vm_compute in with_booking_resolution_started
    (reply_plan_repo.rpc_payload_json plan_claim).

Definition dispatched : Database :=
  after (booking_phase2_finalize plan_claim marked_payload offer_fields true) (at_second 7)
    prepared.

Definition outbound_claimed : Database :=
  after (outbound_repo.claim_next "sender" 30 None) (at_second 8) dispatched.
Definition outbound_claim : outbound_repo.OutboundClaim :=
  Eval vm_compute in
    found (answer (outbound_repo.claim_next "sender" 30 None) (at_second 8) dispatched).

Definition draft_only : Settings := MkSettings false MODE_DRAFT.

Definition admitted : Database :=
  after (admit_in_session draft_only outbound_claim None) (at_second 9) outbound_claimed.

Definition delivered : Database :=
  after (record_delivered outbound_claim None None) (at_second 10) admitted.

(** ** The dialog is interrupted *)

Definition dialog_id : uuid := Eval vm_compute in reply_plan_repo.rpc_conversation_id plan_claim.
Definition plan_id : uuid := Eval vm_compute in reply_plan_repo.rpc_plan_id plan_claim.
Definition outbound_id : uuid := Eval vm_compute in outbound_repo.obc_outbound_id outbound_claim.

Definition taken_over : Database :=
  after (ManagerTakeoverService.apply dialog_id None) (at_second 8) dispatched.

Definition manager_wrote : Database :=
  after (SyntheticManagerMessageService.apply manager_message 600) (at_second 8) dispatched.

(** The client writes during the manager's pause; the pause ends. *)
Definition client_waits : Database :=
  after (accept 600 None second_message) (at_second 60) manager_wrote.
Definition pause_over : Database := after expire_one (at_second 700) client_waits.

(** Nobody writes for the pause. *)
Definition handoff_over : Database := after expire_one (at_second 700) manager_wrote.

(** The booking answered with an offer in the shape without start times. *)
Definition legacy_fields : jdict :=
  [ ("booking_action", JStr "OFFER_SLOTS"); ("booking_reason", JNull);
    ("booking_offered_slot_ids", JArr [JStr (aos_slot_id offered_slot)]) ].
Definition legacy_dispatched : Database :=
  after (booking_phase2_finalize plan_claim marked_payload legacy_fields true) (at_second 7)
    prepared.
Definition legacy_outbound_claimed : Database :=
  after (outbound_repo.claim_next "sender" 30 None) (at_second 8) legacy_dispatched.
Definition legacy_claim : outbound_repo.OutboundClaim :=
  Eval vm_compute in
    found (answer (outbound_repo.claim_next "sender" 30 None) (at_second 8) legacy_dispatched).
Definition legacy_admitted : Database :=
  after (admit_in_session draft_only legacy_claim None) (at_second 9) legacy_outbound_claimed.

(** ** The states are reachable *)

Lemma runs_after {A} (body : Session A) env s : runs body (answer body env s) s (after body env s).
Proof. exists env. unfold answer, after. by destruct (session_scope body env s). Qed.

Lemma after_service A (body : Session A) env s claims :
  service A body -> reachable (MkSystem s claims) ->
  reachable (MkSystem (after body env s) claims).
Proof.
  intros Hb Hr. eapply rtc_r; [exact Hr|]. eapply step_service; [exact Hb|apply runs_after].
Qed.

Lemma after_dispatch A (body : Session A) env claim s claims :
  claim ∈ claims -> dispatch claim A body -> reachable (MkSystem s claims) ->
  reachable (MkSystem (after body env s) claims).
Proof.
  intros Hin Hb Hr. eapply rtc_r; [exact Hr|].
  eapply step_dispatch; [exact Hin|exact Hb|apply runs_after].
Qed.

Lemma planned_reachable : reachable (MkSystem planned []).
Proof. apply after_service; [constructor|apply rtc_refl]. Qed.

Lemma claiming_step : step (MkSystem planned []) (MkSystem claimed [plan_claim]).
Proof.
  pose proof (step_claim "worker" 30 None _ _ _ [] (runs_after (claim_one_plan "worker" 30 None)
    (at_second 6) planned)) as H.
  assert (answer (claim_one_plan "worker" 30 None) (at_second 6) planned =
    Returned (Some plan_claim)) as E by (vm_compute; reflexivity).
  by rewrite E in H.
Qed.

Lemma claimed_reachable : reachable (MkSystem claimed [plan_claim]).
Proof. eapply rtc_r; [apply planned_reachable|apply claiming_step]. Qed.

Lemma prepared_reachable : reachable (MkSystem prepared [plan_claim]).
Proof. eapply after_dispatch; [by left|constructor|apply claimed_reachable]. Qed.

Lemma dispatched_reachable : reachable (MkSystem dispatched [plan_claim]).
Proof. eapply after_dispatch; [by left|constructor|apply prepared_reachable]. Qed.

Lemma outbound_claimed_reachable : reachable (MkSystem outbound_claimed [plan_claim]).
Proof. apply after_service; [constructor|apply dispatched_reachable]. Qed.

Lemma admitted_reachable : reachable (MkSystem admitted [plan_claim]).
Proof. apply after_service; [constructor|apply outbound_claimed_reachable]. Qed.

Lemma delivered_reachable : reachable (MkSystem delivered [plan_claim]).
Proof. apply after_service; [constructor|apply admitted_reachable]. Qed.

Lemma taken_over_reachable : reachable (MkSystem taken_over [plan_claim]).
Proof. apply after_service; [constructor|apply dispatched_reachable]. Qed.

Lemma manager_wrote_reachable : reachable (MkSystem manager_wrote [plan_claim]).
Proof. apply after_service; [constructor|apply dispatched_reachable]. Qed.

Lemma client_waits_reachable : reachable (MkSystem client_waits [plan_claim]).
Proof. apply after_service; [constructor|apply manager_wrote_reachable]. Qed.

Lemma legacy_admitted_reachable : reachable (MkSystem legacy_admitted [plan_claim]).
Proof.
  apply after_service; [constructor|]. apply after_service; [constructor|].
  eapply after_dispatch; [by left|constructor|apply prepared_reachable].
Qed.

Lemma reachable_dialog_ok s claims : reachable (MkSystem s claims) -> dialog_ok s.
Proof. intros H. apply (reachable_ok _ H). Qed.

(** What happened in them. *)
Definition outbox_status (s : Database) (id : uuid) : option DeliveryStatus :=
  ob_delivery_status <$> db_outbox_messages s !! id.
Definition plan_status (s : Database) (id : uuid) : option ReplyPlanStatus :=
  rp_status <$> db_reply_plans s !! id.

Example dialog_answered :
  plan_status planned plan_id = Some RP_PENDING /\
  plan_status claimed plan_id = Some RP_PROCESSING /\
  plan_status dispatched plan_id = Some RP_DISPATCHED /\
  outbox_status dispatched outbound_id = Some OB_PENDING /\
  outbox_status outbound_claimed outbound_id = Some OB_PROCESSING /\
  outbox_status admitted outbound_id = Some OB_ADMITTED /\
  outbox_status delivered outbound_id = Some OB_DELIVERED.
Proof. vm_compute. done. Qed.

Example dialog_interrupted :
  outbox_status taken_over outbound_id = Some OB_CANCELLED /\
  outbox_status manager_wrote outbound_id = Some OB_CANCELLED /\
  conv_handoff_state <$> db_conversations client_waits !! dialog_id = Some HUMAN_PAUSE /\
  conv_handoff_state <$> db_conversations pause_over !! dialog_id = Some BOT_ACTIVE /\
  conv_handoff_state <$> db_conversations handoff_over !! dialog_id = Some BOT_ACTIVE.
Proof. vm_compute. done. Qed.

(** [revoked], decided. *)
Definition revoked_check (s : Database) (cid : uuid) : bool :=
  bool_decide (map_Forall (fun _ p => rp_conversation_id p = cid ->
    reply_plan_open (rp_status p) = false) (db_reply_plans s)) &&
  bool_decide (map_Forall (fun _ o => ob_conversation_id o = cid ->
    client_destination (ob_destination_type o) = true ->
    outbound_repo.unadmitted (ob_delivery_status o) = false) (db_outbox_messages s)).

Lemma revoked_checked s cid : revoked_check s cid = true -> revoked s cid.
Proof.
  intros [H1%bool_decide_eq_true H2%bool_decide_eq_true]%andb_true_iff.
  split; [exact (fun k p Hp => map_Forall_lookup_1 _ _ k p H1 Hp)|
    exact (fun k o Ho => map_Forall_lookup_1 _ _ k o H2 Ho)].
Qed.

(** A row is read off a computed lookup. *)
Lemma lookup_row {R A} (t : gmap uuid R) k (f : R -> A) v :
  f <$> t !! k = Some v -> exists r, t !! k = Some r /\ f r = v.
Proof. intros (r & Hr & ->)%fmap_Some. eauto. Qed.

Definition outbox_view (o : OutboxMessage) :=
  (ob_conversation_id o, ob_destination_type o, ob_delivery_status o, ob_admitted_at o).

Lemma row_dispatched :
  exists o, db_outbox_messages dispatched !! outbound_id = Some o /\
    outbox_view o = (dialog_id, SYNTHETIC_OUTBOUND, OB_PENDING, None).
Proof. apply lookup_row. vm_compute. reflexivity. Qed.

Lemma row_taken_over :
  exists o, db_outbox_messages taken_over !! outbound_id = Some o /\
    outbox_view o = (dialog_id, SYNTHETIC_OUTBOUND, OB_CANCELLED, None).
Proof. apply lookup_row. vm_compute. reflexivity. Qed.

Lemma dialog_dispatched :
  exists c, db_conversations dispatched !! dialog_id = Some c /\ conv_manager_epoch c = 0.
Proof. apply lookup_row. vm_compute. reflexivity. Qed.

Lemma dialog_client_waits :
  exists c, db_conversations client_waits !! dialog_id = Some c /\
    conv_handoff_state c = HUMAN_PAUSE.
Proof. apply lookup_row. vm_compute. reflexivity. Qed.

Lemma revoked_taken_over : revoked taken_over dialog_id.
Proof. apply revoked_checked. vm_compute. reflexivity. Qed.

Lemma answering_run : rtc step (MkSystem planned []) (MkSystem outbound_claimed [plan_claim]).
Proof.
  eapply rtc_l with (y := MkSystem claimed [plan_claim]); [apply claiming_step|].
  eapply rtc_l with (y := MkSystem prepared [plan_claim]);
    [eapply step_dispatch; [by left| |apply runs_after]; constructor|].
  eapply rtc_l with (y := MkSystem dispatched [plan_claim]);
    [eapply step_dispatch; [by left| |apply runs_after]; constructor|].
  apply rtc_once. eapply step_service; [|apply runs_after]. constructor.
Qed.

Lemma prepared_run :
  runs (booking_phase1_prepare plan_claim) (Returned (PREPARE_RUN_REMOTE marked_payload))
    claimed prepared.
Proof.
  pose proof (runs_after (booking_phase1_prepare plan_claim) (at_second 6) claimed) as H.
  assert (answer (booking_phase1_prepare plan_claim) (at_second 6) claimed =
    Returned (PREPARE_RUN_REMOTE marked_payload)) as E by (vm_compute; reflexivity).
  by rewrite E in H.
Qed.

(** The states are only ever computed by [vm_compute]. *)
#[global] Opaque planned claimed prepared dispatched outbound_claimed admitted delivered
  taken_over manager_wrote client_waits pause_over handoff_over legacy_dispatched
  legacy_outbound_claimed legacy_admitted.

Definition is_returned {A} (r : result A) : bool :=
  match r with Returned _ => true | Raised _ => false end.

Lemma unused_dispatched : unused (db_mirror_jobs dispatched) (N.succ (db_uuid_supply dispatched)).
Proof. vm_compute. reflexivity. Qed.

Lemma plan_claim_named : plan_claim_ok claimed plan_claim.
Proof.
  destruct (reachable_ok _ claimed_reachable) as [_ H]. rewrite Forall_forall in H. apply H. by left.
Qed.

Lemma plan_claim_named_prepared : plan_claim_ok prepared plan_claim.
Proof.
  destruct (reachable_ok _ prepared_reachable) as [_ H]. rewrite Forall_forall in H. apply H. by left.
Qed.

Lemma plan_lease_lost_dispatched : plan_lease_lost dispatched plan_claim.
Proof.
  destruct (lookup_row (db_reply_plans dispatched) plan_id rp_status RP_DISPATCHED) as (p & Hp & Hst).
  { vm_compute. reflexivity. }
  exists p. split; [exact Hp|]. unfold reply_plan_repo.holds_lease. by rewrite Hst.
Qed.

Definition outbound_room_check (s : Database) : bool :=
  bool_decide (map_Forall (fun _ o =>
    (ob_attempt_count o <? int4_max) && (ob_lease_version o <? int4_max) = true)
    (db_outbox_messages s)).

Lemma outbound_room_dispatched : outbound_room dispatched.
Proof.
  assert (outbound_room_check dispatched = true) as H%bool_decide_eq_true by (vm_compute; reflexivity).
  intros k o Ho. pose proof (map_Forall_lookup_1 _ _ k o H Ho) as [H1 H2]%andb_true_iff.
  split; by apply Z.ltb_lt.
Qed.

Lemma row_outbound_claimed :
  exists o, db_outbox_messages outbound_claimed !! outbound_id = Some o /\
    outbound_repo.holds_lease OB_PROCESSING (outbound_repo.obc_lease_token outbound_claim)
      (outbound_repo.obc_lease_version outbound_claim) o = true.
Proof. apply lookup_row. vm_compute. reflexivity. Qed.

Lemma row_admitted :
  exists o, db_outbox_messages admitted !! outbound_id = Some o /\
    outbound_repo.holds_admitted_lease (outbound_repo.obc_lease_token outbound_claim)
      (outbound_repo.obc_lease_version outbound_claim) o = true.
Proof. apply lookup_row. vm_compute. reflexivity. Qed.

Lemma row_delivered :
  exists o c, db_outbox_messages delivered !! outbound_id = Some o /\
    db_conversations delivered !! dialog_id = Some c /\ ob_lease_token o = None.
Proof.
  destruct (lookup_row (db_outbox_messages delivered) outbound_id ob_lease_token None) as (o & Ho & Hl).
  { vm_compute. reflexivity. }
  destruct (lookup_row (db_conversations delivered) dialog_id conv_status OPEN) as (c & Hc & _).
  { vm_compute. reflexivity. }
  exists o, c. split; [exact Ho|split; [exact Hc|exact Hl]].
Qed.

(** [room], decided. *)
Definition room_check (s : Database) : bool :=
  bool_decide (map_Forall (fun _ c =>
    (conv_context_version c <? int4_max) && (conv_manager_epoch c <? int4_max) &&
    (conv_current_event_seq c <? int8_max) = true) (db_conversations s)) &&
  (db_uuid_supply s + 8 <? 2 ^ 122)%N.

Lemma room_checked s : room_check s = true -> room s.
Proof.
  intros [H%bool_decide_eq_true H2%N.ltb_lt]%andb_true_iff. split; [|exact H2].
  intros cid c Hc. pose proof (map_Forall_lookup_1 _ _ cid c H Hc) as Hcc.
  rewrite !andb_true_iff, !Z.ltb_lt in Hcc. tauto.
Qed.

(** A message id no stored message has. *)
Lemma unknown_event s event :
  bool_decide (map_Forall (fun _ m =>
    inbox_external_message_id m <> sie_external_message_id event) (db_inbox_messages s)) = true ->
  event_of_dialog s event.
Proof.
  intros H%bool_decide_eq_true k m c Hm [_ E] _.
  by destruct (map_Forall_lookup_1 _ _ k m H Hm).
Qed.

Lemma unknown_manager_event s event :
  bool_decide (map_Forall (fun _ m =>
    mm_external_message_id m <> mme_external_message_id event) (db_manager_messages s)) = true ->
  manager_event_of_dialog s event.
Proof.
  intros H%bool_decide_eq_true k m c Hm [_ E] _.
  by destruct (map_Forall_lookup_1 _ _ k m H Hm).
Qed.

Lemma manager_message_is_valid : manager_message_valid manager_message.
Proof.
  split; [reflexivity|]. unfold MANAGER_MESSAGE_TEXT_MAX_LENGTH, int8_max. cbn. lia.
Qed.

(** [plan_in_hand], decided. *)
Definition validated_check (claim : reply_plan_repo.ReplyPlanClaim) (c : Conversation)
    (p : ReplyPlan) : bool :=
  (conv_context_version c =? reply_plan_repo.rpc_context_version claim) &&
  bool_decide (conv_ownership c = BOT) && bool_decide (conv_handoff_state c = BOT_ACTIVE) &&
  bool_decide (conv_manager_takeover_at c = None) &&
  (conv_manager_epoch c =? reply_plan_repo.rpc_manager_epoch claim) &&
  (conv_current_event_seq c =? reply_plan_repo.rpc_event_seq_hwm claim) &&
  reply_plan_repo.holds_lease (reply_plan_repo.rpc_lease_token claim)
    (reply_plan_repo.rpc_lease_version claim) p &&
  (rp_manager_epoch p =? reply_plan_repo.rpc_manager_epoch claim) &&
  (rp_event_seq_hwm p =? reply_plan_repo.rpc_event_seq_hwm claim).

Definition in_hand_check (s : Database) (claim : reply_plan_repo.ReplyPlanClaim) : bool :=
  (db_uuid_supply s <=? 2 ^ 122)%N &&
  match db_conversations s !! reply_plan_repo.rpc_conversation_id claim,
        db_reply_plans s !! reply_plan_repo.rpc_plan_id claim with
  | Some c, Some p => validated_check claim c p
  | _, _ => false
  end.

Lemma in_hand_checked s claims claim :
  reachable (MkSystem s claims) -> in_hand_check s claim = true -> plan_in_hand s claim.
Proof.
  intros Hr [Hu%N.leb_le H]%andb_true_iff. split; [exact (reachable_supply _ Hr)|]. split; [exact Hu|].
  destruct (db_conversations s !! _) as [c|]; [|discriminate].
  destruct (db_reply_plans s !! _) as [p|]; [|discriminate].
  exists c, p. split; [reflexivity|]. split; [reflexivity|]. unfold validated, validated_check in *.
  rewrite !andb_true_iff, !bool_decide_eq_true, !Z.eqb_eq in H. tauto.
Qed.

Lemma plan_in_hand_claimed : plan_in_hand claimed plan_claim.
Proof. apply (in_hand_checked _ _ _ claimed_reachable). vm_compute. reflexivity. Qed.

Lemma plan_in_hand_prepared : plan_in_hand prepared plan_claim.
Proof. apply (in_hand_checked _ _ _ prepared_reachable). vm_compute. reflexivity. Qed.

Lemma dialog_claimed :
  exists c, db_conversations claimed !! reply_plan_repo.rpc_conversation_id plan_claim = Some c /\
    conv_channel c = CHANNEL_SYNTHETIC.
Proof. apply lookup_row. vm_compute. reflexivity. Qed.

(** The admitted row with the offer nobody can confirm. *)
Lemma legacy_row :
  exists o, db_outbox_messages legacy_admitted !! outbound_repo.obc_outbound_id legacy_claim = Some o /\
    outbound_repo.holds_admitted_lease (outbound_repo.obc_lease_token legacy_claim)
      (outbound_repo.obc_lease_version legacy_claim) o = true /\
    jget (ob_payload_json o) "booking_action" = Some (JStr "OFFER_SLOTS") /\
    require_active_offer_slots (jget (ob_payload_json o) "booking_offered_slots") = None.
Proof.
  destruct (lookup_row (db_outbox_messages legacy_admitted)
    (outbound_repo.obc_outbound_id legacy_claim)
    (fun o => (outbound_repo.holds_admitted_lease (outbound_repo.obc_lease_token legacy_claim)
        (outbound_repo.obc_lease_version legacy_claim) o,
      jget (ob_payload_json o) "booking_action",
      require_active_offer_slots (jget (ob_payload_json o) "booking_offered_slots")))
    (true, Some (JStr "OFFER_SLOTS"), None)) as (o & Ho & E).
  { vm_compute. reflexivity. }
  injection E as E1 E2 E3. exists o. split; [exact Ho|split; [exact E1|split; [exact E2|exact E3]]].
Qed.
