(* ===== verification/SelfBookingScenario.v ===== *)
(** * A self-booking, executed

    The delivered offer of [Scenario] becomes an active offer; the client's data
    is admitted, the slot is confirmed, and the command is executed: with success,
    and three times with a timeout, which leaves a command nobody takes again.
    The toy library stands for the parameters of the personal data store and of
    the booking service. *)

From S2P Require Import Prelude BookingText Encodings Models Database Statements Conversations.
From S2P Require Import SelfBooking Inbound EphemeralPii BookingCreate PiiAdmission.
From S2P Require Import SelfBookingExecution Dialog PiiProofs SelfBookingProofs System Scenario.

(** ** The parameters *)

(** A toy cipher: the text and a tag that depends on everything. *)
Definition toy_tag (key nonce text aad : string) : string :=
  let sum := fold_right (fun b n => (n * 31 + b) mod 65521)%N 7%N
    (bytes_of (key +:+ nonce +:+ text +:+ aad)) in
  string_of_list_ascii (repeat (ascii_of_N (sum mod 256)) 8 ++
                        repeat (ascii_of_N (sum / 256)) 8).

Definition toy_crypto : CryptoLib := {|
  aesgcm_encrypt := fun key nonce text aad => text +:+ toy_tag key nonce text aad;
  aesgcm_decrypt := fun key nonce ciphertext aad =>
    let size := (String.length ciphertext - 16)%nat in
    let text := str_take size ciphertext in
    if String.eqb (str_drop size ciphertext) (toy_tag key nonce text aad) then Some text else None;
  random_bytes := fun n count => string_of_list_ascii (repeat (ascii_of_N n) count)
|}.

Lemma string_of_list_ascii_length l : String.length (string_of_list_ascii l) = length l.
Proof. induction l as [|c l IH]; [done|]. cbn. by rewrite IH. Qed.

Lemma toy_tag_length key nonce text aad : String.length (toy_tag key nonce text aad) = 16%nat.
Proof. unfold toy_tag. by rewrite string_of_list_ascii_length, length_app, !repeat_length. Qed.

#[export] Instance toy_crypto_laws : CryptoLaws (H := toy_crypto).
Proof.
  split.
  - intros key nonce text aad _ _. unfold aesgcm_decrypt, aesgcm_encrypt, toy_crypto. cbv zeta.
    rewrite string_length_app, toy_tag_length.
    replace (String.length text + 16 - 16)%nat with (String.length text) by lia.
    rewrite str_take_app, str_drop_app by done. by rewrite String.eqb_refl.
  - intros. unfold aesgcm_encrypt, toy_crypto. by rewrite string_length_app, toy_tag_length.
  - intros. unfold random_bytes, toy_crypto. by rewrite string_of_list_ascii_length, repeat_length.
Qed.

Definition toy_key : string := string_of_list_ascii (repeat "k"%char 32).

Definition toy_key_text : string := Eval vm_compute in urlsafe_b64encode toy_key.

Definition pii_environ : Environ :=
  <["EPHEMERAL_PII_ACTIVE_KEY_ID"%string := "K1"%string]>
    {["EPHEMERAL_PII_KEY_K1"%string := toy_key_text]}.
Definition mac_environ : Environ :=
  <["PII_ADMISSION_MAC_ACTIVE_KEY_ID"%string := "M1"%string]>
    {["PII_ADMISSION_MAC_KEY_M1"%string := toy_key_text]}.

Definition pii_store : EphemeralPiiStore := MkEphemeralPiiStore pii_environ 3600.

Lemma pii_environ_key : has_active_key pii_environ (MkActiveEphemeralPiiKey "K1" toy_key).
Proof. split; [done|]. split; [done|]. eexists. split; vm_compute; reflexivity. Qed.

(** JSON of one field, which is all that is sent; the answer is the same booking. *)
Definition booking_answer : json := JObj
  [ ("ok", JBool true); ("bookingId", JStr "0f8fad5b-d9cb-469f-a165-70867728950e");
    ("slotId", JStr (aos_slot_id offered_slot)); ("status", JStr "SCHEDULED");
    ("startsAt", JStr (aos_starts_at offered_slot)); ("idempotentReplay", JBool false) ].

Definition toy_wire : WireLib := {|
  json_dumps_utf8 := fun d => match jget d "idempotencyKey" with Some (JStr k) => Some k | _ => None end;
  json_loads_utf8 := fun _ => Some booking_answer;
  urlsplit := fun url => Some (MkSplitUrl "https" (Some "booking") None None (Some None)
    (str_drop 15 url) "" "")
|}.

Definition booking_config : BookingEligibilityHttpConfig :=
  MkBookingEligibilityHttpConfig "https://booking" "token" (QArith_base.inject_Z 5) 4096.

Definition known_client : ClientRefResolver :=
  fun _ _ _ => CLIENT_REF_FOUND "16fd2706-8baf-433b-82eb-8c7fada847da".

Definition accepted_reply : S2sReply :=
  S2sResponse (MkS2sHttpResponse 200 [("content-type", "application/json")] "ok").
Definition timeout_reply : S2sReply := S2sTransportError "TIMEOUT".

(** ** The command *)

Definition admit_request : string := "request-1".

Definition admit_message : string :=
  Eval vm_compute in default ""%string (mac_message "+79991234567" "Anna").

Definition pii_admitted : Database :=
  after (SelfBookingPiiAdmissionService.admit_once (H := toy_crypto) pii_store mac_environ
    dialog_id admit_request "+79991234567" "Anna" (hmac_sha256 toy_key admit_message) "M1")
    (at_second 11) delivered.

Definition confirm_message : SyntheticInboundEvent :=
  MkSyntheticInboundEvent "synthetic" "dialog-1" "message-3" "yes" None None
    (Some (SelfBookingConfirmAdmissionService.MkSyntheticConfirmSelectedSlotAction
      (aos_slot_id offered_slot) admit_request true true)).

Definition confirmed : Database :=
  after (accept 600 (Some pii_store) confirm_message) (at_second 12) pii_admitted.

Definition command_view (s : Database) :=
  (fun p => (sb_id p, sb_state p, sb_attempt_count p, sb_max_attempts p,
             bool_decide (sb_conversation_id p = dialog_id))) <$>
  (map_to_list (db_create_pendings s)).*2.

Definition command_id : uuid := Eval vm_compute in match command_view confirmed with
  | [(id, _, _, _, _)] => id | _ => dialog_id end.

(** One execution on a fresh world, the service answering [reply]. *)
Definition run_execution (reply : S2sReply) (env : Env) (s : Database)
    : result SelfBookingCreateExecutionResult * World :=
  execute (H := toy_crypto) (H0 := known_client) pii_store
    (http_client (H := toy_wire) (Some (booking_config, fun _ => reply))) command_id env
    (MkWorld 0 s [] []).

Definition booked : Database := w_db (run_execution accepted_reply (at_second 13) confirmed).2.
Definition retried_once : Database := w_db (run_execution timeout_reply (at_second 13) confirmed).2.
Definition retried_twice : Database :=
  w_db (run_execution timeout_reply (at_second 14) retried_once).2.
Definition retried_out : Database :=
  w_db (run_execution timeout_reply (at_second 15) retried_twice).2.

(** ** The states are reachable *)

Lemma pii_admitted_reachable : reachable (MkSystem pii_admitted [plan_claim]).
Proof. apply after_service; [apply service_admit_pii|apply delivered_reachable]. Qed.

Lemma pii_admitted_result r s1 :
  SelfBookingPiiAdmissionService.admit_once (H := toy_crypto) pii_store mac_environ
    dialog_id admit_request "+79991234567" "Anna" (hmac_sha256 toy_key admit_message) "M1"
    (at_second 11) delivered = (Returned r, s1) -> s1 = pii_admitted.
Proof. intros H. unfold pii_admitted, after. unfold session_scope at 1. by rewrite H. Qed.

Lemma confirmed_reachable : reachable (MkSystem confirmed [plan_claim]).
Proof. apply after_service; [constructor|apply pii_admitted_reachable]. Qed.

(** One text kept for the dialog. *)
Definition name_stored : Database :=
  after (EphemeralPiiStoreOps.store_value (H := toy_crypto) pii_store "Anna" dialog_id
    PII_CLIENT_NAME BOOKING_PHONE_WRITE) (at_second 11) delivered.

Lemma name_stored_reachable : reachable (MkSystem name_stored [plan_claim]).
Proof. apply after_service; [apply service_store_pii|apply delivered_reachable]. Qed.

Lemma name_stored_result h s1 :
  EphemeralPiiStoreOps.store_value (H := toy_crypto) pii_store "Anna" dialog_id PII_CLIENT_NAME
    BOOKING_PHONE_WRITE (at_second 11) delivered = (Returned h, s1) -> s1 = name_stored.
Proof. intros H. unfold name_stored, after. unfold session_scope at 1. by rewrite H. Qed.

Lemma delivered_no_pii : db_pii_values delivered = ∅ /\ db_pii_admissions delivered = ∅.
Proof. vm_compute. split; reflexivity. Qed.

(** An execution that was run is a step. *)
Lemma run_executes reply env s r calls :
  (run_execution reply env s).1 = Returned r -> w_calls (run_execution reply env s).2 = calls ->
  executes command_id (Returned r) calls s (w_db (run_execution reply env s).2).
Proof.
  intros Hr Hc. exists toy_wire, toy_crypto, known_client, pii_store,
    (Some (booking_config, fun _ => reply)), env, (MkWorld 0 s [] []), (run_execution reply env s).2.
  split; [done|]. split; [|done]. unfold run_execution in *.
  destruct (execute _ _ _ _ _) as [r' w']. cbn in *. by rewrite Hr.
Qed.

Lemma after_execution s r calls s' claims :
  executes command_id r calls s s' -> reachable (MkSystem s claims) ->
  reachable (MkSystem s' claims).
Proof. intros He Hr. eapply rtc_r; [exact Hr|]. by eapply step_execute. Qed.

(** What was reported, and what was sent. *)
Definition execution_view (reply : S2sReply) (env : Env) (s : Database) :=
  (match (run_execution reply env s).1 with Returned r => Some (ser_outcome r) | _ => None end,
   w_calls (run_execution reply env s).2).

Definition command_key : string := Eval vm_compute in
  match (map_to_list (db_create_pendings confirmed)).*2 with [p] => sb_idempotency_key p | _ => "" end.

Definition booking_call : external_call :=
  BookingCreatePost (bookings_url booking_config) command_key.

Example command_booked :
  command_view confirmed = [(command_id, SB_READY, 0, 3, true)] /\
  execution_view accepted_reply (at_second 13) confirmed = (Some EXEC_SUCCEEDED, [booking_call]) /\
  command_view booked = [(command_id, SB_SUCCEEDED, 1, 3, true)] /\
  size (db_pii_values confirmed) = 2%nat /\ size (db_pii_values booked) = 0%nat.
Proof. vm_compute. done. Qed.

Example command_retried_out :
  execution_view timeout_reply (at_second 13) confirmed = (Some EXEC_RETRY_SCHEDULED, [booking_call]) /\
  execution_view timeout_reply (at_second 14) retried_once =
    (Some EXEC_RETRY_SCHEDULED, [booking_call]) /\
  execution_view timeout_reply (at_second 15) retried_twice =
    (Some EXEC_RETRY_SCHEDULED, [booking_call]) /\
  command_view retried_out = [(command_id, SB_READY, 3, 3, true)].
Proof. vm_compute. done. Qed.

Lemma retried_out_reachable : reachable (MkSystem retried_out [plan_claim]).
Proof.
  assert (forall env s, (exists a, (run_execution timeout_reply env s).1 = Returned a) ->
    reachable (MkSystem s [plan_claim]) ->
    reachable (MkSystem (w_db (run_execution timeout_reply env s).2) [plan_claim])) as Hstep.
  { intros env s [a Ha]. eapply after_execution, run_executes; [exact Ha|reflexivity]. }
  apply Hstep; [|apply Hstep; [|apply Hstep; [|apply confirmed_reachable]]];
    (eexists; vm_compute; reflexivity).
Qed.

Lemma booking_executed :
  exists a, ser_outcome a = EXEC_SUCCEEDED /\
    executes command_id (Returned a) [booking_call] confirmed booked.
Proof.
  destruct (run_execution accepted_reply (at_second 13) confirmed).1 as [a|e] eqn:E.
  - exists a. split; [|apply run_executes; [exact E|vm_compute; reflexivity]].
    assert (match (run_execution accepted_reply (at_second 13) confirmed).1 with
            | Returned a => ser_outcome a | Raised _ => EXEC_FAILED end = EXEC_SUCCEEDED) as H
      by (vm_compute; reflexivity).
    by rewrite E in H.
  - exfalso. assert (match (run_execution accepted_reply (at_second 13) confirmed).1 with
            | Returned _ => true | Raised _ => false end = true) as H by (vm_compute; reflexivity).
    by rewrite E in H.
Qed.

Lemma command_row_booked :
  exists p, db_create_pendings booked !! command_id = Some p /\ sb_state p = SB_SUCCEEDED.
Proof. apply lookup_row. vm_compute. reflexivity. Qed.

Lemma command_row_retried_out :
  exists p, db_create_pendings retried_out !! command_id = Some p /\
    sb_state p = SB_READY /\ sb_max_attempts p <= sb_attempt_count p.
Proof.
  assert ((fun p => (sb_state p, sb_max_attempts p, sb_attempt_count p)) <$>
    db_create_pendings retried_out !! command_id = Some (SB_READY, 3, 3)) as H
    by (vm_compute; reflexivity).
  apply lookup_row in H as (p & Hp & Hv). injection Hv as E1 E2 E3.
  exists p. split; [exact Hp|]. split; [exact E1|]. rewrite E2, E3. apply Z.le_refl.
Qed.

#[global] Opaque pii_admitted confirmed booked retried_once retried_twice retried_out
  name_stored.
