(* ===== verification/IngressScenario.v ===== *)
(** * Events of the channels, executed

    A VK message through the webhook and the worker, the community's reply that
    takes the dialog over, and a manager's message from amoCRM.  The toy library
    stands for the parameters of the VK modules; requests arrive decoded. *)

From S2P Require Import Prelude BookingText Models Database Statements Conversations ReplyPlans.
From S2P Require Import Outbound SelfBooking Messages Mirror ReplyText BookingFields Projections.
From S2P Require Import Inbound ManagerMessages HandoffExpiry ReplyDispatch VkGate Arbiter Dialog.
From S2P Require Import VkClient VkObserver Bindings IngressQueue Ingress IngressWorker System.
From S2P Require Import ManagerProofs InboundProofs DispatchProofs ClaimProofs ArbiterProofs.
From S2P Require Import IngressProofs AdapterProofs VkProofs Fresh Returns Scenario.

Definition toy_lib : PyLib := {|
  json_loads := fun _ => None;
  hmac_sha256_hex32 := fun _ _ => "0123456789abcdef0123456789abcdef";
  isoformat := str_of_int;
  fromisoformat := fun s => if nonempty_digits s then Some (digits_value 0 s) else None
|}.

Definition callback_config : VkClientCallbackConfig :=
  MkVkClientCallbackConfig true (Some 77) (Some "secret"%string) (Some "confirm"%string).

(** The client 5 writes to the community 77. *)
Definition vk_callback (text : string) (message_id : Z) : CallbackBody := BodyDict
  [ ("secret", JStr "secret"); ("group_id", JInt 77); ("type", JStr "message_new");
    ("object", JObj [("message", JObj
      [ ("out", JInt 0); ("from_id", JInt 5); ("peer_id", JInt 5); ("text", JStr text);
        ("conversation_message_id", JInt message_id); ("date", JInt 100) ])]) ].

(** Somebody answers for the community. *)
Definition vk_reply_callback : CallbackBody := BodyDict
  [ ("secret", JStr "secret"); ("group_id", JInt 77); ("type", JStr "message_reply");
    ("object", JObj [("message", JObj
      [ ("out", JInt 1); ("from_id", JInt (-77)); ("peer_id", JInt 5); ("text", JStr "hi");
        ("conversation_message_id", JInt 4); ("id", JInt 900); ("date", JInt 200) ])]) ].

Definition handle_callback (body : CallbackBody) : Session VkClientWebhookHttpResult :=
  handle_vk_client_callback (H := toy_lib) body callback_config.

Definition ingress_claim_next : Session (option ingress_repo.IngressClaim) :=
  ingress_repo.claim_next "ingress" 30 None.

Definition vk_received : Database :=
  after (handle_callback (vk_callback " hello  there " 3)) (at_second 0) empty_database.
Definition vk_claimed : Database := after ingress_claim_next (at_second 1) vk_received.
Definition vk_claim : ingress_repo.IngressClaim :=
  Eval vm_compute in found (answer ingress_claim_next (at_second 1) vk_received).
Definition vk_inbound : VkClientInboundEvent :=
  MkVkClientInboundEvent "vk" "vk-77-5" "vk-77-5-3" "hello there" (Some 100000000).

(** The proof trigger is the text of this message. *)
Definition vk_settings : Settings := MkSettings false MODE_AUTO_WRITE.
Definition vk_proof_config : VkClientOutboundConfig :=
  MkVkClientOutboundConfig true (Some "token"%string) (Some "vk-77-5"%string) true
    (Some "hello there"%string) (Some "proof"%string) (Some 77) (Some "key"%string).

Definition vk_apply : Session IngressProcessResult :=
  vk_client_in_session vk_settings (Some vk_proof_config) vk_claim vk_inbound.
Definition vk_applied : Database := after vk_apply (at_second 2) vk_claimed.

Definition vk_reply_received : Database :=
  after (handle_callback vk_reply_callback) (at_second 3) vk_applied.
Definition vk_reply_claimed : Database := after ingress_claim_next (at_second 4) vk_reply_received.
Definition vk_reply_claim : ingress_repo.IngressClaim :=
  Eval vm_compute in found (answer ingress_claim_next (at_second 4) vk_reply_received).
Definition takeover_by_anyone : VkClientExternalTakeoverConfig :=
  MkVkClientExternalTakeoverConfig TAKEOVER_ALL [] (Some "key"%string).
Definition vk_reply_apply : Session IngressProcessResult :=
  vk_reply_in_session (H := toy_lib) 600 takeover_by_anyone vk_reply_claim.
Definition vk_taken : Database := after vk_reply_apply (at_second 5) vk_reply_claimed.

(** The amoCRM chat of the synthetic dialog. *)
Definition chat_bound_db : Database :=
  after (binding_repo.insert_active_if_absent dialog_id "chat-1" None) (at_second 8) dispatched.
Definition amocrm_event : AmoCrmManagerIngressEvent :=
  MkAmoCrmManagerIngressEvent "chat-1" "m-1" "amo:chat-1:m-1" 7 "I am here" None None.
Definition amocrm_received : Database :=
  after (AmoCrmManagerIngressAdapter.accept 5 amocrm_event) (at_second 9) chat_bound_db.
Definition amocrm_claimed : Database := after ingress_claim_next (at_second 10) amocrm_received.
Definition amocrm_claim : ingress_repo.IngressClaim :=
  Eval vm_compute in found (answer ingress_claim_next (at_second 10) amocrm_received).
Definition amocrm_apply : Session IngressProcessResult := amocrm_manager_in_session 600 amocrm_claim.
Definition amocrm_applied : Database := after amocrm_apply (at_second 11) amocrm_claimed.

(** ** The states are reachable *)

Lemma vk_received_reachable : reachable (MkSystem vk_received []).
Proof. apply after_service; [apply service_vk_callback|apply rtc_refl]. Qed.
Lemma vk_claimed_reachable : reachable (MkSystem vk_claimed []).
Proof. apply after_service; [apply service_ingress_claim|apply vk_received_reachable]. Qed.
Lemma vk_applied_reachable : reachable (MkSystem vk_applied []).
Proof. apply after_service; [apply service_ingress_vk|apply vk_claimed_reachable]. Qed.
Lemma vk_reply_received_reachable : reachable (MkSystem vk_reply_received []).
Proof. apply after_service; [apply service_vk_callback|apply vk_applied_reachable]. Qed.
Lemma vk_reply_claimed_reachable : reachable (MkSystem vk_reply_claimed []).
Proof. apply after_service; [apply service_ingress_claim|apply vk_reply_received_reachable]. Qed.
Lemma chat_bound_reachable : reachable (MkSystem chat_bound_db [plan_claim]).
Proof. apply after_service; [apply service_bind|apply dispatched_reachable]. Qed.
Lemma amocrm_received_reachable : reachable (MkSystem amocrm_received [plan_claim]).
Proof. apply after_service; [apply service_receive_amocrm|apply chat_bound_reachable]. Qed.
Lemma amocrm_claimed_reachable : reachable (MkSystem amocrm_claimed [plan_claim]).
Proof. apply after_service; [apply service_ingress_claim|apply amocrm_received_reachable]. Qed.

(** What happened in them. *)
Definition event_status (s : Database) (claim : ingress_repo.IngressClaim) : option IngressStatus :=
  ing_status <$> db_ingress_events s !! ingress_repo.igc_event_id claim.

Example events_applied :
  answer (handle_callback (vk_callback " hello  there " 3)) (at_second 0) empty_database =
    Returned (MkVkClientWebhookHttpResult "ok" 200) /\
  event_status vk_received vk_claim = Some ING_RECEIVED /\
  event_status vk_claimed vk_claim = Some ING_PROCESSING /\
  event_status vk_applied vk_claim = Some ING_PROCESSED /\
  event_status vk_taken vk_reply_claim = Some ING_PROCESSED /\
  event_status amocrm_applied amocrm_claim = Some ING_PROCESSED /\
  conv_handoff_state <$> (map_to_list (db_conversations vk_taken)).*2 = [HUMAN_ACTIVE] /\
  rp_status <$> (map_to_list (db_reply_plans vk_applied)).*2 = [RP_PENDING] /\
  rp_status <$> (map_to_list (db_reply_plans vk_taken)).*2 = [RP_CANCELLED] /\
  conv_handoff_state <$> db_conversations amocrm_applied !! dialog_id = Some HUMAN_ACTIVE.
Proof. vm_compute. repeat split. Qed.

Lemma runs_returned {A} (body : Session A) env s :
  is_returned (answer body env s) = true -> exists r, runs body (Returned r) s (after body env s).
Proof.
  intros E. pose proof (runs_after body env s) as H.
  destruct (answer body env s) as [r|e]; [by exists r|discriminate].
Qed.

Lemma vk_applied_run : exists r, runs vk_apply (Returned r) vk_claimed vk_applied.
Proof. apply runs_returned. vm_compute. reflexivity. Qed.

Lemma taking_run : rtc step (MkSystem vk_applied []) (MkSystem vk_taken []).
Proof.
  eapply rtc_l; [eapply step_service; [apply (service_vk_callback (H := toy_lib))|apply runs_after]|].
  eapply rtc_l; [eapply step_service; [apply service_ingress_claim|apply runs_after]|].
  apply rtc_once. eapply step_service; [apply (service_ingress_vk_reply (H := toy_lib))|apply runs_after].
Qed.

#[global] Opaque vk_received vk_claimed vk_applied vk_reply_received vk_reply_claimed vk_taken
  chat_bound_db amocrm_received amocrm_claimed amocrm_applied.
