(* ===== verification/SystemTheorems.v ===== *)
(** * What holds in every run

    Theorems about the states [System.step] reaches from the empty database:
    the invariant, the history of rows, and the consequences a reader of the
    code relies on. *)

From S2P Require Import Prelude BookingText Models Database Statements Conversations ReplyPlans.
From S2P Require Import Outbound SelfBooking Messages Mirror ReplyText BookingFields Projections.
From S2P Require Import Inbound ManagerMessages HandoffExpiry ReplyDispatch VkGate Arbiter Dialog.
From S2P Require Import Moves ManagerProofs DispatchProofs ClaimProofs ArbiterProofs History.
From S2P Require Import System Handoff Scenario.
Import reply_plan_repo.

(** C1: every database the services can reach by committed transactions satisfies
    all PostgreSQL constraints and the dialog invariant, and every issued plan
    claim names an existing plan of its dialog. *)
Theorem reachable_invariant x : reachable x -> system_ok x.
Proof. apply reachable_ok. Qed.

Lemma reachable_invariant_witness : system_ok (MkSystem delivered [plan_claim]).
Proof. apply reachable_invariant, delivered_reachable. Defined.

(** C8: along any run rows are never deleted, their identity and fences never
    change, plan, delivery and ingress statuses only move along the transition
    tables, lease versions, attempts and fences only grow, and an admission is
    never taken back. *)
Theorem run_keeps_history x y : reachable x -> rtc step x y -> history (sys_db x) (sys_db y).
Proof. intros Hx Hxy. by apply (run_ok x y Hxy), reachable_ok. Qed.

Lemma run_keeps_history_witness : history planned outbound_claimed.
Proof.
  apply (run_keeps_history (MkSystem planned []) (MkSystem outbound_claimed [plan_claim])
    planned_reachable answering_run).
Defined.

(** C2: once a dialog's open work is revoked (by a takeover, a manager message or
    an expired handoff), whatever runs later the plans of then stay closed as
    they are and no client-visible row of then is ever admitted. *)
Theorem revocation_is_final x y cid :
  reachable x -> revoked (sys_db x) cid -> rtc step x y ->
  (forall k p, db_reply_plans (sys_db x) !! k = Some p -> rp_conversation_id p = cid ->
     exists p', db_reply_plans (sys_db y) !! k = Some p' /\ rp_status p' = rp_status p) /\
  (forall k o, db_outbox_messages (sys_db x) !! k = Some o -> ob_conversation_id o = cid ->
     client_destination (ob_destination_type o) = true -> ob_admitted_at o = None ->
     exists o', db_outbox_messages (sys_db y) !! k = Some o' /\ ob_admitted_at o' = None /\
       outbound_repo.unadmitted (ob_delivery_status o') = false).
Proof.
  intros Hx [Hps Hos] Hxy. pose proof (reachable_ok _ Hx) as Hok.
  destruct (run_ok _ _ Hxy Hok) as [_ (_ & Hp & Ho & _)]. split.
  - intros k p Hk Hc. destruct (Hp _ _ Hk) as (p' & Hk' & _ & Hle & _). exists p'. split; [done|].
    apply plan_terminal_le; [done|by eapply Hps].
  - intros k o Hk Hc Hd Ha. destruct (Ho _ _ Hk) as (o' & Hk' & _ & Hle & _ & _ & Hadm).
    pose proof (Hos _ _ Hk Hc Hd) as Hun. exists o'. split; [done|]. split.
    + destruct Hadm as [-> |[_ E]]; [done|by rewrite E in Hun].
    + apply not_true_iff_false. intros E. by rewrite (unadmitted_le _ _ Hle E) in Hun.
Qed.

Lemma revocation_is_final_witness :
  exists o', db_outbox_messages taken_over !! outbound_id = Some o' /\ ob_admitted_at o' = None /\
    outbound_repo.unadmitted (ob_delivery_status o') = false.
Proof.
  destruct row_taken_over as (o & Ho & [= Hc Hd _ Ha]).
  destruct (revocation_is_final (MkSystem taken_over [plan_claim]) (MkSystem taken_over [plan_claim])
    dialog_id taken_over_reachable revoked_taken_over (rtc_refl _ _)) as [_ H].
  assert (client_destination (ob_destination_type o) = true) as Hcl by (rewrite Hd; reflexivity).
  exact (H outbound_id o Ho Hc Hcl Ha).
Defined.

(** C5: the booking flow is called at most once per plan: after one worker was
    told to call it, no claim of the same plan, however the system ran in
    between, is told so again. *)
Theorem booking_called_once_per_plan x y cl cl' payload payload' s1 s2 :
  reachable x -> cl ∈ sys_claims x ->
  runs (booking_phase1_prepare cl) (Returned (PREPARE_RUN_REMOTE payload)) (sys_db x) s1 ->
  rtc step (MkSystem s1 (sys_claims x)) y -> cl' ∈ sys_claims y ->
  rpc_plan_id cl' = rpc_plan_id cl ->
  ~ runs (booking_phase1_prepare cl') (Returned (PREPARE_RUN_REMOTE payload')) (sys_db y) s2.
Proof.
  intros Hx Hcl Hrun Hxy Hcl' Eid Hrun'. pose proof (reachable_ok _ Hx) as [Hok Hclaims].
  assert (step x (MkSystem s1 (sys_claims x))) as Hstep
    by (destruct x; eapply step_dispatch; [done|constructor|done]).
  assert (reachable (MkSystem s1 (sys_claims x))) as Hx1 by (by eapply rtc_r).
  destruct (run_ok _ _ Hxy (reachable_ok _ Hx1)) as [[Hoky Hclaimsy] (_ & Hps & _)].
  rewrite Forall_forall in Hclaims, Hclaimsy.
  pose proof (runs_spec _ _ _ _ _
    (fun env => booking_phase1_spec env (sys_db x) cl Hok (Hclaims _ Hcl)) Hrun) as (_ & Hok1 & Hpost).
  pose proof (runs_spec _ _ _ _ _
    (fun env => booking_phase1_spec env (sys_db y) cl' Hoky (Hclaimsy _ Hcl')) Hrun')
    as (_ & _ & c2 & p2 & _ & Hp2 & _ & Hun & _).
  destruct Hpost as (c & p & _ & Hp & _ & _ & _ & Epay & p' & _ & Ep' & _ & ->). cbn in *.
  destruct (Hps (rpc_plan_id cl) p') as (p3 & Hp3 & _ & _ & _ & _ & Hmark);
    [by rewrite lookup_insert_eq|].
  rewrite Eid in Hp2. assert (p2 = p3) as -> by congruence.
  rewrite Hmark in Hun; [done|]. rewrite Ep', Epay. unfold jhas. by rewrite jget_jset_eq.
Qed.

Lemma booking_called_once_per_plan_witness :
  ~ runs (booking_phase1_prepare plan_claim) (Returned (PREPARE_RUN_REMOTE marked_payload))
      (sys_db (MkSystem prepared [plan_claim])) prepared.
Proof.
  apply (booking_called_once_per_plan (MkSystem claimed [plan_claim]) _ plan_claim plan_claim
    marked_payload _ prepared).
  - apply claimed_reachable.
  - by left.
  - apply prepared_run.
  - apply rtc_refl.
  - by left.
  - reflexivity.
Defined.

(** C7: in every reachable database a client-visible outbox row was dispatched
    from a dispatched plan of its own dialog with the same fences, never ahead of
    the dialog's.  As long as it is not admitted the dialog is the bot's and at the
    row's epoch; on the synthetic channel the row's other fences are the dialog's
    current ones too, while the VK channel is only observed, where a row may be
    left behind and is then refused by the admission. *)
Theorem unsent_rows_are_current x k o c :
  reachable x -> db_outbox_messages (sys_db x) !! k = Some o ->
  client_destination (ob_destination_type o) = true ->
  db_conversations (sys_db x) !! ob_conversation_id o = Some c ->
  (exists pid p, ob_reply_plan_id o = Some pid /\ db_reply_plans (sys_db x) !! pid = Some p /\
     rp_status p = RP_DISPATCHED /\ rp_conversation_id p = ob_conversation_id o /\
     ob_context_version o = Some (rp_context_version p) /\
     ob_manager_epoch o = rp_manager_epoch p /\ ob_event_seq_hwm o = rp_event_seq_hwm p /\
     plan_fences_le c p) /\
  (outbound_repo.unadmitted (ob_delivery_status o) = true ->
     conv_handoff_state c = BOT_ACTIVE /\ ob_manager_epoch o = conv_manager_epoch c /\
     (conv_channel c = CHANNEL_SYNTHETIC -> outbox_fences_eq c o)).
Proof.
  intros Hx Ho Hd Hc. destruct (reachable_ok _ Hx) as [(_ & (Hps & Hos & _) & _) _].
  destruct (Hos _ _ _ Ho Hc) as [Hinv _].
  destruct (Hinv Hd) as [(pid & p & H1 & Hp & H2 & Hpc & H3 & H4 & H5 & _) Hcur].
  split; [|intros Hun; destruct (Hcur Hun) as (? & ? & ?); done].
  exists pid, p. split_and!; try done. apply (Hps pid); [done|congruence].
Qed.

Lemma unsent_rows_are_current_witness :
  exists c, db_conversations dispatched !! dialog_id = Some c /\ conv_handoff_state c = BOT_ACTIVE.
Proof.
  destruct row_dispatched as (o & Ho & [= Hid Hd Hst _]), dialog_dispatched as (c & Hc & _).
  exists c. split; [exact Hc|]. rewrite <- Hid in Hc.
  apply (unsent_rows_are_current (MkSystem dispatched [plan_claim]) outbound_id o c
    dispatched_reachable Ho); [by rewrite Hd|exact Hc|by rewrite Hst].
Defined.

(** C26: in every reachable database a paused dialog owns exactly the deferred plan
    its expiry will hand back: an open client reply with the dialog's current
    fences, due at the dialog's deadline. *)
Theorem pause_has_its_plan x cid c :
  reachable x -> db_conversations (sys_db x) !! cid = Some c ->
  conv_handoff_state c = HUMAN_PAUSE ->
  exists pid p, conv_active_reply_plan_id c = Some pid /\
    db_reply_plans (sys_db x) !! pid = Some p /\ rp_conversation_id p = conv_id c /\
    (rp_status p = RP_PENDING \/ rp_status p = RP_READY) /\ plan_fences_eq c p /\
    Some (rp_not_before p) = conv_handoff_deadline_at c /\
    jget (rp_payload_json p) "deferred_for_handoff" = Some (JBool true).
Proof.
  intros Hx Hc Hst. destruct (reachable_ok _ Hx) as [(_ & (_ & _ & Hpause) & _) _].
  destruct (Hpause _ _ Hc ltac:(done) Hst) as (_ & pid & p & Hact & Hp & Hid & _ & Hs & Hf & Hnb & Hd).
  by exists pid, p.
Qed.

Lemma pause_has_its_plan_witness :
  exists c pid, db_conversations client_waits !! dialog_id = Some c /\
    conv_active_reply_plan_id c = Some pid.
Proof.
  destruct dialog_client_waits as (c & Hc & Hst).
  destruct (pause_has_its_plan (MkSystem client_waits [plan_claim]) dialog_id c
    client_waits_reachable Hc Hst) as (pid & p & Hact & _).
  exists c, pid. split; [exact Hc|exact Hact].
Defined.



(** ** Refinement *)

(** C3: the system refines the handoff machine: it starts with every dialog the
    bot's and at zero, every transaction of any service or worker moves at most
    one dialog by one event of the machine, and in every reachable database the
    columns of a dialog are those of its phase. *)
Theorem system_refines_handoff x y :
  (forall k, dialog_of (sys_db initial) k = initial_handoff) /\
  (reachable x -> step x y -> dialogs_step (dialog_of (sys_db x)) (dialog_of (sys_db y))) /\
  (reachable x -> forall k c, db_conversations (sys_db x) !! k = Some c -> phase_columns c).
Proof.
  split; [|split].
  - intros k. unfold dialog_of. cbn. by rewrite lookup_empty.
  - intros Hx Hstep. apply step_moves; [done|]. apply (reachable_ok _ Hx).
  - intros Hx k c Hc. apply checked_phase. pose proof (reachable_ok _ Hx) as [[Hcon _] _].
    by eapply conversation_checked.
Qed.

Lemma system_refines_handoff_witness :
  dialogs_step (dialog_of planned) (dialog_of claimed) /\
  ho_phase (dialog_of client_waits dialog_id) = PhasePaused (At 660000000).
Proof.
  split; [|vm_compute; reflexivity].
  apply (system_refines_handoff (MkSystem planned []) (MkSystem claimed [plan_claim]));
    [exact planned_reachable|exact claiming_step].
Defined.
