(* ===== verification/TransactionTheorems.v ===== *)
(** * What each transaction does

    One theorem per transaction of the dialog services and workers: from a
    database that satisfies the dialog invariant it either leaves exactly the
    described database, which satisfies the invariant again, or raises and
    leaves the database as it was.  Where the code has no reason to raise, the
    theorem says that it returns. *)

From S2P Require Import Prelude BookingText Models Database Statements Conversations ReplyPlans.
From S2P Require Import Outbound SelfBooking Messages Mirror ReplyText BookingFields Projections.
From S2P Require Import Inbound ManagerMessages HandoffExpiry ReplyDispatch VkGate Arbiter Dialog.
From S2P Require Import Moves ManagerProofs ExpiryProofs InboundProofs DispatchProofs ClaimProofs.
From S2P Require Import ArbiterProofs History Progress System Fresh Returns ReturnsPlans ReturnsWorkers.
From S2P Require Import Scenario.

(** ** The gate to the client *)

(** C9: [_admit_in_session] admits a claimed row exactly when the dialog is open,
    the bot's and not taken over, the row is processed under the claim's lease,
    due, and carries the dialog's current context version, manager epoch and
    event number, as does its dispatched plan; it then changes nothing but that
    row's status and admission time. *)
Theorem admission_gate settings env s claim now :
  dialog_ok s ->
  wp (session_scope (admit_in_session settings claim now))
    (fun r s' => dialog_ok s' /\ admitted_post s claim (default (env_now env) now) r s')
    (fun _ s' => s' = s) env s /\
  (forall c o, admissible s claim (default (env_now env) now) c o ->
     outbound_repo.obc_manager_epoch claim = ob_manager_epoch o ->
     outbound_repo.obc_event_seq_hwm claim = ob_event_seq_hwm o -> sendable o ->
     exists r s', session_scope (admit_in_session settings claim now) env s = (Returned r, s')).
Proof.
  intros Hok. split; [by apply admit_in_session_spec|]. intros c o Hadm He Hq Hs.
  eapply total_returns, admit_total; [apply Hok|exact Hadm|done..].
Qed.

Lemma admission_gate_witness :
  wp (session_scope (admit_in_session draft_only outbound_claim None))
    (fun r s' => dialog_ok s' /\ admitted_post outbound_claimed outbound_claim (9 * 1000000) r s')
    (fun _ s' => s' = outbound_claimed) (at_second 9) outbound_claimed /\
  is_returned (answer (admit_in_session draft_only outbound_claim None) (at_second 9)
    outbound_claimed) = true.
Proof.
  split; [|vm_compute; reflexivity].
  apply (admission_gate draft_only (at_second 9) outbound_claimed outbound_claim None
    (reachable_dialog_ok _ _ outbound_claimed_reachable)).
Defined.

(** ** Events of a dialog *)







(** C13: one expiry step hands one due dialog back to the bot: a silent handoff
    loses its open work, a pause keeps its deferred plan, now due with current
    fences; the quarantine branch is never taken; when nothing is returned every
    due dialog is locked by somebody else.  Nothing is refused while the
    database's clock does not run backwards. *)
Theorem expiry_effect env s :
  dialog_ok s ->
  let t := env_statement_timestamp env (db_statement_clock s) in
  let moment := env_statement_timestamp env (S (db_statement_clock s)) in
  wp expire_one
    (fun r s' =>
       match r with
       | Some h => expiry_goal s (her_conversation_id h) t moment h s'
       | None =>
           (forall cid c, db_conversations s !! cid = Some c ->
              conversation_repo.handoff_due t c = true -> env_locked env (conv_id c) = true) /\
           s' = s <| db_statement_clock ::= S |>
       end)
    (fun _ s' => s' = s) env s /\
  (clock_runs env -> exists r s', expire_one env s = (Returned r, s')).
Proof.
  intros Hok t moment. split; [by apply expire_one_spec|]. intros Hclock.
  by eapply total_returns, total_expire_one.
Qed.

Lemma expiry_effect_witness :
  wp expire_one
    (fun r s' =>
       match r with
       | Some h => expiry_goal client_waits (her_conversation_id h) (700 * 1000000)
                     (700 * 1000000) h s'
       | None => True
       end)
    (fun _ s' => s' = client_waits) (at_second 700) client_waits /\
  exists r s', expire_one (at_second 700) client_waits = (Returned r, s').
Proof.
  destruct (expiry_effect (at_second 700) client_waits
    (reachable_dialog_ok _ _ client_waits_reachable)) as [H1 H2].
  split; [|apply H2; intros n; reflexivity].
  eapply wp_mono; [exact H1| |].
  - intros [h|] s' H; [exact H|exact I].
  - intros e s' H. exact H.
Defined.

(** ** The queue of reply plans *)

(** C29: a claimed plan was due, had attempts left, was free or abandoned, and its
    dialog is open, the bot's and at the plan's fences; the claim takes a new
    lease version and one attempt.  The transaction returns as long as lease
    versions have room. *)
Theorem plan_claim_effect env s worker lease now :
  dialog_ok s ->
  wp (session_scope (claim_one_plan worker lease now))
    (claim_goal s (default (env_now env) now) worker lease) (fun _ s' => s' = s) env s /\
  (supply_ok s -> (db_uuid_supply s <= 2 ^ 122)%N -> plans_room s -> 0 < lease ->
   exists r s', session_scope (claim_one_plan worker lease now) env s = (Returned r, s')).
Proof.
  intros Hok. split; [by apply claim_one_plan_spec|]. intros Hsup Huuid Hroom Hlease.
  eapply total_returns, total_session_scope, total_claim_one; [apply Hok|done..].
Qed.

Lemma plan_claim_effect_witness :
  wp (session_scope (claim_one_plan "worker" 30 None))
    (claim_goal planned (6 * 1000000) "worker" 30) (fun _ s' => s' = planned) (at_second 6) planned /\
  answer (claim_one_plan "worker" 30 None) (at_second 6) planned = Returned (Some plan_claim).
Proof.
  split; [|vm_compute; reflexivity].
  apply (proj1 (plan_claim_effect (at_second 6) planned "worker" 30 None
    (reachable_dialog_ok _ _ planned_reachable))).
Defined.



(** The first booking transaction tells a worker to call the booking flow only
    for a plan that carries neither marker, and leaves the started marker
    committed; a started plan is reported as interrupted, a resolved one with
    its saved result.  It returns for a worker that still holds the plan. *)
Theorem booking_prepare_effect env s claim :
  dialog_ok s -> plan_claim_ok s claim ->
  wp (session_scope (booking_phase1_prepare claim))
    (fun r s' => dialog_ok s' /\ prepare_post s claim r s') (fun _ s' => s' = s) env s /\
  (plan_in_hand s claim ->
   exists r s', session_scope (booking_phase1_prepare claim) env s = (Returned r, s')).
Proof.
  intros Hok Hclaim. split; [by apply booking_phase1_spec|]. intros Hhand.
  by eapply total_returns, total_session_scope, total_booking_prepare.
Qed.

Lemma booking_prepare_effect_witness :
  wp (session_scope (booking_phase1_prepare plan_claim))
    (fun r s' => dialog_ok s' /\ prepare_post claimed plan_claim r s')
    (fun _ s' => s' = claimed) (at_second 6) claimed /\
  answer (booking_phase1_prepare plan_claim) (at_second 6) claimed =
    Returned (PREPARE_RUN_REMOTE marked_payload).
Proof.
  split; [|vm_compute; reflexivity].
  apply (proj1 (booking_prepare_effect (at_second 6) claimed plan_claim
    (reachable_dialog_ok _ _ claimed_reachable) plan_claim_named)).
Defined.

(** The second booking transaction dispatches the plan into its one pending
    row, which carries the plan's fences and its idempotency key; it returns for
    a worker that still holds the plan. *)
Theorem booking_finalize_effect env s claim payload fields persist :
  dialog_ok s -> plan_claim_ok s claim ->
  wp (session_scope (booking_phase2_finalize claim payload fields persist))
    (fun r s' => dispatch_goal s claim SYNTHETIC_OUTBOUND r s') (fun _ s' => s' = s) env s /\
  (plan_in_hand s claim ->
   exists r s', session_scope (booking_phase2_finalize claim payload fields persist) env s =
     (Returned r, s')).
Proof.
  intros Hok Hclaim. split; [by apply booking_phase2_spec|]. intros Hhand.
  by eapply total_returns, total_session_scope, total_booking_finalize.
Qed.

Lemma booking_finalize_effect_witness :
  wp (session_scope (booking_phase2_finalize plan_claim marked_payload offer_fields true))
    (fun r s' => dispatch_goal prepared plan_claim SYNTHETIC_OUTBOUND r s')
    (fun _ s' => s' = prepared) (at_second 7) prepared /\
  exists r s', session_scope (booking_phase2_finalize plan_claim marked_payload offer_fields true)
    (at_second 7) prepared = (Returned r, s').
Proof.
  destruct (booking_finalize_effect (at_second 7) prepared plan_claim marked_payload offer_fields
    true (reachable_dialog_ok _ _ prepared_reachable) plan_claim_named_prepared) as [H1 H2].
  split; [exact H1|]. apply H2. exact plan_in_hand_prepared.
Defined.

(** A failed plan gives its lease back and waits for the retry, or is dead
    after its last attempt; its payload, markers included, is untouched.  A worker
    that still holds the plan is never refused. *)
Theorem plan_failure_effect env s retry claim code :
  dialog_ok s ->
  wp (session_scope (fail_claimed_plan retry claim code))
    (fun p' s' => dialog_ok s' /\ failed_post s retry (env_now env) claim code p' s')
    (fun _ s' => s' = s) env s /\
  (plan_claim_ok s claim -> plan_in_hand s claim ->
   exists p' s', session_scope (fail_claimed_plan retry claim code) env s = (Returned p', s')).
Proof.
  intros Hok. split; [by apply fail_claimed_plan_spec|]. intros Hclaim Hhand.
  by eapply total_returns, total_session_scope, total_fail_plan.
Qed.

Lemma plan_failure_effect_witness :
  wp (session_scope (fail_claimed_plan 1 plan_claim "RuntimeError"))
    (fun p' s' => dialog_ok s' /\
       failed_post claimed 1 (7 * 1000000) plan_claim "RuntimeError" p' s')
    (fun _ s' => s' = claimed) (at_second 7) claimed /\
  exists p' s', session_scope (fail_claimed_plan 1 plan_claim "RuntimeError") (at_second 7) claimed =
    (Returned p', s').
Proof.
  destruct (plan_failure_effect (at_second 7) claimed 1 plan_claim "RuntimeError"
    (reachable_dialog_ok _ _ claimed_reachable)) as [H1 H2].
  split; [exact H1|]. exact (H2 plan_claim_named plan_in_hand_claimed).
Defined.

(** A worker whose plan lease is gone cannot dispatch. *)
Lemma stale_plan_worker_refused env s claim A (body : Session A) :
  plan_lease_lost s claim -> dispatch claim A body ->
  exists e, session_scope body env s = (Raised e, s) /\ stale_or_missing e.
Proof.
  intros Hlost Hbody.
  assert (wp (session_scope body) (fun _ _ => False) (fun e s' => stale_or_missing e /\ s' = s) env s)
    as H by (destruct Hbody; by apply wp_lock_and_validate_lost).
  unfold wp in H. destruct (session_scope body env s) as [[a|e] s']; [done|].
  destruct H as [H ->]. by exists e.
Qed.

(** ** The queue of outbox rows *)

(** C31: claiming an outbox row never fails; the row was due, had attempts left or
    was admitted already, was free or abandoned; when nothing is returned every
    claimable row is locked by somebody else. *)
Theorem outbound_claim_commits env s worker lease now :
  dialog_ok s -> outbound_room s -> 0 < lease ->
  exists r s', session_scope (outbound_repo.claim_next worker lease now) env s = (Returned r, s') /\
    outbound_claim_goal (env_locked env) s (default (env_now env) now) worker lease r s'.
Proof.
  intros Hok Hroom Hlease.
  eapply total_spec; [apply outbound_claim_total; [apply Hok|done..]|by apply outbound_claim_next_spec].
Qed.

Lemma outbound_claim_commits_witness :
  exists r s', session_scope (outbound_repo.claim_next "sender" 30 None) (at_second 8) dispatched =
      (Returned r, s') /\
    outbound_claim_goal (fun _ => false) dispatched (8 * 1000000) "sender" 30 r s'.
Proof.
  apply (outbound_claim_commits (at_second 8) dispatched "sender" 30 None
    (reachable_dialog_ok _ _ dispatched_reachable) outbound_room_dispatched).
  reflexivity.
Defined.

Lemma unadmitted_failure_commits env s (claim : outbound_repo.OutboundClaim) retry now o :
  dialog_ok s -> db_outbox_messages s !! outbound_repo.obc_outbound_id claim = Some o ->
  outbound_repo.holds_lease OB_PROCESSING (outbound_repo.obc_lease_token claim)
    (outbound_repo.obc_lease_version claim) o = true ->
  exists o' s', session_scope (outbound_repo.fail_with_lease (outbound_repo.obc_outbound_id claim)
      (outbound_repo.obc_lease_token claim) (outbound_repo.obc_lease_version claim) retry now) env s =
      (Returned o', s') /\ dialog_ok s' /\
    failed_row s claim OB_PROCESSING
      (if ob_max_attempts o' <=? ob_attempt_count o' then OB_DEAD else OB_FAILED) o' s'.
Proof.
  intros Hok Ho Hl.
  eapply total_spec; [eapply fail_total; [apply Hok|exact Ho|done]|by apply fail_with_lease_spec].
Qed.

Lemma admitted_failure_commits env s (claim : outbound_repo.OutboundClaim) permanent retry now o :
  dialog_ok s -> db_outbox_messages s !! outbound_repo.obc_outbound_id claim = Some o ->
  outbound_repo.holds_admitted_lease (outbound_repo.obc_lease_token claim)
    (outbound_repo.obc_lease_version claim) o = true ->
  exists o' s', session_scope (outbound_repo.fail_admitted_delivery_with_lease
      (outbound_repo.obc_outbound_id claim) (outbound_repo.obc_lease_token claim)
      (outbound_repo.obc_lease_version claim) permanent retry now) env s =
      (Returned o', s') /\ dialog_ok s' /\
    failed_row s claim OB_ADMITTED
      (if permanent || (ob_max_attempts o' <=? ob_attempt_count o') then OB_DEAD else OB_ADMITTED)
      o' s'.
Proof.
  intros Hok Ho Hl.
  eapply total_spec; [eapply fail_admitted_total; [apply Hok|exact Ho|done]|by apply fail_admitted_spec].
Qed.

(** A sender that holds its lease can always report a failure.  An unadmitted
    row waits for the retry, or is dead after its last attempt.  An admitted one
    stays admitted, without a lease and to be sent again, or is dead when the
    failure is permanent or the attempts are used up; it never becomes unadmitted
    again. *)
Theorem outbound_failure_commits env s (claim : outbound_repo.OutboundClaim) permanent retry now o :
  dialog_ok s -> db_outbox_messages s !! outbound_repo.obc_outbound_id claim = Some o ->
  (outbound_repo.holds_lease OB_PROCESSING (outbound_repo.obc_lease_token claim)
     (outbound_repo.obc_lease_version claim) o = true ->
   exists o' s', session_scope (outbound_repo.fail_with_lease (outbound_repo.obc_outbound_id claim)
       (outbound_repo.obc_lease_token claim) (outbound_repo.obc_lease_version claim) retry now)
       env s = (Returned o', s') /\ dialog_ok s' /\
     failed_row s claim OB_PROCESSING
       (if ob_max_attempts o' <=? ob_attempt_count o' then OB_DEAD else OB_FAILED) o' s') /\
  (outbound_repo.holds_admitted_lease (outbound_repo.obc_lease_token claim)
     (outbound_repo.obc_lease_version claim) o = true ->
   exists o' s', session_scope (outbound_repo.fail_admitted_delivery_with_lease
       (outbound_repo.obc_outbound_id claim) (outbound_repo.obc_lease_token claim)
       (outbound_repo.obc_lease_version claim) permanent retry now) env s =
       (Returned o', s') /\ dialog_ok s' /\
     failed_row s claim OB_ADMITTED
       (if permanent || (ob_max_attempts o' <=? ob_attempt_count o') then OB_DEAD
        else OB_ADMITTED) o' s').
Proof.
  intros Hok Ho. split; intros Hl;
    [by eapply unadmitted_failure_commits|by eapply admitted_failure_commits].
Qed.

Lemma outbound_failure_commits_witness :
  (exists o' s', session_scope (outbound_repo.fail_with_lease
      (outbound_repo.obc_outbound_id outbound_claim)
      (outbound_repo.obc_lease_token outbound_claim)
      (outbound_repo.obc_lease_version outbound_claim) 1 None) (at_second 9) outbound_claimed =
      (Returned o', s') /\ dialog_ok s' /\
    failed_row outbound_claimed outbound_claim OB_PROCESSING
      (if ob_max_attempts o' <=? ob_attempt_count o' then OB_DEAD else OB_FAILED) o' s') /\
  exists o' s', session_scope (outbound_repo.fail_admitted_delivery_with_lease
      (outbound_repo.obc_outbound_id outbound_claim)
      (outbound_repo.obc_lease_token outbound_claim)
      (outbound_repo.obc_lease_version outbound_claim) false 1 None) (at_second 10) admitted =
      (Returned o', s') /\ dialog_ok s' /\
    failed_row admitted outbound_claim OB_ADMITTED
      (if false || (ob_max_attempts o' <=? ob_attempt_count o') then OB_DEAD else OB_ADMITTED) o' s'.
Proof.
  split.
  - destruct row_outbound_claimed as (o & Ho & Hl).
    apply (proj1 (outbound_failure_commits (at_second 9) outbound_claimed outbound_claim false 1 None o
      (reachable_dialog_ok _ _ outbound_claimed_reachable) Ho) Hl).
  - destruct row_admitted as (o & Ho & Hl).
    apply (proj2 (outbound_failure_commits (at_second 10) admitted outbound_claim false 1 None o
      (reachable_dialog_ok _ _ admitted_reachable) Ho) Hl).
Defined.

(** C32: a delivery is recorded only for a row admitted under the claim's lease; the
    row becomes DELIVERED, keeps its admission time and loses its lease.  A sender
    that holds the lease is not refused when the row offers no slots. *)
Theorem delivery_effect env s claim pid now :
  dialog_ok s ->
  wp (session_scope (record_delivered claim pid now))
    (fun r s' => dialog_ok s' /\ delivered_post s claim r s') (fun _ s' => s' = s) env s /\
  (forall o, supply_ok s -> (db_uuid_supply s <= 2 ^ 122)%N ->
   is_not_null (db_conversations s !! outbound_repo.obc_conversation_id claim) = true ->
   db_outbox_messages s !! outbound_repo.obc_outbound_id claim = Some o ->
   outbound_repo.holds_admitted_lease (outbound_repo.obc_lease_token claim)
     (outbound_repo.obc_lease_version claim) o = true ->
   jget (ob_payload_json o) "booking_action" <> Some (JStr "OFFER_SLOTS") ->
   exists r s', session_scope (record_delivered claim None now) env s = (Returned r, s')).
Proof.
  intros Hok. split; [by apply record_delivered_spec|]. intros o Hsup Huuid Hc Ho Hl Hoffer.
  by eapply total_returns, total_session_scope, (total_record_delivered env s claim o).
Qed.

Lemma delivery_effect_witness :
  wp (session_scope (record_delivered outbound_claim None None))
    (fun r s' => dialog_ok s' /\ delivered_post admitted outbound_claim r s')
    (fun _ s' => s' = admitted) (at_second 10) admitted /\
  is_returned (answer (record_delivered outbound_claim None None) (at_second 10) admitted) = true.
Proof.
  split; [|vm_compute; reflexivity].
  apply (proj1 (delivery_effect (at_second 10) admitted outbound_claim None None
    (reachable_dialog_ok _ _ admitted_reachable))).
Defined.

(** C33: the transaction that records a delivery refuses a message whose offered
    slots the active-offer table cannot hold, although it was sent: the row stays
    admitted, to be claimed and sent again. *)
Theorem unbindable_offer_stays_admitted env s claim o now :
  dialog_ok s ->
  is_not_null (db_conversations s !! outbound_repo.obc_conversation_id claim) = true ->
  db_outbox_messages s !! outbound_repo.obc_outbound_id claim = Some o ->
  outbound_repo.holds_admitted_lease (outbound_repo.obc_lease_token claim)
    (outbound_repo.obc_lease_version claim) o = true ->
  jget (ob_payload_json o) "booking_action" = Some (JStr "OFFER_SLOTS") ->
  require_active_offer_slots (jget (ob_payload_json o) "booking_offered_slots") = None ->
  session_scope (record_delivered claim None now) env s =
    (Raised (Exn OutboundArbiterDenied "ACTIVE_OFFER_OFFER_SLOTS_INVALID"), s).
Proof. intros Hok Hc Ho Hl. by apply (delivery_undone env s claim o). Qed.

Lemma unbindable_offer_stays_admitted_witness :
  session_scope (record_delivered legacy_claim None None) (at_second 10) legacy_admitted =
    (Raised (Exn OutboundArbiterDenied "ACTIVE_OFFER_OFFER_SLOTS_INVALID"), legacy_admitted).
Proof.
  destruct legacy_row as (o & Ho & Hl & Ha & Hs).
  apply (unbindable_offer_stays_admitted (at_second 10) legacy_admitted legacy_claim o None
    (reachable_dialog_ok _ _ legacy_admitted_reachable)); [|exact Ho|exact Hl|exact Ha|exact Hs].
  vm_compute. reflexivity.
Defined.

(** A sender whose lease is gone cannot report anything. *)
Lemma stale_sender_refused env s (claim : outbound_repo.OutboundClaim) o c :
  dialog_ok s -> db_outbox_messages s !! outbound_repo.obc_outbound_id claim = Some o ->
  db_conversations s !! outbound_repo.obc_conversation_id claim = Some c ->
  ob_lease_token o <> Some (outbound_repo.obc_lease_token claim) \/
    ob_lease_version o <> outbound_repo.obc_lease_version claim ->
  let refused {A} (body : Session A) :=
    session_scope body env s = (Raised (Exn StaleOutboundLeaseError "OUTBOUND_STALE_LEASE"), s) in
  (forall pid now, refused (record_delivered claim pid now)) /\
  (forall retry now, refused (outbound_repo.fail_with_lease (outbound_repo.obc_outbound_id claim)
     (outbound_repo.obc_lease_token claim) (outbound_repo.obc_lease_version claim) retry now)) /\
  (forall permanent retry now, refused (outbound_repo.fail_admitted_delivery_with_lease
     (outbound_repo.obc_outbound_id claim) (outbound_repo.obc_lease_token claim)
     (outbound_repo.obc_lease_version claim) permanent retry now)).
Proof.
  intros [Hcon _] Ho Hc Hlost.
  assert (forall st, outbound_repo.holds_lease st (outbound_repo.obc_lease_token claim)
    (outbound_repo.obc_lease_version claim) o = false) as Hno.
  { intros st. apply not_true_iff_false. intros (_ & E1 & E2)%outbox_lease_true. tauto. }
  assert (forall A (body : Session A),
    wp body (fun _ _ => False)
      (fun e _ => e = Exn StaleOutboundLeaseError "OUTBOUND_STALE_LEASE") env s ->
    session_scope body env s = (Raised (Exn StaleOutboundLeaseError "OUTBOUND_STALE_LEASE"), s))
    as Hrefused.
  { intros A body H. unfold wp, session_scope in *.
    destruct (body env s) as [[a|e] s']; [done|by subst]. }
  split; [|split]; intros *; apply Hrefused.
  - apply wp_bind, wp_lock_for_update; [|by rewrite Hc]. intros _ _.
    apply wp_bind, wp_mark_delivered_lost; [by apply outbox_keyed| |done].
    intros o' Ho'. assert (o' = o) as -> by congruence.
    unfold outbound_repo.holds_admitted_lease. by rewrite Hno.
  - apply wp_bind, wp_resolve_moment, wp_bind, wp_get_by_id. dbsimpl. rewrite Ho.
    apply wp_bind, wp_ret, wp_bind. rewrite Hno. by apply wp_raise.
  - apply wp_bind, wp_resolve_moment, wp_bind, wp_get_by_id. dbsimpl. rewrite Ho.
    apply wp_bind, wp_ret, wp_bind. unfold outbound_repo.holds_admitted_lease. rewrite Hno.
    by apply wp_raise.
Qed.

(** C39: a worker whose lease is gone changes nothing.  A plan worker that lost its
    plan cannot dispatch: each of the three dispatching transactions raises
    StaleReplyPlanLeaseError (or finds no dialog).  A sender that lost its row
    cannot record a delivery, give the row back or report a transport failure. *)
Theorem stale_workers_refused env s :
  (forall claim A (body : Session A),
     plan_lease_lost s claim -> dispatch claim A body ->
     exists e, session_scope body env s = (Raised e, s) /\ stale_or_missing e) /\
  (forall (claim : outbound_repo.OutboundClaim) o c,
     dialog_ok s -> db_outbox_messages s !! outbound_repo.obc_outbound_id claim = Some o ->
     db_conversations s !! outbound_repo.obc_conversation_id claim = Some c ->
     ob_lease_token o <> Some (outbound_repo.obc_lease_token claim) \/
       ob_lease_version o <> outbound_repo.obc_lease_version claim ->
     let refused {A} (body : Session A) :=
       session_scope body env s =
         (Raised (Exn StaleOutboundLeaseError "OUTBOUND_STALE_LEASE"), s) in
     (forall pid now, refused (record_delivered claim pid now)) /\
     (forall retry now, refused (outbound_repo.fail_with_lease
        (outbound_repo.obc_outbound_id claim) (outbound_repo.obc_lease_token claim)
        (outbound_repo.obc_lease_version claim) retry now)) /\
     (forall permanent retry now, refused (outbound_repo.fail_admitted_delivery_with_lease
        (outbound_repo.obc_outbound_id claim) (outbound_repo.obc_lease_token claim)
        (outbound_repo.obc_lease_version claim) permanent retry now))).
Proof.
  split; [intros; by eapply stale_plan_worker_refused|].
  intros claim o c Hok Ho Hc Hlost. exact (stale_sender_refused env s claim o c Hok Ho Hc Hlost).
Qed.

Lemma stale_workers_refused_witness :
  (exists e, session_scope (dispatch_non_booking plan_claim) (at_second 50) dispatched =
    (Raised e, dispatched) /\ stale_or_missing e) /\
  session_scope (record_delivered outbound_claim None None) (at_second 11) delivered =
    (Raised (Exn StaleOutboundLeaseError "OUTBOUND_STALE_LEASE"), delivered).
Proof.
  split.
  - apply (proj1 (stale_workers_refused (at_second 50) dispatched) plan_claim _ _
      plan_lease_lost_dispatched (dispatch_plain plan_claim)).
  - destruct row_delivered as (o & c & Ho & Hc & Hlease).
    apply (proj2 (stale_workers_refused (at_second 11) delivered) outbound_claim o c
      (reachable_dialog_ok _ _ delivered_reachable) Ho Hc).
    left. rewrite Hlease. discriminate.
Defined.
