(* ===== verification/WorkerTheorems.v ===== *)
(** * What the workers tell the outside

    Theorems about whole workers, transactions and outside calls in between,
    under any interference by other workers that itself keeps the invariant. *)

From S2P Require Import Prelude BookingText Models Database Statements Conversations ReplyPlans.
From S2P Require Import Outbound SelfBooking Messages Mirror ReplyText BookingFields Projections.
From S2P Require Import Inbound ManagerMessages HandoffExpiry ReplyDispatch VkGate Arbiter Dialog.
From S2P Require Import Moves Frames ManagerProofs ExpiryProofs DispatchProofs ClaimProofs.
From S2P Require Import ArbiterProofs History Progress System WorkerProofs Scenario.

(** A world on a database, nothing told yet, and one clock for all transactions. *)
Definition world_of (s : Database) : World := MkWorld 0 s [] [].

(** C4: one run of the arbiter on a claim calls a transport at most once, only for a
    row that is durably admitted, with the text stored in that row, and to the
    VK peer of the row's dialog only through the gate; when it reports success
    the row is DELIVERED. *)
Theorem arbiter_tells_admitted_rows_once `{other : Interference} `{!Orderly other}
    settings vk_config forced vk_sender claim now envs w :
  constraints_ok (w_db w) ->
  wp (OutboundArbiter.admit_claimed settings vk_config forced vk_sender claim now)
    (fun res w' => transport_ok settings vk_config claim w w' /\ recorded claim (w_db w') /\
       res = MkArbiterAdmitResult true (outbound_repo.obc_outbound_id claim) OB_DELIVERED)
    (fun _ w' => transport_ok settings vk_config claim w w') envs w.
Proof. apply admit_claimed_spec; done. Qed.

Definition no_sender (n : nat) (peer : Z) (text : string) (id : uuid) : result VkClientSendResult :=
  Raised (Exn RuntimeError "no VK transport").

Lemma arbiter_tells_admitted_rows_once_witness :
  (let w := world_of outbound_claimed in
   wp (OutboundArbiter.admit_claimed (H := alone) draft_only None OUT_SUCCESS no_sender
         outbound_claim None)
     (fun res w' => transport_ok draft_only None outbound_claim w w' /\
        recorded outbound_claim (w_db w') /\ res = MkArbiterAdmitResult true outbound_id OB_DELIVERED)
     (fun _ w' => transport_ok draft_only None outbound_claim w w') (fun _ => at_second 9) w) /\
  w_calls (OutboundArbiter.admit_claimed (H := alone) draft_only None OUT_SUCCESS no_sender
    outbound_claim None (fun _ => at_second 9) (world_of outbound_claimed)).2 =
    [SinkCall (uuid_str outbound_id) (Some (render_client_message KIND_OFFER_SLOTS))].
Proof.
  split; [|vm_compute; reflexivity].
  apply (arbiter_tells_admitted_rows_once (other := alone) draft_only None OUT_SUCCESS no_sender
    outbound_claim None (fun _ => at_second 9) (world_of outbound_claimed)).
  apply (reachable_dialog_ok _ _ outbound_claimed_reachable).
Defined.

(** C28: dispatching a claim calls the booking flow at most once, only for a plan
    whose started marker was absent before and is committed after; a result
    names the plan's DISPATCHED state and its client-visible row. *)
Theorem dispatch_calls_booking_once `{other : Interference} `{!Peaceful other}
    resolve retry claim envs w :
  dialog_ok (w_db w) -> plan_claim_ok (w_db w) claim ->
  wp (ReplyPlanWorker.dispatch_claimed resolve retry claim)
    (fun r w' => dispatch_trace claim w w' /\ dispatch_done claim r (w_db w'))
    (fun _ w' => dispatch_trace claim w w') envs w.
Proof. apply dispatch_claimed_spec. Qed.

Definition always_offer (n : nat) (payload : jdict) : result jdict := Returned offer_fields.

Lemma dispatch_calls_booking_once_witness :
  (let w := world_of claimed in
   wp (ReplyPlanWorker.dispatch_claimed (H := alone) always_offer 1 plan_claim)
     (fun r w' => dispatch_trace plan_claim w w' /\ dispatch_done plan_claim r (w_db w'))
     (fun _ w' => dispatch_trace plan_claim w w') (fun _ => at_second 6) w) /\
  w_calls (ReplyPlanWorker.dispatch_claimed (H := alone) always_offer 1 plan_claim
    (fun _ => at_second 6) (world_of claimed)).2 = [BookingFlowCall marked_payload].
Proof.
  split; [|vm_compute; reflexivity].
  apply (dispatch_calls_booking_once (other := alone) always_offer 1 plan_claim
    (fun _ => at_second 6) (world_of claimed) (reachable_dialog_ok _ _ claimed_reachable)
    plan_claim_named).
Defined.

(** ** The expiry worker *)

Section Expiry.
Context `{other : Interference, Hpeace : !Peaceful other}.

End Expiry.



(** The in-process sink delivers an outbound id once: after a successful
    delivery any request with the same id succeeds without a call. *)
Theorem sink_delivers_once forced forced' request request' envs w w1 res :
  sink_deliver forced request envs w = (Returned res, w1) -> sres_outcome res = OUT_SUCCESS ->
  sor_outbound_id request' = sor_outbound_id request ->
  (length (w_calls w1) <= S (length (w_calls w)))%nat /\
  sink_deliver forced' request' envs w1 =
    (Returned (MkSyntheticOutboundResult OUT_SUCCESS None None), w1).
Proof.
  intros Hrun Hres Eid. unfold sink_deliver, mbind, M_bind, get_state in *. rewrite Eid.
  destruct (str_in (sor_outbound_id request) (w_delivered_ids w)) eqn:Hin.
  - injection Hrun as <- <-. rewrite Hin. split; [lia|done].
  - unfold call_outside, put_state, mret, M_ret in Hrun. cbn in Hrun.
    destruct forced; injection Hrun as <- <-; try done. cbn. rewrite String.eqb_refl.
    split; [|done]. rewrite length_app. cbn. lia.
Qed.

Definition some_request : SyntheticOutboundRequest :=
  MkSyntheticOutboundRequest "outbound-1" "dialog-1" None None None (JStr "unknown") (Some "hello").

Lemma sink_delivers_once_witness :
  let w1 := (sink_deliver OUT_SUCCESS some_request (fun _ => at_second 0)
    (world_of empty_database)).2 in
  sink_deliver OUT_PERMANENT_ERROR some_request (fun _ => at_second 0) w1 =
    (Returned (MkSyntheticOutboundResult OUT_SUCCESS None None), w1).
Proof.
  eapply (sink_delivers_once OUT_SUCCESS OUT_PERMANENT_ERROR some_request some_request
    (fun _ => at_second 0) (world_of empty_database)); reflexivity.
Defined.
