(* ===== verification/IngressTheorems.v ===== *)
(** * What the ingress queue promises

    Theorems about events from their receipt to their effect: the answer of the
    webhook, the claim, the effect of every kind of event and that it happens
    once. *)

From S2P Require Import Prelude BookingText Models Database Statements Conversations ReplyPlans.
From S2P Require Import Outbound SelfBooking Messages Mirror ReplyText BookingFields Projections.
From S2P Require Import Inbound ManagerMessages HandoffExpiry ReplyDispatch VkGate Arbiter Dialog.
From S2P Require Import VkClient VkObserver Bindings IngressQueue Ingress IngressWorker System.
From S2P Require Import Frames ManagerProofs InboundProofs DispatchProofs ClaimProofs ArbiterProofs.
From S2P Require Import History IngressProofs AdapterProofs VkProofs AmocrmProofs Progress Fresh.
From S2P Require Import Returns ReturnsIngress Scenario IngressScenario.
Import ingress_repo.

(** A delivery that no stored event contradicts. *)
Definition deliverable `{PyLib} (s : Database) (m : VkClientNormalizedMessage)
    (event : VkClientIngressEvent) : Prop :=
  vk_client_external_event_id (vnm_group_id m) (vnm_from_id m) (vnm_conversation_message_id m) =
    Some (vge_external_event_id event) /\
  vk_client_external_conversation_id (vnm_group_id m) (vnm_from_id m) =
    Some (vge_external_conversation_id event) /\
  vge_text event = vnm_text m /\ vge_received_at event = Some (vnm_occurred_at m) /\
  vge_correlation_id event = None /\ vk_ingress_event_valid event = true /\
  (forall k e, db_ingress_events s !! k = Some e ->
     event_key INGRESS_VK (vge_external_event_id event) e -> vk_duplicate_matches e event = true).

Lemma deliverable_returns `{PyLib} body config m event env s :
  constraints_ok s -> supply_ok s ->
  parse_vk_client_callback body config = Returned (WEBHOOK_MESSAGE m) -> deliverable s m event ->
  wp (handle_vk_client_callback body config)
    (fun r _ => r = MkVkClientWebhookHttpResult "ok" 200) (fun _ _ => False) env s.
Proof.
  intros Hcon Hsup Hparse (H1 & H2 & H3 & H4 & H5 & H6 & H7).
  unfold handle_vk_client_callback. rewrite Hparse. cbv zeta.
  apply wp_try, wp_bind, wp_bind, wp_bind. rewrite H1. apply wp_ret.
  rewrite H2. apply wp_bind, wp_ret. cbv zeta. rewrite <- H3, <- H4, <- H5.
  assert (MkVkClientIngressEvent (vge_external_event_id event) (vge_external_conversation_id event)
    (vge_text event) (vge_received_at event) (vge_correlation_id event) = event) as ->
    by (by destruct event).
  apply wp_bind, wp_assert; [intros _|congruence]. apply wp_ret.
  eapply wp_mono; [apply total_receive; try done|intros; by apply wp_ret|done].
Qed.

(** C17: the VK webhook answers 200 to a message or a reply of the community only
    when its event is durably stored (now, once, with the envelope it arrived in
    and no attempt taken; or before, unchanged) or its schema refuses it; another
    event under the same id is answered 409 and a failed write 503, and neither
    stores anything.  A valid message that nothing stored contradicts is always
    taken. *)
Theorem webhook_answer_is_durable `{PyLib} body config env s :
  constraints_ok s ->
  wp (handle_vk_client_callback body config) (callback_answered env s body config)
    (fun _ s' => only_supply s s') env s /\
  (forall m event, supply_ok s ->
     parse_vk_client_callback body config = Returned (WEBHOOK_MESSAGE m) ->
     deliverable s m event ->
     exists s', handle_vk_client_callback body config env s =
       (Returned (MkVkClientWebhookHttpResult "ok" 200), s')).
Proof.
  intros Hcon. split; [by apply handle_vk_client_callback_spec|].
  intros m event Hsup Hparse Hd. pose proof (deliverable_returns _ _ _ _ env _ Hcon Hsup Hparse Hd) as Hwp.
  unfold wp in Hwp. destruct (handle_vk_client_callback _ _ _ _) as [[r|e] s']; [subst r; by exists s'|done].
Qed.

Definition vk_message : VkClientNormalizedMessage :=
  MkVkClientNormalizedMessage 5 5 "hello there" 3 100000000 77.
Definition vk_event : VkClientIngressEvent :=
  MkVkClientIngressEvent "vk-77-5-3" "vk-77-5" "hello there" (Some 100000000) None.

Lemma webhook_answer_is_durable_witness :
  wp (handle_callback (vk_callback "hello there" 3))
    (callback_answered (H := toy_lib) (at_second 1) vk_received (vk_callback "hello there" 3)
       callback_config) (fun _ s' => only_supply vk_received s') (at_second 1) vk_received /\
  exists s', handle_callback (vk_callback "hello there" 3) (at_second 1) vk_received =
    (Returned (MkVkClientWebhookHttpResult "ok" 200), s').
Proof.
  destruct (webhook_answer_is_durable (H := toy_lib) (vk_callback "hello there" 3) callback_config
    (at_second 1) vk_received) as [H1 H2].
  { apply (reachable_dialog_ok _ _ vk_received_reachable). }
  split; [exact H1|]. apply (H2 vk_message vk_event).
  - exact (reachable_supply _ vk_received_reachable).
  - vm_compute. reflexivity.
  - do 6 (split; [vm_compute; reflexivity|]). intros k e He _.
    assert (bool_decide (map_Forall (fun _ e => vk_duplicate_matches (H := toy_lib) e vk_event = true)
      (db_ingress_events vk_received)) = true) as Hall%bool_decide_eq_true by (vm_compute; reflexivity).
    exact (map_Forall_lookup_1 _ _ k e Hall He).
Defined.

(** C25: a claimed event was due: received, failed with its retry time reached, or
    abandoned by an expired lease, with attempts left; the claim carries what was
    stored, takes one attempt and a new lease version and touches no dialog.
    Nothing claimed means every due event is locked by another worker.  The claim
    returns as long as lease versions have room. *)
Theorem ingress_claim_effect env s worker lease now :
  constraints_ok s ->
  wp (session_scope (claim_next worker lease now))
    (ingress_claim_goal (env_locked env) s (default (env_now env) now) worker lease)
    (fun _ s' => s' = s) env s /\
  (ingress_room s -> 0 < lease ->
   exists r s', session_scope (claim_next worker lease now) env s = (Returned r, s')).
Proof.
  intros Hcon. split.
  - apply wp_session_scope_keeps; [solve_respects|done|]. by apply wp_ingress_claim.
  - intros Hroom Hlease. by apply total_returns, total_session_scope, total_ingress_claim.
Qed.

Lemma ingress_claim_effect_witness :
  wp (session_scope ingress_claim_next)
    (ingress_claim_goal (env_locked (at_second 1)) vk_received (1 * 1000000) "ingress" 30)
    (fun _ s' => s' = vk_received) (at_second 1) vk_received /\
  answer ingress_claim_next (at_second 1) vk_received = Returned (Some vk_claim).
Proof.
  split; [|vm_compute; reflexivity].
  apply (proj1 (ingress_claim_effect (at_second 1) vk_received "ingress" 30 None
    (proj1 (reachable_dialog_ok _ _ vk_received_reachable)))).
Defined.

(** ** Effects *)

(** C15: a VK client message is stored once under the next number of its dialog and
    moves its context version and nothing else; only the exact trigger text, in
    the allowed dialog, with automatic sending on, also replaces the dialog's open
    work by one proof reply due after the delay.  The message, the plan and the
    completion of the event are one commit.  For a worker that holds the event it
    returns while counters have room. *)
Theorem vk_message_effect settings config claim inbound env s :
  dialog_ok s ->
  wp (session_scope (vk_client_in_session settings config claim inbound))
    (fun r s' => dialog_ok s' /\
       event_applied env claim vk_client_result (vk_client_goal env settings config inbound s)
         s r s')
    (fun _ s' => s' = s) env s /\
  (forall e, supply_ok s -> room s -> vie_channel inbound = "vk"%string ->
     vk_event_of_dialog s inbound -> event_held claim s e ->
     exists r s', session_scope (vk_client_in_session settings config claim inbound) env s =
       (Returned r, s')).
Proof.
  intros Hok. split; [by apply vk_client_in_session_spec|]. intros e Hsup Hroom Hch Hown He.
  by eapply total_returns, total_session_scope, total_vk_client.
Qed.

Lemma vk_claimed_event :
  exists e, db_ingress_events vk_claimed !! igc_event_id vk_claim = Some e /\
    holds_lease (igc_lease_token vk_claim) (igc_lease_version vk_claim) e = true.
Proof. apply lookup_row. vm_compute. reflexivity. Qed.

Lemma vk_message_effect_witness :
  wp (session_scope vk_apply)
    (fun r s' => dialog_ok s' /\
       event_applied (at_second 2) vk_claim vk_client_result
         (vk_client_goal (at_second 2) vk_settings (Some vk_proof_config) vk_inbound vk_claimed)
         vk_claimed r s')
    (fun _ s' => s' = vk_claimed) (at_second 2) vk_claimed /\
  exists r s', session_scope vk_apply (at_second 2) vk_claimed = (Returned r, s').
Proof.
  destruct (vk_message_effect vk_settings (Some vk_proof_config) vk_claim vk_inbound (at_second 2)
    vk_claimed (reachable_dialog_ok _ _ vk_claimed_reachable)) as [H1 H2].
  split; [exact H1|]. destruct vk_claimed_event as (e & He & Hl).
  apply (H2 e); [exact (reachable_supply _ vk_claimed_reachable)| |reflexivity| |split; [exact He|exact Hl]].
  - apply room_checked. vm_compute. reflexivity.
  - intros k m c Hm [_ Hext] _.
    assert (bool_decide (map_Forall (fun _ m =>
      inbox_external_message_id m <> vie_external_message_id vk_inbound)
      (db_inbox_messages vk_claimed)) = true) as H%bool_decide_eq_true by (vm_compute; reflexivity).
    destruct (map_Forall_lookup_1 _ _ k m H Hm Hext).
Defined.

(** C14: an outgoing message of the VK community takes its dialog over exactly when
    the takeover is switched on for the dialog, no row of the dialog is the
    message's source and the message is newer than the last one that did: the
    dialog goes to the person with a renewed deadline, two of its fences advance
    and its open work is revoked.  In every other case nothing of the dialog
    changes, and the reason is the one reported. *)
Theorem vk_reply_effect `{PyLib} pause config claim env s :
  dialog_ok s ->
  wp (session_scope (vk_reply_in_session pause config claim))
    (fun r s' => dialog_ok s' /\
       event_applied env claim vk_reply_result
         (reply_goal env pause config s (igc_envelope_json claim)) s r s')
    (fun _ s' => s' = s) env s.
Proof. apply vk_reply_in_session_spec. Qed.

Lemma vk_reply_effect_witness :
  wp (session_scope vk_reply_apply)
    (fun r s' => dialog_ok s' /\
       event_applied (at_second 5) vk_reply_claim vk_reply_result
         (reply_goal (H := toy_lib) (at_second 5) 600 takeover_by_anyone vk_reply_claimed
            (igc_envelope_json vk_reply_claim)) vk_reply_claimed r s')
    (fun _ s' => s' = vk_reply_claimed) (at_second 5) vk_reply_claimed /\
  is_returned (answer vk_reply_apply (at_second 5) vk_reply_claimed) = true.
Proof.
  split; [|vm_compute; reflexivity].
  apply (vk_reply_effect (H := toy_lib) 600 takeover_by_anyone vk_reply_claim (at_second 5)
    vk_reply_claimed), (reachable_dialog_ok _ _ vk_reply_claimed_reachable).
Defined.

(** C16: a message of an amoCRM manager is the bot's own projection coming back,
    which changes no dialog, or it is applied as the manager message of the one
    dialog its chat is actively bound to; a chat without a binding changes
    nothing. *)
Theorem amocrm_message_effect pause claim env s :
  dialog_ok s ->
  wp (session_scope (amocrm_manager_in_session pause claim))
    (fun r s' => dialog_ok s' /\
       event_applied env claim amocrm_result (amocrm_goal env pause claim s) s r s')
    (fun _ s' => s' = s) env s.
Proof. apply amocrm_manager_in_session_spec. Qed.

Lemma amocrm_message_effect_witness :
  wp (session_scope amocrm_apply)
    (fun r s' => dialog_ok s' /\
       event_applied (at_second 11) amocrm_claim amocrm_result
         (amocrm_goal (at_second 11) 600 amocrm_claim amocrm_claimed) amocrm_claimed r s')
    (fun _ s' => s' = amocrm_claimed) (at_second 11) amocrm_claimed /\
  is_returned (answer amocrm_apply (at_second 11) amocrm_claimed) = true.
Proof.
  split; [|vm_compute; reflexivity].
  apply (amocrm_message_effect 600 amocrm_claim (at_second 11) amocrm_claimed),
    (reachable_dialog_ok _ _ amocrm_claimed_reachable).
Defined.

(** ** Once *)

(** The transactions that apply a claimed event. *)
Inductive applies (claim : IngressClaim) : Session IngressProcessResult -> Prop :=
  | applies_synthetic pause pii inbound :
      applies claim (synthetic_in_session pause pii claim inbound)
  | applies_vk settings config inbound :
      applies claim (vk_client_in_session settings config claim inbound)
  | applies_vk_reply `{PyLib} pause config :
      applies claim (vk_reply_in_session pause config claim)
  | applies_amocrm pause : applies claim (amocrm_manager_in_session pause claim).

Lemma applies_service claim body : applies claim body -> service _ body.
Proof.
  intros []; [apply service_ingress_synthetic|apply service_ingress_vk
    |apply service_ingress_vk_reply|apply service_ingress_amocrm].
Qed.

Lemma event_applied_status {A} env claim (f : A -> IngressEvent -> IngressProcessResult) G s r s' :
  event_applied env claim f G s r s' ->
  (exists e, event_held claim s e) /\
  exists e', db_ingress_events s' !! igc_event_id claim = Some e' /\ ing_status e' = ING_PROCESSED.
Proof.
  intros (a & s1 & e & He & _ & _ & ->). split; [by exists e|].
  exists (complete_values (env_now env) e). cbn. by rewrite lookup_insert_eq.
Qed.

(** A transaction that applied its event held it, and processed it. *)
Lemma applies_processed claim body r s s' :
  applies claim body -> dialog_ok s -> runs body (Returned r) s s' ->
  (exists e, event_held claim s e) /\
  exists e', db_ingress_events s' !! igc_event_id claim = Some e' /\ ing_status e' = ING_PROCESSED.
Proof.
  intros Hb Hok Hrun. destruct Hb.
  - destruct (runs_spec _ _ _ _ _ (fun env => synthetic_in_session_spec pause pii claim inbound env s Hok)
      Hrun) as (env & _ & H). by eapply event_applied_status.
  - destruct (runs_spec _ _ _ _ _ (fun env => vk_client_in_session_spec settings config claim inbound
      env s Hok) Hrun) as (env & _ & H). by eapply event_applied_status.
  - destruct (runs_spec _ _ _ _ _ (fun env => vk_reply_in_session_spec pause config claim env s Hok)
      Hrun) as (env & _ & H'). by eapply event_applied_status.
  - destruct (runs_spec _ _ _ _ _ (fun env => amocrm_manager_in_session_spec env pause claim s Hok)
      Hrun) as (env & _ & H). by eapply event_applied_status.
Qed.

(** C6: the effect of an event commits at most once: after a transaction applied
    it, the event stays PROCESSED whatever runs, and no transaction applies it
    again, under any claim. *)
Theorem event_applied_once x y claim claim' body body' r r' s1 s2 :
  reachable x -> applies claim body -> runs body (Returned r) (sys_db x) s1 ->
  rtc step (MkSystem s1 (sys_claims x)) y ->
  applies claim' body' -> igc_event_id claim' = igc_event_id claim ->
  event_status (sys_db y) claim = Some ING_PROCESSED /\
  ~ runs body' (Returned r') (sys_db y) s2.
Proof.
  intros Hx Hb Hrun Hxy Hb' Eid. pose proof (reachable_ok _ Hx) as [Hok _].
  destruct (applies_processed _ _ _ _ _ Hb Hok Hrun) as [_ (e' & He' & Hst)].
  assert (reachable (MkSystem s1 (sys_claims x))) as Hx1.
  { destruct x as [s claims]. eapply rtc_r; [exact Hx|].
    eapply step_service; [exact (applies_service _ _ Hb)|exact Hrun]. }
  destruct (run_ok _ _ Hxy (reachable_ok _ Hx1)) as [[Hoky _] (_ & _ & _ & Hev)].
  destruct (Hev _ _ He') as (e2 & He2 & _ & Hle & _).
  rewrite Hst in Hle. apply ingress_terminal_le in Hle; [|done].
  unfold event_status. rewrite He2. cbn. rewrite Hle. split; [done|]. intros Hrun'.
  destruct (applies_processed _ _ _ _ _ Hb' Hoky Hrun') as [(e3 & He3 & Hl) _].
  apply ingress_lease_true in Hl as (Hproc & _). rewrite Eid in He3. congruence.
Qed.

Lemma event_applied_once_witness :
  exists r, event_status vk_taken vk_claim = Some ING_PROCESSED /\
    ~ runs vk_apply (Returned r) vk_taken vk_taken.
Proof.
  destruct vk_applied_run as [r Hrun]. exists r.
  apply (event_applied_once (MkSystem vk_claimed []) (MkSystem vk_taken []) vk_claim vk_claim
    vk_apply vk_apply r r vk_applied vk_taken vk_claimed_reachable); [|exact Hrun| | |reflexivity].
  - apply applies_vk.
  - apply taking_run.
  - apply applies_vk.
Defined.
