(* ===== verification/TextTheorems.v ===== *)
(** * The booking texts

    What leaves the program as text is closed: the sanitiser of booking results
    projects onto a fixed list of shapes, a saved result reads back as it was
    sanitised, every outbound payload can be built from it, and the slot
    identifiers the program accepts are exactly those of four parts. *)

From S2P Require Import Prelude BookingText Models BookingFields TextProofs Progress Returns.

(** ** Splitting and joining *)

Fixpoint str_join (sep : ascii) (parts : list string) : string :=
  match parts with
  | [] => ""
  | [part] => part
  | part :: parts => part +:+ String sep (str_join sep parts)
  end.

Definition lacks (sep : ascii) (s : string) : bool := str_forall (fun c => negb (Ascii.eqb c sep)) s.

Lemma str_split_nonempty sep s : str_split sep s <> [].
Proof. destruct s as [|c s]; [done|]. simpl. by destruct (Ascii.eqb c sep), (str_split sep s). Qed.

Lemma str_join_cons sep part parts :
  parts <> [] -> str_join sep (part :: parts) = part +:+ String sep (str_join sep parts).
Proof. by destruct parts. Qed.

Lemma str_join_split sep s : str_join sep (str_split sep s) = s.
Proof.
  induction s as [|c s IH]; [done|]. cbn [str_split]. pose proof (str_split_nonempty sep s) as Hne.
  destruct (Ascii.eqb_spec c sep) as [->|].
  - by rewrite str_join_cons, IH.
  - destruct (str_split sep s) as [|part parts] eqn:E; [done|].
    rewrite <- IH. by destruct parts.
Qed.

Lemma str_split_cons sep part s :
  lacks sep part = true -> str_split sep (part +:+ String sep s) = part :: str_split sep s.
Proof.
  induction part as [|c part IH]; intros H.
  - change (str_split sep (String sep s) = "" :: str_split sep s)%string. cbn [str_split].
    by rewrite Ascii.eqb_refl.
  - apply andb_prop in H as [Hc H]. change (String c part +:+ ?t) with (String c (part +:+ t)).
    cbn [str_split]. apply negb_true_iff in Hc. by rewrite Hc, (IH H).
Qed.

Lemma str_split_last sep part : lacks sep part = true -> str_split sep part = [part].
Proof.
  induction part as [|c part IH]; intros H; [done|]. apply andb_prop in H as [Hc H].
  cbn [str_split]. apply negb_true_iff in Hc. by rewrite Hc, (IH H).
Qed.

Lemma str_split_join sep parts :
  parts <> [] -> Forall (fun p => lacks sep p = true) parts ->
  str_split sep (str_join sep parts) = parts.
Proof.
  intros Hne Hl. induction Hl as [|part parts Hp Hl IH]; [done|]. destruct parts as [|q parts].
  - by apply str_split_last.
  - rewrite str_join_cons, str_split_cons, IH by done. done.
Qed.

(** ** Characters of matched strings *)

Lemma str_forall_app p a b : str_forall p (a +:+ b) = str_forall p a && str_forall p b.
Proof.
  induction a as [|c a IH]; [done|]. change (String c a +:+ b) with (String c (a +:+ b)).
  cbn. by rewrite IH, andb_assoc.
Qed.

Lemma str_forall_mono (p q : ascii -> bool) s :
  (forall c, p c = true -> q c = true) -> str_forall p s = true -> str_forall q s = true.
Proof.
  intros Hpq. induction s as [|c s IH]; [done|]. cbn. rewrite !andb_true_iff. intros [Hc Hs].
  split; [by apply Hpq|by apply IH].
Qed.

Lemma str_matches_forall (p : ascii -> bool) classes s :
  Forall (fun q : ascii -> bool => forall c, q c = true -> p c = true) classes ->
  str_matches classes s = true -> str_forall p s = true.
Proof.
  intros Hp. revert s. induction Hp as [|q classes Hq Hp IH]; intros [|c s] H; try done.
  apply andb_prop in H as [Hc Hs]. cbn. by rewrite (Hq c Hc), (IH s Hs).
Qed.

Lemma str_matches_length classes s : str_matches classes s = true -> String.length s = length classes.
Proof.
  revert s. induction classes as [|q classes IH]; intros [|c s] H; try done.
  apply andb_prop in H as [_ H]. cbn. by rewrite (IH s H).
Qed.

(** The characters of dates, times and UUID texts. *)
Definition is_plain (c : ascii) : bool := is_lower_hex c || Ascii.eqb c dash.

Lemma ascii_cases (P : ascii -> Prop) :
  (forall n, (n < 256)%nat -> P (ascii_of_nat n)) -> forall c, P c.
Proof. intros H c. rewrite <- (ascii_nat_embedding c). apply H, nat_ascii_bounded. Qed.

Lemma every_ascii (p : ascii -> bool) :
  forallb p (ascii_of_nat <$> seq 0 256) = true -> forall c, p c = true.
Proof.
  rewrite forallb_forall. intros H. apply ascii_cases. intros n Hn. apply H, in_map_iff.
  exists n. split; [done|]. apply in_seq. lia.
Qed.

Definition implies (p q : ascii -> bool) (c : ascii) : bool := negb (p c) || q c.

Lemma class_included (p q : ascii -> bool) :
  forallb (implies p q) (ascii_of_nat <$> seq 0 256) = true -> forall c, p c = true -> q c = true.
Proof.
  intros H c Hp. pose proof (every_ascii _ H c) as Hc. unfold implies in Hc. by rewrite Hp in Hc.
Qed.

Ltac class_tac := apply class_included; vm_compute; reflexivity.

Lemma uuid_plain s : canonical_uuid s = true -> str_forall is_plain s = true.
Proof. apply str_matches_forall. repeat (constructor; [class_tac|]). constructor. Qed.

Lemma date_plain s : str_matches DATE_CLASSES s = true -> str_forall is_plain s = true.
Proof. apply str_matches_forall. repeat (constructor; [class_tac|]). constructor. Qed.

Lemma hhmm_plain s : strict_hhmm s = true -> str_forall is_plain s = true.
Proof.
  unfold strict_hhmm. rewrite orb_true_iff. intros [H|H]; revert H; apply str_matches_forall;
    repeat (constructor; [class_tac|]); constructor.
Qed.

Lemma plain_lacks_dot s : str_forall is_plain s = true -> lacks "."%char s = true.
Proof. apply str_forall_mono. class_tac. Qed.

Lemma calendar_day_facts d :
  calendar_day d <-> str_matches DATE_CLASSES d = true /\ starts_with_valid_date d = true /\
    unclean d = false.
Proof.
  unfold calendar_day, require_calendar_date. split.
  - destruct (String.eqb d "") eqn:E; [done|]. destruct (unclean d); [done|].
    by destruct (str_matches DATE_CLASSES d), (starts_with_valid_date d).
  - intros (Hm & Hv & Hu). rewrite Hm, Hv, Hu. by destruct d.
Qed.

Lemma clean_of (p : ascii -> bool) s :
  forallb (implies p (fun c => negb (py_isspace c) &&
    negb ((N_of_ascii c <? 32) || (N_of_ascii c =? 127))%N)) (ascii_of_nat <$> seq 0 256) = true ->
  str_forall p s = true -> unclean s = false.
Proof.
  intros H Hs. pose proof (class_included _ _ H) as Hp. unfold unclean, contains_control_chars.
  apply orb_false_iff. split; apply negb_false_iff; revert Hs; apply str_forall_mono;
    intros c Hc; apply Hp, andb_prop in Hc as [? ?]; done.
Qed.

(** ** Slot identifiers *)

(** The text a slot identifier has. *)
Definition hhmm_of (time : string) : string := str_take 2 time +:+ str_drop 3 time.
Definition slot_id_text (parts : BotSlotIdParts) : string :=
  str_join "."%char
    [ BOT_SLOT_ID_PREFIX; bsp_service_id parts; bsp_master_id parts; bsp_date_key parts;
      hhmm_of (bsp_start_time parts) ].

Definition backend_uuid (s : string) : Prop :=
  canonical_uuid s = true /\ require_canonical_backend_uuid s = Some s.
Definition clock_time (t : string) : Prop :=
  exists hhmm, strict_hhmm hhmm = true /\ t = str_slice 0 2 hhmm +:+ ":" +:+ str_slice 2 4 hhmm.

Record slot_parts_ok (parts : BotSlotIdParts) : Prop := {
  spo_service : backend_uuid (bsp_service_id parts);
  spo_master : backend_uuid (bsp_master_id parts);
  spo_date : calendar_day (bsp_date_key parts);
  spo_time : clock_time (bsp_start_time parts)
}.

Lemma require_uuid_same v u : canonical_uuid v = true -> require_canonical_backend_uuid v = Some u -> u = v.
Proof.
  intros Hv. unfold require_canonical_backend_uuid.
  destruct (String.eqb v "" || unclean v); [done|].
  destruct (String.prefix "{" v || String.prefix "urn:" (str_lower v)); [done|]. cbv zeta.
  destruct (str_matches BACKEND_UUID_CLASSES (str_lower v)); [|done].
  destruct (String.eqb_spec (uuid_str (unhex 0 (str_lower v))) (str_lower v)) as [->|]; [|done].
  intros [= <-]. apply str_matches_forall with (p := fun c => Ascii.eqb (lower_char c) c) in Hv.
  - induction v as [|c v IH]; [done|]. apply andb_prop in Hv as [Hc Hv]. cbn.
    apply Ascii.eqb_eq in Hc. by rewrite Hc, (IH Hv).
  - repeat (constructor; [class_tac|]). constructor.
Qed.

Lemma hhmm_chars hhmm :
  strict_hhmm hhmm = true -> exists a b c d, hhmm = String a (String b (String c (String d ""))).
Proof.
  intros H. assert (String.length hhmm = 4%nat) as Hl.
  { unfold strict_hhmm in H. apply orb_true_iff in H as [H|H]; exact (str_matches_length _ _ H). }
  destruct hhmm as [|a [|b [|c [|d [|e s]]]]]; try discriminate Hl. by exists a, b, c, d.
Qed.

Lemma hhmm_of_time hhmm :
  strict_hhmm hhmm = true ->
  hhmm_of (str_slice 0 2 hhmm +:+ ":" +:+ str_slice 2 4 hhmm) = hhmm.
Proof. intros H. by destruct (hhmm_chars hhmm H) as (a & b & c & d & ->). Qed.

Lemma parse_slot_text raw parts :
  parse_bot_slot_id raw = Some parts -> raw = slot_id_text parts /\ slot_parts_ok parts.
Proof.
  unfold parse_bot_slot_id. destruct (_ || _); [done|].
  rewrite <- (str_join_split "."%char raw) at 2.
  destruct (str_split _ raw) as [|version [|sid [|mid [|day [|hhmm [|]]]]]]; try done.
  destruct (String.eqb_spec version BOT_SLOT_ID_PREFIX) as [->|]; [|done]. cbn [negb].
  destruct (canonical_uuid sid) eqn:Es; [|done]. destruct (canonical_uuid mid) eqn:Em; [|done].
  cbn [negb]. destruct (require_canonical_backend_uuid sid) as [s|] eqn:Rs; [|done].
  destruct (require_canonical_backend_uuid mid) as [m|] eqn:Rm; [|done].
  destruct (require_calendar_date day) as [d|] eqn:Rd; [|done]. cbn [mbind option_bind].
  destruct (strict_hhmm hhmm) eqn:Eh; [|done]. intros [= <-].
  pose proof (require_uuid_same _ _ Es Rs) as ->. pose proof (require_uuid_same _ _ Em Rm) as ->.
  pose proof (require_calendar_date_same _ _ Rd) as ->.
  split; [|by repeat split; try exists hhmm].
  unfold slot_id_text.
  cbn [bsp_service_id bsp_master_id bsp_date_key bsp_start_time]. by rewrite (hhmm_of_time _ Eh).
Qed.

Lemma slot_text_facts parts :
  slot_parts_ok parts ->
  Forall (fun p => str_forall is_plain p = true)
    [ bsp_service_id parts; bsp_master_id parts; bsp_date_key parts;
      hhmm_of (bsp_start_time parts) ] /\
  strict_hhmm (hhmm_of (bsp_start_time parts)) = true /\
  String.length (slot_id_text parts) = 93%nat /\ unclean (slot_id_text parts) = false.
Proof.
  intros [[Hs _] [Hm _] Hd (hhmm & Hh & Ht)].
  apply calendar_day_facts in Hd as (Hd & _ & _). unfold slot_id_text. rewrite Ht, (hhmm_of_time _ Hh).
  assert (str_forall is_plain (bsp_service_id parts) = true) as Ps by by apply uuid_plain.
  assert (str_forall is_plain (bsp_master_id parts) = true) as Pm by by apply uuid_plain.
  assert (str_forall is_plain (bsp_date_key parts) = true) as Pd by by apply date_plain.
  assert (str_forall is_plain hhmm = true) as Ph by by apply hhmm_plain.
  split; [by repeat constructor|]. split; [done|].
  apply str_matches_length in Hs, Hm, Hd.
  assert (String.length hhmm = 4%nat) as Hl.
  { destruct (hhmm_chars _ Hh) as (a & b & c & d & ->). done. }
  split.
  - cbn [str_join]. rewrite !string_length_app. cbn [String.length].
    rewrite !string_length_app. cbn [String.length]. rewrite !string_length_app. cbn [String.length].
    rewrite string_length_app. cbn [String.length]. rewrite Hs, Hm, Hd, Hl. reflexivity.
  - set (p := fun c => is_plain c || Ascii.eqb c "." || Ascii.eqb c "s").
    assert (forall s, str_forall is_plain s = true -> str_forall p s = true) as Hp.
    { intros s. apply str_forall_mono. intros c Hc. unfold p.
      rewrite Hc. reflexivity. }
    apply (clean_of p); [vm_compute; reflexivity|]. cbn [str_join].
    repeat (rewrite str_forall_app; cbn [str_forall]). 
    rewrite (Hp _ Ps), (Hp _ Pm), (Hp _ Pd), (Hp _ Ph). reflexivity.
Qed.

Lemma parse_slot_id_text parts :
  slot_parts_ok parts -> parse_bot_slot_id (slot_id_text parts) = Some parts.
Proof.
  intros H. destruct (slot_text_facts _ H) as (Hplain & Hhhmm & Hlen & Hclean).
  unfold parse_bot_slot_id. rewrite Hclean, Hlen, orb_false_r.
  replace (String.eqb (slot_id_text parts) "") with false by by destruct (slot_id_text parts).
  change ((MAX_SLOT_ID_LENGTH <? 93)%nat) with false. cbn [orb].
  unfold slot_id_text. rewrite str_split_join; [|done|].
  2: { constructor; [done|]. eapply Forall_impl; [exact Hplain|]. intros. by apply plain_lacks_dot. }
  destruct H as [[Hs Rs] [Hm Rm] Hd (hhmm & Hh & Ht)].
  rewrite String.eqb_refl, Hs, Hm. cbn [negb]. rewrite Rs. cbn [mbind option_bind].
  rewrite Rm. cbn [mbind option_bind]. rewrite Hd. cbn [mbind option_bind].
  rewrite Hhhmm. cbn [negb]. destruct parts as [service master day time].
  cbn [bsp_service_id bsp_master_id bsp_date_key bsp_start_time] in *. subst time.
  by rewrite (hhmm_of_time _ Hh).
Qed.

(** The start time of an accepted slot is one the calendar knows. *)
Lemma clock_time_bounds time :
  clock_time time ->
  str_matches (replicate 2 is_digit ++ [is_char ":"%char] ++ replicate 2 is_digit) time = true /\
  digits_value 0 (str_slice 0 2 time) <= 23 /\ digits_value 0 (str_slice 3 5 time) <= 59.
Proof.
  intros (hhmm & H & ->). destruct (hhmm_chars _ H) as (a & b & c & d & ->).
  change (str_slice 0 2 _ +:+ ":" +:+ str_slice 2 4 _)
    with (String a (String b (String ":" (String c (String d ""))))).
  change (str_slice 0 2 _) with (String a (String b "")).
  change (str_slice 3 5 _) with (String c (String d "")).
  unfold strict_hhmm in H. cbn [str_matches] in H.
  unfold is_digit, char_between, is_char in *. cbn [str_matches app replicate digits_value].
  rewrite !orb_true_iff, !andb_true_iff, !N.leb_le in H. rewrite Ascii.eqb_eq in H.
  rewrite !andb_true_iff, !N.leb_le, Ascii.eqb_eq.
  destruct H as [H|[<- H]]; [|change (N_of_ascii "2"%char) with 50%N in *]; repeat split; lia.
Qed.

(** [s] cut into its [n] characters. *)
Lemma str_cut s n : String.length s = n -> exists cs, length cs = n /\ s = string_of_list_ascii cs.
Proof.
  intros <-. exists (list_ascii_of_string s). rewrite string_of_list_ascii_of_string. split; [|done].
  induction s as [|c s IH]; [done|]. cbn. by rewrite IH.
Qed.

Lemma starts_at_of_parts parts :
  slot_parts_ok parts ->
  expected_canonical_starts_at_from_slot_parts parts =
    Some (bsp_date_key parts +:+ "T" +:+ bsp_start_time parts +:+ ":00+05:00")%string.
Proof.
  destruct parts as [service master day time]. intros [_ _ Hd Ht]. cbn [bsp_date_key bsp_start_time] in *.
  apply calendar_day_facts in Hd as (Hd & Hv & Hu).
  destruct (clock_time_bounds _ Ht) as (Hm & Hh & Hmin).
  unfold expected_canonical_starts_at_from_slot_parts. cbn [bsp_date_key bsp_start_time].
  set (text := (day +:+ "T" +:+ time +:+ ":00+05:00")%string).
  assert (str_matches STARTS_AT_CLASSES text = true) as Hmatch.
  { unfold text, STARTS_AT_CLASSES.
    change ([is_char "T"%char] ++ ?r ++ [is_char ":"%char] ++ ?q ++ ?z)
      with ([is_char "T"%char] ++ ((r ++ [is_char ":"%char] ++ q) ++ z)).
    apply str_matches_app; [done|]. apply (str_matches_app [_] _ "T"); [done|].
    by apply str_matches_app. }
  assert (starts_with_valid_date text = starts_with_valid_date day /\
    str_slice 11 13 text = str_slice 0 2 time /\ str_slice 14 16 text = str_slice 3 5 time)
    as (Ev & Eh & Em).
  { unfold text. clear -Hd Hm. apply str_matches_length in Hd, Hm.
    destruct (str_cut day _ Hd) as (ds & Hds & ->). destruct (str_cut time _ Hm) as (ts & Hts & ->).
    do 10 (destruct ds as [|? ds]; [discriminate Hds|]). destruct ds; [|discriminate Hds].
    do 5 (destruct ts as [|? ts]; [discriminate Hts|]). destruct ts; [|discriminate Hts].
    repeat split. }
  unfold require_canonical_booking_starts_at. rewrite Hmatch, Ev, Hv, Eh, Em.
  replace (unclean text) with false.
  2: { symmetry. apply (clean_of (fun c => is_plain c || Ascii.eqb c "T" || Ascii.eqb c ":" || Ascii.eqb c "+"));
       [vm_compute; reflexivity|]. revert Hmatch. apply str_matches_forall.
       repeat (constructor; [class_tac|]). constructor. }
  replace (String.eqb text "") with false by by destruct day.
  cbn [orb negb]. apply Z.ltb_ge in Hh, Hmin. by rewrite Hh, Hmin.
Qed.

(** C38: slot identifiers round trip.  The parser accepts exactly the texts of a
    version, two backend UUIDs, a calendar day and a clock time, and gives back
    the parts the text was made of; such parts always name a start time the
    booking wire accepts. *)
Theorem slot_id_roundtrip raw parts :
  (parse_bot_slot_id raw = Some parts <-> raw = slot_id_text parts /\ slot_parts_ok parts) /\
  (slot_parts_ok parts ->
   expected_canonical_starts_at_from_slot_parts parts =
     Some (bsp_date_key parts +:+ "T" +:+ bsp_start_time parts +:+ ":00+05:00")%string).
Proof.
  split; [|apply starts_at_of_parts]. split; [apply parse_slot_text|].
  intros [-> H]. by apply parse_slot_id_text.
Qed.

Definition sample_slot : BotSlotIdParts :=
  MkBotSlotIdParts "11111111-1111-4111-8111-111111111111"
    "22222222-2222-4222-9222-222222222222" "2024-02-29" "09:30".

Lemma slot_id_roundtrip_witness :
  slot_id_text sample_slot =
    "bs1.11111111-1111-4111-8111-111111111111.22222222-2222-4222-9222-222222222222.2024-02-29.0930"%string /\
  parse_bot_slot_id (slot_id_text sample_slot) = Some sample_slot /\
  expected_canonical_starts_at_from_slot_parts sample_slot = Some "2024-02-29T09:30:00+05:00"%string.
Proof.
  assert (slot_parts_ok sample_slot) as H.
  { split; [by vm_compute..|]. exists "0930"%string. by vm_compute. }
  split; [vm_compute; reflexivity|]. split.
  - apply (slot_id_roundtrip (slot_id_text sample_slot) sample_slot). by split.
  - rewrite (proj2 (slot_id_roundtrip "" sample_slot) H). reflexivity.
Defined.

(** ** Booking results *)

(** C37: the sanitiser of booking results is a projection onto the closed shapes: a
    value is one of its results exactly when it is closed, and a closed value is
    left as it is. *)
Theorem sanitize_is_projection fields :
  (closed_fields fields <-> exists raw, sanitize_booking_result_fields raw = fields) /\
  (closed_fields fields -> sanitize_booking_result_fields (JObj fields) = fields).
Proof.
  split; [split|].
  - intros H. exists (JObj fields). by apply sanitize_closed_same.
  - intros [raw <-]. apply sanitize_closed.
  - apply sanitize_closed_same.
Qed.

Lemma sanitize_is_projection_witness :
  closed_fields interrupted_booking_fields /\
  sanitize_booking_result_fields (JObj interrupted_booking_fields) = interrupted_booking_fields.
Proof.
  split; [apply interrupted_closed|].
  apply (sanitize_is_projection interrupted_booking_fields), interrupted_closed.
Defined.

Lemma sanitize_twice raw :
  sanitize_booking_result_fields (JObj (sanitize_booking_result_fields raw)) =
    sanitize_booking_result_fields raw.
Proof. apply sanitize_closed_same, sanitize_closed. Qed.

Lemma render_not_blank {E S} fields (env : E) (s s' : S) text :
  render_text_for_booking_fields fields env s = (Returned text, s') -> str_blank text = false.
Proof.
  unfold render_text_for_booking_fields, mret, M_ret, raise. cbv zeta.
  repeat case_match; intros [= <- <-] || discriminate; vm_compute; reflexivity.
Qed.

(** A sanitised result is sent with a text, or offers days for the buttons alone. *)
Lemma build_payload_sendable {E S} plan_payload fields (env : E) (s : S) :
  exists payload,
    build_synthetic_outbound_payload plan_payload (Some fields) env s = (Returned payload, s) /\
    ((exists text, jget payload "text" = Some (JStr text) /\ str_blank text = false) \/
     jget (sanitize_booking_result_fields (JObj fields)) "booking_action" =
       Some (JStr "OFFER_DAYS")).
Proof.
  unfold build_synthetic_outbound_payload, try_except. cbv zeta.
  set (f := sanitize_booking_result_fields _). unfold mbind, M_bind.
  destruct (render_closed f env s (sanitize_closed _)) as [[text Ht]|[Ha ->]].
  - rewrite Ht. eexists. split; [reflexivity|]. left. exists text.
    split; [apply jget_jset_eq|by eapply render_not_blank].
  - rewrite (bool_decide_eq_true_2 _ Ha). eexists. split; [reflexivity|by right].
Qed.

(** C36: a booking result survives the plan.  Whatever was saved in the plan's payload
    is read back as it was sanitised, a plan of a booking is then known to have a
    result, and a dispatch from the saved result builds the very payload the
    unsaved one would have built.  Building it never fails, and gives a text to
    send unless days are offered for the buttons alone. *)
Theorem saved_result_roundtrip {E S} plan_payload fields (env : E) (s : S) :
  let saved := with_booking_resolution_result plan_payload (JObj fields) in
  let result := sanitize_booking_result_fields (JObj fields) in
  read_booking_resolution_result saved = Some result /\
  booking_resolution_phase saved =
    (if plan_has_booking_fixture plan_payload then HAS_RESULT else NON_BOOKING) /\
  exists payload,
    build_synthetic_outbound_payload plan_payload (Some fields) env s = (Returned payload, s) /\
    build_synthetic_outbound_payload plan_payload (Some result) env s = (Returned payload, s) /\
    ((exists text, jget payload "text" = Some (JStr text) /\ str_blank text = false) \/
     jget result "booking_action" = Some (JStr "OFFER_DAYS")).
Proof.
  cbv zeta. unfold with_booking_resolution_result. split; [|split].
  - unfold read_booking_resolution_result, pyget. rewrite jget_jset_eq.
    cbn [fmap option_fmap option_map]. by rewrite sanitize_twice.
  - unfold booking_resolution_phase, plan_has_booking_fixture, jhas.
    rewrite jget_jset_eq, !jget_jset_ne by done. by destruct (is_not_null _).
  - destruct (build_payload_sendable plan_payload fields env s) as (payload & Hb & Ht).
    exists payload. split; [done|]. split; [|done]. rewrite <- Hb.
    unfold build_synthetic_outbound_payload. by rewrite sanitize_twice.
Qed.
