(* ===== verification/VkTextTheorems.v ===== *)
(** * Identifiers and markers of the VK channel

    Decimal numbers print and read back; the external identifiers of
    src/app/channels/vk_client_types.py name one dialog, message or reply each
    and satisfy the ingress schemas; the provenance marker of
    src/app/channels/vk_client_outbound_provenance.py is recognised. *)

From S2P Require Import Prelude BookingText Models BookingFields VkClient VkGate.
From S2P Require Import TextProofs Progress Returns TextTheorems.

(** ** Strings *)

Lemma str_app_assoc (a b c : string) : (a +:+ b) +:+ c = a +:+ (b +:+ c).
Proof.
  induction a as [|x a IH]; [done|].
  change (String x ((a +:+ b) +:+ c) = String x (a +:+ (b +:+ c))). by rewrite IH.
Qed.

Lemma str_app_nil a : a +:+ "" = a.
Proof.
  induction a as [|c a IH]; [done|]. change (String c (a +:+ "") = String c a). by rewrite IH.
Qed.

Lemma str_without_app p a b : str_without p (a +:+ b) = str_without p a +:+ str_without p b.
Proof.
  induction a as [|c a IH]; [done|]. change (String c a +:+ b) with (String c (a +:+ b)).
  cbn [str_without]. destruct (p c); [done|]. by rewrite IH.
Qed.

Lemma str_without_none p s : str_forall (fun c => negb (p c)) s = true -> str_without p s = s.
Proof.
  induction s as [|c s IH]; [done|]. cbn. rewrite andb_true_iff, negb_true_iff.
  intros [-> H]. by rewrite IH.
Qed.

(** ** Decimal numbers *)

Lemma digits_value_app acc a b : digits_value acc (a +:+ b) = digits_value (digits_value acc a) b.
Proof.
  revert acc. induction a as [|c a IH]; intros acc; [done|].
  change (String c a +:+ b) with (String c (a +:+ b)). cbn [digits_value]. apply IH.
Qed.

Lemma digit_char d :
  (d < 10)%N -> is_digit (ascii_of_N (48 + d)) = true /\
  Z.of_N (N_of_ascii (ascii_of_N (48 + d))) - 48 = Z.of_N d.
Proof.
  intros H. rewrite N_ascii_embedding by lia. split; [|lia].
  assert (d = 0 \/ d = 1 \/ d = 2 \/ d = 3 \/ d = 4 \/ d = 5 \/ d = 6 \/ d = 7 \/ d = 8 \/ d = 9)%N
    as Hd by lia.
  repeat destruct Hd as [->|Hd]; subst; reflexivity.
Qed.

(** The digits [dec_digits] puts in front. *)
Record decimal (n : N) (ds : string) : Prop := {
  decimal_digits : str_forall is_digit ds = true;
  decimal_nonempty : ds <> ""%string;
  decimal_value : digits_value 0 ds = Z.of_N n;
  decimal_length : forall k, (0 < k)%nat -> (n < 10 ^ N.of_nat k)%N -> (String.length ds <= k)%nat
}.

Lemma decimal_one n : (n < 10)%N -> decimal n (String (ascii_of_N (48 + n mod 10)) "").
Proof.
  intros Hn. rewrite N.mod_small by done. destruct (digit_char n Hn) as [H1 H2]. split.
  - cbn [str_forall]. by rewrite H1.
  - done.
  - cbn [digits_value]. lia.
  - intros k Hk _. cbn. lia.
Qed.

Lemma decimal_more n ds :
  (10 <= n)%N -> decimal (n / 10) ds -> decimal n (ds +:+ String (ascii_of_N (48 + n mod 10)) "").
Proof.
  intros Hn [H1 H2 H3 H4].
  destruct (digit_char (n mod 10)) as [D1 D2]; [by apply N.mod_lt|]. split.
  - rewrite str_forall_app, H1. cbn [str_forall]. by rewrite D1.
  - by destruct ds.
  - rewrite digits_value_app, H3. cbn [digits_value]. pose proof (N.div_mod n 10). lia.
  - intros k Hk Hlt. rewrite string_length_app. cbn [String.length].
    destruct k as [|[|k]]; [lia|cbn in Hlt; lia|].
    enough (String.length ds <= S k)%nat by lia. apply H4; [lia|].
    apply N.Div0.div_lt_upper_bound. rewrite Nat2N.inj_succ, N.pow_succ_r' in Hlt. lia.
Qed.

Lemma dec_digits_spec fuel n acc :
  (0 < fuel)%nat -> (n < 2 ^ N.of_nat fuel)%N ->
  exists ds, dec_digits fuel n acc = ds +:+ acc /\ decimal n ds.
Proof.
  revert n acc. induction fuel as [|fuel IH]; intros n acc Hf Hn; [lia|]. cbn [dec_digits].
  set (c := ascii_of_N (48 + n mod 10)). destruct (N.ltb_spec n 10) as [Hs|Hl].
  - exists (String c ""). split; [done|by apply decimal_one].
  - rewrite Nat2N.inj_succ, N.pow_succ_r' in Hn.
    destruct (IH (n / 10)%N (String c acc)) as (ds & Hds & Hdec).
    + destruct fuel; [cbn in Hn; lia|lia].
    + apply N.Div0.div_lt_upper_bound. lia.
    + exists (ds +:+ String c ""). split; [by rewrite Hds, str_app_assoc|by apply decimal_more].
Qed.

Lemma size_nat_size n : N.of_nat (N.size_nat n) = N.size n.
Proof.
  destruct n as [|p]; [done|]. cbn [N.size N.size_nat].
  induction p as [p IH|p IH|]; cbn [Pos.size Pos.size_nat]; rewrite Nat2N.inj_succ; by rewrite ?IH.
Qed.

Lemma str_of_N_decimal n : decimal n (str_of_N n).
Proof.
  unfold str_of_N. destruct (dec_digits_spec (S (N.size_nat n)) n "") as (ds & -> & H); [lia| |].
  - rewrite Nat2N.inj_succ, N.pow_succ_r'. pose proof (N.size_gt n) as Hs.
    rewrite size_nat_size. lia.
  - by rewrite str_app_nil.
Qed.

Lemma str_of_int_decimal z : 0 <= z -> decimal (Z.to_N z) (str_of_int z).
Proof.
  intros Hz. unfold str_of_int. destruct (Z.ltb_spec z 0); [lia|]. apply str_of_N_decimal.
Qed.

Lemma str_of_int_value z : 0 <= z -> digits_value 0 (str_of_int z) = z.
Proof. intros Hz. rewrite (decimal_value _ _ (str_of_int_decimal z Hz)). lia. Qed.

Lemma str_of_int_inj a b : 0 <= a -> 0 <= b -> str_of_int a = str_of_int b -> a = b.
Proof. intros Ha Hb E. rewrite <- (str_of_int_value a), E by done. by apply str_of_int_value. Qed.

Lemma digits_lack (sep : ascii) ds :
  is_digit sep = false -> str_forall is_digit ds = true -> lacks sep ds = true.
Proof.
  intros Hs. apply str_forall_mono. intros c Hc. apply negb_true_iff, Ascii.eqb_neq. congruence.
Qed.

(** At most nineteen digits in a 64-bit number. *)
Lemma str_of_int_short z : 0 <= z <= int8_max -> (String.length (str_of_int z) <= 19)%nat.
Proof.
  intros Hz. apply (decimal_length _ _ (str_of_int_decimal z ltac:(lia))); [lia|].
  unfold int8_max in Hz. change (N.of_nat 19) with 19%N.
  assert (10 ^ 19 = 10000000000000000000)%N as -> by reflexivity. lia.
Qed.

(** ** Identifiers *)

Lemma int_lacks_dash z : 0 <= z -> lacks "-" (str_of_int z) = true.
Proof. intros Hz. apply digits_lack; [done|]. apply (decimal_digits _ _ (str_of_int_decimal z Hz)). Qed.

Lemma conversation_id_parts g u x :
  vk_client_external_conversation_id g u = Some x ->
  0 < g /\ 0 < u /\ x = "vk" +:+ String "-" (str_of_int g +:+ String "-" (str_of_int u)).
Proof.
  unfold vk_client_external_conversation_id.
  destruct (Z.leb_spec g 0); [done|]. destruct (Z.leb_spec u 0); [done|]. cbv zeta.
  destruct (_ <? _)%nat; [done|]. by intros [= <-].
Qed.

(** What the three identifiers are split into. *)
Lemma conversation_id_split g u x :
  vk_client_external_conversation_id g u = Some x ->
  0 < g /\ 0 < u /\ str_split "-" x = ["vk"; str_of_int g; str_of_int u].
Proof.
  intros (Hg & Hu & ->)%conversation_id_parts. split_and!; [done..|].
  rewrite !str_split_cons, str_split_last by (try apply int_lacks_dash; done || lia). done.
Qed.

Lemma event_id_split g u m x :
  vk_client_external_event_id g u m = Some x ->
  0 < g /\ 0 < u /\ 0 < m /\ str_split "-" x = ["vk"; str_of_int g; str_of_int u; str_of_int m].
Proof.
  unfold vk_client_external_event_id. destruct (Z.leb_spec m 0); [done|].
  destruct (vk_client_external_conversation_id g u) as [base|] eqn:E; [|done]. cbn [mbind option_bind].
  cbv zeta. destruct (_ <? _)%nat; [done|]. intros [= <-].
  apply conversation_id_parts in E as (Hg & Hu & ->). split_and!; [done..|].
  change ("-" +:+ str_of_int m) with (String "-" (str_of_int m)).
  rewrite str_app_assoc. change (String "-" ?a +:+ ?b) with (String "-" (a +:+ b)).
  rewrite str_app_assoc. change (String "-" ?a +:+ ?b) with (String "-" (a +:+ b)).
  rewrite !str_split_cons, str_split_last by (try apply int_lacks_dash; done || lia). done.
Qed.

Lemma reply_id_split g u m x :
  vk_client_external_reply_event_id g u m = Some x ->
  0 < g /\ 0 < u /\ 0 < m /\
  str_split "-" x = ["vk"; str_of_int g; str_of_int u; "r"%string; str_of_int m].
Proof.
  unfold vk_client_external_reply_event_id. destruct (Z.leb_spec m 0); [done|].
  destruct (vk_client_external_conversation_id g u) as [base|] eqn:E; [|done]. cbn [mbind option_bind].
  cbv zeta. destruct (_ <? _)%nat; [done|]. intros [= <-].
  apply conversation_id_parts in E as (Hg & Hu & ->). split_and!; [done..|].
  change ("-r-" +:+ str_of_int m) with (String "-" ("r" +:+ String "-" (str_of_int m))).
  rewrite str_app_assoc. change (String "-" ?a +:+ ?b) with (String "-" (a +:+ b)).
  rewrite str_app_assoc. change (String "-" ?a +:+ ?b) with (String "-" (a +:+ b)).
  rewrite !str_split_cons, str_split_last by (try apply int_lacks_dash; done || lia). done.
Qed.

(** The schemas accept what is built of decimal numbers. *)
Lemma decimal_alnum z : 0 <= z -> str_forall py_isalnum (str_of_int z) = true.
Proof.
  intros Hz. eapply str_forall_mono; [|apply (decimal_digits _ _ (str_of_int_decimal z Hz))].
  intros c Hc. unfold py_isalnum. unfold is_digit in Hc. by rewrite Hc.
Qed.

Lemma decimal_kept z : 0 <= z -> str_without dash_or_underscore (str_of_int z) = str_of_int z.
Proof.
  intros Hz. apply str_without_none.
  eapply str_forall_mono; [|apply (decimal_digits _ _ (str_of_int_decimal z Hz))].
  intros c Hc. apply negb_true_iff. unfold dash_or_underscore.
  destruct (Ascii.eqb_spec c "-") as [->|]; [done|].
  destruct (Ascii.eqb_spec c "_") as [->|]; done.
Qed.

Section Ranges.
Context (g u m : Z).
Hypothesis Hg : 0 < g <= int8_max.
Hypothesis Hu : 0 < u <= int8_max.
Hypothesis Hm : 0 < m <= int8_max.

Definition conversation_text : string := "vk" +:+ String "-" (str_of_int g +:+ String "-" (str_of_int u)).

Lemma conversation_text_length : (1 <= String.length conversation_text <= 42)%nat.
Proof.
  unfold conversation_text. rewrite string_length_app. cbn [String.length].
  rewrite string_length_app. cbn [String.length].
  pose proof (str_of_int_short g ltac:(lia)). pose proof (str_of_int_short u ltac:(lia)). lia.
Qed.

Lemma conversation_id_text :
  vk_client_external_conversation_id g u = Some conversation_text.
Proof.
  unfold vk_client_external_conversation_id.
  destruct (Z.leb_spec g 0); [lia|]. destruct (Z.leb_spec u 0); [lia|]. cbv zeta.
  change ("vk-" +:+ str_of_int g +:+ "-" +:+ str_of_int u) with conversation_text.
  pose proof conversation_text_length as Hl. unfold VK_CLIENT_ID_MAX_LEN.
  destruct (Nat.ltb_spec 128 (String.length conversation_text)); [lia|done].
Qed.

Lemma safe_id_of prefix :
  str_without dash_or_underscore prefix <> ""%string ->
  str_forall py_isalnum (str_without dash_or_underscore prefix) = true ->
  (1 <= String.length prefix <= 60)%nat ->
  safe_external_id 128 (prefix +:+ str_of_int m) = true.
Proof.
  intros Hne Hal Hl. pose proof (str_of_int_short m ltac:(lia)) as Hs.
  unfold safe_external_id, str_isalnum.
  rewrite str_without_app, decimal_kept, str_forall_app, Hal, decimal_alnum, string_length_app by lia.
  rewrite !andb_true_iff, !Nat.leb_le. split_and!; try done; try lia.
  apply negb_true_iff, String.eqb_neq. by destruct (str_without dash_or_underscore prefix).
Qed.

Lemma conversation_without :
  str_without dash_or_underscore conversation_text = "vk" +:+ str_of_int g +:+ str_of_int u.
Proof.
  unfold conversation_text. rewrite str_without_app. cbn [str_without]. rewrite str_without_app.
  cbn. rewrite !decimal_kept by lia. done.
Qed.

Lemma conversation_alnum :
  str_forall py_isalnum (str_without dash_or_underscore conversation_text) = true.
Proof.
  rewrite conversation_without, !str_forall_app, !decimal_alnum by lia. done.
Qed.
End Ranges.

(** A number appended to an identifier with a separator. *)
Lemma vk_id_appended sep g u m :
  0 < g <= int8_max -> 0 < u <= int8_max -> 0 < m <= int8_max ->
  (String.length sep <= 3)%nat -> str_forall py_isalnum (str_without dash_or_underscore sep) = true ->
  let id := conversation_text g u +:+ sep +:+ str_of_int m in
  (VK_CLIENT_ID_MAX_LEN <? String.length id)%nat = false /\ safe_external_id 128 id = true.
Proof.
  intros Hg Hu Hm Hsep Hal id. pose proof (conversation_text_length g u Hg Hu) as Hl.
  pose proof (str_of_int_short m ltac:(lia)) as Hs. unfold id. split.
  - unfold VK_CLIENT_ID_MAX_LEN. apply Nat.ltb_ge. rewrite !string_length_app. lia.
  - rewrite <- str_app_assoc. apply safe_id_of; [done|..].
    + rewrite str_without_app, conversation_without by done. done.
    + by rewrite str_without_app, str_forall_app, conversation_alnum.
    + rewrite string_length_app. lia.
Qed.

Lemma conversation_id_safe g u :
  0 < g <= int8_max -> 0 < u <= int8_max -> safe_external_id 128 (conversation_text g u) = true.
Proof.
  intros Hg Hu. pose proof (conversation_text_length g u Hg Hu) as Hl.
  unfold safe_external_id, str_isalnum. rewrite conversation_alnum, conversation_without by done.
  rewrite !andb_true_iff, !Nat.leb_le. split_and!; try done; lia.
Qed.

(** The peer is read back. *)
Lemma peer_of_conversation g u :
  0 < g <= int8_max -> 0 < u <= int8_max -> parse_vk_client_peer_id (conversation_text g u) g = Some u.
Proof.
  intros Hg Hu. unfold parse_vk_client_peer_id. destruct (Z.leb_spec g 0); [lia|].
  destruct (conversation_id_split g u _ (conversation_id_text g u Hg Hu)) as (_ & _ & ->).
  assert (forall z, 0 <= z -> nonempty_digits (str_of_int z) = true) as Hd.
  { intros z Hz. destruct (str_of_int_decimal z Hz) as [H1 H2 _ _]. unfold nonempty_digits.
    rewrite H1, andb_true_r. by apply negb_true_iff, String.eqb_neq. }
  rewrite !Hd, String.eqb_refl by lia. cbn [andb negb]. cbv zeta.
  rewrite !str_of_int_value, Z.eqb_refl by lia. cbn [negb]. by destruct (Z.leb_spec u 0); [lia|].
Qed.

(** C35: the external identifiers of the VK channel are faithful.  For 64-bit
    numbers they all exist, the ingress schemas accept them, and the peer a
    dialog's messages are sent to is read back from its identifier; events of
    different dialogs or messages never share an identifier, nor does a message
    share one with a reply. *)
Theorem vk_ids_roundtrip g u m :
  (0 < g <= int8_max -> 0 < u <= int8_max -> 0 < m <= int8_max ->
   exists cid eid rid,
     vk_client_external_conversation_id g u = Some cid /\
     vk_client_external_event_id g u m = Some eid /\
     vk_client_external_reply_event_id g u m = Some rid /\
     Forall (fun id => safe_external_id 128 id = true) [cid; eid; rid] /\
     parse_vk_client_peer_id cid g = Some u) /\
  (forall g' u' m' x,
     (vk_client_external_event_id g u m = Some x -> vk_client_external_event_id g' u' m' = Some x ->
      (g', u', m') = (g, u, m)) /\
     (vk_client_external_reply_event_id g u m = Some x ->
      vk_client_external_reply_event_id g' u' m' = Some x -> (g', u', m') = (g, u, m)) /\
     ~ (vk_client_external_event_id g u m = Some x /\
        vk_client_external_reply_event_id g' u' m' = Some x)).
Proof.
  split.
  - intros Hg Hu Hm. exists (conversation_text g u), (conversation_text g u +:+ "-" +:+ str_of_int m),
      (conversation_text g u +:+ "-r-" +:+ str_of_int m).
    pose proof (conversation_id_text g u Hg Hu) as Hc.
    destruct (vk_id_appended "-" g u m) as [L1 S1]; [done| done|done|cbn; lia|done|].
    destruct (vk_id_appended "-r-" g u m) as [L2 S2]; [done| done|done|cbn; lia|done|].
    split_and!; [done| | | |by apply peer_of_conversation].
    + unfold vk_client_external_event_id. destruct (Z.leb_spec m 0); [lia|].
      rewrite Hc. cbn [mbind option_bind]. cbv zeta. by rewrite L1.
    + unfold vk_client_external_reply_event_id. destruct (Z.leb_spec m 0); [lia|].
      rewrite Hc. cbn [mbind option_bind]. cbv zeta. by rewrite L2.
    + repeat constructor; [by apply conversation_id_safe|done|done].
  - intros g' u' m' x. split_and!.
    + intros (? & ? & ? & E)%event_id_split (? & ? & ? & E')%event_id_split.
      rewrite E in E'. injection E' as E1 E2 E3.
      apply str_of_int_inj in E1, E2, E3; (lia || congruence).
    + intros (? & ? & ? & E)%reply_id_split (? & ? & ? & E')%reply_id_split.
      rewrite E in E'. injection E' as E1 E2 E3.
      apply str_of_int_inj in E1, E2, E3; (lia || congruence).
    + intros [(? & ? & ? & E)%event_id_split (? & ? & ? & E')%reply_id_split]. congruence.
Qed.

Lemma vk_ids_roundtrip_witness :
  exists cid eid rid,
    vk_client_external_conversation_id 77 5 = Some cid /\
    vk_client_external_event_id 77 5 3 = Some eid /\
    vk_client_external_reply_event_id 77 5 3 = Some rid /\
    Forall (fun id => safe_external_id 128 id = true) [cid; eid; rid] /\
    parse_vk_client_peer_id cid 77 = Some 5.
Proof. apply (proj1 (vk_ids_roundtrip 77 5 3)); unfold int8_max; lia. Defined.

(** ** The provenance marker *)

Lemma lower_hex_facts c :
  is_lower_hex c = true ->
  Ascii.eqb c "_" = false /\ Ascii.eqb c "-" = false /\ Ascii.eqb c "u" = false /\
  Ascii.eqb c "{" = false /\ Ascii.eqb c "}" = false /\ py_isspace c = false /\
  lower_char c = c /\ (N_of_ascii c <? 128)%N = true /\ exists d, unhex_digit c = Some d.
Proof.
  destruct c as [[] [] [] [] [] [] [] []]; intros H; try discriminate H;
    repeat (split; [reflexivity|]); eexists; reflexivity.
Qed.

Lemma str_forall_take p n s : str_forall p s = true -> str_forall p (str_take n s) = true.
Proof.
  revert s. induction n as [|n IH]; intros [|c s]; try done. cbn. rewrite !andb_true_iff.
  intros [? ?]. auto.
Qed.

Lemma str_forall_drop p n s : str_forall p s = true -> str_forall p (str_drop n s) = true.
Proof.
  revert s. induction n as [|n IH]; intros [|c s]; try done. cbn. rewrite andb_true_iff.
  intros [? ?]. auto.
Qed.

Lemma str_remove_none w ws s :
  str_forall (fun c => negb (Ascii.eqb c w)) s = true -> str_remove (String w ws) s = s.
Proof.
  unfold str_remove. generalize (String.length s). intros fuel. revert s.
  induction fuel as [|fuel IH]; intros [|c s]; try done. cbn [str_forall str_remove_fuel String.prefix].
  rewrite andb_true_iff, negb_true_iff. intros [Hc H]. destruct (ascii_dec w c) as [->|].
  - by rewrite Ascii.eqb_refl in Hc.
  - by rewrite IH.
Qed.

Lemma str_strip_none p s : str_forall (fun c => negb (p c)) s = true -> str_strip p s = s.
Proof.
  unfold str_strip. intros H. assert (str_strip_left p s = s) as ->.
  { destruct s as [|c s]; [done|]. cbn in *. apply andb_true_iff in H as [H%negb_true_iff _]. by rewrite H. }
  induction s as [|c s IH]; [done|]. cbn in *. rewrite andb_true_iff, negb_true_iff in H.
  destruct H as [Hc H]. rewrite IH by done. destruct s; [by rewrite Hc|done].
Qed.

Lemma hex_number_unhex acc b s :
  str_forall is_lower_hex s = true -> s <> ""%string -> hex_number acc b s = Some (unhex acc s).
Proof.
  revert acc b. induction s as [|c s IH]; intros acc b H Hne; [done|]. cbn in H.
  apply andb_true_iff in H as [Hc H].
  destruct (lower_hex_facts c Hc) as (E1 & _ & _ & _ & _ & _ & E2 & _ & d & E3).
  cbn [hex_number unhex]. rewrite E1, E2, E3. destruct s as [|c' s]; [done|]. by apply IH.
Qed.

Lemma py_int16_hex s :
  str_forall is_lower_hex s = true -> (2 <= String.length s)%nat ->
  py_int16 s = Some (Z.of_N (unhex 0 s)).
Proof.
  intros H Hl. unfold py_int16. rewrite str_strip_none.
  2: { eapply str_forall_mono; [|exact H]. intros c Hc.
       destruct (lower_hex_facts c Hc) as (_ & _ & _ & _ & _ & -> & _). done. }
  destruct s as [|c1 [|c2 s]]; try (cbn in Hl; lia).
  pose proof (hex_number_unhex 0 false _ H) as Hn.
  cbn [str_forall] in H. rewrite !andb_true_iff in H. destruct H as (H1 & H2 & _).
  assert (hex_number 0 false (String c1 (String c2 s)) = Some (unhex 0 (String c1 (String c2 s))))
    as E by (by apply Hn). clear Hn.
  set (n := unhex 0 (String c1 (String c2 s))) in *. clearbody n.
  destruct c1 as [[] [] [] [] [] [] [] []]; try discriminate H1; try (rewrite E; reflexivity);
  destruct c2 as [[] [] [] [] [] [] [] []]; try discriminate H2; rewrite E; reflexivity.
Qed.

Lemma uuid_hex_lower u : uuid_ok u = true -> str_forall is_lower_hex (uuid_hex u) = true.
Proof.
  unfold uuid_ok, uuid_hex. intros ->. eapply str_matches_forall; [|apply (hex_digits_match 32)].
  repeat (constructor; [done|]). constructor.
Qed.

(** A UUID prints as hexadecimal digits and dashes. *)
Lemma uuid_str_chars u :
  uuid_ok u = true ->
  str_forall (fun c => is_lower_hex c || Ascii.eqb c "-") (uuid_str u) = true /\
  str_without (fun c => Ascii.eqb c "-") (uuid_str u) = uuid_hex u.
Proof.
  intros Hu. pose proof (uuid_hex_lower u Hu) as H. unfold uuid_str. cbv zeta.
  generalize (uuid_hex u) H. intros s Hs.
  assert (forall t, str_forall is_lower_hex t = true ->
    str_forall (fun c => is_lower_hex c || Ascii.eqb c "-") t = true /\
    str_without (fun c => Ascii.eqb c "-") t = t) as Hpart.
  { intros t Ht. split.
    - eapply str_forall_mono; [|exact Ht]. by intros c ->.
    - apply str_without_none. eapply str_forall_mono; [|exact Ht]. intros c Hc.
      by destruct (lower_hex_facts c Hc) as (_ & -> & _). }
  destruct (Hpart (str_take 8 s)) as [P1 W1]; [by apply str_forall_take|].
  destruct (Hpart (str_take 4 (str_drop 8 s))) as [P2 W2]; [by apply str_forall_take, str_forall_drop|].
  destruct (Hpart (str_take 4 (str_drop 12 s))) as [P3 W3]; [by apply str_forall_take, str_forall_drop|].
  destruct (Hpart (str_take 4 (str_drop 16 s))) as [P4 W4]; [by apply str_forall_take, str_forall_drop|].
  destruct (Hpart (str_drop 20 s)) as [P5 W5]; [by apply str_forall_drop|]. split.
  - rewrite !str_forall_app, P1, P2, P3, P4, P5. done.
  - rewrite !str_without_app, W1, W2, W3, W4, W5. cbn [str_without Ascii.eqb].
    change (str_without _ "-") with ""%string. cbn [append].
    rewrite <- (str_take_drop 8 s) at 6.
    rewrite <- (str_take_drop 4 (str_drop 8 s)) at 2.
    rewrite <- (str_take_drop 4 (str_drop 4 (str_drop 8 s))).
    rewrite <- (str_take_drop 4 (str_drop 4 (str_drop 4 (str_drop 8 s)))).
    by rewrite !str_drop_drop.
Qed.

Lemma py_uuid_str u : uuid_ok u = true -> py_uuid (uuid_str u) = Some u.
Proof.
  intros Hu. destruct (uuid_str_chars u Hu) as [Hc Hw]. unfold py_uuid.
  assert (forall p : ascii -> bool, (forall c, is_lower_hex c || Ascii.eqb c "-" = true -> p c = false) ->
    str_forall (fun c => negb (p c)) (uuid_str u) = true) as Hno.
  { intros p Hp. eapply str_forall_mono; [|exact Hc]. intros c H. by rewrite (Hp c H). }
  rewrite (str_remove_none "u" "rn:"), (str_remove_none "u" "uid:"), str_strip_none, Hw.
  2-4: apply Hno; intros c [H|H%Ascii.eqb_eq]%orb_true_iff; [|by subst];
    destruct (lower_hex_facts c H) as (_ & _ & E1 & E2 & E3 & _); by rewrite ?E1, ?E2, ?E3.
  assert (String.length (uuid_hex u) = 32%nat) as Hl.
  { unfold uuid_hex. unfold uuid_ok in Hu. rewrite Hu. apply length_hex_digits. }
  rewrite Hl, Nat.eqb_refl. cbn [negb].
  rewrite py_int16_hex by (try apply uuid_hex_lower; done || lia). cbn [mbind option_bind].
  rewrite unhex_uuid_hex. apply N.ltb_lt in Hu.
  destruct (Z.leb_spec 0 (Z.of_N u)); [|lia]. destruct (Z.ltb_spec (Z.of_N u) (2 ^ 128)); [|lia].
  cbn [andb]. by rewrite N2Z.id.
Qed.

Section Marker.
Context `{PyLib} (u : uuid) (key : string).

(** The object whose dump is the marker. *)
Definition marker_object : jdict :=
  [ ("mac", JStr (mac_hex u key)); ("ns", JStr VK_OUTBOUND_PROVENANCE_NS);
    ("oid", JStr (uuid_str u)); ("v", JInt VK_OUTBOUND_PROVENANCE_VERSION) ].

(** [json.loads] reads back what [json.dumps] wrote, and the MAC is 32 lower-case
    hexadecimal digits. *)
Definition marker_library (text : string) : Prop :=
  json_loads text = Some (JObj marker_object) /\
  str_matches (replicate 32 is_lower_hex) (mac_hex u key) = true.

Lemma hex_text_facts s :
  str_matches (replicate 32 is_lower_hex) s = true ->
  String.length s = 32%nat /\ str_lower s = s /\ str_forall is_lower_hex s = true /\ is_ascii s = true.
Proof.
  intros Hm. assert (str_forall is_lower_hex s = true) as Hall.
  { eapply str_matches_forall; [|exact Hm]. repeat (constructor; [done|]). constructor. }
  split_and!; [by apply str_matches_length in Hm| |done|].
  - clear Hm. induction s as [|c s IH]; [done|]. cbn in Hall. apply andb_true_iff in Hall as [Hc Hs].
    cbn. rewrite IH by done. by destruct (lower_hex_facts c Hc) as (_ & _ & _ & _ & _ & _ & -> & _).
  - eapply str_forall_mono; [|exact Hall]. intros c Hc.
    by destruct (lower_hex_facts c Hc) as (_ & _ & _ & _ & _ & _ & _ & -> & _).
Qed.
End Marker.

(** C34: the bot recognises its own messages.  The marker built for a row is read
    back as a candidate, survives the event's envelope and is verified to be that
    row's; whatever is verified under a key carries the key's MAC of the row it
    names.  [marker_library]: JSON text reads back as the object it was written
    from, and a MAC is 32 lower-case hexadecimal digits. *)
Theorem vk_marker_roundtrip `{PyLib} u key text :
  build_vk_outbound_provenance_payload u key = Some text -> uuid_ok u = true ->
  marker_library u key text ->
  let technical := classify_vk_reply_payload (Some (JStr text)) in
  technical = PROVENANCE_BOT_TV_CANDIDATE (uuid_str u) (mac_hex u key) /\
  from_envelope_fragment (Some (JObj (to_envelope_fragment technical))) = Some technical /\
  verify_vk_outbound_provenance_technical technical key = Returned (Some u) /\
  (forall oid mac k key', verify_vk_outbound_provenance_technical
       (PROVENANCE_BOT_TV_CANDIDATE oid mac) key' = Returned (Some k) ->
     key' <> ""%string /\ py_uuid oid = Some k /\ str_lower mac = mac_hex k key').
Proof.
  intros Hb Hu [Hload Hmac]. destruct (hex_text_facts _ Hmac) as (Hlen & Hlow & Hhex & Hascii).
  pose proof (length_uuid_str u Hu) as Hlu.
  unfold build_vk_outbound_provenance_payload in Hb. destruct (String.eqb key "") eqn:Hk; [done|].
  injection Hb as Htext.
  assert (classify_vk_reply_payload (Some (JStr text)) =
    PROVENANCE_BOT_TV_CANDIDATE (uuid_str u) (mac_hex u key)) as Hcl.
  { unfold classify_vk_reply_payload, coerce_payload_object. rewrite Hload.
    assert (String.length text <= 1000)%nat as Hlt.
    { rewrite <- Htext, !string_length_app, Hlen, Hlu. cbn. lia. }
    destruct (Nat.ltb_spec 1000 (String.length text)); [lia|].
    assert (String.eqb text "" = false) as -> by (by rewrite <- Htext). cbn [orb].
    cbn -[String.length py_uuid str_lower str_forall Nat.eqb]. rewrite Hlu, Hlen, Hlow.
    rewrite (py_uuid_str u Hu). cbn -[str_forall].
    change (str_forall is_hex_lower ?s) with (str_forall is_lower_hex s). by rewrite Hhex. }
  cbv zeta. rewrite Hcl. split_and!; [done| | |].
  - cbn -[String.length Nat.eqb]. rewrite Hlu, Hlen. done.
  - unfold verify_vk_outbound_provenance_technical, compare_digest.
    rewrite Hk, (py_uuid_str u Hu), Hlow, Hascii, String.eqb_refl. done.
  - intros oid mac k key'. unfold verify_vk_outbound_provenance_technical, compare_digest.
    destruct (String.eqb_spec key' ""); [done|]. destruct (py_uuid oid) as [k'|]; [|done].
    destruct (_ && _); [|done]. destruct (String.eqb_spec (str_lower mac) (mac_hex k' key')); [|done].
    by intros [= <-].
Qed.

(** A library whose one document is the marker. *)
Definition marker_text : string := Eval vm_compute in
  default ""%string (build_vk_outbound_provenance_payload
    (H := {| json_loads := fun _ => None;
             hmac_sha256_hex32 := fun _ _ => "0123456789abcdef0123456789abcdef"%string;
             isoformat := str_of_int; fromisoformat := fun _ => None |}) 5%N "key").

Definition marker_lib : PyLib := {|
  json_loads := fun s => if String.eqb s marker_text then Some (JObj
    [ ("mac", JStr "0123456789abcdef0123456789abcdef"); ("ns", JStr VK_OUTBOUND_PROVENANCE_NS);
      ("oid", JStr (uuid_str 5%N)); ("v", JInt 1) ]) else None;
  hmac_sha256_hex32 := fun _ _ => "0123456789abcdef0123456789abcdef"%string;
  isoformat := str_of_int;
  fromisoformat := fun _ => None
|}.

Lemma vk_marker_roundtrip_witness :
  verify_vk_outbound_provenance_technical (H := marker_lib)
    (classify_vk_reply_payload (H := marker_lib) (Some (JStr marker_text))) "key" =
  Returned (Some 5%N).
Proof.
  destruct (vk_marker_roundtrip (H := marker_lib) 5%N "key" marker_text) as (_ & _ & H & _).
  - vm_compute. reflexivity.
  - vm_compute. reflexivity.
  - split; vm_compute; reflexivity.
  - exact H.
Defined.

(** ** The webhook's door *)

(** The callback is the configured community's: the body is an object with the
    configured secret and group. *)
Definition authentic `{PyLib} (body : CallbackBody) (config : VkClientCallbackConfig) : Prop :=
  callback_config_complete config = true /\
  exists payload secret group,
    coerce_object body = Some payload /\
    jget payload "secret" = Some (JStr secret) /\ vcc_callback_secret config = Some secret /\
    jget payload "group_id" = Some (JInt group) /\ vcc_group_id config = Some group.

(** A secret that cannot be compared: outside ASCII, on either side. *)
Definition incomparable `{PyLib} (body : CallbackBody) (config : VkClientCallbackConfig) : Prop :=
  callback_config_complete config = true /\
  exists payload secret,
    coerce_object body = Some payload /\ jget payload "secret" = Some (JStr secret) /\
    is_ascii secret && is_ascii (default "" (vcc_callback_secret config)) = false.

(** What the parser builds is validated. *)
Lemma normalized_message m m' :
  make_normalized_message m = Some m' -> m' = m /\
  vnm_from_id m = vnm_peer_id m /\ 0 < vnm_peer_id m /\ 0 < vnm_conversation_message_id m /\
  vk_client_text_is_ingress_safe (vnm_text m) = true.
Proof.
  unfold make_normalized_message.
  destruct (Z.leb_spec (vnm_from_id m) 0); [done|]. destruct (Z.leb_spec (vnm_peer_id m) 0); [done|].
  destruct (Z.eqb_spec (vnm_from_id m) (vnm_peer_id m)); [|done].
  destruct (vk_client_text_is_ingress_safe _); [|done].
  destruct (Z.leb_spec (vnm_conversation_message_id m) 0); [done|]. cbn [negb].
  destruct (_ <=? _); [done|]. by intros [= <-].
Qed.

Lemma normalized_reply m m' :
  make_normalized_message_reply m = Some m' -> m' = m /\
  0 < vnr_peer_id m /\ 0 < vnr_conversation_message_id m /\ 0 < vnr_provider_message_id m.
Proof.
  unfold make_normalized_message_reply. destruct (_ <=? 0); [done|].
  destruct (Z.leb_spec (vnr_peer_id m) 0); [done|].
  destruct (Z.leb_spec (vnr_conversation_message_id m) 0); [done|].
  destruct (Z.leb_spec (vnr_provider_message_id m) 0); [done|].
  destruct (match vnr_random_id m with Some z => z <? 0 | None => false end); [done|].
  by intros [= <-].
Qed.

Lemma extracted_message obj g m :
  extract_private_message obj g = Some m ->
  vnm_group_id m = g /\ vnm_from_id m = vnm_peer_id m /\ 0 < vnm_peer_id m /\
  0 < vnm_conversation_message_id m /\ vk_client_text_is_ingress_safe (vnm_text m) = true.
Proof.
  unfold extract_private_message. cbv zeta. intros H.
  repeat (match goal with
    | H : (if ?b then _ else _) = Some _ |- _ => destruct b; try discriminate H
    | H : (match ?x with _ => _ end) = Some _ |- _ => destruct x; try discriminate H
    | H : mbind _ _ = Some _ |- _ => apply bind_Some in H as (? & _ & H)
    end).
  by apply normalized_message in H as (-> & ?).
Qed.

Lemma extracted_reply `{PyLib} obj g m :
  extract_private_message_reply obj g = Some m ->
  vnr_group_id m = g /\ 0 < vnr_peer_id m /\ 0 < vnr_conversation_message_id m /\
  0 < vnr_provider_message_id m.
Proof.
  unfold extract_private_message_reply. cbv zeta. intros E.
  destruct obj as [[]|]; try discriminate E.
  repeat (match goal with
    | H : (if ?b then _ else _) = Some _ |- _ => destruct b; try discriminate H
    | H : (match jget ?x ?k with _ => _ end) = Some _ |- _ => destruct (jget x k); try discriminate H
    | H : (match ?x with JNull => _ | _ => _ end) = Some _ |- _ => destruct x; try discriminate H
    | H : mbind _ _ = Some _ |- _ => apply bind_Some in H as (? & _ & H)
    end); by apply normalized_reply in E as (-> & ?).
Qed.

Lemma authenticated_result `{PyLib} payload config :
  callback_config_complete config = true ->
  parse_authenticated_callback payload config <> WEBHOOK_REJECTED ->
  (exists g, jget payload "group_id" = Some (JInt g) /\ vcc_group_id config = Some g) /\
  match parse_authenticated_callback payload config with
  | WEBHOOK_MESSAGE m => vcc_group_id config = Some (vnm_group_id m) /\
      vnm_from_id m = vnm_peer_id m /\ 0 < vnm_peer_id m /\ 0 < vnm_conversation_message_id m /\
      vk_client_text_is_ingress_safe (vnm_text m) = true
  | WEBHOOK_MESSAGE_REPLY m => vcc_group_id config = Some (vnr_group_id m) /\
      0 < vnr_peer_id m /\ 0 < vnr_conversation_message_id m /\ 0 < vnr_provider_message_id m
  | WEBHOOK_CONFIRMATION text => vcc_confirmation config = Some text
  | _ => True
  end.
Proof.
  unfold parse_authenticated_callback. intros Hconf.
  destruct (jget payload "group_id") as [[| |g| | |]|]; try done.
  destruct (sql_eq (vcc_group_id config) g) eqn:Hg; [|done]. apply sql_eq_true in Hg. cbn [negb].
  destruct (jget payload "type") as [[| | |type| |]|]; try done.
  destruct (String.eqb type ""); [done|].
  destruct (String.eqb type "confirmation").
  { intros _. split; [by exists g|]. unfold callback_config_complete in Hconf.
    destruct (vcc_confirmation config); [done|]. by rewrite andb_false_r in Hconf. }
  destruct (String.eqb type "message_reply").
  { intros _. split; [by exists g|].
    destruct (extract_private_message_reply _ g) as [m|] eqn:Em; [|done].
    apply extracted_reply in Em as (-> & ?). done. }
  intros _. split; [by exists g|]. destruct (negb _); [done|].
  destruct (extract_private_message _ g) as [m|] eqn:Em; [|done].
  apply extracted_message in Em as (-> & ?). done.
Qed.

(** C18: only an authentic callback gets past the webhook's parser, and the messages
    it lets through are well formed and of the configured community.  The parser
    is not closed on every body, though: a secret that is not ASCII raises
    TypeError instead of being rejected, and nothing else raises. *)
Theorem webhook_authentication `{PyLib} body config r :
  (parse_vk_client_callback body config = Returned r -> r <> WEBHOOK_REJECTED ->
   authentic body config /\
   match r with
   | WEBHOOK_MESSAGE m => vcc_group_id config = Some (vnm_group_id m) /\
       vnm_from_id m = vnm_peer_id m /\ 0 < vnm_peer_id m /\ 0 < vnm_conversation_message_id m /\
       vk_client_text_is_ingress_safe (vnm_text m) = true
   | WEBHOOK_MESSAGE_REPLY m => vcc_group_id config = Some (vnr_group_id m) /\
       0 < vnr_peer_id m /\ 0 < vnr_conversation_message_id m /\ 0 < vnr_provider_message_id m
   | WEBHOOK_CONFIRMATION text => vcc_confirmation config = Some text
   | _ => True
   end) /\
  ((exists e, parse_vk_client_callback body config = Raised e) <-> incomparable body config) /\
  (forall e, parse_vk_client_callback body config = Raised e -> exn_class e = TypeError).
Proof.
  unfold parse_vk_client_callback, incomparable, authentic, compare_digest.
  destruct (callback_config_complete config) eqn:Hconf; cbn [negb].
  2: { split_and!; [intros [= <-]; done| |done]. split; [by intros [e ?]|by intros [? _]]. }
  destruct (coerce_object body) as [payload|].
  2: { split_and!; [intros [= <-]; done| |done]. split; [by intros [e ?]|by intros (_ & ? & ? & ? & _)]. }
  destruct (jget payload "secret") as [[| | |secret| |]|] eqn:Hsec;
    try (split_and!; [intros [= <-]; done| |done]; split; [by intros [e ?]|];
         intros (_ & p & s & [= <-] & Hs & _); congruence).
  destruct (is_ascii secret && is_ascii (default "" (vcc_callback_secret config))) eqn:Ha.
  2: { split_and!; [done| |by intros e [= <-]]. split; [|by eexists].
       intros _. split; [done|]. by exists payload, secret. }
  destruct (String.eqb_spec secret (default "" (vcc_callback_secret config))) as [Heq|].
  - split_and!; [|split; [by intros [e ?]|intros (_ & p & s & [= <-] & Hs & Hn); congruence]|done].
    intros [= <-] Hr. destruct (authenticated_result payload config Hconf Hr) as [(g & Hg & Hgc) Hres].
    split; [|exact Hres]. split; [done|]. exists payload, secret, g. split_and!; try done.
    unfold callback_config_complete in Hconf. rewrite !andb_true_iff in Hconf.
    destruct (vcc_callback_secret config); [by subst|by destruct Hconf as [[_ ?] _]].
  - split_and!; [intros [= <-]; done|split; [by intros [e ?]|intros (_ & p & s & [= <-] & Hs & Hn); congruence]|done].
Qed.

Definition shy_config : VkClientCallbackConfig :=
  MkVkClientCallbackConfig true (Some 77) (Some "secret"%string) (Some "confirm"%string).
Definition shy_body (secret : string) : CallbackBody := BodyDict
  [("secret", JStr secret); ("group_id", JInt 77); ("type", JStr "confirmation")].

Lemma webhook_authentication_witness :
  authentic (H := marker_lib) (shy_body "secret") shy_config /\
  exists e, parse_vk_client_callback (H := marker_lib)
    (shy_body (String (ascii_of_N 233) "")) shy_config = Raised e.
Proof.
  split.
  - apply (webhook_authentication (H := marker_lib) (shy_body "secret") shy_config
      (WEBHOOK_CONFIRMATION "confirm")); [vm_compute; reflexivity|discriminate].
  - apply (webhook_authentication (H := marker_lib) (shy_body (String (ascii_of_N 233) "")) shy_config
      WEBHOOK_IGNORED).
    split; [reflexivity|]. eexists _, _. split; [reflexivity|]. split; reflexivity.
Defined.
