(* ===== verification/PiiTheorems.v ===== *)
(** * The store of personal data: theorems

    Tokens name references one to one; a text that was stored is read back, once
    or as often as asked, by a caller who names its dialog, kind and purpose,
    until it expires or is consumed, and by nobody else. *)

From S2P Require Import Prelude BookingText Encodings Models Database Statements EphemeralPii.
From S2P Require Import Dialog Frames Progress EncodingProofs PiiProofs System Fresh Scenario.
From S2P Require Import SelfBookingScenario.

(** ** Reading a value back *)

(** [x] is the only value under its digest. *)
Lemma digest_unique s id x id' x' :
  constraints_ok s -> db_pii_values s !! id = Some x -> db_pii_values s !! id' = Some x' ->
  ep_reference_digest x' = ep_reference_digest x -> id' = id /\ x' = x.
Proof.
  intros Hcon Hx Hx' E. pose proof (constraints_table (R := EphemeralPiiValue) s Hcon) as Ht.
  destruct (Ht id x Hx) as (_ & _ & _ & _ & Hu).
  destruct (Hu id' x' Hx') as [->|Hc]; [by simplify_eq|].
  cbn in Hc. unfold uq_ephemeral_pii_values_reference_digest in Hc.
  by rewrite E, String.eqb_refl in Hc.
Qed.

(** Deleting by primary key. *)
Lemma filter_one_out s id :
  constraints_ok s ->
  filter (fun kv => bool_decide (ep_id kv.2 = id) = false) (db_pii_values s) =
  delete id (db_pii_values s).
Proof.
  intros Hcon. pose proof (constraints_keys_ok (R := EphemeralPiiValue) s Hcon) as Hk.
  apply map_eq. intros i. apply option_eq. intros x.
  rewrite map_lookup_filter_Some, lookup_delete_Some, bool_decide_eq_false. cbn. split.
  - intros [Hx Hne]. split; [|done]. intros ->. by apply Hne, (Hk _ _ Hx).
  - intros [Hne Hx]. split; [done|]. intros E. apply Hne. rewrite <- E. exact (Hk _ _ Hx).
Qed.

Section ReadBack.
Context `{CryptoLaws} (store : EphemeralPiiStore) (active : ActiveEphemeralPiiKey).
Context (Hactive : has_active_key (eps_environ store) active).
Context (value : string) (cid : uuid) (kind : EphemeralPiiKind) (purpose : EphemeralPiiPurpose).
Context (n : N) (reference : EphemeralPiiReference) (created : instant).

Let row : EphemeralPiiValue :=
  stored_row store active value cid kind purpose n reference created.

Context (env : Env) (s : Database) (Hcon : constraints_ok s).
Context (Hrow : db_pii_values s !! uuid4_of n = Some row).

Let now : instant := env_statement_timestamp env (db_statement_clock s).

Lemma wp_select_stored X (Q : option EphemeralPiiValue -> Database -> Prop) :
  Q (if now <? ep_expires_at row then Some row else None) (s <| db_statement_clock ::= S |>) ->
  wp (ephemeral_pii_repo.select_for_read (EphemeralPiiReferenceOps.digest reference)) Q X env s.
Proof.
  intros HQ. apply wp_select_for_read; fold now.
  - intros id x Hx [Hd%String.eqb_eq Hl]%andb_true_iff.
    destruct (digest_unique s _ _ _ _ Hcon Hrow Hx Hd) as [-> ->]. by rewrite Hl in HQ.
  - intros Hno. specialize (Hno _ _ Hrow). unfold live in Hno.
    rewrite String.eqb_refl in Hno. cbn [andb] in Hno. by rewrite Hno in HQ.
Qed.

Lemma wp_decrypt_stored cid' kind' purpose' s' X (Q : string -> Database -> Prop) :
  cid = cid' -> kind = kind' -> purpose = purpose' -> Q value s' ->
  wp (EphemeralPiiStoreOps.decrypt_row store row cid' kind' purpose') Q X env s'.
Proof.
  intros <- <- <- HQ. apply wp_try.
  apply (wp_decrypt_text store active Hactive value
    (MkEphemeralPiiAad CRYPTO_VERSION_V1 (uuid4_of n) (ak_key_id active) kind cid purpose)
    (N.succ n)); done.
Qed.

(** The caller names what the value was stored for. *)
Definition granted (cid' : uuid) (kind' : EphemeralPiiKind) (purpose' : EphemeralPiiPurpose)
    : Prop :=
  cid = cid' /\ kind = kind' /\ purpose = purpose'.

(** Reading, at any time. *)
Lemma wp_read_stored cid' kind' purpose' :
  wp (EphemeralPiiStoreOps.read_plaintext store reference cid' kind' purpose')
    (fun text s' => text = value /\ granted cid' kind' purpose' /\ now < ep_expires_at row /\
       s' = s <| db_statement_clock ::= S |>)
    (fun e s' => e = ACCESS_DENIED /\ s' = s /\
       ~ (granted cid' kind' purpose' /\ now < ep_expires_at row)) env s.
Proof.
  apply wp_pii_error_or, wp_session_scope, wp_bind, wp_select_stored, wp_bind, wp_require_access.
  - intros x Hx E1 E2 E3. destruct (Z.ltb_spec now (ep_expires_at row)); [|done].
    injection Hx as <-. by apply wp_decrypt_stored.
  - intros Hno. split_and!; [done..|]. intros [(<- & <- & <-) Hlt].
    rewrite (proj2 (Z.ltb_lt _ _) Hlt) in Hno. specialize (Hno row eq_refl eq_refl).
    apply not_true_iff_false in Hno. by destruct Hno; apply bindings_match_true.
Qed.

(** The row is checked again once it is locked. *)
Let later : instant := env_statement_timestamp env (S (db_statement_clock s)).

Lemma wp_select_consumed X (Q : option EphemeralPiiValue -> Database -> Prop) :
  (now < ep_expires_at row -> later < ep_expires_at row -> forall k,
     Q (Some row) (s <| db_statement_clock := k |>)) ->
  (~ (now < ep_expires_at row /\ later < ep_expires_at row) -> forall k,
     Q None (s <| db_statement_clock := k |>)) ->
  wp (ephemeral_pii_repo.select_for_consume (EphemeralPiiReferenceOps.digest reference)) Q X env s.
Proof.
  intros HQ HN. unfold ephemeral_pii_repo.select_for_consume. apply wp_bind, wp_select_stored.
  destruct (Z.ltb_spec now (ep_expires_at row)) as [Hlt|]; [|apply wp_ret, HN; lia].
  apply wp_bind. unfold ephemeral_pii_repo.row_still_unexpired_after_lock.
  apply wp_bind, wp_db_statement_now, wp_bind, wp_select_scalar.
  - intros id x Hx [Hid%bool_decide_eq_true Hl%Z.ltb_lt]%andb_true_iff.
    assert (x = row) as ->.
    { pose proof (constraints_keys_ok (R := EphemeralPiiValue) s Hcon) as Hk.
      pose proof (Hk _ _ Hx : ep_id x = id) as E. rewrite Hid in E. subst id.
      apply (inj Some). rewrite <- Hx. exact Hrow. }
    by apply wp_ret, wp_ret, (HQ Hlt Hl).
  - intros Hno. apply wp_ret, wp_ret, HN. intros [_ Hl]. specialize (Hno _ _ Hrow).
    apply andb_false_iff in Hno as [Hno%bool_decide_eq_false|Hno%Z.ltb_ge]; [by destruct Hno|].
    exact (Zle_not_lt _ _ Hno Hl).
Qed.

(** Consuming, at any time. *)
Lemma wp_consume_stored cid' kind' purpose' :
  wp (EphemeralPiiStoreOps.consume_once store reference cid' kind' purpose')
    (fun text s' => text = value /\ granted cid' kind' purpose' /\ now < ep_expires_at row /\
       exists k, s' = s <| db_pii_values := delete (uuid4_of n) (db_pii_values s) |>
         <| db_statement_clock := k |>)
    (fun e s' => e = ACCESS_DENIED /\ s' = s /\ ~ (granted cid' kind' purpose' /\
       now < ep_expires_at row /\ later < ep_expires_at row)) env s.
Proof.
  apply wp_pii_error_or, wp_session_scope, wp_bind, wp_select_consumed.
  - intros Hlt Hlt' k. apply wp_bind, wp_require_access.
    + intros x [= <-] E1 E2 E3. apply wp_bind, wp_decrypt_stored; [done..|].
      apply wp_bind, wp_bind, wp_delete_where, wp_ret, wp_ret. split_and!; [done..|].
      exists k. rewrite <- (filter_one_out s _ Hcon). reflexivity.
    + intros Hno. split_and!; [done..|]. intros [(<- & <- & <-) _].
      specialize (Hno row eq_refl eq_refl).
      apply not_true_iff_false in Hno. by destruct Hno; apply bindings_match_true.
  - intros Hno k. apply wp_bind, wp_require_access; [done|]. intros _. split_and!; [done..|]. tauto.
Qed.
End ReadBack.

(** A reference no stored value answers to. *)
Lemma wp_read_unknown `{CryptoLib} store reference cid kind purpose env s :
  (forall id x, db_pii_values s !! id = Some x ->
     ep_reference_digest x <> EphemeralPiiReferenceOps.digest reference) ->
  wp (EphemeralPiiStoreOps.read_plaintext store reference cid kind purpose)
    (fun _ _ => False) (fun e s' => e = ACCESS_DENIED /\ s' = s) env s.
Proof.
  intros Hno. apply wp_pii_error_or, wp_session_scope, wp_bind, wp_select_for_read.
  - intros id x Hx [Hd%String.eqb_eq _]%andb_true_iff. by destruct (Hno id x Hx).
  - intros _. apply wp_bind, wp_require_access; [done|]. by split.
Qed.

(** C24: a token stands for exactly one reference of 32 bytes: a text is the token
    of the reference parsed from it, and of no other. *)
Theorem reference_token_roundtrip token reference :
  EphemeralPiiReferenceOps.parse token = Some reference <->
  String.length (er_raw reference) = REFERENCE_RAW_BYTES /\
  EphemeralPiiReferenceOps.to_token reference = token.
Proof.
  split; [apply parse_token_inv|]. destruct reference as [raw]. cbn.
  intros [Hl <-]. by apply parse_to_token.
Qed.

(** C21: a storable text is always taken, under a new reference, as one row that
    expires after the store's time to live.  As long as that row is kept, whatever
    else the database holds, reading with the reference gives the text to a caller
    who names the dialog, the kind and the purpose before the expiry and denies
    anybody else; consuming does so too and takes the row away, after which
    reading is denied for good. *)
Theorem stored_value_read_back `{CryptoLaws} store active value cid kind purpose env s :
  has_active_key (eps_environ store) active -> 1 <= eps_ttl_seconds store -> storable value ->
  constraints_ok s -> supply_ok s -> unused_reference s (N.succ (N.succ (db_uuid_supply s))) ->
  exists reference row s1,
    EphemeralPiiStoreOps.store_value store value cid kind purpose env s =
      (Returned (MkEphemeralPiiHandle reference kind purpose), s1) /\
    db_pii_values s1 = <[ep_id row := row]> (db_pii_values s) /\
    db_pii_values s !! ep_id row = None /\
    ep_expires_at row = env_statement_timestamp env (db_statement_clock s) +
                        seconds (eps_ttl_seconds store) /\
    forall env2 s2 cid' kind' purpose',
      constraints_ok s2 -> db_pii_values s2 !! ep_id row = Some row ->
      let granted := cid = cid' /\ kind = kind' /\ purpose = purpose' in
      let alive k := env_statement_timestamp env2 (k + db_statement_clock s2)%nat < ep_expires_at row in
      wp (EphemeralPiiStoreOps.read_plaintext store reference cid' kind' purpose')
        (fun text _ => text = value /\ granted /\ alive 0%nat)
        (fun e s3 => e = ACCESS_DENIED /\ s3 = s2 /\ ~ (granted /\ alive 0%nat)) env2 s2 /\
      wp (EphemeralPiiStoreOps.consume_once store reference cid' kind' purpose')
        (fun text s3 => text = value /\ granted /\ alive 0%nat /\
           db_pii_values s3 = delete (ep_id row) (db_pii_values s2) /\
           forall env3, wp (EphemeralPiiStoreOps.read_plaintext store reference cid' kind' purpose')
             (fun _ _ => False) (fun e s4 => e = ACCESS_DENIED /\ s4 = s3) env3 s3)
        (fun e s3 => e = ACCESS_DENIED /\ s3 = s2 /\ ~ (granted /\ alive 0%nat /\ alive 1%nat))
        env2 s2.
Proof.
  intros Hactive Httl Hst Hcon Hsup Hun.
  set (n := db_uuid_supply s) in *. set (ref := drawn_reference (N.succ (N.succ n))).
  set (now := env_statement_timestamp env (db_statement_clock s)).
  set (row := stored_row store active value cid kind purpose n ref now).
  assert (db_pii_values s !! uuid4_of n = None) as Hfresh
    by (apply minted_unused with s; [apply Hsup|done]).
  assert (wp (EphemeralPiiStoreOps.store_value store value cid kind purpose)
    (fun h s1 => h = MkEphemeralPiiHandle ref kind purpose /\
       db_pii_values s1 = <[ep_id row := row]> (db_pii_values s)) (fun _ _ => False) env s) as Hwp.
  { unfold EphemeralPiiStoreOps.store_value, require_plaintext. destruct Hst as [Hne Hlen].
    apply wp_bind, wp_assert; [intros _|by intros ->%negb_false_iff%String.eqb_eq].
    apply wp_bind, wp_pii_error_or, wp_session_scope, (wp_store_one store active Hactive Httl);
      [done..|]. by apply wp_ret. }
  unfold wp in Hwp. destruct (EphemeralPiiStoreOps.store_value _ _ _ _ _ env s) as [[h|e] s1];
    [|done]. destruct Hwp as [-> Hs1]. exists ref, row, s1. split_and!; [done..|].
  intros env2 s2 cid' kind' purpose' Hcon2 Hrow. cbv zeta. split.
  - eapply wp_mono; [apply (wp_read_stored store active Hactive value cid kind purpose n ref now
      env2 s2 Hcon2 Hrow)| |done]. intros text s3 (? & ? & ? & _). done.
  - eapply wp_mono; [apply (wp_consume_stored store active Hactive value cid kind purpose n ref now
      env2 s2 Hcon2 Hrow)| |done]. intros text s3 (? & (? & ? & ?) & ? & k & ->). split_and!; [done..|].
    intros env3. apply wp_read_unknown. intros id x Hx E.
    change (delete (uuid4_of n) (db_pii_values s2) !! id = Some x) in Hx.
    apply lookup_delete_Some in Hx as [Hne Hx].
    by destruct (digest_unique s2 _ _ _ _ Hcon2 Hrow Hx E).
Qed.

Lemma stored_value_read_back_witness :
  exists reference row,
    EphemeralPiiStoreOps.store_value (H := toy_crypto) pii_store "Anna" dialog_id PII_CLIENT_NAME
      BOOKING_PHONE_WRITE (at_second 11) delivered =
      (Returned (MkEphemeralPiiHandle reference PII_CLIENT_NAME BOOKING_PHONE_WRITE), name_stored) /\
    ep_expires_at row = 3611000000 /\
    wp (EphemeralPiiStoreOps.read_plaintext (H := toy_crypto) pii_store reference dialog_id
          PII_CLIENT_NAME BOOKING_PHONE_WRITE)
      (fun text _ => text = "Anna"%string) (fun _ _ => False) (at_second 12) name_stored.
Proof.
  destruct (stored_value_read_back (H := toy_crypto) (H0 := toy_crypto_laws) pii_store
    (MkActiveEphemeralPiiKey "K1" toy_key) "Anna" dialog_id PII_CLIENT_NAME BOOKING_PHONE_WRITE
    (at_second 11) delivered)
    as (reference & row & s1 & Hrun & Hs1 & Hfree & Hexp & Hread).
  - exact pii_environ_key.
  - vm_compute. discriminate.
  - split; [discriminate|]. vm_compute. lia.
  - apply (reachable_dialog_ok _ _ delivered_reachable).
  - apply (reachable_supply _ delivered_reachable).
  - intros id x Hx. rewrite (proj1 delivered_no_pii) in Hx. by destruct (lookup_empty_Some _ _ Hx).
  - assert (s1 = name_stored) as ->.
    { exact (name_stored_result _ _ Hrun). }
    exists reference, row. split; [exact Hrun|]. split; [exact Hexp|].
    assert (db_pii_values name_stored !! ep_id row = Some row) as Hrow
      by (rewrite Hs1; apply lookup_insert_eq).
    destruct (Hread (at_second 12) name_stored dialog_id PII_CLIENT_NAME BOOKING_PHONE_WRITE
      (proj1 (reachable_dialog_ok _ _ name_stored_reachable)) Hrow) as [Hr _].
    eapply wp_mono; [exact Hr| |].
    + intros text s3 [Htext _]. exact Htext.
    + intros e s3 (_ & _ & Hno). apply Hno. split; [split_and!; reflexivity|].
      rewrite Hexp. vm_compute. reflexivity.
Defined.
