(* ===== verification/AdmissionTheorems.v ===== *)
(** * Admission of personal data: theorems

    Admitting the same data twice under one request gives the same references;
    other data under that request is refused. *)

From S2P Require Import Prelude BookingText Encodings Models Database Statements SelfBooking.
From S2P Require Import BookingCreate EphemeralPii PiiAdmission Dialog Frames Progress.
From S2P Require Import EncodingProofs PiiProofs System Fresh Scenario SelfBookingScenario.
From S2P Require Import PiiTheorems.
Import SelfBookingPiiAdmissionService.

(** ** The MAC *)

(** The environment holds [key] under [key_id]. *)
Definition has_mac_key (environ : Environ) (key_id key : string) : Prop :=
  validate_mac_key_id key_id = Some key_id /\
  exists raw, environ !! ("PII_ADMISSION_MAC_KEY_" +:+ key_id) = Some raw /\
    decode_mac_key_material raw = Some key.

Lemma mac_key_id_token key_id :
  validate_mac_key_id key_id = Some key_id -> key_id <> ""%string /\ key_id_token key_id = true.
Proof.
  unfold validate_mac_key_id. destruct (String.eqb_spec key_id "") as [|Hne]; [done|].
  cbn [orb]. destruct (key_id_token key_id); done.
Qed.

Lemma wp_verify environ key_id key phone name message digest X env
    s (Q : bool -> Database -> Prop) :
  has_mac_key environ key_id key -> mac_message phone name = Some message ->
  String.length digest = CONTENT_MAC_BYTES ->
  Q (String.eqb (hmac_sha256 key message) digest) s ->
  wp (verify_booking_pii_admission_content_mac environ phone name digest key_id : Session bool)
    Q X env s.
Proof.
  intros [Hid (raw & Hraw & Hkey)] Hm Hd HQ. unfold verify_booking_pii_admission_content_mac.
  destruct (mac_key_id_token _ Hid) as [Hne _].
  rewrite Hd, Nat.eqb_refl, (proj2 (String.eqb_neq _ _) Hne), Hm. cbn [negb].
  apply wp_bind, wp_ret, wp_bind. unfold EnvPiiAdmissionMacKeyProvider.get_key. rewrite Hid.
  apply wp_bind, wp_ret. rewrite Hraw, Hkey. by apply wp_ret, wp_ret.
Qed.

(** ** The pair of references *)

(** [x] is stored under [id] for what [token] names, for writing [kind] of [cid]. *)
Definition stored_for (s : Database) (cid : uuid) (kind : EphemeralPiiKind) (token : string)
    (id : uuid) (x : EphemeralPiiValue) : Prop :=
  db_pii_values s !! id = Some x /\
  (exists reference, EphemeralPiiReferenceOps.parse token = Some reference /\
     ep_reference_digest x = EphemeralPiiReferenceOps.digest reference) /\
  bindings_match x cid kind BOOKING_PHONE_WRITE = true.

Lemma wp_select_stored_for s cid kind token id x reference X env k
    (Q : option EphemeralPiiValue -> Database -> Prop) :
  constraints_ok s -> stored_for s cid kind token id x ->
  EphemeralPiiReferenceOps.parse token = Some reference ->
  let s0 := s <| db_statement_clock := k |> in
  Q (if env_statement_timestamp env k <? ep_expires_at x then Some x else None)
    (s <| db_statement_clock := S k |>) ->
  wp (ephemeral_pii_repo.select_for_read (EphemeralPiiReferenceOps.digest reference)) Q X env s0.
Proof.
  intros Hcon (Hx & (r & Hr & Hd) & _) Hparse s0 HQ. assert (r = reference) as -> by congruence.
  apply wp_select_for_read.
  - intros id' x' Hx' [Hd'%String.eqb_eq Hl]%andb_true_iff.
    destruct (digest_unique s id x id' x' Hcon Hx Hx') as [-> ->]; [congruence|].
    cbn in Hl. by rewrite Hl in HQ.
  - intros Hno. specialize (Hno id x Hx). unfold live in Hno.
    rewrite Hd, String.eqb_refl in Hno. cbn in Hno. by rewrite Hno in HQ.
Qed.

Lemma wp_pair_alive_stored s cid phone_token name_token pid x nid y X env
    (Q : bool -> Database -> Prop) :
  constraints_ok s -> stored_for s cid PII_PHONE phone_token pid x ->
  stored_for s cid PII_CLIENT_NAME name_token nid y ->
  let k := db_statement_clock s in
  Q ((env_statement_timestamp env k <? ep_expires_at x) &&
     (env_statement_timestamp env (S k) <? ep_expires_at y))
    (s <| db_statement_clock := S (S k) |>) ->
  wp (EphemeralPiiStoreOps.booking_phone_write_pair_alive phone_token name_token cid) Q X env s.
Proof.
  intros Hcon Hx Hy k HQ. unfold EphemeralPiiStoreOps.booking_phone_write_pair_alive.
  pose proof Hx as (_ & (r1 & Hr1 & _) & Hb1). pose proof Hy as (_ & (r2 & Hr2 & _) & Hb2).
  rewrite Hr1, Hr2. apply wp_bind, wp_pii_error_or, wp_bind.
  replace s with (s <| db_statement_clock := k |>) at 1 by (by destruct s).
  apply (wp_select_stored_for s cid PII_PHONE phone_token pid x r1); [done..|].
  apply wp_bind, (wp_select_stored_for s cid PII_CLIENT_NAME name_token nid y r2); [done..|].
  apply wp_ret.
  destruct (_ <? ep_expires_at x), (_ <? ep_expires_at y); apply wp_ret; try exact HQ.
  by rewrite Hb1, Hb2.
Qed.

(** ** A replay *)

Definition CONFLICT : exn := Exn PiiAdmissionError "PII_ADMISSION_CONFLICT".
Definition EXPIRED : exn := Exn PiiAdmissionError "PII_ADMISSION_EXPIRED".

(** The answer to a request that was admitted as [a]. *)
Definition replayed (a : SelfBookingPiiAdmission) : PiiAdmissionResult :=
  MkPiiAdmissionResult (pa_conversation_id a) (pa_request_id a) (pa_phone_ref_token a)
    (pa_name_ref_token a) true.

Lemma admission_unique s a a' id id' :
  constraints_ok s -> db_pii_admissions s !! id = Some a -> db_pii_admissions s !! id' = Some a' ->
  pa_conversation_id a' = pa_conversation_id a -> pa_request_id a' = pa_request_id a -> a' = a.
Proof.
  intros Hcon Ha Ha' E1 E2. pose proof (constraints_table (R := SelfBookingPiiAdmission) s Hcon) as Ht.
  destruct (Ht id' a' Ha') as (_ & _ & _ & _ & Hu). destruct (Hu id a Ha) as [->|Hc]; [congruence|].
  cbn in Hc. rewrite E1, E2, bool_decide_eq_true_2, String.eqb_refl in Hc by done. done.
Qed.

Section Replay.
Context `{CryptoLib} (store : EphemeralPiiStore) (macs : Environ) (a : SelfBookingPiiAdmission).
Context (key : string) (Hkey : has_mac_key macs (pa_mac_key_id a) key).
Context (env : Env) (s : Database) (Hcon : constraints_ok s).
Context (id : uuid) (Ha : db_pii_admissions s !! id = Some a).
Context (pid : uuid) (x : EphemeralPiiValue).
Context (Hx : stored_for s (pa_conversation_id a) PII_PHONE (pa_phone_ref_token a) pid x).
Context (nid : uuid) (y : EphemeralPiiValue).
Context (Hy : stored_for s (pa_conversation_id a) PII_CLIENT_NAME (pa_name_ref_token a) nid y).

Lemma wp_admit_again phone name message mac key_id :
  mac_message phone name = Some message ->
  let now k := env_statement_timestamp env (k + db_statement_clock s)%nat in
  let alive := now 0%nat < ep_expires_at x /\ now 1%nat < ep_expires_at y in
  wp (admit_once store macs (pa_conversation_id a) (pa_request_id a) phone name mac key_id)
    (fun r s' => r = replayed a /\ hmac_sha256 key message = pa_content_mac a /\ alive /\
       exists k, s' = s <| db_statement_clock := k |>)
    (fun e s' => s' = s /\
       (e = CONFLICT /\ hmac_sha256 key message <> pa_content_mac a \/
        e = EXPIRED /\ hmac_sha256 key message = pa_content_mac a /\ ~ alive)) env s.
Proof.
  intros Hm now alive. unfold admit_once, admission_error_or_store_failed.
  apply wp_try, wp_session_scope. unfold admit_once_body.
  apply wp_bind. unfold admission_repo.get_by_request. apply wp_select_scalar.
  2: { intros Hno. specialize (Hno id a Ha).
    rewrite bool_decide_eq_true_2, String.eqb_refl in Hno by done. done. }
  intros id' a' Ha' [E1%bool_decide_eq_true E2%String.eqb_eq]%andb_true_iff.
  rewrite (admission_unique s a a' id id' Hcon Ha Ha' E1 E2). unfold replay_existing.
  pose proof (constraints_table (R := SelfBookingPiiAdmission) s Hcon) as Ht.
  destruct (Ht id a Ha) as (_ & _ & Hck & _). change (pii_admission_checks a = true) in Hck.
  unfold pii_admission_checks in Hck. rewrite !andb_true_iff, Nat.eqb_eq in Hck.
  apply wp_bind, wp_try. apply (wp_verify macs (pa_mac_key_id a) key phone name message);
    [done|done|apply Hck|].
  destruct (String.eqb_spec (hmac_sha256 key message) (pa_content_mac a)) as [E|Hne]; cbn [negb].
  2: { apply wp_raise. cbn. split; [done|]. by left. }
  apply wp_bind, (wp_pair_alive_stored s _ _ _ pid x nid y); [done..|].
  destruct (Z.ltb_spec (env_statement_timestamp env (db_statement_clock s)) (ep_expires_at x)) as [L1|L1],
    (Z.ltb_spec (env_statement_timestamp env (S (db_statement_clock s))) (ep_expires_at y)) as [L2|L2];
    cbn [andb negb].
  1: { apply wp_ret. split_and!; [done..|by eexists]. }
  all: apply wp_raise; cbn; split; [done|]; right; split_and!; [done..|]; subst alive now; cbn; lia.
Qed.
End Replay.

(** ** The first time *)

Section First.
Context `{CryptoLaws} (store : EphemeralPiiStore) (active : ActiveEphemeralPiiKey).
Context (Hactive : has_active_key (eps_environ store) active) (Httl : 1 <= eps_ttl_seconds store).
Context (macs : Environ) (cid : uuid) (request phone name mac key_id : string).
Context (env : Env) (s : Database) (Hcon : constraints_ok s) (Hsup : supply_ok s).
Context (Hphone : storable phone) (Hname : storable name).
Context (Hconv : is_Some (db_conversations s !! cid)).
Context (Hreq : printable_id 128 request = true) (Hmac : String.length mac = 32%nat).
Context (Hid : key_id_token key_id = true).
Context (Hnew : forall id a, db_pii_admissions s !! id = Some a ->
  pa_conversation_id a = cid -> pa_request_id a <> request).

Let n : N := db_uuid_supply s.
Let m : N := N.succ (N.succ (N.succ n)).
Let phone_ref : EphemeralPiiReference := drawn_reference (N.succ (N.succ n)).
Let name_ref : EphemeralPiiReference := drawn_reference (N.succ (N.succ m)).

Context (Hunused : unused_reference s (N.succ (N.succ n))).
Context (Hunused' : unused_reference s (N.succ (N.succ m))).
Context (Hdistinct : EphemeralPiiReferenceOps.digest phone_ref <>
                     EphemeralPiiReferenceOps.digest name_ref).

Let now k : instant := env_statement_timestamp env (k + db_statement_clock s)%nat.

Definition first_phone : EphemeralPiiValue :=
  stored_row store active phone cid PII_PHONE BOOKING_PHONE_WRITE n phone_ref (now 0).
Definition first_name : EphemeralPiiValue :=
  stored_row store active name cid PII_CLIENT_NAME BOOKING_PHONE_WRITE m name_ref (now 1).
Definition first_admission : SelfBookingPiiAdmission :=
  MkSelfBookingPiiAdmission (uuid4_of (N.succ (N.succ (N.succ m)))) cid request
    (EphemeralPiiReferenceOps.to_token phone_ref) (EphemeralPiiReferenceOps.to_token name_ref)
    mac key_id (now 2).

Let both : gmap uuid EphemeralPiiValue :=
  <[uuid4_of m := first_name]> (<[uuid4_of n := first_phone]> (db_pii_values s)).

Lemma token_length k : String.length (EphemeralPiiReferenceOps.to_token (drawn_reference k)) = 44%nat.
Proof.
  unfold EphemeralPiiReferenceOps.to_token. cbn [er_raw drawn_reference].
  destruct (urlsafe_b64encode_shape 10 (random_bytes k REFERENCE_RAW_BYTES)
    (random_bytes_length _ _)) as (digits & E & Hl & _).
  by rewrite E, string_length_app, Hl.
Qed.

(** The state once both texts are stored. *)
Let stored : Database :=
  s <| db_pii_values := both |> <| db_uuid_supply := N.succ (N.succ (N.succ m)) |>
    <| db_statement_clock := S (S (db_statement_clock s)) |>.

Lemma wp_store_pair X (Q : EphemeralPiiHandle * EphemeralPiiHandle -> Database -> Prop) :
  Q (MkEphemeralPiiHandle phone_ref PII_PHONE BOOKING_PHONE_WRITE,
     MkEphemeralPiiHandle name_ref PII_CLIENT_NAME BOOKING_PHONE_WRITE) stored ->
  wp (EphemeralPiiStoreOps.store_booking_phone_write_pair store phone name cid) Q X env s.
Proof.
  intros HQ.
  assert (forall k, (n <= k)%N -> db_pii_values s !! uuid4_of k = None) as Hfree
    by (intros k Hk; apply minted_unused with s; [apply Hsup|done]).
  unfold EphemeralPiiStoreOps.store_booking_phone_write_pair, require_plaintext.
  apply wp_bind, wp_assert; [intros _|by intros ->%negb_false_iff%String.eqb_eq; destruct Hphone].
  apply wp_bind, wp_assert; [intros _|by intros ->%negb_false_iff%String.eqb_eq; destruct Hname].
  apply wp_bind, wp_pii_error_or, wp_bind.
  apply (wp_store_one store active Hactive Httl); [done|by apply Hfree|done|]. fold n m.
  set (s1 := s <| db_pii_values := _ |> <| db_uuid_supply := _ |> <| db_statement_clock ::= S |>).
  apply wp_bind, (wp_store_one store active Hactive Httl); [done|..].
  - change (<[uuid4_of n := first_phone]> (db_pii_values s) !! uuid4_of m = None).
    rewrite lookup_insert_ne; [apply Hfree; lia|]. intros E%uuid4_of_inj. lia.
  - intros id x Hx. change (<[uuid4_of n := first_phone]> (db_pii_values s) !! id = Some x) in Hx.
    apply lookup_insert_Some in Hx as [[_ <-]|[_ Hx]]; [exact Hdistinct|by eapply Hunused'].
  - apply wp_ret, wp_ret. exact HQ.
Qed.

Lemma first_admission_ok : row_ok stored (pa_id first_admission) first_admission.
Proof.
  split; [done|]. split; [|split].
  - change (pii_admission_checks first_admission = true). unfold pii_admission_checks, first_admission.
    cbn [pa_request_id pa_phone_ref_token pa_name_ref_token pa_content_mac pa_mac_key_id].
    rewrite Hreq, Hid, Hmac. unfold char_length_between, phone_ref, name_ref.
    by rewrite !token_length.
  - change (exists_row (db_conversations s) cid = true). unfold exists_row. by destruct Hconv as [c ->].
  - intros id a Ha. right. change (db_pii_admissions s !! id = Some a) in Ha. cbn.
    destruct (bool_decide_reflect (cid = pa_conversation_id a)) as [E|]; [|done]. cbn.
    apply String.eqb_neq. intros E'. by apply (Hnew id a Ha).
Qed.

Lemma wp_admit_first :
  wp (admit_once store macs cid request phone name mac key_id)
    (fun r s' => r = MkPiiAdmissionResult cid request (pa_phone_ref_token first_admission)
         (pa_name_ref_token first_admission) false /\
       db_pii_admissions s' = <[pa_id first_admission := first_admission]> (db_pii_admissions s) /\
       db_pii_values s' = both)
    (fun _ _ => False) env s.
Proof.
  unfold admit_once, admission_error_or_store_failed. apply wp_try, wp_session_scope.
  unfold admit_once_body. apply wp_bind. unfold admission_repo.get_by_request.
  apply wp_select_scalar.
  { intros id a Ha [E1%bool_decide_eq_true E2%String.eqb_eq]%andb_true_iff. by destruct (Hnew id a Ha). }
  intros _. apply wp_bind, wp_store_pair, wp_bind, wp_uuid4. cbv zeta.
  apply wp_bind. unfold insert_if_absent. apply wp_bind, wp_db_statement_now. cbv zeta.
  apply wp_bind, wp_insert_with.
  - intros id a Ha Hc. exfalso. change (db_pii_admissions s !! id = Some a) in Ha.
    unfold admission_conflict in Hc. apply andb_true_iff in Hc as [E1%bool_decide_eq_true E2%String.eqb_eq].
    by apply (Hnew id a Ha).
  - intros _ _ _ _. apply wp_ret, wp_ret. done.
  - done.
  - intros E. destruct first_admission_ok as (_ & Hck & _). by destruct (eq_true_false_abs _ Hck E).
  - intros _ Hno. apply Hno. split; [|exact first_admission_ok].
    change (db_pii_admissions s !! uuid4_of (N.succ (N.succ (N.succ m))) = None).
    apply minted_unused with s; [apply Hsup|]. fold n. lia.
Qed.
End First.

(** ** Idempotence *)

(** The two references an admission draws are new and different. *)
Definition fresh_draws `{CryptoLib} (s : Database) : Prop :=
  let n := db_uuid_supply s in
  let m := N.succ (N.succ (N.succ n)) in
  unused_reference s (N.succ (N.succ n)) /\ unused_reference s (N.succ (N.succ m)) /\
  EphemeralPiiReferenceOps.digest (drawn_reference (N.succ (N.succ n))) <>
  EphemeralPiiReferenceOps.digest (drawn_reference (N.succ (N.succ m))).

(** The value kept under [reference] for [cid]. *)
Lemma stored_for_row `{CryptoLaws} store active value s cid kind n k created :
  let x := stored_row store active value cid kind BOOKING_PHONE_WRITE n (drawn_reference k) created in
  db_pii_values s !! ep_id x = Some x ->
  stored_for s cid kind (EphemeralPiiReferenceOps.to_token (drawn_reference k)) (ep_id x) x.
Proof.
  intros x Hx. split; [exact Hx|]. split.
  - exists (drawn_reference k). split; [|done]. apply parse_to_token, random_bytes_length.
  - by apply bindings_match_true.
Qed.

(** C22: a request of a dialog that was not admitted before is admitted: both texts
    are stored and one admission row names their references.  As long as these rows
    are kept, whatever else the database holds, the same request with data of the
    same content answers the very same references while both texts are alive, is
    refused as expired afterwards, and with data of another content it is refused
    as a conflict; a repetition never writes a row. *)
Theorem pii_admission_is_idempotent `{CryptoLaws} store active macs key cid request phone name
    message key_id env s :
  has_active_key (eps_environ store) active -> 1 <= eps_ttl_seconds store ->
  has_mac_key macs key_id key -> mac_message phone name = Some message ->
  constraints_ok s -> supply_ok s -> fresh_draws s -> is_Some (db_conversations s !! cid) ->
  printable_id 128 request = true -> storable phone -> storable name ->
  (forall id a, db_pii_admissions s !! id = Some a -> pa_conversation_id a = cid ->
     pa_request_id a <> request) ->
  exists a x y s1,
    admit_once store macs cid request phone name (hmac_sha256 key message) key_id env s =
      (Returned (MkPiiAdmissionResult cid request (pa_phone_ref_token a) (pa_name_ref_token a) false),
       s1) /\
    db_pii_admissions s1 = <[pa_id a := a]> (db_pii_admissions s) /\
    db_pii_values s1 = <[ep_id y := y]> (<[ep_id x := x]> (db_pii_values s)) /\
    ep_id y <> ep_id x /\
    forall env2 s2 phone' name' message' mac' key_id',
      constraints_ok s2 -> db_pii_admissions s2 !! pa_id a = Some a ->
      db_pii_values s2 !! ep_id x = Some x -> db_pii_values s2 !! ep_id y = Some y ->
      mac_message phone' name' = Some message' ->
      let same_content := hmac_sha256 key message' = hmac_sha256 key message in
      let now k := env_statement_timestamp env2 (k + db_statement_clock s2)%nat in
      let alive := now 0%nat < ep_expires_at x /\ now 1%nat < ep_expires_at y in
      wp (admit_once store macs cid request phone' name' mac' key_id')
        (fun r s3 => same_content /\ alive /\
           r = MkPiiAdmissionResult cid request (pa_phone_ref_token a) (pa_name_ref_token a) true /\
           exists k, s3 = s2 <| db_statement_clock := k |>)
        (fun e s3 => s3 = s2 /\
           (e = CONFLICT /\ ~ same_content \/ e = EXPIRED /\ same_content /\ ~ alive)) env2 s2.
Proof.
  intros Hactive Httl Hkey Hm Hcon Hsup (Hu & Hu' & Hdist) Hconv Hreq Hphone Hname Hnew.
  destruct (mac_key_id_token _ (proj1 Hkey)) as [_ Hid].
  pose proof (wp_admit_first store active Hactive Httl macs cid request phone name
    (hmac_sha256 key message) key_id env s Hsup Hphone Hname Hconv Hreq
    (hmac_sha256_length _ _) Hid Hnew Hu Hu' Hdist) as Hwp.
  set (a := first_admission _ _ _ _ _ _) in Hwp. unfold wp in Hwp.
  destruct (admit_once store macs cid request phone name _ key_id env s) as [[r|e] s1]; [|done].
  destruct Hwp as (-> & Hs1 & Hv1).
  exists a, (first_phone store active cid phone env s), (first_name store active cid name env s), s1.
  split; [reflexivity|]. split; [exact Hs1|]. split; [exact Hv1|].
  split; [intros E%uuid4_of_inj; lia|]. intros env2 s2 phone' name' message' mac' key_id' Hcon2 Ha Hx Hy Hm'. cbv zeta.
  eapply wp_mono; [apply (wp_admit_again store macs a key Hkey env2 s2 Hcon2 (pa_id a) Ha
    (ep_id (first_phone store active cid phone env s)) (first_phone store active cid phone env s)
    (stored_for_row store active _ _ _ _ _ _ _ Hx)
    (ep_id (first_name store active cid name env s)) (first_name store active cid name env s)
    (stored_for_row store active _ _ _ _ _ _ _ Hy) phone' name' message' mac' key_id' Hm')| |].
  - intros r s3 (-> & Hsame & Halive & Hs3). split; [exact Hsame|]. split; [exact Halive|].
    split; [reflexivity|exact Hs3].
  - intros e s3 [-> [[-> Hne]|(-> & Hsame & Hdead)]]; (split; [done|]); [by left|by right].
Qed.

Lemma mac_environ_key : has_mac_key mac_environ "M1" toy_key.
Proof. split; [done|]. eexists. split; vm_compute; reflexivity. Qed.

Lemma delivered_draws_fresh : fresh_draws (H := toy_crypto) delivered.
Proof.
  assert (forall n, unused_reference (H := toy_crypto) delivered n) as Hun.
  { intros n id x Hx. rewrite (proj1 delivered_no_pii) in Hx. by destruct (lookup_empty_Some _ _ Hx). }
  split; [apply Hun|]. split; [apply Hun|]. vm_compute. discriminate.
Qed.

Lemma pii_admission_is_idempotent_witness :
  exists a,
    admit_once (H := toy_crypto) pii_store mac_environ dialog_id admit_request "+79991234567" "Anna"
      (hmac_sha256 toy_key admit_message) "M1" (at_second 11) delivered =
      (Returned (MkPiiAdmissionResult dialog_id admit_request (pa_phone_ref_token a)
         (pa_name_ref_token a) false), pii_admitted) /\
    wp (admit_once (H := toy_crypto) pii_store mac_environ dialog_id admit_request "+79991234567"
          "Anna" "" "")
      (fun r _ => par_phone_ref_token r = pa_phone_ref_token a /\ par_reused r = true)
      (fun e s3 => s3 = pii_admitted /\ e = EXPIRED) (at_second 12) pii_admitted.
Proof.
  destruct (pii_admission_is_idempotent (H := toy_crypto) (H0 := toy_crypto_laws) pii_store
    (MkActiveEphemeralPiiKey "K1" toy_key) mac_environ toy_key dialog_id admit_request
    "+79991234567" "Anna" admit_message "M1" (at_second 11) delivered)
    as (a & x & y & s1 & Hrun & Hs1 & Hv1 & Hne & Hagain).
  - exact pii_environ_key.
  - vm_compute. discriminate.
  - exact mac_environ_key.
  - vm_compute. reflexivity.
  - apply (reachable_dialog_ok _ _ delivered_reachable).
  - apply (reachable_supply _ delivered_reachable).
  - exact delivered_draws_fresh.
  - vm_compute. by eexists.
  - vm_compute. reflexivity.
  - split; [discriminate|]. vm_compute. lia.
  - split; [discriminate|]. vm_compute. lia.
  - intros id b Hb. rewrite (proj2 delivered_no_pii) in Hb. by destruct (lookup_empty_Some _ _ Hb).
  - assert (s1 = pii_admitted) as -> by exact (pii_admitted_result _ _ Hrun).
    exists a. split; [exact Hrun|].
    pose proof (proj1 (reachable_dialog_ok _ _ pii_admitted_reachable)) as Hcon.
    eapply wp_mono; [apply (Hagain (at_second 12) pii_admitted "+79991234567"%string "Anna"%string
      admit_message ""%string ""%string Hcon)| |].
    + rewrite Hs1. apply lookup_insert_eq.
    + rewrite Hv1, lookup_insert_ne; [apply lookup_insert_eq|exact Hne].
    + rewrite Hv1. apply lookup_insert_eq.
    + vm_compute. reflexivity.
    + intros r s3 (_ & _ & -> & _). split; reflexivity.
    + intros e s3 [-> [[_ Hno]|[-> _]]]; [by destruct Hno|]. split; reflexivity.
Defined.
