(* ===== verification/SelfBookingTheorems.v ===== *)
(** * Self-bookings: theorems

    What one execution of a confirmed command does, what is sent for a command in
    the whole of a run, and what becomes of a command whose attempts are used up. *)

From S2P Require Import Prelude BookingText Encodings Models Database Statements Conversations.
From S2P Require Import SelfBooking EphemeralPii BookingCreate PiiAdmission SelfBookingExecution.
From S2P Require Import ReplyDispatch Dialog Frames PiiProofs SelfBookingProofs System Commands.
From S2P Require Import Scenario SelfBookingScenario.
Import SelfBookingCreatePendingService SelfBookingConfirmAdmissionService.

(** ** Runs in which the worker executes what it found *)

(** The identifiers the worker's query returned so far, before and after. *)
Inductive attended : System -> list uuid -> System -> list uuid -> Prop :=
  | attended_nothing x found : attended x found x found
  | attended_transact x y found z found' :
      transact x y -> attended y found z found' -> attended x found z found'
  | attended_find r s s' claims found z found' :
      runs SelfBookingCreateExecutionWorker.find_claimable r s s' ->
      attended (MkSystem s' claims)
        match r with Returned (Some pid) => pid :: found | _ => found end z found' ->
      attended (MkSystem s claims) found z found'
  | attended_execute pid r calls s s' claims found z found' :
      pid ∈ found -> executes pid r calls s s' ->
      attended (MkSystem s' claims) found z found' ->
      attended (MkSystem s claims) found z found'.

(** A command that waits to be executed and may not be. *)
Definition used_up (p : SelfBookingCreatePending) : Prop :=
  sb_state p = SB_READY /\ sb_max_attempts p <= sb_attempt_count p.

Lemma used_up_not_claimable p now : used_up p -> pending_repo.claimable now p = false.
Proof.
  intros [_ Hmax]. unfold pending_repo.claimable. by rewrite (proj2 (Z.ltb_ge _ _) Hmax).
Qed.

(** The query finds claimable commands only. *)
Lemma find_claimable_finds r s s' pid p :
  constraints_ok s -> runs SelfBookingCreateExecutionWorker.find_claimable r s s' ->
  db_create_pendings s !! pid = Some p -> used_up p ->
  r <> Returned (Some pid) /\ db_create_pendings s' = db_create_pendings s.
Proof.
  intros Hcon [env Hrun] Hp Hup.
  assert (wp (session_scope SelfBookingCreateExecutionWorker.find_claimable)
    (fun found s' => found <> Some pid /\ db_create_pendings s' = db_create_pendings s)
    (fun _ s' => s' = s) env s) as Hwp.
  { apply wp_session_scope. unfold SelfBookingCreateExecutionWorker.find_claimable.
    apply wp_bind, wp_db_statement_now. cbv zeta. unfold pending_repo.lock_next_claimable_id.
    apply wp_bind, wp_get_env, wp_bind, wp_select_where, wp_ret. split; [|done].
    intros (q & Hq & Hid)%fmap_Some. apply pick_min_elem, list_elem_of_filter in Hq as [Hg Hq].
    apply rows_elem in Hq as [k Hq]. change (db_create_pendings s !! k = Some q) in Hq.
    pose proof (constraints_keys_ok (R := SelfBookingCreatePending) s Hcon) as Hk.
    pose proof (Hk _ _ Hq : sb_id q = k) as E. rewrite <- Hid in E. subst k.
    assert (q = p) as -> by congruence. by rewrite used_up_not_claimable in Hg. }
  unfold wp in Hwp. rewrite Hrun in Hwp. destruct r as [found|e]; [|by subst].
  destruct Hwp as [Hne E]. split; [congruence|done].
Qed.

(** ** A dialog with an active command *)

Section Blocked.
Context (cid : uuid).

Definition blocked (s : Database) : Prop :=
  exists pid p, db_create_pendings s !! pid = Some p /\ sb_conversation_id p = cid /\
    self_booking_active (sb_state p) = true.

Lemma blocked_grow s s' : commands_grow s s' -> blocked s -> blocked s'.
Proof.
  intros [Hk _] (pid & p & Hp & H). exists pid, p. split; [|done].
  exact (lookup_weaken _ _ _ _ Hp Hk).
Qed.

Lemma wp_blocked_bind {A B} (m : Session A) (k : A -> Session B) Q env s :
  respects commands_grow m -> blocked s ->
  (forall a s', blocked s' -> wp (k a) Q (fun _ _ => True) env s') ->
  wp (m ≫= k) Q (fun _ _ => True) env s.
Proof.
  intros Hm Hs Hk. apply wp_bind. eapply wp_mono; [exact (respects_wp _ _ env s Hm)| |done].
  intros a s' Hg. apply Hk. exact (blocked_grow _ _ Hg Hs).
Qed.

Lemma blocked_admit_confirmed ch ext slot starts cv me hwm consent offer phone name key max env s :
  blocked s ->
  wp (admit_confirmed cid ch ext slot starts cv me hwm consent offer phone name key max)
    (fun r _ => sar_outcome r <> ADMIT_ADMITTED) (fun _ _ => True) env s.
Proof.
  intros Hs. unfold admit_confirmed. apply wp_if; intros _; [by apply wp_ret|].
  apply wp_blocked_bind; [solve_respects|done|]. intros [existing|] s1 Hs1; [by apply wp_ret|].
  apply wp_blocked_bind; [solve_respects|done|]. intros [c|] s2 Hs2; [|by apply wp_ret].
  apply wp_if; intros _; [by apply wp_ret|]. apply wp_if; intros _; [by apply wp_ret|].
  destruct Hs2 as (pid & p & Hp & Hc & Hact). unfold pending_repo.lock_active_by_conversation.
  apply wp_bind, wp_bind, wp_select_where, wp_ret.
  destruct (filter _ _) as [|q l] eqn:Hf; [|by apply wp_ret]. exfalso.
  assert (p ∈ ([] : list SelfBookingCreatePending)) as Hin; [|by apply not_elem_of_nil in Hin].
  rewrite <- Hf. apply list_elem_of_filter. rewrite bool_decide_eq_true_2 by done. split; [done|].
  apply rows_elem. by exists pid.
Qed.

Lemma blocked_admit_from_confirm ch ext action cv me hwm env s :
  blocked s ->
  wp (admit_from_confirm cid ch ext action cv me hwm)
    (fun r _ => car_outcome r <> CONFIRM_ADMITTED) (fun _ _ => True) env s.
Proof.
  intros Hs. unfold admit_from_confirm. apply wp_if; intros _; [by apply wp_ret|].
  apply wp_blocked_bind; [solve_respects|done|].
  intros [[starts ?]|] s1 Hs1; [|by apply wp_ret]. apply wp_if; intros _; [by apply wp_ret|].
  apply wp_blocked_bind; [solve_respects|done|]. intros [admission|] s2 Hs2; [|by apply wp_ret].
  apply wp_blocked_bind; [solve_respects|done|]. intros [[]|] s3 Hs3; [|by apply wp_ret..].
  apply wp_blocked_bind; [solve_respects|done|]. intros [existing|] s4 Hs4; [by apply wp_ret|].
  apply wp_blocked_bind; [solve_respects|done|]. intros key s5 Hs5.
  apply wp_bind. eapply wp_mono; [eapply blocked_admit_confirmed; exact Hs5| |done].
  intros r s6 Hr. cbv beta in Hr. apply wp_ret. unfold confirm_result.
  by destruct (sar_outcome r).
Qed.
End Blocked.

(** ** Theorems *)




Lemma attended_used_up x found y found' pid p :
  attended x found y found' -> system_ok x -> db_create_pendings (sys_db x) !! pid = Some p ->
  used_up p -> pid ∉ found ->
  system_ok y /\ db_create_pendings (sys_db y) !! pid = Some p /\ pid ∉ found'.
Proof.
  induction 1 as [x found|x y found z found' Hxy _ IH|r s s' claims found z found' Hrun _ IH
                 |eid r calls s s' claims found z found' Hin He _ IH]; intros Hok Hp Hup Hno; [done|..].
  - apply IH; [by apply (step_ok x y (transact_step _ _ Hxy))| |done..].
    exact (lookup_weaken _ _ _ _ Hp (proj1 (transact_commands _ _ Hxy))).
  - pose proof (proj1 (proj1 Hok)) as Hcon.
    destruct (find_claimable_finds r s s' pid p Hcon Hrun Hp Hup) as [Hne E].
    apply IH; [|cbn in *; congruence|done|].
    + apply (step_ok (MkSystem s claims) (MkSystem s' claims)); [|done].
      eapply step_service; [apply service_find_command|exact Hrun].
    + destruct r as [[q|]|]; [|done..]. apply not_elem_of_cons. split; [|done]. congruence.
  - pose proof (proj1 (proj1 Hok)) as Hcon. assert (eid <> pid) as Hne by (intros ->; done).
    apply IH; [by apply (step_ok _ _ (step_execute eid r calls s s' claims He))| |done..].
    cbn in *. by rewrite (proj1 (executes_commands _ _ _ _ _ Hcon He)).
Qed.

(** C23: a command that is ready with its attempts used up stays so for good: however
    the system runs, as long as the worker executes only what its query found, the
    query never finds it, so nothing expires it; and no confirmation in its dialog
    is admitted any more. *)
Theorem exhausted_command_is_stuck x found y found' pid p :
  reachable x -> db_create_pendings (sys_db x) !! pid = Some p -> used_up p -> pid ∉ found ->
  attended x found y found' ->
  db_create_pendings (sys_db y) !! pid = Some p /\ pid ∉ found' /\
  forall ch ext action cv me hwm env,
    wp (admit_from_confirm (sb_conversation_id p) ch ext action cv me hwm)
      (fun r _ => car_outcome r <> CONFIRM_ADMITTED) (fun _ _ => True) env (sys_db y).
Proof.
  intros Hx Hp Hup Hno Hrun.
  destruct (attended_used_up _ _ _ _ _ _ Hrun (reachable_ok _ Hx) Hp Hup Hno) as (_ & Hp' & Hno').
  split_and!; [done..|]. intros. apply blocked_admit_from_confirm. exists pid, p.
  split_and!; [done..|]. destruct Hup as [-> _]. done.
Qed.

(** ** Witnesses *)



Lemma exhausted_command_is_stuck_witness :
  exists p, db_create_pendings retried_out !! command_id = Some p /\ used_up p /\
    command_id ∉ ([] : list uuid) /\
    wp (admit_from_confirm (sb_conversation_id p) "synthetic" "message-9"
          (MkSyntheticConfirmSelectedSlotAction (aos_slot_id offered_slot) admit_request true true)
          2 0 2)
      (fun r _ => car_outcome r <> CONFIRM_ADMITTED) (fun _ _ => True) (at_second 16) retried_out.
Proof.
  destruct command_row_retried_out as (p & Hp & Hup). exists p. split; [exact Hp|].
  destruct (exhausted_command_is_stuck (MkSystem retried_out [plan_claim]) []
    (MkSystem retried_out [plan_claim]) [] command_id p retried_out_reachable Hp Hup
    (not_elem_of_nil _) (attended_nothing _ _)) as (_ & Hno & Hadmit).
  split; [exact Hup|]. split; [exact Hno|]. apply Hadmit.
Defined.
